(* ===== verification/_CoqProject ===== *)
-Q . S2P
Prelude.v
Fairness.v
GoStrings.v
GoPath.v
GoStrconv.v
GoQuote.v
GoFlags.v
GoHash.v
Api.v
Errors.v
Xds.v
ResourceName.v
Interceptors.v
Routes.v
Routing.v
Resolver.v
K8s.v
Listers.v
ListenerHandler.v
ClusterHandler.v
EndpointHandler.v
Coherence.v
EndToEnd.v
Watches.v
Notify.v
ConfigWatcher.v
WatchSystem.v
WatchProperties.v
Settling.v
KubeWorld.v
KubeRuns.v
ClientView.v
CatchUp.v
Queue.v
Lifecycle.v
Bootstrap.v
ErrorText.v
Heap.v
Deepcopy.v
Informers.v
Builder.v
Json.v
SchemaParser.v
ApplyConfig.v
ApplyJson.v
ApplyDecode.v
Clientset.v
FakeClientset.v
ClientConfig.v
GtcInformers.v
Server.v
EchoServer.v
EchoProto.v
Examples.v
TestAssert.v
TestCluster.v
Commands.v
CommandLine.v
TestStart.v
