(* ===== verification/Prelude.v ===== *)
(** * A verification of the gRPC traffic controller

    ** The program

    The controller serves xDS configuration to gRPC clients from Kubernetes
    objects. A [GRPCListener] describes routes and backends, endpoint slices
    list the addresses behind a service. A client opens a stream and asks for a
    listener; the answer names clusters, which it asks for next, and then for
    the load assignments of these clusters. Each answer is resolved from the
    caches of the informers. When an object changes, an event handler notifies
    the resources that depend on it, and every watch on such a resource resolves
    it again and sends the result.

    ** The files

    Foundations:
    - [Prelude] (this file): outcomes of Go calls, loops with early return,
      machine integers, shared lemmas, tactics and hint databases;
    - [Fairness]: infinite runs of a step function, weak fairness and the
      termination argument of the liveness theorem;
    - [GoStrings], [GoPath], [GoStrconv], [GoQuote], [GoFlags], [GoHash]: the
      parts of the standard library the program uses: [strings], UTF-8, [path],
      [strconv], the verb [%q], [flag], [crypto/sha256] and [encoding/base64];
    - [Api]: the types of [api/gtc/v1alpha1]; [Errors]: the errors;
      [ErrorText]: what they say;
    - [Xds]: the protobuf messages the controller builds, the libraries that
      marshal them as the class [XdsLibrary], and [gtc/xds.go].

    Translation of a listener to xDS resources:
    - [ResourceName]: [gtc/resource.go] and the names of [gtc/listener.go];
    - [Interceptors]: [gtc/interceptor.go]; [Routes]: [gtc/route.go]; [Routing]:
      what the API documents about a call and what an xDS client does with it;
    - [Resolver]: [gtc/resolver.go], with the specification [resolve_each] that
      each handler refines, name by name;
    - [K8s]: endpoint slices and the interfaces of the listers; [Listers]:
      [client/listers];
    - [ListenerHandler], [ClusterHandler], [EndpointHandler]: [gtc/listener.go],
      [gtc/cluster.go], [gtc/endpoint.go];
    - [Coherence]: the three handlers together; [EndToEnd]: from a call to the
      addresses of endpoints.

    Watches and changes:
    - [Watches]: the registry of [gtc/watcher.go]; each block that runs under a
      mutex is a definition of its own;
    - [Notify]: the event handlers of [gtc/notify.go];
    - [ConfigWatcher]: the pure parts of [gtc/cache.go];
    - [WatchSystem]: the watch goroutine of [gtc/cache.go], the notifications
      and the deliveries as an interleaving system; the resolver, the store and
      the handlers are the class [World];
    - [WatchProperties]: what holds in every run of it; [Settling]: that it
      comes to rest;
    - [KubeWorld]: the instance of [World] with the resolver and the handlers of
      the program over a store of objects; [KubeRuns]: runs of it;
    - [ClientView]: what a client holds after the responses it has received;
      [CatchUp]: that clients catch up once the store stays as it is.

    The process:
    - [Queue]: the queue and the workers of [pkg/controllersupport/handler.go];
    - [Server]: [main] of [cmd/controller] until its goroutines run,
      [NewXDSServer] of [gtc/server.go] with what its parts share, the
      discovery service and the callbacks of [gtc/logger.go];
    - [Lifecycle]: the goroutines of [main], [XDSServer.Run],
      [QueuedEventHandler.Run] and [runWebserver], from start to exit, as an
      interleaving system;
    - [Bootstrap]: [bootstrap] and the configuration of [cmd/bootstrapgen];
      [Commands]: the file it writes; [CommandLine]: the flags of both commands.

    Generated code:
    - [Informers]: [client/informers/externalversions/factory.go];
      [GtcInformers]: the accessors below it and the informer of listeners;
    - [Json]: JSON values and [encoding/json] on structs; [ApplyConfig]: the
      records and builders of [client/applyconfiguration]; [ApplyJson]: their
      encodings; [ApplyDecode]: decoders by the tags of the API types;
      [SchemaParser]: [client/applyconfiguration/internal];
    - [Clientset]: the typed client and the fake client of
      [client/clientset]; [FakeClientset]: the fake clientset with its reactors
      and watches; [ClientConfig]: the constructors of the clients, the scheme
      and [ForKind];
    - [Heap], [Deepcopy]: a heap of Go values, and the generated
      [zz_generated.deepcopy.go] over it.

    The tests' own code and the examples:
    - [Builder]: [pkg/testruntime/builder.go];
    - [EchoServer]: [pkg/echoserver], its stubs and the behaviours of
      [pkg/testruntime/backend.go]; [EchoProto]: the generated messages and
      tables of [echo.pb.go];
    - [TestAssert]: [assert.go]; [TestCluster]: the backends and [k8s.go], over
      [EndpointHandler]; [TestStart]: how a test gets going;
    - [Examples]: the client and the server of [example/cmd].

    ** How the code is modelled

    A Go function is a Rocq function of the same name; a method [m] of [T] is
    [T_m]. A call that may fail returns an [outcome]: [Ok], [Err] for a non-nil
    error, [Panic] for a panic. A pointer that is only read is an [option],
    dereferenced with [deref]; shared mutable objects are kept in explicit heaps
    ([Watches], [Heap]). A slice is a list, indexed with [go_index], which
    panics out of range; a map is a [gmap]. Integers are [Z], with the
    conversions that wrap written out. Code outside the repository is a class of
    parameters with the laws the proofs use ([XdsLibrary], [UnicodeTables],
    [Indexer], [EndpointSliceLister], [MetaAccessor], [WorkQueue], [Host],
    [MetaCopy], [ErrGroup], [GrpcServer], [StreamHandler], [KubeInformers],
    [RestClient], [FakeClient], [RestLib], [SchemeLib], [MetaJson],
    [FakeLib], [ObjectTracker], [Connection], [Dialer], [Network], [Tracker],
    [PrintTables], [LibraryTexts], [ClientLibrary], [ProtoImpl]), and so are the
    xDS client and the names its responses carry ([XdsClient],
    [ResourceNames]); each class of laws has an instance,
    which the witnesses use. Log calls are left out, but for the callbacks
    whose only work they are.

    In [WatchSystem] a step is a block under one mutex, a channel operation or
    the end of a resolution, and any order of steps of any goroutines is a run.
    A resolution is not atomic: each of its reads, the listener of a name or the
    slices of a service, sees the store as it is now or as it was at some time
    since the resolution began ([mix], [window]); only the reads of one service
    for two localities of one backend see the same state. The handler of an
    event runs at once, and the calls of [notifyChanged] it makes then run
    concurrently, which allows more orders than the program has. The change of
    the store and the queueing of its event are one step: an event counts as
    queued from the moment the store has changed; [create_watch] is [CreateWatch] with the [buildWatch] it
    starts with, before its goroutine runs. The informers' lists have a fixed
    order here, where client-go gives no order. A panic ends the process.

    In [Lifecycle] a step is a blocking call that returns, and the outside may
    send a signal, fail a socket, open and leave streams at any time ([Serve]
    called after [GracefulStop], which gRPC answers with an error, is such a
    failure); a run is
    fair when no goroutine that can step waits for ever. In [EchoServer] a step
    is a lock operation or an access to a variable that calls share. In
    [Clientset] a request is what the fluent calls of the source have put
    together when [Do] is called. In [Examples] the client is an interaction
    tree of the ITree library, and a world answers its events.

    ** What the theorems show

    - The resources fit together ([resources_coherent]): what the listener
      resource refers to is what the cluster handler defines, under the same
      names, and what the endpoint handler defines whenever the services of the
      backend are found; names are printed and parsed without loss and without
      clashes ([backendName_roundtrip]).
    - A request for load assignments is answered exactly when everything it
      names is found, with the ready addresses ([endpointHandler_serves]); the
      endpoints of a service are complete ([makeServiceEndpoints_complete]) and
      split by zone as documented, those of localities keep their weights and
      priorities ([makeLocalitiesLoadAssignment_spec]); the route configuration
      exists exactly for well-formed routes, with the weights and filters of the
      listener.
    - Which route a client picks for a call ([client_picks_route]): the first
      effective one, where service and namespace matchers cover every service
      whose full name begins like them, and only the first test of a metadata
      matcher counts. It is the one that the API documents when the routes have
      one reading and the services have names apart from each other. From there
      the client reaches the ready endpoints of the backends of the route
      ([call_reaches_ready_endpoints]).
    - The registry is a publish/subscribe table, sequentially
      ([registry_refines_pubsub]) and in every interleaving
      ([subscriptions_follow_watch], [one_object_per_resource],
      [deliveries_requested]).
    - No update is lost while a watch is open that was asked for a new name
      ([no_lost_update]), for canonical names and for all changes of listeners
      that name their services and of slices that stay with their service; the
      handlers notify exactly the resources that depend on the changed object.
      A client of such a watch, for which nothing is pending, holds what the
      store gives ([client_holds_current]), for load assignments and for single
      names, unless its first resolution failed because of another name. Once
      the store stays as it is, and as long as the resolver does not panic on
      what the open watches ask for, the goroutines run finitely long in every
      schedule, by a lexicographic measure, and stop where nothing is pending
      ([goroutines_settle]), so that every such client catches up
      ([clients_catch_up]). Each of these conditions is needed: see what goes
      wrong, below.
    - A cancelled watch whose requests do not panic ends
      ([cancelled_watch_exits]), a worker drains its
      queue ([runWorker_drains]), informers are started once
      ([informers_started_once]), deep copies share nothing
      ([deepcopy_shares_nothing]).
    - The process is put together in the right order
      ([main_starts_informers_last], [NewXDSServer_wiring],
      [factory_shares_one_informer]), it exits after a signal in every fair run
      ([shutdown_on_signal]) and for the reasons it reports ([exit_reasons]);
      the interleaved worker is the sequential one
      ([worker_refines_processItem]). Command lines mean what they say
      ([command_lines]), and errors tell what was wrong
      ([rejected_input_is_reported]).
    - The watches of the fake client miss nothing while their channels have
      room ([list_then_watch_complete]); the body of an apply request says what
      the configuration says ([apply_body_means]), and is sent under the name
      it was given ([apply_of_built_configuration]); clients and
      schemes are set up as the API group needs ([NewForConfig_clients],
      [NewForConfig_errors], [init_scheme_registers], [schema_parsed_once]), and
      [ForKind] knows the configurations of the types that the API uses
      ([ForKind_types]); the generated tables are those of [echo.proto]
      ([generated_code_fits_proto], [reset_reflects_own_type]).
    - The code of the tests means what it says: the fixtures reach the backends
      ([fixture_reaches_backends], [start_then_stop]), a fake cluster starts
      with a server ([fake_cluster_needs_server]), the assertions check what
      they name ([one_backend_got_all_calls], [aggregated_value_partial],
      [CallNParallel_like_CallN]), and changing a behaviour never overlaps a
      call ([swap_never_overlaps_call], [backend_never_deadlocks]). The examples
      call at their pace and understand each other ([client_paces_calls],
      [example_session]).
    - What goes wrong: a request for a negative route ends the process
      ([clusterHandler_negative_route], [one_request_crashes_controller]), a
      change between two watches of a client is lost ([rewatch_loses_update]),
      clients drop clusters when a listener changes ([clusters_lost_on_update]),
      a name that cannot be resolved withholds the other names of a request
      ([unknown_name_withholds_others]),
      a locality without a service panics ([locality_without_service_panics]),
      a failed web server waits for open streams ([failure_waits_for_streams])
      and requests in progress are dropped at the exit ([exit_drops_requests]),
      [Apply] dereferences missing metadata ([apply_of_built_configuration]),
      the sequence behaviour is not safe for concurrent calls
      ([sequence_race_panics]), a failed start leaks backends
      ([failed_start_leaks]), and places where the code departs from its
      documentation ([queue_run_leaves_workers], [empty_zone_is_written],
      [makeFaultFilter_ignores_headers], [service_matcher_prefix],
      [matchesService_other_namespace], [update_sends_one_resource],
      [second_test_ignored], [server_logs_default_address]).

    ** Bounds and fuel

    [runWorker] takes the number of items as fuel; [runWorker_drains] gives it
    one more than the queue holds. Decoding UTF-8 takes the number of bytes as
    fuel, and each step consumes at least one; so do quoting a string and
    reading the fields of a protobuf message. A run of the example client takes
    its steps as fuel, and the theorems say how many are enough. SHA-256 takes the number of words
    as fuel, and each block consumes sixteen. The search of an orbit in
    [strings_EqualFold] takes the length of the longest orbit of Unicode. All
    other recursion is structural; loops of goroutines are steps, and their
    ends are theorems on runs ([shutdown_on_signal], [cancelled_watch_exits],
    [goroutines_settle], [uninterrupted_call]).

    ** What is not modelled

    Log output, but for the examples and the callbacks of the server; the
    interface types that have no behaviour of their own, the empty expansion
    interfaces and [NoopCacheLogger]; the parsing of durations, floats and the
    YAML of the schema, which are parameters; the registration of the scheme in
    [fake/register.go], which repeats [scheme/register.go]; and the scripts of
    the end-to-end tests, whose fixtures, backends and assertions are modelled.
    Delta watches are refused by the controller, which is modelled as such. *)

From stdpp Require Export base tactics list gmap strings.

(** ** Outcomes of Go calls

    A Go call either returns normally, returns a non-nil [error], or panics.
    The three cases are kept apart: an [Err] is handled by the caller, a
    [Panic] unwinds the goroutine. *)

Inductive panic_reason :=
  | NilDereference
  | IndexOutOfRange (idx : Z) (len : nat)
  | PanicValue (what : string).

Inductive outcome (E A : Type) :=
  | Ok (a : A)
  | Err (e : E)
  | Panic (p : panic_reason).

Arguments Ok {E A} _.
Arguments Err {E A} _.
Arguments Panic {E A} _.

Global Instance panic_reason_eq_dec : EqDecision panic_reason.
Proof. solve_decision. Defined.

Global Instance outcome_eq_dec {E A} `{EqDecision E, EqDecision A} :
  EqDecision (outcome E A).
Proof. solve_decision. Defined.

Global Instance outcome_ret {E} : MRet (outcome E) := fun A a => Ok a.

Global Instance outcome_bind {E} : MBind (outcome E) := fun A B f m =>
  match m with
  | Ok a => f a
  | Err e => Err e
  | Panic p => Panic p
  end.

Global Instance outcome_fmap {E} : FMap (outcome E) := fun A B f m =>
  match m with
  | Ok a => Ok (f a)
  | Err e => Err e
  | Panic p => Panic p
  end.

(** The call did not panic. *)
Definition no_panic {E A} (m : outcome E A) : Prop :=
  match m with Panic _ => False | _ => True end.

Definition is_ok {E A} (m : outcome E A) : bool :=
  match m with Ok _ => true | _ => false end.

(** The value a call returned, if it returned one; two outcomes are equivalent
    when they return the same value or none of them returns any. *)
Definition ok_result {E A} (m : outcome E A) : option A :=
  match m with Ok a => Some a | _ => None end.

Definition ok_equiv {E A} (m1 m2 : outcome E A) : Prop := ok_result m1 = ok_result m2.

(** Dereference of a Go pointer. *)
Definition deref {E A} (p : option A) : outcome E A :=
  match p with Some a => Ok a | None => Panic NilDereference end.

(** Indexing a Go slice with an [int]: any index outside [0, len) panics. *)
Definition go_index {E A} (l : list A) (i : Z) : outcome E A :=
  if (i <? 0)%Z then Panic (IndexOutOfRange i (length l))
  else match l !! Z.to_nat i with
       | Some a => Ok a
       | None => Panic (IndexOutOfRange i (length l))
       end.

(** ** Loops with early return

    [imapM f l] is the loop [for i, x := range l { y, err := f(i, x); ... }]
    that fills a slice of the same length and leaves at the first failure. *)

Fixpoint imapM_from {E A B} (n : nat) (f : nat -> A -> outcome E B) (l : list A)
  : outcome E (list B) :=
  match l with
  | [] => Ok []
  | x :: l' => y ← f n x; ys ← imapM_from (S n) f l'; Ok (y :: ys)
  end.

Definition imapM {E A B} (f : nat -> A -> outcome E B) (l : list A)
  : outcome E (list B) := imapM_from 0 f l.

(** [forM f l] is the same loop when the index is not used. *)
Definition forM {E A B} (f : A -> outcome E B) (l : list A) : outcome E (list B) :=
  imapM (fun _ => f) l.

(** The step [if p != nil { r, err = f( *p ) }] that leaves [r] nil otherwise. *)
Definition whenSet {E A B} (f : A -> outcome E B) (p : option A) : outcome E (option B) :=
  match p with
  | Some a => r ← f a; Ok (Some r)
  | None => Ok None
  end.

(** A loop that threads an accumulator. *)
Fixpoint foldM {E A S} (f : S -> A -> outcome E S) (l : list A) (s : S) : outcome E S :=
  match l with
  | [] => Ok s
  | x :: l' => s' ← f s x; foldM f l' s'
  end.

(** ** Fixed-width integers *)

Definition uint32_wrap (z : Z) : Z := (z mod 2 ^ 32)%Z.
Definition is_uint32 (z : Z) : Prop := (0 <= z < 2 ^ 32)%Z.
Definition is_int32 (z : Z) : Prop := (- 2 ^ 31 <= z < 2 ^ 31)%Z.
Definition is_int64 (z : Z) : Prop := (- 2 ^ 63 <= z < 2 ^ 63)%Z.

(** ** Lemmas *)

Section outcome_lemmas.
Context {E A B : Type}.
Implicit Types (m : outcome E A) (f : A -> outcome E B).

Lemma bind_Ok m f b : (m ≫= f) = Ok b <-> exists a, m = Ok a /\ f a = Ok b.
Proof. destruct m; naive_solver. Qed.

Lemma bind_Err m f e :
  (m ≫= f) = Err e <-> m = Err e \/ exists a, m = Ok a /\ f a = Err e.
Proof. destruct m; naive_solver. Qed.

Lemma bind_Panic m f p :
  (m ≫= f) = Panic p <-> m = Panic p \/ exists a, m = Ok a /\ f a = Panic p.
Proof. destruct m; naive_solver. Qed.

Lemma fmap_Ok m (g : A -> B) b : (g <$> m) = Ok b <-> exists a, m = Ok a /\ g a = b.
Proof. destruct m; naive_solver. Qed.

Lemma no_panic_bind m f :
  no_panic m -> (forall a, m = Ok a -> no_panic (f a)) -> no_panic (m ≫= f).
Proof. destruct m; naive_solver. Qed.

Lemma no_panic_spec m : no_panic m <-> forall p, m <> Panic p.
Proof. destruct m; naive_solver. Qed.

Lemma deref_Ok (p : option A) a : deref (E:=E) p = Ok a <-> p = Some a.
Proof. destruct p; naive_solver. Qed.

Lemma go_index_Ok (l : list A) i a :
  go_index (E:=E) l i = Ok a <-> (0 <= i)%Z /\ l !! Z.to_nat i = Some a.
Proof. unfold go_index. destruct (Z.ltb_spec i 0); repeat case_match; naive_solver lia. Qed.

Lemma go_index_nat (l : list A) (n : nat) a :
  l !! n = Some a -> go_index (E:=E) l (Z.of_nat n) = Ok a.
Proof. intros ?. apply go_index_Ok. rewrite Nat2Z.id. split; [lia|done]. Qed.

Lemma is_ok_spec m : is_ok m = true <-> exists a, m = Ok a.
Proof. destruct m; naive_solver. Qed.

Lemma is_ok_bind m f :
  is_ok (m ≫= f) = true <-> exists a, m = Ok a /\ is_ok (f a) = true.
Proof. destruct m; naive_solver. Qed.

Lemma is_ok_ret m (g : A -> B) : is_ok (m ≫= fun a => Ok (g a)) = is_ok m.
Proof. by destruct m. Qed.

Lemma whenSet_is_ok f p :
  is_ok (whenSet f p) = true <-> forall a, p = Some a -> is_ok (f a) = true.
Proof.
  destruct p as [a|]; simpl; [|by split; intros]. split.
  - intros Ha a' [= <-]. by destruct (f a).
  - intros Ha. specialize (Ha a eq_refl). by destruct (f a).
Qed.

Lemma whenSet_no_panic f p : (forall a, no_panic (f a)) -> no_panic (whenSet f p).
Proof. intros Hf. destruct p as [a|]; simpl; [|done]. specialize (Hf a). by destruct (f a). Qed.
End outcome_lemmas.

Global Instance ok_equiv_equivalence {E A} : Equivalence (@ok_equiv E A).
Proof. unfold ok_equiv. split; red; intros; congruence. Qed.

Global Instance ok_equiv_bind {E A B} :
  Proper (pointwise_relation A (@ok_equiv E B) ==> ok_equiv ==> ok_equiv) (mbind (M:=outcome E)).
Proof.
  intros f g Hfg m1 m2 Hm. unfold ok_equiv in *.
  destruct m1, m2; simplify_eq/=; done || apply Hfg.
Qed.

Lemma ok_equiv_Ok {E A} (m1 m2 : outcome E A) :
  (forall a, m1 = Ok a <-> m2 = Ok a) -> ok_equiv m1 m2.
Proof.
  intros Hm. unfold ok_equiv. destruct m1 as [a| |]; cbn.
  - by rewrite (proj1 (Hm a)).
  - destruct m2 as [a| |]; [|done..]. by destruct (proj2 (Hm a)).
  - destruct m2 as [a| |]; [|done..]. by destruct (proj2 (Hm a)).
Qed.

Section loop_lemmas.
Context {E A B : Type}.
Implicit Types (f : nat -> A -> outcome E B) (l : list A).

Lemma imapM_from_Ok n f l k :
  imapM_from n f l = Ok k <->
  length k = length l /\
  forall i x, l !! i = Some x -> exists y, k !! i = Some y /\ f (n + i) x = Ok y.
Proof.
  revert n k; induction l as [|x l IH]; intros n k; simpl.
  - split; [by intros [= <-]|]. intros [Hk _]. by destruct k.
  - rewrite bind_Ok. split.
    + intros (y & Hy & Hk). apply bind_Ok in Hk as (ys & Hys & [= <-]).
      apply IH in Hys as [Hlen Hys]. split; [simpl; lia|].
      intros [|i] x'; simpl.
      * intros [= <-]. exists y. by rewrite Nat.add_0_r.
      * intros Hi. destruct (Hys i x' Hi) as (z & ? & ?). exists z.
        by rewrite <-Nat.add_succ_comm.
    + intros [Hlen Hk]. destruct k as [|y k]; simpl in *; [done|].
      destruct (Hk 0 x eq_refl) as (y' & [= <-] & Hy).
      rewrite Nat.add_0_r in Hy. exists y. split; [done|].
      apply bind_Ok. exists k. split; [|done]. apply IH. split; [lia|].
      intros i x' Hi. destruct (Hk (S i) x' Hi) as (z & ? & ?). exists z.
      split; [done|]. by rewrite Nat.add_succ_comm.
Qed.

Lemma imapM_Ok f l k :
  imapM f l = Ok k <->
  length k = length l /\
  forall i x, l !! i = Some x -> exists y, k !! i = Some y /\ f i x = Ok y.
Proof. apply imapM_from_Ok. Qed.

Lemma imapM_length f l k : imapM f l = Ok k -> length k = length l.
Proof. intros [? _]%imapM_Ok. done. Qed.

Lemma imapM_lookup f l k i x :
  imapM f l = Ok k -> l !! i = Some x -> exists y, k !! i = Some y /\ f i x = Ok y.
Proof. intros [_ H]%imapM_Ok. apply H. Qed.

Lemma imapM_lookup_inv f l k i y :
  imapM f l = Ok k -> k !! i = Some y -> exists x, l !! i = Some x /\ f i x = Ok y.
Proof.
  intros [Hlen H]%imapM_Ok Hy.
  destruct (lookup_lt_is_Some_2 l i) as [x Hx].
  { rewrite <-Hlen. by eapply lookup_lt_Some. }
  destruct (H i x Hx) as (y' & ? & ?). naive_solver.
Qed.

Lemma imapM_total f l :
  (forall i x, l !! i = Some x -> exists y, f i x = Ok y) ->
  exists k, imapM f l = Ok k.
Proof.
  enough (forall n, (forall i x, l !! i = Some x -> exists y, f (n + i) x = Ok y) ->
            exists k, imapM_from n f l = Ok k) as Hgen by apply (Hgen 0).
  induction l as [|x l IH]; intros n H; simpl; [by eexists|].
  destruct (H 0 x eq_refl) as [y Hy]. rewrite Nat.add_0_r in Hy. rewrite Hy. simpl.
  destruct (IH (S n)) as [k ->]; [|by eexists].
  intros i x' Hi. destruct (H (S i) x' Hi) as [z Hz].
  exists z. by rewrite Nat.add_succ_comm.
Qed.

Lemma imapM_is_ok f l :
  is_ok (imapM f l) = true <-> forall i x, l !! i = Some x -> is_ok (f i x) = true.
Proof.
  setoid_rewrite is_ok_spec. split; [|apply imapM_total].
  intros [k Hk] i x Hi. destruct (imapM_lookup _ _ _ _ _ Hk Hi) as (y & _ & Hy). by exists y.
Qed.

(** A loop that fails does so at some position. *)
Lemma imapM_fails f l :
  is_ok (imapM f l) = false -> exists i x, l !! i = Some x /\ is_ok (f i x) = false.
Proof.
  unfold imapM. enough (forall n, is_ok (imapM_from n f l) = false ->
    exists i x, l !! i = Some x /\ is_ok (f (n + i) x) = false) as Hn by apply (Hn 0).
  induction l as [|x l IH]; intros n; cbn; [done|].
  destruct (f n x) as [y| |] eqn:Hx; cbn.
  - destruct (imapM_from (S n) f l) eqn:Hl; cbn; [done|intros _..];
      (destruct (IH (S n)) as (i & z & Hi & Hz); [by rewrite Hl|]; exists (S i), z;
       by rewrite Nat.add_succ_r).
  - intros _. exists 0, x. by rewrite Nat.add_0_r, Hx.
  - intros _. exists 0, x. by rewrite Nat.add_0_r, Hx.
Qed.

Lemma imapM_from_no_panic n f l :
  (forall i x, l !! i = Some x -> no_panic (f (n + i) x)) -> no_panic (imapM_from n f l).
Proof.
  revert n; induction l as [|x l IH]; intros n Hf; simpl; [done|].
  apply no_panic_bind; [specialize (Hf 0 x eq_refl); by rewrite Nat.add_0_r in Hf|].
  intros y _. apply no_panic_bind; [|done]. apply IH. intros i z Hi.
  rewrite Nat.add_succ_comm. by apply (Hf (S i)).
Qed.

Lemma imapM_no_panic f l :
  (forall i x, l !! i = Some x -> no_panic (f i x)) -> no_panic (imapM f l).
Proof. apply (imapM_from_no_panic 0). Qed.
End loop_lemmas.

Lemma imapM_from_const {E A B} (f : A -> outcome E B) (l : list A) i j :
  imapM_from i (fun _ => f) l = imapM_from j (fun _ => f) l.
Proof.
  revert i j. induction l as [|x l IH]; intros i j; cbn; [done|]. by rewrite (IH (S i) (S j)).
Qed.

Lemma forM_cons {E A B} (f : A -> outcome E B) (x : A) (l : list A) :
  forM f (x :: l) = (b ← f x; bs ← forM f l; Ok (b :: bs)).
Proof. unfold forM, imapM. cbn. by rewrite (imapM_from_const f l 1 0). Qed.

Lemma forM_is_ok {E A B} (f : A -> outcome E B) l :
  is_ok (forM f l) = true <-> Forall (fun x => is_ok (f x) = true) l.
Proof. unfold forM. by rewrite imapM_is_ok, Forall_lookup. Qed.

Lemma forM_Forall2 {E A B} (f : A -> outcome E B) l k :
  forM f l = Ok k <-> Forall2 (fun x y => f x = Ok y) l k.
Proof.
  unfold forM. rewrite imapM_Ok, Forall2_same_length_lookup. split.
  - intros [Hlen Hf]. split; [done|]. intros i x y Hx Hy.
    destruct (Hf i x Hx) as (y' & Hy' & ?). naive_solver.
  - intros [Hlen Hf]. split; [done|]. intros i x Hx.
    destruct (lookup_lt_is_Some_2 k i) as [y Hy].
    { rewrite <-Hlen. by eapply lookup_lt_Some. }
    eauto.
Qed.

Section fold_lemmas.
Context {E A S : Type}.
Implicit Types (f : S -> A -> outcome E S) (l : list A).

Lemma foldM_app f l1 l2 s :
  foldM f (l1 ++ l2) s = foldM f l1 s ≫= foldM f l2.
Proof.
  revert s; induction l1 as [|x l1 IH]; intros s; simpl; [done|].
  destruct (f s x); simpl; auto.
Qed.

(** Rule for an invariant [I] of a loop; [l1] is the part already visited. *)
Lemma foldM_invariant (I : list A -> S -> Prop) f l s s' :
  I [] s ->
  (forall l1 x a b, I l1 a -> f a x = Ok b -> I (l1 ++ [x]) b) ->
  foldM f l s = Ok s' -> I l s'.
Proof.
  intros H0 Hstep.
  enough (forall l2 l1 a, I l1 a -> foldM f l2 a = Ok s' -> I (l1 ++ l2) s') as Hgen
    by (apply (Hgen l [] s); done).
  induction l2 as [|x l2 IH]; intros l1 a Ha; simpl.
  - intros [= <-]. by rewrite app_nil_r.
  - intros (b & Hb & Hrest)%bind_Ok. rewrite cons_middle, app_assoc.
    eapply IH; [by eapply Hstep|done].
Qed.

Lemma foldM_total f l s :
  (forall x a, x ∈ l -> exists b, f a x = Ok b) -> exists s', foldM f l s = Ok s'.
Proof.
  revert s; induction l as [|x l IH]; intros s H; simpl; [by eexists|].
  destruct (H x s) as [b ->]; [left|]. simpl. apply IH. intros y a Hy. apply H. by right.
Qed.
End fold_lemmas.

Lemma uint32_wrap_small z : is_uint32 z -> uint32_wrap z = z.
Proof. intros ?. by apply Z.mod_small. Qed.

Lemma uint32_wrap_range z : is_uint32 (uint32_wrap z).
Proof. apply Z.mod_pos_bound. lia. Qed.

Lemma uint32_wrap_add a b : uint32_wrap (uint32_wrap a + b) = uint32_wrap (a + b).
Proof. unfold uint32_wrap. by rewrite Zplus_mod_idemp_l. Qed.

Lemma forallb_elem {A} (f : A -> bool) (l : list A) :
  forallb f l = true <-> forall x, x ∈ l -> f x = true.
Proof. rewrite List.forallb_forall. by setoid_rewrite list_elem_of_In. Qed.

(** Dropping elements that the filter rejects changes nothing. *)
Lemma filter_after_filter {A} (P Q : A -> Prop) `{!forall x, Decision (P x)}
    `{!forall x, Decision (Q x)} (l : list A) :
  (forall x, x ∈ l -> P x -> Q x) -> filter P (filter Q l) = filter P l.
Proof.
  induction l as [|x l IH]; intros Himp; [done|].
  assert (filter P (filter Q l) = filter P l) as Hl
    by (apply IH; intros y Hy; apply Himp; by right).
  destruct (decide (Q x)).
  - rewrite (filter_cons_True Q) by done. destruct (decide (P x)).
    + rewrite !(filter_cons_True P) by done. by rewrite Hl.
    + rewrite !(filter_cons_False P) by done. done.
  - rewrite (filter_cons_False Q) by done. rewrite (filter_cons_False P); [done|].
    intros HP. apply (Himp x) in HP; [done|left].
Qed.

Lemma filter_complement_all {A} (P : A -> Prop) `{!forall x, Decision (P x)} (l : list A) :
  filter P l = [] -> filter (fun x => ~ P x) l = l.
Proof.
  induction l as [|x l IH]; [done|]. destruct (decide (P x)).
  - by rewrite filter_cons_True.
  - rewrite filter_cons_False, (filter_cons_True (fun x => ~ P x)) by done.
    intros Hl. by rewrite IH.
Qed.

(** ** Proof automation *)

(** Split the hypotheses that say a chain of calls returned normally. *)
Ltac inv_ok :=
  repeat match goal with
  | H : (_ ≫= _) = Ok _ |- _ =>
      let a := fresh "r" in let H1 := fresh "Hc" in
      apply bind_Ok in H as (a & H1 & H)
  | H : (_ <$> _) = Ok _ |- _ =>
      let a := fresh "r" in let H1 := fresh "Hc" in
      apply fmap_Ok in H as (a & H1 & H)
  | H : deref _ = Ok _ |- _ => apply deref_Ok in H
  | H : Ok _ = Ok _ |- _ => injection H as H
  | H : Err _ = Ok _ |- _ => discriminate H
  | H : Panic _ = Ok _ |- _ => discriminate H
  end.

(** Rewrite with a known outcome and continue with the rest of the chain. *)
Ltac step_ok H := rewrite H; cbn [mbind outcome_bind].

(** See an equality of results as an equivalence, to rewrite in it. *)
Ltac as_ok_equiv :=
  match goal with
  | |- ok_result ?m1 = ok_result ?m2 => change (ok_equiv m1 m2)
  end.

Create HintDb gtc discriminated.
Create HintDb gtc_rw discriminated.

#[export] Hint Resolve uint32_wrap_range : gtc.
