(* ===== verification/Fairness.v ===== *)
(** Infinite runs of a step function, weak fairness, and the termination
    argument the liveness theorems use.

    A run is a sequence of states, each the result of a step with a label or
    equal to the one before it. A label may belong to a goroutine. A run is fair
    when no goroutine stays able to step for ever without stepping. *)

From S2P Require Import Prelude.

Section fairness.
Context {state label goroutine : Type}.
Context (step : label -> state -> option state) (owner : label -> option goroutine).

(** Some step of the goroutine is possible. *)
Definition enabled (g : goroutine) (st : state) : Prop :=
  exists l, owner l = Some g /\ is_Some (step l st).

Record execution := {
  ex_state : nat -> state;
  ex_label : nat -> option label;
  ex_step n :
    match ex_label n with
    | Some l => step l (ex_state n) = Some (ex_state (S n))
    | None => ex_state (S n) = ex_state n
    end
}.

Definition fair (e : execution) : Prop :=
  forall g n, exists m, n <= m /\
    (~ enabled g (ex_state e m) \/
     exists l, ex_label e m = Some l /\ owner l = Some g).

(** ** Finite runs *)

Fixpoint run_labels (ls : list label) (st : state) : option state :=
  match ls with
  | [] => Some st
  | l :: ls => step l st ≫= run_labels ls
  end.

Lemma run_labels_app ls1 ls2 st :
  run_labels (ls1 ++ ls2) st = run_labels ls1 st ≫= run_labels ls2.
Proof.
  revert st. induction ls1 as [|l ls1 IH]; intros st; cbn; [done|].
  destruct (step l st) as [st'|]; cbn; [apply IH|done].
Qed.

(** A finite run, then nothing for ever. *)
Section finite.
Context (ls : list label) (st0 stf : state) (Hrun : run_labels ls st0 = Some stf).

Definition prefix_state (n : nat) : state := default st0 (run_labels (take n ls) st0).

Lemma prefix_run n : run_labels (take n ls) st0 = Some (prefix_state n).
Proof using Hrun.
  unfold prefix_state. rewrite <- (take_drop n ls), run_labels_app in Hrun.
  by destruct (run_labels (take n ls) st0).
Qed.

Lemma prefix_step n :
  match ls !! n with
  | Some l => step l (prefix_state n) = Some (prefix_state (S n))
  | None => prefix_state (S n) = prefix_state n
  end.
Proof using Hrun.
  destruct (ls !! n) as [l|] eqn:Hl.
  - pose proof (prefix_run (S n)) as Hr. rewrite (take_S_r _ _ _ Hl), run_labels_app, prefix_run in Hr.
    cbn in Hr. by destruct (step l (prefix_state n)).
  - apply lookup_ge_None in Hl. unfold prefix_state. by rewrite !take_ge by lia.
Qed.

Definition finite_execution : execution :=
  {| ex_state := prefix_state; ex_label n := ls !! n; ex_step := prefix_step |}.

Lemma finite_fair : (forall g, ~ enabled g stf) -> fair finite_execution.
Proof using Hrun.
  intros Hstuck g n. exists (n + length ls). split; [lia|]. left. cbn. unfold prefix_state.
  rewrite take_ge by lia. by rewrite Hrun.
Qed.
End finite.

(** ** Termination by a helpful goroutine

    [inv] holds along the run. Where [goal] does not hold yet, the state names a
    goroutine that is able to step. A step of anybody reaches the goal, makes
    the measure smaller, or leaves the measure and the helpful goroutine as they
    are, and the helpful goroutine itself never does the latter. *)
Context {A : Type} (lt : A -> A -> Prop) (measure : state -> A).
Context (inv goal : state -> Prop) (helper : state -> option goroutine).

Record helpful : Prop := {
  helpful_wf : well_founded lt;
  helpful_inv l st st' : inv st -> step l st = Some st' -> inv st';
  helpful_goal st : inv st -> goal st \/ exists g, helper st = Some g;
  helpful_enabled st g : inv st -> helper st = Some g -> enabled g st;
  helpful_step l st st' g :
    inv st -> helper st = Some g -> step l st = Some st' ->
    goal st' \/ lt (measure st') (measure st) \/
    (owner l <> Some g /\ measure st' = measure st /\ helper st' = helper st)
}.

Context (Hhelp : helpful) (e : execution).

Lemma inv_along n k : inv (ex_state e n) -> inv (ex_state e (n + k)).
Proof.
  intros Hn. induction k as [|k IH]; [by rewrite Nat.add_0_r|].
  replace (n + S k) with (S (n + k)) by lia. pose proof (ex_step e (n + k)) as Hs.
  destruct (ex_label e (n + k)) as [l|]; [by eapply (helpful_inv Hhelp)|by rewrite Hs].
Qed.

(** Until the helpful goroutine steps, the goal is reached, the measure gets
    smaller or the goroutine stays helpful. *)
Lemma helper_along n k g :
  inv (ex_state e n) -> helper (ex_state e n) = Some g ->
  (exists j, n <= j /\ (goal (ex_state e j) \/
                        lt (measure (ex_state e j)) (measure (ex_state e n)))) \/
  (helper (ex_state e (n + k)) = Some g /\
   measure (ex_state e (n + k)) = measure (ex_state e n) /\
   forall j l, n <= j < n + k -> ex_label e j = Some l -> owner l <> Some g).
Proof.
  intros Hi Hg. induction k as [|k IH].
  { right. rewrite Nat.add_0_r. split; [done|]. split; [done|]. lia. }
  destruct IH as [?|(Hg' & Hm & Hl)]; [by left|].
  pose proof (ex_step e (n + k)) as Hs. pose proof (inv_along n k Hi) as Hik.
  replace (n + S k) with (S (n + k)) by lia.
  destruct (ex_label e (n + k)) as [l|] eqn:Hlab.
  - destruct (helpful_step Hhelp l _ _ g Hik Hg' Hs) as [Hgoal|[Hlt|(Ho & Hm' & Hh)]].
    + left. exists (S (n + k)). split; [lia|by left].
    + left. exists (S (n + k)). split; [lia|]. right. by rewrite <- Hm.
    + right. split; [congruence|]. split; [congruence|]. intros j l' Hj Hl'.
      destruct (decide (j = n + k)) as [->|]; [congruence|]. apply (Hl j); [lia|done].
  - right. rewrite Hs. split; [done|]. split; [done|]. intros j l' Hj Hl'.
    destruct (decide (j = n + k)) as [->|]; [congruence|]. apply (Hl j); [lia|done].
Qed.

Lemma fair_reaches_goal n :
  fair e -> inv (ex_state e n) -> exists k, n <= k /\ goal (ex_state e k).
Proof.
  intros Hfair. remember (measure (ex_state e n)) as a eqn:Ha. revert n Ha.
  induction (helpful_wf Hhelp a) as [a _ IH]. intros n -> Hi.
  destruct (helpful_goal Hhelp _ Hi) as [Hgoal|[g Hg]]; [by exists n|].
  destruct (Hfair g n) as (m & Hm & Hdis).
  assert (forall k,
    (exists j, n <= j /\ goal (ex_state e j)) \/
    (helper (ex_state e (n + k)) = Some g /\
     forall j l, n <= j < n + k -> ex_label e j = Some l -> owner l <> Some g)) as Hwait.
  { intros k. destruct (helper_along n k g Hi Hg) as [(j & Hj & [?|Hlt])|(? & _ & ?)];
      [left; by exists j| |by right].
    left. destruct (IH _ Hlt j) as (i & Hij & Hgoal); [done| |by exists i; split; [lia|]].
    replace j with (n + (j - n)) by lia. by apply inv_along. }
  destruct Hdis as [Hne|(l & Hlab & Ho)].
  - destruct (Hwait (m - n)) as [?|[Hgm _]]; [done|]. exfalso. apply Hne.
    replace m with (n + (m - n)) by lia. apply (helpful_enabled Hhelp); [by apply inv_along|done].
  - destruct (Hwait (S (m - n))) as [?|[_ Hl]]; [done|]. exfalso. apply (Hl m l); [lia|done|done].
Qed.
End fairness.
