(* ===== verification/GoStrings.v ===== *)
(** Go's [strings] and [unicode/utf8] packages, as far as the controller uses
    them. A Go string is a sequence of bytes, so [string] (a list of 8-bit
    [ascii]) is used as it is.

    [strings.Split], [SplitN], [Join], [ToLower], [ToUpper] and [EqualFold] are
    defined on bytes; the last three decode UTF-8 the way Go does (an invalid
    byte decodes to U+FFFD). The Unicode case tables of package [unicode] above
    U+007F are data of the Go distribution and are the parameter
    [UnicodeTables]. *)

From S2P Require Import Prelude.
From Stdlib Require Import Ascii.

(** ** Splitting and joining *)

(** [strings.Split(s, sep)] for a one-byte separator. *)
Fixpoint strings_Split (sep : ascii) (s : string) : list string :=
  match s with
  | EmptyString => [EmptyString]
  | String c s' =>
      if decide (c = sep) then EmptyString :: strings_Split sep s'
      else match strings_Split sep s' with
           | [] => [String c EmptyString]
           | w :: ws => String c w :: ws
           end
  end.

(** [strings.SplitN(s, sep, 2)]: cut at the first separator. *)
Fixpoint strings_Cut (sep : ascii) (s : string) : option (string * string) :=
  match s with
  | EmptyString => None
  | String c s' =>
      if decide (c = sep) then Some (EmptyString, s')
      else '(a, b) ← strings_Cut sep s'; Some (String c a, b)
  end.

Definition strings_SplitN2 (sep : ascii) (s : string) : list string :=
  match strings_Cut sep s with
  | Some (a, b) => [a; b]
  | None => [s]
  end.

(** [strings.Join(elems, sep)] *)
Fixpoint strings_Join (sep : string) (elems : list string) : string :=
  match elems with
  | [] => ""
  | [e] => e
  | e :: es => e +:+ sep +:+ strings_Join sep es
  end.

(** The byte [c] occurs in [s]. *)
Fixpoint str_mem (c : ascii) (s : string) : bool :=
  match s with
  | EmptyString => false
  | String d s' => bool_decide (c = d) || str_mem c s'
  end.

(** [strings.HasPrefix] *)
Fixpoint strings_HasPrefix (s p : string) : bool :=
  match p, s with
  | EmptyString, _ => true
  | String a p', String b s' => bool_decide (a = b) && strings_HasPrefix s' p'
  | String _ _, EmptyString => false
  end.

(** ** UTF-8 *)

Definition byte_of (c : ascii) : Z := Z.of_N (N_of_ascii c).
Definition of_byte (z : Z) : ascii := ascii_of_N (Z.to_N (z mod 256)).

Fixpoint bytes_of (s : string) : list Z :=
  match s with
  | EmptyString => []
  | String c s' => byte_of c :: bytes_of s'
  end.

Fixpoint of_bytes (l : list Z) : string :=
  match l with
  | [] => EmptyString
  | z :: l' => String (of_byte z) (of_bytes l')
  end.

Definition RuneError : Z := 0xFFFD.
Definition RuneSelf : Z := 0x80.

Definition in_rng (lo hi b : Z) : bool := (lo <=? b)%Z && (b <=? hi)%Z.

(** [utf8.DecodeRune]: the rune and the bytes that follow it. *)
Definition decode_rune (b0 : Z) (rest : list Z) : Z * list Z :=
  if (b0 <? RuneSelf)%Z then (b0, rest)
  else if in_rng 0xC2 0xDF b0 then
    match rest with
    | b1 :: r1 =>
        if in_rng 0x80 0xBF b1 then
          (Z.lor (Z.shiftl (Z.land b0 0x1F) 6) (Z.land b1 0x3F), r1)
        else (RuneError, rest)
    | _ => (RuneError, rest)
    end
  else if in_rng 0xE0 0xEF b0 then
    let lo := (if (b0 =? 0xE0)%Z then 0xA0 else 0x80)%Z in
    let hi := (if (b0 =? 0xED)%Z then 0x9F else 0xBF)%Z in
    match rest with
    | b1 :: b2 :: r2 =>
        if in_rng lo hi b1 && in_rng 0x80 0xBF b2 then
          (Z.lor (Z.shiftl (Z.land b0 0x0F) 12)
             (Z.lor (Z.shiftl (Z.land b1 0x3F) 6) (Z.land b2 0x3F)), r2)
        else (RuneError, rest)
    | _ => (RuneError, rest)
    end
  else if in_rng 0xF0 0xF4 b0 then
    let lo := (if (b0 =? 0xF0)%Z then 0x90 else 0x80)%Z in
    let hi := (if (b0 =? 0xF4)%Z then 0x8F else 0xBF)%Z in
    match rest with
    | b1 :: b2 :: b3 :: r3 =>
        if in_rng lo hi b1 && in_rng 0x80 0xBF b2 && in_rng 0x80 0xBF b3 then
          (Z.lor (Z.shiftl (Z.land b0 0x07) 18)
             (Z.lor (Z.shiftl (Z.land b1 0x3F) 12)
                (Z.lor (Z.shiftl (Z.land b2 0x3F) 6) (Z.land b3 0x3F))), r3)
        else (RuneError, rest)
    | _ => (RuneError, rest)
    end
  else (RuneError, rest).

(** The runes of a byte string; one unit of fuel per byte is enough, because
    every rune consumes at least one byte. *)
Fixpoint runes_fuel (fuel : nat) (bs : list Z) : list Z :=
  match fuel, bs with
  | S k, b0 :: rest => let '(r, rest') := decode_rune b0 rest in r :: runes_fuel k rest'
  | _, _ => []
  end.

Definition runes (s : string) : list Z :=
  let bs := bytes_of s in runes_fuel (length bs) bs.

(** [utf8.AppendRune] *)
Definition encode_rune (r : Z) : list Z :=
  if (r <? 0)%Z || (0x10FFFF <? r)%Z || in_rng 0xD800 0xDFFF r then [0xEF; 0xBF; 0xBD]%Z
  else if (r <=? 0x7F)%Z then [r]
  else if (r <=? 0x7FF)%Z then
    [Z.lor 0xC0 (Z.shiftr r 6); Z.lor 0x80 (Z.land r 0x3F)]
  else if (r <=? 0xFFFF)%Z then
    [Z.lor 0xE0 (Z.shiftr r 12); Z.lor 0x80 (Z.land (Z.shiftr r 6) 0x3F);
     Z.lor 0x80 (Z.land r 0x3F)]
  else
    [Z.lor 0xF0 (Z.shiftr r 18); Z.lor 0x80 (Z.land (Z.shiftr r 12) 0x3F);
     Z.lor 0x80 (Z.land (Z.shiftr r 6) 0x3F); Z.lor 0x80 (Z.land r 0x3F)].

Definition of_runes (rs : list Z) : string := of_bytes (rs ≫= encode_rune).

(** ** Case mapping *)

(** The case tables of package [unicode] for runes above U+007F. *)
Class UnicodeTables := {
  unicode_lower : Z -> Z;
  unicode_upper : Z -> Z;
  unicode_fold : Z -> Z
}.

Definition is_upper_ascii (r : Z) : bool := in_rng 65 90 r.
Definition is_lower_ascii (r : Z) : bool := in_rng 97 122 r.

Section case_mapping.
Context `{UnicodeTables}.

Definition unicode_ToLower (r : Z) : Z :=
  if (r <=? 0x7F)%Z then (if is_upper_ascii r then r + 32 else r)%Z else unicode_lower r.

Definition unicode_ToUpper (r : Z) : Z :=
  if (r <=? 0x7F)%Z then (if is_lower_ascii r then r - 32 else r)%Z else unicode_upper r.

(** [unicode.SimpleFold]; below U+0080 the orbits are letter pairs, with the
    Kelvin sign on [k] and the long s on [s]. *)
Definition unicode_SimpleFold (r : Z) : Z :=
  if (r <=? 0x7F)%Z then
    (if is_upper_ascii r then r + 32
     else if r =? 107 then 0x212A
     else if r =? 115 then 0x17F
     else if is_lower_ascii r then r - 32 else r)%Z
  else unicode_fold r.

(** [strings.ToLower] and [strings.ToUpper] map every rune. *)
Definition strings_ToLower (s : string) : string := of_runes (unicode_ToLower <$> runes s).
Definition strings_ToUpper (s : string) : string := of_runes (unicode_ToUpper <$> runes s).

(** The search loop of [strings.EqualFold] over the folding orbit of [sr]: it
    runs while [r != sr && r < tr]. An orbit has at most four runes, so eight
    steps are enough. *)
Fixpoint fold_search (fuel : nat) (sr tr r : Z) : bool :=
  match fuel with
  | 0 => (r =? tr)%Z
  | S k =>
      if negb (r =? sr)%Z && (r <? tr)%Z then fold_search k sr tr (unicode_SimpleFold r)
      else (r =? tr)%Z
  end.

Definition rune_fold_eq (a b : Z) : bool :=
  if (a =? b)%Z then true
  else
    let sr := Z.min a b in
    let tr := Z.max a b in
    if (tr <? RuneSelf)%Z then is_upper_ascii sr && (tr =? sr + 32)%Z
    else fold_search 8 sr tr (unicode_SimpleFold sr).

Fixpoint runes_fold_eq (s t : list Z) : bool :=
  match s, t with
  | [], [] => true
  | a :: s', b :: t' => rune_fold_eq a b && runes_fold_eq s' t'
  | _, _ => false
  end.

(** [strings.EqualFold] *)
Definition strings_EqualFold (s t : string) : bool := runes_fold_eq (runes s) (runes t).
End case_mapping.

(** Tables that change nothing: enough for text in ASCII. *)
Definition ascii_tables : UnicodeTables :=
  {| unicode_lower r := r; unicode_upper r := r; unicode_fold r := r |}.

(** ** Lemmas on splitting and joining *)

Lemma str_app_nil_r s : s +:+ "" = s.
Proof. induction s as [|c s IH]; [done|]. change (String c (s +:+ "") = String c s). by rewrite IH. Qed.

Lemma str_app_cons c s t : String c s +:+ t = String c (s +:+ t).
Proof. done. Qed.

Lemma str_app_assoc s t u : (s +:+ t) +:+ u = s +:+ t +:+ u.
Proof. induction s as [|c s IH]; [done|]. rewrite !str_app_cons. by rewrite IH. Qed.

Lemma strings_Split_nonempty sep s : strings_Split sep s <> [].
Proof. destruct s; simpl; repeat case_match; done. Qed.

Lemma strings_Split_pieces sep s x : x ∈ strings_Split sep s -> str_mem sep x = false.
Proof.
  revert x. induction s as [|c s IH]; intros x; simpl.
  - by intros ->%list_elem_of_singleton.
  - case_decide as Hc.
    + intros [->|Hx]%elem_of_cons; [done|by apply IH].
    + destruct (strings_Split sep s) as [|w ws].
      * intros ->%list_elem_of_singleton. simpl. by rewrite bool_decide_eq_false_2 by congruence.
      * intros [->|Hx]%elem_of_cons; [|apply IH; by right]. simpl.
        rewrite bool_decide_eq_false_2 by congruence. apply IH. by left.
Qed.

Lemma strings_Split_no_sep sep s : str_mem sep s = false -> strings_Split sep s = [s].
Proof.
  induction s as [|c s IH]; simpl; [done|].
  intros [Hc Hs]%orb_false_iff. apply bool_decide_eq_false in Hc.
  rewrite decide_False by done. by rewrite (IH Hs).
Qed.

Lemma strings_Split_app sep s t :
  str_mem sep s = false ->
  strings_Split sep (s +:+ String sep t) = s :: strings_Split sep t.
Proof.
  induction s as [|c s IH]; intros Hs; simpl in Hs.
  - change ("" +:+ String sep t) with (String sep t). simpl. by rewrite decide_True.
  - apply orb_false_iff in Hs as [Hc Hs]. apply bool_decide_eq_false in Hc.
    rewrite str_app_cons. simpl. rewrite decide_False by done. by rewrite (IH Hs).
Qed.

Lemma strings_Join_cons sep e e' es :
  strings_Join sep (e :: e' :: es) = e +:+ sep +:+ strings_Join sep (e' :: es).
Proof. done. Qed.

(** Splitting undoes joining when no element contains the separator. *)
Lemma strings_Split_Join sep es :
  es <> [] -> Forall (fun e => str_mem sep e = false) es ->
  strings_Split sep (strings_Join (String sep "") es) = es.
Proof.
  intros Hne Hes. induction Hes as [|e es He Hes IH]; [done|].
  destruct es as [|e' es]; [by apply strings_Split_no_sep|].
  rewrite strings_Join_cons, str_app_cons, strings_Split_app by done.
  f_equal. by apply IH.
Qed.

Lemma strings_Cut_app sep s t :
  str_mem sep s = false -> strings_Cut sep (s +:+ String sep t) = Some (s, t).
Proof.
  induction s as [|c s IH]; intros Hs; simpl in Hs.
  - change ("" +:+ String sep t) with (String sep t). simpl. by rewrite decide_True.
  - apply orb_false_iff in Hs as [Hc Hs]. apply bool_decide_eq_false in Hc.
    rewrite str_app_cons. simpl. rewrite decide_False by done. by rewrite (IH Hs).
Qed.

Lemma strings_Cut_Some sep s a b :
  strings_Cut sep s = Some (a, b) -> s = a +:+ String sep b /\ str_mem sep a = false.
Proof.
  revert a; induction s as [|c s IH]; intros a; simpl; [done|].
  destruct (decide (c = sep)) as [->|Hc]; [by intros [= <- <-]|].
  destruct (strings_Cut sep s) as [[a' b']|]; simpl; [|done].
  intros [= <- <-]. destruct (IH a' eq_refl) as [-> Ha]. split; [done|].
  simpl. rewrite Ha, bool_decide_false; [done|]. by intros ->.
Qed.

Lemma strings_Cut_None sep s : strings_Cut sep s = None <-> str_mem sep s = false.
Proof.
  induction s as [|c s IH]; simpl; [done|]. destruct (decide (c = sep)) as [->|Hc].
  - rewrite bool_decide_true by done. done.
  - rewrite bool_decide_false by (by intros ->). simpl. rewrite <-IH.
    destruct (strings_Cut sep s) as [[]|]; done.
Qed.

Lemma str_mem_app c s t : str_mem c (s +:+ t) = str_mem c s || str_mem c t.
Proof.
  induction s as [|d s IH]; [done|]. rewrite str_app_cons. simpl. rewrite IH.
  apply orb_assoc.
Qed.

Lemma strings_HasPrefix_app s t : strings_HasPrefix (s +:+ t) s = true.
Proof.
  induction s as [|c s IH]; [by destruct t|]. rewrite str_app_cons. simpl.
  by rewrite bool_decide_true, IH.
Qed.

Lemma strings_HasPrefix_spec s p :
  strings_HasPrefix s p = true <-> exists t, s = p +:+ t.
Proof.
  split; [|intros [t ->]; apply strings_HasPrefix_app].
  revert s; induction p as [|a p IH]; intros s; simpl; [by exists s|].
  destruct s as [|b s]; [done|]. intros [Hab Hp]%andb_prop.
  apply bool_decide_eq_true in Hab as ->. destruct (IH s Hp) as [t ->]. by exists t.
Qed.
