(* ===== verification/GoPath.v ===== *)
(** Go's [path.Clean] and [path.Join].

    [Clean] is written on path elements instead of bytes: it splits on the
    slash, drops empty and dot elements, and lets a dot-dot element remove the
    element before it (or stay, when nothing is left to remove and the path is
    not rooted). The main lemma, [path_Join_segments], says that joining
    elements that are already clean only puts slashes between them. *)

From S2P Require Import Prelude GoStrings.
From Stdlib Require Import Ascii.

Definition slash : ascii := "/"%char.

(** One element of the path; the stack holds the elements kept so far, last
    one first. *)
Definition clean_step (rooted : bool) (stack : list string) (e : string) : list string :=
  if decide (e = "" \/ e = ".") then stack
  else if decide (e = "..") then
    match stack with
    | [] => if rooted then [] else [".."]
    | top :: below => if decide (top = "..") then ".." :: stack else below
    end
  else e :: stack.

Definition is_rooted (p : string) : bool :=
  match p with
  | String c _ => bool_decide (c = slash)
  | EmptyString => false
  end.

(** [path.Clean] *)
Definition path_Clean (p : string) : string :=
  let rooted := is_rooted p in
  let kept := reverse (foldl (clean_step rooted) [] (strings_Split slash p)) in
  let body := strings_Join "/" kept in
  if rooted then "/" +:+ body
  else match kept with [] => "." | _ => body end.

(** The buffer of [path.Join]: leading empty elements add nothing. *)
Fixpoint drop_empty (elems : list string) : list string :=
  match elems with
  | "" :: es => drop_empty es
  | _ => elems
  end.

(** [path.Join] *)
Definition path_Join (elems : list string) : string :=
  match drop_empty elems with
  | [] => ""
  | es => path_Clean (strings_Join "/" es)
  end.

(** A path element that [Clean] keeps as it is. *)
Definition is_segment (s : string) : bool :=
  negb (bool_decide (s = "")) && negb (bool_decide (s = ".")) &&
  negb (bool_decide (s = "..")) && negb (str_mem slash s).

(** ** Lemmas *)

Lemma is_segment_spec s :
  is_segment s = true <-> s <> "" /\ s <> "." /\ s <> ".." /\ str_mem slash s = false.
Proof.
  unfold is_segment. rewrite !andb_true_iff, !negb_true_iff, !bool_decide_eq_false. tauto.
Qed.

Lemma is_segment_no_slash s : is_segment s = true -> str_mem slash s = false.
Proof. rewrite is_segment_spec. tauto. Qed.

Lemma clean_step_segment rooted stack e :
  is_segment e = true -> clean_step rooted stack e = e :: stack.
Proof.
  rewrite is_segment_spec. intros (?&?&?&?). unfold clean_step.
  rewrite decide_False by tauto. by rewrite decide_False.
Qed.

Lemma clean_fold_segments rooted es stack :
  Forall (fun e => is_segment e = true) es ->
  foldl (clean_step rooted) stack es = reverse es ++ stack.
Proof.
  intros Hes. revert stack. induction Hes as [|e es He Hes IH]; intros stack; simpl; [done|].
  rewrite clean_step_segment, IH by done. rewrite reverse_cons. by rewrite <-app_assoc.
Qed.

Lemma is_rooted_segment e rest :
  is_segment e = true -> is_rooted (e +:+ rest) = false.
Proof.
  rewrite is_segment_spec. intros (Hne&_&_&Hs). destruct e as [|c e]; [done|].
  rewrite str_app_cons. simpl in *. apply orb_false_iff in Hs as [Hc _].
  rewrite bool_decide_eq_false in Hc. apply bool_decide_eq_false. by intros ->.
Qed.

Lemma is_rooted_join_segments e es :
  Forall (fun e => is_segment e = true) (e :: es) ->
  is_rooted (strings_Join "/" (e :: es)) = false.
Proof.
  intros [He _]%Forall_cons. destruct es as [|e' es]; simpl.
  - rewrite <-(str_app_nil_r e). by apply is_rooted_segment.
  - by apply is_rooted_segment.
Qed.

Lemma path_Clean_segments e es :
  Forall (fun e => is_segment e = true) (e :: es) ->
  path_Clean (strings_Join "/" (e :: es)) = strings_Join "/" (e :: es).
Proof.
  intros Hes. unfold path_Clean. rewrite is_rooted_join_segments by done.
  change "/" with (String slash ""). rewrite strings_Split_Join; [|done|].
  - rewrite clean_fold_segments, app_nil_r, reverse_involutive by done. done.
  - eapply Forall_impl; [done|]. simpl. intros. by apply is_segment_no_slash.
Qed.

(** Joining clean elements puts a slash between them and changes nothing else. *)
Lemma path_Join_segments e es :
  Forall (fun e => is_segment e = true) (e :: es) ->
  path_Join (e :: es) = strings_Join "/" (e :: es).
Proof.
  intros Hes. unfold path_Join.
  replace (drop_empty (e :: es)) with (e :: es); [by apply path_Clean_segments|].
  apply Forall_cons in Hes as [He _]. apply is_segment_spec in He as [He _].
  by destruct e.
Qed.

(** The result of joining clean elements splits back into them. *)
Lemma strings_Split_path_Join e es :
  Forall (fun e => is_segment e = true) (e :: es) ->
  strings_Split slash (path_Join (e :: es)) = e :: es.
Proof.
  intros Hes. rewrite path_Join_segments by done.
  change "/" with (String slash ""). apply strings_Split_Join; [done|].
  eapply Forall_impl; [done|]. simpl. intros. by apply is_segment_no_slash.
Qed.

#[export] Hint Resolve is_segment_no_slash : gtc.

Example path_Clean_ex :
  path_Clean "a//b/./c/../d" = "a/b/d" /\ path_Clean "../x" = "../x" /\
  path_Clean "/.." = "/" /\ path_Clean "a/.." = "." /\ path_Clean "" = "." /\
  path_Join ["a"; ""; "../b"] = "b" /\ path_Join [""; ""] = "".
Proof. by vm_compute. Qed.
