(* ===== verification/GoStrconv.v ===== *)
(** Go's [strconv.Itoa] and [strconv.Atoi] on the 64-bit [int].

    [Itoa] prints the decimal digits, with a minus sign below zero. [Atoi]
    accepts an optional sign and at least one digit, and rejects everything
    else, including a value outside the range of [int]. [Atoi_Itoa] is the
    round trip; [Itoa_segment] says that a printed number is a clean path
    element. *)

From S2P Require Import Prelude GoStrings GoPath.
From Stdlib Require Import Ascii DecimalString DecimalN DecimalPos DecimalFacts.

Definition digit_value (c : ascii) : option N :=
  let n := N_of_ascii c in
  if (48 <=? n)%N && (n <=? 57)%N then Some (n - 48)%N else None.

(** The digit loop of [strconv.ParseUint] in base 10. *)
Fixpoint parse_digits (acc : N) (s : string) : option N :=
  match s with
  | EmptyString => Some acc
  | String c s' => d ← digit_value c; parse_digits (10 * acc + d)%N s'
  end.

Definition parse_unsigned (s : string) : option N :=
  match s with
  | EmptyString => None
  | _ => parse_digits 0 s
  end.

(** [strconv.Atoi]; [None] stands for a non-nil error. *)
Definition Atoi (s : string) : option Z :=
  let '(neg, digits) :=
    match s with
    | String c s' =>
        if decide (c = "-"%char) then (true, s')
        else if decide (c = "+"%char) then (false, s')
        else (false, s)
    | EmptyString => (false, s)
    end in
  n ← parse_unsigned digits;
  let z := if (neg : bool) then (- Z.of_N n)%Z else Z.of_N n in
  if bool_decide (- 2 ^ 63 <= z < 2 ^ 63)%Z then Some z else None.

Definition print_N (n : N) : string := NilEmpty.string_of_uint (N.to_uint n).

(** [strconv.Itoa] *)
Definition Itoa (z : Z) : string :=
  if (z <? 0)%Z then String "-"%char (print_N (Z.to_N (- z))) else print_N (Z.to_N z).

(** ** Lemmas *)

(** Parsing the printed digits of [d] continues the positional value of [d]. *)
Lemma parse_digits_uint_pos d p :
  parse_digits (Npos p) (NilEmpty.string_of_uint d) = Some (Npos (Pos.of_uint_acc d p)).
Proof.
  revert p; induction d as [|d IH|d IH|d IH|d IH|d IH|d IH|d IH|d IH|d IH|d IH];
    intros p; cbn [NilEmpty.string_of_uint Pos.of_uint_acc]; [done|..];
    rewrite <-IH; cbn [parse_digits];
    (match goal with |- context [digit_value ?c] =>
       let v := eval vm_compute in (digit_value c) in change (digit_value c) with v end);
    cbn [mbind option_bind]; f_equal; lia.
Qed.

Lemma parse_digits_uint d :
  parse_digits 0 (NilEmpty.string_of_uint d) = Some (N.of_uint d).
Proof.
  unfold N.of_uint.
  induction d as [|d IH|d IH|d IH|d IH|d IH|d IH|d IH|d IH|d IH|d IH];
    cbn [NilEmpty.string_of_uint Pos.of_uint]; [done|..];
    cbn [parse_digits];
    (match goal with |- context [digit_value ?c] =>
       let v := eval vm_compute in (digit_value c) in change (digit_value c) with v end);
    cbn [mbind option_bind]; [exact IH|..]; apply parse_digits_uint_pos.
Qed.

Lemma print_N_nonempty n : print_N n <> "".
Proof.
  unfold print_N. destruct (N.to_uint n) eqn:Hn; try done.
  pose proof (f_equal N.of_uint Hn) as H0. rewrite DecimalN.Unsigned.of_to in H0. by subst n.
Qed.

Lemma parse_unsigned_print n : parse_unsigned (print_N n) = Some n.
Proof.
  pose proof (print_N_nonempty n) as Hne. unfold parse_unsigned.
  destruct (print_N n) eqn:Hn; [done|]. rewrite <-Hn. unfold print_N.
  by rewrite parse_digits_uint, DecimalN.Unsigned.of_to.
Qed.

(** A printed unsigned number consists of digits. *)
Lemma string_of_uint_mem c d :
  str_mem c (NilEmpty.string_of_uint d) = true -> is_Some (digit_value c).
Proof.
  induction d; cbn [NilEmpty.string_of_uint str_mem]; [done|..];
    (intros [Hc|Hd]%orb_true_iff;
     [apply bool_decide_eq_true in Hc as ->; vm_compute; by eexists|by apply IHd]).
Qed.

Lemma print_N_mem c n : digit_value c = None -> str_mem c (print_N n) = false.
Proof.
  intros Hc. destruct (str_mem c (print_N n)) eqn:Hm; [|done].
  apply string_of_uint_mem in Hm as [? Hm]. congruence.
Qed.

Lemma print_N_head c n s : print_N n = String c s -> is_Some (digit_value c).
Proof.
  intros Hn. apply (string_of_uint_mem c (N.to_uint n)). unfold print_N in Hn.
  rewrite Hn. simpl. by rewrite bool_decide_true.
Qed.

(** Reading back a printed [int] gives the same number. *)
Lemma Atoi_Itoa z : is_int64 z -> Atoi (Itoa z) = Some z.
Proof.
  intros Hz. unfold Itoa, Atoi. destruct (Z.ltb_spec z 0) as [Hneg|Hpos].
  - rewrite decide_True by done. rewrite parse_unsigned_print. simpl.
    rewrite Z2N.id, Z.opp_involutive by lia. by rewrite bool_decide_true.
  - destruct (print_N (Z.to_N z)) as [|c s] eqn:Hp; [by apply print_N_nonempty in Hp|].
    pose proof (print_N_head _ _ _ Hp) as [d Hd].
    rewrite decide_False by (by intros ->). rewrite decide_False by (by intros ->).
    rewrite <-Hp, parse_unsigned_print. simpl. rewrite Z2N.id by done.
    by rewrite bool_decide_true.
Qed.

Lemma Itoa_inj a b : is_int64 a -> is_int64 b -> Itoa a = Itoa b -> a = b.
Proof.
  intros Ha Hb Hab. apply (f_equal Atoi) in Hab. rewrite !Atoi_Itoa in Hab by done.
  congruence.
Qed.

(** A printed [int] is a path element that [path.Clean] keeps. *)
Lemma Itoa_segment z : is_segment (Itoa z) = true.
Proof.
  apply is_segment_spec.
  assert (forall c, digit_value c = None -> c <> "-"%char -> str_mem c (Itoa z) = false) as Hm.
  { intros c Hc Hne. unfold Itoa. case_match; [|by apply print_N_mem].
    simpl. rewrite print_N_mem, bool_decide_false by done. done. }
  assert (str_mem "." (Itoa z) = false) as Hdot by by apply Hm.
  repeat split; [|by intros Heq; rewrite Heq in Hdot..|by apply Hm].
  unfold Itoa. case_match; [done|apply print_N_nonempty].
Qed.

#[export] Hint Resolve Itoa_segment : gtc.

Example Atoi_ex :
  Atoi <$> ["12"; "-1"; "+7"; ""; "-"; "1x"; "007"; "9223372036854775808";
            "-9223372036854775808"] =
  [Some 12; Some (-1); Some 7; None; None; None; Some 7; None; Some (- 2 ^ 63)]%Z.
Proof. by vm_compute. Qed.
