(* ===== verification/GoQuote.v ===== *)
(** Go's [strconv.Quote], which is the verb [%q] of [fmt] on a string.

    A string is read rune by rune. A printable rune is copied, a byte that is no
    UTF-8 and a control character are escaped in ASCII. [unescape_quote] undoes
    the escapes, so that two strings never have the same quotation. *)

From S2P Require Import Prelude GoStrings GoPath.
From Stdlib Require Import Ascii.

Local Open Scope Z_scope.

(** The table of [strconv.IsPrint] for runes above U+00FF. *)
Class PrintTables := { unicode_print : Z -> bool }.

(** [lowerhex[d]] *)
Definition lowerhex (d : Z) : Z := if d <? 10 then 48 + d else 87 + d.

(** [for s := 4*(n-1); s >= 0; s -= 4 { append(buf, lowerhex[r>>uint(s)&0xF]) }] *)
Fixpoint hex_digits (n : nat) (r : Z) : list Z :=
  match n with
  | O => []
  | S k => lowerhex (Z.land (Z.shiftr r (4 * Z.of_nat k)) 0xF) :: hex_digits k r
  end.

Section quote.
Context `{PrintTables}.

(** [strconv.IsPrint] *)
Definition strconv_IsPrint (r : Z) : bool :=
  if r <=? 0xFF then
    if (0x20 <=? r) && (r <? 0x7F) then true
    else if (0xA1 <=? r) && (r <=? 0xFF) then negb (r =? 0xAD)
    else false
  else unicode_print r.

(** [utf8.ValidRune] *)
Definition ValidRune (r : Z) : bool :=
  ((0 <=? r) && (r <? 0xD800)) || ((0xDFFF <? r) && (r <=? 0x10FFFF)).

(** The letter of [\a], [\b], [\f], [\n], [\r], [\t] and [\v]. *)
Definition short_escape (r : Z) : option Z :=
  if r =? 7 then Some 97 else if r =? 8 then Some 98 else if r =? 12 then Some 102
  else if r =? 10 then Some 110 else if r =? 13 then Some 114 else if r =? 9 then Some 116
  else if r =? 11 then Some 118 else None.

Definition dquote : Z := 34.
Definition backslash : Z := 92.

(** [appendEscapedRune] with a double quote, not only ASCII, not only graphic. *)
Definition escaped_rune (r : Z) : list Z :=
  if (r =? dquote) || (r =? backslash) then [backslash; r]
  else if strconv_IsPrint r then encode_rune r
  else match short_escape r with
       | Some c => [backslash; c]
       | None =>
           if (r <? 0x20) || (r =? 0x7F) then backslash :: 120 :: hex_digits 2 r
           else if negb (ValidRune r) then backslash :: 117 :: hex_digits 4 RuneError
           else if r <? 0x10000 then backslash :: 117 :: hex_digits 4 r
           else backslash :: 85 :: hex_digits 8 r
       end.

(** The loop of [appendQuotedWith]; a rune takes at least one byte, so that the
    number of bytes is enough fuel. *)
Fixpoint quoted_fuel (fuel : nat) (bs : list Z) : list Z :=
  match fuel, bs with
  | S k, b0 :: rest =>
      let '(r, rest') := decode_rune b0 rest in
      if (r =? RuneError) && bool_decide (length rest' = length rest)
      then backslash :: 120 :: hex_digits 2 b0 ++ quoted_fuel k rest
      else escaped_rune r ++ quoted_fuel k rest'
  | _, _ => []
  end.

Definition quoted_bytes (s : string) : list Z :=
  dquote :: quoted_fuel (length (bytes_of s)) (bytes_of s) ++ [dquote].

(** [strconv.Quote] *)
Definition strconv_Quote (s : string) : string := of_bytes (quoted_bytes s).
End quote.

(** Tables that print no rune above U+00FF. *)
Definition latin1_tables : PrintTables := {| unicode_print _ := false |}.

(** ** Undoing the escapes *)

Definition unhex (c : Z) : Z := if c <? 58 then c - 48 else c - 87.
Definition unhex_all (cs : list Z) : Z := foldl (fun acc c => 16 * acc + unhex c) 0 cs.

Definition unescape_letter (c : Z) : Z :=
  if c =? 97 then 7 else if c =? 98 then 8 else if c =? 102 then 12
  else if c =? 110 then 10 else if c =? 114 then 13 else if c =? 116 then 9
  else if c =? 118 then 11 else c.

Fixpoint unescape (bs : list Z) : list Z :=
  match bs with
  | [] => []
  | c :: rest =>
      if negb (c =? backslash) then c :: unescape rest
      else match rest with
           | [] => []
           | e :: rest1 =>
               if e =? 120 then
                 match rest1 with
                 | h1 :: h2 :: rest2 => unhex_all [h1; h2] :: unescape rest2
                 | _ => []
                 end
               else if e =? 117 then
                 match rest1 with
                 | h1 :: h2 :: h3 :: h4 :: rest2 =>
                     encode_rune (unhex_all [h1; h2; h3; h4]) ++ unescape rest2
                 | _ => []
                 end
               else if e =? 85 then
                 match rest1 with
                 | h1 :: h2 :: h3 :: h4 :: h5 :: h6 :: h7 :: h8 :: rest2 =>
                     encode_rune (unhex_all [h1; h2; h3; h4; h5; h6; h7; h8]) ++ unescape rest2
                 | _ => []
                 end
               else unescape_letter e :: unescape rest1
           end
  end.

(** ** Lemmas on bits and bytes *)

Definition is_byte (b : Z) : Prop := 0 <= b < 256.

Lemma byte_of_byte c : is_byte (byte_of c).
Proof. unfold is_byte, byte_of. pose proof (N_ascii_bounded c). lia. Qed.

Lemma bytes_of_bytes s : Forall is_byte (bytes_of s).
Proof. induction s; constructor; [apply byte_of_byte|done]. Qed.

Lemma byte_of_of_byte z : is_byte z -> byte_of (of_byte z) = z.
Proof.
  intros Hz. unfold byte_of, of_byte. rewrite Z.mod_small by done.
  rewrite N_ascii_embedding; unfold is_byte in Hz; lia.
Qed.

Lemma of_byte_byte_of c : of_byte (byte_of c) = c.
Proof.
  unfold of_byte. rewrite Z.mod_small by apply byte_of_byte. unfold byte_of.
  by rewrite N2Z.id, ascii_N_embedding.
Qed.

Lemma bytes_of_of_bytes l : Forall is_byte l -> bytes_of (of_bytes l) = l.
Proof. induction 1; simpl; [done|]. by rewrite byte_of_of_byte, IHForall. Qed.

Lemma of_bytes_bytes_of s : of_bytes (bytes_of s) = s.
Proof. induction s; simpl; [done|]. by rewrite of_byte_byte_of, IHs. Qed.

(** Joining bits that do not overlap is an addition. *)
Lemma land_shiftl a b n : 0 <= n -> 0 <= b < 2 ^ n -> Z.land (Z.shiftl a n) b = 0.
Proof.
  intros Hn Hb. rewrite <-(Z.mod_small b (2 ^ n)), <-Z.land_ones by done.
  rewrite (Z.land_comm b), Z.land_assoc, Z.land_ones, Z.shiftl_mul_pow2, Z.mod_mul by lia.
  apply Z.land_0_l.
Qed.

Lemma lor_shiftl a b n : 0 <= n -> 0 <= b < 2 ^ n -> Z.lor (Z.shiftl a n) b = a * 2 ^ n + b.
Proof.
  intros Hn Hb. pose proof (land_shiftl a b n Hn Hb) as Hz.
  by rewrite <-Z.lxor_lor, <-Z.add_nocarry_lxor, Z.shiftl_mul_pow2.
Qed.

(** The pieces that occur, as arithmetic. *)
Lemma land_3F b : Z.land b 0x3F = b mod 64.
Proof. apply (Z.land_ones b 6). lia. Qed.
Lemma land_1F b : Z.land b 0x1F = b mod 32.
Proof. apply (Z.land_ones b 5). lia. Qed.
Lemma land_0F b : Z.land b 0x0F = b mod 16.
Proof. apply (Z.land_ones b 4). lia. Qed.
Lemma land_07 b : Z.land b 0x07 = b mod 8.
Proof. apply (Z.land_ones b 3). lia. Qed.
Lemma lor_80 x : 0 <= x < 64 -> Z.lor 0x80 x = 0x80 + x.
Proof. apply (lor_shiftl 2 x 6). lia. Qed.
Lemma lor_C0 x : 0 <= x < 64 -> Z.lor 0xC0 x = 0xC0 + x.
Proof. apply (lor_shiftl 3 x 6). lia. Qed.
Lemma lor_E0 x : 0 <= x < 32 -> Z.lor 0xE0 x = 0xE0 + x.
Proof. apply (lor_shiftl 7 x 5). lia. Qed.
Lemma lor_F0 x : 0 <= x < 16 -> Z.lor 0xF0 x = 0xF0 + x.
Proof. apply (lor_shiftl 15 x 4). lia. Qed.

(** ** UTF-8 *)

(** The bytes of a rune, as arithmetic. *)
Definition utf8_bytes (r : Z) : list Z :=
  if r <=? 0x7F then [r]
  else if r <=? 0x7FF then [0xC0 + r / 64; 0x80 + r mod 64]
  else if r <=? 0xFFFF then [0xE0 + r / 4096; 0x80 + r / 64 mod 64; 0x80 + r mod 64]
  else [0xF0 + r / 262144; 0x80 + r / 4096 mod 64; 0x80 + r / 64 mod 64; 0x80 + r mod 64].

Lemma encode_rune_bytes r : ValidRune r = true -> encode_rune r = utf8_bytes r.
Proof.
  intros Hv. unfold ValidRune in Hv. unfold encode_rune, utf8_bytes, in_rng.
  repeat match goal with
  | |- context [(?x <? ?y)%Z] => destruct (Z.ltb_spec x y)
  | |- context [(?x <=? ?y)%Z] => destruct (Z.leb_spec x y)
  end; cbn [andb orb] in *; try lia; try done;
  rewrite ?Z.shiftr_div_pow2, ?land_3F by lia;
  change (2 ^ 6) with 64; change (2 ^ 12) with 4096; change (2 ^ 18) with 262144;
  rewrite ?lor_80, ?lor_C0, ?lor_E0, ?lor_F0; try done; Z.to_euclidean_division_equations; lia.
Qed.

Ltac dlia := Z.to_euclidean_division_equations; lia.

(** The runes of two, three and four bytes, as sums. *)
Lemma join2 b0 b1 :
  Z.lor (Z.shiftl (Z.land b0 0x1F) 6) (Z.land b1 0x3F) = b0 mod 32 * 64 + b1 mod 64.
Proof. rewrite lor_shiftl; rewrite ?land_3F, ?land_1F; dlia. Qed.

Lemma join3 b0 b1 b2 :
  Z.lor (Z.shiftl (Z.land b0 0x0F) 12) (Z.lor (Z.shiftl (Z.land b1 0x3F) 6) (Z.land b2 0x3F))
  = b0 mod 16 * 4096 + b1 mod 64 * 64 + b2 mod 64.
Proof.
  rewrite (lor_shiftl (Z.land b1 _)) by (rewrite ?land_3F; dlia).
  rewrite lor_shiftl; rewrite ?land_3F, ?land_0F; dlia.
Qed.

Lemma join4 b0 b1 b2 b3 :
  Z.lor (Z.shiftl (Z.land b0 0x07) 18) (Z.lor (Z.shiftl (Z.land b1 0x3F) 12)
    (Z.lor (Z.shiftl (Z.land b2 0x3F) 6) (Z.land b3 0x3F)))
  = b0 mod 8 * 262144 + b1 mod 64 * 4096 + b2 mod 64 * 64 + b3 mod 64.
Proof.
  rewrite (lor_shiftl (Z.land b2 _)) by (rewrite ?land_3F; dlia).
  rewrite (lor_shiftl (Z.land b1 _)) by (rewrite ?land_3F; dlia).
  rewrite lor_shiftl; rewrite ?land_3F, ?land_07; dlia.
Qed.

Lemma in_rng_spec lo hi b : in_rng lo hi b = true <-> lo <= b <= hi.
Proof. unfold in_rng. lia. Qed.

(** A rune that is decoded is valid, and its bytes are those that were read. *)
Definition decoded (b0 : Z) (rest : list Z) (d : Z * list Z) : Prop :=
  d = (RuneError, rest) \/ (ValidRune d.1 = true /\ b0 :: rest = utf8_bytes d.1 ++ d.2).

Lemma utf8_bytes_2 b0 b1 :
  0xC2 <= b0 <= 0xDF -> 0x80 <= b1 <= 0xBF ->
  let r := b0 mod 32 * 64 + b1 mod 64 in ValidRune r = true /\ utf8_bytes r = [b0; b1].
Proof.
  intros H0 H1 r. assert (r = (b0 - 0xC0) * 64 + (b1 - 0x80)) as Hr by (unfold r; dlia).
  clearbody r. unfold ValidRune, utf8_bytes.
  destruct (Z.leb_spec r 0x7F), (Z.leb_spec r 0x7FF); try lia.
  split; [lia|]. repeat f_equal; dlia.
Qed.

Lemma utf8_bytes_3 b0 b1 b2 :
  0xE0 <= b0 <= 0xEF -> 0x80 <= b1 <= 0xBF -> 0x80 <= b2 <= 0xBF ->
  (b0 = 0xE0 -> 0xA0 <= b1) -> (b0 = 0xED -> b1 <= 0x9F) ->
  let r := b0 mod 16 * 4096 + b1 mod 64 * 64 + b2 mod 64 in
  ValidRune r = true /\ utf8_bytes r = [b0; b1; b2].
Proof.
  intros H0 H1 H2 Hlo Hhi r.
  assert (r = (b0 - 0xE0) * 4096 + (b1 - 0x80) * 64 + (b2 - 0x80)) as Hr by (unfold r; dlia).
  clearbody r. unfold ValidRune, utf8_bytes.
  destruct (Z.leb_spec r 0x7F), (Z.leb_spec r 0x7FF), (Z.leb_spec r 0xFFFF); try lia.
  split; [lia|]. repeat f_equal; dlia.
Qed.

Lemma utf8_bytes_4 b0 b1 b2 b3 :
  0xF0 <= b0 <= 0xF4 -> 0x80 <= b1 <= 0xBF -> 0x80 <= b2 <= 0xBF -> 0x80 <= b3 <= 0xBF ->
  (b0 = 0xF0 -> 0x90 <= b1) -> (b0 = 0xF4 -> b1 <= 0x8F) ->
  let r := b0 mod 8 * 262144 + b1 mod 64 * 4096 + b2 mod 64 * 64 + b3 mod 64 in
  ValidRune r = true /\ utf8_bytes r = [b0; b1; b2; b3].
Proof.
  intros H0 H1 H2 H3 Hlo Hhi r.
  assert (r = (b0 - 0xF0) * 262144 + (b1 - 0x80) * 4096 + (b2 - 0x80) * 64 + (b3 - 0x80)) as Hr
    by (unfold r; dlia).
  clearbody r. unfold ValidRune, utf8_bytes.
  destruct (Z.leb_spec r 0x7F), (Z.leb_spec r 0x7FF), (Z.leb_spec r 0xFFFF); try lia.
  split; [lia|]. repeat f_equal; dlia.
Qed.

Lemma decode_rune_decoded b0 rest : 0 <= b0 -> decoded b0 rest (decode_rune b0 rest).
Proof.
  intros H0. unfold decode_rune, RuneSelf. destruct (Z.ltb_spec b0 0x80).
  { right. unfold ValidRune, utf8_bytes. cbn. destruct (Z.leb_spec b0 127); [|lia].
    split; [lia|done]. }
  destruct (in_rng 0xC2 0xDF b0) eqn:H2; [apply in_rng_spec in H2|].
  { destruct rest as [|b1 r1]; [by left|].
    destruct (in_rng 0x80 0xBF b1) eqn:G1; [apply in_rng_spec in G1|by left]. right.
    cbn [fst snd]. rewrite join2. destruct (utf8_bytes_2 b0 b1 H2 G1) as [? ->]. done. }
  destruct (in_rng 0xE0 0xEF b0) eqn:H3; [apply in_rng_spec in H3|].
  { destruct rest as [|b1 [|b2 r2]]; [by left..|].
    destruct (_ && _) eqn:G; [|by left]. right.
    apply andb_true_iff in G as [G1%in_rng_spec G2%in_rng_spec].
    cbn [fst snd]. rewrite join3.
    destruct (utf8_bytes_3 b0 b1 b2) as [? ->]; try done; repeat case_match; lia. }
  destruct (in_rng 0xF0 0xF4 b0) eqn:H4; [apply in_rng_spec in H4|by left].
  destruct rest as [|b1 [|b2 [|b3 r3]]]; [by left..|].
  destruct (_ && _) eqn:G; [|by left]. right.
  apply andb_true_iff in G as [[G1%in_rng_spec G2%in_rng_spec]%andb_true_iff G3%in_rng_spec].
  cbn [fst snd]. rewrite join4.
  destruct (utf8_bytes_4 b0 b1 b2 b3) as [? ->]; try done; repeat case_match; lia.
Qed.

(** The bytes of a rune: ASCII is itself, all others are at least 0x80. *)
Lemma utf8_bytes_cases r :
  ValidRune r = true ->
  (r <= 0x7F /\ utf8_bytes r = [r]) \/
  (0x7F < r /\ Forall (fun b => 0x80 <= b < 256) (utf8_bytes r) /\ (2 <= length (utf8_bytes r))%nat).
Proof.
  intros Hv. unfold ValidRune in Hv. unfold utf8_bytes.
  destruct (Z.leb_spec r 0x7F); [by left|right]. split; [done|].
  destruct (Z.leb_spec r 0x7FF); [|destruct (Z.leb_spec r 0xFFFF)];
    (split; [repeat apply Forall_cons_2; try apply Forall_nil_2; dlia|simpl; lia]).
Qed.

(** ** Escapes *)

Lemma unhex_lowerhex d : 0 <= d < 16 -> unhex (lowerhex d) = d.
Proof.
  intros Hd. unfold unhex, lowerhex. destruct (Z.ltb_spec d 10).
  - destruct (Z.ltb_spec (48 + d) 58); lia.
  - destruct (Z.ltb_spec (87 + d) 58); lia.
Qed.

Lemma lowerhex_range d : 0 <= d < 16 -> 48 <= lowerhex d <= 102.
Proof. intros Hd. unfold lowerhex. destruct (Z.ltb_spec d 10); lia. Qed.

Lemma hex_digits_range n r : Forall (fun c => 48 <= c <= 102) (hex_digits n r).
Proof. induction n; constructor; [apply lowerhex_range; rewrite land_0F; dlia|done]. Qed.

Lemma unhex_hex2 r : 0 <= r < 256 -> unhex_all (hex_digits 2 r) = r.
Proof.
  intros Hr. cbn [hex_digits unhex_all foldl]. unfold unhex_all. cbn [foldl].
  rewrite !land_0F, !Z.shiftr_div_pow2, !unhex_lowerhex by dlia. cbn. dlia.
Qed.

Lemma unhex_hex4 r : 0 <= r < 0x10000 -> unhex_all (hex_digits 4 r) = r.
Proof.
  intros Hr. unfold unhex_all. cbn [hex_digits foldl].
  rewrite !land_0F, !Z.shiftr_div_pow2, !unhex_lowerhex by dlia. cbn. dlia.
Qed.

Lemma unhex_hex8 r : 0 <= r < 0x110000 -> unhex_all (hex_digits 8 r) = r.
Proof.
  intros Hr. unfold unhex_all. cbn [hex_digits foldl].
  rewrite !land_0F, !Z.shiftr_div_pow2, !unhex_lowerhex by dlia. cbn. dlia.
Qed.

Lemma unescape_plain bs rest :
  Forall (fun b => b <> backslash) bs -> unescape (bs ++ rest) = bs ++ unescape rest.
Proof.
  induction 1 as [|b bs Hb _ IH]; [done|]. simpl. rewrite IH.
  by destruct (Z.eqb_spec b backslash).
Qed.

Lemma unescape_x r rest :
  0 <= r < 256 -> unescape (backslash :: 120 :: hex_digits 2 r ++ rest) = r :: unescape rest.
Proof. intros Hr. rewrite <-(unhex_hex2 r Hr) at 2. done. Qed.

Lemma unescape_u r rest :
  0 <= r < 0x10000 ->
  unescape (backslash :: 117 :: hex_digits 4 r ++ rest) = encode_rune r ++ unescape rest.
Proof. intros Hr. rewrite <-(unhex_hex4 r Hr) at 2. done. Qed.

Lemma unescape_U r rest :
  0 <= r < 0x110000 ->
  unescape (backslash :: 85 :: hex_digits 8 r ++ rest) = encode_rune r ++ unescape rest.
Proof. intros Hr. rewrite <-(unhex_hex8 r Hr) at 2. done. Qed.

Section quote_lemmas.
Context `{PrintTables}.

Lemma short_escape_spec r c :
  short_escape r = Some c ->
  r < 0x20 /\ 97 <= c <= 118 /\
  forall rest, unescape (backslash :: c :: rest) = r :: unescape rest.
Proof.
  unfold short_escape.
  repeat match goal with |- context [(r =? ?n)%Z] => destruct (Z.eqb_spec r n) as [->|?] end;
    intros [= <-]; repeat split; try lia; done.
Qed.

(** What is written for a rune reads back as its bytes. *)
Lemma unescape_escaped r rest :
  ValidRune r = true -> unescape (escaped_rune r ++ rest) = utf8_bytes r ++ unescape rest.
Proof.
  intros Hv. assert (0 <= r < 0x110000) as Hr by (unfold ValidRune in Hv; lia).
  unfold escaped_rune.
  destruct (Z.eqb_spec r dquote) as [->|Hq]; [done|].
  destruct (Z.eqb_spec r backslash) as [->|Hb]; [done|]. cbn [orb].
  destruct (strconv_IsPrint r) eqn:Hp.
  { rewrite encode_rune_bytes by done. apply unescape_plain.
    destruct (utf8_bytes_cases r Hv) as [[_ ->]|(_ & Hall & _)]; [by apply Forall_singleton|].
    eapply Forall_impl; [exact Hall|]. unfold backslash. cbn. lia. }
  destruct (short_escape r) as [c|] eqn:Hs.
  { apply short_escape_spec in Hs as (? & _ & Hs). simpl app. rewrite Hs.
    destruct (utf8_bytes_cases r Hv) as [[_ ->]|[? _]]; [done|lia]. }
  destruct (Z.ltb_spec r 0x20), (Z.eqb_spec r 0x7F); cbn [orb];
    try (cbn [app]; rewrite unescape_x by lia;
         destruct (utf8_bytes_cases r Hv) as [[_ ->]|[? _]]; [done|lia]).
  rewrite Hv. cbn [negb]. rewrite <-encode_rune_bytes by done.
  destruct (Z.ltb_spec r 0x10000); cbn [app]; [by apply unescape_u; lia|by apply unescape_U].
Qed.

(** The text of a rune has no control character. *)
Definition visible (b : Z) : Prop := 0x20 <= b < 256 /\ b <> 0x7F.

Lemma visible_hex n r : Forall visible (hex_digits n r).
Proof. eapply Forall_impl; [apply hex_digits_range|]. unfold visible. cbn. lia. Qed.

Lemma visible_escaped r : ValidRune r = true -> Forall visible (escaped_rune r).
Proof.
  intros Hv. unfold escaped_rune.
  assert (forall b, 0x20 <= b < 0x7F -> visible b) as Hvis by (unfold visible; lia).
  destruct (Z.eqb_spec r dquote) as [->|Hq]; [by repeat (apply Forall_cons_2; [by apply Hvis|])|].
  destruct (Z.eqb_spec r backslash) as [->|Hb];
    [by repeat (apply Forall_cons_2; [by apply Hvis|])|]. cbn [orb].
  destruct (strconv_IsPrint r) eqn:Hp.
  { rewrite encode_rune_bytes by done.
    destruct (utf8_bytes_cases r Hv) as [[Hle ->]|(_ & Hall & _)].
    - apply Forall_singleton. unfold strconv_IsPrint in Hp. unfold visible.
      destruct (Z.leb_spec r 0xFF); [|lia].
      repeat case_match; try done; lia.
    - eapply Forall_impl; [exact Hall|]. unfold visible. cbn. lia. }
  destruct (short_escape r) as [c|] eqn:Hs.
  { apply short_escape_spec in Hs as (_ & Hc & _).
    repeat apply Forall_cons_2; try apply Forall_nil_2; apply Hvis; unfold backslash; lia. }
  repeat case_match; (do 2 (apply Forall_cons_2; [by apply Hvis|])); apply visible_hex.
Qed.

Lemma decode_rune_shorter b0 rest : (length (decode_rune b0 rest).2 <= length rest)%nat.
Proof. unfold decode_rune. repeat case_match; cbn; lia. Qed.

(** The loop: its output is visible and reads back as its input. *)
Lemma quoted_fuel_spec fuel bs :
  (length bs <= fuel)%nat -> Forall is_byte bs ->
  unescape (quoted_fuel fuel bs) = bs /\ Forall visible (quoted_fuel fuel bs).
Proof.
  revert bs. induction fuel as [|k IH]; intros [|b0 rest] Hl Hbs; simpl in Hl; try done; [lia|].
  inversion Hbs as [|? ? H0 Hrest]; subst. cbn [quoted_fuel].
  pose proof (decode_rune_shorter b0 rest) as Hsh.
  destruct (decode_rune_decoded b0 rest (proj1 H0)) as [Hd|[Hv Heq]].
  - rewrite Hd, Z.eqb_refl, bool_decide_true by done. cbn [andb].
    destruct (IH rest) as [IH1 IH2]; [lia|done|]. rewrite unescape_x, IH1 by done.
    split; [done|]. repeat (apply Forall_cons_2; [done|]). apply Forall_app.
    split; [apply visible_hex|done].
  - destruct (decode_rune b0 rest) as [r rest'] eqn:Hd. cbn [fst snd] in *.
    replace ((r =? RuneError) && bool_decide _) with false.
    + destruct (IH rest') as [IH1 IH2]; [lia|..].
      { rewrite Heq in Hbs. by apply Forall_app in Hbs as [_ ?]. }
      rewrite unescape_escaped, IH1 by done. split; [done|].
      apply Forall_app. split; [by apply visible_escaped|done].
    + symmetry. apply andb_false_iff. destruct (Z.eqb_spec r RuneError) as [->|]; [right|by left].
      apply bool_decide_false. apply (f_equal length) in Heq.
      rewrite length_app in Heq. cbn in Heq. lia.
Qed.

Lemma quoted_bytes_visible s : Forall visible (quoted_bytes s).
Proof.
  unfold quoted_bytes. apply Forall_cons_2; [done|]. apply Forall_app.
  split; [apply quoted_fuel_spec; [done|apply bytes_of_bytes]|by apply Forall_singleton].
Qed.

Lemma bytes_of_Quote s : bytes_of (strconv_Quote s) = quoted_bytes s.
Proof.
  apply bytes_of_of_bytes. eapply Forall_impl; [apply quoted_bytes_visible|].
  unfold visible, is_byte. cbn. lia.
Qed.

(** Two strings never have the same quotation. *)
Lemma strconv_Quote_inj s t : strconv_Quote s = strconv_Quote t -> s = t.
Proof.
  intros Heq. apply (f_equal bytes_of) in Heq. rewrite !bytes_of_Quote in Heq.
  unfold quoted_bytes in Heq. injection Heq as Heq. apply app_inj_tail in Heq as [Heq _].
  destruct (quoted_fuel_spec _ (bytes_of s) (le_n _) (bytes_of_bytes s)) as [Hs _].
  destruct (quoted_fuel_spec _ (bytes_of t) (le_n _) (bytes_of_bytes t)) as [Ht _].
  rewrite Heq in Hs. rewrite Hs in Ht.
  by rewrite <-(of_bytes_bytes_of s), <-(of_bytes_bytes_of t), Ht.
Qed.

Lemma strconv_Quote_visible s : Forall visible (bytes_of (strconv_Quote s)).
Proof. rewrite bytes_of_Quote. apply quoted_bytes_visible. Qed.
End quote_lemmas.

#[export] Hint Resolve strconv_Quote_visible : gtc.

Example strconv_Quote_sample :
  bytes_of (@strconv_Quote latin1_tables (of_bytes [97; 10; 34; 0xFF; 0xC3; 0xA9; 0xE2; 0x82; 0xAC]))
  = [34; 97; 92; 110; 92; 34; 92; 120; 102; 102; 0xC3; 0xA9; 92; 117; 50; 48; 97; 99; 34].
Proof. vm_compute. reflexivity. Qed.
