(* ===== verification/GoFlags.v ===== *)
(** Go's [flag] package, as the commands use it: flags that set a variable, and
    [Parse] on the arguments of the process.

    The variables are a state [St]; a flag is its name, whether it is boolean,
    and its method [Set]. [Parse] handles one argument after the other, and a
    failure ends the process with status 2, a request for help with status 0. *)

From S2P Require Import Prelude GoStrings GoPath.
From Stdlib Require Import Ascii.

Definition minus : ascii := "-"%char.
Definition equals : ascii := "="%char.

Record flag (St : Type) := {
  flag_IsBool : bool;
  flag_Set : string -> St -> option St
}.
Arguments flag_IsBool {St}.
Arguments flag_Set {St}.

(** What [Parse] came to: the variables and the arguments that are left, or the
    status of the process. *)
Inductive parsed (St : Type) := Parsed (vars : St) (rest : list string) | Exited (status : Z).
Arguments Parsed {St}.
Arguments Exited {St}.

(** [strconv.ParseBool], of a boolean flag. *)
Definition strconv_ParseBool (s : string) : option bool :=
  if decide (s ∈ ["1"; "t"; "T"; "true"; "TRUE"; "True"]) then Some true
  else if decide (s ∈ ["0"; "f"; "F"; "false"; "FALSE"; "False"]) then Some false
  else None.

(** The name of a flag and its value, if it has one: an equals sign cannot be the
    first character of the name. *)
Definition split_value (name : string) : string * option string :=
  match name with
  | EmptyString => (name, None)
  | String c rest =>
      match strings_Cut equals rest with
      | Some (n, v) => (String c n, Some v)
      | None => (name, None)
      end
  end.

(** What [parseOne] makes of an argument. *)
Inductive argument :=
  | NotAFlag                                  (* parsing stops before it *)
  | Terminator                                (* [--]: parsing stops after it *)
  | BadSyntax
  | FlagArg (name : string) (value : option string).

Definition classify (s : string) : argument :=
  match s with
  | String c (String d rest) =>
      if decide (c <> minus) then NotAFlag
      else
        let flag_of name :=
          match name with
          | EmptyString => BadSyntax
          | String e _ =>
              if decide (e = minus \/ e = equals) then BadSyntax
              else let '(n, v) := split_value name in FlagArg n v
          end in
        if decide (d = minus) then
          match rest with EmptyString => Terminator | _ => flag_of rest end
        else flag_of (String d rest)
  | _ => NotAFlag
  end.

Section flags.
Context {St : Type}.

(** [FlagSet.formal] *)
Abbreviation FlagSet := (gmap string (flag St)).

(** The constructors [StringVar] and [BoolVar]: a flag that writes its variable. *)
Definition StringVar (set : string -> St -> St) : flag St :=
  {| flag_IsBool := false; flag_Set v st := Some (set v st) |}.
Definition BoolVar (set : bool -> St -> St) : flag St :=
  {| flag_IsBool := true; flag_Set v st := (fun b => set b st) <$> strconv_ParseBool v |}.
(** [DurationVar], [Float64Var] and [Var], with what turns the text into a value. *)
Definition ParsedVar {A} (parse : string -> option A) (set : A -> St -> St) : flag St :=
  {| flag_IsBool := false; flag_Set v st := (fun a => set a st) <$> parse v |}.
Definition Var (set : string -> St -> option St) : flag St :=
  {| flag_IsBool := false; flag_Set := set |}.

(** [flag.Parse], with the error handling [ExitOnError]. *)
Fixpoint Parse (formal : FlagSet) (args : list string) (st : St) : parsed St :=
  match args with
  | [] => Parsed st []
  | s :: rest =>
      match classify s with
      | NotAFlag => Parsed st args
      | Terminator => Parsed st rest
      | BadSyntax => Exited 2
      | FlagArg name value =>
          match formal !! name with
          | None => if decide (name = "help" \/ name = "h") then Exited 0 else Exited 2
          | Some f =>
              if flag_IsBool f then
                match flag_Set f (default "true" value) st with
                | Some st' => Parse formal rest st'
                | None => Exited 2
                end
              else
                match value, rest with
                | Some v, _ =>
                    match flag_Set f v st with
                    | Some st' => Parse formal rest st'
                    | None => Exited 2
                    end
                | None, v :: rest' =>
                    match flag_Set f v st with
                    | Some st' => Parse formal rest' st'
                    | None => Exited 2
                    end
                | None, [] => Exited 2
                end
          end
      end
  end.

(** ** What a command line says *)

(** An assignment of a value to a flag, written in one argument or in two, with
    one minus sign or with two. *)
Inductive assignment :=
  | Joined (dashes : bool) (name value : string)
  | Separate (dashes : bool) (name value : string).

Definition assignment_name (a : assignment) : string :=
  match a with Joined _ n _ | Separate _ n _ => n end.
Definition assignment_value (a : assignment) : string :=
  match a with Joined _ _ v | Separate _ _ v => v end.

Definition dashed (two : bool) (n : string) : string := (if two then "--" else "-") +:+ n.

Definition written (a : assignment) : list string :=
  match a with
  | Joined two n v => [dashed two (n +:+ "=" +:+ v)]
  | Separate two n v => [dashed two n; v]
  end.

(** A name that can be written: not empty, without an equals sign, and not
    beginning with a minus sign. *)
Definition flag_name (n : string) : bool :=
  negb (str_mem equals n) &&
  match n with EmptyString => false | String c _ => bool_decide (c <> minus) end.

(** An assignment is to a flag that exists; a boolean flag has its value joined. *)
Definition assignment_ok (formal : FlagSet) (a : assignment) : Prop :=
  flag_name (assignment_name a) = true /\
  exists f, formal !! assignment_name a = Some f /\
    match a with Separate _ _ _ => flag_IsBool f = false | Joined _ _ _ => True end.

(** The assignments, one after the other. *)
Definition assign (formal : FlagSet) (a : assignment) (st : St) : option St :=
  f ← formal !! assignment_name a; flag_Set f (assignment_value a) st.

Fixpoint assign_all (formal : FlagSet) (l : list assignment) (st : St) : option St :=
  match l with
  | [] => Some st
  | a :: l' => st' ← assign formal a st; assign_all formal l' st'
  end.

(** ** Lemmas *)

Lemma flag_name_spec n :
  flag_name n = true ->
  exists c n', n = String c n' /\ c <> minus /\ c <> equals /\ str_mem equals n' = false.
Proof.
  unfold flag_name. destruct n as [|c n']; [by rewrite andb_false_r|].
  intros [He Hc%bool_decide_eq_true]%andb_true_iff. apply negb_true_iff in He.
  cbn [str_mem] in He. apply orb_false_iff in He as [He1%bool_decide_eq_false He2].
  exists c, n'. naive_solver.
Qed.

(** One minus sign or two before a text that begins like a name. *)
Lemma classify_dashed two c t :
  c <> minus -> c <> equals ->
  classify (dashed two (String c t)) = let '(n, v) := split_value (String c t) in FlagArg n v.
Proof.
  intros Hm He. unfold classify, dashed. destruct two.
  - change ("--" +:+ String c t) with (String minus (String minus (String c t))).
    destruct (decide (minus <> minus)); [done|]. destruct (decide (minus = minus)); [|done].
    by destruct (decide (c = minus \/ c = equals)) as [[]|].
  - change ("-" +:+ String c t) with (String minus (String c t)).
    destruct (decide (minus <> minus)); [done|]. destruct (decide (c = minus)); [done|].
    by destruct (decide (c = minus \/ c = equals)) as [[]|].
Qed.

Lemma classify_separate two n : flag_name n = true -> classify (dashed two n) = FlagArg n None.
Proof.
  intros (c & n' & -> & Hm & He & Hn)%flag_name_spec. rewrite classify_dashed by done.
  unfold split_value. by apply strings_Cut_None in Hn as ->.
Qed.

Lemma classify_joined two n v :
  flag_name n = true -> classify (dashed two (n +:+ "=" +:+ v)) = FlagArg n (Some v).
Proof.
  intros (c & n' & -> & Hm & He & Hn)%flag_name_spec.
  change (String c n' +:+ "=" +:+ v) with (String c (n' +:+ String equals v)).
  rewrite classify_dashed by done. unfold split_value. by rewrite strings_Cut_app.
Qed.

Lemma Parse_written formal a rest st st' :
  assignment_ok formal a -> assign formal a st = Some st' ->
  Parse formal (written a ++ rest) st = Parse formal rest st'.
Proof.
  intros (Hn & f & Hf & Hb) Ha. unfold assign in Ha. rewrite Hf in Ha. cbn in Ha.
  destruct a as [two n v|two n v]; cbn in *.
  - rewrite classify_joined, Hf, Ha by done. cbn. by rewrite Ha, Tauto.if_same.
  - by rewrite classify_separate, Hf, Hb, Ha.
Qed.

(** Where the flags end: nothing is left, or an argument that is no flag, or the
    terminator [--]. *)
Definition ends_flags (rest : list string) : bool :=
  match rest with
  | [] => true
  | s :: _ => match classify s with NotAFlag | Terminator => true | _ => false end
  end.

(** A command line that writes assignments, then the end of the flags, sets the
    variables in order. *)
Lemma Parse_assignments formal l rest st st' :
  Forall (assignment_ok formal) l -> ends_flags rest = true ->
  assign_all formal l st = Some st' ->
  exists left, Parse formal ((l ≫= written) ++ rest) st = Parsed st' left.
Proof.
  intros Hl Hrest. revert st. induction Hl as [|a l Ha _ IH]; intros st Hst.
  - injection Hst as ->. destruct rest as [|s rest]; cbn in *; [by eexists|].
    destruct (classify s); [by eexists..|done|done].
  - cbn [assign_all] in Hst. destruct (assign formal a st) as [st1|] eqn:Hs; [|done].
    change ((a :: l) ≫= written) with (written a ++ (l ≫= written)).
    rewrite <-app_assoc, (Parse_written formal a _ st st1) by done. by apply IH.
Qed.
End flags.
