(* ===== verification/GoHash.v ===== *)
(** Go's [crypto/sha256] and [encoding/base64] (the standard alphabet with
    padding), on lists of bytes.

    The digest is the SHA-256 of FIPS 180-4: padding, message schedule and 64
    rounds per block, with every word kept modulo 2^32. The examples at the end
    are published test vectors. *)

From S2P Require Import Prelude GoStrings.

(** ** SHA-256 *)

Definition mask32 : Z := 0xFFFFFFFF.
Definition add32 (a b : Z) : Z := Z.land (a + b) mask32.
Definition rotr (x : Z) (n : Z) : Z :=
  Z.lor (Z.shiftr x n) (Z.land (Z.shiftl x (32 - n)) mask32).
Definition not32 (x : Z) : Z := Z.lxor x mask32.

(** The constants of FIPS 180-4, from their definition: the first 32 bits of
    the fractional parts of the cube roots of the first 64 primes for the
    rounds, and of the square roots of the first 8 primes for the initial
    state. *)
Definition is_prime (n : nat) : bool :=
  (2 <=? n) && forallb (fun d => negb (n mod d =? 0)) (seq 2 (n - 2)).

Definition primes : list nat :=
  Eval vm_compute in List.filter is_prime (seq 0 312).

(** The greatest [r] with [r ^ 3 <= n], bit by bit from [2 ^ (k - 1)]. *)
Fixpoint cube_root (k : nat) (n r : Z) : Z :=
  match k with
  | 0 => r
  | S k =>
      let r' := (r + Z.shiftl 1 (Z.of_nat k))%Z in
      cube_root k n (if (r' * r' * r' <=? n)%Z then r' else r)
  end.

Definition sha_K : list Z :=
  Eval vm_compute in
    (fun p => Z.land (cube_root 36 (Z.shiftl (Z.of_nat p) 96) 0) mask32) <$> primes.

Definition sha_H0 : list Z :=
  Eval vm_compute in
    (fun p => Z.land (Z.sqrt (Z.shiftl (Z.of_nat p) 64)) mask32) <$> take 8 primes.

Definition sha_Ch (x y z : Z) : Z := Z.lxor (Z.land x y) (Z.land (not32 x) z).
Definition sha_Maj (x y z : Z) : Z :=
  Z.lxor (Z.lxor (Z.land x y) (Z.land x z)) (Z.land y z).
Definition sha_S0 (x : Z) : Z := Z.lxor (Z.lxor (rotr x 2) (rotr x 13)) (rotr x 22).
Definition sha_S1 (x : Z) : Z := Z.lxor (Z.lxor (rotr x 6) (rotr x 11)) (rotr x 25).
Definition sha_s0 (x : Z) : Z := Z.lxor (Z.lxor (rotr x 7) (rotr x 18)) (Z.shiftr x 3).
Definition sha_s1 (x : Z) : Z := Z.lxor (Z.lxor (rotr x 17) (rotr x 19)) (Z.shiftr x 10).

(** The message schedule, kept last word first: the word [t] needs the words
    [t-2], [t-7], [t-15] and [t-16]. *)
Fixpoint sha_schedule (n : nat) (w : list Z) : list Z :=
  match n with
  | 0 => w
  | S k =>
      let at_ i := nth i w 0%Z in
      let x := add32 (add32 (sha_s1 (at_ 1)) (at_ 6)) (add32 (sha_s0 (at_ 14)) (at_ 15)) in
      sha_schedule k (x :: w)
  end.

Definition sha_round (st : list Z) (kw : Z * Z) : list Z :=
  match st with
  | [a; b; c; d; e; f; g; h] =>
      let t1 := add32 (add32 h (sha_S1 e)) (add32 (sha_Ch e f g) (add32 (fst kw) (snd kw))) in
      let t2 := add32 (sha_S0 a) (sha_Maj a b c) in
      [add32 t1 t2; a; b; c; add32 d t1; e; f; g]
  | _ => st
  end.

Definition sha_block (h : list Z) (words : list Z) : list Z :=
  let w := reverse (sha_schedule 48 (reverse words)) in
  zip_with add32 h (foldl sha_round h (zip sha_K w)).

(** Big-endian words of a list of bytes. *)
Fixpoint be_words (bs : list Z) : list Z :=
  match bs with
  | a :: b :: c :: d :: bs' => (((a * 256 + b) * 256 + c) * 256 + d)%Z :: be_words bs'
  | _ => []
  end.

Definition be_bytes (x : Z) : list Z :=
  [Z.land (Z.shiftr x 24) 255; Z.land (Z.shiftr x 16) 255;
   Z.land (Z.shiftr x 8) 255; Z.land x 255]%Z.

Definition sha_pad (bs : list Z) : list Z :=
  let n := length bs in
  let zeros := (119 - n mod 64) mod 64 in
  let bits := (8 * Z.of_nat n)%Z in
  bs ++ [0x80]%Z ++ replicate zeros 0%Z ++ be_bytes (Z.shiftr bits 32) ++ be_bytes bits.

Fixpoint sha_blocks (fuel : nat) (h : list Z) (ws : list Z) : list Z :=
  match fuel with
  | 0 => h
  | S k => match ws with
           | [] => h
           | _ => sha_blocks k (sha_block h (take 16 ws)) (drop 16 ws)
           end
  end.

(** [sha256.New], a number of [Write] calls with the bytes [bs] in all, and
    [Sum(nil)]. *)
Definition sha256_sum (bs : list Z) : list Z :=
  let ws := be_words (sha_pad bs) in
  sha_blocks (length ws) sha_H0 ws ≫= be_bytes.

(** ** Base64 *)

Definition b64_alphabet : string :=
  "ABCDEFGHIJKLMNOPQRSTUVWXYZabcdefghijklmnopqrstuvwxyz0123456789+/".

Definition b64_char (i : Z) : Z := nth (Z.to_nat i) (bytes_of b64_alphabet) 0%Z.
Definition b64_padding : Z := 61.

(** [base64.StdEncoding.Encode] *)
Fixpoint b64_encode (bs : list Z) : list Z :=
  match bs with
  | [] => []
  | [a] =>
      [b64_char (Z.shiftr a 2); b64_char (Z.shiftl (Z.land a 3) 4); b64_padding; b64_padding]
  | [a; b] =>
      [b64_char (Z.shiftr a 2);
       b64_char (Z.lor (Z.shiftl (Z.land a 3) 4) (Z.shiftr b 4));
       b64_char (Z.shiftl (Z.land b 15) 2); b64_padding]
  | a :: b :: c :: bs' =>
      b64_char (Z.shiftr a 2)
      :: b64_char (Z.lor (Z.shiftl (Z.land a 3) 4) (Z.shiftr b 4))
      :: b64_char (Z.lor (Z.shiftl (Z.land b 15) 2) (Z.shiftr c 6))
      :: b64_char (Z.land c 63) :: b64_encode bs'
  end.

(** ** Lemmas *)

Lemma sha_round_length st kw : length st = 8 -> length (sha_round st kw) = 8.
Proof. intros Hst. do 9 (destruct st as [|? st]; [done|]). done. Qed.

Lemma sha_block_length h ws : length h = 8 -> length (sha_block h ws) = 8.
Proof.
  intros Hh. unfold sha_block. rewrite length_zip_with, Hh.
  enough (forall l st, length st = 8 -> length (foldl sha_round st l) = 8) as ->; [done..|].
  induction l as [|kw l IH]; intros st Hst; simpl; [done|]. apply IH. by apply sha_round_length.
Qed.

Lemma sha_blocks_length fuel h ws : length h = 8 -> length (sha_blocks fuel h ws) = 8.
Proof.
  revert h ws; induction fuel as [|k IH]; intros h ws Hh; simpl; [done|].
  destruct ws; [done|]. apply IH. by apply sha_block_length.
Qed.

(** A digest has 32 bytes, whatever was written. *)
Lemma sha256_sum_length bs : length (sha256_sum bs) = 32.
Proof.
  unfold sha256_sum. pose proof (sha_blocks_length (length (be_words (sha_pad bs)))
    sha_H0 (be_words (sha_pad bs)) eq_refl) as H.
  destruct (sha_blocks _ _ _) as [|? [|? [|? [|? [|? [|? [|? [|? [|]]]]]]]]]; done.
Qed.

Lemma b64_encode_length_3 bs n : length bs = 3 * n -> length (b64_encode bs) = 4 * n.
Proof.
  revert bs; induction n as [|n IH]; intros bs Hbs; [by destruct bs|].
  destruct bs as [|a [|b [|c bs]]]; simpl in Hbs; try lia.
  cbn [b64_encode length]. rewrite IH; lia.
Qed.

Lemma b64_encode_app xs ys n :
  length xs = 3 * n -> b64_encode (xs ++ ys) = b64_encode xs ++ b64_encode ys.
Proof.
  revert xs; induction n as [|n IH]; intros xs Hxs; [by destruct xs|].
  destruct xs as [|a [|b [|c xs]]]; simpl in Hxs; try lia.
  cbn [app b64_encode]. rewrite IH by lia. done.
Qed.

(** The encoding of a digest has 44 characters. *)
Lemma b64_digest_length bs : length (b64_encode (sha256_sum bs)) = 44.
Proof.
  pose proof (sha256_sum_length bs) as H.
  rewrite <-(take_drop 30 (sha256_sum bs)).
  rewrite (b64_encode_app _ _ 10) by (rewrite length_take; lia).
  rewrite length_app, (b64_encode_length_3 _ 10) by (rewrite length_take; lia).
  pose proof (length_drop (sha256_sum bs) 30) as Hd. rewrite H in Hd.
  destruct (drop 30 (sha256_sum bs)) as [|a [|b [|c l]]]; simpl in Hd; try lia. done.
Qed.

Lemma of_bytes_length l : String.length (of_bytes l) = length l.
Proof. induction l; simpl; congruence. Qed.

Example sha256_vectors :
  of_bytes (b64_encode (sha256_sum [])) = "47DEQpj8HBSa+/TImW+5JCeuQeRkm5NMpJWZG3hSuFU=" /\
  of_bytes (b64_encode (sha256_sum (bytes_of "abc")))
    = "ungWv48Bz+pBQUDeXa4iI7ADYaOWF3qctBD/YfIAFa0=" /\
  of_bytes (b64_encode (sha256_sum
      (bytes_of "abcdbcdecdefdefgefghfghighijhijkijkljklmklmnlmnomnopnopq")))
    = "JI1qYdIGOLjlwCaTDD5gOaM85Flk/yFn9uzt1BnbBsE=".
Proof. by vm_compute. Qed.
