(* ===== verification/Api.v ===== *)
(** The [GRPCListener] custom resource: the types of package [v1alpha1]
    ([api/gtc/v1alpha1/types.go], [interceptor.go], [matcher.go],
    [register.go]) and their methods [MethodMatcher.Path] and
    [ServiceMatcher.Prefix].

    A field [F] of the Go struct [T] is the projection [T_F]. A pointer is an
    [option], a slice a [list], an integer a [Z] within the range of its type,
    a [metav1.Duration] its number of nanoseconds. *)

From S2P Require Import Prelude GoStrings GoPath.

(** [metav1.Duration] and [metav1.ObjectMeta], with the fields the controller
    reads. *)
Definition Duration := Z.

Record ObjectMeta := {
  ObjectMeta_Name : string;
  ObjectMeta_Namespace : string;
  ObjectMeta_ResourceVersion : string;
  ObjectMeta_Labels : gmap string string
}.

(** ** matcher.go *)

Record RegexMatcher := { RegexMatcher_Regex : string; RegexMatcher_Engine : string }.

Record RangeMatcher := { RangeMatcher_Start : Z; RangeMatcher_End : Z }.

Record HeaderMatcher := {
  HeaderMatcher_Name : string;
  HeaderMatcher_Exact : option string;
  HeaderMatcher_Regex : option RegexMatcher;
  HeaderMatcher_Range : option RangeMatcher;
  HeaderMatcher_Present : option bool;
  HeaderMatcher_Prefix : option string;
  HeaderMatcher_Suffix : option string;
  HeaderMatcher_Invert : bool
}.

Record Fraction := { Fraction_Numerator : Z; Fraction_Denominator : string }.

(** ** interceptor.go *)

Inductive MetadataFault := mkMetadataFault.

Record FaultDelay := {
  FaultDelay_Fixed : option Duration;
  FaultDelay_Metadata : option MetadataFault;
  FaultDelay_Percentage : option Fraction
}.

Record FaultAbort := {
  FaultAbort_Code : option Z;
  FaultAbort_Metadata : option MetadataFault;
  FaultAbort_Percentage : option Fraction
}.

Record FaultInterceptor := {
  FaultInterceptor_Delay : option FaultDelay;
  FaultInterceptor_Abort : option FaultAbort;
  FaultInterceptor_MaxActiveFaults : option Z;
  FaultInterceptor_Headers : list HeaderMatcher
}.

Record Interceptor := { Interceptor_Fault : option FaultInterceptor }.

(** ** types.go *)

Record PortRef := { PortRef_Number : Z; PortRef_Name : string }.

Record ServiceRef := {
  ServiceRef_Name : string;
  ServiceRef_Namespace : string;
  ServiceRef_Port : PortRef
}.

Record Locality := {
  Locality_Weight : Z;
  Locality_Priority : Z;
  Locality_Service : option ServiceRef
}.

Record RingHashConfig := {
  RingHashConfig_MinRingSize : Z;
  RingHashConfig_MaxRingSize : Z
}.

Record Backend := {
  Backend_Weight : Z;
  Backend_MaxRequests : option Z;
  Backend_LBPolicy : string;
  Backend_RingHashConfig : option RingHashConfig;
  Backend_Interceptors : list Interceptor;
  Backend_Service : option ServiceRef;
  Backend_Localities : list Locality
}.

Record MethodMatcher := {
  MethodMatcher_Namespace : string;
  MethodMatcher_Service : string;
  MethodMatcher_Method : string
}.

Record ServiceMatcher := {
  ServiceMatcher_Namespace : string;
  ServiceMatcher_Service : string
}.

Record MetadataMatcher := {
  MetadataMatcher_Name : string;
  MetadataMatcher_Exact : option string;
  MetadataMatcher_Regex : option RegexMatcher;
  MetadataMatcher_Range : option RangeMatcher;
  MetadataMatcher_Present : option bool;
  MetadataMatcher_Prefix : option string;
  MetadataMatcher_Suffix : option string;
  MetadataMatcher_Invert : bool
}.

Record RouteMatcher := {
  RouteMatcher_Method : option MethodMatcher;
  RouteMatcher_Service : option ServiceMatcher;
  RouteMatcher_Namespace : option string;
  RouteMatcher_Metadata : list MetadataMatcher;
  RouteMatcher_Fraction : option Fraction
}.

Record RetryBackoff := {
  RetryBackoff_BaseInterval : Duration;
  RetryBackoff_MaxInterval : option Duration
}.

Record RetryPolicy := {
  RetryPolicy_RetryOn : list string;
  RetryPolicy_NumRetries : option Z;
  RetryPolicy_Backoff : option RetryBackoff
}.

Record HashPolicy := {
  HashPolicy_Metadata : string;
  HashPolicy_Channel : option bool;
  HashPolicy_Terminal : bool
}.

Record Route := {
  Route_Matcher : option RouteMatcher;
  Route_Interceptors : list Interceptor;
  Route_HashPolicy : list HashPolicy;
  Route_MaxStreamDuration : option Duration;
  Route_GrpcTimeoutHeaderMax : option Duration;
  Route_Retry : option RetryPolicy;
  Route_Backends : list Backend
}.

Record GRPCListenerSpec := {
  GRPCListenerSpec_MaxStreamDuration : option Duration;
  GRPCListenerSpec_Interceptors : list Interceptor;
  GRPCListenerSpec_Retry : option RetryPolicy;
  GRPCListenerSpec_Routes : list Route
}.

Record GRPCListener := {
  GRPCListener_ObjectMeta : ObjectMeta;
  GRPCListener_Spec : GRPCListenerSpec
}.

(** Promoted fields of the embedded [ObjectMeta]. *)
Definition GRPCListener_Name (l : GRPCListener) : string :=
  ObjectMeta_Name (GRPCListener_ObjectMeta l).
Definition GRPCListener_Namespace (l : GRPCListener) : string :=
  ObjectMeta_Namespace (GRPCListener_ObjectMeta l).
Definition GRPCListener_ResourceVersion (l : GRPCListener) : string :=
  ObjectMeta_ResourceVersion (GRPCListener_ObjectMeta l).
Definition GRPCListener_Routes (l : GRPCListener) : list Route :=
  GRPCListenerSpec_Routes (GRPCListener_Spec l).

(** [func (mm *MethodMatcher) Path() string] *)
Definition MethodMatcher_Path (mm : MethodMatcher) : string :=
  "/" +:+ path_Join
    [MethodMatcher_Namespace mm +:+ "." +:+ MethodMatcher_Service mm;
     MethodMatcher_Method mm].

(** [func (sm *ServiceMatcher) Prefix() string] *)
Definition ServiceMatcher_PrefixPath (sm : ServiceMatcher) : string :=
  "/" +:+ ServiceMatcher_Namespace sm +:+ "." +:+ ServiceMatcher_Service sm.

(** ** register.go *)

Record GroupResource := { GroupResource_Group : string; GroupResource_Resource : string }.

Definition GroupName : string := "api.gtc.dev".

Definition Resource (resource : string) : GroupResource :=
  {| GroupResource_Group := GroupName; GroupResource_Resource := resource |}.

(** Names as Kubernetes admits them for namespaces and objects are clean path
    elements (RFC 1123 labels and subdomains: no slash, not empty, and they
    start with an alphanumeric character). *)
Definition well_named (l : GRPCListener) : Prop :=
  is_segment (GRPCListener_Namespace l) = true /\ is_segment (GRPCListener_Name l) = true.

Global Instance GroupResource_eq_dec : EqDecision GroupResource.
Proof. solve_decision. Defined.

(** ** Lemmas *)

(** For names without dots-only or slashed parts the path of a method is the
    one gRPC uses on the wire. *)
Lemma MethodMatcher_Path_segments mm :
  is_segment (MethodMatcher_Namespace mm +:+ "." +:+ MethodMatcher_Service mm) = true ->
  is_segment (MethodMatcher_Method mm) = true ->
  MethodMatcher_Path mm =
    "/" +:+ (MethodMatcher_Namespace mm +:+ "." +:+ MethodMatcher_Service mm)
        +:+ "/" +:+ MethodMatcher_Method mm.
Proof.
  intros Hs Hm. unfold MethodMatcher_Path. f_equal. rewrite path_Join_segments; [done|].
  by repeat constructor.
Qed.
