(* ===== verification/Errors.v ===== *)
(** The errors the controller returns, and the text of the error types whose
    [Error] method formats its fields with [%s] and [%d]. *)

From S2P Require Import Prelude GoStrings GoPath GoStrconv Api.

Inductive error :=
  | errorString (text : string)                       (* errors.New *)
  | unsupportedEngine (engine : string)               (* makeRegexMatcher *)
  | unsupportedDenominator (denominator : string)     (* makeFractionalPercent *)
  | malformedListenerResourceNameError (resourceName : string)
  | malformedResourceNameErr (resourceName : string)
  | routeNotFoundError (wantRouteID : Z) (listener : GRPCListener)
  | backendNotFoundError (routeID wantBackendID : Z) (listener : GRPCListener)
  | unsupportedResourceType (typeUrl : string)
  | unknownProviderError (providerType : string)
  | notFoundError (resource : GroupResource) (name : string)
  | unableToBind (err : error)                        (* XDSServer.Run, wrapped *)
  | statusError (code : Z) (message : string)          (* status.Error of grpc *)
  | libraryError (text : string).                     (* returned by a dependency *)

(** The result of a call that returns a value and an [error]. *)
Abbreviation M := (outcome error).

(** [func (m malformedListenerResourceNameError) Error() string] *)
Definition malformedListenerResourceNameError_Error (m : string) : string :=
  "could not parse listener resource name " +:+ m.

(** [func (c *routeNotFoundError) Error() string] *)
Definition routeNotFoundError_Error (wantRouteID : Z) (listener : GRPCListener) : string :=
  "route " +:+ Itoa wantRouteID +:+ " does not exist on GRPCListener "
  +:+ GRPCListener_Namespace listener +:+ "/" +:+ GRPCListener_Name listener.

(** [func (c *backendNotFoundError) Error() string] *)
Definition backendNotFoundError_Error (routeID wantBackendID : Z) (listener : GRPCListener)
  : string :=
  "backend with ID " +:+ Itoa wantBackendID +:+ " does not exist under the route "
  +:+ Itoa routeID +:+ " of the GRPCListener "
  +:+ GRPCListener_Namespace listener +:+ "/" +:+ GRPCListener_Name listener.
