(* ===== verification/Xds.v ===== *)
(** The xDS messages the controller builds, the libraries it builds them with,
    and the helpers of [gtc/xds.go].

    The message types belong to go-control-plane and to the protobuf runtime;
    each record has the fields the controller sets, under the Go field names.
    A oneof is an inductive type. What the controller calls in those libraries
    is the parameter [XdsLibrary]; what it relies on is [XdsLaws]. *)

From S2P Require Import Prelude GoStrings Api Errors.

(** ** Protobuf well-known types *)

Record Any := { Any_TypeUrl : string; Any_Value : string }.
Record DurationPB := { DurationPB_Seconds : Z; DurationPB_Nanos : Z }.
Record UInt32Value := { UInt32Value_Value : Z }.
Record UInt64Value := { UInt64Value_Value : Z }.
Record BoolValue := { BoolValue_Value : bool }.

(** [wrapperspb.UInt32] and [wrapperspb.UInt64] *)
Definition wrapperspb_UInt32 (v : Z) : UInt32Value := {| UInt32Value_Value := v |}.
Definition wrapperspb_UInt64 (v : Z) : UInt64Value := {| UInt64Value_Value := v |}.

(** ** Envoy messages, one module per Go import alias *)

Module typev3.
Record FractionalPercent := {
  FractionalPercent_Numerator : Z;
  FractionalPercent_Denominator : Z
}.
Record Int64Range := { Int64Range_Start : Z; Int64Range_End : Z }.
End typev3.

Module matcher.
(** The engine is always [GoogleRe2]. *)
Record RegexMatcher := { RegexMatcher_Regex : string }.
End matcher.

Module core.
Record RuntimeFractionalPercent := {
  RuntimeFractionalPercent_DefaultValue : typev3.FractionalPercent
}.
Record Locality := { Locality_Zone : string; Locality_SubZone : string }.
Record Node := { Node_Id : string; Node_Locality : option Locality }.
(** A TCP [SocketAddress] with a port value. *)
Record Address := { Address_Address : string; Address_PortValue : Z }.
Inductive ConfigSource := ConfigSource_Ads.
End core.

Module faultv3.
Inductive FaultDelaySecifier := FixedDelay (d : DurationPB) | HeaderDelay.
Record FaultDelay := {
  FaultDelay_FaultDelaySecifier : FaultDelaySecifier;
  FaultDelay_Percentage : option typev3.FractionalPercent
}.
Inductive ErrorType := GrpcStatus (code : Z) | HeaderAbort.
Record FaultAbort := {
  FaultAbort_ErrorType : ErrorType;
  FaultAbort_Percentage : option typev3.FractionalPercent
}.
Record HTTPFault := {
  HTTPFault_Delay : option FaultDelay;
  HTTPFault_Abort : option FaultAbort;
  HTTPFault_MaxActiveFaults : option UInt32Value
}.
End faultv3.

Module route.
Inductive PathSpecifier := RouteMatch_Prefix (p : string) | RouteMatch_Path (p : string).
Inductive HeaderMatchSpecifier :=
  | ExactMatch (v : string)
  | SafeRegexMatch (r : matcher.RegexMatcher)
  | RangeMatch (r : typev3.Int64Range)
  | PresentMatch (b : bool)
  | PrefixMatch (p : string)
  | SuffixMatch (p : string).
Record HeaderMatcher := {
  HeaderMatcher_Name : string;
  HeaderMatcher_InvertMatch : bool;
  HeaderMatcher_HeaderMatchSpecifier : HeaderMatchSpecifier
}.
Record RouteMatch := {
  RouteMatch_PathSpecifier : PathSpecifier;
  RouteMatch_RuntimeFraction : option core.RuntimeFractionalPercent;
  RouteMatch_Headers : list HeaderMatcher
}.
Record ClusterWeight := {
  ClusterWeight_Name : string;
  ClusterWeight_Weight : UInt32Value;
  ClusterWeight_TypedPerFilterConfig : gmap string Any
}.
Record WeightedCluster := {
  WeightedCluster_TotalWeight : UInt32Value;
  WeightedCluster_Clusters : list ClusterWeight
}.
Record RetryBackOff := {
  RetryBackOff_BaseInterval : DurationPB;
  RetryBackOff_MaxInterval : option DurationPB
}.
Record RetryPolicy := {
  RetryPolicy_RetryOn : string;
  RetryPolicy_NumRetries : UInt32Value;
  RetryPolicy_RetryBackOff : option RetryBackOff
}.
Inductive PolicySpecifier := HashHeader (name : string) | HashFilterState (key : string).
Record HashPolicy := {
  HashPolicy_PolicySpecifier : PolicySpecifier;
  HashPolicy_Terminal : bool
}.
Record MaxStreamDuration := {
  MaxStreamDuration_MaxStreamDuration : option DurationPB;
  MaxStreamDuration_GrpcTimeoutHeaderMax : option DurationPB
}.
Record RouteAction := {
  RouteAction_HashPolicy : list HashPolicy;
  RouteAction_RetryPolicy : option RetryPolicy;
  RouteAction_MaxStreamDuration : MaxStreamDuration;
  RouteAction_WeightedClusters : WeightedCluster
}.
Record Route := {
  Route_Match : RouteMatch;
  Route_TypedPerFilterConfig : gmap string Any;
  Route_Route : RouteAction
}.
Record VirtualHost := {
  VirtualHost_Name : string;
  VirtualHost_Domains : list string;
  VirtualHost_Routes : list Route;
  VirtualHost_RetryPolicy : option RetryPolicy
}.
Record RouteConfiguration := {
  RouteConfiguration_Name : string;
  RouteConfiguration_ValidateClusters : BoolValue;
  RouteConfiguration_VirtualHosts : list VirtualHost
}.
End route.

Module hcm.
Record HttpFilter := { HttpFilter_Name : string; HttpFilter_TypedConfig : Any }.
Record HttpConnectionManager := {
  HttpConnectionManager_MaxStreamDuration : option DurationPB;
  HttpConnectionManager_RouteConfig : route.RouteConfiguration;
  HttpConnectionManager_HttpFilters : list HttpFilter
}.
End hcm.

Module listenerv3.
Record Listener := { Listener_Name : string; Listener_ApiListener : Any }.
End listenerv3.

Module cluster.
Inductive LbPolicy := ROUND_ROBIN | RING_HASH.
Record EdsClusterConfig := {
  EdsClusterConfig_EdsConfig : core.ConfigSource;
  EdsClusterConfig_ServiceName : string
}.
Record Thresholds := { Thresholds_MaxRequests : UInt32Value }.
Record CircuitBreakers := { CircuitBreakers_Thresholds : list Thresholds }.
Inductive HashFunction := XX_HASH.
Record RingHashLbConfig := {
  RingHashLbConfig_MinimumRingSize : UInt64Value;
  RingHashLbConfig_MaximumRingSize : UInt64Value;
  RingHashLbConfig_HashFunction : HashFunction
}.
Inductive DiscoveryType := EDS.
Record Cluster := {
  Cluster_Name : string;
  Cluster_LbPolicy : LbPolicy;
  Cluster_Type : DiscoveryType;
  Cluster_EdsClusterConfig : EdsClusterConfig;
  Cluster_CircuitBreakers : option CircuitBreakers;
  Cluster_LbConfig : option RingHashLbConfig
}.
End cluster.

Module endpointv3.
Record LbEndpoint := { LbEndpoint_Address : core.Address }.
Record LocalityLbEndpoints := {
  LocalityLbEndpoints_Locality : core.Locality;
  LocalityLbEndpoints_LoadBalancingWeight : UInt32Value;
  LocalityLbEndpoints_Priority : Z;
  LocalityLbEndpoints_LbEndpoints : list LbEndpoint
}.
Record ClusterLoadAssignment := {
  ClusterLoadAssignment_ClusterName : string;
  ClusterLoadAssignment_Endpoints : list LocalityLbEndpoints
}.
End endpointv3.

(** The messages the controller marshals. *)
Inductive ProtoMessage :=
  | MRouter
  | MHTTPFault (m : faultv3.HTTPFault)
  | MHttpConnectionManager (m : hcm.HttpConnectionManager)
  | MListener (m : listenerv3.Listener)
  | MCluster (m : cluster.Cluster)
  | MClusterLoadAssignment (m : endpointv3.ClusterLoadAssignment).

(** ** The libraries *)

Class XdsLibrary := {
  (** the type URLs of [pkg/resource/v3] *)
  ListenerType : string;
  ClusterType : string;
  EndpointType : string;
  (** the filter names of [pkg/wellknown] *)
  wellknown_Router : string;
  wellknown_Fault : string;
  (** the generated map [FractionalPercent_DenominatorType_value] *)
  DenominatorType_value : string -> option Z;
  durationpb_New : Duration -> DurationPB;
  anypb_New : ProtoMessage -> M Any;
  (** [proto.MarshalOptions{Deterministic: true}.Marshal] *)
  proto_Marshal : ProtoMessage -> M string
}.

Class XdsLaws `{XdsLibrary} : Prop := {
  listener_cluster_type : ListenerType <> ClusterType;
  listener_endpoint_type : ListenerType <> EndpointType;
  cluster_endpoint_type : ClusterType <> EndpointType;
  (** the library calls return: they do not panic *)
  proto_Marshal_returns m : no_panic (proto_Marshal m);
  anypb_New_returns m : no_panic (anypb_New m)
}.

(** ** gtc/xds.go *)

Section xds_helpers.
Context `{XdsLibrary, UnicodeTables}.

Definition makeDuration (duration : option Duration) : option DurationPB :=
  match duration with
  | None => None
  | Some d => Some (durationpb_New d)
  end.

(** [mustAny] panics when [anypb.New] fails. *)
Definition mustAny (msg : ProtoMessage) : M Any :=
  match anypb_New msg with
  | Ok p => Ok p
  | Err _ => Panic (PanicValue "mustAny")
  | Panic p => Panic p
  end.

Definition makeFractionalPercent (p : Fraction) : M typev3.FractionalPercent :=
  match DenominatorType_value (strings_ToUpper (Fraction_Denominator p)) with
  | None => Err (unsupportedDenominator (Fraction_Denominator p))
  | Some denominator =>
      Ok {| typev3.FractionalPercent_Numerator := Fraction_Numerator p;
            typev3.FractionalPercent_Denominator := denominator |}
  end.

Definition encodeResource (typ : string) (r : ProtoMessage) : M Any :=
  marshaled ← proto_Marshal r;
  Ok {| Any_TypeUrl := typ; Any_Value := marshaled |}.
End xds_helpers.

(** ** An instance *)

(** A library with the published constants, whose marshaller writes the name of
    the message: enough to evaluate the model on concrete inputs. *)
Definition message_name (m : ProtoMessage) : string :=
  match m with
  | MRouter => "Router"
  | MHTTPFault _ => "HTTPFault"
  | MHttpConnectionManager _ => "HttpConnectionManager"
  | MListener l => "Listener " +:+ listenerv3.Listener_Name l
  | MCluster c => "Cluster " +:+ cluster.Cluster_Name c
  | MClusterLoadAssignment c => "ClusterLoadAssignment "
      +:+ endpointv3.ClusterLoadAssignment_ClusterName c
  end.

Definition sample_xds : XdsLibrary := {|
  ListenerType := "type.googleapis.com/envoy.config.listener.v3.Listener";
  ClusterType := "type.googleapis.com/envoy.config.cluster.v3.Cluster";
  EndpointType := "type.googleapis.com/envoy.config.endpoint.v3.ClusterLoadAssignment";
  wellknown_Router := "envoy.filters.http.router";
  wellknown_Fault := "envoy.filters.http.fault";
  DenominatorType_value s :=
    if decide (s = "HUNDRED") then Some 0%Z
    else if decide (s = "TEN_THOUSAND") then Some 1%Z
    else if decide (s = "MILLION") then Some 2%Z else None;
  durationpb_New d := {| DurationPB_Seconds := Z.quot d (10 ^ 9);
                         DurationPB_Nanos := Z.rem d (10 ^ 9) |};
  anypb_New m := Ok {| Any_TypeUrl := "type.googleapis.com/" +:+ message_name m;
                       Any_Value := "" |};
  proto_Marshal m := Ok (message_name m)
|}.

Lemma sample_xds_laws : @XdsLaws sample_xds.
Proof. split; done. Qed.

(** ** Lemmas *)

Section xds_lemmas.
Context `{XdsLibrary, UnicodeTables}.

Lemma encodeResource_Ok typ r a :
  encodeResource typ r = Ok a <->
  exists bs, proto_Marshal r = Ok bs /\ a = {| Any_TypeUrl := typ; Any_Value := bs |}.
Proof.
  unfold encodeResource. rewrite bind_Ok. split; intros (bs & ? & Ha); exists bs;
    [injection Ha as <-|subst]; done.
Qed.

Lemma makeFractionalPercent_no_panic p : no_panic (makeFractionalPercent p).
Proof. unfold makeFractionalPercent. by case_match. Qed.
End xds_lemmas.

#[export] Hint Resolve makeFractionalPercent_no_panic : gtc.
