(* ===== verification/ResourceName.v ===== *)
(** The names of xDS resources: [gtc/resource.go] and the listener names of
    [gtc/listener.go].

    A listener resource is named [namespace/name]; a backend, which is both a
    cluster and a load assignment, is named
    [namespace/name/route/<route_id>/backend/<backend_id>]. The theorems are
    the round trips between printing and parsing, and that different backends
    never share a name. *)

From S2P Require Import Prelude GoStrings GoPath GoStrconv Api Errors.

Definition routeConfigName (namespace name : string) : string :=
  path_Join [namespace; name; "routeconfig"].

Definition vHostName (namespace name : string) : string :=
  path_Join [namespace; name; "vhost"].

Definition backendName (namespace name : string) (routeID backendID : Z) : string :=
  path_Join [namespace; name; "route"; Itoa routeID; "backend"; Itoa backendID].

Record parsedBackendName := {
  parsedBackendName_Namespace : string;
  parsedBackendName_ListenerName : string;
  parsedBackendName_RouteID : Z;
  parsedBackendName_BackendID : Z
}.

(** [func (p *parsedBackendName) String() string] *)
Definition parsedBackendName_String (p : parsedBackendName) : string :=
  backendName (parsedBackendName_Namespace p) (parsedBackendName_ListenerName p)
    (parsedBackendName_RouteID p) (parsedBackendName_BackendID p).

Definition parseBackendName (resourceName : string) : M parsedBackendName :=
  match strings_Split slash resourceName with
  | [sp0; sp1; sp2; sp3; sp4; sp5] =>
      match Atoi sp3 with
      | None => Err (malformedResourceNameErr resourceName)
      | Some routeID =>
          match Atoi sp5 with
          | None => Err (malformedResourceNameErr resourceName)
          | Some backendID =>
              Ok {| parsedBackendName_Namespace := sp0;
                    parsedBackendName_ListenerName := sp1;
                    parsedBackendName_RouteID := routeID;
                    parsedBackendName_BackendID := backendID |}
          end
      end
  | _ => Err (malformedResourceNameErr resourceName)
  end.

Definition parseListenerName (resourceName : string) : M (string * string) :=
  match strings_SplitN2 slash resourceName with
  | [sp0; sp1] => Ok (sp0, sp1)
  | _ => Err (malformedListenerResourceNameError resourceName)
  end.

Definition listenerName (namespace name : string) : string := namespace +:+ "/" +:+ name.

Global Instance parsedBackendName_eq_dec : EqDecision parsedBackendName.
Proof. solve_decision. Defined.

(** ** Lemmas *)

Lemma backendName_split ns name r b :
  is_segment ns = true -> is_segment name = true ->
  strings_Split slash (backendName ns name r b)
    = [ns; name; "route"; Itoa r; "backend"; Itoa b].
Proof.
  intros ??. unfold backendName. apply strings_Split_path_Join.
  repeat constructor; auto with gtc.
Qed.

Lemma backendName_join ns name r b :
  is_segment ns = true -> is_segment name = true ->
  backendName ns name r b
    = strings_Join "/" [ns; name; "route"; Itoa r; "backend"; Itoa b].
Proof.
  intros ??. unfold backendName. apply path_Join_segments.
  repeat constructor; auto with gtc.
Qed.

Lemma parse_backendName ns name r b :
  is_segment ns = true -> is_segment name = true -> is_int64 r -> is_int64 b ->
  parseBackendName (backendName ns name r b) =
    Ok {| parsedBackendName_Namespace := ns; parsedBackendName_ListenerName := name;
          parsedBackendName_RouteID := r; parsedBackendName_BackendID := b |}.
Proof.
  intros ????. unfold parseBackendName. rewrite backendName_split by done.
  by rewrite !Atoi_Itoa.
Qed.

(** Whatever the numbers, the parsed name is of the same listener. *)
Lemma parse_backendName_key ns name r b p :
  is_segment ns = true -> is_segment name = true -> parseBackendName (backendName ns name r b) = Ok p ->
  parsedBackendName_Namespace p = ns /\ parsedBackendName_ListenerName p = name.
Proof.
  intros Hns Hname. unfold parseBackendName. rewrite backendName_split by done.
  repeat case_match; try done; intros [= <-]; simplify_eq; done.
Qed.

Lemma parseBackendName_no_slash s p :
  parseBackendName s = Ok p ->
  str_mem slash (parsedBackendName_Namespace p) = false /\
  str_mem slash (parsedBackendName_ListenerName p) = false.
Proof.
  unfold parseBackendName. pose proof (strings_Split_pieces slash s) as Hp.
  destruct (strings_Split slash s) as [|a [|b [|c [|d [|e [|f [|]]]]]]]; try done.
  destruct (Atoi d), (Atoi f); try done. intros [= <-]. cbn. split; apply Hp; set_solver.
Qed.

Lemma parseBackendName_no_panic s : no_panic (parseBackendName s).
Proof. unfold parseBackendName. by repeat case_match. Qed.

Lemma parseListenerName_no_panic s : no_panic (parseListenerName s).
Proof. unfold parseListenerName. by repeat case_match. Qed.

Lemma parseListenerName_Ok s ns name :
  parseListenerName s = Ok (ns, name) <-> s = listenerName ns name /\ str_mem slash ns = false.
Proof.
  unfold parseListenerName, strings_SplitN2, listenerName. split.
  - destruct (strings_Cut slash s) as [[a b]|] eqn:Hcut; [|done]. intros [= -> ->].
    by apply strings_Cut_Some in Hcut.
  - intros [-> Hns]. change ("/" +:+ name) with (String slash name).
    by rewrite strings_Cut_app.
Qed.

Lemma parse_listenerName ns name :
  is_segment ns = true -> parseListenerName (listenerName ns name) = Ok (ns, name).
Proof. intros ?%is_segment_no_slash. by apply parseListenerName_Ok. Qed.

#[export] Hint Resolve parseBackendName_no_panic parseListenerName_no_panic : gtc.

(** ** Properties *)

(** C22: round trip of backend names. For a namespace and a listener name that
    Kubernetes admits and any two 64-bit ids, parsing the name that
    [backendName] prints gives back the four components. *)
Theorem backendName_roundtrip ns name r b :
  is_segment ns = true -> is_segment name = true -> is_int64 r -> is_int64 b ->
  parseBackendName (backendName ns name r b) =
    Ok {| parsedBackendName_Namespace := ns; parsedBackendName_ListenerName := name;
          parsedBackendName_RouteID := r; parsedBackendName_BackendID := b |}.
Proof. apply parse_backendName. Qed.

Lemma backendName_roundtrip_witness :
  parseBackendName (backendName "default" "test-xds" 1 20) =
    Ok {| parsedBackendName_Namespace := "default";
          parsedBackendName_ListenerName := "test-xds";
          parsedBackendName_RouteID := 1; parsedBackendName_BackendID := 20 |}.
Proof. apply backendName_roundtrip; [done|done|by split|by split]. Defined.

(** Listener names. [parseListenerName] accepts exactly the names that
    [listenerName] prints for a namespace without a slash, and returns the two
    parts; a name without a slash is the error that carries that name. *)
Theorem parseListenerName_spec s :
  (forall ns name,
     parseListenerName s = Ok (ns, name) <->
     s = listenerName ns name /\ str_mem slash ns = false) /\
  (str_mem slash s = false ->
     parseListenerName s = Err (malformedListenerResourceNameError s)).
Proof.
  split; [intros; apply parseListenerName_Ok|]. intros Hs.
  unfold parseListenerName, strings_SplitN2. by apply strings_Cut_None in Hs as ->.
Qed.

(** Backend names identify backends. Two backends of admissible listeners
    with the same resource name have the same namespace, listener, route id and
    backend id. *)
Theorem backendName_injective ns1 name1 r1 b1 ns2 name2 r2 b2 :
  is_segment ns1 = true -> is_segment name1 = true -> is_int64 r1 -> is_int64 b1 ->
  is_segment ns2 = true -> is_segment name2 = true -> is_int64 r2 -> is_int64 b2 ->
  backendName ns1 name1 r1 b1 = backendName ns2 name2 r2 b2 ->
  ns1 = ns2 /\ name1 = name2 /\ r1 = r2 /\ b1 = b2.
Proof.
  intros ???????? Heq. apply (f_equal parseBackendName) in Heq.
  rewrite !parse_backendName in Heq by done. by simplify_eq.
Qed.

Lemma backendName_injective_witness :
  backendName "default" "a" 0 1 = backendName "default" "a" 0 (3 - 2) /\
  ("default" = "default" /\ "a" = "a" /\ 0%Z = 0%Z /\ 1%Z = (3 - 2)%Z).
Proof.
  split; [reflexivity|].
  apply (backendName_injective "default" "a" 0 1 "default" "a" 0 (3 - 2)); done.
Defined.
