(* ===== verification/Interceptors.v ===== *)
(** HTTP filters from interceptors: [gtc/interceptor.go].

    The filters of a listener are its interceptors in order, followed by the
    router; routes and backends override filters by name. A malformed
    interceptor makes the whole translation fail. *)

From S2P Require Import Prelude GoStrings Api Errors Xds.

Section interceptors.
Context `{XdsLibrary, UnicodeTables}.

(** The [Delay] part of [makeFaultFilter]. *)
Definition makeFaultDelay (d : FaultDelay) : M faultv3.FaultDelay :=
  specifier ←
    match FaultDelay_Fixed d with
    | Some fixed => Ok (faultv3.FixedDelay (durationpb_New fixed))
    | None =>
        match FaultDelay_Metadata d with
        | Some _ => Ok faultv3.HeaderDelay
        | None => Err (errorString "malformed delay fault filter")
        end
    end;
  percentage ← whenSet makeFractionalPercent (FaultDelay_Percentage d);
  Ok {| faultv3.FaultDelay_FaultDelaySecifier := specifier;
        faultv3.FaultDelay_Percentage := percentage |}.

(** The [Abort] part of [makeFaultFilter]. *)
Definition makeFaultAbort (a : FaultAbort) : M faultv3.FaultAbort :=
  errorType ←
    match FaultAbort_Code a with
    | Some code => Ok (faultv3.GrpcStatus code)
    | None =>
        match FaultAbort_Metadata a with
        | Some _ => Ok faultv3.HeaderAbort
        | None => Err (errorString "malformed abort fault filter")
        end
    end;
  percentage ← whenSet makeFractionalPercent (FaultAbort_Percentage a);
  Ok {| faultv3.FaultAbort_ErrorType := errorType;
        faultv3.FaultAbort_Percentage := percentage |}.

Definition makeFaultFilter (fault : FaultInterceptor) : M faultv3.HTTPFault :=
  delay ← whenSet makeFaultDelay (FaultInterceptor_Delay fault);
  abort ← whenSet makeFaultAbort (FaultInterceptor_Abort fault);
  Ok {| faultv3.HTTPFault_Delay := delay;
        faultv3.HTTPFault_Abort := abort;
        faultv3.HTTPFault_MaxActiveFaults :=
          wrapperspb_UInt32 <$> FaultInterceptor_MaxActiveFaults fault |}.

Definition makeFilter (interceptor : Interceptor) : M hcm.HttpFilter :=
  match Interceptor_Fault interceptor with
  | Some fault =>
      faultFilter ← makeFaultFilter fault;
      cfg ← mustAny (MHTTPFault faultFilter);
      Ok {| hcm.HttpFilter_Name := wellknown_Fault; hcm.HttpFilter_TypedConfig := cfg |}
  | None => Err (errorString "malformed filter")
  end.

Definition makeFilters (interceptors : list Interceptor) : M (list hcm.HttpFilter) :=
  routerConfig ← mustAny MRouter;
  let routerFilter := {| hcm.HttpFilter_Name := wellknown_Router;
                         hcm.HttpFilter_TypedConfig := routerConfig |} in
  if decide (length interceptors = 0) then Ok [routerFilter]
  else
    hcmFilters ← forM makeFilter interceptors;
    Ok (hcmFilters ++ [routerFilter]).

Definition makeFilterOverride (interceptor : Interceptor) : M (string * Any) :=
  match Interceptor_Fault interceptor with
  | Some fault =>
      faultFilter ← makeFaultFilter fault;
      cfg ← mustAny (MHTTPFault faultFilter);
      Ok (wellknown_Fault, cfg)
  | None => Err (errorString "malformed filter override")
  end.

Definition makeFilterOverrides (interceptors : list Interceptor) : M (gmap string Any) :=
  foldM (fun overrides spec =>
           '(name, cfg) ← makeFilterOverride spec; Ok (<[name := cfg]> overrides))
    interceptors ∅.

(** A well-formed interceptor, independent of the code: a fault whose delay and
    abort say what to do and whose percentages have a known denominator. *)
Definition fraction_ok (f : option Fraction) : Prop :=
  match f with
  | Some p => is_Some (DenominatorType_value (strings_ToUpper (Fraction_Denominator p)))
  | None => True
  end.

Definition fault_ok (f : FaultInterceptor) : Prop :=
  (forall d, FaultInterceptor_Delay f = Some d ->
     (is_Some (FaultDelay_Fixed d) \/ is_Some (FaultDelay_Metadata d)) /\
     fraction_ok (FaultDelay_Percentage d)) /\
  (forall a, FaultInterceptor_Abort f = Some a ->
     (is_Some (FaultAbort_Code a) \/ is_Some (FaultAbort_Metadata a)) /\
     fraction_ok (FaultAbort_Percentage a)).

Definition interceptor_ok (i : Interceptor) : Prop :=
  exists f, Interceptor_Fault i = Some f /\ fault_ok f.

(** ** Lemmas *)

Local Ltac solve_is_Some := first [left; by eexists|right; by eexists].

Lemma percentage_is_ok p : is_ok (whenSet makeFractionalPercent p) = true <-> fraction_ok p.
Proof.
  destruct p as [p|]; simpl; [|done]. unfold makeFractionalPercent.
  destruct (DenominatorType_value _); simpl; split; try done; intros [? [=]].
Qed.

Lemma makeFaultDelay_is_ok d :
  is_ok (makeFaultDelay d) = true <->
  (is_Some (FaultDelay_Fixed d) \/ is_Some (FaultDelay_Metadata d)) /\
  fraction_ok (FaultDelay_Percentage d).
Proof.
  rewrite <-percentage_is_ok. unfold makeFaultDelay.
  destruct (FaultDelay_Fixed d); [|destruct (FaultDelay_Metadata d)];
    cbn [mbind outcome_bind]; rewrite ?is_ok_ret; [split; [intros ?; split; [solve_is_Some|done]|by intros [_ ?]]..|].
  split; [done|]. intros [[[? [=]]|[? [=]]] _].
Qed.

Lemma makeFaultAbort_is_ok a :
  is_ok (makeFaultAbort a) = true <->
  (is_Some (FaultAbort_Code a) \/ is_Some (FaultAbort_Metadata a)) /\
  fraction_ok (FaultAbort_Percentage a).
Proof.
  rewrite <-percentage_is_ok. unfold makeFaultAbort.
  destruct (FaultAbort_Code a); [|destruct (FaultAbort_Metadata a)];
    cbn [mbind outcome_bind]; rewrite ?is_ok_ret; [split; [intros ?; split; [solve_is_Some|done]|by intros [_ ?]]..|].
  split; [done|]. intros [[[? [=]]|[? [=]]] _].
Qed.

Lemma makeFaultFilter_is_ok f : is_ok (makeFaultFilter f) = true <-> fault_ok f.
Proof.
  unfold makeFaultFilter, fault_ok.
  setoid_rewrite <-makeFaultDelay_is_ok. setoid_rewrite <-makeFaultAbort_is_ok.
  rewrite <-!whenSet_is_ok, is_ok_bind. setoid_rewrite is_ok_ret.
  split; [intros (a & -> & Ha)|intros [HD HA]]; [by rewrite Ha|].
  apply is_ok_spec in HD as [a Ha]. by exists a.
Qed.

(** Marshalling succeeds on every message: what the translation of a
    well-formed interceptor relies on. *)
Definition marshalling_succeeds : Prop := forall m, exists a, anypb_New m = Ok a.

Lemma mustAny_Ok m : marshalling_succeeds -> exists a, mustAny m = Ok a.
Proof. intros Hany. destruct (Hany m) as [a Ha]. exists a. unfold mustAny. by rewrite Ha. Qed.

Lemma makeFilter_is_ok i :
  marshalling_succeeds -> is_ok (makeFilter i) = true <-> interceptor_ok i.
Proof.
  intros Hany. unfold makeFilter, interceptor_ok.
  destruct (Interceptor_Fault i) as [f|]; [|by split; [|intros (? & [=] & _)]].
  rewrite is_ok_bind. setoid_rewrite is_ok_ret. split.
  - intros (a & Ha & _). exists f. split; [done|]. apply makeFaultFilter_is_ok. by rewrite Ha.
  - intros (? & [= <-] & Hf%makeFaultFilter_is_ok%is_ok_spec). destruct Hf as [a Ha].
    exists a. split; [done|]. destruct (mustAny_Ok (MHTTPFault a) Hany) as [? ->]. done.
Qed.

Lemma makeFilterOverride_is_ok i :
  is_ok (makeFilterOverride i) = is_ok (makeFilter i).
Proof.
  unfold makeFilterOverride, makeFilter. destruct (Interceptor_Fault i) as [f|]; [|done].
  destruct (makeFaultFilter f); simpl; [|done..]. by rewrite !is_ok_ret.
Qed.

Lemma makeFilterOverride_name i name cfg :
  makeFilterOverride i = Ok (name, cfg) -> name = wellknown_Fault.
Proof.
  unfold makeFilterOverride. destruct (Interceptor_Fault i); [|done].
  intros Hi. inv_ok. congruence.
Qed.

Lemma makeFilters_Ok specs fs :
  makeFilters specs = Ok fs <->
  exists router hs, mustAny MRouter = Ok router /\ forM makeFilter specs = Ok hs /\
    fs = hs ++ [{| hcm.HttpFilter_Name := wellknown_Router;
                   hcm.HttpFilter_TypedConfig := router |}].
Proof.
  unfold makeFilters. rewrite bind_Ok. f_equiv. intros router. split.
  - intros [Hr Hfs]. case_decide as Hlen.
    + destruct specs; [|done]. injection Hfs as <-. by exists [].
    + apply bind_Ok in Hfs as (hs & Hhs & Hfs). injection Hfs as <-. by exists hs.
  - intros (hs & Hr & Hhs & ->). split; [done|]. case_decide as Hlen.
    + destruct specs; [|done]. by injection Hhs as <-.
    + by rewrite Hhs.
Qed.

Lemma makeFilters_is_ok specs :
  marshalling_succeeds ->
  is_ok (makeFilters specs) = true <-> Forall interceptor_ok specs.
Proof.
  intros Hany. rewrite is_ok_spec. setoid_rewrite makeFilters_Ok. rewrite Forall_lookup.
  setoid_rewrite <-makeFilter_is_ok; [|done]. setoid_rewrite is_ok_spec. split.
  - intros (fs & router & hs & _ & Hhs & _) n i Hi.
    destruct (imapM_lookup _ _ _ _ _ Hhs Hi) as (h & _ & Hh). by exists h.
  - intros Hall. destruct (mustAny_Ok MRouter Hany) as [router Hr].
    destruct (imapM_total (fun _ => makeFilter) specs Hall) as [hs Hhs]. by eauto 10.
Qed.

Lemma makeFaultFilter_no_panic f : no_panic (makeFaultFilter f).
Proof.
  unfold makeFaultFilter, makeFaultDelay, makeFaultAbort.
  repeat first [apply no_panic_bind; [|intros ? _]|apply whenSet_no_panic; intros ?
               |apply makeFractionalPercent_no_panic|case_match|done].
Qed.

Lemma makeFilters_no_panic specs : marshalling_succeeds -> no_panic (makeFilters specs).
Proof.
  intros Hany. unfold makeFilters.
  destruct (mustAny_Ok MRouter Hany) as [router ->]. simpl. case_decide; [done|].
  apply no_panic_bind; [|done]. apply imapM_no_panic. intros _ i _. unfold makeFilter.
  case_match; [|done]. apply no_panic_bind; [apply makeFaultFilter_no_panic|]. intros ff _.
  destruct (mustAny_Ok (MHTTPFault ff) Hany) as [? ->]. done.
Qed.

Lemma makeFilterOverrides_no_panic specs :
  (forall m, no_panic (mustAny m)) -> no_panic (makeFilterOverrides specs).
Proof.
  intros Hany. unfold makeFilterOverrides. generalize (∅ : gmap string Any) as acc.
  induction specs as [|i specs IH]; intros acc; simpl; [done|].
  apply no_panic_bind; [|intros; apply IH].
  apply no_panic_bind; [|by intros [] _].
  unfold makeFilterOverride. destruct (Interceptor_Fault i) as [f|]; [|done].
  apply no_panic_bind; [apply makeFaultFilter_no_panic|].
  intros ff _; apply no_panic_bind; [apply Hany|done].
Qed.

(** ** Properties *)

(** C19: the HTTP filter chain. When marshalling succeeds, [makeFilters]
    succeeds exactly when every interceptor is well formed, and then the chain
    has one filter per interceptor, in order, followed by the router filter,
    which is always last. *)
Theorem makeFilters_chain specs :
  marshalling_succeeds ->
  (is_ok (makeFilters specs) = true <-> Forall interceptor_ok specs) /\
  forall fs, makeFilters specs = Ok fs ->
    exists hs router,
      fs = hs ++ [{| hcm.HttpFilter_Name := wellknown_Router;
                     hcm.HttpFilter_TypedConfig := router |}] /\
      length hs = length specs /\
      forall n i, specs !! n = Some i -> exists h, hs !! n = Some h /\ makeFilter i = Ok h.
Proof.
  intros Hany. split; [by apply makeFilters_is_ok|].
  intros fs (router & hs & _ & Hhs & ->)%makeFilters_Ok. exists hs, router.
  split; [done|]. by apply imapM_Ok.
Qed.

(** Filter overrides. On success the overrides hold nothing when there is
    no interceptor, and otherwise one entry, under the name of the fault
    filter, with the configuration of the last interceptor. *)
Theorem makeFilterOverrides_last specs overrides :
  makeFilterOverrides specs = Ok overrides ->
  match last specs with
  | None => overrides = ∅
  | Some i => exists cfg, makeFilterOverride i = Ok (wellknown_Fault, cfg) /\
                          overrides = {[wellknown_Fault := cfg]}
  end.
Proof.
  apply (foldM_invariant (fun visited acc =>
    match last visited with
    | None => acc = ∅
    | Some i => exists cfg, makeFilterOverride i = Ok (wellknown_Fault, cfg) /\
                            acc = {[wellknown_Fault := cfg]}
    end)); [done|]. intros l1 x a b IH. rewrite bind_Ok.
  intros ([name cfg] & Hx & [= <-]). rewrite last_snoc.
  assert (name = wellknown_Fault) as -> by by eapply makeFilterOverride_name.
  exists cfg. split; [done|].
  destruct (last l1); [destruct IH as (cfg' & _ & ->)|subst a].
  - by rewrite insert_singleton_eq.
  - done.
Qed.

(** The [Headers] of a fault interceptor have no effect. Two fault
    interceptors that differ only there give the same filter, so the filter
    never matches on headers. *)
Theorem makeFaultFilter_ignores_headers d a m h1 h2 :
  makeFaultFilter {| FaultInterceptor_Delay := d; FaultInterceptor_Abort := a;
                     FaultInterceptor_MaxActiveFaults := m;
                     FaultInterceptor_Headers := h1 |} =
  makeFaultFilter {| FaultInterceptor_Delay := d; FaultInterceptor_Abort := a;
                     FaultInterceptor_MaxActiveFaults := m;
                     FaultInterceptor_Headers := h2 |}.
Proof. reflexivity. Qed.
End interceptors.

(** ** Witnesses *)

Definition sample_fault : Interceptor :=
  {| Interceptor_Fault := Some
       {| FaultInterceptor_Delay := None;
          FaultInterceptor_Abort := Some
            {| FaultAbort_Code := Some 14%Z; FaultAbort_Metadata := None;
               FaultAbort_Percentage := Some
                 {| Fraction_Numerator := 50; Fraction_Denominator := "hundred" |} |};
          FaultInterceptor_MaxActiveFaults := None;
          FaultInterceptor_Headers := [] |} |}.

Lemma sample_marshalling : @marshalling_succeeds sample_xds.
Proof. intros m. by eexists. Qed.

Lemma makeFilters_chain_witness :
  is_ok (@makeFilters sample_xds ascii_tables [sample_fault]) = true /\
  Forall (@interceptor_ok sample_xds ascii_tables) [sample_fault].
Proof.
  pose proof (@makeFilters_chain sample_xds ascii_tables [sample_fault] sample_marshalling)
    as [Hiff _].
  split; [by vm_compute|]. apply Hiff. by vm_compute.
Defined.

Lemma makeFilterOverrides_last_witness :
  exists cfg, @makeFilterOverride sample_xds ascii_tables sample_fault
    = Ok (@wellknown_Fault sample_xds, cfg).
Proof.
  pose proof (@makeFilterOverrides_last sample_xds ascii_tables [sample_fault] _ eq_refl)
    as (cfg & Hcfg & _).
  by exists cfg.
Defined.
