(* ===== verification/Routes.v ===== *)
(** Route configuration from the routes of a listener: [gtc/route.go]. *)

From S2P Require Import Prelude GoStrings GoPath GoStrconv Api Errors Xds ResourceName Interceptors.

Section routes.
Context `{XdsLibrary, UnicodeTables}.

(** ** Matchers *)

(** The package variable [matchAll]. *)
Definition matchAll : route.RouteMatch :=
  {| route.RouteMatch_PathSpecifier := route.RouteMatch_Prefix "/";
     route.RouteMatch_RuntimeFraction := None;
     route.RouteMatch_Headers := [] |}.

Definition makeRegexMatcher (spec : RegexMatcher) : M matcher.RegexMatcher :=
  if decide (RegexMatcher_Engine spec <> "re2") then
    Err (unsupportedEngine (RegexMatcher_Engine spec))
  else if decide (RegexMatcher_Regex spec = "") then Err (errorString "blank regex")
  else Ok {| matcher.RegexMatcher_Regex := RegexMatcher_Regex spec |}.

Definition makeMetadataMatcher (spec : MetadataMatcher) : M route.HeaderMatcher :=
  specifier ←
    match MetadataMatcher_Exact spec with
    | Some v => Ok (route.ExactMatch v)
    | None =>
    match MetadataMatcher_Regex spec with
    | Some r => regexMatcher ← makeRegexMatcher r; Ok (route.SafeRegexMatch regexMatcher)
    | None =>
    match MetadataMatcher_Range spec with
    | Some r => Ok (route.RangeMatch {| typev3.Int64Range_Start := RangeMatcher_Start r;
                                        typev3.Int64Range_End := RangeMatcher_End r |})
    | None =>
    match MetadataMatcher_Present spec with
    | Some b => Ok (route.PresentMatch b)
    | None =>
    match MetadataMatcher_Prefix spec with
    | Some p => Ok (route.PrefixMatch p)
    | None =>
    match MetadataMatcher_Suffix spec with
    | Some p => Ok (route.SuffixMatch p)
    | None => Err (errorString "invalid header matcher")
    end end end end end end;
  Ok {| route.HeaderMatcher_Name := MetadataMatcher_Name spec;
        route.HeaderMatcher_InvertMatch := MetadataMatcher_Invert spec;
        route.HeaderMatcher_HeaderMatchSpecifier := specifier |}.

(** The [switch] of [makeRouteMatch]. *)
Definition makePathSpecifier (m : RouteMatcher) : route.PathSpecifier :=
  match RouteMatcher_Method m with
  | Some mm => route.RouteMatch_Path (MethodMatcher_Path mm)
  | None =>
  match RouteMatcher_Service m with
  | Some sm => route.RouteMatch_Prefix (ServiceMatcher_PrefixPath sm)
  | None =>
  match RouteMatcher_Namespace m with
  | Some ns => route.RouteMatch_Prefix ("/" +:+ ns)
  | None => route.RouteMatch_PathSpecifier matchAll
  end end end.

Definition makeRouteMatch (spec : Route) : M route.RouteMatch :=
  match Route_Matcher spec with
  | None => Ok matchAll
  | Some m =>
      fraction ← whenSet makeFractionalPercent (RouteMatcher_Fraction m);
      headers ← forM makeMetadataMatcher (RouteMatcher_Metadata m);
      Ok {| route.RouteMatch_PathSpecifier := makePathSpecifier m;
            route.RouteMatch_RuntimeFraction :=
              (fun f => {| core.RuntimeFractionalPercent_DefaultValue := f |}) <$> fraction;
            route.RouteMatch_Headers := headers |}
  end.

(** ** Route actions *)

(** The loop of [makeWeightedClusters] carries [totalWeight], a [uint32] that
    wraps around, and the clusters built so far. *)
Definition makeClusterWeight (namespace name : string) (routeID : nat)
    (backendID : nat) (backend : Backend) : M route.ClusterWeight :=
  filterOverrides ← makeFilterOverrides (Backend_Interceptors backend);
  Ok {| route.ClusterWeight_Name :=
          backendName namespace name (Z.of_nat routeID) (Z.of_nat backendID);
        route.ClusterWeight_Weight := wrapperspb_UInt32 (Backend_Weight backend);
        route.ClusterWeight_TypedPerFilterConfig := filterOverrides |}.

Definition totalWeight (backends : list Backend) : Z :=
  foldl (fun acc b => uint32_wrap (acc + Backend_Weight b)) 0%Z backends.

Definition makeWeightedClusters (namespace name : string) (routeID : nat) (routeSpec : Route)
  : M route.WeightedCluster :=
  weighedClusters ← imapM (makeClusterWeight namespace name routeID) (Route_Backends routeSpec);
  Ok {| route.WeightedCluster_TotalWeight :=
          wrapperspb_UInt32 (totalWeight (Route_Backends routeSpec));
        route.WeightedCluster_Clusters := weighedClusters |}.

Definition makeRetryPolicy (spec : RetryPolicy) : route.RetryPolicy :=
  let numRetries := default 1%Z (RetryPolicy_NumRetries spec) in
  let backoff :=
    (fun b => {| route.RetryBackOff_BaseInterval := durationpb_New (RetryBackoff_BaseInterval b);
                 route.RetryBackOff_MaxInterval :=
                   durationpb_New <$> RetryBackoff_MaxInterval b |})
    <$> RetryPolicy_Backoff spec in
  {| route.RetryPolicy_RetryOn := strings_Join "," (RetryPolicy_RetryOn spec);
     route.RetryPolicy_NumRetries := wrapperspb_UInt32 numRetries;
     route.RetryPolicy_RetryBackOff := backoff |}.

Definition makeHashPolicyItem (policy : HashPolicy) : M route.HashPolicy :=
  if decide (HashPolicy_Metadata policy <> "") then
    Ok {| route.HashPolicy_PolicySpecifier := route.HashHeader (HashPolicy_Metadata policy);
          route.HashPolicy_Terminal := HashPolicy_Terminal policy |}
  else if decide (HashPolicy_Channel policy = Some true) then
    Ok {| route.HashPolicy_PolicySpecifier := route.HashFilterState "io.grpc.channel_id";
          route.HashPolicy_Terminal := HashPolicy_Terminal policy |}
  else Err (errorString "malformed hash policy").

Definition makeHashPolicy (policies : list HashPolicy) : M (list route.HashPolicy) :=
  if decide (length policies = 0) then Ok []
  else forM makeHashPolicyItem policies.

(** ** The route configuration *)

(** The body of the loop of [makeRouteConfig]. *)
Definition makeRoute (listener : GRPCListener) (routeID : nat) (routeSpec : Route)
  : M route.Route :=
  match_ ← makeRouteMatch routeSpec;
  filterOverrides ← makeFilterOverrides (Route_Interceptors routeSpec);
  weighedClusters ← makeWeightedClusters (GRPCListener_Namespace listener)
                      (GRPCListener_Name listener) routeID routeSpec;
  hashPolicy ← makeHashPolicy (Route_HashPolicy routeSpec);
  Ok {| route.Route_Match := match_;
        route.Route_TypedPerFilterConfig := filterOverrides;
        route.Route_Route :=
          {| route.RouteAction_HashPolicy := hashPolicy;
             route.RouteAction_RetryPolicy := makeRetryPolicy <$> Route_Retry routeSpec;
             route.RouteAction_MaxStreamDuration :=
               {| route.MaxStreamDuration_MaxStreamDuration :=
                    makeDuration (Route_MaxStreamDuration routeSpec);
                  route.MaxStreamDuration_GrpcTimeoutHeaderMax :=
                    makeDuration (Route_GrpcTimeoutHeaderMax routeSpec) |};
             route.RouteAction_WeightedClusters := weighedClusters |} |}.

Definition makeRouteConfig (listenerName : string) (listener : GRPCListener)
  : M route.RouteConfiguration :=
  routes ← imapM (makeRoute listener) (GRPCListener_Routes listener);
  Ok {| route.RouteConfiguration_Name :=
          routeConfigName (GRPCListener_Namespace listener) (GRPCListener_Name listener);
        route.RouteConfiguration_ValidateClusters := {| BoolValue_Value := true |};
        route.RouteConfiguration_VirtualHosts :=
          [{| route.VirtualHost_Name :=
                vHostName (GRPCListener_Namespace listener) (GRPCListener_Name listener);
              route.VirtualHost_Domains := [listenerName];
              route.VirtualHost_Routes := routes;
              route.VirtualHost_RetryPolicy :=
                makeRetryPolicy <$> GRPCListenerSpec_Retry (GRPCListener_Spec listener) |}] |}.

(** ** Specification *)

(** How a gRPC client matches the path of a call against a [PathSpecifier]. *)
Definition path_matches (p : route.PathSpecifier) (path : string) : bool :=
  match p with
  | route.RouteMatch_Prefix pre => strings_HasPrefix path pre
  | route.RouteMatch_Path q => bool_decide (path = q)
  end.

(** Well-formed routes, independent of the code that translates them. *)
Definition regex_ok (r : RegexMatcher) : Prop :=
  RegexMatcher_Engine r = "re2" /\ RegexMatcher_Regex r <> "".

Definition metadata_ok (m : MetadataMatcher) : Prop :=
  is_Some (MetadataMatcher_Exact m) \/
  MetadataMatcher_Exact m = None /\
    match MetadataMatcher_Regex m with
    | Some r => regex_ok r
    | None => is_Some (MetadataMatcher_Range m) \/ is_Some (MetadataMatcher_Present m) \/
              is_Some (MetadataMatcher_Prefix m) \/ is_Some (MetadataMatcher_Suffix m)
    end.

Definition matcher_ok (m : option RouteMatcher) : Prop :=
  match m with
  | Some m => fraction_ok (RouteMatcher_Fraction m) /\ Forall metadata_ok (RouteMatcher_Metadata m)
  | None => True
  end.

Definition hash_ok (h : HashPolicy) : Prop :=
  HashPolicy_Metadata h <> "" \/ HashPolicy_Channel h = Some true.

Definition backend_filters_ok (b : Backend) : Prop :=
  Forall interceptor_ok (Backend_Interceptors b).

Definition route_ok (r : Route) : Prop :=
  matcher_ok (Route_Matcher r) /\ Forall interceptor_ok (Route_Interceptors r) /\
  Forall backend_filters_ok (Route_Backends r) /\ Forall hash_ok (Route_HashPolicy r).

(** ** Lemmas *)

Lemma makeRegexMatcher_is_ok r : is_ok (makeRegexMatcher r) = true <-> regex_ok r.
Proof.
  unfold makeRegexMatcher, regex_ok. repeat case_decide; simpl; split; try done; try tauto.
Qed.

Lemma makeMetadataMatcher_is_ok m : is_ok (makeMetadataMatcher m) = true <-> metadata_ok m.
Proof.
  unfold makeMetadataMatcher, metadata_ok. rewrite is_ok_ret.
  destruct (MetadataMatcher_Exact m) as [e|]; [by split; [left|]|].
  destruct (MetadataMatcher_Regex m) as [r|].
  { rewrite is_ok_ret, makeRegexMatcher_is_ok. split; [by right|].
    by intros [[? [=]]|[_ ?]]. }
  destruct (MetadataMatcher_Range m), (MetadataMatcher_Present m),
    (MetadataMatcher_Prefix m), (MetadataMatcher_Suffix m); simpl;
    unfold is_Some; split; try done; try naive_solver.
Qed.

Lemma makeRouteMatch_is_ok r :
  is_ok (makeRouteMatch r) = true <-> matcher_ok (Route_Matcher r).
Proof.
  unfold makeRouteMatch, matcher_ok. destruct (Route_Matcher r) as [m|]; [|done].
  rewrite is_ok_bind. setoid_rewrite is_ok_ret. setoid_rewrite forM_is_ok.
  setoid_rewrite makeMetadataMatcher_is_ok. rewrite <-percentage_is_ok, is_ok_spec.
  naive_solver.
Qed.

Lemma makeHashPolicyItem_is_ok h : is_ok (makeHashPolicyItem h) = true <-> hash_ok h.
Proof.
  unfold makeHashPolicyItem, hash_ok. repeat case_decide; simpl; split; try done; tauto.
Qed.

Lemma makeHashPolicy_forM ps : makeHashPolicy ps = forM makeHashPolicyItem ps.
Proof. unfold makeHashPolicy. case_decide; [by destruct ps|done]. Qed.

Lemma makeHashPolicy_is_ok ps : is_ok (makeHashPolicy ps) = true <-> Forall hash_ok ps.
Proof.
  rewrite makeHashPolicy_forM, forM_is_ok.
  split; intros Hps; (eapply Forall_impl; [done|]); intros h; apply makeHashPolicyItem_is_ok.
Qed.

Lemma makeFilterOverrides_is_ok specs :
  marshalling_succeeds ->
  is_ok (makeFilterOverrides specs) = true <-> Forall interceptor_ok specs.
Proof.
  intros Hany. unfold makeFilterOverrides. generalize (∅ : gmap string Any) as acc.
  induction specs as [|i specs IH]; intros acc; simpl; [by split; [constructor|]|].
  rewrite Forall_cons, <-(makeFilter_is_ok i Hany), <-makeFilterOverride_is_ok.
  destruct (makeFilterOverride i) as [[name cfg]|e|p]; simpl; [|by split; [|intros []]..].
  rewrite IH. naive_solver.
Qed.

Lemma makeWeightedClusters_is_ok ns name n r :
  marshalling_succeeds ->
  is_ok (makeWeightedClusters ns name n r) = true <-> Forall backend_filters_ok (Route_Backends r).
Proof.
  intros Hany. unfold makeWeightedClusters. rewrite is_ok_ret, imapM_is_ok, Forall_lookup.
  unfold makeClusterWeight, backend_filters_ok. setoid_rewrite is_ok_ret.
  by setoid_rewrite (fun s => makeFilterOverrides_is_ok s Hany).
Qed.

Lemma makeRoute_is_ok l n r :
  marshalling_succeeds -> is_ok (makeRoute l n r) = true <-> route_ok r.
Proof.
  intros Hany. unfold route_ok.
  rewrite <-makeRouteMatch_is_ok, <-!makeFilterOverrides_is_ok by done.
  rewrite <-(makeWeightedClusters_is_ok (GRPCListener_Namespace l) (GRPCListener_Name l) n)
    by done.
  rewrite <-makeHashPolicy_is_ok, <-!andb_true_iff. f_equiv. unfold makeRoute.
  destruct (makeRouteMatch r); simpl; [|done..].
  destruct (makeFilterOverrides (Route_Interceptors r)); simpl; [|done..].
  destruct (makeWeightedClusters _ _ n r); simpl; [|done..]. by rewrite is_ok_ret.
Qed.

Lemma totalWeight_sum backends :
  totalWeight backends = uint32_wrap (foldl (fun acc b => acc + Backend_Weight b)%Z 0%Z backends).
Proof.
  unfold totalWeight. change 0%Z with (uint32_wrap 0) at 1. generalize 0%Z as acc.
  induction backends as [|b bs IH]; intros acc; simpl; [done|].
  by rewrite uint32_wrap_add, IH.
Qed.

Lemma makeWeightedClusters_Ok ns name n r wc :
  makeWeightedClusters ns name n r = Ok wc ->
  wc.(route.WeightedCluster_TotalWeight) = wrapperspb_UInt32 (totalWeight (Route_Backends r)) /\
  length (route.WeightedCluster_Clusters wc) = length (Route_Backends r) /\
  forall j b, Route_Backends r !! j = Some b ->
    exists c, route.WeightedCluster_Clusters wc !! j = Some c /\
      route.ClusterWeight_Name c = backendName ns name (Z.of_nat n) (Z.of_nat j) /\
      route.ClusterWeight_Weight c = wrapperspb_UInt32 (Backend_Weight b).
Proof.
  unfold makeWeightedClusters. intros Hwc. inv_ok. subst wc. simpl.
  split; [done|]. split; [by eapply imapM_length|]. intros j b Hj.
  destruct (imapM_lookup _ _ _ _ _ Hc Hj) as (c & Hcj & Hmk). exists c. split; [done|].
  unfold makeClusterWeight in Hmk. inv_ok. by subst c.
Qed.

(** The routes of the only virtual host of a route configuration. *)
Definition config_routes (c : route.RouteConfiguration) : list route.Route :=
  route.RouteConfiguration_VirtualHosts c ≫= route.VirtualHost_Routes.

(** The names of the clusters a route configuration refers to. *)
Definition config_clusters (c : route.RouteConfiguration) : list string :=
  config_routes c ≫= fun r =>
    route.ClusterWeight_Name <$>
      route.WeightedCluster_Clusters
        (route.RouteAction_WeightedClusters (route.Route_Route r)).

Lemma makeRouteConfig_routes name l c :
  makeRouteConfig name l = Ok c <->
  exists rs, imapM (makeRoute l) (GRPCListener_Routes l) = Ok rs /\
    c = {| route.RouteConfiguration_Name :=
             routeConfigName (GRPCListener_Namespace l) (GRPCListener_Name l);
           route.RouteConfiguration_ValidateClusters := {| BoolValue_Value := true |};
           route.RouteConfiguration_VirtualHosts :=
             [{| route.VirtualHost_Name :=
                   vHostName (GRPCListener_Namespace l) (GRPCListener_Name l);
                 route.VirtualHost_Domains := [name];
                 route.VirtualHost_Routes := rs;
                 route.VirtualHost_RetryPolicy :=
                   makeRetryPolicy <$> GRPCListenerSpec_Retry (GRPCListener_Spec l) |}] |}.
Proof.
  unfold makeRouteConfig. rewrite bind_Ok. f_equiv. intros rs.
  split; intros [? Hrs]; (split; [done|]); [by injection Hrs as <-|by subst].
Qed.

Lemma makeRoute_clusters l n r x :
  makeRoute l n r = Ok x ->
  makeWeightedClusters (GRPCListener_Namespace l) (GRPCListener_Name l) n r
    = Ok (route.RouteAction_WeightedClusters (route.Route_Route x)).
Proof. unfold makeRoute. intros Hx. inv_ok. by subst x. Qed.

(** The clusters of a route configuration are exactly the backends of the
    listener, named by their position. *)
Lemma config_clusters_spec name l c s :
  makeRouteConfig name l = Ok c ->
  s ∈ config_clusters c <->
  exists i r j b, GRPCListener_Routes l !! i = Some r /\ Route_Backends r !! j = Some b /\
    s = backendName (GRPCListener_Namespace l) (GRPCListener_Name l) (Z.of_nat i) (Z.of_nat j).
Proof.
  intros (rs & Hrs & ->)%makeRouteConfig_routes. unfold config_clusters, config_routes. simpl.
  rewrite app_nil_r, list_elem_of_bind. split.
  - intros (x & (cw & -> & [j Hj]%list_elem_of_lookup)%list_elem_of_fmap & [i Hi]%list_elem_of_lookup).
    destruct (imapM_lookup_inv _ _ _ _ _ Hrs Hi) as (r & Hr & Hx%makeRoute_clusters).
    apply makeWeightedClusters_Ok in Hx as (_ & Hlen & Hcw).
    destruct (lookup_lt_is_Some_2 (Route_Backends r) j) as [b Hb].
    { rewrite <-Hlen. by eapply lookup_lt_Some. }
    destruct (Hcw j b Hb) as (cw' & ? & ? & _). simplify_eq. by exists i, r, j, b.
  - intros (i & r & j & b & Hr & Hb & ->).
    destruct (imapM_lookup _ _ _ _ _ Hrs Hr) as (x & Hi & Hx%makeRoute_clusters).
    apply makeWeightedClusters_Ok in Hx as (_ & _ & Hcw).
    destruct (Hcw j b Hb) as (cw & Hj & <- & _).
    exists x. split; [|by eapply list_elem_of_lookup_2].
    apply list_elem_of_fmap. exists cw. split; [done|by eapply list_elem_of_lookup_2].
Qed.

Lemma makeRouteMatch_no_panic r : no_panic (makeRouteMatch r).
Proof.
  unfold makeRouteMatch. destruct (Route_Matcher r) as [m|]; [|done].
  apply no_panic_bind; [apply whenSet_no_panic, makeFractionalPercent_no_panic|intros ? _].
  apply no_panic_bind; [|done]. apply imapM_no_panic. intros _ x _.
  unfold makeMetadataMatcher, makeRegexMatcher.
  repeat first [apply no_panic_bind; [|intros ? _]|case_match|done].
Qed.

Lemma makeRouteConfig_is_ok name l :
  marshalling_succeeds ->
  is_ok (makeRouteConfig name l) = true <-> Forall route_ok (GRPCListener_Routes l).
Proof.
  intros Hany. unfold makeRouteConfig. rewrite is_ok_ret, imapM_is_ok, Forall_lookup.
  split; intros Hl i r Hr; apply (makeRoute_is_ok l i r Hany); by eapply Hl.
Qed.

(** ** Properties *)

(** C9: which listeners have a route configuration. When marshalling
    succeeds, [makeRouteConfig] succeeds exactly when every route is well
    formed; the result has one virtual host, whose only domain is the requested
    listener name, with one route per route of the specification. *)
Theorem makeRouteConfig_succeeds name l :
  marshalling_succeeds ->
  (is_ok (makeRouteConfig name l) = true <-> Forall route_ok (GRPCListener_Routes l)) /\
  forall c, makeRouteConfig name l = Ok c ->
    exists vh, route.RouteConfiguration_VirtualHosts c = [vh] /\
      route.VirtualHost_Domains vh = [name] /\
      length (route.VirtualHost_Routes vh) = length (GRPCListener_Routes l).
Proof.
  intros Hany. split; [by apply makeRouteConfig_is_ok|].
  intros c (rs & Hrs & ->)%makeRouteConfig_routes. eexists. split; [done|].
  split; [done|]. by eapply imapM_length.
Qed.

(** C10: weighted clusters. On success the clusters of a route are its
    backends, in order, each under its backend name and with its weight; the
    total weight is the sum of the weights modulo 2^32, which is the exact sum
    as long as that fits a [uint32]. *)
Theorem makeWeightedClusters_spec ns name n r wc :
  makeWeightedClusters ns name n r = Ok wc ->
  let sum := foldl (fun acc b => acc + Backend_Weight b)%Z 0%Z (Route_Backends r) in
  length (route.WeightedCluster_Clusters wc) = length (Route_Backends r) /\
  (forall j b, Route_Backends r !! j = Some b ->
     exists c, route.WeightedCluster_Clusters wc !! j = Some c /\
       route.ClusterWeight_Name c = backendName ns name (Z.of_nat n) (Z.of_nat j) /\
       route.ClusterWeight_Weight c = wrapperspb_UInt32 (Backend_Weight b)) /\
  route.WeightedCluster_TotalWeight wc = wrapperspb_UInt32 (uint32_wrap sum) /\
  (is_uint32 sum -> route.WeightedCluster_TotalWeight wc = wrapperspb_UInt32 sum).
Proof.
  intros (Htot & Hlen & Hcw)%makeWeightedClusters_Ok. rewrite Htot, totalWeight_sum.
  split; [done|]. split; [done|]. split; [done|]. intros Hsum. by rewrite uint32_wrap_small.
Qed.

(** A method matcher matches exactly one path. When the namespace,
    service and method are clean path elements, a route with a method matcher
    accepts the path [/namespace.service/method] and no other, whatever its
    service and namespace matchers say. *)
Theorem method_matcher_exact spec m mm rm path :
  Route_Matcher spec = Some m -> RouteMatcher_Method m = Some mm ->
  is_segment (MethodMatcher_Namespace mm +:+ "." +:+ MethodMatcher_Service mm) = true ->
  is_segment (MethodMatcher_Method mm) = true ->
  makeRouteMatch spec = Ok rm ->
  path_matches (route.RouteMatch_PathSpecifier rm) path = true <->
  path = "/" +:+ (MethodMatcher_Namespace mm +:+ "." +:+ MethodMatcher_Service mm)
             +:+ "/" +:+ MethodMatcher_Method mm.
Proof.
  intros Hm Hmm Hs Hmeth. unfold makeRouteMatch. rewrite Hm. intros Hrm. inv_ok. subst rm.
  simpl. unfold makePathSpecifier. rewrite Hmm. simpl.
  by rewrite bool_decide_eq_true, MethodMatcher_Path_segments.
Qed.

(** A service matcher also accepts other services. The prefix has no
    trailing slash, so a route that matches the service [ns.svc] accepts every
    call to a service whose name starts with [ns.svc]. *)
Theorem service_matcher_prefix spec m sm rm suffix meth :
  Route_Matcher spec = Some m ->
  RouteMatcher_Method m = None -> RouteMatcher_Service m = Some sm ->
  makeRouteMatch spec = Ok rm ->
  path_matches (route.RouteMatch_PathSpecifier rm)
    (ServiceMatcher_PrefixPath sm +:+ suffix +:+ "/" +:+ meth) = true.
Proof.
  intros Hm Hmeth Hsm. unfold makeRouteMatch. rewrite Hm. intros Hrm. inv_ok. subst rm.
  simpl. unfold makePathSpecifier. rewrite Hmeth, Hsm. simpl. apply strings_HasPrefix_app.
Qed.
End routes.

(** ** Witnesses *)

Definition sample_service : ServiceRef :=
  {| ServiceRef_Name := "test-service-v1"; ServiceRef_Namespace := "";
     ServiceRef_Port := {| PortRef_Number := 0; PortRef_Name := "grpc" |} |}.

Definition sample_backend : Backend :=
  {| Backend_Weight := 80; Backend_MaxRequests := None; Backend_LBPolicy := "round_robin";
     Backend_RingHashConfig := None; Backend_Interceptors := [sample_fault];
     Backend_Service := Some sample_service; Backend_Localities := [] |}.

Definition sample_method : MethodMatcher :=
  {| MethodMatcher_Namespace := "echo"; MethodMatcher_Service := "Echo";
     MethodMatcher_Method := "EchoPremium" |}.

Definition sample_matcher (method : option MethodMatcher) : RouteMatcher :=
  {| RouteMatcher_Method := method;
     RouteMatcher_Service := Some {| ServiceMatcher_Namespace := "echo";
                                     ServiceMatcher_Service := "Echo" |};
     RouteMatcher_Namespace := None; RouteMatcher_Metadata := [];
     RouteMatcher_Fraction := None |}.

Definition sample_route (method : option MethodMatcher) : Route :=
  {| Route_Matcher := Some (sample_matcher method); Route_Interceptors := [];
     Route_HashPolicy := []; Route_MaxStreamDuration := None;
     Route_GrpcTimeoutHeaderMax := None; Route_Retry := None;
     Route_Backends := [sample_backend; sample_backend] |}.

Definition sample_listener : GRPCListener :=
  {| GRPCListener_ObjectMeta :=
       {| ObjectMeta_Name := "test-xds"; ObjectMeta_Namespace := "default";
          ObjectMeta_ResourceVersion := "41"; ObjectMeta_Labels := ∅ |};
     GRPCListener_Spec :=
       {| GRPCListenerSpec_MaxStreamDuration := None;
          GRPCListenerSpec_Interceptors := [sample_fault];
          GRPCListenerSpec_Retry := None;
          GRPCListenerSpec_Routes := [sample_route (Some sample_method); sample_route None] |} |}.

Local Existing Instance sample_xds.
Local Existing Instance ascii_tables.

Lemma makeRouteConfig_succeeds_witness :
  Forall route_ok (GRPCListener_Routes sample_listener).
Proof.
  apply (makeRouteConfig_succeeds "default/test-xds" sample_listener sample_marshalling).
  by vm_compute.
Defined.

Lemma makeWeightedClusters_spec_witness :
  exists wc, makeWeightedClusters "default" "test-xds" 0 (sample_route None) = Ok wc /\
    route.WeightedCluster_TotalWeight wc = wrapperspb_UInt32 160.
Proof.
  eexists. split; [reflexivity|].
  pose proof (makeWeightedClusters_spec "default" "test-xds" 0 (sample_route None) _ eq_refl)
    as (_ & _ & _ & Hsum).
  apply Hsum. by split.
Defined.

Lemma method_matcher_exact_witness :
  exists rm, makeRouteMatch (sample_route (Some sample_method)) = Ok rm /\
    path_matches (route.RouteMatch_PathSpecifier rm) "/echo.Echo/EchoPremium" = true.
Proof.
  eexists. split; [reflexivity|].
  apply (method_matcher_exact (sample_route (Some sample_method))
           (sample_matcher (Some sample_method)) sample_method); reflexivity.
Defined.

Lemma service_matcher_prefix_witness :
  exists rm, makeRouteMatch (sample_route None) = Ok rm /\
    path_matches (route.RouteMatch_PathSpecifier rm) "/echo.EchoInternal/Reset" = true.
Proof.
  eexists. split; [reflexivity|].
  apply (service_matcher_prefix (sample_route None) (sample_matcher None)
           {| ServiceMatcher_Namespace := "echo"; ServiceMatcher_Service := "Echo" |}
           _ "Internal" "Reset"); reflexivity.
Defined.
