(* ===== verification/Routing.v ===== *)
(** What the route configuration means to a client: the translation of
    [gtc/route.go] keeps the meaning that the API documents.

    A listener is read three times. An xDS client reads the route configuration
    the controller sends: the virtual host of the target, the first route that
    matches the path of the call, its metadata and its draw. The effective
    reading says the same of the objects, in terms of packages, services and
    methods: this is what the controller makes of a listener, for any matcher. The
    documented reading follows the comments of [api/gtc/v1alpha1/types.go] and
    [matcher.go], where a matcher is for one service or one namespace and all
    tests of a metadata matcher count. The theorem says that the client follows
    the effective reading, and when that is the documented one.

    Regular expressions, and what a client does with a matcher for metadata
    that a call does not have, are left to the client: [XdsClient]. *)

From S2P Require Import Prelude GoStrings GoPath GoStrconv Api Errors Xds ResourceName Interceptors Routes.
From Stdlib Require Import Ascii.

(** ** Calls *)

(** A call to [/package.service/method] with its metadata. [call_draw] is the
    number below a million that decides about fractions. *)
Record call := {
  call_package : string;
  call_service : string;
  call_method : string;
  call_metadata : gmap string string;
  call_draw : Z
}.

Definition full_name (package service : string) : string := package +:+ "." +:+ service.

Definition call_path (c : call) : string :=
  "/" +:+ full_name (call_package c) (call_service c) +:+ "/" +:+ call_method c.

Class XdsClient := {
  (** RE2, on the whole value *)
  regex_matches : string -> string -> bool;
  (** the result of a matcher, inverted or not, on absent metadata *)
  absent_matches : bool -> bool
}.

(** [strings.HasSuffix] *)
Definition strings_HasSuffix (s p : string) : bool :=
  bool_decide (drop (String.length s - String.length p) (bytes_of s) = bytes_of p)
  && (String.length p <=? String.length s).

(** A number in the range, start included and end excluded. *)
Definition in_range (start stop : Z) (s : string) : bool :=
  match Atoi s with
  | Some z => (start <=? z)%Z && (z <? stop)%Z
  | None => false
  end.

(** A share of the calls: [numerator] out of [denominator]. *)
Definition share (numerator denominator draw : Z) : bool :=
  (draw mod denominator <? numerator)%Z.

Section semantics.
Context `{XdsClient}.

(** A test on a value, inverted on demand. *)
Definition on_value (invert : bool) (test : string -> bool) (v : option string) : bool :=
  match v with
  | Some s => xorb invert (test s)
  | None => absent_matches invert
  end.

(** ** The documented meaning *)

(** The tests a matcher lists, in the order of its fields. *)
Definition documented_tests (m : MetadataMatcher) : list (option string -> bool) :=
  let on := on_value (MetadataMatcher_Invert m) in
  option_list ((fun e => on (fun s => bool_decide (s = e))) <$> MetadataMatcher_Exact m) ++
  option_list ((fun r => on (regex_matches (RegexMatcher_Regex r))) <$> MetadataMatcher_Regex m) ++
  option_list ((fun r => on (in_range (RangeMatcher_Start r) (RangeMatcher_End r)))
    <$> MetadataMatcher_Range m) ++
  option_list ((fun b v => xorb (MetadataMatcher_Invert m)
      (bool_decide (bool_decide (is_Some v) = b))) <$> MetadataMatcher_Present m) ++
  option_list ((fun p => on (fun s => strings_HasPrefix s p)) <$> MetadataMatcher_Prefix m) ++
  option_list ((fun p => on (fun s => strings_HasSuffix s p)) <$> MetadataMatcher_Suffix m).

Definition documented_metadata (m : MetadataMatcher) (md : gmap string string) : bool :=
  forallb (fun test => test (md !! MetadataMatcher_Name m)) (documented_tests m).

(** The denominators of the CRD. *)
Definition documented_denominator (name : string) : option Z :=
  if decide (name = "hundred") then Some 100%Z
  else if decide (name = "ten_thousand") then Some 10000%Z
  else if decide (name = "million") then Some 1000000%Z
  else None.

Definition documented_fraction (f : option Fraction) (draw : Z) : bool :=
  match f with
  | None => true
  | Some f =>
      match documented_denominator (Fraction_Denominator f) with
      | Some d => share (Fraction_Numerator f) d draw
      | None => false
      end
  end.

(** "A specific method", "a specific service", "a specific namespace". *)
Definition documented_name (m : RouteMatcher) (c : call) : bool :=
  match RouteMatcher_Method m with
  | Some mm => bool_decide (MethodMatcher_Namespace mm = call_package c)
               && bool_decide (MethodMatcher_Service mm = call_service c)
               && bool_decide (MethodMatcher_Method mm = call_method c)
  | None => true
  end &&
  match RouteMatcher_Service m with
  | Some sm => bool_decide (ServiceMatcher_Namespace sm = call_package c)
               && bool_decide (ServiceMatcher_Service sm = call_service c)
  | None => true
  end &&
  match RouteMatcher_Namespace m with
  | Some ns => bool_decide (ns = call_package c)
  | None => true
  end.

Definition documented_match (r : Route) (c : call) : bool :=
  match Route_Matcher r with
  | None => true
  | Some m =>
      documented_name m c
      && forallb (fun mm => documented_metadata mm (call_metadata c)) (RouteMatcher_Metadata m)
      && documented_fraction (RouteMatcher_Fraction m) (call_draw c)
  end.

(** The route that serves a call, with its position. *)
Definition documented_route (l : GRPCListener) (c : call) : option (nat * Route) :=
  list_find (fun r => documented_match r c = true) (GRPCListener_Routes l).

(** *** The effective meaning *)

(** The first of method, service and namespace that is set decides, and a service
    or a namespace accepts every service whose full name begins like it. *)
Definition effective_name (m : RouteMatcher) (c : call) : bool :=
  let called := full_name (call_package c) (call_service c) in
  match RouteMatcher_Method m, RouteMatcher_Service m, RouteMatcher_Namespace m with
  | Some mm, _, _ =>
      bool_decide (MethodMatcher_Namespace mm = call_package c)
      && bool_decide (MethodMatcher_Service mm = call_service c)
      && bool_decide (MethodMatcher_Method mm = call_method c)
  | None, Some sm, _ =>
      strings_HasPrefix called (full_name (ServiceMatcher_Namespace sm) (ServiceMatcher_Service sm))
  | None, None, Some ns => strings_HasPrefix called ns
  | None, None, None => true
  end.

(** Only the first test of a metadata matcher counts. *)
Definition effective_metadata (m : MetadataMatcher) (md : gmap string string) : bool :=
  match documented_tests m with
  | [] => false
  | test :: _ => test (md !! MetadataMatcher_Name m)
  end.

(** A denominator in upper or lower case. *)
Definition effective_denominator `{UnicodeTables} (name : string) : option Z :=
  let upper := strings_ToUpper name in
  if decide (upper = "HUNDRED") then Some 100%Z
  else if decide (upper = "TEN_THOUSAND") then Some 10000%Z
  else if decide (upper = "MILLION") then Some 1000000%Z
  else None.

Definition effective_fraction `{UnicodeTables} (f : option Fraction) (draw : Z) : bool :=
  match f with
  | None => true
  | Some f =>
      match effective_denominator (Fraction_Denominator f) with
      | Some d => share (Fraction_Numerator f) d draw
      | None => false
      end
  end.

Definition effective_match `{UnicodeTables} (r : Route) (c : call) : bool :=
  match Route_Matcher r with
  | None => true
  | Some m =>
      effective_name m c
      && forallb (fun mm => effective_metadata mm (call_metadata c)) (RouteMatcher_Metadata m)
      && effective_fraction (RouteMatcher_Fraction m) (call_draw c)
  end.

Definition effective_route `{UnicodeTables} (l : GRPCListener) (c : call) : option (nat * Route) :=
  list_find (fun r => effective_match r c = true) (GRPCListener_Routes l).

(** A route can be given a retry policy, otherwise that of the listener holds. *)
Definition documented_retry (l : GRPCListener) (r : Route) : option RetryPolicy :=
  match Route_Retry r with
  | Some p => Some p
  | None => GRPCListenerSpec_Retry (GRPCListener_Spec l)
  end.

(** ** The meaning of the xDS messages *)

Definition header_matches (h : route.HeaderMatcher) (md : gmap string string) : bool :=
  let v := md !! route.HeaderMatcher_Name h in
  let invert := route.HeaderMatcher_InvertMatch h in
  match route.HeaderMatcher_HeaderMatchSpecifier h with
  | route.ExactMatch e => on_value invert (fun s => bool_decide (s = e)) v
  | route.SafeRegexMatch r => on_value invert (regex_matches (matcher.RegexMatcher_Regex r)) v
  | route.RangeMatch r =>
      on_value invert (in_range (typev3.Int64Range_Start r) (typev3.Int64Range_End r)) v
  | route.PresentMatch b => xorb invert (bool_decide (bool_decide (is_Some v) = b))
  | route.PrefixMatch p => on_value invert (fun s => strings_HasPrefix s p) v
  | route.SuffixMatch p => on_value invert (fun s => strings_HasSuffix s p) v
  end.

(** The values of the enumeration [FractionalPercent.DenominatorType]. *)
Definition denominator_of (d : Z) : Z :=
  if decide (d = 1%Z) then 10000 else if decide (d = 2%Z) then 1000000 else 100.

Definition fraction_matches (f : option core.RuntimeFractionalPercent) (draw : Z) : bool :=
  match f with
  | None => true
  | Some f =>
      let p := core.RuntimeFractionalPercent_DefaultValue f in
      share (typev3.FractionalPercent_Numerator p)
        (denominator_of (typev3.FractionalPercent_Denominator p)) draw
  end.

Definition xds_match (r : route.Route) (c : call) : bool :=
  let m := route.Route_Match r in
  path_matches (route.RouteMatch_PathSpecifier m) (call_path c)
  && forallb (fun h => header_matches h (call_metadata c)) (route.RouteMatch_Headers m)
  && fraction_matches (route.RouteMatch_RuntimeFraction m) (call_draw c).

(** The virtual host of a target, and the route in it. *)
Definition xds_host (config : route.RouteConfiguration) (target : string)
  : option route.VirtualHost :=
  snd <$> list_find (fun h => target ∈ route.VirtualHost_Domains h)
            (route.RouteConfiguration_VirtualHosts config).

Definition xds_route (config : route.RouteConfiguration) (target : string) (c : call)
  : option (nat * route.Route) :=
  h ← xds_host config target;
  list_find (fun r => xds_match r c = true) (route.VirtualHost_Routes h).

(** The policy of a route replaces that of its virtual host. *)
Definition xds_retry (config : route.RouteConfiguration) (target : string) (r : route.Route)
  : option route.RetryPolicy :=
  match route.RouteAction_RetryPolicy (route.Route_Route r) with
  | Some p => Some p
  | None => h ← xds_host config target; route.VirtualHost_RetryPolicy h
  end.

Definition weighted_names (r : route.Route) : list (string * Z) :=
  (fun cw => (route.ClusterWeight_Name cw, UInt32Value_Value (route.ClusterWeight_Weight cw)))
  <$> route.WeightedCluster_Clusters (route.RouteAction_WeightedClusters (route.Route_Route r)).
End semantics.

(** ** Matchers with one reading *)

Definition set {A} (o : option A) : nat := match o with Some _ => 1 | None => 0 end.

(** One test per metadata matcher. *)
Definition one_test (m : MetadataMatcher) : bool :=
  bool_decide (set (MetadataMatcher_Exact m) + set (MetadataMatcher_Regex m)
    + set (MetadataMatcher_Range m) + set (MetadataMatcher_Present m)
    + set (MetadataMatcher_Prefix m) + set (MetadataMatcher_Suffix m) = 1).

(** The names a matcher gives do not contradict each other. *)
Definition names_consistent (m : RouteMatcher) : bool :=
  match RouteMatcher_Method m, RouteMatcher_Service m, RouteMatcher_Namespace m with
  | Some mm, Some sm, _ =>
      bool_decide (ServiceMatcher_Namespace sm = MethodMatcher_Namespace mm)
      && bool_decide (ServiceMatcher_Service sm = MethodMatcher_Service mm)
  | _, _, _ => true
  end &&
  match RouteMatcher_Method m, RouteMatcher_Service m, RouteMatcher_Namespace m with
  | Some mm, _, Some ns => bool_decide (ns = MethodMatcher_Namespace mm)
  | None, Some sm, Some ns => bool_decide (ns = ServiceMatcher_Namespace sm)
  | _, _, _ => true
  end.

(** An identifier of protobuf: no dot and no slash. *)
Definition simple (s : string) : bool :=
  is_segment s && negb (str_mem "."%char s).

Definition simple_call (c : call) : bool :=
  is_segment (call_package c) && simple (call_service c) && is_segment (call_method c).

(** The names a matcher gives are names of protobuf. *)
Definition plain_matcher (m : RouteMatcher) : bool :=
  match RouteMatcher_Method m with
  | Some mm => is_segment (MethodMatcher_Namespace mm) && simple (MethodMatcher_Service mm)
               && is_segment (MethodMatcher_Method mm)
  | None => true
  end &&
  match RouteMatcher_Service m with
  | Some sm => is_segment (ServiceMatcher_Namespace sm) && simple (ServiceMatcher_Service sm)
  | None => true
  end &&
  match RouteMatcher_Namespace m with
  | Some ns => is_segment ns
  | None => true
  end.

Definition plain_route (r : Route) : bool := default true (plain_matcher <$> Route_Matcher r).

(** One reading of what a matcher says: its names are consistent, its metadata
    matchers have one test each, its denominator is one of the CRD. *)
Definition one_reading (r : Route) : bool :=
  match Route_Matcher r with
  | None => true
  | Some m =>
      names_consistent m && forallb one_test (RouteMatcher_Metadata m) &&
      match RouteMatcher_Fraction m with
      | Some f => bool_decide (is_Some (documented_denominator (Fraction_Denominator f)))
      | None => true
      end
  end.

(** A set of services, given by package and name, in which no full name begins
    with that of another service or with another package. *)
Definition names_apart (services : list (string * string)) : Prop :=
  forall p q, p ∈ services -> q ∈ services ->
    (strings_HasPrefix (full_name q.1 q.2) (full_name p.1 p.2) = true -> p = q) /\
    (strings_HasPrefix (full_name q.1 q.2) p.1 = true -> p.1 = q.1).

(** The services and namespaces that the matcher of a route names are known. *)
Definition names_known (services : list (string * string)) (r : Route) : Prop :=
  forall m, Route_Matcher r = Some m ->
    (forall sm, RouteMatcher_Service m = Some sm ->
       (ServiceMatcher_Namespace sm, ServiceMatcher_Service sm) ∈ services) /\
    (forall ns, RouteMatcher_Namespace m = Some ns -> ns ∈ services.*1).

(** The generated map of the denominators. *)
Class DenominatorLaws `{XdsLibrary} : Prop := {
  denominator_hundred : DenominatorType_value "HUNDRED" = Some 0%Z;
  denominator_ten_thousand : DenominatorType_value "TEN_THOUSAND" = Some 1%Z;
  denominator_million : DenominatorType_value "MILLION" = Some 2%Z;
  denominator_only name v :
    DenominatorType_value name = Some v -> name ∈ ["HUNDRED"; "TEN_THOUSAND"; "MILLION"]
}.

(** ** Lemmas on names *)

Lemma prefix_before_slash s t p :
  str_mem slash p = false ->
  strings_HasPrefix (s +:+ String slash t) p = strings_HasPrefix s p.
Proof.
  revert p. induction s as [|c s IH]; intros [|a p]; try done.
  - change ("" +:+ ?x) with x. cbn [str_mem strings_HasPrefix].
    intros [Ha _]%orb_false_iff. apply bool_decide_eq_false in Ha.
    by rewrite bool_decide_false by congruence.
  - rewrite str_app_cons. cbn [str_mem strings_HasPrefix].
    intros [_ Hp]%orb_false_iff. by rewrite (IH p Hp).
Qed.

Lemma full_name_inj p1 s1 p2 s2 :
  str_mem "."%char s1 = false -> str_mem "."%char s2 = false ->
  full_name p1 s1 = full_name p2 s2 -> p1 = p2 /\ s1 = s2.
Proof.
  intros H1 H2. unfold full_name.
  change ("." +:+ s1) with (String "." s1). change ("." +:+ s2) with (String "." s2). revert p2.
  induction p1 as [|c p1 IH]; intros [|c2 p2]; rewrite ?str_app_cons.
  - by intros [= <-].
  - intros [= <- Heq]. exfalso. rewrite Heq, str_mem_app in H1. cbn in H1.
    by rewrite orb_true_r in H1.
  - intros [= -> Heq]. exfalso. rewrite <-Heq, str_mem_app in H2. cbn in H2.
    by rewrite orb_true_r in H2.
  - intros [= -> Heq]. by destruct (IH p2 Heq) as [-> ->].
Qed.

Lemma full_name_segment p s :
  is_segment p = true -> is_segment s = true -> is_segment (full_name p s) = true.
Proof.
  rewrite !is_segment_spec. unfold full_name. intros (Hp & Hp1 & Hp2 & Hp3) (Hs & _ & _ & Hs3).
  rewrite !str_mem_app, Hp3, Hs3. destruct p as [|c p]; [done|]. rewrite str_app_cons.
  split; [done|]. split; [|split; [|done]].
  - intros [= -> Heq]. by destruct p.
  - intros [= -> Heq]. destruct p as [|c p]; [|by destruct p].
    rewrite str_app_cons in Heq. by destruct s.
Qed.

Lemma append_inj_r s t u : s +:+ t = s +:+ u -> t = u.
Proof. induction s as [|c s IH]; [done|]. rewrite !str_app_cons. intros [= ?]. by apply IH. Qed.

Lemma call_path_inj s1 m1 s2 m2 :
  str_mem slash s1 = false -> str_mem slash s2 = false ->
  s1 +:+ "/" +:+ m1 = s2 +:+ "/" +:+ m2 -> s1 = s2 /\ m1 = m2.
Proof.
  intros H1 H2 Heq.
  pose proof (strings_Cut_app slash s1 m1 H1) as Hc1.
  pose proof (strings_Cut_app slash s2 m2 H2) as Hc2.
  change (s1 +:+ String slash m1 = s2 +:+ String slash m2) in Heq. rewrite Heq in Hc1.
  by rewrite Hc1 in Hc2; injection Hc2.
Qed.

Lemma simple_spec s :
  simple s = true <-> is_segment s = true /\ str_mem "."%char s = false.
Proof. unfold simple. by rewrite andb_true_iff, negb_true_iff. Qed.

(** ** Both readings agree *)

Section agreement.
Context `{XdsLibrary, !DenominatorLaws, UnicodeTables, XdsClient}.

(** *** The client follows the effective reading *)

Lemma metadata_effective m h md :
  makeMetadataMatcher m = Ok h -> header_matches h md = effective_metadata m md.
Proof.
  destruct m as [name exact regex range present prefix suffix invert].
  unfold makeMetadataMatcher, makeRegexMatcher, effective_metadata, documented_tests.
  destruct exact, regex as [[rx en]|], range as [[lo hi]|], present, prefix, suffix; cbn;
    intros Hh; repeat (case_decide; [discriminate Hh|]);
    try discriminate Hh; by injection Hh as <-.
Qed.

Lemma headers_effective ms hs md :
  forM makeMetadataMatcher ms = Ok hs ->
  forallb (fun h => header_matches h md) hs = forallb (fun m => effective_metadata m md) ms.
Proof.
  intros Hhs%forM_Forall2. induction Hhs as [|m h ms hs Hm _ IH]; [done|]. cbn.
  by rewrite (metadata_effective _ _ md Hm), IH.
Qed.

Lemma fraction_effective f pf draw :
  whenSet makeFractionalPercent f = Ok pf ->
  fraction_matches ((fun p => {| core.RuntimeFractionalPercent_DefaultValue := p |}) <$> pf) draw
  = effective_fraction f draw.
Proof.
  destruct f as [[num name]|]; [|by intros [= <-]].
  unfold whenSet, effective_fraction, makeFractionalPercent, effective_denominator.
  cbn [Fraction_Denominator Fraction_Numerator].
  destruct (DenominatorType_value (strings_ToUpper name)) as [v|] eqn:Hv; [|done].
  intros [= <-]. cbn. pose proof (denominator_only _ _ Hv) as Hname.
  rewrite !elem_of_cons in Hname. destruct Hname as [Hname|[Hname|[Hname|[]%elem_of_nil]]];
    rewrite Hname in *;
    rewrite ?denominator_hundred, ?denominator_ten_thousand, ?denominator_million in Hv;
    by injection Hv as <-.
Qed.

Lemma method_agree mm c :
  simple_call c = true ->
  is_segment (MethodMatcher_Namespace mm) && simple (MethodMatcher_Service mm)
    && is_segment (MethodMatcher_Method mm) = true ->
  bool_decide (call_path c = MethodMatcher_Path mm)
  = bool_decide (MethodMatcher_Namespace mm = call_package c)
    && bool_decide (MethodMatcher_Service mm = call_service c)
    && bool_decide (MethodMatcher_Method mm = call_method c).
Proof.
  unfold simple_call. rewrite !andb_true_iff, !simple_spec.
  intros [[Hcp [Hcs Hcd]] Hcm] [[Hp [Hs Hd]] Hm].
  rewrite MethodMatcher_Path_segments; [|by apply full_name_segment|done].
  apply eq_bool_prop_intro. rewrite !andb_True, !bool_decide_spec. unfold call_path. split.
  - intros Heq%(append_inj_r "/").
    apply call_path_inj in Heq as [Hfull ->];
      [|by apply is_segment_no_slash, full_name_segment..].
    by apply full_name_inj in Hfull as [-> ->].
  - by intros [[-> ->] ->].
Qed.

Lemma prefix_agree name c :
  str_mem slash name = false ->
  strings_HasPrefix (call_path c) ("/" +:+ name)
  = strings_HasPrefix (full_name (call_package c) (call_service c)) name.
Proof.
  intros Hname. unfold call_path.
  change ("/" +:+ ?x) with (String slash x) at 1 3. cbn [strings_HasPrefix].
  rewrite bool_decide_true by done. cbn [andb].
  change (full_name (call_package c) (call_service c) +:+ "/" +:+ call_method c)
    with (full_name (call_package c) (call_service c) +:+ String slash (call_method c)).
  by rewrite prefix_before_slash.
Qed.

Lemma name_effective m c :
  simple_call c = true -> plain_matcher m = true ->
  path_matches (makePathSpecifier m) (call_path c) = effective_name m c.
Proof.
  intros Hc. unfold plain_matcher, effective_name, makePathSpecifier. rewrite !andb_true_iff.
  intros [[Hm Hs] Hn].
  destruct (RouteMatcher_Method m) as [mm|]; [by apply method_agree|].
  destruct (RouteMatcher_Service m) as [sm|]; [|destruct (RouteMatcher_Namespace m) as [ns|]].
  - rewrite andb_true_iff, simple_spec in Hs. destruct Hs as (Hp & Hv & _). cbn [path_matches].
    change (ServiceMatcher_PrefixPath sm)
      with ("/" +:+ full_name (ServiceMatcher_Namespace sm) (ServiceMatcher_Service sm)).
    by apply prefix_agree, is_segment_no_slash, full_name_segment.
  - by apply prefix_agree, is_segment_no_slash.
  - cbn. unfold call_path. by rewrite (strings_HasPrefix_app "/").
Qed.

Lemma match_effective l n r x c :
  makeRoute l n r = Ok x -> simple_call c = true -> plain_route r = true ->
  xds_match x c = effective_match r c.
Proof.
  unfold makeRoute, makeRouteMatch, xds_match, effective_match, plain_route.
  intros Hx Hc Hplain. inv_ok. subst x. cbn [route.Route_Match].
  destruct (Route_Matcher r) as [m|]; cbn in Hc0.
  - inv_ok. subst. cbn. rewrite (name_effective m c) by done.
    erewrite headers_effective by done. by erewrite fraction_effective.
  - injection Hc0 as <-. cbn. unfold call_path. by rewrite (strings_HasPrefix_app "/").
Qed.

(** *** The effective reading and the documented one *)

Lemma metadata_documented m md :
  one_test m = true -> effective_metadata m md = documented_metadata m md.
Proof.
  destruct m as [name exact regex range present prefix suffix invert].
  unfold effective_metadata, documented_metadata, documented_tests, one_test.
  rewrite bool_decide_eq_true. cbn.
  destruct exact, regex, range, present, prefix, suffix; cbn; intros Hone; try discriminate Hone;
    by rewrite andb_true_r.
Qed.

Lemma headers_documented ms md :
  forallb one_test ms = true ->
  forallb (fun m => effective_metadata m md) ms = forallb (fun m => documented_metadata m md) ms.
Proof.
  induction ms as [|m ms IH]; [done|]. cbn. intros [Hm Hms]%andb_true_iff.
  by rewrite metadata_documented, IH.
Qed.

Lemma fraction_documented f draw :
  match f with
  | Some f => bool_decide (is_Some (documented_denominator (Fraction_Denominator f)))
  | None => true
  end = true ->
  effective_fraction f draw = documented_fraction f draw.
Proof.
  destruct f as [[num name]|]; cbn; [|done]. rewrite bool_decide_eq_true.
  unfold documented_denominator. intros Hname.
  repeat (case_decide; [by subst name|]). by destruct Hname.
Qed.

(** In a set of names apart, beginning like a service is being it. *)
Lemma service_apart services p q :
  names_apart services -> p ∈ services -> q ∈ services ->
  strings_HasPrefix (full_name q.1 q.2) (full_name p.1 p.2)
  = bool_decide (p.1 = q.1) && bool_decide (p.2 = q.2).
Proof.
  intros Hapart Hp Hq. rewrite <-bool_decide_and. destruct (Hapart p q Hp Hq) as [Heq _].
  destruct (decide (p.1 = q.1 /\ p.2 = q.2)) as [[Hp1 Hp2]|Hne].
  - rewrite bool_decide_true by done. rewrite Hp1, Hp2.
    rewrite <-(str_app_nil_r (full_name q.1 q.2)) at 1. apply strings_HasPrefix_app.
  - rewrite bool_decide_false by done. apply not_true_is_false. intros ->%Heq. by apply Hne.
Qed.

Lemma namespace_apart services ns q :
  names_apart services -> ns ∈ services.*1 -> q ∈ services ->
  strings_HasPrefix (full_name q.1 q.2) ns = bool_decide (ns = q.1).
Proof.
  intros Hapart ([p s] & -> & Hp)%list_elem_of_fmap Hq.
  destruct (Hapart _ q Hp Hq) as [_ Heq]. cbn in *.
  destruct (decide (p = q.1)) as [->|Hne].
  - rewrite bool_decide_true by done. apply strings_HasPrefix_app.
  - rewrite bool_decide_false by done. apply not_true_is_false. intros ?%Heq. done.
Qed.

Lemma implied_and (b c : bool) : (b = true -> c = true) -> b && c = b.
Proof. destruct b, c; naive_solver. Qed.

Lemma name_documented services r m c :
  names_apart services -> names_known services r -> Route_Matcher r = Some m ->
  (call_package c, call_service c) ∈ services -> names_consistent m = true ->
  effective_name m c = documented_name m c.
Proof.
  intros Hapart Hknown Hm Hcall. destruct (Hknown m Hm) as [Hks Hkn]. clear Hknown Hm.
  unfold names_consistent, effective_name, documented_name.
  destruct m as [meth service ns md f]. cbn [RouteMatcher_Method RouteMatcher_Service
    RouteMatcher_Namespace] in *. rewrite andb_true_iff. intros [Hs Hns].
  destruct meth as [mm|]; [|destruct service as [sm|]; [|destruct ns as [n|]]].
  - symmetry. rewrite implied_and; [apply implied_and|];
      rewrite !andb_true_iff, !bool_decide_eq_true.
    + intros [[Hp Hv] _]. destruct service as [sm|]; [|done].
      rewrite andb_true_iff, !bool_decide_eq_true in *. naive_solver congruence.
    + intros [[[Hp Hv] _] _]. destruct ns as [n|]; [|done].
      rewrite bool_decide_eq_true in *. congruence.
  - pose proof (service_apart services (_, _) (_, _) Hapart (Hks sm eq_refl) Hcall) as Heq.
    cbn [fst snd] in Heq. cbn zeta. rewrite Heq. cbn [andb].
    symmetry. apply implied_and. rewrite !andb_true_iff, !bool_decide_eq_true. intros [Hp Hv].
    destruct ns as [n|]; [|done]. rewrite bool_decide_eq_true in *. congruence.
  - exact (namespace_apart services n (_, _) Hapart (Hkn n eq_refl) Hcall).
  - done.
Qed.

Lemma match_documented services r c :
  names_apart services -> names_known services r ->
  (call_package c, call_service c) ∈ services -> one_reading r = true ->
  effective_match r c = documented_match r c.
Proof.
  intros Hapart Hknown Hcall. unfold one_reading, effective_match, documented_match.
  destruct (Route_Matcher r) as [m|] eqn:Hm; [|done]. rewrite !andb_true_iff. intros [[Hcons Htests] Hf].
  by rewrite (name_documented services r m c), headers_documented, fraction_documented.
Qed.

Lemma route_documented services l c :
  names_apart services -> (call_package c, call_service c) ∈ services ->
  Forall (fun r => names_known services r /\ one_reading r = true) (GRPCListener_Routes l) ->
  effective_route l c = documented_route l c.
Proof.
  intros Hapart Hcall Hall. unfold effective_route, documented_route.
  induction Hall as [|r rs [Hk Hone] _ IH]; [done|]. cbn.
  by rewrite (match_documented services r c), IH by done.
Qed.

(** The first match at the same position of two lists that match alike. *)
Lemma find_alike {A B} (P : A -> Prop) (Q : B -> Prop) `{forall a, Decision (P a),
    forall b, Decision (Q b)} (xs : list A) (ys : list B) :
  Forall2 (fun a b => P a <-> Q b) xs ys ->
  match list_find P xs with
  | Some (i, a) => exists b, list_find Q ys = Some (i, b) /\ xs !! i = Some a /\ ys !! i = Some b
  | None => list_find Q ys = None
  end.
Proof.
  induction 1 as [|a b xs ys Hab _ IH]; [done|]. cbn. destruct (decide (P a)) as [Ha|Ha].
  - rewrite decide_True by tauto. by exists b.
  - rewrite decide_False by tauto. destruct (list_find P xs) as [[i x]|]; cbn in *.
    + destruct IH as (y & -> & Hx & Hy). by exists y.
    + by rewrite IH.
Qed.

Lemma weighted_names_spec l n r x :
  makeRoute l n r = Ok x ->
  weighted_names x = imap (fun j b =>
    (backendName (GRPCListener_Namespace l) (GRPCListener_Name l) (Z.of_nat n) (Z.of_nat j),
     Backend_Weight b)) (Route_Backends r).
Proof.
  intros (_ & Hlen & Hcw)%makeRoute_clusters%makeWeightedClusters_Ok. unfold weighted_names.
  apply list_eq. intros j. rewrite list_lookup_fmap, list_lookup_imap.
  destruct (Route_Backends r !! j) as [b|] eqn:Hb; cbn.
  - destruct (Hcw j b Hb) as (cw & -> & Hname & Hweight). cbn. by rewrite Hname, Hweight.
  - rewrite lookup_ge_None_2; [done|]. rewrite Hlen. by apply lookup_ge_None_1.
Qed.

Lemma xds_host_spec target l config :
  makeRouteConfig target l = Ok config ->
  exists h, xds_host config target = Some h /\
    imapM (makeRoute l) (GRPCListener_Routes l) = Ok (route.VirtualHost_Routes h) /\
    route.VirtualHost_RetryPolicy h
      = makeRetryPolicy <$> GRPCListenerSpec_Retry (GRPCListener_Spec l).
Proof.
  intros (rs & Hrs & ->)%makeRouteConfig_routes. unfold xds_host. cbn.
  rewrite decide_True by set_solver. by eexists.
Qed.

Lemma retry_agree target l config n r x :
  makeRouteConfig target l = Ok config -> makeRoute l n r = Ok x ->
  xds_retry config target x = makeRetryPolicy <$> documented_retry l r.
Proof.
  intros (h & Hh & _ & Hretry)%xds_host_spec Hx. unfold xds_retry, documented_retry.
  rewrite Hh. cbn. rewrite Hretry. unfold makeRoute in Hx. inv_ok. subst x. cbn.
  by destruct (Route_Retry r).
Qed.

(** The client and the effective reading choose the same position. *)
Lemma routes_alike target l config c :
  makeRouteConfig target l = Ok config -> simple_call c = true ->
  Forall (fun r => plain_route r = true) (GRPCListener_Routes l) ->
  match effective_route l c with
  | None => xds_route config target c = None
  | Some (i, r) =>
      exists x, xds_route config target c = Some (i, x) /\
        weighted_names x = imap (fun j b =>
          (backendName (GRPCListener_Namespace l) (GRPCListener_Name l)
             (Z.of_nat i) (Z.of_nat j), Backend_Weight b)) (Route_Backends r) /\
        xds_retry config target x = makeRetryPolicy <$> documented_retry l r
  end.
Proof.
  intros Hconfig Hc Hone. destruct (xds_host_spec _ _ _ Hconfig) as (h & Hh & Hrs & _).
  unfold xds_route, effective_route. rewrite Hh. cbn.
  assert (Forall2 (fun r x => effective_match r c = true <-> xds_match x c = true)
    (GRPCListener_Routes l) (route.VirtualHost_Routes h)) as Halike.
  { apply Forall2_same_length_lookup_2; [symmetry; by eapply imapM_length|].
    intros i r x Hr Hx. destruct (imapM_lookup _ _ _ _ _ Hrs Hr) as (x' & Hx' & Hmk).
    simplify_eq. rewrite (match_effective l i r x c Hmk Hc); [done|].
    by eapply Forall_lookup_1 in Hone. }
  pose proof (find_alike (fun r => effective_match r c = true) (fun x => xds_match x c = true)
    _ _ Halike) as Hfind. clear Halike. destruct (list_find _ (GRPCListener_Routes l)) as [[i r]|]; [|done].
  destruct Hfind as (x & Hx & Hr & Hi). exists x. split; [done|].
  destruct (imapM_lookup _ _ _ _ _ Hrs Hr) as (x' & Hx' & Hmk). simplify_eq.
  split; [by apply weighted_names_spec|by eapply retry_agree].
Qed.

(** ** Properties *)

(** C4: the route an xDS client picks for a call. On the route configuration that
    is sent for the target, for a call and matchers with names of protobuf, a
    client finds no route when no route of the listener is effective for the
    call, and otherwise the first effective one, at its position, with its
    backends under their names and weights, in order, and with its retry policy or
    else that of the listener. A route is effective by the first of method,
    service and namespace it sets, where a service or a namespace covers every
    service whose full name begins like it, by the first test of each of its
    metadata matchers, and by its fraction. This is the route the API documents
    when in addition the routes have one reading (consistent names, one test per
    metadata matcher, a denominator of the CRD) and, in some set of services that
    has the one called and those the routes name, no full name begins with
    another one or with another package. *)
Theorem client_picks_route target l config c :
  makeRouteConfig target l = Ok config -> simple_call c = true ->
  Forall (fun r => plain_route r = true) (GRPCListener_Routes l) ->
  match effective_route l c with
  | None => xds_route config target c = None
  | Some (i, r) =>
      exists x, xds_route config target c = Some (i, x) /\
        weighted_names x = imap (fun j b =>
          (backendName (GRPCListener_Namespace l) (GRPCListener_Name l)
             (Z.of_nat i) (Z.of_nat j), Backend_Weight b)) (Route_Backends r) /\
        xds_retry config target x = makeRetryPolicy <$> documented_retry l r
  end /\
  forall services,
    names_apart services -> (call_package c, call_service c) ∈ services ->
    Forall (fun r => names_known services r /\ one_reading r = true) (GRPCListener_Routes l) ->
    effective_route l c = documented_route l c.
Proof.
  intros Hconfig Hc Hplain. split; [by apply routes_alike|].
  intros services. by apply route_documented.
Qed.

(** Only the first test of a metadata matcher counts: a matcher that asks for
    an exact value and for a prefix accepts the exact value, whatever the
    prefix. *)
Theorem second_test_ignored name v p h md :
  makeMetadataMatcher
    {| MetadataMatcher_Name := name; MetadataMatcher_Exact := Some v;
       MetadataMatcher_Regex := None; MetadataMatcher_Range := None;
       MetadataMatcher_Present := None; MetadataMatcher_Prefix := Some p;
       MetadataMatcher_Suffix := None; MetadataMatcher_Invert := false |} = Ok h ->
  md !! name = Some v -> header_matches h md = true.
Proof.
  intros [= <-] Hmd. unfold header_matches. cbn. rewrite Hmd. cbn. by rewrite bool_decide_true.
Qed.
End agreement.

(** ** Witnesses *)

Local Existing Instance sample_xds.
Local Existing Instance ascii_tables.

(** A client whose expressions are literal and that fails on absent metadata. *)
Definition sample_client : XdsClient :=
  {| regex_matches re s := bool_decide (re = s); absent_matches _ := false |}.
Local Existing Instance sample_client.

Lemma sample_denominators : @DenominatorLaws sample_xds.
Proof.
  split; [done..|]. intros name v. cbn. repeat case_decide; subst; set_solver.
Qed.

Definition sample_call (method : string) : call :=
  {| call_package := "echo"; call_service := "Echo"; call_method := method;
     call_metadata := {["x-variant" := "beta"]}; call_draw := 12345 |}.

(** A route for a tenth of the calls with some metadata, and the routes of the
    sample. *)
Definition canary_matcher (name : string) : RouteMatcher :=
  {| RouteMatcher_Method := None; RouteMatcher_Service := None;
     RouteMatcher_Namespace := Some "echo";
     RouteMatcher_Metadata :=
       [{| MetadataMatcher_Name := name; MetadataMatcher_Exact := None;
           MetadataMatcher_Regex := None; MetadataMatcher_Range := None;
           MetadataMatcher_Present := None; MetadataMatcher_Prefix := Some "be";
           MetadataMatcher_Suffix := None; MetadataMatcher_Invert := false |}];
     RouteMatcher_Fraction :=
       Some {| Fraction_Numerator := 50; Fraction_Denominator := "hundred" |} |}.

Definition canary_listener (name : string) : GRPCListener :=
  {| GRPCListener_ObjectMeta := GRPCListener_ObjectMeta sample_listener;
     GRPCListener_Spec :=
       {| GRPCListenerSpec_MaxStreamDuration := None; GRPCListenerSpec_Interceptors := [];
          GRPCListenerSpec_Retry := None;
          GRPCListenerSpec_Routes :=
            {| Route_Matcher := Some (canary_matcher name); Route_Interceptors := [];
               Route_HashPolicy := []; Route_MaxStreamDuration := None;
               Route_GrpcTimeoutHeaderMax := None; Route_Retry := None;
               Route_Backends := [sample_backend] |}
            :: GRPCListener_Routes sample_listener |} |}.

(** The services of the sample, apart from each other. *)
Definition sample_services : list (string * string) :=
  [("echo", "Echo"); ("echo", "Health"); ("shop", "Cart")].

Lemma sample_apart : names_apart sample_services.
Proof.
  intros p q Hp Hq. unfold sample_services in Hp, Hq.
  repeat (apply elem_of_cons in Hp as [->|Hp]); [..|by apply elem_of_nil in Hp];
    repeat (apply elem_of_cons in Hq as [->|Hq]);
    try (by apply elem_of_nil in Hq); split; vm_compute; congruence.
Qed.

Lemma client_picks_route_witness :
  exists config x, makeRouteConfig "default/test-xds" (canary_listener "x-variant") = Ok config /\
    xds_route config "default/test-xds" (sample_call "Echo") = Some (0, x) /\
    weighted_names x = [("default/test-xds/route/0/backend/0", 80%Z)] /\
    effective_route (canary_listener "x-variant") (sample_call "Echo")
      = documented_route (canary_listener "x-variant") (sample_call "Echo").
Proof.
  eexists.
  destruct (@client_picks_route sample_xds sample_denominators ascii_tables sample_client
    "default/test-xds" (canary_listener "x-variant")
    _ (sample_call "Echo") eq_refl) as [(x & Hx & Hnames & _) Hdoc].
  - reflexivity.
  - apply Forall_forall. intros r Hr. cbn in Hr.
    repeat (apply elem_of_cons in Hr as [->|Hr]; [reflexivity|]). by apply elem_of_nil in Hr.
  - exists x. split; [reflexivity|]. split; [exact Hx|]. split; [exact Hnames|].
    apply (Hdoc sample_services sample_apart); [by left|].
    apply Forall_forall. intros r Hr. cbn in Hr.
    repeat (apply elem_of_cons in Hr as [->|Hr];
      [split; [intros m Hm; injection Hm as <- || discriminate Hm|reflexivity];
       split; intros ? Hn; (discriminate Hn || injection Hn as <-); by left|]).
    by apply elem_of_nil in Hr.
Defined.

Lemma second_test_ignored_witness :
  exists h, makeMetadataMatcher
    {| MetadataMatcher_Name := "k"; MetadataMatcher_Exact := Some "v";
       MetadataMatcher_Regex := None; MetadataMatcher_Range := None;
       MetadataMatcher_Present := None; MetadataMatcher_Prefix := Some "w";
       MetadataMatcher_Suffix := None; MetadataMatcher_Invert := false |} = Ok h /\
    header_matches h {["k" := "v"]} = true.
Proof.
  eexists. split; [reflexivity|].
  exact (second_test_ignored "k" "v" "w" _ {["k" := "v"]} eq_refl eq_refl).
Defined.
