(* ===== verification/Resolver.v ===== *)
(** Requests and responses of the resolvers: [gtc/resolver.go].

    A response collects one encoded resource per requested name and feeds the
    resource versions of the Kubernetes objects it was built from to a SHA-256
    hasher; the version of the response is the digest. [resolve_with] states the
    loop every resource handler shares: handle the names one after
    the other, stop at the first failure, keep the order. *)

From S2P Require Import Prelude GoStrings GoHash Api Errors Xds.

Record resolveRequest := {
  resolveRequest_resourceNames : list string;
  resolveRequest_typeUrl : string;
  resolveRequest_nodeInfo : option core.Node
}.

(** [versionHasher] is the sequence of bytes written to the hasher. *)
Record resolveResponse := {
  resolveResponse_typeURL : string;
  resolveResponse_resources : list (option Any);
  resolveResponse_versionHasher : list Z
}.

Definition newResolveResponse (typeURL : string) (resourcesCount : nat) : resolveResponse :=
  {| resolveResponse_typeURL := typeURL;
     resolveResponse_resources := replicate resourcesCount None;
     resolveResponse_versionHasher := [] |}.

(** [hash.Hash.Write] never returns an error. *)
Definition useResourceVersion (v : string) (r : resolveResponse) : M resolveResponse :=
  Ok {| resolveResponse_typeURL := resolveResponse_typeURL r;
        resolveResponse_resources := resolveResponse_resources r;
        resolveResponse_versionHasher := resolveResponse_versionHasher r ++ bytes_of v |}.

Definition versionInfo (r : resolveResponse) : string :=
  of_bytes (b64_encode (sha256_sum (resolveResponse_versionHasher r))).

(** The assignment [response.resources[i] = a]. *)
Definition setResource (i : nat) (a : Any) (r : resolveResponse) : resolveResponse :=
  {| resolveResponse_typeURL := resolveResponse_typeURL r;
     resolveResponse_resources := <[i := Some a]> (resolveResponse_resources r);
     resolveResponse_versionHasher := resolveResponse_versionHasher r |}.

(** The loop [for i, resourceName := range req.resourceNames] of a handler. *)
Definition resolveLoop (body : nat -> string -> resolveResponse -> M resolveResponse)
    (typeURL : string) (names : list string) : M resolveResponse :=
  foldM (fun response '(i, name) => body i name response) (imap pair names)
    (newResolveResponse typeURL (length names)).

(** [resourceResolver] and its map-based implementation. *)
Abbreviation resourceResolver := (resolveRequest -> M resolveResponse).

Definition resourceTypeResolver_resolveResource (h : gmap string resourceResolver)
    (req : resolveRequest) : M resolveResponse :=
  match h !! resolveRequest_typeUrl req with
  | None => Err (unsupportedResourceType (resolveRequest_typeUrl req))
  | Some hdl => hdl req
  end.

(** ** Specification of a handler *)

(** What a handler does for one name: the resource and the versions it used. *)
Definition resolve_each (item : nat -> string -> M (Any * list string)) (typeURL : string)
    (names : list string) : M resolveResponse :=
  items ← imapM item names;
  Ok {| resolveResponse_typeURL := typeURL;
        resolveResponse_resources := Some <$> items.*1;
        resolveResponse_versionHasher := items.*2 ≫= (fun vs => vs ≫= bytes_of) |}.

(** The same when nothing depends on the position of a name. *)
Definition resolve_with (item : string -> M (Any * list string)) : string -> list string ->
    M resolveResponse := resolve_each (fun _ => item).

(** The body of a handler does [item] and records its result in slot [i]. *)
Definition body_implements (body : nat -> string -> resolveResponse -> M resolveResponse)
    (item : nat -> string -> M (Any * list string)) : Prop :=
  forall i name r,
    body i name r =
    '(a, vs) ← item i name;
    Ok {| resolveResponse_typeURL := resolveResponse_typeURL r;
          resolveResponse_resources := <[i := Some a]> (resolveResponse_resources r);
          resolveResponse_versionHasher :=
            resolveResponse_versionHasher r ++ (vs ≫= bytes_of) |}.

(** ** Lemmas *)

Lemma resolveLoop_from body item typ names n done_ hasher :
  body_implements body item -> length done_ = n ->
  foldM (fun response '(i, name) => body i name response)
    (imap (fun i name => (n + i, name)) names)
    {| resolveResponse_typeURL := typ;
       resolveResponse_resources := done_ ++ replicate (length names) None;
       resolveResponse_versionHasher := hasher |} =
  items ← imapM_from n item names;
  Ok {| resolveResponse_typeURL := typ;
        resolveResponse_resources := done_ ++ (Some <$> items.*1);
        resolveResponse_versionHasher := hasher ++ (items.*2 ≫= (fun vs => vs ≫= bytes_of)) |}.
Proof.
  intros Hbody. revert n done_ hasher.
  induction names as [|name names IH]; intros n done_ hasher Hlen; simpl.
  { by rewrite !app_nil_r. }
  rewrite Nat.add_0_r, Hbody. destruct (item n name) as [[a vs]|e|p]; simpl; [|done..].
  assert (<[n:=Some a]> (done_ ++ None :: replicate (length names) None)
          = (done_ ++ [Some a]) ++ replicate (length names) None) as ->.
  { rewrite insert_app_r_alt by lia. replace (n - length done_) with 0 by lia.
    simpl. by rewrite <-app_assoc. }
  replace (imap ((λ i name0, (n + i, name0)) ∘ S) names)
    with (imap (fun i name => (S n + i, name)) names); last first.
  { apply imap_ext. intros. simpl. f_equal. lia. }
  rewrite IH by (rewrite length_app; simpl; lia).
  destruct (imapM_from (S n) item names); simpl; [|done..].
  by rewrite <-!app_assoc.
Qed.

(** A handler whose body does [item] implements the specification. *)
Lemma resolveLoop_refines body item typ names :
  body_implements body item -> resolveLoop body typ names = resolve_each item typ names.
Proof.
  intros Hbody. unfold resolveLoop, resolve_each, newResolveResponse.
  by apply (resolveLoop_from body item typ names 0 [] [] Hbody).
Qed.

Lemma resolve_each_Ok item typ names r :
  resolve_each item typ names = Ok r ->
  resolveResponse_typeURL r = typ /\
  exists items, imapM item names = Ok items /\
    resolveResponse_resources r = Some <$> items.*1 /\
    resolveResponse_versionHasher r = items.*2 ≫= (fun vs => vs ≫= bytes_of).
Proof. unfold resolve_each. intros Hr. inv_ok. subst r. simpl. eauto. Qed.

Lemma resolve_with_Ok item typ names r :
  resolve_with item typ names = Ok r ->
  resolveResponse_typeURL r = typ /\
  exists items, forM item names = Ok items /\
    resolveResponse_resources r = Some <$> items.*1 /\
    resolveResponse_versionHasher r = items.*2 ≫= (fun vs => vs ≫= bytes_of).
Proof. apply resolve_each_Ok. Qed.

Lemma resolve_with_is_ok item typ names :
  is_ok (resolve_with item typ names) = true <-> Forall (fun name => is_ok (item name) = true) names.
Proof. unfold resolve_with, resolve_each. rewrite is_ok_ret. apply forM_is_ok. Qed.

Lemma resolve_each_singleton item typ name :
  resolve_each item typ [name] =
  '(a, vs) ← item 0 name;
  Ok {| resolveResponse_typeURL := typ; resolveResponse_resources := [Some a];
        resolveResponse_versionHasher := vs ≫= bytes_of |}.
Proof.
  unfold resolve_each, imapM. simpl.
  destruct (item 0 name) as [[a vs]|e|p]; simpl; [|done..]. by rewrite app_nil_r.
Qed.

Lemma resolve_with_singleton item typ name :
  resolve_with item typ [name] =
  '(a, vs) ← item name;
  Ok {| resolveResponse_typeURL := typ; resolveResponse_resources := [Some a];
        resolveResponse_versionHasher := vs ≫= bytes_of |}.
Proof. apply resolve_each_singleton. Qed.

Lemma resolve_with_no_panic item typ names :
  (forall name, no_panic (item name)) -> no_panic (resolve_with item typ names).
Proof.
  intros Hitem. apply no_panic_bind; [|done]. by apply imapM_no_panic.
Qed.

Lemma versionInfo_hasher r1 r2 :
  resolveResponse_versionHasher r1 = resolveResponse_versionHasher r2 ->
  versionInfo r1 = versionInfo r2.
Proof. unfold versionInfo. by intros ->. Qed.

Lemma useResourceVersions_fold vs r :
  foldM (fun acc v => useResourceVersion v acc) vs r =
  Ok {| resolveResponse_typeURL := resolveResponse_typeURL r;
        resolveResponse_resources := resolveResponse_resources r;
        resolveResponse_versionHasher :=
          resolveResponse_versionHasher r ++ (vs ≫= bytes_of) |}.
Proof.
  revert r; induction vs as [|v vs IH]; intros r; simpl; [by rewrite app_nil_r; destruct r|].
  rewrite IH. simpl. by rewrite <-app_assoc.
Qed.

(** ** Properties *)

(** The version of a response. Using the resource versions [vs] never
    fails and leaves the resources alone; the version is the encoded SHA-256
    digest, always 44 characters, of the bytes used before followed by the
    concatenation of [vs], so it depends on the order of the versions but not on
    how their bytes are divided between objects. *)
Theorem versionInfo_concat r vs :
  exists r', foldM (fun acc v => useResourceVersion v acc) vs r = Ok r' /\
    resolveResponse_resources r' = resolveResponse_resources r /\
    versionInfo r' = of_bytes (b64_encode (sha256_sum
      (resolveResponse_versionHasher r ++ (vs ≫= bytes_of)))) /\
    String.length (versionInfo r') = 44.
Proof.
  eexists. split; [apply useResourceVersions_fold|]. split; [done|]. split; [done|].
  unfold versionInfo. rewrite of_bytes_length. apply b64_digest_length.
Qed.
