(* ===== verification/K8s.v ===== *)
(** The Kubernetes side: endpoint slices, the objects an informer hands to an
    event handler, and the two listers the handlers read from.

    The types are those of [k8s.io/api/discovery/v1] with the fields the
    controller reads. The listers are type classes: what the handlers call is
    [GRPCListenerLister] and [EndpointSliceLister], what they rely on are the
    laws. The lister of listeners is implemented in the file [Listers] after
    [client/listers]; the lister of endpoint slices belongs to client-go and
    stays a parameter. *)

From S2P Require Import Prelude GoStrings GoPath Api Errors.

Record EndpointPort := { EndpointPort_Name : option string; EndpointPort_Port : option Z }.

Record ForZone := { ForZone_Name : string }.
Record EndpointHints := { EndpointHints_ForZones : list ForZone }.

Record Endpoint := {
  Endpoint_Addresses : list string;
  Endpoint_Ready : option bool;              (* Conditions.Ready *)
  Endpoint_Zone : option string;
  Endpoint_Hints : option EndpointHints
}.

Record EndpointSlice := {
  EndpointSlice_ObjectMeta : ObjectMeta;
  EndpointSlice_Endpoints : list Endpoint;
  EndpointSlice_Ports : list EndpointPort
}.

(** A value of type [any] that an informer passes to its handlers. *)
Inductive object :=
  | ObjGRPCListener (l : GRPCListener)
  | ObjEndpointSlice (s : EndpointSlice)
  | ObjDeletedFinalStateUnknown (key : string)
  | ObjNil.

(** The label that ties a slice to its service. *)
Definition serviceNameLabel : string := "kubernetes.io/service-name".

(** Reading a missing key of a Go map gives the zero value. *)
Definition label (m : ObjectMeta) (key : string) : string :=
  default "" (ObjectMeta_Labels m !! key).

(** ** Listers *)

(** [labels.Selector], as what it selects. *)
Definition Selector : Type := gmap string string -> bool.
Definition labels_Everything : Selector := fun _ => true.

Class GRPCListenerLister := {
  (** [GRPCListeners(namespace).Get(name)] *)
  lister_Get : string -> string -> M GRPCListener;
  (** [List(selector)] *)
  lister_List : Selector -> M (list GRPCListener)
}.

(** A lister returns the object that was asked for, its names are the ones
    Kubernetes admits, and it does not panic. *)
Class GRPCListenerListerLaws `{GRPCListenerLister} : Prop := {
  lister_Get_object ns name l :
    str_mem slash ns = false -> lister_Get ns name = Ok l ->
    GRPCListener_Namespace l = ns /\ GRPCListener_Name l = name /\ well_named l;
  lister_Get_returns ns name : no_panic (lister_Get ns name);
  lister_List_returns selector : no_panic (lister_List selector)
}.

Class EndpointSliceLister := {
  Requirement : Type;
  (** [labels.NewRequirement(key, selection.Equals, []string{value})] *)
  labels_NewRequirement : string -> string -> M Requirement;
  (** [EndpointSlices(namespace).List(labels.NewSelector().Add(req))] *)
  slices_List : string -> Requirement -> M (list EndpointSlice)
}.

(** The slices listed for a namespace and an equality requirement are in that
    namespace and carry the label. *)
Class EndpointSliceListerLaws `{EndpointSliceLister} : Prop := {
  slices_List_selected key value req ns slices s :
    labels_NewRequirement key value = Ok req -> slices_List ns req = Ok slices ->
    s ∈ slices ->
    ObjectMeta_Namespace (EndpointSlice_ObjectMeta s) = ns /\
    label (EndpointSlice_ObjectMeta s) key = value;
  labels_NewRequirement_returns key value : no_panic (labels_NewRequirement key value);
  slices_List_returns ns req : no_panic (slices_List ns req)
}.

(** ** Instances *)

(** A lister over a finite set of slices, for evaluation. *)
Definition slices_of (slices : list EndpointSlice) : EndpointSliceLister := {|
  Requirement := string * string;
  labels_NewRequirement key value := Ok (key, value);
  slices_List ns req := Ok (filter (fun s =>
    ObjectMeta_Namespace (EndpointSlice_ObjectMeta s) = ns /\
    label (EndpointSlice_ObjectMeta s) (fst req) = snd req) slices)
|}.

Lemma slices_of_laws slices : @EndpointSliceListerLaws (slices_of slices).
Proof.
  split; [|done..]. intros key value req ns sl s [= <-] [= <-].
  by intros [? _]%list_elem_of_filter.
Qed.
