(* ===== verification/Listers.v ===== *)
(** The lister of [GRPCListener]s over the indexer of its informer:
    [client/listers/gtc/v1alpha1/grpclistener.go].

    The indexer is client-go's; it is the parameter [Indexer]. The lister
    satisfies the interface the resource handlers rely on as soon as the
    indexer stores every object under its namespace and name. *)

From S2P Require Import Prelude GoStrings GoPath Api Errors K8s.

Class Indexer := {
  (** [GetByKey], with the second result folded into the option *)
  indexer_GetByKey : string -> M (option object);
  (** [cache.ListAll] and [cache.ListAllByNamespace]: the objects their
      callback is called on *)
  indexer_ListAll : Selector -> M (list object);
  indexer_ListAllByNamespace : string -> Selector -> M (list object)
}.

(** [type gRPCListenerLister struct] *)
Record gRPCListenerLister := { gRPCListenerLister_indexer : Indexer }.

(** [type gRPCListenerNamespaceLister struct] *)
Record gRPCListenerNamespaceLister := {
  namespaceLister_indexer : Indexer;
  namespaceLister_namespace : string
}.

(** The type assertion [m.( *v1alpha1.GRPCListener)] panics on other types. *)
Definition assertGRPCListener (m : object) : M GRPCListener :=
  match m with
  | ObjGRPCListener l => Ok l
  | _ => Panic (PanicValue "interface conversion")
  end.

(** [func (s *gRPCListenerLister) List] *)
Definition gRPCListenerLister_List (s : gRPCListenerLister) (selector : Selector)
  : M (list GRPCListener) :=
  objs ← @indexer_ListAll (gRPCListenerLister_indexer s) selector;
  forM assertGRPCListener objs.

(** [func (s *gRPCListenerLister) GRPCListeners] *)
Definition gRPCListenerLister_GRPCListeners (s : gRPCListenerLister) (namespace : string)
  : gRPCListenerNamespaceLister :=
  {| namespaceLister_indexer := gRPCListenerLister_indexer s;
     namespaceLister_namespace := namespace |}.

(** [func (s gRPCListenerNamespaceLister) List] *)
Definition gRPCListenerNamespaceLister_List (s : gRPCListenerNamespaceLister) (selector : Selector)
  : M (list GRPCListener) :=
  objs ← @indexer_ListAllByNamespace (namespaceLister_indexer s) (namespaceLister_namespace s) selector;
  forM assertGRPCListener objs.

(** [func (s gRPCListenerNamespaceLister) Get] *)
Definition gRPCListenerNamespaceLister_Get (s : gRPCListenerNamespaceLister) (name : string)
  : M GRPCListener :=
  obj ← @indexer_GetByKey (namespaceLister_indexer s) (namespaceLister_namespace s +:+ "/" +:+ name);
  match obj with
  | None => Err (notFoundError (Resource "grpclistener") name)
  | Some o => assertGRPCListener o
  end.

(** [NewGRPCListenerLister]: the struct, with its methods as the interface. *)
#[export] Instance NewGRPCListenerLister (indexer : Indexer) : GRPCListenerLister :=
  let s := {| gRPCListenerLister_indexer := indexer |} in
  {| lister_Get namespace name :=
       gRPCListenerNamespaceLister_Get (gRPCListenerLister_GRPCListeners s namespace) name;
     lister_List := gRPCListenerLister_List s |}.

Section lister.
Context `{Indexer}.

(** The indexer of a [GRPCListener] informer, as client-go documents it: it
    holds only listeners, each under the key [namespace/name], and its methods
    return. *)
Class IndexerLaws : Prop := {
  GetByKey_key k o :
    indexer_GetByKey k = Ok (Some o) ->
    exists l, o = ObjGRPCListener l /\ well_named l /\
      k = GRPCListener_Namespace l +:+ "/" +:+ GRPCListener_Name l;
  ListAll_listeners selector os o :
    indexer_ListAll selector = Ok os -> o ∈ os -> exists l, o = ObjGRPCListener l;
  GetByKey_returns k : no_panic (indexer_GetByKey k);
  ListAll_returns selector : no_panic (indexer_ListAll selector)
}.

(** ** Lemmas *)

Lemma namespaced_key_inj ns1 name1 ns2 name2 :
  str_mem slash ns1 = false -> str_mem slash ns2 = false ->
  ns1 +:+ "/" +:+ name1 = ns2 +:+ "/" +:+ name2 -> ns1 = ns2 /\ name1 = name2.
Proof.
  intros H1 H2 Heq. apply (f_equal (strings_Cut slash)) in Heq.
  change ("/" +:+ name1) with (String slash name1) in Heq.
  change ("/" +:+ name2) with (String slash name2) in Heq.
  rewrite !strings_Cut_app in Heq by done. by simplify_eq.
Qed.

(** The lister keeps the promises of its interface. *)
#[export] Instance NewGRPCListenerLister_laws `{IndexerLaws} : GRPCListenerListerLaws.
Proof.
  split.
  - intros ns name l Hns Hget. simpl in Hget. unfold gRPCListenerNamespaceLister_Get in Hget.
    inv_ok. destruct r as [o|]; [|done]. apply GetByKey_key in Hc as (l' & -> & Hl' & Hkey).
    injection Hget as ->. pose proof (is_segment_no_slash _ (proj1 Hl')) as Hno.
    by apply namespaced_key_inj in Hkey as [<- <-].
  - intros ns name. simpl. apply no_panic_bind; [apply GetByKey_returns|].
    intros [o|] Ho; [|done]. by apply GetByKey_key in Ho as (l & -> & _).
  - intros selector. simpl. apply no_panic_bind; [apply ListAll_returns|]. intros os Hos.
    apply imapM_no_panic. intros i o Hi.
    destruct (ListAll_listeners selector os o Hos) as [l ->]; [by eapply list_elem_of_lookup_2|done].
Qed.
End lister.

(** An indexer over a finite list of listeners, for evaluation. *)
Definition listener_key (l : GRPCListener) : string :=
  GRPCListener_Namespace l +:+ "/" +:+ GRPCListener_Name l.

Definition selected (selector : Selector) (ls : list GRPCListener) : list GRPCListener :=
  filter (fun l => selector (ObjectMeta_Labels (GRPCListener_ObjectMeta l)) = true) ls.

Lemma selected_Everything ls : selected labels_Everything ls = ls.
Proof.
  unfold selected. induction ls as [|l ls IH]; [done|]. by rewrite filter_cons_True, IH.
Qed.

Definition indexer_of (ls : list GRPCListener) : Indexer := {|
  indexer_GetByKey k := Ok (ObjGRPCListener <$> list_find (fun l => listener_key l = k) ls ≫= fun p => Some p.2);
  indexer_ListAll selector := Ok (ObjGRPCListener <$> selected selector ls);
  indexer_ListAllByNamespace ns selector :=
    Ok (ObjGRPCListener <$> filter (fun l => GRPCListener_Namespace l = ns) (selected selector ls))
|}.

Lemma indexer_of_laws ls :
  Forall well_named ls -> @IndexerLaws (indexer_of ls).
Proof.
  intros Hls. split; [| |done..].
  - intros k o. simpl. destruct (list_find _ ls) as [[i l]|] eqn:Hf; [|done].
    intros [= <-]. apply list_find_Some in Hf as (Hi & <- & _). exists l.
    split; [done|]. split; [by eapply Forall_lookup_1|done].
  - intros selector os o [= <-] (l & -> & _)%list_elem_of_fmap. by exists l.
Qed.

(** ** Properties *)

(** The lister finds exactly the stored object. Over an indexer that
    stores listeners under their namespace and name, [Get] succeeds only with a
    listener of that namespace and name, and a missing key is the not-found
    error for that name. *)
Theorem gRPCListenerLister_Get_spec `{IndexerLaws} s ns name :
  s = gRPCListenerLister_GRPCListeners {| gRPCListenerLister_indexer := H |} ns ->
  str_mem slash ns = false ->
  (forall l, gRPCListenerNamespaceLister_Get s name = Ok l ->
     GRPCListener_Namespace l = ns /\ GRPCListener_Name l = name /\
     indexer_GetByKey (ns +:+ "/" +:+ name) = Ok (Some (ObjGRPCListener l))) /\
  (indexer_GetByKey (ns +:+ "/" +:+ name) = Ok None ->
     gRPCListenerNamespaceLister_Get s name
       = Err (notFoundError (Resource "grpclistener") name)).
Proof.
  intros -> Hns. split.
  - intros l Hget. pose proof (lister_Get_object ns name l Hns Hget) as (? & ? & _).
    split; [done|]. split; [done|]. unfold gRPCListenerNamespaceLister_Get in Hget.
    inv_ok. destruct r as [[l'| | |]|]; simplify_eq/=. done.
  - intros Hnone. unfold gRPCListenerNamespaceLister_Get. cbn [namespaceLister_indexer
      namespaceLister_namespace gRPCListenerLister_GRPCListeners gRPCListenerLister_indexer].
    by rewrite Hnone.
Qed.
