(* ===== verification/ListenerHandler.v ===== *)
(** The listener resource handler: [gtc/listener.go]. *)

From S2P Require Import Prelude GoStrings GoPath GoStrconv Api Errors Xds ResourceName Interceptors Routes Resolver K8s Listers.

Section listener_handler.
Context `{XdsLibrary, UnicodeTables, GRPCListenerLister}.

(** The connection manager built by [makeListener]. *)
Definition httpConnManager (listener : GRPCListener) (routeConfig : route.RouteConfiguration)
    (filters : list hcm.HttpFilter) : hcm.HttpConnectionManager :=
  {| hcm.HttpConnectionManager_MaxStreamDuration :=
       makeDuration (GRPCListenerSpec_MaxStreamDuration (GRPCListener_Spec listener));
     hcm.HttpConnectionManager_RouteConfig := routeConfig;
     hcm.HttpConnectionManager_HttpFilters := filters |}.

(** [func (h *listenerHandler) makeListener]: the listener and the resource
    version of the object it was built from. *)
Definition makeListener (resourceName : string) : M (listenerv3.Listener * string) :=
  '(namespace, name) ← parseListenerName resourceName;
  listener ← lister_Get namespace name;
  filters ← makeFilters (GRPCListenerSpec_Interceptors (GRPCListener_Spec listener));
  routeConfig ← makeRouteConfig resourceName listener;
  apiListener ← mustAny (MHttpConnectionManager (httpConnManager listener routeConfig filters));
  Ok ({| listenerv3.Listener_Name := resourceName;
         listenerv3.Listener_ApiListener := apiListener |},
      GRPCListener_ResourceVersion listener).

(** The body of the loop of [resolveResource]. *)
Definition listenerHandler_body (typeUrl : string) (i : nat) (resourceName : string)
    (response : resolveResponse) : M resolveResponse :=
  '(resource, version) ← makeListener resourceName;
  a ← encodeResource typeUrl (MListener resource);
  useResourceVersion version (setResource i a response).

(** [func (h *listenerHandler) resolveResource] *)
Definition listenerHandler_resolveResource (req : resolveRequest) : M resolveResponse :=
  resolveLoop (listenerHandler_body (resolveRequest_typeUrl req)) ListenerType
    (resolveRequest_resourceNames req).

(** What the handler does for one name. *)
Definition listener_item (typeUrl resourceName : string) : M (Any * list string) :=
  '(resource, version) ← makeListener resourceName;
  a ← encodeResource typeUrl (MListener resource);
  Ok (a, [version]).

(** ** Lemmas *)

Lemma listenerHandler_implements typeUrl :
  body_implements (listenerHandler_body typeUrl) (fun _ => listener_item typeUrl).
Proof.
  intros i name r. unfold listenerHandler_body, listener_item.
  destruct (makeListener name) as [[l v]|e|p]; simpl; [|done..].
  destruct (encodeResource typeUrl (MListener l)); simpl; [|done..].
  by rewrite app_nil_r.
Qed.

Lemma listenerHandler_refines req :
  listenerHandler_resolveResource req =
  resolve_with (listener_item (resolveRequest_typeUrl req)) ListenerType
    (resolveRequest_resourceNames req).
Proof. apply resolveLoop_refines, listenerHandler_implements. Qed.

(** A listener whose interceptors and routes are well formed. *)
Definition listener_ok (l : GRPCListener) : Prop :=
  Forall interceptor_ok (GRPCListenerSpec_Interceptors (GRPCListener_Spec l)) /\
  Forall route_ok (GRPCListener_Routes l).

Lemma mustAny_succeeds m : marshalling_succeeds -> mustAny m = anypb_New m.
Proof. intros Hany. unfold mustAny. by destruct (Hany m) as [a ->]. Qed.

Lemma makeListener_Ok ns name l :
  marshalling_succeeds -> str_mem slash ns = false ->
  lister_Get ns name = Ok l -> listener_ok l ->
  exists filters config any,
    makeFilters (GRPCListenerSpec_Interceptors (GRPCListener_Spec l)) = Ok filters /\
    makeRouteConfig (listenerName ns name) l = Ok config /\
    anypb_New (MHttpConnectionManager (httpConnManager l config filters)) = Ok any /\
    makeListener (listenerName ns name) =
      Ok ({| listenerv3.Listener_Name := listenerName ns name;
             listenerv3.Listener_ApiListener := any |}, GRPCListener_ResourceVersion l).
Proof.
  intros Hany Hns Hget [Hfs Hrs].
  assert (exists filters, makeFilters (GRPCListenerSpec_Interceptors (GRPCListener_Spec l))
            = Ok filters) as [filters Hfilters].
  { apply is_ok_spec, makeFilters_is_ok; done. }
  assert (exists config, makeRouteConfig (listenerName ns name) l = Ok config) as [config Hconfig].
  { apply is_ok_spec. by apply makeRouteConfig_is_ok. }
  destruct (Hany (MHttpConnectionManager (httpConnManager l config filters))) as [any Hhcm].
  exists filters, config, any. split; [done|]. split; [done|]. split; [done|].
  unfold makeListener. rewrite (proj2 (parseListenerName_Ok _ ns name)) by done. simpl.
  rewrite Hget. simpl. rewrite Hfilters. simpl. rewrite Hconfig. simpl.
  rewrite mustAny_succeeds by done. by rewrite Hhcm.
Qed.

Lemma makeRouteConfig_no_panic name l :
  marshalling_succeeds -> no_panic (makeRouteConfig name l).
Proof.
  intros Hany.
  assert (forall specs, no_panic (makeFilterOverrides specs)) as Hov.
  { intros specs. apply makeFilterOverrides_no_panic. intros m.
    destruct (mustAny_Ok m Hany) as [? ->]. done. }
  apply no_panic_bind; [|done]. apply imapM_no_panic. intros i r _. unfold makeRoute.
  apply no_panic_bind; [apply makeRouteMatch_no_panic|intros ? _].
  apply no_panic_bind; [apply Hov|intros ? _]. apply no_panic_bind; [|intros ? _].
  - apply no_panic_bind; [|done]. apply imapM_no_panic. intros j b _.
    apply no_panic_bind; [apply Hov|done].
  - apply no_panic_bind; [|done]. rewrite makeHashPolicy_forM.
    apply imapM_no_panic. intros j h _. unfold makeHashPolicyItem. by repeat case_decide.
Qed.

Lemma makeListener_no_panic name :
  GRPCListenerListerLaws -> marshalling_succeeds -> no_panic (makeListener name).
Proof.
  intros Hlister Hany. unfold makeListener.
  apply no_panic_bind; [apply parseListenerName_no_panic|intros [ns n] _].
  apply no_panic_bind; [apply lister_Get_returns|intros l _].
  apply no_panic_bind; [by apply makeFilters_no_panic|intros fs _].
  apply no_panic_bind; [by apply makeRouteConfig_no_panic|intros c _].
  rewrite mustAny_succeeds by done. apply no_panic_bind; [|done].
  by destruct (Hany (MHttpConnectionManager (httpConnManager l c fs))) as [? ->].
Qed.

(** ** Properties *)

(** Resolving listeners. The handler answers exactly as the specification
    [resolve_with] on the items of the requested names: one resource per name,
    in the order of the request, encoded under the requested type URL, with the
    version of every listener used in that order; the first name that fails is
    the failure of the whole request. *)
Theorem listenerHandler_refines_spec req :
  listenerHandler_resolveResource req =
  resolve_with (listener_item (resolveRequest_typeUrl req)) ListenerType
    (resolveRequest_resourceNames req).
Proof. apply listenerHandler_refines. Qed.

(** The listener handler never panics, whatever names a client asks for,
    as long as marshalling works. *)
Theorem listenerHandler_never_panics req :
  GRPCListenerListerLaws -> XdsLaws -> marshalling_succeeds ->
  no_panic (listenerHandler_resolveResource req).
Proof.
  intros Hlister Hxds Hany. rewrite listenerHandler_refines. apply resolve_with_no_panic.
  intros name. apply no_panic_bind; [by apply makeListener_no_panic|]. intros [l v] _.
  apply no_panic_bind; [|done]. apply no_panic_bind; [apply proto_Marshal_returns|done].
Qed.
End listener_handler.

(** ** Witnesses *)

Local Existing Instance sample_xds.
Local Existing Instance ascii_tables.

Lemma sample_listener_named : Forall well_named [sample_listener].
Proof. by repeat constructor. Qed.

Definition sample_lister : GRPCListenerLister :=
  NewGRPCListenerLister (indexer_of [sample_listener]).

Lemma gRPCListenerLister_Get_spec_witness :
  gRPCListenerNamespaceLister_Get (gRPCListenerLister_GRPCListeners
      {| gRPCListenerLister_indexer := indexer_of [sample_listener] |} "default") "missing"
    = Err (notFoundError (Resource "grpclistener") "missing").
Proof.
  apply (@gRPCListenerLister_Get_spec (indexer_of [sample_listener])
    (indexer_of_laws _ sample_listener_named) _ "default" "missing"); reflexivity.
Defined.

Lemma sample_lister_laws : @GRPCListenerListerLaws sample_lister.
Proof.
  apply (@NewGRPCListenerLister_laws (indexer_of [sample_listener])).
  apply indexer_of_laws, sample_listener_named.
Qed.

Lemma listenerHandler_never_panics_witness :
  no_panic (@listenerHandler_resolveResource _ _ sample_lister
    {| resolveRequest_resourceNames := ["default/test-xds"; "nope"];
       resolveRequest_typeUrl := ListenerType; resolveRequest_nodeInfo := None |}).
Proof.
  apply listenerHandler_never_panics;
    [apply sample_lister_laws|apply sample_xds_laws|apply sample_marshalling].
Defined.

Example listenerHandler_answers :
  is_ok (@listenerHandler_resolveResource _ _ sample_lister
    {| resolveRequest_resourceNames := ["default/test-xds"];
       resolveRequest_typeUrl := ListenerType; resolveRequest_nodeInfo := None |}) = true.
Proof. by vm_compute. Qed.
