(* ===== verification/ClusterHandler.v ===== *)
(** The cluster resource handler: [gtc/cluster.go]. *)

From S2P Require Import Prelude GoStrings GoPath GoStrconv Api Errors Xds ResourceName Interceptors Routes Resolver K8s Listers ListenerHandler.

(** [func findBackendSpec]: both tests compare a signed id with the length
    minus one, so a negative id passes them and the slice access panics. *)
Definition findBackendSpec (backendRef : parsedBackendName) (listener : GRPCListener)
  : M Backend :=
  if decide (parsedBackendName_RouteID backendRef
             > Z.of_nat (length (GRPCListener_Routes listener)) - 1)%Z then
    Err (routeNotFoundError (parsedBackendName_RouteID backendRef) listener)
  else
    route ← go_index (GRPCListener_Routes listener) (parsedBackendName_RouteID backendRef);
    if decide (parsedBackendName_BackendID backendRef
               > Z.of_nat (length (Route_Backends route)) - 1)%Z then
      Err (backendNotFoundError (parsedBackendName_RouteID backendRef)
             (parsedBackendName_BackendID backendRef) listener)
    else go_index (Route_Backends route) (parsedBackendName_BackendID backendRef).

Section cluster_handler.
Context `{XdsLibrary, UnicodeTables, GRPCListenerLister}.

Definition makeLBPolicy (p : string) : cluster.LbPolicy :=
  let q := strings_ToLower p in
  if decide (q = "ringhash" \/ q = "ring_hash") then cluster.RING_HASH
  else cluster.ROUND_ROBIN.

Definition makeCluster (clusterName : string) (spec : Backend) : cluster.Cluster :=
  {| cluster.Cluster_Name := clusterName;
     cluster.Cluster_LbPolicy := makeLBPolicy (Backend_LBPolicy spec);
     cluster.Cluster_Type := cluster.EDS;
     cluster.Cluster_EdsClusterConfig :=
       {| cluster.EdsClusterConfig_EdsConfig := core.ConfigSource_Ads;
          cluster.EdsClusterConfig_ServiceName := clusterName |};
     cluster.Cluster_CircuitBreakers :=
       (fun n => {| cluster.CircuitBreakers_Thresholds :=
                      [{| cluster.Thresholds_MaxRequests := wrapperspb_UInt32 n |}] |})
       <$> Backend_MaxRequests spec;
     cluster.Cluster_LbConfig :=
       (fun c => {| cluster.RingHashLbConfig_MinimumRingSize :=
                      wrapperspb_UInt64 (RingHashConfig_MinRingSize c);
                    cluster.RingHashLbConfig_MaximumRingSize :=
                      wrapperspb_UInt64 (RingHashConfig_MaxRingSize c);
                    cluster.RingHashLbConfig_HashFunction := cluster.XX_HASH |})
       <$> Backend_RingHashConfig spec |}.

(** The body of the loop of [resolveResource]. *)
Definition clusterHandler_body (typeUrl : string) (i : nat) (resourceName : string)
    (response : resolveResponse) : M resolveResponse :=
  backendRef ← parseBackendName resourceName;
  listener ← lister_Get (parsedBackendName_Namespace backendRef)
               (parsedBackendName_ListenerName backendRef);
  backend ← findBackendSpec backendRef listener;
  a ← encodeResource typeUrl (MCluster (makeCluster resourceName backend));
  useResourceVersion (GRPCListener_ResourceVersion listener) (setResource i a response).

(** [func (h *clusterHandler) resolveResource] *)
Definition clusterHandler_resolveResource (req : resolveRequest) : M resolveResponse :=
  resolveLoop (clusterHandler_body (resolveRequest_typeUrl req)) ClusterType
    (resolveRequest_resourceNames req).

(** Resolution of a backend name against the store, shared by the cluster and
    the endpoint handlers. *)
Definition lookupBackend (resourceName : string) : M (parsedBackendName * GRPCListener * Backend) :=
  backendRef ← parseBackendName resourceName;
  listener ← lister_Get (parsedBackendName_Namespace backendRef)
               (parsedBackendName_ListenerName backendRef);
  backend ← findBackendSpec backendRef listener;
  Ok (backendRef, listener, backend).

(** What the handler does for one name. *)
Definition cluster_item (typeUrl resourceName : string) : M (Any * list string) :=
  '(_, listener, backend) ← lookupBackend resourceName;
  a ← encodeResource typeUrl (MCluster (makeCluster resourceName backend));
  Ok (a, [GRPCListener_ResourceVersion listener]).
End cluster_handler.

(** ** Lemmas *)

Section find_lemmas.
Implicit Types (p : parsedBackendName) (l : GRPCListener).

Lemma findBackendSpec_Ok p l b :
  findBackendSpec p l = Ok b <->
  (0 <= parsedBackendName_RouteID p)%Z /\ (0 <= parsedBackendName_BackendID p)%Z /\
  exists r, GRPCListener_Routes l !! Z.to_nat (parsedBackendName_RouteID p) = Some r /\
            Route_Backends r !! Z.to_nat (parsedBackendName_BackendID p) = Some b.
Proof.
  unfold findBackendSpec. split.
  - case_decide; [done|]. intros Hb. inv_ok. apply go_index_Ok in Hc as [? Hr].
    case_decide; [done|]. apply go_index_Ok in Hb as [? Hb]. eauto.
  - intros (Hr0 & Hb0 & r & Hr & Hb).
    pose proof (lookup_lt_Some _ _ _ Hr). pose proof (lookup_lt_Some _ _ _ Hb).
    rewrite decide_False by lia. rewrite (proj2 (go_index_Ok _ _ r)) by done. simpl.
    rewrite decide_False by lia. by apply go_index_Ok.
Qed.

Lemma findBackendSpec_nat l i j r b p :
  parsedBackendName_RouteID p = Z.of_nat i -> parsedBackendName_BackendID p = Z.of_nat j ->
  GRPCListener_Routes l !! i = Some r -> Route_Backends r !! j = Some b ->
  findBackendSpec p l = Ok b.
Proof.
  intros Hi Hj Hr Hb. apply findBackendSpec_Ok. rewrite Hi, Hj, !Nat2Z.id. eauto with lia.
Qed.

Lemma go_index_in_range {A} (xs : list A) i :
  (0 <= i <= Z.of_nat (length xs) - 1)%Z -> exists x, go_index (E:=error) xs i = Ok x.
Proof.
  intros Hi. destruct (lookup_lt_is_Some_2 xs (Z.to_nat i)) as [x Hx]; [lia|].
  exists x. apply go_index_Ok. split; [lia|done].
Qed.

Lemma go_index_negative {A} (xs : list A) i :
  (i < 0)%Z -> go_index (E:=error) xs i = Panic (IndexOutOfRange i (length xs)).
Proof. intros Hi. unfold go_index. by rewrite (proj2 (Z.ltb_lt i 0)). Qed.

Lemma go_index_not_Err {A} (xs : list A) i (e : error) : go_index xs i <> Err e.
Proof. unfold go_index. by repeat case_match. Qed.

Lemma findBackendSpec_no_panic p l :
  (0 <= parsedBackendName_RouteID p)%Z -> (0 <= parsedBackendName_BackendID p)%Z ->
  no_panic (findBackendSpec p l).
Proof.
  intros Hr Hb. unfold findBackendSpec. case_decide; [done|].
  destruct (go_index_in_range (GRPCListener_Routes l) (parsedBackendName_RouteID p))
    as [r ->]; [lia|]. simpl. case_decide; [done|].
  by destruct (go_index_in_range (Route_Backends r) (parsedBackendName_BackendID p))
    as [b ->]; [lia|].
Qed.
End find_lemmas.

Section cluster_lemmas.
Context `{XdsLibrary, UnicodeTables, GRPCListenerLister}.

Lemma clusterHandler_implements typeUrl :
  body_implements (clusterHandler_body typeUrl) (fun _ => cluster_item typeUrl).
Proof.
  intros i name r. unfold clusterHandler_body, cluster_item, lookupBackend.
  destruct (parseBackendName name) as [p| |]; simpl; [|done..].
  destruct (lister_Get _ _) as [l| |]; simpl; [|done..].
  destruct (findBackendSpec p l) as [b| |]; simpl; [|done..].
  destruct (encodeResource typeUrl _); simpl; [|done..]. by rewrite app_nil_r.
Qed.

Lemma clusterHandler_refines req :
  clusterHandler_resolveResource req =
  resolve_with (cluster_item (resolveRequest_typeUrl req)) ClusterType
    (resolveRequest_resourceNames req).
Proof. apply resolveLoop_refines, clusterHandler_implements. Qed.

(** The name a route configuration gives to a backend finds that backend. *)
Lemma lookupBackend_backendName ns name l i j r b :
  is_segment ns = true -> is_segment name = true ->
  lister_Get ns name = Ok l ->
  GRPCListener_Routes l !! i = Some r -> Route_Backends r !! j = Some b ->
  is_int64 (Z.of_nat i) -> is_int64 (Z.of_nat j) ->
  lookupBackend (backendName ns name (Z.of_nat i) (Z.of_nat j)) =
    Ok ({| parsedBackendName_Namespace := ns; parsedBackendName_ListenerName := name;
           parsedBackendName_RouteID := Z.of_nat i;
           parsedBackendName_BackendID := Z.of_nat j |}, l, b).
Proof.
  intros Hns Hname Hget Hr Hb Hi Hj. unfold lookupBackend.
  rewrite parse_backendName by done. simpl. rewrite Hget. simpl.
  by rewrite (findBackendSpec_nat l i j r b).
Qed.

(** ** Properties *)

(** Resolving clusters. The handler answers exactly as the specification
    [resolve_with] on the items of the requested names: each name is looked up,
    the cluster carries the requested name as its own and as its EDS service
    name, order and first failure are those of the request. *)
Theorem clusterHandler_refines_spec req :
  clusterHandler_resolveResource req =
  resolve_with (cluster_item (resolveRequest_typeUrl req)) ClusterType
    (resolveRequest_resourceNames req).
Proof. apply clusterHandler_refines. Qed.

(** A client can make the controller panic. For every listener of the
    store, a cluster request that names its route -1 panics instead of
    reporting that the route does not exist: [findBackendSpec] only rejects ids
    that are too large. *)
Theorem clusterHandler_negative_route ns name l typeUrl node b :
  is_segment ns = true -> is_segment name = true -> is_int64 b ->
  lister_Get ns name = Ok l ->
  clusterHandler_resolveResource
    {| resolveRequest_resourceNames := [backendName ns name (-1) b];
       resolveRequest_typeUrl := typeUrl; resolveRequest_nodeInfo := node |} =
  Panic (IndexOutOfRange (-1) (length (GRPCListener_Routes l))).
Proof.
  intros Hns Hname Hb Hget. rewrite clusterHandler_refines. cbn [resolveRequest_resourceNames].
  rewrite resolve_with_singleton. unfold cluster_item, lookupBackend.
  rewrite parse_backendName by done.
  cbn [mbind outcome_bind parsedBackendName_Namespace parsedBackendName_ListenerName].
  rewrite Hget. cbn [mbind outcome_bind].
  unfold findBackendSpec. cbn [parsedBackendName_RouteID]. rewrite decide_False by lia.
  by rewrite go_index_negative by lia.
Qed.

(** The cluster of a backend. The cluster always uses EDS over ADS with
    the cluster name as the service name, has one threshold exactly when the
    backend limits its requests, and the ring-hash configuration exactly when
    the backend has one; every value the CRD admits for [lbPolicy] selects the
    policy it names. *)
Theorem makeCluster_spec clusterName spec :
  let c := makeCluster clusterName spec in
  cluster.Cluster_Name c = clusterName /\
  cluster.EdsClusterConfig_ServiceName (cluster.Cluster_EdsClusterConfig c) = clusterName /\
  (forall n, Backend_MaxRequests spec = Some n <->
     exists cb, cluster.Cluster_CircuitBreakers c = Some cb /\
       cluster.CircuitBreakers_Thresholds cb
         = [{| cluster.Thresholds_MaxRequests := wrapperspb_UInt32 n |}]) /\
  (Backend_RingHashConfig spec = None <-> cluster.Cluster_LbConfig c = None) /\
  (makeLBPolicy <$> ["ring_hash"; "ringHash"; "round_robin"; "roundRobin"; ""])
    = [cluster.RING_HASH; cluster.RING_HASH; cluster.ROUND_ROBIN; cluster.ROUND_ROBIN;
       cluster.ROUND_ROBIN].
Proof.
  simpl. split; [done|]. split; [done|]. split; [|split].
  - intros n. destruct (Backend_MaxRequests spec) as [m|]; simpl.
    + split; [intros [= ->]; by eexists|]. by intros (cb & [= <-] & [= ->]).
    + split; [done|]. by intros (cb & [=] & _).
  - by destruct (Backend_RingHashConfig spec).
  - reflexivity.
Qed.
End cluster_lemmas.

(** Looking up a backend. The result is the backend at the two ids when
    both are in range, the matching not-found error when an id is too large,
    and a panic when an id is negative and nothing before it failed. *)
Theorem findBackendSpec_cases p l :
  let r := parsedBackendName_RouteID p in
  let b := parsedBackendName_BackendID p in
  match findBackendSpec p l with
  | Ok backend =>
      (0 <= r)%Z /\ (0 <= b)%Z /\
      exists route, GRPCListener_Routes l !! Z.to_nat r = Some route /\
                    Route_Backends route !! Z.to_nat b = Some backend
  | Err (routeNotFoundError r' l') =>
      r' = r /\ l' = l /\ (Z.of_nat (length (GRPCListener_Routes l)) <= r)%Z
  | Err (backendNotFoundError r' b' l') =>
      r' = r /\ b' = b /\ l' = l /\ (0 <= r)%Z /\
      exists route, GRPCListener_Routes l !! Z.to_nat r = Some route /\
                    (Z.of_nat (length (Route_Backends route)) <= b)%Z
  | Err _ => False
  | Panic _ => (r < 0)%Z \/ (b < 0)%Z
  end.
Proof.
  cbn zeta. destruct (findBackendSpec p l) as [backend|e|pn] eqn:Hf.
  - by apply findBackendSpec_Ok.
  - unfold findBackendSpec in Hf. case_decide; [simplify_eq; split_and!; [done|done|lia]|].
    apply bind_Err in Hf as [Hf|(route & Hroute & Hf)]; [by apply go_index_not_Err in Hf|].
    apply go_index_Ok in Hroute as [? Hroute].
    case_decide; [simplify_eq; split_and!; eauto with lia|]. by apply go_index_not_Err in Hf.
  - destruct (decide (0 <= parsedBackendName_RouteID p)%Z) as [Hr|]; [|lia].
    destruct (decide (0 <= parsedBackendName_BackendID p)%Z) as [Hb|]; [|lia].
    pose proof (findBackendSpec_no_panic p l Hr Hb) as Hnp. by rewrite Hf in Hnp.
Qed.

(** ** Witnesses *)

Local Existing Instance sample_xds.
Local Existing Instance ascii_tables.
Local Existing Instance sample_lister.

Lemma clusterHandler_negative_route_witness :
  clusterHandler_resolveResource
    {| resolveRequest_resourceNames := ["default/test-xds/route/-1/backend/0"];
       resolveRequest_typeUrl := ClusterType; resolveRequest_nodeInfo := None |} =
  Panic (IndexOutOfRange (-1) 2).
Proof.
  change "default/test-xds/route/-1/backend/0" with (backendName "default" "test-xds" (-1) 0).
  rewrite (clusterHandler_negative_route "default" "test-xds" sample_listener);
    [reflexivity|reflexivity|reflexivity|by split|reflexivity].
Defined.
