(* ===== verification/EndpointHandler.v ===== *)
(** The endpoint resource handler: [gtc/endpoint.go].

    A backend is either one Kubernetes service, whose endpoints are split in two
    priorities by their zone hints, or a list of weighted and prioritized
    localities, each of them a service. *)

From S2P Require Import Prelude GoStrings GoPath GoStrconv Api Errors Xds ResourceName Interceptors Routes Resolver K8s Listers ListenerHandler ClusterHandler.

(** ** Ports, zones, conditions *)

Definition derefBool (v : option bool) : bool :=
  match v with
  | None => false
  | Some b => b
  end.

(** The conversion [uint32( *p.Port)] of an [int32]. *)
Definition portNumber (p : Z) : Z := uint32_wrap p.

Fixpoint lookupPortByName (name : string) (epPorts : list EndpointPort) : option Z :=
  match epPorts with
  | [] => None
  | p :: ps =>
      match EndpointPort_Name p, EndpointPort_Port p with
      | Some n, Some port =>
          if decide (n = name) then Some (portNumber port) else lookupPortByName name ps
      | _, _ => lookupPortByName name ps
      end
  end.

Fixpoint lookupPortByNumber (number : Z) (epPorts : list EndpointPort) : option Z :=
  match epPorts with
  | [] => None
  | p :: ps =>
      match EndpointPort_Name p, EndpointPort_Port p with
      | Some _, Some port =>
          if decide (port = number) then Some (portNumber port) else lookupPortByNumber number ps
      | _, _ => lookupPortByNumber number ps
      end
  end.

(** [func lookupK8sPort]: [None] stands for the result [(0, false)]. *)
Definition lookupK8sPort (k8sSvc : PortRef) (epPorts : list EndpointPort) : option Z :=
  if decide (PortRef_Name k8sSvc <> "") then lookupPortByName (PortRef_Name k8sSvc) epPorts
  else lookupPortByNumber (PortRef_Number k8sSvc) epPorts.

Definition makeLbEndpoint (addr : string) (port : Z) : endpointv3.LbEndpoint :=
  {| endpointv3.LbEndpoint_Address :=
       {| core.Address_Address := addr; core.Address_PortValue := port |} |}.

Definition makeLbEndpoints (ep : Endpoint) (port : Z) : list endpointv3.LbEndpoint :=
  (fun addr => makeLbEndpoint addr port) <$> Endpoint_Addresses ep.

Definition no_port : error := errorString "no desired port found on the k8s endpoint slice".

(** ** Locality groups *)

(** [func makeFlatLocalityLbEndpoints] *)
Definition makeFlatLocalityLbEndpoints (serviceRef : ServiceRef) (epSlices : list EndpointSlice)
    (weight priority : Z) : M endpointv3.LocalityLbEndpoints :=
  xdsEndpoints ← foldM (fun acc epSlice =>
      match lookupK8sPort (ServiceRef_Port serviceRef) (EndpointSlice_Ports epSlice) with
      | None => Err no_port
      | Some port =>
          Ok (foldl (fun acc ep =>
                 if derefBool (Endpoint_Ready ep) then acc ++ makeLbEndpoints ep port else acc)
               acc (EndpointSlice_Endpoints epSlice))
      end) epSlices [];
  Ok {| endpointv3.LocalityLbEndpoints_Locality :=
          {| core.Locality_Zone := ""; core.Locality_SubZone := ServiceRef_Name serviceRef |};
        endpointv3.LocalityLbEndpoints_LoadBalancingWeight := wrapperspb_UInt32 weight;
        endpointv3.LocalityLbEndpoints_Priority := priority;
        endpointv3.LocalityLbEndpoints_LbEndpoints := xdsEndpoints |}.

Record endpointData := { endpointData_port : Z; endpointData_endpoint : Endpoint }.

Record endpointGroup := {
  endpointGroup_zone : string;
  endpointGroup_endpoints : list endpointData
}.

Section endpoint_handler.
Context `{XdsLibrary, UnicodeTables, GRPCListenerLister, EndpointSliceLister}.

Definition containsZone (zones : list ForZone) (currZone : string) : bool :=
  existsb (fun z => strings_EqualFold (ForZone_Name z) currZone) zones.

(** The endpoint is hinted for the zone the client runs in. *)
Definition hinted (currentZone : string) (ep : Endpoint) : bool :=
  match Endpoint_Hints ep with
  | Some hints => containsZone (EndpointHints_ForZones hints) currentZone
  | None => false
  end.

(** The body of the loop over the endpoints of a slice in
    [makeServiceEndpoints]; the array [localityEndpointsByPrio] has two slots. *)
Definition addEndpoint (currentZone : string) (port : Z)
    (groups : list (option endpointGroup)) (ep : Endpoint) : list (option endpointGroup) :=
  if negb (derefBool (Endpoint_Ready ep)) then groups
  else
    let priority := if hinted currentZone ep then 0 else 1 in
    let prioGroup :=
      default {| endpointGroup_zone := ""; endpointGroup_endpoints := [] |}
        (mjoin (groups !! priority)) in
    let zone :=
      if decide (endpointGroup_zone prioGroup = "")
      then default "" (Endpoint_Zone ep) else endpointGroup_zone prioGroup in
    <[priority := Some
        {| endpointGroup_zone := zone;
           endpointGroup_endpoints := endpointGroup_endpoints prioGroup ++
             [{| endpointData_port := port; endpointData_endpoint := ep |}] |}]> groups.

Definition groupEndpoints (currentZone : string) (serviceRef : ServiceRef)
    (epSlices : list EndpointSlice) : M (list (option endpointGroup)) :=
  foldM (fun groups epSlice =>
      match lookupK8sPort (ServiceRef_Port serviceRef) (EndpointSlice_Ports epSlice) with
      | None => Err no_port
      | Some port => Ok (foldl (addEndpoint currentZone port) groups
                           (EndpointSlice_Endpoints epSlice))
      end) epSlices [None; None].

(** The number of endpoints of a slot; 0 for a nil group. *)
Definition groupSize (g : option endpointGroup) : nat :=
  match g with
  | Some g => length (endpointGroup_endpoints g)
  | None => 0
  end.

(** The body of the last loop of [makeServiceEndpoints]. *)
Definition makeGroup (serviceRef : ServiceRef) (enableZonePrio : bool) (prio : nat)
    (prioGroup : option endpointGroup) : list endpointv3.LocalityLbEndpoints :=
  match prioGroup with
  | None => []
  | Some g =>
      if decide (length (endpointGroup_endpoints g) = 0) then []
      else
        let appliedPrio := if enableZonePrio then Z.of_nat prio else 0%Z in
        [{| endpointv3.LocalityLbEndpoints_Locality :=
              {| core.Locality_Zone := endpointGroup_zone g;
                 core.Locality_SubZone :=
                   ServiceRef_Name serviceRef +:+ "-" +:+ Itoa appliedPrio |};
            endpointv3.LocalityLbEndpoints_LoadBalancingWeight := wrapperspb_UInt32 1;
            endpointv3.LocalityLbEndpoints_Priority := appliedPrio;
            endpointv3.LocalityLbEndpoints_LbEndpoints :=
              endpointGroup_endpoints g ≫= fun d =>
                makeLbEndpoints (endpointData_endpoint d) (endpointData_port d) |}]
  end.

(** [func makeServiceEndpoints]; [node] is a pointer, read without a check. *)
Definition makeServiceEndpoints (node : option core.Node) (serviceRef : ServiceRef)
    (epSlices : list EndpointSlice) : M (list endpointv3.LocalityLbEndpoints) :=
  n ← deref node;
  let currentZone :=
    match core.Node_Locality n with
    | Some loc => core.Locality_Zone loc
    | None => ""
    end in
  groups ← groupEndpoints currentZone serviceRef epSlices;
  let enableZonePrio := bool_decide (0 < groupSize (mjoin (groups !! 0))) in
  Ok (mjoin (imap (makeGroup serviceRef enableZonePrio) groups)).

(** ** Load assignments *)

Definition sliceVersion (s : EndpointSlice) : string :=
  ObjectMeta_ResourceVersion (EndpointSlice_ObjectMeta s).

(** The namespace of a service reference, by default that of the listener. *)
Definition serviceNamespace (serviceRef : ServiceRef) (listener : GRPCListener) : string :=
  if decide (ServiceRef_Namespace serviceRef = "") then GRPCListener_Namespace listener
  else ServiceRef_Namespace serviceRef.

(** The query both kinds of load assignment make for a service. *)
Definition listServiceSlices (serviceRef : ServiceRef) (listener : GRPCListener)
  : M (list EndpointSlice) :=
  req ← labels_NewRequirement serviceNameLabel (ServiceRef_Name serviceRef);
  slices_List (serviceNamespace serviceRef listener) req.

Definition makeLocality (listener : GRPCListener) (loc : Locality)
  : M (endpointv3.LocalityLbEndpoints * list string) :=
  service ← deref (Locality_Service loc);
  endpointSlices ← listServiceSlices service listener;
  eps ← makeFlatLocalityLbEndpoints service endpointSlices
          (Locality_Weight loc) (Locality_Priority loc);
  Ok (eps, sliceVersion <$> endpointSlices).

(** [func (h *endpointHandler) makeLocalitiesLoadAssignment] *)
Definition makeLocalitiesLoadAssignment (backendRef : parsedBackendName)
    (listener : GRPCListener) (clusterSpec : Backend)
  : M (endpointv3.ClusterLoadAssignment * list string) :=
  localities ← forM (makeLocality listener) (Backend_Localities clusterSpec);
  Ok ({| endpointv3.ClusterLoadAssignment_ClusterName := parsedBackendName_String backendRef;
         endpointv3.ClusterLoadAssignment_Endpoints := localities.*1 |},
      mjoin localities.*2).

(** [func (h *endpointHandler) makeServiceLoadAssignment] *)
Definition makeServiceLoadAssignment (node : option core.Node) (backendRef : parsedBackendName)
    (listener : GRPCListener) (clusterSpec : Backend)
  : M (endpointv3.ClusterLoadAssignment * list string) :=
  service ← deref (Backend_Service clusterSpec);
  endpointSlices ← listServiceSlices service listener;
  eps ← makeServiceEndpoints node service endpointSlices;
  Ok ({| endpointv3.ClusterLoadAssignment_ClusterName := parsedBackendName_String backendRef;
         endpointv3.ClusterLoadAssignment_Endpoints := eps |},
      sliceVersion <$> endpointSlices).

(** [func (h *endpointHandler) makeLoadAssignment] *)
Definition makeLoadAssignment (node : option core.Node) (backendRef : parsedBackendName)
    (listener : GRPCListener) (backendSpec : Backend)
  : M (endpointv3.ClusterLoadAssignment * list string) :=
  match Backend_Service backendSpec with
  | Some _ => makeServiceLoadAssignment node backendRef listener backendSpec
  | None =>
      if decide (0 < length (Backend_Localities backendSpec)) then
        makeLocalitiesLoadAssignment backendRef listener backendSpec
      else Err (errorString "unsupported non k8s service locality")
  end.

(** The body of the loop of [resolveResource]. *)
Definition endpointHandler_body (node : option core.Node) (typeUrl : string) (i : nat)
    (resourceName : string) (response : resolveResponse) : M resolveResponse :=
  backendRef ← parseBackendName resourceName;
  listener ← lister_Get (parsedBackendName_Namespace backendRef)
               (parsedBackendName_ListenerName backendRef);
  response ← useResourceVersion (GRPCListener_ResourceVersion listener) response;
  backend ← findBackendSpec backendRef listener;
  '(eps, slicesVersions) ← makeLoadAssignment node backendRef listener backend;
  a ← encodeResource typeUrl (MClusterLoadAssignment eps);
  foldM (fun acc v => useResourceVersion v acc) slicesVersions (setResource i a response).

(** [func (h *endpointHandler) resolveResource] *)
Definition endpointHandler_resolveResource (req : resolveRequest) : M resolveResponse :=
  resolveLoop (endpointHandler_body (resolveRequest_nodeInfo req) (resolveRequest_typeUrl req))
    EndpointType (resolveRequest_resourceNames req).

(** The body for one name without the response it threads, as the lemmas use it. *)
Definition endpoint_item (node : option core.Node) (typeUrl resourceName : string)
  : M (Any * list string) :=
  '(backendRef, listener, backend) ← lookupBackend resourceName;
  '(eps, slicesVersions) ← makeLoadAssignment node backendRef listener backend;
  a ← encodeResource typeUrl (MClusterLoadAssignment eps);
  Ok (a, GRPCListener_ResourceVersion listener :: slicesVersions).

(** ** Specification *)

(** The ready endpoints of a slice with the port of the service. *)
Definition slice_data (serviceRef : ServiceRef) (s : EndpointSlice) : list endpointData :=
  match lookupK8sPort (ServiceRef_Port serviceRef) (EndpointSlice_Ports s) with
  | Some port =>
      (fun ep => {| endpointData_port := port; endpointData_endpoint := ep |})
      <$> filter (fun ep => derefBool (Endpoint_Ready ep) = true) (EndpointSlice_Endpoints s)
  | None => []
  end.

Definition ready_data (serviceRef : ServiceRef) (slices : list EndpointSlice)
  : list endpointData := slices ≫= slice_data serviceRef.

(** Every slice has the port the service asks for. *)
Definition ports_found (serviceRef : ServiceRef) (slices : list EndpointSlice) : Prop :=
  Forall (fun s => is_Some (lookupK8sPort (ServiceRef_Port serviceRef) (EndpointSlice_Ports s)))
    slices.

Definition data_hinted (zone : string) (d : endpointData) : Prop :=
  hinted zone (endpointData_endpoint d) = true.

Global Instance data_hinted_dec zone d : Decision (data_hinted zone d).
Proof. unfold data_hinted. apply _. Defined.

Definition lb_endpoints (ds : list endpointData) : list endpointv3.LbEndpoint :=
  ds ≫= fun d => makeLbEndpoints (endpointData_endpoint d) (endpointData_port d).

Global Instance lb_endpoints_Permutation : Proper ((≡ₚ) ==> (≡ₚ)) lb_endpoints.
Proof. intros ds ds' Hds. unfold lb_endpoints. by rewrite Hds. Qed.

(** The zone of the client, empty when the node does not say. *)
Definition node_zone (n : core.Node) : string :=
  match core.Node_Locality n with
  | Some loc => core.Locality_Zone loc
  | None => ""
  end.

(** The services a backend names: its own, or else those of its localities. *)
Definition backend_services (b : Backend) : list (option ServiceRef) :=
  match Backend_Service b with
  | Some service => [Some service]
  | None => Locality_Service <$> Backend_Localities b
  end.

(** A service with the slices the lister has for it, each of which has the port
    the service asks for. *)
Definition service_found (l : GRPCListener) (service : option ServiceRef)
    (x : ServiceRef * list EndpointSlice) : Prop :=
  service = Some x.1 /\ listServiceSlices x.1 l = Ok x.2 /\ ports_found x.1 x.2.

(** What a load assignment needs: the backend names a service, every service it
    names is there with its port, and the node of the client is known where zone
    hints are compared with it. *)
Definition backend_found (node : option core.Node) (l : GRPCListener) (b : Backend)
    (found : list (ServiceRef * list EndpointSlice)) : Prop :=
  backend_services b <> [] /\ Forall2 (service_found l) (backend_services b) found /\
  (is_Some (Backend_Service b) -> is_Some node).

(** The addresses and the versions of what was found. *)
Definition found_addresses (found : list (ServiceRef * list EndpointSlice))
  : list endpointv3.LbEndpoint := found ≫= fun x => lb_endpoints (ready_data x.1 x.2).

Definition found_versions (found : list (ServiceRef * list EndpointSlice)) : list string :=
  found ≫= fun x => sliceVersion <$> x.2.

Definition served_addresses (cla : endpointv3.ClusterLoadAssignment) : list endpointv3.LbEndpoint :=
  endpointv3.ClusterLoadAssignment_Endpoints cla ≫= endpointv3.LocalityLbEndpoints_LbEndpoints.

(** A listener of the store with a backend at the place [p] says, and what is
    found for it. *)
Definition backend_served (node : option core.Node) (p : parsedBackendName)
    (x : GRPCListener * list (ServiceRef * list EndpointSlice)) : Prop :=
  lister_Get (parsedBackendName_Namespace p) (parsedBackendName_ListenerName p) = Ok x.1 /\
  (0 <= parsedBackendName_RouteID p)%Z /\ (0 <= parsedBackendName_BackendID p)%Z /\
  exists r b, GRPCListener_Routes x.1 !! Z.to_nat (parsedBackendName_RouteID p) = Some r /\
    Route_Backends r !! Z.to_nat (parsedBackendName_BackendID p) = Some b /\
    backend_found node x.1 b x.2.

(** A resource of a response holds a load assignment under the name of the
    backend, with the addresses found. *)
Definition assignment_resource (typeUrl : string) (p : parsedBackendName)
    (found : list (ServiceRef * list EndpointSlice)) (a : option Any) : Prop :=
  exists cla bs, endpointv3.ClusterLoadAssignment_ClusterName cla = parsedBackendName_String p /\
    served_addresses cla ≡ₚ found_addresses found /\
    proto_Marshal (MClusterLoadAssignment cla) = Ok bs /\
    a = Some {| Any_TypeUrl := typeUrl; Any_Value := bs |}.

(** A name the handlers print: segments of a path and Go integers. *)
Definition printable (p : parsedBackendName) : Prop :=
  is_segment (parsedBackendName_Namespace p) = true /\
  is_segment (parsedBackendName_ListenerName p) = true /\
  is_int64 (parsedBackendName_RouteID p) /\ is_int64 (parsedBackendName_BackendID p).

(** Deterministic marshalling succeeds on every message. *)
Definition wire_succeeds : Prop := forall m, exists bs, proto_Marshal m = Ok bs.

(** ** Lemmas *)

Definition group_data (g : option endpointGroup) : list endpointData :=
  match g with
  | Some g => endpointGroup_endpoints g
  | None => []
  end.

Lemma addEndpoints_data zone port eps g0 g1 :
  let ds := (fun ep => {| endpointData_port := port; endpointData_endpoint := ep |})
              <$> filter (fun ep => derefBool (Endpoint_Ready ep) = true) eps in
  exists g0' g1', foldl (addEndpoint zone port) [g0; g1] eps = [g0'; g1'] /\
    group_data g0' = group_data g0 ++ filter (data_hinted zone) ds /\
    group_data g1' = group_data g1 ++ filter (fun d => ~ data_hinted zone d) ds.
Proof.
  cbn zeta. revert g0 g1. induction eps as [|ep eps IH]; intros g0 g1.
  { exists g0, g1. cbn. by rewrite !app_nil_r. }
  cbn [foldl]. unfold addEndpoint at 2.
  destruct (derefBool (Endpoint_Ready ep)) eqn:Hready; cbn [negb].
  2: { rewrite filter_cons_False by congruence. apply IH. }
  rewrite filter_cons_True by done. rewrite fmap_cons.
  destruct (hinted zone ep) eqn:Hh.
  - rewrite (filter_cons_True (data_hinted zone)) by done.
    rewrite filter_cons_False by (intros Hn; by apply Hn).
    cbn [insert list_insert lookup].
    match goal with |- context [foldl _ (Some ?g :: _)] =>
      destruct (IH (Some g) g1) as (g0' & g1' & Hf & H0' & H1') end.
    exists g0', g1'. split; [exact Hf|]. rewrite H0', H1'. split; [|done].
    destruct g0; cbn; by rewrite <-?app_assoc.
  - rewrite (filter_cons_False (data_hinted zone)) by (unfold data_hinted; cbn; congruence).
    rewrite filter_cons_True by (unfold data_hinted; cbn; congruence).
    cbn [insert list_insert lookup].
    match goal with |- context [foldl _ (_ :: [Some ?g])] =>
      destruct (IH g0 (Some g)) as (g0' & g1' & Hf & H0' & H1') end.
    exists g0', g1'. split; [exact Hf|]. rewrite H0', H1'. split; [done|].
    destruct g1; cbn; by rewrite <-?app_assoc.
Qed.

Lemma groupEndpoints_Ok zone ref slices groups :
  groupEndpoints zone ref slices = Ok groups ->
  ports_found ref slices /\
  exists g0 g1, groups = [g0; g1] /\
    group_data g0 = filter (data_hinted zone) (ready_data ref slices) /\
    group_data g1 = filter (fun d => ~ data_hinted zone d) (ready_data ref slices).
Proof.
  apply (foldM_invariant (fun visited gs => ports_found ref visited /\
    exists g0 g1, gs = [g0; g1] /\
      group_data g0 = filter (data_hinted zone) (ready_data ref visited) /\
      group_data g1 = filter (fun d => ~ data_hinted zone d) (ready_data ref visited))).
  { split; [constructor|]. by exists None, None. }
  intros visited s gs gs' [Hports (g0 & g1 & -> & Hg0 & Hg1)] Hs.
  destruct (lookupK8sPort _ _) as [port|] eqn:Hport; [|done]. injection Hs as <-.
  split; [apply Forall_app; split; [done|by repeat constructor]|].
  destruct (addEndpoints_data zone port (EndpointSlice_Endpoints s) g0 g1)
    as (g0' & g1' & -> & Hd0 & Hd1).
  exists g0', g1'. split; [done|].
  assert (ready_data ref (visited ++ [s]) = ready_data ref visited ++ slice_data ref s) as ->.
  { unfold ready_data. rewrite bind_app. simpl. by rewrite app_nil_r. }
  rewrite Hd0, Hd1, Hg0, Hg1, !filter_app. unfold slice_data. by rewrite Hport.
Qed.

Lemma groupEndpoints_total zone ref slices :
  ports_found ref slices -> exists groups, groupEndpoints zone ref slices = Ok groups.
Proof.
  intros Hports. apply foldM_total. intros s gs Hs.
  unfold ports_found in Hports. rewrite Forall_forall in Hports.
  destruct (Hports s Hs) as [port ->]. eauto.
Qed.

(** The ready endpoints hinted for a zone, and the others. *)
Definition near (zone : string) (ref : ServiceRef) (slices : list EndpointSlice)
  : list endpointData := filter (data_hinted zone) (ready_data ref slices).
Definition far (zone : string) (ref : ServiceRef) (slices : list EndpointSlice)
  : list endpointData := filter (fun d => ~ data_hinted zone d) (ready_data ref slices).

Definition priority_and_endpoints (g : endpointv3.LocalityLbEndpoints)
  : Z * list endpointv3.LbEndpoint :=
  (endpointv3.LocalityLbEndpoints_Priority g, endpointv3.LocalityLbEndpoints_LbEndpoints g).

(** The groups of a service, by priority. *)
Definition expected_groups (nearby others : list endpointData)
  : list (Z * list endpointv3.LbEndpoint) :=
  match nearby, others with
  | [], [] => []
  | [], _ => [(0%Z, lb_endpoints others)]
  | _, [] => [(0%Z, lb_endpoints nearby)]
  | _, _ => [(0%Z, lb_endpoints nearby); (1%Z, lb_endpoints others)]
  end.

Lemma makeServiceEndpoints_Ok n ref slices res :
  makeServiceEndpoints (Some n) ref slices = Ok res ->
  ports_found ref slices /\
  (priority_and_endpoints <$> res)
    = expected_groups (near (node_zone n) ref slices) (far (node_zone n) ref slices).
Proof.
  unfold makeServiceEndpoints. intros Hres. cbn [deref mbind outcome_bind] in Hres. inv_ok.
  apply groupEndpoints_Ok in Hc as (Hports & g0 & g1 & -> & Hg0 & Hg1). split; [done|].
  unfold near, far, node_zone. rewrite <-Hg0, <-Hg1, <-Hres. clear.
  destruct g0 as [[z0 [|d0 e0]]|], g1 as [[z1 [|d1 e1]]|]; reflexivity.
Qed.

Lemma makeServiceEndpoints_total n ref slices :
  ports_found ref slices -> exists res, makeServiceEndpoints (Some n) ref slices = Ok res.
Proof.
  intros Hports. unfold makeServiceEndpoints. cbn [deref mbind outcome_bind].
  destruct (groupEndpoints_total (node_zone n) ref slices Hports) as [groups Hg].
  unfold node_zone in Hg. rewrite Hg. cbn. eauto.
Qed.

(** The first slice without the port ends the loop with the error. *)
Lemma port_loop_fails {S} (f : S -> Z -> EndpointSlice -> S) ref slices s :
  ~ ports_found ref slices ->
  foldM (fun acc sl =>
    match lookupK8sPort (ServiceRef_Port ref) (EndpointSlice_Ports sl) with
    | None => Err no_port
    | Some port => Ok (f acc port sl)
    end) slices s = Err no_port.
Proof.
  unfold ports_found. revert s. induction slices as [|sl slices IH]; intros s Hn; cbn.
  { by destruct Hn. }
  destruct (lookupK8sPort _ _) as [port|] eqn:Hport; [|done]. cbn. apply IH.
  intros Hall. apply Hn. constructor; [by rewrite Hport|done].
Qed.

Lemma makeServiceEndpoints_fails n ref slices :
  ~ ports_found ref slices -> makeServiceEndpoints (Some n) ref slices = Err no_port.
Proof.
  intros Hn. unfold makeServiceEndpoints, groupEndpoints. cbn [deref mbind outcome_bind].
  by rewrite (port_loop_fails (fun gs port sl =>
    foldl (addEndpoint _ port) gs (EndpointSlice_Endpoints sl))).
Qed.

Lemma expected_groups_endpoints nearby others :
  (expected_groups nearby others ≫= snd) = lb_endpoints (nearby ++ others).
Proof.
  unfold lb_endpoints. rewrite bind_app.
  destruct nearby, others; cbn; rewrite ?app_nil_r; done.
Qed.

(** The addresses served for a service. *)
Lemma service_addresses n ref slices res :
  makeServiceEndpoints (Some n) ref slices = Ok res ->
  (res ≫= endpointv3.LocalityLbEndpoints_LbEndpoints) ≡ₚ lb_endpoints (ready_data ref slices).
Proof.
  intros [_ Hgroups]%makeServiceEndpoints_Ok.
  assert ((res ≫= endpointv3.LocalityLbEndpoints_LbEndpoints)
          = (priority_and_endpoints <$> res) ≫= snd) as ->.
  { clear. induction res; cbn; [done|]. by f_equal. }
  rewrite Hgroups, expected_groups_endpoints. unfold near, far. by rewrite filter_app_complement.
Qed.

Lemma flat_step ready_eps acc port :
  foldl (fun acc ep =>
      if derefBool (Endpoint_Ready ep) then acc ++ makeLbEndpoints ep port else acc)
    acc ready_eps =
  acc ++ (filter (fun ep => derefBool (Endpoint_Ready ep) = true) ready_eps ≫=
          fun ep => makeLbEndpoints ep port).
Proof.
  revert acc; induction ready_eps as [|ep eps IH]; intros acc; [by rewrite app_nil_r|].
  cbn [foldl]. rewrite IH. destruct (derefBool (Endpoint_Ready ep)) eqn:Hr.
  - rewrite filter_cons_True by done. cbn. by rewrite app_assoc.
  - by rewrite filter_cons_False by congruence.
Qed.

Lemma slice_data_lb ref s port :
  lookupK8sPort (ServiceRef_Port ref) (EndpointSlice_Ports s) = Some port ->
  lb_endpoints (slice_data ref s) =
  (filter (fun ep => derefBool (Endpoint_Ready ep) = true) (EndpointSlice_Endpoints s) ≫=
     fun ep => makeLbEndpoints ep port).
Proof.
  intros Hport. unfold lb_endpoints, slice_data. rewrite Hport.
  generalize (filter (fun ep => derefBool (Endpoint_Ready ep) = true)
                (EndpointSlice_Endpoints s)) as eps.
  induction eps as [|ep eps IH]; cbn; [done|]. by f_equal.
Qed.

Lemma makeFlat_Ok ref slices w p res :
  makeFlatLocalityLbEndpoints ref slices w p = Ok res ->
  ports_found ref slices /\
  res = {| endpointv3.LocalityLbEndpoints_Locality :=
             {| core.Locality_Zone := ""; core.Locality_SubZone := ServiceRef_Name ref |};
           endpointv3.LocalityLbEndpoints_LoadBalancingWeight := wrapperspb_UInt32 w;
           endpointv3.LocalityLbEndpoints_Priority := p;
           endpointv3.LocalityLbEndpoints_LbEndpoints :=
             lb_endpoints (ready_data ref slices) |}.
Proof.
  unfold makeFlatLocalityLbEndpoints. intros Hres. inv_ok. subst res.
  enough (ports_found ref slices /\ r = lb_endpoints (ready_data ref slices)) as [? ->]
    by done.
  revert Hc. apply (foldM_invariant (fun visited acc =>
    ports_found ref visited /\ acc = lb_endpoints (ready_data ref visited))).
  { split; [constructor|done]. }
  intros visited s acc acc' [Hports ->] Hs.
  destruct (lookupK8sPort _ _) as [port|] eqn:Hport; [|done]. injection Hs as <-.
  split; [apply Forall_app; split; [done|by repeat constructor]|].
  rewrite flat_step, <-(slice_data_lb ref s port Hport).
  unfold ready_data. rewrite bind_app. unfold lb_endpoints. rewrite bind_app.
  cbn. by rewrite app_nil_r.
Qed.

Lemma endpointHandler_implements node typeUrl :
  body_implements (endpointHandler_body node typeUrl) (fun _ => endpoint_item node typeUrl).
Proof.
  intros i name r. unfold endpointHandler_body, endpoint_item, lookupBackend.
  destruct (parseBackendName name) as [p| |]; cbn [mbind outcome_bind]; [|done..].
  destruct (lister_Get _ _) as [l| |]; cbn [mbind outcome_bind useResourceVersion]; [|done..].
  destruct (findBackendSpec p l) as [b| |]; cbn [mbind outcome_bind]; [|done..].
  destruct (makeLoadAssignment node p l b) as [[eps vs]| |]; cbn [mbind outcome_bind]; [|done..].
  destruct (encodeResource typeUrl _); cbn [mbind outcome_bind]; [|done..].
  rewrite useResourceVersions_fold. cbn. by rewrite <-app_assoc.
Qed.

Lemma endpointHandler_refines req :
  endpointHandler_resolveResource req =
  resolve_with (endpoint_item (resolveRequest_nodeInfo req) (resolveRequest_typeUrl req))
    EndpointType (resolveRequest_resourceNames req).
Proof. apply resolveLoop_refines, endpointHandler_implements. Qed.

(** A load assignment is always for the canonical name of the backend. *)
Lemma makeLoadAssignment_name node p l b cla vs :
  makeLoadAssignment node p l b = Ok (cla, vs) ->
  endpointv3.ClusterLoadAssignment_ClusterName cla = parsedBackendName_String p.
Proof.
  unfold makeLoadAssignment, makeServiceLoadAssignment, makeLocalitiesLoadAssignment.
  destruct (Backend_Service b); [|case_decide]; intros Hcla; inv_ok; by simplify_eq/=.
Qed.

Lemma makeLocalities_lookup p l b cla vs :
  makeLocalitiesLoadAssignment p l b = Ok (cla, vs) ->
  length (endpointv3.ClusterLoadAssignment_Endpoints cla) = length (Backend_Localities b) /\
  forall i loc, Backend_Localities b !! i = Some loc ->
    exists service slices, Locality_Service loc = Some service /\
      listServiceSlices service l = Ok slices /\ ports_found service slices /\
      endpointv3.ClusterLoadAssignment_Endpoints cla !! i = Some
        {| endpointv3.LocalityLbEndpoints_Locality :=
             {| core.Locality_Zone := ""; core.Locality_SubZone := ServiceRef_Name service |};
           endpointv3.LocalityLbEndpoints_LoadBalancingWeight :=
             wrapperspb_UInt32 (Locality_Weight loc);
           endpointv3.LocalityLbEndpoints_Priority := Locality_Priority loc;
           endpointv3.LocalityLbEndpoints_LbEndpoints :=
             lb_endpoints (ready_data service slices) |}.
Proof.
  unfold makeLocalitiesLoadAssignment. intros Hcla. inv_ok. simplify_eq/=.
  split; [rewrite length_fmap; by eapply imapM_length|]. intros i loc Hloc.
  destruct (imapM_lookup _ _ _ _ _ Hc Hloc) as ([eps ws] & Hi & Hmk).
  unfold makeLocality in Hmk. inv_ok. simplify_eq.
  rename r0 into service, r1 into slices. exists service, slices.
  apply makeFlat_Ok in Hc2 as [Hports ->]. rewrite list_lookup_fmap, Hi. done.
Qed.

(** *** What is found for a backend *)

Lemma service_found_unique l service x y :
  service_found l service x -> service_found l service y -> x = y.
Proof.
  destruct x as [s xs], y as [t ys]. intros (-> & Hx & _) ([= ->] & Hy & _). cbn in *. congruence.
Qed.

Lemma backend_found_unique node l b found found' :
  backend_found node l b found -> backend_found node l b found' -> found = found'.
Proof.
  intros (_ & Hf & _) (_ & Hf' & _). revert found' Hf'.
  induction Hf as [|o x os xs Hx _ IH]; intros found' Hf'; inversion_clear Hf'; [done|].
  f_equal; [by eapply service_found_unique|by apply IH].
Qed.

Lemma makeFlat_total ref slices w pr :
  ports_found ref slices -> exists res, makeFlatLocalityLbEndpoints ref slices w pr = Ok res.
Proof.
  intros Hports. apply is_ok_spec. unfold makeFlatLocalityLbEndpoints. rewrite is_ok_ret.
  apply is_ok_spec, foldM_total. intros s acc Hs.
  destruct (proj1 (Forall_forall _ _) Hports s Hs) as [port ->]. eauto.
Qed.

Lemma makeLocality_found l loc g vs :
  makeLocality l loc = Ok (g, vs) ->
  exists x, service_found l (Locality_Service loc) x /\
    endpointv3.LocalityLbEndpoints_LbEndpoints g = lb_endpoints (ready_data x.1 x.2) /\
    vs = sliceVersion <$> x.2.
Proof.
  unfold makeLocality, deref. intros Hmk. destruct (Locality_Service loc) as [service|]; [|done].
  inv_ok. apply makeFlat_Ok in Hc1 as [Hports ->]. simplify_eq. by eexists (_, _).
Qed.

Lemma makeLocality_total l loc x :
  service_found l (Locality_Service loc) x -> is_ok (makeLocality l loc) = true.
Proof.
  intros (Hs & Hl & Hports). unfold makeLocality. rewrite Hs. cbn [deref mbind outcome_bind].
  rewrite Hl. cbn [mbind outcome_bind].
  by destruct (makeFlat_total x.1 x.2 (Locality_Weight loc) (Locality_Priority loc) Hports) as [? ->].
Qed.

Lemma makeLocalities_found l locs gs :
  forM (makeLocality l) locs = Ok gs ->
  exists found, Forall2 (service_found l) (Locality_Service <$> locs) found /\
    (gs.*1 ≫= endpointv3.LocalityLbEndpoints_LbEndpoints) = found_addresses found /\
    mjoin gs.*2 = found_versions found.
Proof.
  intros Hgs%forM_Forall2. induction Hgs as [|loc [g vs] locs gs Hg _ (found & Hf & Ha & Hv)].
  { by exists []. }
  apply makeLocality_found in Hg as (x & Hx & Hg & ->). exists (x :: found).
  split; [by constructor|]. split.
  - rewrite fmap_cons, bind_cons. cbn [fst]. by rewrite Hg, Ha.
  - change (mjoin ((g, sliceVersion <$> x.2) :: gs).*2) with ((sliceVersion <$> x.2) ++ mjoin gs.*2).
    by rewrite Hv.
Qed.

Lemma makeLocalities_is_ok p l b :
  is_ok (makeLocalitiesLoadAssignment p l b) = true <->
  exists found, Forall2 (service_found l) (Locality_Service <$> Backend_Localities b) found.
Proof.
  unfold makeLocalitiesLoadAssignment. rewrite is_ok_ret. split.
  - intros [gs Hgs]%is_ok_spec. destruct (makeLocalities_found _ _ _ Hgs) as (found & Hf & _). eauto.
  - intros [found Hf]. rewrite Forall2_fmap_l in Hf. rewrite forM_is_ok.
    induction Hf; constructor; [by eapply makeLocality_total|done].
Qed.

(** A load assignment is built from what is found for the backend. *)
Lemma makeLoadAssignment_found node p l b cla vs :
  makeLoadAssignment node p l b = Ok (cla, vs) ->
  exists found, backend_found node l b found /\
    served_addresses cla ≡ₚ found_addresses found /\ vs = found_versions found.
Proof.
  unfold makeLoadAssignment, backend_found, backend_services, served_addresses.
  destruct (Backend_Service b) as [service|] eqn:Hb.
  - unfold makeServiceLoadAssignment. rewrite Hb. cbn [deref mbind outcome_bind]. intros Hmk.
    inv_ok. simplify_eq/=. destruct node as [n|]; [|done].
    exists [(service, r)]. split; [split; [done|]|].
    { split; [|by eauto]. repeat constructor; [done|]. by eapply makeServiceEndpoints_Ok. }
    unfold found_addresses, found_versions. cbn. rewrite !app_nil_r.
    split; [by eapply service_addresses|done].
  - case_decide as Hlen; [|done]. unfold makeLocalitiesLoadAssignment. intros Hmk.
    inv_ok. simplify_eq/=. destruct (makeLocalities_found _ _ _ Hc) as (found & Hf & Ha & Hv).
    exists found. split; [split; [|split; [done|by intros []]]|by rewrite Ha].
    by destruct (Backend_Localities b); cbn in *; [lia|].
Qed.

Lemma makeLoadAssignment_total node p l b found :
  backend_found node l b found ->
  exists cla, makeLoadAssignment node p l b = Ok (cla, found_versions found) /\
    served_addresses cla ≡ₚ found_addresses found.
Proof.
  intros Hfound. assert (is_ok (makeLoadAssignment node p l b) = true) as Hok.
  { destruct Hfound as (Hne & Hf & Hn).
    unfold makeLoadAssignment, backend_services in *.
    destruct (Backend_Service b) as [service|] eqn:Hb.
    - destruct Hn as [n ->]; [done|]. inversion_clear Hf as [|? x ? ? (Hs & Hl & Hports) _].
      injection Hs as ->. unfold makeServiceLoadAssignment. rewrite Hb.
      cbn [deref mbind outcome_bind]. rewrite Hl. cbn [mbind outcome_bind].
      by destruct (makeServiceEndpoints_total n x.1 x.2 Hports) as [? ->].
    - rewrite decide_True; [|destruct (Backend_Localities b); cbn; [done|lia]].
      apply makeLocalities_is_ok. eauto. }
  apply is_ok_spec in Hok as [[cla vs] Hcla].
  destruct (makeLoadAssignment_found _ _ _ _ _ _ Hcla) as (found' & Hf & Ha & ->).
  rewrite (backend_found_unique _ _ _ _ _ Hfound Hf). eauto.
Qed.

(** *** Requests *)

Lemma lookupBackend_printed p l b :
  printable p ->
  lookupBackend (parsedBackendName_String p) = Ok (p, l, b) <->
  lister_Get (parsedBackendName_Namespace p) (parsedBackendName_ListenerName p) = Ok l /\
  findBackendSpec p l = Ok b.
Proof.
  intros (Hns & Hname & Hi & Hj). unfold lookupBackend, parsedBackendName_String.
  rewrite parse_backendName by done. destruct p as [ns name i j]. cbn in *. split.
  - intros Hl. inv_ok. by simplify_eq.
  - intros [-> Hb]. cbn. by rewrite Hb.
Qed.

Lemma lookupBackend_printed_name p p' l b :
  printable p -> lookupBackend (parsedBackendName_String p) = Ok (p', l, b) -> p' = p.
Proof.
  intros (Hns & Hname & Hi & Hj). unfold lookupBackend, parsedBackendName_String.
  rewrite parse_backendName by done. cbn [mbind outcome_bind]. intros Hl. inv_ok. simplify_eq.
  by destruct p.
Qed.

Lemma backend_served_lookup node p x :
  backend_served node p x <->
  exists b, lister_Get (parsedBackendName_Namespace p) (parsedBackendName_ListenerName p) = Ok x.1 /\
    findBackendSpec p x.1 = Ok b /\ backend_found node x.1 b x.2.
Proof. unfold backend_served. setoid_rewrite findBackendSpec_Ok. naive_solver. Qed.

Lemma endpoint_item_Ok node typeUrl p a vs :
  printable p -> endpoint_item node typeUrl (parsedBackendName_String p) = Ok (a, vs) ->
  exists x, backend_served node p x /\ assignment_resource typeUrl p x.2 (Some a) /\
    vs = GRPCListener_ResourceVersion x.1 :: found_versions x.2.
Proof.
  intros Hp. unfold endpoint_item. intros Ha. apply bind_Ok in Ha as ([[p' l] b] & Hl & Ha).
  pose proof (lookupBackend_printed_name _ _ _ _ Hp Hl) as ->.
  apply lookupBackend_printed in Hl as [Hget Hb]; [|done].
  apply bind_Ok in Ha as ([cla vs'] & Hcla & Ha). apply bind_Ok in Ha as (a' & Henc & Ha).
  apply encodeResource_Ok in Henc as (bs & Hbs & ->). simplify_eq.
  destruct (makeLoadAssignment_found _ _ _ _ _ _ Hcla) as (found & Hf & Haddr & ->).
  exists (l, found). split; [apply backend_served_lookup; eauto|]. split; [|done].
  exists cla, bs. split; [by eapply makeLoadAssignment_name|]. done.
Qed.

Lemma endpoint_item_is_ok node typeUrl p :
  wire_succeeds -> printable p ->
  is_ok (endpoint_item node typeUrl (parsedBackendName_String p)) = true <->
  exists x, backend_served node p x.
Proof.
  intros Hwire Hp. rewrite is_ok_spec. split.
  - intros [[a vs] Ha]. destruct (endpoint_item_Ok _ _ _ _ _ Hp Ha) as (x & Hx & _). eauto.
  - intros [[l found] (b & Hget & Hb & Hf)%backend_served_lookup]. cbn in *. unfold endpoint_item.
    rewrite (proj2 (lookupBackend_printed p l b Hp)) by done. cbn [mbind outcome_bind].
    destruct (makeLoadAssignment_total node p l b found Hf) as (cla & -> & _).
    cbn [mbind outcome_bind]. unfold encodeResource.
    destruct (Hwire (MClusterLoadAssignment cla)) as [bs ->]. cbn. eauto.
Qed.

Lemma endpoint_items_Ok node typeUrl ps res :
  Forall printable ps ->
  resolve_with (endpoint_item node typeUrl) EndpointType (parsedBackendName_String <$> ps) = Ok res ->
  resolveResponse_typeURL res = EndpointType /\
  exists xs, Forall2 (backend_served node) ps xs /\
    Forall3 (fun p x => assignment_resource typeUrl p x.2) ps xs (resolveResponse_resources res) /\
    resolveResponse_versionHasher res =
      xs ≫= fun x => (GRPCListener_ResourceVersion x.1 :: found_versions x.2) ≫= bytes_of.
Proof.
  intros Hps (Htype & items & Hitems & -> & ->)%resolve_with_Ok. split; [done|].
  rewrite forM_Forall2, Forall2_fmap_l in Hitems. revert Hps.
  induction Hitems as [|p [a vs] ps items Hitem _ IH]; intros Hps.
  { exists []. split; [constructor|]. split; [constructor|done]. }
  inversion_clear Hps as [|? ? Hp Hps']. destruct (IH Hps') as (xs & Hxs & Hres & Hv).
  destruct (endpoint_item_Ok _ _ _ _ _ Hp Hitem) as (x & Hx & Ha & ->).
  exists (x :: xs). split; [by constructor|]. split; [by constructor|].
  rewrite fmap_cons, !bind_cons, Hv. done.
Qed.

(** ** Properties *)

(** C6: the endpoints of a service. For a client whose node is known,
    [makeServiceEndpoints] succeeds exactly when every slice has the port the
    service asks for, and fails with the port error otherwise; on success the
    addresses served are those of the ready endpoints, none lost and none
    duplicated, and the priorities of the groups are 0, 1, ... without a gap. *)
Theorem makeServiceEndpoints_complete n ref slices :
  (ports_found ref slices -> is_ok (makeServiceEndpoints (Some n) ref slices) = true) /\
  (~ ports_found ref slices ->
     makeServiceEndpoints (Some n) ref slices = Err no_port) /\
  forall res, makeServiceEndpoints (Some n) ref slices = Ok res ->
    (res ≫= endpointv3.LocalityLbEndpoints_LbEndpoints) ≡ₚ lb_endpoints (ready_data ref slices) /\
    (endpointv3.LocalityLbEndpoints_Priority <$> res) = seqZ 0 (Z.of_nat (length res)).
Proof.
  split; [intros Hp; apply is_ok_spec; by apply makeServiceEndpoints_total|].
  split; [apply makeServiceEndpoints_fails|].
  intros res Hres. split; [by eapply service_addresses|].
  apply makeServiceEndpoints_Ok in Hres as [_ Hgroups].
  assert ((endpointv3.LocalityLbEndpoints_Priority <$> res)
          = (priority_and_endpoints <$> res).*1) as ->.
  { clear. induction res; cbn; [done|]. by f_equal. }
  rewrite <-(length_fmap priority_and_endpoints res), Hgroups.
  by destruct (near _ _ _), (far _ _ _).
Qed.

(** C7: zone preference. If some ready endpoint is hinted for the zone of the
    client, the hinted endpoints form the group of priority 0 and all others,
    if any, the group of priority 1; if none is hinted, all ready endpoints are
    in one group of priority 0. *)
Theorem makeServiceEndpoints_zone_preference n ref slices res :
  makeServiceEndpoints (Some n) ref slices = Ok res ->
  (near (node_zone n) ref slices <> [] ->
     exists g0 rest, res = g0 :: rest /\
       endpointv3.LocalityLbEndpoints_Priority g0 = 0%Z /\
       endpointv3.LocalityLbEndpoints_LbEndpoints g0
         = lb_endpoints (near (node_zone n) ref slices) /\
       Forall (fun g => endpointv3.LocalityLbEndpoints_Priority g = 1%Z) rest /\
       (rest ≫= endpointv3.LocalityLbEndpoints_LbEndpoints)
         = lb_endpoints (far (node_zone n) ref slices)) /\
  (near (node_zone n) ref slices = [] ->
     Forall (fun g => endpointv3.LocalityLbEndpoints_Priority g = 0%Z) res /\
     (res ≫= endpointv3.LocalityLbEndpoints_LbEndpoints)
       = lb_endpoints (ready_data ref slices)).
Proof.
  intros [_ Hgroups]%makeServiceEndpoints_Ok. split.
  - destruct (near (node_zone n) ref slices) as [|d ds] eqn:Hnear; [done|]. intros _.
    destruct (far (node_zone n) ref slices) as [|d' ds'] eqn:Hfar;
      destruct res as [|g0 [|g1 [|]]]; try done; injection Hgroups; intros.
    + exists g0, []. by split_and!.
    + exists g0, [g1]. split_and!; [done..|by repeat constructor|]. cbn [mbind list_bind].
      by rewrite app_nil_r.
  - intros Hnear.
    assert (far (node_zone n) ref slices = ready_data ref slices) as Hfar.
    { by apply filter_complement_all. }
    rewrite Hnear, Hfar in Hgroups.
    destruct (ready_data ref slices) as [|d ds], res as [|g [|]]; try done.
    injection Hgroups; intros. split; [by repeat constructor|].
    cbn [mbind list_bind]. by rewrite app_nil_r.
Qed.

(** C28: localities. The load assignment of a backend with localities is built
    exactly when each locality names a service whose slices can be listed and have
    the port; it then has the name of the backend and one group per locality, at
    its position, with the name of the service for its sub-zone, the weight and
    the priority of the locality, and exactly the addresses of the ready
    endpoints of the service. *)
Theorem makeLocalitiesLoadAssignment_spec p l b :
  (is_ok (makeLocalitiesLoadAssignment p l b) = true <->
   exists found, Forall2 (service_found l) (Locality_Service <$> Backend_Localities b) found) /\
  forall cla vs, makeLocalitiesLoadAssignment p l b = Ok (cla, vs) ->
    endpointv3.ClusterLoadAssignment_ClusterName cla = parsedBackendName_String p /\
    length (endpointv3.ClusterLoadAssignment_Endpoints cla) = length (Backend_Localities b) /\
    forall i loc, Backend_Localities b !! i = Some loc ->
      exists service slices, service_found l (Locality_Service loc) (service, slices) /\
        endpointv3.ClusterLoadAssignment_Endpoints cla !! i = Some
          {| endpointv3.LocalityLbEndpoints_Locality :=
               {| core.Locality_Zone := ""; core.Locality_SubZone := ServiceRef_Name service |};
             endpointv3.LocalityLbEndpoints_LoadBalancingWeight :=
               wrapperspb_UInt32 (Locality_Weight loc);
             endpointv3.LocalityLbEndpoints_Priority := Locality_Priority loc;
             endpointv3.LocalityLbEndpoints_LbEndpoints :=
               lb_endpoints (ready_data service slices) |}.
Proof.
  split; [apply makeLocalities_is_ok|]. intros cla vs Hcla. split.
  - unfold makeLocalitiesLoadAssignment in Hcla. inv_ok. by simplify_eq/=.
  - destruct (makeLocalities_lookup _ _ _ _ _ Hcla) as [Hlen Hall]. split; [done|].
    intros i loc (service & slices & Hs & Hl & Hp & Hi)%Hall. exists service, slices.
    by split_and!.
Qed.

(** C17: resolving endpoints. A request for backends, under the names the
    controller gives them and when marshalling works, is answered exactly when
    for each of them the store has the listener with that route and backend, and
    for every service the backend names the slices, each with the port asked
    for (and the request has the node of the client, for a backend that is one
    service). The answer has one resource per name, in order: a load assignment under
    that name whose addresses are those of the ready endpoints of the services,
    none lost and none twice; and its version is made of the version of the
    listener and those of the slices, backend after backend. *)
Theorem endpointHandler_serves req ps :
  wire_succeeds -> Forall printable ps ->
  resolveRequest_resourceNames req = parsedBackendName_String <$> ps ->
  (is_ok (endpointHandler_resolveResource req) = true <->
   Forall (fun p => exists x, backend_served (resolveRequest_nodeInfo req) p x) ps) /\
  forall res, endpointHandler_resolveResource req = Ok res ->
    resolveResponse_typeURL res = EndpointType /\
    exists xs, Forall2 (backend_served (resolveRequest_nodeInfo req)) ps xs /\
      Forall3 (fun p x => assignment_resource (resolveRequest_typeUrl req) p x.2)
        ps xs (resolveResponse_resources res) /\
      resolveResponse_versionHasher res =
        xs ≫= fun x => (GRPCListener_ResourceVersion x.1 :: found_versions x.2) ≫= bytes_of.
Proof.
  intros Hwire Hps Hnames. rewrite endpointHandler_refines, Hnames.
  split; [|intros res; by apply endpoint_items_Ok].
  rewrite resolve_with_is_ok, Forall_fmap, !Forall_forall.
  rewrite Forall_forall in Hps. unfold compose.
  split; intros Hall p Hin; specialize (Hall p Hin);
    by eapply endpoint_item_is_ok; eauto.
Qed.

(** A locality without a service makes the controller panic. The
    reference is optional in the API, but the load assignment of a backend whose
    first locality has none dereferences a nil pointer. *)
Theorem locality_without_service_panics node p l b loc rest :
  Backend_Service b = None -> Backend_Localities b = loc :: rest ->
  Locality_Service loc = None ->
  makeLoadAssignment node p l b = Panic NilDereference.
Proof.
  intros Hs Hl Hloc. unfold makeLoadAssignment, makeLocalitiesLoadAssignment.
  rewrite Hs, Hl. cbn [length]. rewrite decide_True by lia.
  unfold forM, imapM, makeLocality. cbn. by rewrite Hloc.
Qed.
End endpoint_handler.

(** ** Port lookup *)

(** Both loops of [lookupK8sPort] stop at the first entry with a name and a port
    that passes a test. *)
Definition port_matches (ref : PortRef) (p : EndpointPort) (port : Z) : Prop :=
  EndpointPort_Port p = Some port /\
  exists n, EndpointPort_Name p = Some n /\
    if decide (PortRef_Name ref = "") then port = PortRef_Number ref else n = PortRef_Name ref.

Lemma lookupK8sPort_cons ref p ps :
  lookupK8sPort ref (p :: ps) = lookupK8sPort ref ps /\ (forall port, ~ port_matches ref p port) \/
  exists port, port_matches ref p port /\ lookupK8sPort ref (p :: ps) = Some (portNumber port).
Proof.
  unfold lookupK8sPort, port_matches. destruct (decide (PortRef_Name ref = "")) as [He|He].
  - rewrite !(decide_False (P := PortRef_Name ref <> "")) by tauto. cbn [lookupPortByNumber].
    destruct (EndpointPort_Name p) as [n|], (EndpointPort_Port p) as [q|];
      [case_decide|..]; naive_solver.
  - rewrite !(decide_True (P := PortRef_Name ref <> "")) by done. cbn [lookupPortByName].
    destruct (EndpointPort_Name p) as [n|], (EndpointPort_Port p) as [q|];
      [case_decide|..]; naive_solver.
Qed.

(** Ports. [lookupK8sPort] returns the port of the first named entry that
    matches, by name when the reference has one and by number otherwise, and
    nothing exactly when no entry matches; the result always fits a [uint32]
    and equals the port when that is not negative. *)
Theorem lookupK8sPort_spec ref ports :
  match lookupK8sPort ref ports with
  | Some q => exists i p port,
      ports !! i = Some p /\ port_matches ref p port /\ q = uint32_wrap port /\ is_uint32 q /\
      (is_int32 port -> (0 <= port)%Z -> q = port) /\
      forall j p' port', j < i -> ports !! j = Some p' -> ~ port_matches ref p' port'
  | None => forall i p port, ports !! i = Some p -> ~ port_matches ref p port
  end.
Proof.
  induction ports as [|p ps IH].
  { unfold lookupK8sPort. by case_decide. }
  destruct (lookupK8sPort_cons ref p ps) as [[-> Hno]|(port & Hm & ->)].
  - destruct (lookupK8sPort ref ps) as [q|].
    + destruct IH as (i & p' & port & Hi & ? & ? & ? & ? & Hfirst).
      exists (S i), p', port. split_and!; [done..|].
      intros [|j] p'' port'' Hj; cbn; [intros [= <-]; apply Hno|].
      intros Hp''. eapply Hfirst; [|done]. lia.
    + intros [|i] p' port; cbn; [intros [= <-]; apply Hno|apply IH].
  - exists 0, p, port. split_and!; [done..|apply uint32_wrap_range| |].
    + intros Hint Hpos. apply uint32_wrap_small. unfold is_int32, is_uint32 in *. lia.
    + intros j. lia.
Qed.

(** ** Witnesses *)

Local Existing Instance sample_xds.
Local Existing Instance ascii_tables.
Local Existing Instance sample_lister.

Definition sample_endpoint (addr zone : string) (hint : option string) (ready : bool) : Endpoint :=
  {| Endpoint_Addresses := [addr]; Endpoint_Ready := Some ready; Endpoint_Zone := Some zone;
     Endpoint_Hints := (fun z => {| EndpointHints_ForZones := [{| ForZone_Name := z |}] |}) <$> hint |}.

Definition sample_slice : EndpointSlice :=
  {| EndpointSlice_ObjectMeta :=
       {| ObjectMeta_Name := "test-service-v1-abcde"; ObjectMeta_Namespace := "default";
          ObjectMeta_ResourceVersion := "42";
          ObjectMeta_Labels := {[serviceNameLabel := "test-service-v1"]} |};
     EndpointSlice_Endpoints :=
       [sample_endpoint "10.0.0.1" "zone-a" (Some "zone-a") true;
        sample_endpoint "10.0.0.2" "zone-b" (Some "zone-b") true;
        sample_endpoint "10.0.0.3" "zone-b" (Some "zone-b") false];
     EndpointSlice_Ports :=
       [{| EndpointPort_Name := Some "grpc"; EndpointPort_Port := Some 3333%Z |}] |}.

Definition sample_node (zone : string) : core.Node :=
  {| core.Node_Id := "client-0";
     core.Node_Locality := Some {| core.Locality_Zone := zone; core.Locality_SubZone := "" |} |}.

Local Instance sample_slices : EndpointSliceLister := slices_of [sample_slice].

Lemma makeServiceEndpoints_zone_preference_witness :
  exists res, makeServiceEndpoints (Some (sample_node "Zone-B")) sample_service [sample_slice]
    = Ok res /\ (endpointv3.LocalityLbEndpoints_Priority <$> res) = [0; 1]%Z.
Proof.
  eexists. split; [reflexivity|].
  pose proof (makeServiceEndpoints_zone_preference (sample_node "Zone-B") sample_service
    [sample_slice] _ eq_refl) as [Hnear _].
  destruct Hnear as (g0 & rest & _ & _ & _ & _ & _); [by vm_compute|]. by vm_compute.
Defined.

Definition sample_localities : Backend :=
  {| Backend_Weight := 1; Backend_MaxRequests := None; Backend_LBPolicy := "";
     Backend_RingHashConfig := None; Backend_Interceptors := []; Backend_Service := None;
     Backend_Localities :=
       [{| Locality_Weight := 80; Locality_Priority := 1; Locality_Service := Some sample_service |};
        {| Locality_Weight := 20; Locality_Priority := 0; Locality_Service := Some sample_service |}] |}.

Definition sample_ref : parsedBackendName :=
  {| parsedBackendName_Namespace := "default"; parsedBackendName_ListenerName := "test-xds";
     parsedBackendName_RouteID := 0; parsedBackendName_BackendID := 0 |}.

Lemma makeLocalitiesLoadAssignment_spec_witness :
  exists cla vs, makeLocalitiesLoadAssignment sample_ref sample_listener sample_localities
      = Ok (cla, vs) /\
    length (endpointv3.ClusterLoadAssignment_Endpoints cla) = 2.
Proof.
  assert (is_ok (makeLocalitiesLoadAssignment sample_ref sample_listener sample_localities)
          = true) as Hok by reflexivity.
  destruct (makeLocalitiesLoadAssignment sample_ref sample_listener sample_localities)
    as [[cla vs]| |] eqn:Hcla; [|discriminate Hok..].
  exists cla, vs. split; [reflexivity|].
  apply (proj2 (makeLocalitiesLoadAssignment_spec sample_ref sample_listener sample_localities)
    cla vs Hcla).
Defined.

Lemma locality_without_service_panics_witness :
  makeLoadAssignment (Some (sample_node "")) sample_ref sample_listener
    {| Backend_Weight := 1; Backend_MaxRequests := None; Backend_LBPolicy := "";
       Backend_RingHashConfig := None; Backend_Interceptors := []; Backend_Service := None;
       Backend_Localities :=
         [{| Locality_Weight := 1; Locality_Priority := 0; Locality_Service := None |}] |}
  = Panic NilDereference.
Proof. by eapply locality_without_service_panics. Defined.

Lemma makeServiceEndpoints_complete_witness :
  is_ok (makeServiceEndpoints (Some (sample_node "zone-a")) sample_service [sample_slice]) = true.
Proof.
  apply makeServiceEndpoints_complete. repeat constructor. by exists 3333%Z.
Defined.

(** The name of a backend of the stored listener. *)
Definition sample_name (i j : Z) : parsedBackendName :=
  {| parsedBackendName_Namespace := "default"; parsedBackendName_ListenerName := "test-xds";
     parsedBackendName_RouteID := i; parsedBackendName_BackendID := j |}.

Lemma sample_wire : wire_succeeds.
Proof. intros m. by eexists. Qed.

(** A request for two backends of the stored listener is answered with two load
    assignments. *)
Lemma endpointHandler_serves_witness :
  exists res (xs : list (GRPCListener * list (ServiceRef * list EndpointSlice))),
    endpointHandler_resolveResource
      {| resolveRequest_resourceNames :=
           ["default/test-xds/route/0/backend/1"; "default/test-xds/route/1/backend/0"];
         resolveRequest_typeUrl := EndpointType;
         resolveRequest_nodeInfo := Some (sample_node "zone-b") |} = Ok res /\
    Forall3 (fun p x => assignment_resource EndpointType p x.2)
      [sample_name 0 1; sample_name 1 0] xs (resolveResponse_resources res).
Proof.
  destruct (endpointHandler_serves
    {| resolveRequest_resourceNames :=
         ["default/test-xds/route/0/backend/1"; "default/test-xds/route/1/backend/0"];
       resolveRequest_typeUrl := EndpointType;
       resolveRequest_nodeInfo := Some (sample_node "zone-b") |}
    [sample_name 0 1; sample_name 1 0] sample_wire) as [Hiff Hres].
  { repeat constructor; vm_compute; congruence. }
  { reflexivity. }
  assert (Forall (fun p => exists x, backend_served (Some (sample_node "zone-b")) p x)
            [sample_name 0 1; sample_name 1 0]) as Hserved.
  { repeat constructor; exists (sample_listener, [(sample_service, [sample_slice])]).
    all: split; [reflexivity|]; do 2 (split; [vm_compute; congruence|]).
    all: do 2 eexists; split; [reflexivity|]; split; [reflexivity|].
    all: split; [discriminate|]; split; [|by eexists].
    all: repeat constructor; by exists 3333%Z. }
  destruct (proj1 (is_ok_spec _) (proj2 Hiff Hserved)) as [res Hok].
  destruct (Hres res Hok) as (_ & xs & _ & Hall & _). by exists res, xs.
Defined.
