(* ===== verification/Coherence.v ===== *)
(** The three resource handlers together: what the listener resource refers to
    is what the cluster and endpoint resources define.

    A gRPC client first asks for its listener, finds cluster names in the route
    configuration, asks for those clusters, and then for the load assignments
    the clusters name. The theorem follows that chain through the handlers. *)

From S2P Require Import Prelude GoStrings GoPath GoStrconv Api Errors Xds ResourceName Interceptors Routes Resolver K8s Listers ListenerHandler ClusterHandler EndpointHandler.

(** The length of a Go slice is an [int]. *)
Definition go_sized (l : GRPCListener) : Prop :=
  (Z.of_nat (length (GRPCListener_Routes l)) < 2 ^ 63)%Z /\
  Forall (fun r => Z.of_nat (length (Route_Backends r)) < 2 ^ 63)%Z (GRPCListener_Routes l).

Section coherence.
Context `{XdsLibrary, UnicodeTables, GRPCListenerLister, EndpointSliceLister}.

Definition one_name (typeUrl name : string) (node : option core.Node) : resolveRequest :=
  {| resolveRequest_resourceNames := [name]; resolveRequest_typeUrl := typeUrl;
     resolveRequest_nodeInfo := node |}.

(** The response to a request for one resource. *)
Definition one_resource (typeUrl bs : string) (versions : list string) : resolveResponse :=
  {| resolveResponse_typeURL := typeUrl;
     resolveResponse_resources := [Some {| Any_TypeUrl := typeUrl; Any_Value := bs |}];
     resolveResponse_versionHasher := versions ≫= bytes_of |}.

(** ** Lemmas *)

Lemma go_sized_ids l i r j (b : Backend) :
  go_sized l -> GRPCListener_Routes l !! i = Some r -> Route_Backends r !! j = Some b ->
  is_int64 (Z.of_nat i) /\ is_int64 (Z.of_nat j).
Proof.
  intros [Hrs Hbs] Hi Hj. pose proof (lookup_lt_Some _ _ _ Hi). pose proof (lookup_lt_Some _ _ _ Hj).
  pose proof (Forall_lookup_1 _ _ _ _ Hbs Hi) as Hb. simpl in Hb.
  unfold is_int64. lia.
Qed.

Lemma clusterHandler_one c p l b node bs :
  lookupBackend c = Ok (p, l, b) ->
  proto_Marshal (MCluster (makeCluster c b)) = Ok bs ->
  clusterHandler_resolveResource (one_name ClusterType c node)
    = Ok (one_resource ClusterType bs [GRPCListener_ResourceVersion l]).
Proof.
  intros Hl Hbs. rewrite clusterHandler_refines. cbn [one_name resolveRequest_resourceNames].
  rewrite resolve_with_singleton. unfold cluster_item. rewrite Hl. cbn.
  unfold encodeResource. rewrite Hbs. cbn. done.
Qed.

Lemma endpointHandler_one c p l b node cla vs bs :
  lookupBackend c = Ok (p, l, b) ->
  makeLoadAssignment node p l b = Ok (cla, vs) ->
  proto_Marshal (MClusterLoadAssignment cla) = Ok bs ->
  endpointHandler_resolveResource (one_name EndpointType c node)
    = Ok (one_resource EndpointType bs (GRPCListener_ResourceVersion l :: vs)).
Proof.
  intros Hl Hcla Hbs. rewrite endpointHandler_refines. cbn [one_name resolveRequest_resourceNames].
  rewrite resolve_with_singleton. unfold endpoint_item. rewrite Hl. cbn. rewrite Hcla. cbn.
  unfold encodeResource. rewrite Hbs. cbn. done.
Qed.

(** The endpoint handler serves what is found for a backend. *)
Lemma endpointHandler_found c p l b node found :
  wire_succeeds -> lookupBackend c = Ok (p, l, b) -> backend_found node l b found ->
  exists cla bs, endpointv3.ClusterLoadAssignment_ClusterName cla = parsedBackendName_String p /\
    served_addresses cla ≡ₚ found_addresses found /\
    proto_Marshal (MClusterLoadAssignment cla) = Ok bs /\
    endpointHandler_resolveResource (one_name EndpointType c node)
      = Ok (one_resource EndpointType bs (GRPCListener_ResourceVersion l :: found_versions found)).
Proof.
  intros Hwire Hl Hfound.
  destruct (makeLoadAssignment_total node p l b found Hfound) as (cla & Hcla & Haddr).
  destruct (Hwire (MClusterLoadAssignment cla)) as [bs Hbs]. exists cla, bs.
  split; [by eapply makeLoadAssignment_name|]. split; [done|]. split; [done|].
  by eapply endpointHandler_one.
Qed.

Lemma endpointHandler_one_is_ok c p l b node :
  wire_succeeds -> lookupBackend c = Ok (p, l, b) ->
  is_ok (endpointHandler_resolveResource (one_name EndpointType c node)) = true <->
  exists found, backend_found node l b found.
Proof.
  intros Hwire Hl. split.
  - rewrite endpointHandler_refines. cbn [one_name resolveRequest_resourceNames].
    rewrite resolve_with_is_ok, Forall_singleton. intros Hok. apply is_ok_spec in Hok as [[a vs] Ha].
    unfold endpoint_item in Ha. rewrite Hl in Ha. cbn [mbind outcome_bind] in Ha.
    apply bind_Ok in Ha as ([cla ws] & Hcla & _).
    destruct (makeLoadAssignment_found _ _ _ _ _ _ Hcla) as (found & Hf & _). by exists found.
  - intros [found Hf]. destruct (endpointHandler_found c p l b node found Hwire Hl Hf)
      as (cla & bs & _ & _ & _ & ->). done.
Qed.

Lemma lookupBackend_parse name p l b : lookupBackend name = Ok (p, l, b) -> parseBackendName name = Ok p.
Proof.
  unfold lookupBackend. intros Hl. apply bind_Ok in Hl as (p' & Hp & Hl).
  apply bind_Ok in Hl as (l' & _ & Hl). apply bind_Ok in Hl as (b' & _ & Hl). by simplify_eq.
Qed.

(** A name in the route configuration of a stored listener leads to the backend
    it was made for. *)
Lemma config_cluster_backend ns name l config c :
  is_segment ns = true -> is_segment name = true -> go_sized l ->
  GRPCListener_Namespace l = ns -> GRPCListener_Name l = name ->
  lister_Get ns name = Ok l ->
  makeRouteConfig (listenerName ns name) l = Ok config -> c ∈ config_clusters config ->
  exists i r j b p, GRPCListener_Routes l !! i = Some r /\ Route_Backends r !! j = Some b /\
    c = backendName ns name (Z.of_nat i) (Z.of_nat j) /\
    lookupBackend c = Ok (p, l, b) /\ parsedBackendName_String p = c.
Proof.
  intros Hns Hname Hsize <- <- Hget Hconfig (i & r & j & b & Hr & Hb & ->)%(config_clusters_spec _ _ _ _ Hconfig).
  destruct (go_sized_ids l i r j b Hsize Hr Hb).
  eexists i, r, j, b, _. split; [done|]. split; [done|]. split; [done|].
  split; [by eapply lookupBackend_backendName|done].
Qed.

(** ** Properties *)

(** C1: the resources of a listener fit together. For a stored, well-formed
    listener, when marshalling works, the listener resource can be built; and
    every cluster its route configuration refers to is named after a backend of
    the listener, which the cluster handler resolves, under that very name and with
    that name as its EDS service name. The endpoint handler answers for that
    name exactly when the backend names a service and every service it names is
    found, with the slices of the lister and the port in each of them (and the
    node of the client is known where its zone matters); it then serves a load
    assignment under that very name with the addresses of the ready endpoints
    found, none lost and none twice. *)
Theorem resources_coherent ns name l node :
  GRPCListenerListerLaws -> marshalling_succeeds -> wire_succeeds ->
  is_segment ns = true -> lister_Get ns name = Ok l -> listener_ok l -> go_sized l ->
  exists filters config hcm_any,
    makeFilters (GRPCListenerSpec_Interceptors (GRPCListener_Spec l)) = Ok filters /\
    makeRouteConfig (listenerName ns name) l = Ok config /\
    anypb_New (MHttpConnectionManager (httpConnManager l config filters)) = Ok hcm_any /\
    (exists bs,
       proto_Marshal (MListener {| listenerv3.Listener_Name := listenerName ns name;
                                   listenerv3.Listener_ApiListener := hcm_any |}) = Ok bs /\
       listenerHandler_resolveResource (one_name ListenerType (listenerName ns name) node)
         = Ok (one_resource ListenerType bs [GRPCListener_ResourceVersion l])) /\
    forall c, c ∈ config_clusters config ->
      exists i r j b p,
        GRPCListener_Routes l !! i = Some r /\ Route_Backends r !! j = Some b /\
        c = backendName ns name (Z.of_nat i) (Z.of_nat j) /\ parseBackendName c = Ok p /\
        (exists bs, proto_Marshal (MCluster (makeCluster c b)) = Ok bs /\
           clusterHandler_resolveResource (one_name ClusterType c node)
             = Ok (one_resource ClusterType bs [GRPCListener_ResourceVersion l])) /\
        cluster.EdsClusterConfig_ServiceName
          (cluster.Cluster_EdsClusterConfig (makeCluster c b)) = c /\
        (is_ok (endpointHandler_resolveResource (one_name EndpointType c node)) = true <->
         exists found, backend_found node l b found) /\
        forall found, backend_found node l b found ->
          exists cla bs, endpointv3.ClusterLoadAssignment_ClusterName cla = c /\
            served_addresses cla ≡ₚ found_addresses found /\
            proto_Marshal (MClusterLoadAssignment cla) = Ok bs /\
            endpointHandler_resolveResource (one_name EndpointType c node)
              = Ok (one_resource EndpointType bs
                      (GRPCListener_ResourceVersion l :: found_versions found)).
Proof.
  intros Hlister Hany Hwire Hns Hget Hok Hsize.
  pose proof (is_segment_no_slash ns Hns) as Hslash.
  destruct (lister_Get_object ns name l Hslash Hget) as (Hlns & Hlname & [_ Hname]).
  rewrite Hlname in Hname.
  destruct (makeListener_Ok ns name l Hany Hslash Hget Hok)
    as (filters & config & any & Hfilters & Hconfig & Hhcm & Hmk).
  exists filters, config, any. split; [done|]. split; [done|]. split; [done|]. split.
  - destruct (Hwire (MListener {| listenerv3.Listener_Name := listenerName ns name;
                                  listenerv3.Listener_ApiListener := any |})) as [bs Hbs].
    exists bs. split; [done|]. rewrite listenerHandler_refines.
    cbn [one_name resolveRequest_resourceNames]. rewrite resolve_with_singleton.
    unfold listener_item. rewrite Hmk. cbn. unfold encodeResource. rewrite Hbs. done.
  - intros c Hc.
    destruct (config_cluster_backend ns name l config c Hns Hname Hsize Hlns Hlname Hget Hconfig Hc)
      as (i & r & j & b & p & Hr & Hb & Hbn & Hl & Hp).
    exists i, r, j, b, p. split; [done|]. split; [done|]. split; [done|].
    split; [by eapply lookupBackend_parse|]. split; [|split; [done|split]].
    + destruct (Hwire (MCluster (makeCluster c b))) as [bs Hbs]. exists bs.
      split; [done|]. by eapply clusterHandler_one.
    + by eapply endpointHandler_one_is_ok.
    + intros found Hfound.
      destruct (endpointHandler_found c p l b node found Hwire Hl Hfound)
        as (cla & bs & Hcn & Haddr & Hbs & Hres).
      exists cla, bs. by rewrite Hcn, Hp.
Qed.
End coherence.

(** ** Witnesses *)

Local Existing Instance sample_xds.
Local Existing Instance ascii_tables.
Local Existing Instance sample_lister.
Local Existing Instance sample_slices.

Lemma sample_listener_ok : listener_ok sample_listener.
Proof.
  split.
  - apply makeFilters_is_ok; [apply sample_marshalling|]. by vm_compute.
  - apply (makeRouteConfig_is_ok "default/test-xds"); [apply sample_marshalling|].
    by vm_compute.
Qed.

Lemma resources_coherent_witness :
  exists config, makeRouteConfig "default/test-xds" sample_listener = Ok config /\
    "default/test-xds/route/1/backend/0" ∈ config_clusters config /\
    is_ok (clusterHandler_resolveResource (one_name ClusterType
      "default/test-xds/route/1/backend/0" (Some (sample_node "zone-a")))) = true /\
    is_ok (endpointHandler_resolveResource (one_name EndpointType
      "default/test-xds/route/1/backend/0" (Some (sample_node "zone-a")))) = true.
Proof.
  destruct (resources_coherent "default" "test-xds" sample_listener (Some (sample_node "zone-a"))
    sample_lister_laws sample_marshalling sample_wire eq_refl eq_refl sample_listener_ok) as
    (filters & config & any & _ & Hconfig & _ & _ & Hall).
  { split; [by vm_compute|]. by repeat constructor; vm_compute. }
  exists config. split; [exact Hconfig|].
  assert ("default/test-xds/route/1/backend/0" ∈ config_clusters config) as Hin.
  { vm_compute in Hconfig. injection Hconfig as <-. vm_compute. repeat constructor. }
  split; [exact Hin|].
  destruct (Hall _ Hin) as (i & r & j & b & p & Hr & Hb & Hname & _ & (bs & _ & Hc) & _ & Hiff & _).
  split; [by rewrite Hc|]. apply Hiff.
  assert (b = sample_backend) as ->.
  { assert (b ∈ (GRPCListener_Routes sample_listener ≫= Route_Backends)) as Hmem.
    { apply list_elem_of_bind. exists r. split; by eapply list_elem_of_lookup_2. }
    vm_compute in Hmem.
    repeat (apply elem_of_cons in Hmem as [->|Hmem]; [reflexivity|]). by apply elem_of_nil in Hmem. }
  exists [(sample_service, [sample_slice])]. split; [discriminate|].
  split; [|by eexists]. repeat constructor. by exists 3333%Z.
Defined.
