(* ===== verification/EndToEnd.v ===== *)
(** From a call to the addresses that serve it: the route configuration, the
    clusters and the load assignments of the controller put together, for a
    client that follows them ([Routing]) and a store of listeners and endpoint
    slices. *)

From S2P Require Import Prelude GoStrings GoPath GoStrconv Api Errors Xds ResourceName Interceptors Routes Routing Resolver K8s Listers ListenerHandler ClusterHandler EndpointHandler Coherence.

Section end_to_end.
Context `{XdsLibrary, !DenominatorLaws, UnicodeTables, GRPCListenerLister, EndpointSliceLister,
  XdsClient}.

(** The controller answers a request for a resource with a message. *)
Definition serves_listener (target : string) (node : option core.Node) (l : GRPCListener)
    (config : route.RouteConfiguration) : Prop :=
  exists filters any bs vs,
    makeFilters (GRPCListenerSpec_Interceptors (GRPCListener_Spec l)) = Ok filters /\
    anypb_New (MHttpConnectionManager (httpConnManager l config filters)) = Ok any /\
    proto_Marshal (MListener {| listenerv3.Listener_Name := target;
                                listenerv3.Listener_ApiListener := any |}) = Ok bs /\
    listenerHandler_resolveResource (one_name ListenerType target node)
      = Ok (one_resource ListenerType bs vs).

Definition serves_cluster (name : string) (node : option core.Node) (c : cluster.Cluster) : Prop :=
  exists bs vs, proto_Marshal (MCluster c) = Ok bs /\
    clusterHandler_resolveResource (one_name ClusterType name node)
      = Ok (one_resource ClusterType bs vs).

Definition serves_endpoints (name : string) (node : option core.Node)
    (cla : endpointv3.ClusterLoadAssignment) : Prop :=
  exists bs vs, proto_Marshal (MClusterLoadAssignment cla) = Ok bs /\
    endpointHandler_resolveResource (one_name EndpointType name node)
      = Ok (one_resource EndpointType bs vs).

(** ** Lemmas *)

Lemma listener_served ns name l node :
  marshalling_succeeds -> wire_succeeds -> str_mem slash ns = false ->
  lister_Get ns name = Ok l -> listener_ok l ->
  exists config, makeRouteConfig (listenerName ns name) l = Ok config /\
    serves_listener (listenerName ns name) node l config.
Proof.
  intros Hany Hwire Hslash Hget Hok.
  destruct (makeListener_Ok ns name l Hany Hslash Hget Hok)
    as (filters & config & any & Hfilters & Hconfig & Hhcm & Hmk).
  exists config. split; [done|].
  destruct (Hwire (MListener {| listenerv3.Listener_Name := listenerName ns name;
                                listenerv3.Listener_ApiListener := any |})) as [bs Hbs].
  exists filters, any, bs. eexists. do 3 (split; [done|]).
  rewrite listenerHandler_refines. cbn [one_name resolveRequest_resourceNames].
  rewrite resolve_with_singleton. unfold listener_item. rewrite Hmk. cbn.
  unfold encodeResource. rewrite Hbs. reflexivity.
Qed.

Lemma cluster_served name p l b node :
  wire_succeeds -> lookupBackend name = Ok (p, l, b) ->
  serves_cluster name node (makeCluster name b).
Proof.
  intros Hwire Hl. destruct (Hwire (MCluster (makeCluster name b))) as [bs Hbs].
  exists bs. eexists. split; [done|]. by eapply clusterHandler_one.
Qed.

Lemma endpoints_served name p l b n found :
  wire_succeeds -> lookupBackend name = Ok (p, l, b) -> backend_found (Some n) l b found ->
  exists cla, serves_endpoints name (Some n) cla /\
    endpointv3.ClusterLoadAssignment_ClusterName cla = parsedBackendName_String p /\
    served_addresses cla ≡ₚ found_addresses found.
Proof.
  intros Hwire Hl Hfound.
  destruct (endpointHandler_found name p l b (Some n) found Hwire Hl Hfound)
    as (cla & bs & Hname & Haddr & Hbs & Hres).
  exists cla. split; [by exists bs; eexists|done].
Qed.

(** ** Properties *)

(** C5: a call reaches the ready endpoints of the backends of its route. For a
    stored, well-formed listener, when marshalling works and names are names of
    protobuf, a client that has resolved the listener picks for a call the first
    effective route; each backend of it is a cluster of that route, with the
    weight of the backend, which the controller serves under the name the client
    has seen, with that name for its endpoints. If the backend names a service,
    directly or in its localities, and for each service it names the slices are
    listed and have the port, then under the same name the controller serves a
    load assignment with the addresses of the ready endpoints of those services,
    each once and no others; otherwise it serves none. *)
Theorem call_reaches_ready_endpoints ns name l n c i r j b :
  GRPCListenerListerLaws -> marshalling_succeeds -> wire_succeeds -> is_segment ns = true ->
  lister_Get ns name = Ok l -> listener_ok l -> go_sized l ->
  simple_call c = true -> Forall (fun r => plain_route r = true) (GRPCListener_Routes l) ->
  effective_route l c = Some (i, r) -> Route_Backends r !! j = Some b ->
  exists config x cn,
    serves_listener (listenerName ns name) (Some n) l config /\
    xds_route config (listenerName ns name) c = Some (i, x) /\
    weighted_names x !! j = Some (cn, Backend_Weight b) /\
    serves_cluster cn (Some n) (makeCluster cn b) /\
    cluster.EdsClusterConfig_ServiceName
      (cluster.Cluster_EdsClusterConfig (makeCluster cn b)) = cn /\
    (forall found, backend_found (Some n) l b found ->
       exists cla, serves_endpoints cn (Some n) cla /\
         endpointv3.ClusterLoadAssignment_ClusterName cla = cn /\
         served_addresses cla ≡ₚ found_addresses found) /\
    ((forall found, ~ backend_found (Some n) l b found) ->
       is_ok (endpointHandler_resolveResource (one_name EndpointType cn (Some n))) = false).
Proof.
  intros Hlister Hany Hwire Hns Hget Hok Hsize Hc Hplain Hroute Hb.
  pose proof (is_segment_no_slash ns Hns) as Hslash.
  destruct (lister_Get_object ns name l Hslash Hget) as (<- & <- & [_ Hname]).
  destruct (listener_served _ _ l (Some n) Hany Hwire Hslash Hget Hok) as (config & Hconfig & Hl).
  pose proof (routes_alike _ l config c Hconfig Hc Hplain) as Halike. rewrite Hroute in Halike.
  destruct Halike as (x & Hx & Hnames & _).
  assert (GRPCListener_Routes l !! i = Some r) as Hr by by apply list_find_Some in Hroute as [? _].
  destruct (go_sized_ids l i r j b Hsize Hr Hb) as [Hi Hj].
  pose proof (lookupBackend_backendName _ _ l i j r b Hns Hname Hget Hr Hb Hi Hj) as Hlookup.
  exists config, x, (backendName (GRPCListener_Namespace l) (GRPCListener_Name l)
    (Z.of_nat i) (Z.of_nat j)).
  split; [done|]. split; [done|].
  split; [by rewrite Hnames, list_lookup_imap, Hb|].
  split; [by eapply cluster_served|]. split; [done|]. split.
  - intros found Hfound. by destruct (endpoints_served _ _ _ _ n found Hwire Hlookup Hfound)
      as (cla & ? & ? & ?); exists cla.
  - intros Hnone. apply not_true_is_false.
    rewrite (endpointHandler_one_is_ok _ _ _ _ (Some n) Hwire Hlookup).
    intros [found Hfound]. by apply (Hnone found).
Qed.
End end_to_end.

(** ** Witnesses *)

Local Existing Instance sample_xds.
Local Existing Instance ascii_tables.
Local Existing Instance sample_lister.
Local Existing Instance sample_slices.
Local Existing Instance sample_client.

Lemma call_reaches_ready_endpoints_witness :
  exists cn cla, serves_endpoints cn (Some (sample_node "Zone-B")) cla /\
    served_addresses cla ≡ₚ found_addresses [(sample_service, [sample_slice])] /\
    served_addresses cla <> [].
Proof.
  destruct (@call_reaches_ready_endpoints sample_xds sample_denominators ascii_tables
    sample_lister sample_slices sample_client "default" "test-xds" sample_listener
    (sample_node "Zone-B") (sample_call "EchoPremium") 0 (sample_route (Some sample_method)) 1
    sample_backend sample_lister_laws sample_marshalling sample_wire
    eq_refl eq_refl sample_listener_ok) as (config & x & cn & _ & Hx & Hcn & _ & _ & He & _);
    try reflexivity.
  - split; [by vm_compute|]. by repeat constructor; vm_compute.
  - apply Forall_forall. intros r Hr. cbn in Hr.
    repeat (apply elem_of_cons in Hr as [->|Hr]; [reflexivity|]). by apply elem_of_nil in Hr.
  - destruct (He [(sample_service, [sample_slice])]) as (cla & Hcla & _ & Ha).
    { split; [discriminate|]. split; [|by eexists]. repeat constructor. by exists 3333%Z. }
    exists cn, cla. split; [exact Hcla|]. split; [exact Ha|]. intros Hnil. rewrite Hnil in Ha.
    apply Permutation_nil_l in Ha. vm_compute in Ha. discriminate Ha.
Defined.
