(* ===== verification/Watches.v ===== *)
(** The registry of watches: [gtc/watcher.go].

    [watches] maps a resource to a [resourceWatchers] object, which holds the
    set of watchers subscribed to it; a watcher remembers the resources it
    subscribed to. The objects are shared through pointers, so the model has a
    heap of [resourceWatchers] and a heap of watchers.

    Every function is made of blocks that run under one mutex. The blocks are
    separate definitions: composed here they give the sequential functions,
    interleaved in the file [ConfigWatcher] they give the concurrent ones. *)

From S2P Require Import Prelude GoStrings.

Record resourceRef := {
  resourceRef_typeURL : string;
  resourceRef_resourceName : string
}.

Global Instance resourceRef_eq_dec : EqDecision resourceRef.
Proof. solve_decision. Defined.

Global Program Instance resourceRef_countable : Countable resourceRef :=
  inj_countable' (fun r => (resourceRef_typeURL r, resourceRef_resourceName r))
    (fun p => {| resourceRef_typeURL := p.1; resourceRef_resourceName := p.2 |}) _.
Next Obligation. by intros []. Qed.

(** Pointers to watchers and to [resourceWatchers] objects. *)
Definition watcherPtr := nat.
Definition rwPtr := nat.

Record watcher := {
  watcher_done : bool;                           (* the channel [done] is closed *)
  watcher_watchedResources : gset resourceRef
}.

(** The [watches] object with the objects reachable from it. *)
Record watches := {
  watches_watchers : gmap resourceRef rwPtr;
  watches_rws : gmap rwPtr (gset watcherPtr);
  watches_ws : gmap watcherPtr watcher
}.

Definition newWatches : watches :=
  {| watches_watchers := ∅; watches_rws := ∅; watches_ws := ∅ |}.

(** ** Blocks *)

(** [func (w *watches) getResourceWatchers]: the read-locked lookup. *)
Definition getResourceWatchers (ref : resourceRef) (st : watches) : option rwPtr :=
  watches_watchers st !! ref.

(** The locked part of [getOrCreateResourceWatchers]: it looks again before it
    creates an object. *)
Definition createResourceWatchers (ref : resourceRef) (st : watches) : rwPtr * watches :=
  match watches_watchers st !! ref with
  | Some rw => (rw, st)
  | None =>
      let rw := fresh (dom (watches_rws st)) in
      (rw, {| watches_watchers := <[ref := rw]> (watches_watchers st);
              watches_rws := <[rw := ∅]> (watches_rws st);
              watches_ws := watches_ws st |})
  end.

(** The watchers of a [resourceWatchers] object. *)
Definition rw_watchers (rw : rwPtr) (st : watches) : gset watcherPtr :=
  default ∅ (watches_rws st !! rw).

Definition rw_update (f : gset watcherPtr -> gset watcherPtr) (rw : rwPtr) (st : watches) : watches :=
  {| watches_watchers := watches_watchers st;
     watches_rws := <[rw := f (rw_watchers rw st)]> (watches_rws st);
     watches_ws := watches_ws st |}.

(** The locked writes of [resourceWatchers.watch] and [stopWatch]. *)
Definition rw_add (w : watcherPtr) : rwPtr -> watches -> watches := rw_update (fun s => {[w]} ∪ s).
Definition rw_del (w : watcherPtr) : rwPtr -> watches -> watches := rw_update (fun s => s ∖ {[w]}).

Definition ws_update (f : watcher -> watcher) (w : watcherPtr) (st : watches) : watches :=
  {| watches_watchers := watches_watchers st;
     watches_rws := watches_rws st;
     watches_ws := alter f w (watches_ws st) |}.

(** The write [w.watchedResources[ref] = struct{}{}]. *)
Definition recordWatched (w : watcherPtr) (ref : resourceRef) : watches -> watches :=
  ws_update (fun x => {| watcher_done := watcher_done x;
                         watcher_watchedResources := {[ref]} ∪ watcher_watchedResources x |}) w.

(** [close(newWatcher.done)], which panics on a closed channel. *)
Definition closeDone {E} (w : watcherPtr) (st : watches) : outcome E watches :=
  if default false (watcher_done <$> watches_ws st !! w)
  then Panic (PanicValue "close of closed channel")
  else Ok (ws_update (fun x => {| watcher_done := true;
                                  watcher_watchedResources := watcher_watchedResources x |}) w st).

(** ** The functions of watcher.go *)

Definition getOrCreateResourceWatchers (ref : resourceRef) (st : watches) : rwPtr * watches :=
  match getResourceWatchers ref st with
  | Some rw => (rw, st)
  | None => createResourceWatchers ref st
  end.

(** [func (rw *resourceWatchers) watch] *)
Definition resourceWatchers_watch (rw : rwPtr) (w : watcherPtr) (st : watches) : watches :=
  if decide (w ∈ rw_watchers rw st) then st else rw_add w rw st.

(** [func (rw *resourceWatchers) stopWatch] *)
Definition resourceWatchers_stopWatch (rw : rwPtr) (w : watcherPtr) (st : watches) : watches :=
  if decide (w ∈ rw_watchers rw st) then rw_del w rw st else st.

(** [func (w *watcher) watch] *)
Definition watcher_watch (w : watcherPtr) (ref : resourceRef) (st : watches) : watches :=
  let '(rw, st') := getOrCreateResourceWatchers ref st in
  recordWatched w ref (resourceWatchers_watch rw w st').

(** [func (w *watches) buildWatch], without the cleanup function. *)
Definition buildWatch (st : watches) : watcherPtr * watches :=
  let w := fresh (dom (watches_ws st)) in
  (w, {| watches_watchers := watches_watchers st;
         watches_rws := watches_rws st;
         watches_ws := <[w := {| watcher_done := false; watcher_watchedResources := ∅ |}]>
                         (watches_ws st) |}).

Definition watchedResources (w : watcherPtr) (st : watches) : gset resourceRef :=
  default ∅ (watcher_watchedResources <$> watches_ws st !! w).

Definition stopOne (wa : watcherPtr) (ref : resourceRef) (st : watches) : watches :=
  match getResourceWatchers ref st with
  | None => st
  | Some rw => resourceWatchers_stopWatch rw wa st
  end.

(** [func (w *watches) stopAllWatches]. Go ranges over the map in any order;
    [stopAll_subscribers] below holds for every order. *)
Definition stopAllWatches (wa : watcherPtr) (st : watches) : watches :=
  foldr (stopOne wa) st (elements (watchedResources wa st)).

(** The cleanup function that [buildWatch] returns. *)
Definition releaseWatch {E} (w : watcherPtr) (st : watches) : outcome E watches :=
  closeDone w (stopAllWatches w st).

(** [func (rw *resourceWatchers) notifyChanged]: one goroutine per watcher, each
    delivering [ref]. *)
Definition resourceWatchers_notifyChanged (rw : rwPtr) (ref : resourceRef) (st : watches)
  : list (watcherPtr * resourceRef) :=
  (fun w => (w, ref)) <$> elements (rw_watchers rw st).

(** [func (w *watches) notifyChanged] *)
Definition watches_notifyChanged (ref : resourceRef) (st : watches)
  : list (watcherPtr * resourceRef) :=
  match getResourceWatchers ref st with
  | None => []
  | Some rw => resourceWatchers_notifyChanged rw ref st
  end.

(** ** Specification: a publish/subscribe table *)

(** The watchers subscribed to a resource. *)
Definition subscribers (st : watches) (ref : resourceRef) : gset watcherPtr :=
  match watches_watchers st !! ref with
  | Some rw => rw_watchers rw st
  | None => ∅
  end.

(** Every resource has its own allocated [resourceWatchers] object. *)
Record wf (st : watches) : Prop := {
  wf_alloc ref rw : watches_watchers st !! ref = Some rw -> is_Some (watches_rws st !! rw);
  wf_inj ref1 ref2 rw :
    watches_watchers st !! ref1 = Some rw -> watches_watchers st !! ref2 = Some rw -> ref1 = ref2
}.

(** A registry is used through the calls of its clients: a watcher is built,
    then watches, then is released, and is not used afterwards. *)
Inductive event :=
  | Built (w : watcherPtr)
  | Watched (w : watcherPtr) (ref : resourceRef)
  | Released (w : watcherPtr).

(** The watcher was built and is not released. *)
Definition open_watcher (w : watcherPtr) (st : watches) : bool :=
  negb (default true (watcher_done <$> watches_ws st !! w)).

Definition run_event (e : event) (st : watches) : option watches :=
  match e with
  | Built w => if decide (w = (buildWatch st).1) then Some (buildWatch st).2 else None
  | Watched w ref => if open_watcher w st then Some (watcher_watch w ref st) else None
  | Released w =>
      if open_watcher w st
      then match @releaseWatch Empty_set w st with Ok st' => Some st' | _ => None end
      else None
  end.

(** The histories a registry can go through, the latest event first. *)
Inductive history : list event -> watches -> Prop :=
  | history_new : history [] newWatches
  | history_step evs st e st' :
      history evs st -> run_event e st = Some st' -> history (e :: evs) st'.

(** ** Lemmas *)

Section watches_lemmas.
Implicit Types (st : watches) (ref : resourceRef) (rw : rwPtr) (w : watcherPtr).

Lemma wf_newWatches : wf newWatches.
Proof. split; intros *; cbn; rewrite lookup_empty; done. Qed.

Lemma wf_rw_update f rw st : wf st -> wf (rw_update f rw st).
Proof.
  intros [Ha Hi]. split; cbn; [|done]. intros ref rw' Hrw. rewrite lookup_insert.
  case_decide; [done|]. by eapply Ha.
Qed.

Lemma wf_ws_update f w st : wf st -> wf (ws_update f w st).
Proof. by intros [Ha Hi]. Qed.

Lemma wf_buildWatch st : wf st -> wf (buildWatch st).2.
Proof. by intros [Ha Hi]. Qed.

Lemma wf_create ref st : wf st -> wf (createResourceWatchers ref st).2.
Proof.
  intros [Ha Hi]. unfold createResourceWatchers.
  destruct (watches_watchers st !! ref) as [rw|] eqn:Hrw; [done|]. cbn.
  set (rw := fresh _). assert (rw ∉ dom (watches_rws st)) as Hfresh by apply is_fresh.
  assert (forall ref' rw', watches_watchers st !! ref' = Some rw' -> rw' <> rw) as Hne.
  { intros ref' rw' Hr ->. apply Hfresh, elem_of_dom. by eapply Ha. }
  split; cbn.
  - intros ref' rw'. rewrite !lookup_insert. repeat case_decide; naive_solver.
  - intros r1 r2 rw'. rewrite !lookup_insert. repeat case_decide; naive_solver.
Qed.

Lemma create_spec ref st :
  watches_watchers (createResourceWatchers ref st).2 !! ref
    = Some (createResourceWatchers ref st).1.
Proof.
  unfold createResourceWatchers. destruct (watches_watchers st !! ref) eqn:Hrw; cbn; [done|].
  apply lookup_insert_eq.
Qed.

(** An entry of the map is never replaced. *)
Lemma create_keeps ref st ref' rw :
  watches_watchers st !! ref' = Some rw ->
  watches_watchers (createResourceWatchers ref st).2 !! ref' = Some rw.
Proof.
  intros Hr. unfold createResourceWatchers.
  destruct (watches_watchers st !! ref) eqn:Hrw; cbn; [done|].
  rewrite lookup_insert_ne by congruence. done.
Qed.

Lemma create_subscribers ref st ref' :
  wf st -> subscribers (createResourceWatchers ref st).2 ref' = subscribers st ref'.
Proof.
  intros [Ha _]. unfold subscribers, createResourceWatchers.
  destruct (watches_watchers st !! ref) eqn:Hrw; cbn; [done|].
  rewrite lookup_insert. case_decide as Heq; [subst ref'|].
  - rewrite Hrw. unfold rw_watchers. cbn. by rewrite lookup_insert_eq.
  - destruct (watches_watchers st !! ref') as [rw'|] eqn:Hrw'; [|done].
    unfold rw_watchers. cbn. rewrite lookup_insert_ne; [done|].
    intros Hfresh. pose proof (is_fresh (dom (watches_rws st))) as Hf. rewrite Hfresh in Hf.
    apply Hf, elem_of_dom. by eapply Ha.
Qed.

Lemma rw_update_subscribers f rw st ref ref' :
  wf st -> watches_watchers st !! ref = Some rw ->
  subscribers (rw_update f rw st) ref'
    = if decide (ref' = ref) then f (subscribers st ref) else subscribers st ref'.
Proof.
  intros [_ Hi] Hrw. unfold subscribers. cbn. case_decide as Heq; [subst ref'|].
  - rewrite Hrw. unfold rw_watchers at 1. cbn. by rewrite lookup_insert_eq.
  - destruct (watches_watchers st !! ref') as [rw'|] eqn:Hrw'; [|done].
    unfold rw_watchers at 1. cbn. rewrite lookup_insert_ne; [done|].
    intros ->. apply Heq. by eapply Hi.
Qed.

Lemma ws_update_subscribers f w st ref : subscribers (ws_update f w st) ref = subscribers st ref.
Proof. done. Qed.

Lemma stopOne_subscribers wa ref st ref' :
  wf st ->
  wf (stopOne wa ref st) /\
  watches_ws (stopOne wa ref st) = watches_ws st /\
  subscribers (stopOne wa ref st) ref'
    = if decide (ref' = ref) then subscribers st ref ∖ {[wa]} else subscribers st ref'.
Proof.
  intros Hwf. unfold stopOne, getResourceWatchers.
  destruct (watches_watchers st !! ref) as [rw|] eqn:Hrw.
  2: { split; [done|]. split; [done|]. case_decide; subst; [|done].
       unfold subscribers. rewrite Hrw. set_solver. }
  assert (subscribers st ref = rw_watchers rw st) as Hsub by (unfold subscribers; by rewrite Hrw).
  unfold resourceWatchers_stopWatch. case_decide as Hin.
  - split; [by apply wf_rw_update|]. split; [done|]. by apply rw_update_subscribers.
  - split; [done|]. split; [done|]. case_decide; subst; [|done]. rewrite Hsub. set_solver.
Qed.

Lemma stopAll_subscribers wa refs st ref' :
  wf st ->
  wf (foldr (stopOne wa) st refs) /\
  watches_ws (foldr (stopOne wa) st refs) = watches_ws st /\
  subscribers (foldr (stopOne wa) st refs) ref'
    = if decide (ref' ∈ refs) then subscribers st ref' ∖ {[wa]} else subscribers st ref'.
Proof.
  intros Hwf. revert ref'. induction refs as [|ref refs IH]; intros ref'; cbn.
  { split; [done|]. split; [done|]. by rewrite decide_False by set_solver. }
  destruct (IH ref') as (Hwf' & Hws & Hsub').
  destruct (stopOne_subscribers wa ref _ ref' Hwf') as (? & ? & ->).
  split; [done|]. split; [congruence|].
  destruct (IH ref) as (_ & _ & Hsub). rewrite Hsub, Hsub'.
  repeat case_decide; subst; set_solver.
Qed.
End watches_lemmas.

(** ** The registry after a history of calls *)

Section history_lemmas.
Implicit Types (st : watches) (ref : resourceRef) (rw : rwPtr) (w : watcherPtr).

Lemma getOrCreate_create ref st :
  getOrCreateResourceWatchers ref st = createResourceWatchers ref st.
Proof.
  unfold getOrCreateResourceWatchers, getResourceWatchers, createResourceWatchers.
  by destruct (watches_watchers st !! ref).
Qed.

Lemma watch_spec w ref st ref' :
  wf st ->
  wf (watcher_watch w ref st) /\
  subscribers (watcher_watch w ref st) ref'
    = (if decide (ref' = ref) then {[w]} else ∅) ∪ subscribers st ref'.
Proof.
  intros Hwf. unfold watcher_watch. rewrite getOrCreate_create.
  pose proof (wf_create ref st Hwf) as Hwf'. pose proof (create_spec ref st) as Hrw.
  pose proof (fun r => create_subscribers ref st r Hwf) as Hsub.
  destruct (createResourceWatchers ref st) as [rw st']; cbn [fst snd] in *.
  assert (subscribers st' ref = rw_watchers rw st') as Hdef by (unfold subscribers; by rewrite Hrw).
  unfold resourceWatchers_watch. rewrite <-Hsub. unfold recordWatched.
  rewrite ws_update_subscribers. case_decide as Hin.
  - split; [by apply wf_ws_update|]. case_decide; subst; [|set_solver]. set_solver.
  - split; [by apply wf_ws_update, wf_rw_update|]. unfold rw_add.
    rewrite (rw_update_subscribers _ _ _ ref ref' Hwf' Hrw). case_decide; subst; set_solver.
Qed.

Lemma watch_ws w ref st :
  watches_ws (watcher_watch w ref st)
    = alter (fun x => {| watcher_done := watcher_done x;
                         watcher_watchedResources := {[ref]} ∪ watcher_watchedResources x |}) w
        (watches_ws st).
Proof.
  unfold watcher_watch. rewrite getOrCreate_create. unfold createResourceWatchers.
  destruct (watches_watchers st !! ref); cbn; unfold resourceWatchers_watch;
    case_decide; done.
Qed.

Lemma release_spec {E} w st st' ref' :
  wf st -> @releaseWatch E w st = Ok st' ->
  wf st' /\
  watches_ws st' = alter (fun x => {| watcher_done := true;
                            watcher_watchedResources := watcher_watchedResources x |}) w
                     (watches_ws st) /\
  subscribers st' ref'
    = if decide (ref' ∈ watchedResources w st) then subscribers st ref' ∖ {[w]}
      else subscribers st ref'.
Proof.
  intros Hwf. unfold releaseWatch, closeDone, stopAllWatches.
  destruct (stopAll_subscribers w (elements (watchedResources w st)) st ref' Hwf)
    as (Hwf' & Hws & Hsub).
  destruct (default false _); [done|]. intros [= <-]. split; [by apply wf_ws_update|].
  cbn. rewrite Hws. split; [done|]. rewrite ws_update_subscribers, Hsub.
  repeat case_decide; set_solver.
Qed.

(** What a history says about a watcher. *)
Record history_inv (evs : list event) (st : watches) : Prop := {
  inv_wf : wf st;
  inv_subscribed w ref :
    w ∈ subscribers st ref <-> Watched w ref ∈ evs /\ Released w ∉ evs;
  inv_recorded w ref : ref ∈ watchedResources w st <-> Watched w ref ∈ evs;
  inv_built w : is_Some (watches_ws st !! w) <-> Built w ∈ evs;
  inv_watched w ref : Watched w ref ∈ evs -> Built w ∈ evs;
  inv_done w x : watches_ws st !! w = Some x -> (watcher_done x = true <-> Released w ∈ evs);
  inv_released w : Released w ∈ evs -> Built w ∈ evs
}.

Lemma open_watcher_spec w st :
  open_watcher w st = true <-> exists x, watches_ws st !! w = Some x /\ watcher_done x = false.
Proof.
  unfold open_watcher. destruct (watches_ws st !! w) as [[[] refs]|]; cbn; naive_solver.
Qed.

Lemma watchedResources_alter f w st st' w' :
  watches_ws st' = alter f w (watches_ws st) ->
  watchedResources w' st'
    = if decide (w = w') then default ∅ (watcher_watchedResources ∘ f <$> watches_ws st !! w)
      else watchedResources w' st.
Proof.
  intros Hws. unfold watchedResources. rewrite Hws. case_decide; subst.
  - rewrite lookup_alter_eq. by destruct (watches_ws st !! w').
  - by rewrite lookup_alter_ne by done.
Qed.
End history_lemmas.

Section history_steps.
Implicit Types (st : watches) (ref : resourceRef) (w : watcherPtr) (evs : list event).

Lemma inv_step_built evs st :
  history_inv evs st -> history_inv (Built (buildWatch st).1 :: evs) (buildWatch st).2.
Proof.
  intros [Hwf Hs Hr Hb Hw Hd Hrel]. set (w := (buildWatch st).1).
  assert (watches_ws st !! w = None) as Hnone.
  { apply not_elem_of_dom. apply is_fresh. }
  assert (Built w ∉ evs) as Hnew.
  { intros [x Hx]%Hb. congruence. }
  split.
  - by apply wf_buildWatch.
  - intros w' ref. change (subscribers (buildWatch st).2 ref) with (subscribers st ref).
    rewrite Hs, !elem_of_cons. naive_solver.
  - intros w' ref. unfold watchedResources. cbn. fold w.
    rewrite lookup_insert. case_decide as Heq; cbn.
    + subst w'. rewrite elem_of_cons. split; [set_solver|]. intros [?|?%Hw]; done.
    + rewrite elem_of_cons. rewrite <-Hr. unfold watchedResources. naive_solver.
  - intros w'. cbn. fold w. rewrite lookup_insert, elem_of_cons. case_decide; subst.
    + split; [by left|done].
    + rewrite Hb. naive_solver.
  - intros w' ref. rewrite !elem_of_cons. naive_solver.
  - intros w' x. cbn. fold w. rewrite lookup_insert, elem_of_cons. case_decide as Heq.
    + subst w'. intros [= <-]. cbn. split; [done|]. intros [?|?%Hrel]; done.
    + intros Hx. rewrite (Hd _ _ Hx). naive_solver.
  - intros w'. rewrite !elem_of_cons. naive_solver.
Qed.

Lemma inv_step_watched evs st w ref :
  history_inv evs st -> open_watcher w st = true ->
  history_inv (Watched w ref :: evs) (watcher_watch w ref st).
Proof.
  intros [Hwf Hs Hr Hb Hw Hd Hrel] (x & Hx & Hopen)%open_watcher_spec.
  assert (Released w ∉ evs) as Hnot. { rewrite <-(Hd _ _ Hx), Hopen. done. }
  assert (Built w ∈ evs) as Hbuilt by (apply Hb; eauto).
  pose proof (watch_ws w ref st) as Hws. split.
  - by apply (watch_spec w ref st ref).
  - intros w' ref'. rewrite (proj2 (watch_spec w ref st ref' Hwf)), elem_of_union, Hs.
    rewrite !elem_of_cons. case_decide; set_solver.
  - intros w' ref'. rewrite (watchedResources_alter _ _ _ _ w' Hws), elem_of_cons.
    rewrite <-Hr. case_decide; subst; [|naive_solver].
    unfold watchedResources. rewrite Hx. cbn. set_solver.
  - intros w'. rewrite Hws, elem_of_cons. destruct (decide (w = w')) as [<-|].
    + rewrite lookup_alter_eq, Hx. cbn. naive_solver.
    + rewrite lookup_alter_ne by done. rewrite Hb. naive_solver.
  - intros w' ref'. rewrite !elem_of_cons. naive_solver.
  - intros w' x'. rewrite Hws, elem_of_cons. destruct (decide (w = w')) as [<-|].
    + rewrite lookup_alter_eq, Hx. intros [= <-]. cbn. naive_solver.
    + rewrite lookup_alter_ne by done. intros Hx'. rewrite (Hd _ _ Hx'). naive_solver.
  - intros w'. rewrite !elem_of_cons. naive_solver.
Qed.

Lemma inv_step_released {E} evs st w st' :
  history_inv evs st -> open_watcher w st = true -> @releaseWatch E w st = Ok st' ->
  history_inv (Released w :: evs) st'.
Proof.
  intros [Hwf Hs Hr Hb Hw Hd Hrel] (x & Hx & Hopen)%open_watcher_spec Hst'.
  assert (Built w ∈ evs) as Hbuilt by (apply Hb; eauto).
  destruct (release_spec w st st' {| resourceRef_typeURL := ""; resourceRef_resourceName := "" |}
              Hwf Hst') as (Hwf' & Hws & _). split.
  - done.
  - intros w' ref. destruct (release_spec w st st' ref Hwf Hst') as (_ & _ & ->).
    rewrite !elem_of_cons. case_decide as Hrec.
    + rewrite elem_of_difference, elem_of_singleton, Hs. naive_solver.
    + rewrite Hs. rewrite Hr in Hrec. naive_solver.
  - intros w' ref. rewrite (watchedResources_alter _ _ _ _ w' Hws), elem_of_cons.
    rewrite <-Hr. case_decide; subst; [|naive_solver].
    unfold watchedResources. rewrite Hx. cbn. naive_solver.
  - intros w'. rewrite Hws, elem_of_cons. destruct (decide (w = w')) as [<-|].
    + rewrite lookup_alter_eq, Hx. cbn. naive_solver.
    + rewrite lookup_alter_ne by done. rewrite Hb. naive_solver.
  - intros w' ref. rewrite !elem_of_cons. naive_solver.
  - intros w' x'. rewrite Hws, elem_of_cons. destruct (decide (w = w')) as [<-|].
    + rewrite lookup_alter_eq, Hx. intros [= <-]. cbn. naive_solver.
    + rewrite lookup_alter_ne by done. intros Hx'. rewrite (Hd _ _ Hx'). naive_solver.
  - intros w'. rewrite !elem_of_cons. naive_solver.
Qed.

Lemma inv_new : history_inv [] newWatches.
Proof.
  split; [apply wf_newWatches|..]; intros *;
    unfold subscribers, watchedResources; cbn; rewrite ?lookup_empty; cbn; set_solver.
Qed.

Lemma history_invariant evs st : history evs st -> history_inv evs st.
Proof.
  induction 1 as [|evs st e st' _ IH Hrun]; [apply inv_new|].
  destruct e as [w|w ref|w]; cbn in Hrun.
  - case_decide; simplify_eq. by apply inv_step_built.
  - destruct (open_watcher w st) eqn:?; simplify_eq. by apply inv_step_watched.
  - destruct (open_watcher w st) eqn:?; [|done].
    destruct (releaseWatch w st) eqn:?; simplify_eq. by eapply inv_step_released.
Qed.

(** A watcher that is still open can be released: [done] is closed once. *)
Lemma release_total {E} w st :
  wf st -> open_watcher w st = true -> exists st', @releaseWatch E w st = Ok st'.
Proof.
  intros Hwf (x & Hx & Hopen)%open_watcher_spec. unfold releaseWatch, closeDone, stopAllWatches.
  set (ref := {| resourceRef_typeURL := ""; resourceRef_resourceName := "" |}).
  destruct (stopAll_subscribers w (elements (watchedResources w st)) st ref Hwf)
    as (_ & -> & _).
  rewrite Hx. cbn. rewrite Hopen. eauto.
Qed.

Lemma notifyChanged_spec ref st :
  NoDup (watches_notifyChanged ref st) /\
  forall w ref', (w, ref') ∈ watches_notifyChanged ref st <-> ref' = ref /\ w ∈ subscribers st ref.
Proof.
  unfold watches_notifyChanged, getResourceWatchers, subscribers.
  destruct (watches_watchers st !! ref) as [rw|]; [|split; [constructor|set_solver]].
  unfold resourceWatchers_notifyChanged. split.
  - apply NoDup_fmap_2; [by intros ?? [= ->]|]. apply NoDup_elements.
  - intros w ref'. rewrite list_elem_of_fmap. setoid_rewrite elem_of_elements. naive_solver.
Qed.
End history_steps.

(** C11: the registry is a publish/subscribe table. After any history of
    builds, watches and releases, notifying a resource starts exactly one
    delivery, of that resource, for each watcher that watched it and was not
    released, and none for anybody else; whatever a watcher watched, it can be
    released without a panic as long as it was not released before. *)
Theorem registry_refines_pubsub evs st :
  history evs st ->
  (forall ref, NoDup (watches_notifyChanged ref st)) /\
  (forall ref w ref',
     (w, ref') ∈ watches_notifyChanged ref st <->
     ref' = ref /\ Watched w ref ∈ evs /\ Released w ∉ evs) /\
  (forall w, Built w ∈ evs -> Released w ∉ evs ->
     exists st', @releaseWatch Empty_set w st = Ok st').
Proof.
  intros [Hwf Hs Hr Hb Hw Hd Hrel]%history_invariant. split_and!.
  - intros ref. apply notifyChanged_spec.
  - intros ref w ref'. rewrite (proj2 (notifyChanged_spec ref st)), Hs. done.
  - intros w [x Hx]%Hb Hnot. apply release_total; [done|]. apply open_watcher_spec.
    exists x. split; [done|]. apply not_true_is_false. by rewrite (Hd _ _ Hx).
Qed.

Definition sample_resource : resourceRef :=
  {| resourceRef_typeURL := "type"; resourceRef_resourceName := "default/listener" |}.

(** Two watchers of the same resource, the first one released. *)
Definition sample_events : list event :=
  [Released 0; Watched 1 sample_resource; Watched 0 sample_resource; Built 1; Built 0].

Definition run_events (evs : list event) : option watches :=
  foldr (fun e st => st ≫= run_event e) (Some newWatches) evs.

Lemma run_events_history evs st : run_events evs = Some st -> history evs st.
Proof.
  revert st. induction evs as [|e evs IH]; intros st; cbn; [intros [= <-]; constructor|].
  intros (st0 & H0 & He)%bind_Some. econstructor; eauto.
Qed.

Lemma registry_refines_pubsub_witness : exists st, history sample_events st /\
  watches_notifyChanged sample_resource st = [(1, sample_resource)] /\
  (forall w ref', (w, ref') ∈ watches_notifyChanged sample_resource st <->
     ref' = sample_resource /\ Watched w sample_resource ∈ sample_events /\
     Released w ∉ sample_events).
Proof.
  destruct (run_events sample_events) as [st|] eqn:Hrun; [|vm_compute in Hrun; discriminate].
  exists st. pose proof (run_events_history _ _ Hrun) as Hh. split; [exact Hh|]. split.
  - vm_compute in Hrun. injection Hrun as <-. vm_compute. reflexivity.
  - exact (proj1 (proj2 (registry_refines_pubsub sample_events st Hh)) sample_resource).
Defined.
