(* ===== verification/Notify.v ===== *)
(** The event handlers that turn changes of Kubernetes objects into
    notifications: [gtc/notify.go].

    A handler calls [watches.notifyChanged] a number of times and then returns,
    fails or panics. The calls made so far are kept whatever happens next, so
    its model is a writer over [M]: the resources notified, in order, and the
    outcome. *)

From S2P Require Import Prelude GoStrings GoPath GoStrconv Api Errors Xds ResourceName Interceptors Routes Resolver K8s Listers ListenerHandler ClusterHandler EndpointHandler Watches.

(** ** Computations that notify *)

Definition N (A : Type) : Type := list resourceRef * M A.

Global Instance N_ret : MRet N := fun A a => ([], Ok a).
Global Instance N_bind : MBind N := fun A B f m =>
  match m with
  | (refs, Ok a) => let '(refs', r) := f a in (refs ++ refs', r)
  | (refs, Err e) => (refs, Err e)
  | (refs, Panic p) => (refs, Panic p)
  end.

(** A call that does not notify. *)
Definition lift {A} (m : M A) : N A := ([], m).

(** The call [h.watches.notifyChanged(ctx, ref)]. *)
Definition notify (ref : resourceRef) : N unit := ([ref], Ok tt).

(** [for i, x := range l { f(i, x) }] *)
Fixpoint iforN_from {A} (n : nat) (f : nat -> A -> N unit) (l : list A) : N unit :=
  match l with
  | [] => mret tt
  | x :: l' => f n x ≫= fun _ => iforN_from (S n) f l'
  end.

Definition iforN {A} (f : nat -> A -> N unit) (l : list A) : N unit := iforN_from 0 f l.

(** [apimeta.Accessor] of apimachinery. *)
Class MetaAccessor := apimeta_Accessor : object -> M ObjectMeta.

(** It returns the metadata of API objects, and an error on anything else. *)
Class MetaAccessorLaws `{MetaAccessor} : Prop := {
  Accessor_slice s : apimeta_Accessor (ObjEndpointSlice s) = Ok (EndpointSlice_ObjectMeta s);
  Accessor_tombstone k :
    exists e, apimeta_Accessor (ObjDeletedFinalStateUnknown k) = Err e
}.

Section notify.
Context `{XdsLibrary, GRPCListenerLister, MetaAccessor}.

(** ** grpcListenerChangedHandler *)

(** The body of the loops over the backends of a listener. *)
Definition backendRefOf (typeURL : string) (lis : GRPCListener) (routeID backendID : nat)
  : resourceRef :=
  {| resourceRef_typeURL := typeURL;
     resourceRef_resourceName :=
       backendName (GRPCListener_Namespace lis) (GRPCListener_Name lis)
         (Z.of_nat routeID) (Z.of_nat backendID) |}.

(** [func (h *grpcListenerChangedHandler) handle] *)
Definition grpcListenerChangedHandler_handle (obj : object) : N unit :=
  match obj with
  | ObjGRPCListener lis =>
      notify {| resourceRef_typeURL := ListenerType;
                resourceRef_resourceName :=
                  listenerName (GRPCListener_Namespace lis) (GRPCListener_Name lis) |} ≫= fun _ =>
      iforN (fun routeID route =>
        iforN (fun backendID _ =>
          notify (backendRefOf ClusterType lis routeID backendID) ≫= fun _ =>
          notify (backendRefOf EndpointType lis routeID backendID))
          (Route_Backends route)) (GRPCListener_Routes lis)
  | _ => mret tt
  end.

Definition grpcListenerChangedHandler_OnAdd (obj : object) : N unit :=
  grpcListenerChangedHandler_handle obj.
Definition grpcListenerChangedHandler_OnUpdate (oldObj newObj : object) : N unit :=
  grpcListenerChangedHandler_handle newObj.
Definition grpcListenerChangedHandler_OnDelete (obj : object) : N unit :=
  grpcListenerChangedHandler_handle obj.

(** ** endpointSliceChangedHandler *)

(** [func matchesService]; the reference is a pointer, read without a check. *)
Definition matchesService (epSlice : ObjectMeta) (listener : GRPCListener)
    (serviceRef : option ServiceRef) : M bool :=
  ref ← deref serviceRef;
  if decide (label epSlice serviceNameLabel <> ServiceRef_Name ref) then Ok false
  else Ok (bool_decide (GRPCListener_Namespace listener = ObjectMeta_Namespace epSlice)
           || (bool_decide (ServiceRef_Namespace ref <> "")
               && bool_decide (ServiceRef_Namespace ref = ObjectMeta_Namespace epSlice))).

(** The loop of [matchesBackend] over the localities. *)
Fixpoint matchesLocalities (epSlice : ObjectMeta) (listener : GRPCListener)
    (locs : list Locality) : M bool :=
  match locs with
  | [] => Ok false
  | loc :: locs' =>
      b ← matchesService epSlice listener (Locality_Service loc);
      if (b : bool) then Ok true else matchesLocalities epSlice listener locs'
  end.

(** [func matchesBackend] *)
Definition matchesBackend (epSlice : ObjectMeta) (listener : GRPCListener) (backend : Backend)
  : M bool :=
  match Backend_Service backend with
  | Some s => matchesService epSlice listener (Some s)
  | None =>
      if decide (0 < length (Backend_Localities backend))
      then matchesLocalities epSlice listener (Backend_Localities backend)
      else Ok false
  end.

(** The loops over the routes and backends of a listener. *)
Definition notifyMatching (objMeta : ObjectMeta) (lis : GRPCListener) : N unit :=
  iforN (fun routeID route =>
    iforN (fun backendID backend =>
      lift (matchesBackend objMeta lis backend) ≫= fun b =>
      if (b : bool) then notify (backendRefOf EndpointType lis routeID backendID) else mret tt)
      (Route_Backends route)) (GRPCListener_Routes lis).

(** [func (h *endpointSliceChangedHandler) handle] *)
Definition endpointSliceChangedHandler_handle (obj : object) : N unit :=
  lift (apimeta_Accessor obj) ≫= fun objMeta =>
  lift (lister_List labels_Everything) ≫= fun listeners =>
  iforN (fun _ lis => notifyMatching objMeta lis) listeners.

Definition endpointSliceChangedHandler_OnAdd (obj : object) : N unit :=
  endpointSliceChangedHandler_handle obj.
Definition endpointSliceChangedHandler_OnUpdate (oldObj newObj : object) : N unit :=
  endpointSliceChangedHandler_handle newObj.
Definition endpointSliceChangedHandler_OnDelete (obj : object) : N unit :=
  endpointSliceChangedHandler_handle obj.
End notify.

(** ** Specification *)

(** Every service reference of the listener is set. *)
Definition services_set (l : GRPCListener) : Prop :=
  forall i r j b, GRPCListener_Routes l !! i = Some r -> Route_Backends r !! j = Some b ->
    Forall is_Some (backend_services b).

(** The slice is one of the service, or one of a service of the same name in
    the namespace of the listener. *)
Definition slice_relevant (m : ObjectMeta) (l : GRPCListener) (ref : ServiceRef) : Prop :=
  label m serviceNameLabel = ServiceRef_Name ref /\
  (ObjectMeta_Namespace m = serviceNamespace ref l \/
   ObjectMeta_Namespace m = GRPCListener_Namespace l).

(** ** Lemmas *)

Section iforN_lemmas.
Context {A : Type}.
Implicit Types (f : nat -> A -> N unit) (l : list A).

(** When no iteration fails the loop notifies what the iterations notify. *)
Lemma iforN_from_refs n f l :
  (forall i x, l !! i = Some x -> (f (n + i) x).2 = Ok tt) ->
  iforN_from n f l = (mjoin (imap (fun i x => (f (n + i) x).1) l), Ok tt).
Proof.
  revert n. induction l as [|x l IH]; intros n Hok; [done|]. cbn.
  pose proof (Hok 0 x eq_refl) as H0. rewrite Nat.add_0_r in H0 |- *.
  destruct (f n x) as [refs o]; cbn in H0 |- *; subst o.
  rewrite IH.
  - do 3 f_equal. apply imap_ext. intros i y _. cbn. by rewrite <-Nat.add_succ_comm.
  - intros i y Hi. rewrite Nat.add_succ_comm. by apply (Hok (S i)).
Qed.

Lemma iforN_refs f l :
  (forall i x, l !! i = Some x -> (f i x).2 = Ok tt) ->
  (iforN f l).2 = Ok tt /\
  forall ref, ref ∈ (iforN f l).1 <-> exists i x, l !! i = Some x /\ ref ∈ (f i x).1.
Proof.
  intros Hok. unfold iforN. rewrite (iforN_from_refs 0 f l Hok). split; [done|]. cbn.
  intros ref. rewrite list_elem_of_join. split.
  - intros (refs & Hr & (i & x & -> & Hi)%elem_of_lookup_imap). eauto.
  - intros (i & x & Hi & Hr). exists ((f i x).1). split; [done|].
    apply elem_of_lookup_imap. eauto.
Qed.
End iforN_lemmas.

Section notify_lemmas.
Context `{XdsLibrary, UnicodeTables, GRPCListenerLister, MetaAccessor}.

Lemma handle_listener_refs l :
  (grpcListenerChangedHandler_handle (ObjGRPCListener l)).2 = Ok tt /\
  forall ref, ref ∈ (grpcListenerChangedHandler_handle (ObjGRPCListener l)).1 <->
    ref = {| resourceRef_typeURL := ListenerType;
             resourceRef_resourceName :=
               listenerName (GRPCListener_Namespace l) (GRPCListener_Name l) |} \/
    exists i r j b, GRPCListener_Routes l !! i = Some r /\ Route_Backends r !! j = Some b /\
      (ref = backendRefOf ClusterType l i j \/ ref = backendRefOf EndpointType l i j).
Proof.
  unfold grpcListenerChangedHandler_handle.
  set (g := fun routeID route => iforN (fun backendID (_ : Backend) =>
          notify (backendRefOf ClusterType l routeID backendID) ≫= fun _ =>
          notify (backendRefOf EndpointType l routeID backendID)) (Route_Backends route)).
  assert (forall i r, (g i r).2 = Ok tt /\
    forall ref, ref ∈ (g i r).1 <-> exists j b, Route_Backends r !! j = Some b /\
      (ref = backendRefOf ClusterType l i j \/ ref = backendRefOf EndpointType l i j)) as Hg.
  { intros i r. destruct (iforN_refs (fun backendID (_ : Backend) =>
          notify (backendRefOf ClusterType l i backendID) ≫= fun _ =>
          notify (backendRefOf EndpointType l i backendID)) (Route_Backends r)) as [Hok Hr];
      [done|]. split; [exact Hok|].
    intros ref. etransitivity; [exact (Hr ref)|]. cbn. setoid_rewrite elem_of_cons.
    by setoid_rewrite list_elem_of_singleton. }
  destruct (iforN_refs g (GRPCListener_Routes l)) as [Hok Hr]; [intros; apply Hg|].
  cbn. destruct (iforN g (GRPCListener_Routes l)) as [refs o]; cbn in *. split; [done|].
  intros ref. rewrite elem_of_cons, Hr. setoid_rewrite (fun i r => proj2 (Hg i r) ref).
  naive_solver.
Qed.

Lemma matchesService_Some m l ref :
  exists b, matchesService m l (Some ref) = Ok b /\ (b = true <-> slice_relevant m l ref).
Proof.
  unfold matchesService, slice_relevant, serviceNamespace. cbn [deref mbind outcome_bind].
  case_decide as Hl; [eexists; split; [done|]; naive_solver|]. eexists. split; [done|].
  rewrite orb_true_iff, andb_true_iff, !bool_decide_eq_true.
  case_decide; naive_solver.
Qed.

Lemma matchesLocalities_set m l locs :
  Forall (fun loc => is_Some (Locality_Service loc)) locs ->
  exists b, matchesLocalities m l locs = Ok b /\
    (b = true <-> exists loc ref, loc ∈ locs /\ Locality_Service loc = Some ref /\
                                  slice_relevant m l ref).
Proof.
  induction 1 as [|loc locs [ref Href] _ (b' & IH & Hb')]; cbn [matchesLocalities].
  { exists false. split; [done|]. split; [done|]. by intros (? & ? & ?%elem_of_nil & _). }
  rewrite Href. destruct (matchesService_Some m l ref) as (b & -> & Hb).
  cbn [mbind outcome_bind]. destruct b.
  - exists true. split; [done|]. split; [|done]. intros _. exists loc, ref.
    split; [left|]. split; [done|]. by apply Hb.
  - exists b'. split; [done|]. rewrite Hb'. setoid_rewrite elem_of_cons. naive_solver.
Qed.

Lemma matchesBackend_set m l b :
  Forall is_Some (backend_services b) ->
  exists x, matchesBackend m l b = Ok x /\
    (x = true <-> exists ref, Some ref ∈ backend_services b /\ slice_relevant m l ref).
Proof.
  unfold matchesBackend, backend_services. destruct (Backend_Service b) as [s|].
  - intros _. destruct (matchesService_Some m l s) as (x & Hx & Hiff). exists x.
    split; [done|]. rewrite Hiff. setoid_rewrite list_elem_of_singleton. naive_solver.
  - rewrite Forall_fmap. intros Hset.
    destruct (matchesLocalities_set m l _ Hset) as (x & Hx & Hiff).
    setoid_rewrite list_elem_of_fmap. case_decide as Hlen.
    + exists x. split; [done|]. rewrite Hiff. naive_solver.
    + exists false. split; [done|]. split; [done|].
      destruct (Backend_Localities b); [|cbn in Hlen; lia].
      by intros (? & (? & _ & ?%elem_of_nil) & _).
Qed.

Lemma notifyMatching_refs m l :
  services_set l ->
  (notifyMatching m l).2 = Ok tt /\
  forall ref, ref ∈ (notifyMatching m l).1 <->
    exists i r j b svc, GRPCListener_Routes l !! i = Some r /\ Route_Backends r !! j = Some b /\
      Some svc ∈ backend_services b /\ slice_relevant m l svc /\
      ref = backendRefOf EndpointType l i j.
Proof.
  intros Hset. unfold notifyMatching.
  set (h := fun i j b => lift (matchesBackend m l b) ≫= fun x =>
    if (x : bool) then notify (backendRefOf EndpointType l i j) else mret tt).
  assert (forall i r j b, GRPCListener_Routes l !! i = Some r -> Route_Backends r !! j = Some b ->
    (h i j b).2 = Ok tt /\ forall ref, ref ∈ (h i j b).1 <->
      exists svc, Some svc ∈ backend_services b /\ slice_relevant m l svc /\
        ref = backendRefOf EndpointType l i j) as Hh.
  { intros i r j b Hi Hj. unfold h.
    destruct (matchesBackend_set m l b (Hset i r j b Hi Hj)) as (x & -> & Hx). cbn.
    destruct x; cbn; (split; [done|]); intros ref.
    - rewrite list_elem_of_singleton. naive_solver.
    - rewrite elem_of_nil. naive_solver. }
  assert (forall i r, GRPCListener_Routes l !! i = Some r ->
    (iforN (h i) (Route_Backends r)).2 = Ok tt /\
    forall ref, ref ∈ (iforN (h i) (Route_Backends r)).1 <->
      exists j b svc, Route_Backends r !! j = Some b /\
        Some svc ∈ backend_services b /\ slice_relevant m l svc /\
        ref = backendRefOf EndpointType l i j) as Hr.
  { intros i r Hi. destruct (iforN_refs (h i) (Route_Backends r)) as [Hok Href].
    { intros j b Hj. by apply (Hh i r j b). }
    split; [done|]. intros ref. rewrite Href. split.
    - intros (j & b & Hj & Hin). apply (Hh i r j b Hi Hj) in Hin. naive_solver.
    - intros (j & b & svc & Hj & ?). exists j, b. split; [done|].
      apply (Hh i r j b Hi Hj). naive_solver. }
  destruct (iforN_refs (fun i r => iforN (h i) (Route_Backends r)) (GRPCListener_Routes l))
    as [Hok Href]; [intros i r Hi; by apply Hr|].
  split; [exact Hok|]. intros ref. etransitivity; [exact (Href ref)|]. split.
  - intros (i & r & Hi & Hin). apply (Hr i r Hi) in Hin. naive_solver.
  - intros (i & r & j & b & svc & Hi & ?). exists i, r. split; [done|].
    apply (Hr i r Hi). naive_solver.
Qed.

Lemma handle_slice_refs `{!MetaAccessorLaws} s ls :
  lister_List labels_Everything = Ok ls -> Forall services_set ls ->
  (endpointSliceChangedHandler_handle (ObjEndpointSlice s)).2 = Ok tt /\
  forall ref, ref ∈ (endpointSliceChangedHandler_handle (ObjEndpointSlice s)).1 <->
    exists l i r j b svc, l ∈ ls /\
      GRPCListener_Routes l !! i = Some r /\ Route_Backends r !! j = Some b /\
      Some svc ∈ backend_services b /\ slice_relevant (EndpointSlice_ObjectMeta s) l svc /\
      ref = backendRefOf EndpointType l i j.
Proof.
  intros Hls Hset. unfold endpointSliceChangedHandler_handle.
  rewrite Accessor_slice, Hls. cbn. set (m := EndpointSlice_ObjectMeta s).
  destruct (iforN_refs (fun _ l => notifyMatching m l) ls) as [Hok Href].
  { intros i l Hi. apply notifyMatching_refs. by eapply Forall_lookup_1. }
  destruct (iforN (fun _ l => notifyMatching m l) ls) as [refs o]; cbn in *. split; [done|].
  intros ref. rewrite Href. split.
  - intros (k & l & Hk & Hin). pose proof (Forall_lookup_1 _ _ _ _ Hset Hk) as Hl.
    apply (notifyMatching_refs m l Hl) in Hin as (i & r & j & b & svc & ?).
    exists l, i, r, j, b, svc. split; [by eapply list_elem_of_lookup_2|done].
  - intros (l & i & r & j & b & svc & [k Hk]%list_elem_of_lookup & ?).
    exists k, l. split; [done|]. apply notifyMatching_refs; [by eapply Forall_lookup_1|].
    naive_solver.
Qed.

(** A slice listed for a service carries its name and lies in its namespace. *)
Lemma listed_relevant `{EndpointSliceLister, !EndpointSliceListerLaws} svc l slices s :
  listServiceSlices svc l = Ok slices -> s ∈ slices ->
  label (EndpointSlice_ObjectMeta s) serviceNameLabel = ServiceRef_Name svc /\
  ObjectMeta_Namespace (EndpointSlice_ObjectMeta s) = serviceNamespace svc l.
Proof.
  unfold listServiceSlices. intros (req & Hreq & Hlist)%bind_Ok Hs.
  by destruct (slices_List_selected _ _ _ _ _ _ Hreq Hlist Hs).
Qed.
End notify_lemmas.

(** ** Properties *)

Section notify_properties.
Context `{XdsLibrary, UnicodeTables, GRPCListenerLister, EndpointSliceLister, MetaAccessor}.

(** C16: what a changed listener notifies. The handler returns normally and the
    resources it notifies are the listener itself, and, for every cluster name
    in the route configuration built from it, the cluster and the load
    assignment of that name; nothing else. An object that is not a listener
    notifies nothing. *)
Theorem listener_change_notifications name l config :
  makeRouteConfig name l = Ok config ->
  (grpcListenerChangedHandler_handle (ObjGRPCListener l)).2 = Ok tt /\
  (forall ref, ref ∈ (grpcListenerChangedHandler_handle (ObjGRPCListener l)).1 <->
    ref = {| resourceRef_typeURL := ListenerType;
             resourceRef_resourceName :=
               listenerName (GRPCListener_Namespace l) (GRPCListener_Name l) |} \/
    ((resourceRef_typeURL ref = ClusterType \/ resourceRef_typeURL ref = EndpointType) /\
     resourceRef_resourceName ref ∈ config_clusters config)) /\
  forall k, grpcListenerChangedHandler_handle (ObjDeletedFinalStateUnknown k) = ([], Ok tt).
Proof.
  intros Hconfig. destruct (handle_listener_refs l) as [Hok Hrefs].
  split; [done|]. split; [|done]. intros ref. rewrite Hrefs. apply or_iff_compat_l.
  rewrite (config_clusters_spec _ _ _ _ Hconfig). destruct ref as [t n]; cbn.
  unfold backendRefOf. naive_solver.
Qed.

(** C15: what a changed endpoint slice notifies. When the listeners can be listed
    and every service reference of them is set, the handler returns normally and
    notifies exactly the load assignments of the backends that name a service
    with the name in the slice's label, where the slice lies in the namespace of
    the service, or else in that of the listener (also when the reference has
    another namespace of its own). So no backend is missed: every backend for
    which the endpoint handler lists the slice is notified. An object without
    metadata, such as the tombstone of a missed deletion, fails and notifies
    nothing. *)
Theorem slice_change_notifications s ls :
  MetaAccessorLaws -> EndpointSliceListerLaws ->
  lister_List labels_Everything = Ok ls -> Forall services_set ls ->
  (endpointSliceChangedHandler_handle (ObjEndpointSlice s)).2 = Ok tt /\
  (forall ref, ref ∈ (endpointSliceChangedHandler_handle (ObjEndpointSlice s)).1 <->
    exists l i r j b svc, l ∈ ls /\
      GRPCListener_Routes l !! i = Some r /\ Route_Backends r !! j = Some b /\
      Some svc ∈ backend_services b /\ slice_relevant (EndpointSlice_ObjectMeta s) l svc /\
      ref = backendRefOf EndpointType l i j) /\
  (forall l i r j b svc slices, l ∈ ls ->
     GRPCListener_Routes l !! i = Some r -> Route_Backends r !! j = Some b ->
     Some svc ∈ backend_services b -> listServiceSlices svc l = Ok slices -> s ∈ slices ->
     backendRefOf EndpointType l i j ∈
       (endpointSliceChangedHandler_handle (ObjEndpointSlice s)).1) /\
  forall k, exists e,
    endpointSliceChangedHandler_handle (ObjDeletedFinalStateUnknown k) = ([], Err e).
Proof.
  intros Hacc Hlaws Hls Hset. destruct (handle_slice_refs s ls Hls Hset) as [Hok Hrefs].
  split; [done|]. split; [done|]. split.
  - intros l i r j b svc slices Hl Hr Hb Hsvc Hlist Hs. apply Hrefs.
    exists l, i, r, j, b, svc. split_and!; try done.
    destruct (listed_relevant svc l slices s Hlist Hs). split; [done|by left].
  - intros k. destruct (Accessor_tombstone k) as [e He]. exists e.
    unfold endpointSliceChangedHandler_handle. by rewrite He.
Qed.

(** A service reference with a namespace of its own does not narrow the
    match. A slice of a service of the same name in the listener's namespace
    matches, although the load assignment never reads that slice. *)
Theorem matchesService_other_namespace m l ref ns :
  ServiceRef_Namespace ref = ns -> ns <> "" -> ns <> GRPCListener_Namespace l ->
  label m serviceNameLabel = ServiceRef_Name ref ->
  ObjectMeta_Namespace m = GRPCListener_Namespace l ->
  matchesService m l (Some ref) = Ok true /\
  ObjectMeta_Namespace m <> serviceNamespace ref l.
Proof.
  intros <- Hns Hne Hl Hm. split.
  - destruct (matchesService_Some m l ref) as (b & -> & Hb). f_equal. apply Hb.
    split; [done|]. by right.
  - unfold serviceNamespace. rewrite decide_False by done. congruence.
Qed.
End notify_properties.

(** ** Witnesses *)

Local Existing Instance sample_xds.
Local Existing Instance ascii_tables.
Local Existing Instance sample_lister.

(** An accessor that knows the objects of the model. *)
Definition sample_accessor : MetaAccessor := fun o =>
  match o with
  | ObjGRPCListener l => Ok (GRPCListener_ObjectMeta l)
  | ObjEndpointSlice s => Ok (EndpointSlice_ObjectMeta s)
  | _ => Err (libraryError "object does not implement the Object interfaces")
  end.

Local Existing Instance sample_accessor.

Lemma sample_accessor_laws : MetaAccessorLaws.
Proof. split; [done|]. by eexists. Qed.

Lemma sample_services_set : services_set sample_listener.
Proof.
  intros i r j b Hi Hj. assert (b = sample_backend) as ->.
  { destruct i as [|[|]]; simplify_eq/=; destruct j as [|[|]]; by simplify_eq/=. }
  by repeat constructor.
Qed.

Lemma listener_change_notifications_witness :
  exists config, makeRouteConfig "default/test-xds" sample_listener = Ok config /\
    (forall ref, ref ∈ (grpcListenerChangedHandler_handle (ObjGRPCListener sample_listener)).1 <->
      ref = {| resourceRef_typeURL := ListenerType;
               resourceRef_resourceName := "default/test-xds" |} \/
      ((resourceRef_typeURL ref = ClusterType \/ resourceRef_typeURL ref = EndpointType) /\
       resourceRef_resourceName ref ∈ config_clusters config)) /\
    length (grpcListenerChangedHandler_handle (ObjGRPCListener sample_listener)).1 = 9.
Proof.
  destruct (makeRouteConfig "default/test-xds" sample_listener) as [config| |] eqn:Hc;
    [|vm_compute in Hc; discriminate Hc..].
  exists config. split; [reflexivity|].
  destruct (listener_change_notifications _ _ _ Hc) as (_ & Hrefs & _).
  split; [exact Hrefs|reflexivity].
Defined.

Lemma slice_change_notifications_witness :
  {| resourceRef_typeURL := EndpointType;
     resourceRef_resourceName := "default/test-xds/route/1/backend/0" |}
  ∈ (endpointSliceChangedHandler_handle (ObjEndpointSlice sample_slice)).1.
Proof.
  assert (lister_List labels_Everything = Ok [sample_listener]) as Hls by reflexivity.
  apply (slice_change_notifications sample_slice [sample_listener] sample_accessor_laws
           (slices_of_laws [sample_slice]) Hls (proj2 (Forall_singleton _ _) sample_services_set)).
  exists sample_listener, 1, (sample_route None), 0, sample_backend, sample_service.
  split; [left|]. split; [reflexivity|]. split; [reflexivity|]. split; [left|].
  split; [|reflexivity]. split; [reflexivity|]. by left.
Defined.

Lemma matchesService_other_namespace_witness :
  matchesService (EndpointSlice_ObjectMeta sample_slice) sample_listener
    (Some {| ServiceRef_Name := "test-service-v1"; ServiceRef_Namespace := "other";
             ServiceRef_Port := ServiceRef_Port sample_service |}) = Ok true.
Proof.
  apply (matchesService_other_namespace _ sample_listener
    {| ServiceRef_Name := "test-service-v1"; ServiceRef_Namespace := "other";
       ServiceRef_Port := ServiceRef_Port sample_service |} "other"); done.
Defined.
