(* ===== verification/ConfigWatcher.v ===== *)
(** The cache the xDS server talks to: [gtc/cache.go].

    This file has the pure parts: the resolver that dispatches on the resource
    type, the test that decides whether a new watch sends resources at once,
    the requests the watch goroutine makes, the response object, and the
    resolver when the stores change while it runs. The goroutine itself is in
    the file [WatchSystem]. *)

From S2P Require Import Prelude GoStrings GoPath GoStrconv GoHash Api Errors Xds ResourceName Interceptors Routes Resolver K8s Listers ListenerHandler ClusterHandler EndpointHandler Watches.

(** [discoveryv3.DiscoveryRequest], with the fields the cache reads. *)
Record DiscoveryRequest := {
  DiscoveryRequest_TypeUrl : string;
  DiscoveryRequest_ResourceNames : list string;
  DiscoveryRequest_Node : option core.Node
}.

Record DiscoveryResponse := {
  DiscoveryResponse_TypeUrl : string;
  DiscoveryResponse_Resources : list (option Any);
  DiscoveryResponse_VersionInfo : string
}.

(** The stream state of go-control-plane: the names it knows for each type. *)
Definition StreamState := gmap string (gset string).

Definition GetKnownResourceNames (s : StreamState) (typeUrl : string) : gset string :=
  default ∅ (s !! typeUrl).

(** [func hasResourceDiff] *)
Fixpoint anyUnknown (known : gset string) (names : list string) : bool :=
  match names with
  | [] => false
  | n :: names' => if decide (n ∈ known) then anyUnknown known names' else true
  end.

Definition hasResourceDiff (streamState : StreamState) (req : DiscoveryRequest) : bool :=
  anyUnknown (GetKnownResourceNames streamState (DiscoveryRequest_TypeUrl req))
    (DiscoveryRequest_ResourceNames req).

(** The resources a request is about. *)
Definition request_refs (req : DiscoveryRequest) : list resourceRef :=
  (fun name => {| resourceRef_typeURL := DiscoveryRequest_TypeUrl req;
                  resourceRef_resourceName := name |}) <$> DiscoveryRequest_ResourceNames req.

(** The requests [watch] makes: all the names at first, then the changed one. *)
Definition initialRequest (req : DiscoveryRequest) : resolveRequest :=
  {| resolveRequest_resourceNames := DiscoveryRequest_ResourceNames req;
     resolveRequest_typeUrl := DiscoveryRequest_TypeUrl req;
     resolveRequest_nodeInfo := DiscoveryRequest_Node req |}.

Definition updateRequest (req : DiscoveryRequest) (ref : resourceRef) : resolveRequest :=
  {| resolveRequest_resourceNames := [resourceRef_resourceName ref];
     resolveRequest_typeUrl := resourceRef_typeURL ref;
     resolveRequest_nodeInfo := DiscoveryRequest_Node req |}.

Record cacheResponse := {
  cacheResponse_req : DiscoveryRequest;
  cacheResponse_resp : resolveResponse
}.

Definition GetDiscoveryResponse (c : cacheResponse) : M DiscoveryResponse :=
  Ok {| DiscoveryResponse_TypeUrl := resolveResponse_typeURL (cacheResponse_resp c);
        DiscoveryResponse_Resources := resolveResponse_resources (cacheResponse_resp c);
        DiscoveryResponse_VersionInfo := versionInfo (cacheResponse_resp c) |}.

Definition GetRequest (c : cacheResponse) : DiscoveryRequest := cacheResponse_req c.

Definition GetVersion (c : cacheResponse) : M string := Ok (versionInfo (cacheResponse_resp c)).

(** [func (c *configWatcher) CreateDeltaWatch]: it logs an error and returns a nil
    function to cancel the watch. *)
Definition CreateDeltaWatch : string * option (unit -> unit) :=
  ("Received an unexpected CreateDeltaWatch call", None).

Section config_watcher.
Context `{XdsLibrary, UnicodeTables, GRPCListenerLister, EndpointSliceLister}.

(** The resolver [newConfigWatcher] builds. *)
Definition newConfigWatcher : gmap string resourceResolver :=
  <[ListenerType := listenerHandler_resolveResource]>
  (<[ClusterType := clusterHandler_resolveResource]>
  (<[EndpointType := endpointHandler_resolveResource]> ∅)).

Definition configWatcher_resolve (req : resolveRequest) : M resolveResponse :=
  resourceTypeResolver_resolveResource newConfigWatcher req.
End config_watcher.

(** ** Resolution while the stores of the informers change *)

(** What the listers return while the [i]-th name of a request is handled. *)
Definition views : Type := nat -> GRPCListenerLister * EndpointSliceLister.

Section views.
Context `{XdsLibrary, UnicodeTables} (v : views).

(** The handlers of [newConfigWatcher] again: the same loops over the same
    bodies, with the listers as they are in each round. *)
Definition views_handlers : gmap string resourceResolver :=
  <[ListenerType := fun req => resolveLoop
      (fun i => @listenerHandler_body _ _ (v i).1 (resolveRequest_typeUrl req) i)
      ListenerType (resolveRequest_resourceNames req)]>
  (<[ClusterType := fun req => resolveLoop
      (fun i => @clusterHandler_body _ _ (v i).1 (resolveRequest_typeUrl req) i)
      ClusterType (resolveRequest_resourceNames req)]>
  (<[EndpointType := fun req => resolveLoop
      (fun i => @endpointHandler_body _ _ (v i).1 (v i).2 (resolveRequest_nodeInfo req)
         (resolveRequest_typeUrl req) i)
      EndpointType (resolveRequest_resourceNames req)]> ∅)).

Definition views_resolve (req : resolveRequest) : M resolveResponse :=
  resourceTypeResolver_resolveResource views_handlers req.
End views.

(** ** Lemmas *)

Lemma anyUnknown_spec known names :
  anyUnknown known names = true <-> exists n, n ∈ names /\ n ∉ known.
Proof.
  induction names as [|n names IH]; cbn; [set_solver|].
  case_decide; [rewrite IH; set_solver|]. split; [|done]. intros _. exists n. set_solver.
Qed.

Lemma request_refs_spec req ref :
  ref ∈ request_refs req <->
  resourceRef_typeURL ref = DiscoveryRequest_TypeUrl req /\
  resourceRef_resourceName ref ∈ DiscoveryRequest_ResourceNames req.
Proof.
  unfold request_refs. rewrite list_elem_of_fmap. destruct ref as [t n]; cbn. naive_solver.
Qed.

Section config_watcher_lemmas.
Context `{XdsLibrary, !XdsLaws, UnicodeTables, GRPCListenerLister, EndpointSliceLister}.

Lemma resolve_listener req :
  resolveRequest_typeUrl req = ListenerType ->
  configWatcher_resolve req = listenerHandler_resolveResource req.
Proof.
  intros Ht. unfold configWatcher_resolve, resourceTypeResolver_resolveResource, newConfigWatcher.
  by rewrite Ht, lookup_insert_eq.
Qed.

Lemma resolve_cluster req :
  resolveRequest_typeUrl req = ClusterType ->
  configWatcher_resolve req = clusterHandler_resolveResource req.
Proof.
  intros Ht. unfold configWatcher_resolve, resourceTypeResolver_resolveResource, newConfigWatcher.
  pose proof listener_cluster_type.
  by rewrite Ht, lookup_insert_ne, lookup_insert_eq.
Qed.

Lemma resolve_endpoint req :
  resolveRequest_typeUrl req = EndpointType ->
  configWatcher_resolve req = endpointHandler_resolveResource req.
Proof.
  intros Ht. unfold configWatcher_resolve, resourceTypeResolver_resolveResource, newConfigWatcher.
  pose proof listener_endpoint_type. pose proof cluster_endpoint_type.
  by rewrite Ht, 2!lookup_insert_ne, lookup_insert_eq.
Qed.

Lemma resolve_other req :
  resolveRequest_typeUrl req ∉ [ListenerType; ClusterType; EndpointType] ->
  configWatcher_resolve req = Err (unsupportedResourceType (resolveRequest_typeUrl req)).
Proof.
  intros Ht. unfold configWatcher_resolve, resourceTypeResolver_resolveResource, newConfigWatcher.
  rewrite !not_elem_of_cons in Ht. destruct Ht as (? & ? & ? & _).
  by rewrite !lookup_insert_ne, lookup_empty.
Qed.

(** When the listers stay the same this is the resolver of the watcher. *)
Lemma views_resolve_constant lister slices req :
  views_resolve (fun _ => (lister, slices)) req = @configWatcher_resolve _ _ lister slices req.
Proof. done. Qed.

(** What the resolver does for a name, with the listers of its round. *)
Definition item_of (typ : string) (node : option core.Node) (name : string)
    (listers : GRPCListenerLister * EndpointSliceLister) : M (Any * list string) :=
  if decide (typ = ListenerType) then @listener_item _ _ listers.1 typ name
  else if decide (typ = ClusterType) then @cluster_item _ _ listers.1 typ name
  else @endpoint_item _ _ listers.1 listers.2 node typ name.

Lemma views_resolve_items (v : views) req :
  resolveRequest_typeUrl req ∈ [ListenerType; ClusterType; EndpointType] ->
  views_resolve v req =
  resolve_each (fun i name => item_of (resolveRequest_typeUrl req) (resolveRequest_nodeInfo req) name (v i))
    (resolveRequest_typeUrl req) (resolveRequest_resourceNames req).
Proof.
  pose proof listener_cluster_type. pose proof listener_endpoint_type.
  pose proof cluster_endpoint_type. destruct req as [names typ node].
  unfold views_resolve, resourceTypeResolver_resolveResource, views_handlers, item_of.
  cbn [resolveRequest_typeUrl resolveRequest_nodeInfo resolveRequest_resourceNames].
  rewrite !elem_of_cons. intros [->|[->|[->|[]%elem_of_nil]]].
  - rewrite lookup_insert_eq. apply resolveLoop_refines. intros i name r. rewrite decide_True by done.
    apply listenerHandler_implements.
  - rewrite lookup_insert_ne, lookup_insert_eq by done. apply resolveLoop_refines.
    intros i name r. rewrite decide_False, decide_True by done. apply clusterHandler_implements.
  - rewrite 2!lookup_insert_ne, lookup_insert_eq by done. apply resolveLoop_refines.
    intros i name r. rewrite 2!decide_False by done. apply endpointHandler_implements.
Qed.

Lemma views_resolve_other (v : views) req :
  resolveRequest_typeUrl req ∉ [ListenerType; ClusterType; EndpointType] ->
  views_resolve v req = Err (unsupportedResourceType (resolveRequest_typeUrl req)).
Proof.
  intros Ht. unfold views_resolve, resourceTypeResolver_resolveResource, views_handlers.
  rewrite !not_elem_of_cons in Ht. destruct Ht as (? & ? & ? & _).
  by rewrite !lookup_insert_ne, lookup_empty.
Qed.

(** A successful response has one resource per requested name. *)
Lemma resolve_count req resp :
  configWatcher_resolve req = Ok resp ->
  length (resolveResponse_resources resp) = length (resolveRequest_resourceNames req).
Proof.
  assert (forall item typ names r, resolve_with item typ names = Ok r ->
    length (resolveResponse_resources r) = length names) as Hcount.
  { intros item typ names r (_ & items & Hitems & -> & _)%resolve_with_Ok.
    rewrite !length_fmap. by eapply imapM_length. }
  destruct (decide (resolveRequest_typeUrl req = ListenerType)) as [Ht|].
  { rewrite (resolve_listener req Ht), listenerHandler_refines. apply Hcount. }
  destruct (decide (resolveRequest_typeUrl req = ClusterType)) as [Ht|].
  { rewrite (resolve_cluster req Ht), clusterHandler_refines. apply Hcount. }
  destruct (decide (resolveRequest_typeUrl req = EndpointType)) as [Ht|].
  { rewrite (resolve_endpoint req Ht), endpointHandler_refines. apply Hcount. }
  by rewrite resolve_other by (rewrite !not_elem_of_cons; auto using not_elem_of_nil).
Qed.
End config_watcher_lemmas.

(** ** Properties *)

(** A new watch sends resources at once exactly when one of the requested
    names is not known to the stream for that type. *)
Theorem hasResourceDiff_spec streamState req :
  hasResourceDiff streamState req = true <->
  exists n, n ∈ DiscoveryRequest_ResourceNames req /\
    n ∉ GetKnownResourceNames streamState (DiscoveryRequest_TypeUrl req).
Proof. apply anyUnknown_spec. Qed.

(** Dispatch on the resource type. A listener, cluster or endpoint request
    is answered by the handler of its type, and a request of any other type is
    the error that names it. *)
Theorem configWatcher_dispatch `{XdsLibrary, UnicodeTables, GRPCListenerLister,
    EndpointSliceLister} req :
  XdsLaws ->
  (resolveRequest_typeUrl req = ListenerType /\
     configWatcher_resolve req = listenerHandler_resolveResource req) \/
  (resolveRequest_typeUrl req = ClusterType /\
     configWatcher_resolve req = clusterHandler_resolveResource req) \/
  (resolveRequest_typeUrl req = EndpointType /\
     configWatcher_resolve req = endpointHandler_resolveResource req) \/
  ((resolveRequest_typeUrl req ∉ [ListenerType; ClusterType; EndpointType]) /\
     configWatcher_resolve req = Err (unsupportedResourceType (resolveRequest_typeUrl req))).
Proof.
  intros Hlaws.
  destruct (decide (resolveRequest_typeUrl req = ListenerType));
    [left; by eauto using resolve_listener|right].
  destruct (decide (resolveRequest_typeUrl req = ClusterType));
    [left; by eauto using resolve_cluster|right].
  destruct (decide (resolveRequest_typeUrl req = EndpointType));
    [left; by eauto using resolve_endpoint|right].
  assert (resolveRequest_typeUrl req ∉ [ListenerType; ClusterType; EndpointType]) as Hn
    by (rewrite !not_elem_of_cons; auto using not_elem_of_nil).
  by eauto using resolve_other.
Qed.

(** What a response contains. The response to a new watch has one resource
    for each of the requested names, but the response to a change of one of them
    has that resource alone, and its version is the digest of the objects behind
    that resource, whatever else the client asked for. *)
Theorem update_sends_one_resource `{XdsLibrary, UnicodeTables, GRPCListenerLister,
    EndpointSliceLister} req ref first later :
  XdsLaws ->
  configWatcher_resolve (initialRequest req) = Ok first ->
  configWatcher_resolve (updateRequest req ref) = Ok later ->
  length (resolveResponse_resources first) = length (DiscoveryRequest_ResourceNames req) /\
  length (resolveResponse_resources later) = 1 /\
  forall req', DiscoveryRequest_Node req' = DiscoveryRequest_Node req ->
    configWatcher_resolve (updateRequest req' ref) = Ok later.
Proof.
  intros Hlaws Hfirst%resolve_count Hlater. split; [done|].
  split; [by apply resolve_count in Hlater|]. intros req' Hnode. rewrite <-Hlater.
  unfold updateRequest. by rewrite Hnode.
Qed.

(** ** Witnesses *)

Local Existing Instance sample_xds.
Local Existing Instance ascii_tables.
Local Existing Instance sample_lister.
Local Existing Instance sample_slices.

Lemma configWatcher_dispatch_witness :
  configWatcher_resolve {| resolveRequest_resourceNames := []; resolveRequest_typeUrl := "other";
                           resolveRequest_nodeInfo := None |}
  = Err (unsupportedResourceType "other").
Proof.
  destruct (configWatcher_dispatch
    {| resolveRequest_resourceNames := []; resolveRequest_typeUrl := "other";
       resolveRequest_nodeInfo := None |} sample_xds_laws)
    as [[Ht _]|[[Ht _]|[[Ht _]|[_ Hr]]]]; [discriminate Ht..|exact Hr].
Defined.

Definition two_clusters : DiscoveryRequest :=
  {| DiscoveryRequest_TypeUrl := ClusterType;
     DiscoveryRequest_ResourceNames :=
       ["default/test-xds/route/0/backend/0"; "default/test-xds/route/1/backend/1"];
     DiscoveryRequest_Node := None |}.

Lemma update_sends_one_resource_witness :
  exists first later,
    configWatcher_resolve (initialRequest two_clusters) = Ok first /\
    configWatcher_resolve (updateRequest two_clusters
      {| resourceRef_typeURL := ClusterType;
         resourceRef_resourceName := "default/test-xds/route/1/backend/1" |}) = Ok later /\
    length (resolveResponse_resources first) = 2 /\ length (resolveResponse_resources later) = 1.
Proof.
  assert (is_ok (configWatcher_resolve (initialRequest two_clusters)) = true) as H1
    by (vm_compute; reflexivity).
  assert (is_ok (configWatcher_resolve (updateRequest two_clusters
      {| resourceRef_typeURL := ClusterType;
         resourceRef_resourceName := "default/test-xds/route/1/backend/1" |})) = true) as H2
    by (vm_compute; reflexivity).
  apply is_ok_spec in H1 as [first H1]. apply is_ok_spec in H2 as [later H2].
  exists first, later. split; [exact H1|]. split; [exact H2|].
  destruct (update_sends_one_resource two_clusters _ first later sample_xds_laws H1 H2)
    as (Hf & Hl & _).
  split; [exact Hf|exact Hl].
Defined.
