(* ===== verification/WatchSystem.v ===== *)
(** The controller as a concurrent system: the watch goroutines of
    [gtc/cache.go], the registry of [gtc/watcher.go], the change handlers of
    [gtc/notify.go] and the delivery goroutines run interleaved.

    A step is one atomic action: a block under one mutex, a channel operation,
    a resolution. The environment may change the store of Kubernetes objects,
    open and cancel watches, and receive responses at any time. What the
    informers, the handlers and the resolver do is the interface [World].

    A resolution is not atomic: the store may change between its reads, and each
    of them sees a state the store had since the resolution began. A select
    statement with several ready cases may take any of them. A panic in a
    goroutine ends the process. *)

From S2P Require Import Prelude GoStrings GoPath GoStrconv GoHash Api Errors Xds ResourceName Interceptors Routes Resolver K8s Listers ListenerHandler ClusterHandler EndpointHandler Watches ConfigWatcher.

(** The environment of the watch goroutines. *)
Class World := {
  Store : Type;
  Change : Type;
  (** what the reads of a resolution return, when all see one state; *)
  View : Type;
  view : Store -> View;
  (** when each sees the current state or one of some earlier states, as
      [Reads] says; *)
  Reads : Type;
  mix : Reads -> Store -> list Store -> View;
  now : Reads;
  mix_now s l : mix now s l = view s;
  (** and from the [i]-th name of the request on *)
  focus : nat -> View -> View;
  (** the resolver *)
  resolve : View -> resolveRequest -> M resolveResponse;
  (** an update of the store, and whether it may happen *)
  applyChange : Change -> Store -> Store;
  allowed : Change -> Store -> bool;
  (** the resources the event handler notifies when it handles the change *)
  notified : Change -> Store -> list resourceRef
}.

(** ** Program points *)

(** Inside [watcher.watch]: each constructor is one block. *)
Inductive subpc :=
  | WGet | WCreate | WCheck (rw : rwPtr) | WAdd (rw : rwPtr) | WRecord.

(** Inside [watches.stopAllWatches]. *)
Inductive relpc := RGet | RCheck (rw : rwPtr) | RDel (rw : rwPtr).

(** Inside [configWatcher.watch]. The lists are what the loops have left. *)
Inductive pc :=
  | Subscribing (todo : list resourceRef) (p : subpc)
  | Initial
  | Sending (resp : resolveResponse)
  | Waiting
  | Resolving (ref : resourceRef)
  | Releasing (todo : list resourceRef) (p : relpc)
  | Closing
  | Exited.

(** Inside [watches.notifyChanged]. *)
Inductive npc := NGet (ref : resourceRef) | NFan (rw : rwPtr) (ref : resourceRef).

Definition npc_ref (n : npc) : resourceRef :=
  match n with NGet ref => ref | NFan _ ref => ref end.

Section system.
Context `{World}.

(** A watch goroutine. [thread_since] is the number of states the store had
    gone through when its resolution began. [thread_seen] is for the proofs: for
    each resource the latest resolution of it, as its request, what its reads
    returned, and the position of the resource among its names. *)
Record thread := {
  thread_req : DiscoveryRequest;
  thread_stream : StreamState;
  thread_cancelled : bool;
  thread_pc : pc;
  thread_since : nat;
  thread_sent : list cacheResponse;
  thread_seen : gmap resourceRef (resolveRequest * View * nat)
}.

Record sys := {
  sys_store : Store;
  sys_past : list Store;                             (* its earlier states, the latest first *)
  sys_reg : watches;
  sys_threads : gmap watcherPtr thread;
  sys_events : list Change;                          (* queued for the handlers *)
  sys_notifiers : list npc;                          (* running [notifyChanged] *)
  sys_deliveries : list (watcherPtr * resourceRef);  (* [watcher.notifyChanged] goroutines *)
  sys_shutdown : bool;                               (* the context of the handlers is done *)
  sys_crashed : bool
}.

Definition init (s : Store) : sys :=
  {| sys_store := s; sys_past := []; sys_reg := newWatches; sys_threads := ∅; sys_events := [];
     sys_notifiers := []; sys_deliveries := []; sys_shutdown := false; sys_crashed := false |}.

Definition set_pc (p : pc) (th : thread) : thread :=
  {| thread_req := thread_req th; thread_stream := thread_stream th;
     thread_cancelled := thread_cancelled th; thread_pc := p; thread_since := thread_since th;
     thread_sent := thread_sent th; thread_seen := thread_seen th |}.

Definition put_thread (w : watcherPtr) (th : thread) (st : sys) : sys :=
  {| sys_store := sys_store st; sys_past := sys_past st; sys_reg := sys_reg st;
     sys_threads := <[w := th]> (sys_threads st); sys_events := sys_events st;
     sys_notifiers := sys_notifiers st; sys_deliveries := sys_deliveries st;
     sys_shutdown := sys_shutdown st; sys_crashed := sys_crashed st |}.

Definition set_reg (reg : watches) (st : sys) : sys :=
  {| sys_store := sys_store st; sys_past := sys_past st; sys_reg := reg;
     sys_threads := sys_threads st; sys_events := sys_events st;
     sys_notifiers := sys_notifiers st; sys_deliveries := sys_deliveries st;
     sys_shutdown := sys_shutdown st; sys_crashed := sys_crashed st |}.

Definition crash (st : sys) : sys :=
  {| sys_store := sys_store st; sys_past := sys_past st; sys_reg := sys_reg st;
     sys_threads := sys_threads st; sys_events := sys_events st;
     sys_notifiers := sys_notifiers st; sys_deliveries := sys_deliveries st;
     sys_shutdown := sys_shutdown st; sys_crashed := true |}.

(** Move a thread to another program point. *)
Definition goto (w : watcherPtr) (th : thread) (p : pc) (st : sys) : sys :=
  put_thread w (set_pc p th) st.

(** Move a thread to the point where a resolution begins. *)
Definition begin (w : watcherPtr) (th : thread) (p : pc) (st : sys) : sys :=
  put_thread w {| thread_req := thread_req th; thread_stream := thread_stream th;
                  thread_cancelled := thread_cancelled th; thread_pc := p;
                  thread_since := length (sys_past st);
                  thread_sent := thread_sent th; thread_seen := thread_seen th |} st.

(** The earlier states the store had since the resolution of a thread began. *)
Definition window (st : sys) (th : thread) : list Store :=
  take (length (sys_past st) - thread_since th) (sys_past st).

(** Record the resolution of [refs]. *)
Definition saw (refs : list resourceRef) (q : resolveRequest) (v : View) (th : thread) : thread :=
  {| thread_req := thread_req th; thread_stream := thread_stream th;
     thread_cancelled := thread_cancelled th; thread_pc := thread_pc th;
     thread_since := thread_since th; thread_sent := thread_sent th;
     thread_seen := foldl (fun m '(i, ref) => <[ref := (q, v, i)]> m) (thread_seen th)
                      (imap pair refs) |}.

(** Resolve, then send the response; an error is dropped or logged. *)
Definition resolve_and_send (w : watcherPtr) (th : thread) (refs : list resourceRef)
    (req : resolveRequest) (v : View) (st : sys) : sys :=
  let th' := saw refs req v th in
  match resolve v req with
  | Ok resp => goto w th' (Sending resp) st
  | Err _ => goto w th' Waiting st
  | Panic _ => crash st
  end.

(** ** The steps of a watch goroutine *)

(** [watcher.watch(ref)], one block at a time. *)
Definition run_subscribe (w : watcherPtr) (th : thread) (ref : resourceRef)
    (todo : list resourceRef) (p : subpc) (st : sys) : sys :=
  let here q := Subscribing (ref :: todo) q in
  match p with
  | WGet =>
      match getResourceWatchers ref (sys_reg st) with
      | Some rw => goto w th (here (WCheck rw)) st
      | None => goto w th (here WCreate) st
      end
  | WCreate =>
      let '(rw, reg) := createResourceWatchers ref (sys_reg st) in
      goto w th (here (WCheck rw)) (set_reg reg st)
  | WCheck rw =>
      if decide (w ∈ rw_watchers rw (sys_reg st)) then goto w th (here WRecord) st
      else goto w th (here (WAdd rw)) st
  | WAdd rw => goto w th (here WRecord) (set_reg (rw_add w rw (sys_reg st)) st)
  | WRecord => goto w th (Subscribing todo WGet) (set_reg (recordWatched w ref (sys_reg st)) st)
  end.

(** One round of [stopAllWatches], one block at a time. *)
Definition run_release (w : watcherPtr) (th : thread) (ref : resourceRef)
    (todo : list resourceRef) (p : relpc) (st : sys) : sys :=
  let next := Releasing todo RGet in
  match p with
  | RGet =>
      match getResourceWatchers ref (sys_reg st) with
      | Some rw => goto w th (Releasing (ref :: todo) (RCheck rw)) st
      | None => goto w th next st
      end
  | RCheck rw =>
      if decide (w ∈ rw_watchers rw (sys_reg st))
      then goto w th (Releasing (ref :: todo) (RDel rw)) st
      else goto w th next st
  | RDel rw => goto w th next (set_reg (rw_del w rw (sys_reg st)) st)
  end.

(** The next action of the goroutine, where it does not wait for others. *)
Definition run_thread (w : watcherPtr) (th : thread) (st : sys) : option sys :=
  match thread_pc th with
  | Subscribing [] _ => Some (begin w th Initial st)
  | Subscribing (ref :: todo) p => Some (run_subscribe w th ref todo p st)
  | Initial =>
      if hasResourceDiff (thread_stream th) (thread_req th) then None
      else Some (goto w th Waiting st)
  | Releasing [] _ => Some (goto w th Closing st)
  | Releasing (ref :: todo) p => Some (run_release w th ref todo p st)
  | Closing =>
      match @closeDone error w (sys_reg st) with
      | Ok reg => Some (goto w th Exited (set_reg reg st))
      | _ => Some (crash st)
      end
  | Sending _ | Waiting | Resolving _ | Exited => None
  end.

(** The end of a resolution, the reads of which saw what [r] says. *)
Definition run_resolution (w : watcherPtr) (r : Reads) (th : thread) (st : sys) : option sys :=
  let v := mix r (sys_store st) (window st th) in
  match thread_pc th with
  | Initial =>
      if hasResourceDiff (thread_stream th) (thread_req th)
      then Some (resolve_and_send w th (request_refs (thread_req th))
                   (initialRequest (thread_req th)) v st)
      else None
  | Resolving ref =>
      Some (resolve_and_send w th [ref] (updateRequest (thread_req th) ref) v st)
  | _ => None
  end.

(** The response is received by the server. *)
Definition finish_send (resp : resolveResponse) (th : thread) : thread :=
  {| thread_req := thread_req th; thread_stream := thread_stream th;
     thread_cancelled := thread_cancelled th; thread_pc := Waiting;
     thread_since := thread_since th; thread_sent := thread_sent th ++
       [{| cacheResponse_req := thread_req th; cacheResponse_resp := resp |}];
     thread_seen := thread_seen th |}.

Definition cancel (th : thread) : thread :=
  {| thread_req := thread_req th; thread_stream := thread_stream th;
     thread_cancelled := true; thread_pc := thread_pc th;
     thread_since := thread_since th; thread_sent := thread_sent th; thread_seen := thread_seen th |}.

(** ** The whole system *)

Definition set_queues (events : list Change) (notifiers : list npc)
    (deliveries : list (watcherPtr * resourceRef)) (st : sys) : sys :=
  {| sys_store := sys_store st; sys_past := sys_past st; sys_reg := sys_reg st;
     sys_threads := sys_threads st; sys_events := events;
     sys_notifiers := notifiers; sys_deliveries := deliveries;
     sys_shutdown := sys_shutdown st; sys_crashed := sys_crashed st |}.

Inductive action :=
  | Create (stream : StreamState) (req : DiscoveryRequest)  (* CreateWatch *)
  | Cancel (w : watcherPtr)                                  (* its cancel function *)
  | Run (w : watcherPtr)
  | Resolve (w : watcherPtr) (r : Reads)
  | Send (w : watcherPtr)
  | SendAborted (w : watcherPtr)
  | Leave (w : watcherPtr) (order : list resourceRef)  (* ctx.Done in the loop of watch *)
  | Receive (k : nat)                                  (* delivery k meets its watcher *)
  | DropDone (k : nat)                                 (* delivery k sees w.done closed *)
  | DropShutdown (k : nat)                             (* delivery k sees ctx.Done *)
  | Update (c : Change)
  | Handle (k : nat)                                   (* the handler of event k *)
  | Notify (k : nat)                                   (* a block of notifyChanged *)
  | Shutdown.

Definition with_thread (w : watcherPtr) (st : sys) (f : thread -> option sys) : option sys :=
  match sys_threads st !! w with Some th => f th | None => None end.

(** [CreateWatch] starts a goroutine, whose first action builds the watcher. Both
    are one step here: [CreateWatch] itself touches nothing that is shared, and the
    watcher is known to nobody before its goroutine subscribes. *)
Definition create_watch (stream : StreamState) (req : DiscoveryRequest) (st : sys) : sys :=
  let '(w, reg) := buildWatch (sys_reg st) in
  put_thread w {| thread_req := req; thread_stream := stream; thread_cancelled := false;
                  thread_pc := Subscribing (request_refs req) WGet; thread_since := 0;
                  thread_sent := [];
                  thread_seen := ∅ |} (set_reg reg st).

(** A block of [watches.notifyChanged]. *)
Definition run_notifier (k : nat) (st : sys) : option sys :=
  match sys_notifiers st !! k with
  | None => None
  | Some (NGet ref) =>
      let rest := delete k (sys_notifiers st) in
      match getResourceWatchers ref (sys_reg st) with
      | None => Some (set_queues (sys_events st) rest (sys_deliveries st) st)
      | Some rw => Some (set_queues (sys_events st) (NFan rw ref :: rest) (sys_deliveries st) st)
      end
  | Some (NFan rw ref) =>
      Some (set_queues (sys_events st) (delete k (sys_notifiers st))
              (resourceWatchers_notifyChanged rw ref (sys_reg st) ++ sys_deliveries st) st)
  end.

(** Delivery [k] ends. *)
Definition end_delivery (k : nat) (st : sys) : sys :=
  set_queues (sys_events st) (sys_notifiers st) (delete k (sys_deliveries st)) st.

(** [sendResponse], when the server takes the response. *)
Definition send_response (w : watcherPtr) (st : sys) : option sys :=
  with_thread w st (fun th =>
    match thread_pc th with
    | Sending resp => Some (put_thread w (finish_send resp th) st)
    | _ => None
    end).

(** [sendResponse], when its context is done. *)
Definition send_aborted (w : watcherPtr) (st : sys) : option sys :=
  with_thread w st (fun th =>
    match thread_pc th with
    | Sending _ => if thread_cancelled th then Some (goto w th Waiting st) else None
    | _ => None
    end).

(** The case [<-ctx.Done()] of the loop of [watch]: return, which runs the
    deferred [releaseWatch]; it visits the resources in some order. *)
Definition leave_loop (w : watcherPtr) (order : list resourceRef) (st : sys) : option sys :=
  with_thread w st (fun th =>
    match thread_pc th with
    | Waiting =>
        if thread_cancelled th && bool_decide (NoDup order)
           && bool_decide (list_to_set order = watchedResources w (sys_reg st))
        then Some (goto w th (Releasing order RGet) st) else None
    | _ => None
    end).

(** The three cases of [watcher.notifyChanged], for the goroutine [k]: the
    watcher receives the change, has closed [done], or the context is done. *)
Definition deliver_change (k : nat) (st : sys) : option sys :=
  match sys_deliveries st !! k with
  | None => None
  | Some (w, ref) => with_thread w st (fun th =>
      match thread_pc th with
      | Waiting => Some (begin w th (Resolving ref) (end_delivery k st))
      | _ => None
      end)
  end.

Definition deliver_to_done (k : nat) (st : sys) : option sys :=
  match sys_deliveries st !! k with
  | None => None
  | Some (w, _) =>
      if default false (watcher_done <$> watches_ws (sys_reg st) !! w)
      then Some (end_delivery k st) else None
  end.

Definition deliver_cancelled (k : nat) (st : sys) : option sys :=
  match sys_deliveries st !! k with
  | None => None
  | Some _ => if sys_shutdown st then Some (end_delivery k st) else None
  end.

(** [Update] changes the store of the informers and queues the event in one step;
    client-go does the one and then the other. An event is handled at any later
    time, so that a delay between the two is a delay of its handler. *)
Definition act (a : action) (st : sys) : option sys :=
  match a with
  | Create stream req => Some (create_watch stream req st)
  | Cancel w => with_thread w st (fun th => Some (put_thread w (cancel th) st))
  | Run w => with_thread w st (fun th => run_thread w th st)
  | Resolve w r => with_thread w st (fun th => run_resolution w r th st)
  | Send w => send_response w st
  | SendAborted w => send_aborted w st
  | Leave w order => leave_loop w order st
  | Receive k => deliver_change k st
  | DropDone k => deliver_to_done k st
  | DropShutdown k => deliver_cancelled k st
  | Update c =>
      if allowed c (sys_store st) then
        Some {| sys_store := applyChange c (sys_store st); sys_past := sys_store st :: sys_past st;
                sys_reg := sys_reg st; sys_threads := sys_threads st; sys_events := sys_events st ++ [c];
                sys_notifiers := sys_notifiers st; sys_deliveries := sys_deliveries st;
                sys_shutdown := sys_shutdown st; sys_crashed := sys_crashed st |}
      else None
  | Handle k =>
      match sys_events st !! k with
      | None => None
      | Some c =>
          Some (set_queues (delete k (sys_events st))
                  ((NGet <$> notified c (sys_store st)) ++ sys_notifiers st)
                  (sys_deliveries st) st)
      end
  | Notify k => run_notifier k st
  | Shutdown =>
      Some {| sys_store := sys_store st; sys_past := sys_past st; sys_reg := sys_reg st;
              sys_threads := sys_threads st; sys_events := sys_events st;
              sys_notifiers := sys_notifiers st; sys_deliveries := sys_deliveries st;
              sys_shutdown := true; sys_crashed := sys_crashed st |}
  end.

(** Nothing happens after a crash. *)
Definition step (a : action) (st : sys) : option sys :=
  if sys_crashed st then None else act a st.

Fixpoint steps (l : list action) (st : sys) : option sys :=
  match l with
  | [] => Some st
  | a :: l' => match step a st with Some st' => steps l' st' | None => None end
  end.

Inductive reachable : sys -> Prop :=
  | reachable_init s : reachable (init s)
  | reachable_step st a st' : reachable st -> step a st = Some st' -> reachable st'.

(** ** Invariant *)

(** What the program point of the goroutine of [w] says about the registry. *)
Definition pc_inv (w : watcherPtr) (refs : list resourceRef) (reg : watches) (p : pc) : Prop :=
  match p with
  | Subscribing todo q =>
      exists before, refs = before ++ todo /\
        (forall ref, ref ∈ before -> w ∈ subscribers reg ref) /\
        watchedResources w reg = list_to_set before /\
        match q, todo with
        | WGet, _ => True
        | WCreate, _ :: _ => True
        | (WCheck rw | WAdd rw), ref :: _ => watches_watchers reg !! ref = Some rw
        | WRecord, ref :: _ => w ∈ subscribers reg ref
        | _, [] => False
        end
  | Initial | Sending _ | Waiting | Resolving _ =>
      (forall ref, ref ∈ refs -> w ∈ subscribers reg ref) /\
      watchedResources w reg = list_to_set refs /\
      match p with Resolving ref => ref ∈ refs | _ => True end
  | Releasing todo q =>
      (forall ref, w ∈ subscribers reg ref -> ref ∈ todo) /\
      match q, todo with
      | RGet, _ => True
      | (RCheck rw | RDel rw), ref :: _ => watches_watchers reg !! ref = Some rw
      | _, [] => False
      end
  | Closing | Exited => forall ref, w ∉ subscribers reg ref
  end.

Definition is_exited (p : pc) : bool := match p with Exited => true | _ => false end.

Record thread_inv (reg : watches) (w : watcherPtr) (th : thread) : Prop := {
  ti_pc : pc_inv w (request_refs (thread_req th)) reg (thread_pc th);
  ti_sub ref : w ∈ subscribers reg ref -> ref ∈ request_refs (thread_req th);
  ti_done : watcher_done <$> watches_ws reg !! w = Some (is_exited (thread_pc th))
}.

Record sys_inv (st : sys) : Prop := {
  si_wf : wf (sys_reg st);
  si_threads w th : sys_threads st !! w = Some th -> thread_inv (sys_reg st) w th;
  si_known w ref : w ∈ subscribers (sys_reg st) ref -> is_Some (sys_threads st !! w);
  si_alloc w : is_Some (sys_threads st !! w) -> is_Some (watches_ws (sys_reg st) !! w);
  si_delivery w ref : (w, ref) ∈ sys_deliveries st ->
    exists th, sys_threads st !! w = Some th /\ ref ∈ request_refs (thread_req th);
  si_fan rw ref : NFan rw ref ∈ sys_notifiers st ->
    watches_watchers (sys_reg st) !! ref = Some rw
}.
End system.

(** Unfold the actions down to what they do. *)
Ltac unfold_action :=
  unfold send_response, send_aborted, leave_loop, deliver_change, deliver_to_done,
    deliver_cancelled, with_thread.

(** ** The registry while other goroutines run *)

(** The registry after a block of the goroutine of [w]: entries are kept, and
    nothing changes for the other watchers. *)
Record reg_ext (w : watcherPtr) (reg reg' : watches) : Prop := {
  re_wf : wf reg';
  re_keep ref rw : watches_watchers reg !! ref = Some rw -> watches_watchers reg' !! ref = Some rw;
  re_sub w' ref : w' <> w -> w' ∈ subscribers reg' ref <-> w' ∈ subscribers reg ref;
  re_ws w' : w' <> w -> watches_ws reg' !! w' = watches_ws reg !! w'
}.

Section ext_lemmas.
Implicit Types (reg : watches) (w : watcherPtr) (ref : resourceRef) (rw : rwPtr).

Lemma ext_refl w reg : wf reg -> reg_ext w reg reg.
Proof. by split. Qed.

Lemma ext_create w ref reg : wf reg -> reg_ext w reg (createResourceWatchers ref reg).2.
Proof.
  intros Hwf. split; [by apply wf_create|intros; by apply create_keeps|..].
  - intros w' ref' _. by rewrite create_subscribers.
  - intros w' _. unfold createResourceWatchers. by destruct (watches_watchers reg !! ref).
Qed.

Lemma ext_rw_update w f ref rw reg :
  wf reg -> watches_watchers reg !! ref = Some rw ->
  (forall s w', w' <> w -> w' ∈ f s <-> w' ∈ s) ->
  reg_ext w reg (rw_update f rw reg).
Proof.
  intros Hwf Hrw Hf. split; [by apply wf_rw_update|done| |done].
  intros w' ref' Hne. rewrite (rw_update_subscribers f rw reg ref) by done.
  case_decide; subst; naive_solver.
Qed.

Lemma ext_add w ref rw reg :
  wf reg -> watches_watchers reg !! ref = Some rw -> reg_ext w reg (rw_add w rw reg).
Proof. intros. eapply ext_rw_update; [done|done|set_solver]. Qed.

Lemma ext_del w ref rw reg :
  wf reg -> watches_watchers reg !! ref = Some rw -> reg_ext w reg (rw_del w rw reg).
Proof. intros. eapply ext_rw_update; [done|done|set_solver]. Qed.

Lemma ext_ws_update w f reg : wf reg -> reg_ext w reg (ws_update f w reg).
Proof.
  intros Hwf. split; [by apply wf_ws_update|done|done|].
  intros w' Hne. cbn. by rewrite lookup_alter_ne.
Qed.

Lemma ext_build reg : wf reg -> reg_ext (buildWatch reg).1 reg (buildWatch reg).2.
Proof.
  intros Hwf. split; [by apply wf_buildWatch|done|done|].
  intros w' Hne. cbn in *. by rewrite lookup_insert_ne.
Qed.

Lemma ext_watched w reg reg' w' :
  reg_ext w reg reg' -> w' <> w -> watchedResources w' reg' = watchedResources w' reg.
Proof. intros Hext Hne. unfold watchedResources. by rewrite (re_ws _ _ _ Hext). Qed.

Lemma pc_inv_stable w reg reg' w' refs p :
  reg_ext w reg reg' -> w' <> w -> pc_inv w' refs reg p -> pc_inv w' refs reg' p.
Proof.
  intros Hext Hne. pose proof (fun ref => re_sub _ _ _ Hext w' ref Hne) as Hs.
  pose proof (ext_watched w reg reg' w' Hext Hne) as Hw. pose proof (re_keep _ _ _ Hext) as Hk.
  destruct p as [todo q| | | | |todo q| |]; cbn; rewrite ?Hw; try setoid_rewrite Hs; try done.
  - intros (before & ? & ? & ? & Hq). exists before. split_and!; [done..|].
    destruct q, todo; cbn in *; try done; [by apply Hk..|by apply Hs].
  - intros [? Hq]. split; [done|]. destruct q, todo; try done; by apply Hk.
Qed.
End ext_lemmas.

Section inv_lemmas.
Context `{World}.
Implicit Types (st : sys) (th : thread) (reg : watches) (w : watcherPtr) (ref : resourceRef).

Lemma thread_inv_stable w reg reg' w' th :
  reg_ext w reg reg' -> w' <> w -> thread_inv reg w' th -> thread_inv reg' w' th.
Proof.
  intros Hext Hne [Hp Hs Hd]. split; [by eapply pc_inv_stable|..].
  - intros ref. rewrite (re_sub _ _ _ Hext) by done. apply Hs.
  - by rewrite (re_ws _ _ _ Hext) by done.
Qed.

(** A goroutine moves, with the registry, and keeps its own invariant. *)
Lemma inv_thread_moves st w th th' reg' :
  sys_inv st -> sys_threads st !! w = Some th -> thread_req th' = thread_req th ->
  reg_ext w (sys_reg st) reg' -> thread_inv reg' w th' ->
  sys_inv (put_thread w th' (set_reg reg' st)).
Proof.
  intros [Hwf Hths Hkn Hal Hdel Hfan] Hth Hreq Hext Hinv. split; cbn.
  - apply Hext.
  - intros w' th''. rewrite lookup_insert. case_decide; [intros; by simplify_eq|].
    intros ?. eapply thread_inv_stable; eauto.
  - intros w' ref Hin. rewrite lookup_insert. case_decide; [done|].
    apply (Hkn w' ref). by rewrite <-(re_sub _ _ _ Hext).
  - intros w'. rewrite lookup_insert. case_decide as Heq.
    + subst w'. intros _. pose proof (ti_done _ _ _ Hinv) as Hd.
      by destruct (watches_ws reg' !! w).
    + rewrite (re_ws _ _ _ Hext) by done. apply Hal.
  - intros w' ref Hin. rewrite lookup_insert. destruct (Hdel w' ref Hin) as (th0 & H0 & Href).
    case_decide; [subst w'|eauto]. exists th'. rewrite Hreq. by simplify_eq.
  - intros rw ref Hin. by apply (re_keep _ _ _ Hext), Hfan.
Qed.

Lemma inv_goto st w th th' :
  sys_inv st -> sys_threads st !! w = Some th -> thread_req th' = thread_req th ->
  thread_inv (sys_reg st) w th' -> sys_inv (put_thread w th' st).
Proof.
  intros Hinv Hth Hreq Hti. replace st with (set_reg (sys_reg st) st) by by destruct st.
  eapply inv_thread_moves; eauto. apply ext_refl, Hinv.
Qed.
End inv_lemmas.

Section step_lemmas.
Context `{World}.
Implicit Types (st : sys) (th : thread) (reg : watches) (w : watcherPtr) (ref : resourceRef).

(** A change of program point that leaves the registry alone. *)
Lemma ti_goto reg w th p :
  thread_inv reg w th -> is_exited p = is_exited (thread_pc th) ->
  pc_inv w (request_refs (thread_req th)) reg p -> thread_inv reg w (set_pc p th).
Proof. intros [Hp Hs Hd] Hex Hpc. split; cbn; [done|done|]. by rewrite Hd, Hex. Qed.

Lemma inv_goto_pc st w th p :
  sys_inv st -> sys_threads st !! w = Some th -> is_exited p = is_exited (thread_pc th) ->
  pc_inv w (request_refs (thread_req th)) (sys_reg st) p -> sys_inv (goto w th p st).
Proof.
  intros Hinv Hth Hex Hpc. eapply inv_goto; eauto. apply ti_goto; [|done|done].
  by eapply si_threads.
Qed.

Lemma inv_begin st w th p :
  sys_inv st -> sys_threads st !! w = Some th -> is_exited p = is_exited (thread_pc th) ->
  pc_inv w (request_refs (thread_req th)) (sys_reg st) p -> sys_inv (begin w th p st).
Proof.
  intros Hinv Hth Hex Hpc. eapply inv_goto; [done|done|done|].
  destruct (si_threads _ Hinv w th Hth) as [Hp Hs Hd]. split; [done|done|]. cbn. by rewrite Hd, Hex.
Qed.

Lemma subscribe_inv st w th ref todo q :
  sys_inv st -> sys_threads st !! w = Some th -> thread_pc th = Subscribing (ref :: todo) q ->
  sys_inv (run_subscribe w th ref todo q st).
Proof.
  intros Hinv Hth Hpc. pose proof (si_wf _ Hinv) as Hwf.
  pose proof (si_threads _ Hinv w th Hth) as Hti. destruct (Hti) as [Hp Hs Hd].
  rewrite Hpc in Hp, Hd. destruct Hp as (before & Hrefs & Hbef & Hrec & Hq).
  assert (ref ∈ request_refs (thread_req th)) as Href by (rewrite Hrefs; set_solver).
  destruct q as [| |rw|rw|]; cbn [run_subscribe].
  - unfold getResourceWatchers. destruct (watches_watchers (sys_reg st) !! ref) eqn:Hrw;
      (apply inv_goto_pc; [done|done|by rewrite Hpc|by exists before]).
  - pose proof (create_spec ref (sys_reg st)) as Hrw.
    pose proof (ext_create w ref (sys_reg st) Hwf) as Hext.
    pose proof (fun r => create_subscribers ref (sys_reg st) r Hwf) as Hsub.
    assert (watches_ws (createResourceWatchers ref (sys_reg st)).2 = watches_ws (sys_reg st)) as Hws
      by (unfold createResourceWatchers; by destruct (watches_watchers (sys_reg st) !! ref)).
    destruct (createResourceWatchers ref (sys_reg st)) as [rw reg]; cbn [fst snd] in *.
    eapply inv_thread_moves; eauto. split; cbn.
    + exists before. split; [done|]. unfold watchedResources. rewrite Hws. setoid_rewrite Hsub.
      done.
    + intros r. rewrite Hsub. apply Hs.
    + by rewrite Hws.
  - assert (subscribers (sys_reg st) ref = rw_watchers rw (sys_reg st)) as Hsub
      by (unfold subscribers; by rewrite Hq).
    case_decide; (apply inv_goto_pc; [done|done|by rewrite Hpc|exists before; split_and!; try done]).
    by rewrite Hsub.
  - pose proof (ext_add w ref rw (sys_reg st) Hwf Hq) as Hext.
    pose proof (fun r => rw_update_subscribers (fun s => {[w]} ∪ s) rw (sys_reg st) ref r Hwf Hq)
      as Hsub. fold (rw_add w) in Hsub.
    eapply inv_thread_moves; eauto. split; cbn.
    + exists before. split; [done|]. split; [|split; [done|]].
      * intros r Hr. rewrite Hsub. case_decide; [set_solver|by apply Hbef].
      * rewrite Hsub, decide_True by done. set_solver.
    + intros r. rewrite Hsub. case_decide; [by subst|apply Hs].
    + done.
  - eapply inv_thread_moves; eauto; [by apply ext_ws_update|]. split; cbn.
    + exists (before ++ [ref]). split; [by rewrite <-app_assoc|]. split; [set_solver|].
      split; [|done]. unfold watchedResources in *. cbn. rewrite lookup_alter_eq.
      destruct (watches_ws (sys_reg st) !! w) as [x|]; [|done].
      cbn in *. rewrite Hrec, list_to_set_app_L. set_solver.
    + done.
    + cbn. rewrite lookup_alter_eq. by destruct (watches_ws (sys_reg st) !! w).
Qed.

Lemma release_inv st w th ref todo q :
  sys_inv st -> sys_threads st !! w = Some th -> thread_pc th = Releasing (ref :: todo) q ->
  sys_inv (run_release w th ref todo q st).
Proof.
  intros Hinv Hth Hpc. pose proof (si_wf _ Hinv) as Hwf.
  pose proof (si_threads _ Hinv w th Hth) as Hti. destruct (Hti) as [Hp Hs Hd].
  rewrite Hpc in Hp, Hd. destruct Hp as [Htodo Hq].
  destruct q as [|rw|rw]; cbn [run_release].
  - unfold getResourceWatchers. destruct (watches_watchers (sys_reg st) !! ref) eqn:Hrw.
    + apply inv_goto_pc; [done|done|by rewrite Hpc|done].
    + apply inv_goto_pc; [done|done|by rewrite Hpc|]. split; [|done]. intros r Hr.
      destruct (proj1 (elem_of_cons _ _ _) (Htodo r Hr)) as [->|]; [|done].
      unfold subscribers in Hr. rewrite Hrw in Hr. set_solver.
  - assert (subscribers (sys_reg st) ref = rw_watchers rw (sys_reg st)) as Hsub
      by (unfold subscribers; by rewrite Hq).
    case_decide as Hin; (apply inv_goto_pc; [done|done|by rewrite Hpc|]); [done|].
    split; [|done]. intros r Hr. destruct (proj1 (elem_of_cons _ _ _) (Htodo r Hr)) as [->|]; [|done].
    by rewrite Hsub in Hr.
  - pose proof (ext_del w ref rw (sys_reg st) Hwf Hq) as Hext.
    pose proof (fun r => rw_update_subscribers (fun s => s ∖ {[w]}) rw (sys_reg st) ref r Hwf Hq)
      as Hsub. fold (rw_del w) in Hsub.
    eapply inv_thread_moves; eauto. split; cbn.
    + split; [|done]. intros r. rewrite Hsub. case_decide; [set_solver|].
      intros Hr%Htodo. by apply elem_of_cons in Hr as [|].
    + intros r. rewrite Hsub. case_decide; [set_solver|apply Hs].
    + done.
Qed.

Lemma inv_crash st : sys_inv st -> sys_inv (crash st).
Proof. by intros []. Qed.

Lemma resolve_inv st w th refs req v :
  sys_inv st -> sys_threads st !! w = Some th ->
  thread_inv (sys_reg st) w (set_pc Waiting th) ->
  sys_inv (resolve_and_send w th refs req v st).
Proof.
  intros Hinv Hth [Hp Hs Hd]. unfold resolve_and_send.
  destruct (resolve v req); [..|by apply inv_crash];
    (eapply inv_goto; [done|done|done|by split]).
Qed.

Lemma run_thread_inv st w th st' :
  sys_inv st -> sys_threads st !! w = Some th -> run_thread w th st = Some st' -> sys_inv st'.
Proof.
  intros Hinv Hth. pose proof (si_threads _ Hinv w th Hth) as [Hp Hs Hd]. unfold run_thread.
  destruct (thread_pc th) as [[|ref todo] q| | | |ref|[|ref todo] q| |] eqn:Hpc; try done.
  - intros [= <-]. apply inv_begin; [done|done|by rewrite Hpc|].
    destruct Hp as (before & Hrefs & Hbef & Hrec & _). rewrite app_nil_r in Hrefs. by subst before.
  - intros [= <-]. by apply subscribe_inv.
  - case_match; [done|]. intros [= <-]. by apply inv_goto_pc; [| |rewrite Hpc|].
  - intros [= <-]. apply inv_goto_pc; [done|done|by rewrite Hpc|]. destruct Hp as [Htodo _].
    cbn. intros ref Hr%Htodo. set_solver.
  - intros [= <-]. by apply release_inv.
  - unfold closeDone. rewrite Hd. cbn [default is_exited]. intros [= <-].
    eapply inv_thread_moves; eauto; [apply ext_ws_update, Hinv|]. split; cbn; [done|done|].
    rewrite lookup_alter_eq. by destruct (watches_ws (sys_reg st) !! w).
Qed.

Lemma run_resolution_inv st w r th st' :
  sys_inv st -> sys_threads st !! w = Some th -> run_resolution w r th st = Some st' -> sys_inv st'.
Proof.
  intros Hinv Hth. pose proof (si_threads _ Hinv w th Hth) as [Hp Hs Hd]. unfold run_resolution.
  destruct (thread_pc th) eqn:Hpc; try done.
  - case_match; [|done]. intros [= <-]. apply resolve_inv; [done|done|]. by split.
  - intros [= <-]. apply resolve_inv; [done|done|]. destruct Hp as (? & ? & ?). by split.
Qed.
End step_lemmas.

Section reachable_lemmas.
Context `{World}.
Implicit Types (st : sys) (th : thread) (w : watcherPtr) (ref : resourceRef).

Lemma inv_queues st events notifiers deliveries :
  sys_inv st ->
  (forall w ref, (w, ref) ∈ deliveries ->
     (w, ref) ∈ sys_deliveries st \/ w ∈ subscribers (sys_reg st) ref) ->
  (forall rw ref, NFan rw ref ∈ notifiers ->
     NFan rw ref ∈ sys_notifiers st \/ watches_watchers (sys_reg st) !! ref = Some rw) ->
  sys_inv (set_queues events notifiers deliveries st).
Proof.
  intros [Hwf Hths Hkn Hal Hdel Hfan] Hd Hn. split; cbn; [done|done|done|done|..].
  - intros w ref [Hin|Hin]%Hd; [by apply Hdel|]. destruct (Hkn w ref Hin) as [th Hth].
    exists th. split; [done|]. by eapply ti_sub; [eapply Hths|].
  - intros rw ref [Hin|Hin]%Hn; [by apply Hfan|done].
Qed.

Lemma elem_of_delete_list {A} (l : list A) k x : x ∈ delete k l -> x ∈ l.
Proof. intros Hx. eapply elem_of_submseteq; [done|]. apply sublist_submseteq, sublist_delete. Qed.

Lemma inv_end_delivery st k : sys_inv st -> sys_inv (end_delivery k st).
Proof. intros Hinv. apply inv_queues; [done|..]; eauto using elem_of_delete_list. Qed.

Lemma inv_notifier st k st' : sys_inv st -> run_notifier k st = Some st' -> sys_inv st'.
Proof.
  intros Hinv. unfold run_notifier, getResourceWatchers.
  destruct (sys_notifiers st !! k) as [[ref|rw ref]|] eqn:Hk; [|intros [= <-]|done].
  - destruct (watches_watchers (sys_reg st) !! ref) as [rw|] eqn:Hrw; intros [= <-];
      (apply inv_queues; [done|eauto|]); intros rw' ref'.
    + rewrite elem_of_cons. intros [?|?%elem_of_delete_list]; naive_solver.
    + intros ?%elem_of_delete_list. eauto.
  - apply inv_queues; [done| |eauto using elem_of_delete_list]. intros w ref'.
    rewrite elem_of_app. intros [Hin|]; [right|by left].
    unfold resourceWatchers_notifyChanged in Hin.
    apply list_elem_of_fmap in Hin as (w' & [= -> ->] & Hin%elem_of_elements).
    assert (watches_watchers (sys_reg st) !! ref = Some rw) as Hrw
      by (apply (si_fan _ Hinv); by eapply list_elem_of_lookup_2).
    unfold subscribers. by rewrite Hrw.
Qed.

Lemma inv_create st stream req : sys_inv st -> sys_inv (create_watch stream req st).
Proof.
  intros [Hwf Hths Hkn Hal Hdel Hfan]. unfold create_watch.
  pose proof (ext_build (sys_reg st) Hwf) as Hext.
  set (w := (buildWatch (sys_reg st)).1) in *.
  assert (watches_ws (sys_reg st) !! w = None) as Hfresh by (apply not_elem_of_dom, is_fresh).
  assert (sys_threads st !! w = None) as Hnone.
  { destruct (sys_threads st !! w) eqn:Ht; [|done].
    destruct (Hal w) as [x Hx]; [by rewrite Ht|congruence]. }
  assert (forall ref, w ∉ subscribers (sys_reg st) ref) as Hno.
  { intros ref Hin. destruct (Hkn w ref Hin) as [? ?]. congruence. }
  rewrite (surjective_pairing (buildWatch (sys_reg st))). fold w. split; cbn.
  - apply Hext.
  - intros w' th. rewrite lookup_insert. case_decide as Heq.
    + intros [= <-]. subst w'. split; cbn; fold w; rewrite ?lookup_insert_eq; [|by intros ? ?%Hno|done].
      exists []. split; [done|]. split; [by intros ref ?%elem_of_nil|]. split; [|done].
      unfold watchedResources. cbn. fold w. by rewrite lookup_insert_eq.
    + intros Hth. eapply thread_inv_stable; [exact Hext|congruence|by apply Hths].
  - intros w' ref Hin. rewrite lookup_insert. case_decide; [done|]. by apply (Hkn w' ref).
  - intros w'. fold w. rewrite !lookup_insert. case_decide; [done|]. apply Hal.
  - intros w' ref Hin. destruct (Hdel w' ref Hin) as (th & Hth & ?). exists th.
    split; [|done]. rewrite lookup_insert_ne; [done|]. intros Heq.
    assert (w = w') as <- by exact Heq. congruence.
  - intros rw ref Hin. by apply Hfan.
Qed.

Lemma act_inv a st st' : sys_inv st -> act a st = Some st' -> sys_inv st'.
Proof.
  intros Hinv. destruct a as [stream req|w|w|w r|w|w|w order|k|k|k|c|k|k|]; cbn; unfold_action.
  - intros [= <-]. by apply inv_create.
  - destruct (sys_threads st !! w) as [th|] eqn:Hth; [|done]. intros [= <-].
    eapply inv_goto; [done|done|done|]. by destruct (si_threads _ Hinv w th Hth).
  - destruct (sys_threads st !! w) as [th|] eqn:Hth; [|done]. by apply run_thread_inv.
  - destruct (sys_threads st !! w) as [th|] eqn:Hth; [|done]. by eapply run_resolution_inv.
  - destruct (sys_threads st !! w) as [th|] eqn:Hth; [|done].
    destruct (thread_pc th) eqn:Hpc; try done. intros [= <-].
    eapply inv_goto; [done|done|done|].
    destruct (si_threads _ Hinv w th Hth) as [Hp Hs Hd]. rewrite Hpc in Hp, Hd. by split.
  - destruct (sys_threads st !! w) as [th|] eqn:Hth; [|done].
    destruct (thread_pc th) eqn:Hpc; try done. case_match; [|done]. intros [= <-].
    destruct (si_threads _ Hinv w th Hth) as [Hp Hs Hd]. rewrite Hpc in Hp, Hd.
    by apply inv_goto_pc; [| |rewrite Hpc|].
  - destruct (sys_threads st !! w) as [th|] eqn:Hth; [|done].
    destruct (thread_pc th) eqn:Hpc; try done.
    destruct (thread_cancelled th && _ && _) eqn:Hguard; [|done]. intros [= <-].
    apply andb_true_iff in Hguard as [_ Hset%bool_decide_eq_true].
    destruct (si_threads _ Hinv w th Hth) as [Hp Hs Hd]. rewrite Hpc in Hp, Hd.
    apply inv_goto_pc; [done|done|by rewrite Hpc|]. split; [|done].
    destruct Hp as (_ & Hrec & _). intros ref Hr%Hs. rewrite Hrec in Hset. set_solver.
  - destruct (sys_deliveries st !! k) as [[w ref]|] eqn:Hk; [|done].
    destruct (sys_threads st !! w) as [th|] eqn:Hth; [|done].
    destruct (thread_pc th) eqn:Hpc; try done. intros [= <-].
    destruct (si_threads _ Hinv w th Hth) as [Hp Hs Hd]. rewrite Hpc in Hp, Hd.
    destruct (si_delivery _ Hinv w ref) as (th' & Hth' & Href);
      [by eapply list_elem_of_lookup_2|]. simplify_eq.
    apply inv_begin; [by apply inv_end_delivery|done|by rewrite Hpc|]. cbn.
    destruct Hp as (? & ? & _). done.
  - destruct (sys_deliveries st !! k) as [[w ref]|] eqn:Hk; [|done]. case_match; [|done].
    intros [= <-]. by apply inv_end_delivery.
  - case_match; [|done]. case_match; [|done]. intros [= <-]. by apply inv_end_delivery.
  - case_match; [|done]. intros [= <-]. by destruct Hinv.
  - destruct (sys_events st !! k) as [c|]; [|done]. intros [= <-].
    apply inv_queues; [done|eauto|]. intros rw ref. rewrite elem_of_app.
    intros [(? & ? & _)%list_elem_of_fmap|]; [done|by left].
  - by apply inv_notifier.
  - intros [= <-]. by destruct Hinv.
Qed.

Lemma step_act a st st' : step a st = Some st' -> sys_crashed st = false /\ act a st = Some st'.
Proof. unfold step. by destruct (sys_crashed st). Qed.

Lemma steps_reachable l st st' : reachable st -> steps l st = Some st' -> reachable st'.
Proof.
  revert st. induction l as [|a l IH]; intros st Hr; cbn; [by intros [= <-]|].
  destruct (step a st) as [st1|] eqn:Ha; [|done]. apply IH. by eapply reachable_step.
Qed.

Lemma inv_init s : sys_inv (init s).
Proof.
  split; [apply wf_newWatches|..]; cbn; unfold subscribers; cbn; intros *;
    rewrite ?lookup_empty; try set_solver; by intros [].
Qed.

Lemma reachable_inv st : reachable st -> sys_inv st.
Proof.
  induction 1 as [s|st a st' _ IH [_ Hact]%step_act]; [apply inv_init|by eapply act_inv].
Qed.
End reachable_lemmas.

(** ** Freshness *)

Section freshness.
Context `{World}.
Implicit Types (st : sys) (th : thread) (w : watcherPtr) (ref : resourceRef).

(** The response for [ref] that the watch of [req] would send, if any. *)
Definition answer (req : DiscoveryRequest) (ref : resourceRef) (v : View)
  : option resolveResponse := ok_result (resolve v (updateRequest req ref)).

(** The store became [s] after the states of the list, the latest first, by
    changes that do not notify [ref]. *)
Inductive quiet_for (ref : resourceRef) : Store -> list Store -> Prop :=
  | quiet_now s : quiet_for ref s []
  | quiet_change c s l :
      allowed c s = true -> ref ∉ notified c (applyChange c s) -> quiet_for ref s l ->
      quiet_for ref (applyChange c s) (s :: l).

(** The handlers keep track of [ref]: over changes that they do not notify, it
    has no answer any more, or the same one whichever states are read; and an
    event that is still to be handled keeps notifying it unless a later event
    does or it has no answer any more. *)
Definition tracked (req : DiscoveryRequest) (ref : resourceRef) : Prop :=
  (forall s l r i, quiet_for ref s l ->
     answer req ref (view s) = None \/
     answer req ref (focus i (mix r s l)) = answer req ref (view s)) /\
  (forall c s, allowed c s = true -> ref ∉ notified c (applyChange c s) ->
     answer req ref (view (applyChange c s)) = None \/
     answer req ref (view (applyChange c s)) = answer req ref (view s)) /\
  (forall c e s, allowed c s = true -> ref ∈ notified e s ->
     ref ∉ notified c (applyChange c s) ->
     answer req ref (view (applyChange c s)) = None \/ ref ∈ notified e (applyChange c s)).

Definition watching (p : pc) : bool :=
  match p with Initial | Sending _ | Waiting | Resolving _ => true | _ => false end.

(** The resolution under way is about [ref]. *)
Definition resolves (p : pc) (ref : resourceRef) : bool :=
  match p with Initial => true | Resolving ref' => bool_decide (ref = ref') | _ => false end.

(** The watch will be told about [ref]. *)
Definition pending (st : sys) (w : watcherPtr) (ref : resourceRef) : Prop :=
  (exists c, c ∈ sys_events st /\ ref ∈ notified c (sys_store st)) \/
  (exists n, n ∈ sys_notifiers st /\ npc_ref n = ref) \/
  (w, ref) ∈ sys_deliveries st.

(** The store has no answer for [ref]. *)
Definition gone (st : sys) (th : thread) (ref : resourceRef) : Prop :=
  answer (thread_req th) ref (view (sys_store st)) = None.

(** What the latest resolution of [ref] read gives the answer of the store. *)
Definition current (st : sys) (th : thread) (ref : resourceRef) : Prop :=
  exists q v i, thread_seen th !! ref = Some (q, v, i) /\
    answer (thread_req th) ref (focus i v) = answer (thread_req th) ref (view (sys_store st)).

(** [ref] was not notified since the resolution under way began. *)
Definition undisturbed (st : sys) (th : thread) (ref : resourceRef) : Prop :=
  thread_since th <= length (sys_past st) /\ quiet_for ref (sys_store st) (window st th).

(** There is nothing to send for [ref], the latest answer is current, the one
    under way will be, or an update is under way. *)
Definition covered (st : sys) (w : watcherPtr) (th : thread) (ref : resourceRef) : Prop :=
  pending st w ref \/ gone st th ref \/
  if resolves (thread_pc th) ref then undisturbed st th ref else current st th ref.

(** The watch promises freshness for [ref]. *)
Definition promises (st : sys) (th : thread) (ref : resourceRef) : Prop :=
  sys_shutdown st = false /\ hasResourceDiff (thread_stream th) (thread_req th) = true /\
  watching (thread_pc th) = true /\ ref ∈ request_refs (thread_req th) /\
  tracked (thread_req th) ref.

Definition fresh_inv (st : sys) : Prop :=
  forall w th ref, sys_threads st !! w = Some th -> promises st th ref -> covered st w th ref.

Lemma saw_seen refs q v th ref :
  ((ref ∉ refs) /\ thread_seen (saw refs q v th) !! ref = thread_seen th !! ref) \/
  (exists i, refs !! i = Some ref /\ (forall k, i < k -> refs !! k <> Some ref) /\
     thread_seen (saw refs q v th) !! ref = Some (q, v, i)).
Proof.
  cbn. induction refs as [|x refs IH] using rev_ind; cbn; [left; set_solver|].
  rewrite imap_app, foldl_app. cbn. rewrite lookup_insert. case_decide as Hx.
  - subst x. right. exists (length refs). rewrite Nat.add_0_r.
    split; [by rewrite lookup_app_r, Nat.sub_diag by lia|]. split; [|done].
    intros k Hk. rewrite lookup_ge_None_2; [done|]. rewrite length_app. cbn. lia.
  - destruct IH as [[Hno IH]|(i & Hi & Hlast & IH)]; [left; set_solver|right].
    exists i. split; [by apply lookup_app_l_Some|]. split; [|done]. intros k Hk.
    destruct (decide (k < length refs)) as [Hlt|Hge]; [rewrite lookup_app_l by done; eauto|].
    rewrite lookup_app_r by lia. destruct (k - length refs); cbn; naive_solver.
Qed.

(** Steps that only touch one thread and the registry. *)
Lemma fresh_put st w th' reg :
  fresh_inv st -> (forall ref, promises st th' ref -> covered st w th' ref) ->
  fresh_inv (put_thread w th' (set_reg reg st)).
Proof.
  intros Hfresh Hth' w' th0 ref. cbn. rewrite lookup_insert. case_decide as Heq.
  - intros [= <-]. subst w'. apply Hth'.
  - intros Hth0. apply (Hfresh w' th0 ref Hth0).
Qed.

Lemma fresh_goto st w th' :
  fresh_inv st -> (forall ref, promises st th' ref -> covered st w th' ref) ->
  fresh_inv (put_thread w th' st).
Proof.
  intros. replace st with (set_reg (sys_reg st) st) by by destruct st. by eapply fresh_put.
Qed.

(** A thread that does not promise anything. *)
Lemma not_watching st th ref : watching (thread_pc th) = false -> ~ promises st th ref.
Proof. intros Hpc (_ & _ & Hw & _). congruence. Qed.

(** A thread that keeps what it has seen, between resolutions. *)
Lemma covered_keep st w th th' ref :
  thread_seen th' = thread_seen th -> thread_req th' = thread_req th ->
  resolves (thread_pc th) ref = false -> resolves (thread_pc th') ref = false ->
  covered st w th ref -> covered st w th' ref.
Proof. unfold covered, gone, current. by intros -> -> -> ->. Qed.

(** A move between two points that are not part of a resolution. *)
Lemma fresh_between st w th th' :
  fresh_inv st -> sys_threads st !! w = Some th -> watching (thread_pc th) = true ->
  thread_seen th' = thread_seen th -> thread_req th' = thread_req th ->
  thread_stream th' = thread_stream th ->
  (forall ref, resolves (thread_pc th) ref = false) ->
  (forall ref, resolves (thread_pc th') ref = false) -> fresh_inv (put_thread w th' st).
Proof.
  intros Hfresh Hth Hw Hseen Hreq Hstream Hp Hp'. apply fresh_goto; [done|].
  intros ref (Hsh & Hdiff & _ & Href & Htr). rewrite Hreq, ?Hstream in *.
  apply (covered_keep st w th); [done|done|done|done|]. apply (Hfresh w th ref); [done|].
  by split_and!.
Qed.

(** A resolution that begins now has seen no change. *)
Lemma begin_covered st w th p ref :
  covered st w {| thread_req := thread_req th; thread_stream := thread_stream th;
                  thread_cancelled := thread_cancelled th; thread_pc := p;
                  thread_since := length (sys_past st);
                  thread_sent := thread_sent th; thread_seen := thread_seen th |} ref \/
  resolves p ref = false.
Proof.
  destruct (resolves p ref) eqn:Hp; [left|by right]. right. right. cbn. rewrite Hp. split; [done|].
  unfold window. cbn. rewrite Nat.sub_diag. constructor.
Qed.

Lemma fresh_resolve st w th refs req r :
  fresh_inv st -> sys_threads st !! w = Some th -> watching (thread_pc th) = true ->
  (forall ref, ref ∈ request_refs (thread_req th) -> ref ∈ refs <-> resolves (thread_pc th) ref = true) ->
  fresh_inv (resolve_and_send w th refs req (mix r (sys_store st) (window st th)) st).
Proof.
  intros Hfresh Hth Hwatch Hrefs. unfold resolve_and_send.
  set (v := mix r (sys_store st) (window st th)).
  assert (forall p, (forall ref, resolves p ref = false) -> watching p = true ->
    fresh_inv (goto w (saw refs req v th) p st)) as Hgoto.
  { intros p Hp Hwp. apply fresh_goto; [done|]. intros ref (Hsh & Hdiff & _ & Href & Htr).
    destruct (Hfresh w th ref Hth) as [?|[?|Hcov]]; [by split_and!|by left|right; by left|right].
    cbn [thread_pc set_pc]. rewrite Hp. unfold current. cbn [thread_req set_pc saw] in *.
    destruct (saw_seen refs req v th ref) as [[Hno Hseen]|(i & Hi & _ & Hseen)].
    - right. destruct (resolves (thread_pc th) ref) eqn:Hres; [by destruct Hno; apply Hrefs|].
      unfold current in Hcov. by rewrite <-Hseen in Hcov.
    - apply list_elem_of_lookup_2 in Hi as Hin. apply Hrefs in Hin; [|done]. rewrite Hin in Hcov.
      destruct (proj1 Htr (sys_store st) (window st th) r i) as [?|Hsame]; [apply Hcov|by left|right].
      exists req, v, i. by split. }
  destruct (resolve v req); [by apply Hgoto..|exact Hfresh].
Qed.

Lemma fresh_run_thread st w th st' :
  fresh_inv st -> sys_threads st !! w = Some th -> run_thread w th st = Some st' ->
  fresh_inv st'.
Proof.
  intros Hfresh Hth. unfold run_thread.
  destruct (thread_pc th) as [[|ref todo] q| | | |ref|[|ref todo] q| |] eqn:Hpc; try done.
  - intros [= <-]. apply fresh_goto; [done|]. intros ref _.
    by destruct (begin_covered st w th Initial ref).
  - intros [= <-]. unfold run_subscribe, goto. destruct q; repeat case_match;
      first [apply fresh_put|apply fresh_goto]; try done; by intros ? []%not_watching.
  - case_match eqn:Hdiff; [done|]. intros [= <-]. apply fresh_goto; [done|].
    intros ref (_ & Hd & _). cbn in Hd. congruence.
  - intros [= <-]. apply fresh_goto; [done|]. by intros ? []%not_watching.
  - intros [= <-]. unfold run_release, goto. destruct q; repeat case_match;
      first [apply fresh_put|apply fresh_goto]; try done; by intros ? []%not_watching.
  - case_match; intros [= <-]; [|done|done]. apply fresh_put; [done|].
    by intros ? []%not_watching.
Qed.

Lemma fresh_run_resolution st w r th st' :
  fresh_inv st -> sys_threads st !! w = Some th -> run_resolution w r th st = Some st' ->
  fresh_inv st'.
Proof.
  intros Hfresh Hth. unfold run_resolution. destruct (thread_pc th) as [| | | |ref| | |] eqn:Hpc; try done.
  - case_match; [|done]. intros [= <-]. apply fresh_resolve; by rewrite ?Hpc.
  - intros [= <-]. apply fresh_resolve; rewrite ?Hpc; try done. intros ref' _. cbn.
    rewrite bool_decide_eq_true. set_solver.
Qed.

Lemma elem_of_delete_ne {A} (l : list A) k x y :
  l !! k = Some y -> x ∈ l -> x <> y -> x ∈ delete k l.
Proof.
  intros Hk Hx Hne. rewrite <-(take_drop_middle l k y Hk) in Hx.
  rewrite delete_take_drop. set_solver.
Qed.

(** Steps that only touch the queues. *)
Lemma fresh_queues st events notifiers deliveries :
  sys_inv st -> fresh_inv st ->
  (forall c ref, c ∈ sys_events st -> ref ∈ notified c (sys_store st) ->
     c ∈ events \/ exists n, n ∈ notifiers /\ npc_ref n = ref) ->
  (forall n, n ∈ sys_notifiers st ->
     (exists n', n' ∈ notifiers /\ npc_ref n' = npc_ref n) \/
     forall w, w ∈ subscribers (sys_reg st) (npc_ref n) -> (w, npc_ref n) ∈ deliveries) ->
  (forall w ref, (w, ref) ∈ sys_deliveries st -> (w, ref) ∈ deliveries) ->
  fresh_inv (set_queues events notifiers deliveries st).
Proof.
  intros Hinv Hfresh He Hn Hd w th ref Hth Hpr. cbn in Hth.
  assert (w ∈ subscribers (sys_reg st) ref) as Hsub.
  { destruct (si_threads _ Hinv w th Hth) as [Hp _ _]. destruct Hpr as (_ & _ & Hw & Href & _).
    destruct (thread_pc th); try done; by apply Hp. }
  destruct (Hfresh w th ref Hth Hpr) as [Hpend|?]; [left|by right].
  destruct Hpend as [(c & Hc & Hin)|[(n & Hin & <-)|Hin]].
  - destruct (He c ref Hc Hin) as [?|?]; [left; eauto|right; by left].
  - destruct (Hn n Hin) as [(n' & ? & ?)|Hall]; right; [left; eauto|right]. by apply Hall.
  - do 2 right. by apply Hd.
Qed.

Lemma fresh_notifier st k st' :
  sys_inv st -> fresh_inv st -> run_notifier k st = Some st' -> fresh_inv st'.
Proof.
  intros Hinv Hfresh. unfold run_notifier, getResourceWatchers.
  destruct (sys_notifiers st !! k) as [n|] eqn:Hk; [|done].
  assert (forall n', n' ∈ sys_notifiers st -> n' <> n -> n' ∈ delete k (sys_notifiers st)) as Hdel
    by eauto using elem_of_delete_ne.
  assert (forall n', n' ∈ sys_notifiers st -> n' = n \/ n' <> n) as Hdec.
  { intros n' _. destruct n, n'; try (right; done).
    - destruct (decide (ref0 = ref)); [left|right]; congruence.
    - destruct (decide (rw0 = rw /\ ref0 = ref)); [left|right]; naive_solver congruence. }
  destruct n as [ref|rw ref].
  - destruct (watches_watchers (sys_reg st) !! ref) as [rw|] eqn:Hrw; intros [= <-];
      apply fresh_queues; eauto; intros n' Hin; destruct (Hdec n' Hin) as [->|Hne].
    + left. exists (NFan rw ref). split; [left|done].
    + left. exists n'. split; [right|]; eauto.
    + right. intros w. cbn. unfold subscribers. rewrite Hrw. set_solver.
    + left. eauto.
  - intros [= <-]. apply fresh_queues; eauto; [|intros; rewrite elem_of_app; by right].
    intros n' Hin. destruct (Hdec n' Hin) as [->|Hne]; [right|left; eauto].
    assert (watches_watchers (sys_reg st) !! ref = Some rw) as Hrw
      by (apply (si_fan _ Hinv); by eapply list_elem_of_lookup_2).
    intros w Hw. rewrite elem_of_app. left. cbn in *. unfold resourceWatchers_notifyChanged.
    apply list_elem_of_fmap. exists w. split; [done|]. apply elem_of_elements.
    unfold subscribers in Hw. by rewrite Hrw in Hw.
Qed.

Lemma pending_deleted st k w ref w' ref' :
  sys_deliveries st !! k = Some (w, ref) -> (w', ref') <> (w, ref) ->
  pending st w' ref' -> pending (end_delivery k st) w' ref'.
Proof.
  intros Hk Hne [?|[?|Hin]]; [by left|right; by left|do 2 right].
  by eapply elem_of_delete_ne.
Qed.

Lemma fresh_receive st k w ref th :
  fresh_inv st -> sys_deliveries st !! k = Some (w, ref) -> sys_threads st !! w = Some th ->
  thread_pc th = Waiting -> fresh_inv (begin w th (Resolving ref) (end_delivery k st)).
Proof.
  intros Hfresh Hk Hth Hpc w' th' ref'. cbn. rewrite lookup_insert. case_decide as Heq.
  - intros [= <-] (Hsh & Hdiff & _ & Href & Htr). subst w'.
    destruct (begin_covered (end_delivery k st) w th (Resolving ref) ref') as [?|Hres]; [done|].
    destruct (Hfresh w th ref' Hth) as [Hpend|[?|Hcur]]; [split_and!; by rewrite ?Hpc| |right; by left|].
    + left. apply (pending_deleted st k w ref); [done| |done]. cbn in Hres.
      apply bool_decide_eq_false in Hres. congruence.
    + right. right. cbn [thread_pc]. rewrite Hres. by rewrite Hpc in Hcur.
  - intros Hth' Hpr. destruct (Hfresh w' th' ref' Hth' Hpr) as [Hpend|?]; [left|by right].
    apply (pending_deleted st k w ref); [done|congruence|done].
Qed.

(** A delivery to a watcher that has ended ends. *)
Lemma fresh_drop st k w ref :
  fresh_inv st -> sys_deliveries st !! k = Some (w, ref) ->
  (forall th, sys_threads st !! w = Some th -> watching (thread_pc th) = false) ->
  fresh_inv (end_delivery k st).
Proof.
  intros Hfresh Hk Hex w' th' ref' Hth' Hpr. cbn in Hth'.
  destruct (Hfresh w' th' ref' Hth' Hpr) as [Hpend|?]; [left|by right].
  apply (pending_deleted st k w ref); [done| |done]. intros [= -> ->].
  by destruct (not_watching st th' ref (Hex th' Hth')).
Qed.

Lemma fresh_update st c st' :
  fresh_inv st -> act (Update c) st = Some st' -> fresh_inv st'.
Proof.
  intros Hfresh. cbn. destruct (allowed c (sys_store st)) eqn:Hc; [|done].
  intros [= <-] w th ref Hth Hpr. cbn in Hth.
  destruct (decide (ref ∈ notified c (applyChange c (sys_store st)))) as [Hin|Hin].
  { left. left. exists c. split; [|done]. cbn. set_solver. }
  destruct (Hpr) as (_ & _ & _ & _ & _ & Hsame & Hlater).
  destruct (Hsame c (sys_store st) Hc Hin) as [?|Heq]; [right; by left|].
  destruct (Hfresh w th ref Hth Hpr) as [Hpend|[Hgone|Hcur]].
  - destruct Hpend as [(e & He & Hne)|?]; [|left; by right].
    destruct (Hlater c e (sys_store st) Hc Hne Hin) as [?|?]; [right; by left|].
    left. left. exists e. split; [cbn; set_solver|done].
  - right. left. unfold gone in *. cbn. by rewrite Heq.
  - right. right. destruct (resolves (thread_pc th) ref).
    + destruct Hcur as [Hle Hquiet]. split; [cbn; lia|]. unfold window in *. cbn [sys_past length].
      rewrite Nat.sub_succ_l by done. cbn. by constructor.
    + destruct Hcur as (q & v & i & Hv & Ha). exists q, v, i. split; [done|]. cbn. by rewrite Heq.
Qed.

Lemma fresh_act a st st' :
  sys_inv st -> fresh_inv st -> act a st = Some st' -> fresh_inv st'.
Proof.
  intros Hinv Hfresh Hact. pose proof Hact as Hact'. revert Hact.
  destruct a as [stream req|w|w|w r|w|w|w order|k|k|k|c|k|k|]; cbn; unfold_action.
  - intros [= <-]. apply fresh_put; [done|]. by intros ? []%not_watching.
  - destruct (sys_threads st !! w) as [th|] eqn:Hth; [|done]. intros [= <-].
    apply fresh_goto; [done|]. intros ref. by apply (Hfresh w th ref).
  - destruct (sys_threads st !! w) as [th|] eqn:Hth; [|done]. by apply fresh_run_thread.
  - destruct (sys_threads st !! w) as [th|] eqn:Hth; [|done]. by apply fresh_run_resolution.
  - destruct (sys_threads st !! w) as [th|] eqn:Hth; [|done].
    destruct (thread_pc th) eqn:Hpc; try done. intros [= <-].
    by apply (fresh_between st w th); rewrite ?Hpc.
  - destruct (sys_threads st !! w) as [th|] eqn:Hth; [|done].
    destruct (thread_pc th) eqn:Hpc; try done. case_match; [|done]. intros [= <-].
    by apply (fresh_between st w th); rewrite ?Hpc.
  - destruct (sys_threads st !! w) as [th|] eqn:Hth; [|done].
    destruct (thread_pc th); try done. case_match; [|done]. intros [= <-].
    apply fresh_goto; [done|]. by intros ? []%not_watching.
  - destruct (sys_deliveries st !! k) as [[w ref]|] eqn:Hk; [|done].
    destruct (sys_threads st !! w) as [th|] eqn:Hth; [|done].
    destruct (thread_pc th) eqn:Hpc; try done. intros [= <-]. by apply fresh_receive.
  - destruct (sys_deliveries st !! k) as [[w ref]|] eqn:Hk; [|done].
    destruct (default false _) eqn:Hdone; [|done]. intros [= <-]. eapply fresh_drop; [done|done|].
    intros th Hth. destruct (si_threads _ Hinv w th Hth) as [_ _ Hd]. rewrite Hd in Hdone.
    by destruct (thread_pc th).
  - case_match; [|done]. destruct (sys_shutdown st) eqn:Hsh; [|done].
    intros [= <-] w th ref _ [Hsh' _]. cbn in Hsh'. congruence.
  - intros _. by eapply fresh_update.
  - destruct (sys_events st !! k) as [c|] eqn:Hk; [|done]. intros [= <-].
    apply fresh_queues; [done|done|..|done].
    + intros c' ref Hc' Hin. destruct (proj1 (list_elem_of_lookup _ _) Hc') as [k' Hk'].
      destruct (decide (k' = k)) as [->|Hne].
      * right. simplify_eq. exists (NGet ref). split; [|done]. rewrite elem_of_app. left.
        by apply list_elem_of_fmap_2.
      * left. rewrite delete_take_drop, elem_of_app. destruct (decide (k' < k)) as [Hlt|Hge].
        -- left. eapply list_elem_of_lookup_2. rewrite lookup_take_lt; done.
        -- right. apply (list_elem_of_lookup_2 _ (k' - S k)). rewrite lookup_drop.
           by replace (S k + (k' - S k)) with k' by lia.
    + intros n Hn. left. exists n. split; [|done]. rewrite elem_of_app. by right.
  - by apply fresh_notifier.
  - intros [= <-] w th ref _ [Hsh _]. done.
Qed.

Lemma reachable_fresh st : reachable st -> fresh_inv st.
Proof.
  induction 1 as [s|st a st' Hr IH [_ Hact]%step_act].
  - intros w th ref. cbn. by rewrite lookup_empty.
  - eapply fresh_act; eauto using reachable_inv.
Qed.
End freshness.
