(* ===== verification/WatchProperties.v ===== *)
(** What holds in every run of the concurrent system of [WatchSystem]:
    subscriptions follow the life of a watch goroutine, nothing is left behind
    when it ends, no update is lost while it runs, and it ends when cancelled. *)

From S2P Require Import Prelude GoStrings GoPath GoStrconv GoHash Api Errors Xds ResourceName Interceptors Routes Resolver K8s Listers ListenerHandler ClusterHandler EndpointHandler Watches ConfigWatcher WatchSystem.

Section cancellation.
Context `{World}.
Implicit Types (st : sys) (th : thread) (w : watcherPtr) (ref : resourceRef).

(** The actions of the goroutine of [w] alone. *)
Definition own_action (w : watcherPtr) (a : action) : Prop :=
  match a with
  | Run w' | Resolve w' _ | SendAborted w' | Leave w' _ => w' = w
  | _ => False
  end.

Definition subpc_rank (q : subpc) : nat :=
  match q with WGet => 4 | WCreate => 3 | WCheck _ => 2 | WAdd _ => 1 | WRecord => 0 end.

Definition relpc_rank (q : relpc) : nat :=
  match q with RGet => 2 | RCheck _ => 1 | RDel _ => 0 end.

(** The number of own actions until the goroutine has ended, at most; [n] is
    the number of resources it watches. *)
Definition rank (n : nat) (p : pc) : nat :=
  match p with
  | Exited => 0
  | Closing => 1
  | Releasing todo q => 2 + 3 * length todo + relpc_rank q
  | Waiting => 5 + 3 * n
  | Sending _ => 6 + 3 * n
  | Resolving _ | Initial => 7 + 3 * n
  | Subscribing todo q => 8 + 3 * n + 5 * length todo + subpc_rank q
  end.

Definition thread_rank (th : thread) : nat :=
  rank (length (request_refs (thread_req th))) (thread_pc th).

(** [st'] is [st] with the goroutine of [w] closer to its end. *)
Definition closer (w : watcherPtr) (st st' : sys) : Prop :=
  sys_store st' = sys_store st /\ sys_crashed st' = false /\
  exists th th', sys_threads st !! w = Some th /\ sys_threads st' !! w = Some th' /\
    thread_req th' = thread_req th /\ thread_cancelled th' = thread_cancelled th /\
    thread_rank th' < thread_rank th.

Lemma closer_goto w th th' reg st :
  sys_threads st !! w = Some th -> sys_crashed st = false ->
  thread_req th' = thread_req th -> thread_cancelled th' = thread_cancelled th ->
  thread_rank th' < thread_rank th -> closer w st (put_thread w th' (set_reg reg st)).
Proof.
  intros Hth Hcr Hreq Hca Hlt. split; [done|]. split; [done|].
  exists th, th'. cbn. by rewrite lookup_insert_eq.
Qed.

Lemma closer_move w th th' st :
  sys_threads st !! w = Some th -> sys_crashed st = false ->
  thread_req th' = thread_req th -> thread_cancelled th' = thread_cancelled th ->
  thread_rank th' < thread_rank th -> closer w st (put_thread w th' st).
Proof.
  intros. replace st with (set_reg (sys_reg st) st) at 2 by by destruct st.
  by eapply closer_goto.
Qed.

(** The resolver does not panic on what a watch asks for: its first request and
    the later ones for each of its resources. *)
Definition asks_safely (req : DiscoveryRequest) (v : View) : Prop :=
  no_panic (resolve v (initialRequest req)) /\
  Forall (fun ref => no_panic (resolve v (updateRequest req ref))) (request_refs req).

Lemma closer_resolve w th refs req v st :
  sys_threads st !! w = Some th -> sys_crashed st = false ->
  no_panic (resolve v req) ->
  (thread_pc th = Initial \/ exists ref, thread_pc th = Resolving ref) ->
  closer w st (resolve_and_send w th refs req v st).
Proof.
  intros Hth Hcr Hnp Hpc. unfold resolve_and_send.
  destruct (resolve v req); [..|done];
    (eapply closer_move; [done|done|done|done|]; unfold thread_rank; cbn;
     destruct Hpc as [->|[ref ->]]; cbn; lia).
Qed.

Lemma run_closer w th st :
  sys_inv st -> sys_threads st !! w = Some th -> sys_crashed st = false ->
  asks_safely (thread_req th) (view (sys_store st)) ->
  match thread_pc th with Sending _ | Waiting | Exited => False | _ => True end ->
  exists st', act (Run w) st = Some st' /\ closer w st st' \/
    act (Resolve w now) st = Some st' /\ closer w st st'.
Proof.
  intros Hinv Hth Hcr Hnp Hpc'. pose proof (si_threads _ Hinv w th Hth) as [Hp _ Hd].
  cbn [act]. unfold with_thread. rewrite Hth. unfold run_thread, run_resolution. rewrite mix_now.
  destruct (thread_pc th) as [[|ref todo] q| | | |ref|[|ref todo] q| |] eqn:Hpc; try done.
  - eexists. left. split; [done|]. eapply closer_move; [done..|]. unfold thread_rank. cbn.
    rewrite Hpc. cbn. lia.
  - eexists. left. split; [done|]. unfold run_subscribe. destruct q; repeat case_match;
      (first [eapply closer_goto|eapply closer_move]; [done..|]); unfold thread_rank; cbn;
      rewrite Hpc; cbn; lia.
  - case_match; eexists; [right|left]; (split; [done|]).
    + apply closer_resolve; [done|done|apply Hnp|by left].
    + eapply closer_move; [done..|]. unfold thread_rank. cbn. rewrite Hpc. cbn. lia.
  - eexists. right. split; [done|]. apply closer_resolve; [done|done| |by eauto].
    destruct Hnp as [_ Hnp]. rewrite Forall_forall in Hnp. by apply Hnp, Hp.
  - eexists. left. split; [done|]. eapply closer_move; [done..|]. unfold thread_rank. cbn.
    rewrite Hpc. cbn. lia.
  - eexists. left. split; [done|]. unfold run_release. destruct q; repeat case_match;
      (first [eapply closer_goto|eapply closer_move]; [done..|]); unfold thread_rank; cbn;
      rewrite Hpc; cbn; lia.
  - unfold closeDone. rewrite Hd. cbn [default is_exited]. eexists. left. split; [done|].
    eapply closer_goto; [done..|]. unfold thread_rank. cbn. rewrite Hpc. cbn. lia.
Qed.

Lemma size_list_to_set (l : list resourceRef) : size (list_to_set l : gset resourceRef) <= length l.
Proof.
  induction l as [|x l IH]; cbn [list_to_set length]; [by rewrite size_empty|].
  change (size ({[x]} ∪ list_to_set l : gset resourceRef) <= S (length l)).
  rewrite size_union_alt, size_singleton.
  pose proof (subseteq_size (list_to_set l ∖ {[x]}) (list_to_set l : gset resourceRef)). set_solver by lia.
Qed.

Lemma own_step w th st :
  sys_inv st -> sys_threads st !! w = Some th -> sys_crashed st = false ->
  thread_cancelled th = true -> thread_pc th <> Exited ->
  asks_safely (thread_req th) (view (sys_store st)) ->
  exists a st', own_action w a /\ step a st = Some st' /\ closer w st st'.
Proof.
  intros Hinv Hth Hcr Hca Hne Hnp. unfold step. rewrite Hcr.
  pose proof (run_closer w th st Hinv Hth Hcr Hnp) as Hrun.
  destruct (thread_pc th) eqn:Hpc; try done;
    try (destruct (Hrun I) as (st' & [[Hst' ?]|[Hst' ?]]); [by exists (Run w), st'|
         by exists (Resolve w now), st']).
  - exists (SendAborted w). eexists. cbn. unfold_action. rewrite Hth, Hpc, Hca.
    split; [done|]. split; [done|]. eapply closer_move; [done..|]. unfold thread_rank. cbn.
    rewrite Hpc. cbn. lia.
  - exists (Leave w (elements (watchedResources w (sys_reg st)))). eexists. cbn.
    unfold_action. rewrite Hth, Hpc, Hca. cbn.
    rewrite !bool_decide_eq_true_2 by (first [apply NoDup_elements|by rewrite list_to_set_elements_L]).
    split; [done|]. split; [done|]. eapply closer_move; [done..|]. unfold thread_rank. cbn.
    rewrite Hpc. cbn. pose proof (si_threads _ Hinv w th Hth) as [Hp _ _]. rewrite Hpc in Hp.
    destruct Hp as (_ & Hrec & _). rewrite Hrec.
    pose proof (size_list_to_set (request_refs (thread_req th))) as Hsize. unfold size, set_size in Hsize.
    cbn in Hsize. lia.
Qed.
End cancellation.

Section exits.
Context `{World}.
Implicit Types (st : sys) (th : thread) (w : watcherPtr).

Lemma own_steps_exit n w th st :
  thread_rank th <= n ->
  reachable st -> sys_threads st !! w = Some th -> sys_crashed st = false ->
  thread_cancelled th = true -> asks_safely (thread_req th) (view (sys_store st)) ->
  exists l st' th', length l <= n /\ Forall (own_action w) l /\ steps l st = Some st' /\
    sys_threads st' !! w = Some th' /\ thread_pc th' = Exited.
Proof.
  revert st th. induction n as [|n IH]; intros st th Hn Hr Hth Hcr Hca Hnp;
    destruct (thread_pc th) eqn:Hpc;
    try (exists [], st, th; split_and!; [cbn; lia|constructor|done|done|done]);
    try (unfold thread_rank in Hn; rewrite Hpc in Hn; cbn in Hn; lia).
  all: destruct (own_step w th st) as (a & st' & Ha & Hst & Hst1 & Hcr' & th0 & th' & Hth0 & Hth' & Hreq & Hca' & Hlt);
    eauto using reachable_inv; try congruence.
  all: rewrite Hth in Hth0; injection Hth0 as <-.
  all: destruct (IH st' th') as (l & st2 & th2 & ? & ? & ? & ? & ?);
    [lia|by eapply reachable_step|done|done|by rewrite Hca'|by rewrite Hst1, Hreq|].
  all: exists (a :: l), st2, th2; cbn [steps length]; rewrite Hst; split_and!; [lia|by constructor|done..].
Qed.
End exits.

(** ** Properties *)

Section watch_properties.
Context `{World}.

(** When nothing that concerns a tracked resource is pending, the current store
    has no answer for it, or it is the last one a waiting watch computed. *)
Lemma quiet_watch_current st w th ref :
  reachable st -> sys_shutdown st = false -> sys_threads st !! w = Some th ->
  hasResourceDiff (thread_stream th) (thread_req th) = true -> thread_pc th = Waiting ->
  ref ∈ request_refs (thread_req th) -> tracked (thread_req th) ref ->
  (forall c, c ∈ sys_events st -> ref ∉ notified c (sys_store st)) ->
  (forall n, n ∈ sys_notifiers st -> npc_ref n <> ref) ->
  (w, ref) ∉ sys_deliveries st ->
  gone st th ref \/ current st th ref.
Proof.
  intros Hr Hsh Hth Hdiff Hpc Href Htr He Hn Hd.
  destruct (reachable_fresh st Hr w th ref Hth)
    as [[(c & Hc & Hin)|[(n & Hin & Hnr)|Hin]]|[?|Hcur]].
  - split_and!; by rewrite ?Hpc.
  - by destruct (He c Hc).
  - by destruct (Hn n Hin).
  - by destruct (Hd Hin).
  - by left.
  - right. by rewrite Hpc in Hcur.
Qed.

(** C12: subscriptions follow the program point. From its initial resolution
    until it leaves its loop, a watch is subscribed to exactly the resources of
    its request; once it has ended it is subscribed to none, its channel [done]
    is closed, and every delivery still addressed to it can end. *)
Theorem subscriptions_follow_watch st w th :
  reachable st -> sys_threads st !! w = Some th ->
  (match thread_pc th with
   | Initial | Sending _ | Waiting | Resolving _ => True
   | _ => False
   end ->
   forall ref, w ∈ subscribers (sys_reg st) ref <-> ref ∈ request_refs (thread_req th)) /\
  (thread_pc th = Exited ->
   (forall ref, w ∉ subscribers (sys_reg st) ref) /\
   forall k ref, sys_deliveries st !! k = Some (w, ref) ->
     act (DropDone k) st = Some (end_delivery k st)).
Proof.
  intros Hr Hth. destruct (si_threads _ (reachable_inv st Hr) w th Hth) as [Hp Hs Hd]. split.
  - intros Hpc ref. split; [apply Hs|]. intros Href. destruct (thread_pc th); try done;
      by apply Hp.
  - intros Hpc. rewrite Hpc in Hp, Hd. split; [exact Hp|]. intros k ref Hk. cbn.
    unfold_action. by rewrite Hk, Hd.
Qed.

(** C13: a cancelled watch ends by itself. From any reachable state in which
    the process has not crashed and the resolver does not panic on the requests of
    this watch, on the current store, the goroutine of a cancelled watch reaches its end by its own actions only, without waiting for the
    client, a change or another goroutine, within [thread_rank] actions. *)
Theorem cancelled_watch_exits st w th :
  reachable st -> sys_crashed st = false -> sys_threads st !! w = Some th ->
  thread_cancelled th = true -> asks_safely (thread_req th) (view (sys_store st)) ->
  exists l st' th', length l <= thread_rank th /\ Forall (own_action w) l /\
    steps l st = Some st' /\ sys_threads st' !! w = Some th' /\ thread_pc th' = Exited.
Proof. intros. by eapply own_steps_exit. Qed.

(** A watch is only told about what it asked for. Whatever the
    interleaving, a pending delivery addresses an existing watch and carries a
    resource of its request; and a resolution that follows a notification is of
    such a resource. *)
Theorem deliveries_requested st :
  reachable st ->
  (forall w ref, (w, ref) ∈ sys_deliveries st ->
     exists th, sys_threads st !! w = Some th /\ ref ∈ request_refs (thread_req th)) /\
  (forall w th ref, sys_threads st !! w = Some th -> thread_pc th = Resolving ref ->
     ref ∈ request_refs (thread_req th)).
Proof.
  intros Hr%reachable_inv. split; [apply (si_delivery _ Hr)|]. intros w th ref Hth Hpc.
  destruct (si_threads _ Hr w th Hth) as [Hp _ _]. rewrite Hpc in Hp. apply Hp.
Qed.

(** C40: one [resourceWatchers] object per resource. In any interleaving of
    subscriptions, a goroutine that has got hold of the object of a resource
    holds the one the registry has for it, so that nobody subscribes to an
    object that was overwritten; and two resources never share an object. *)
Theorem one_object_per_resource st :
  reachable st ->
  (forall w th ref todo rw, sys_threads st !! w = Some th ->
     thread_pc th = Subscribing (ref :: todo) (WCheck rw) \/
     thread_pc th = Subscribing (ref :: todo) (WAdd rw) \/
     thread_pc th = Releasing (ref :: todo) (RCheck rw) \/
     thread_pc th = Releasing (ref :: todo) (RDel rw) ->
     watches_watchers (sys_reg st) !! ref = Some rw) /\
  (forall rw ref, NFan rw ref ∈ sys_notifiers st -> watches_watchers (sys_reg st) !! ref = Some rw) /\
  (forall ref1 ref2 rw, watches_watchers (sys_reg st) !! ref1 = Some rw ->
     watches_watchers (sys_reg st) !! ref2 = Some rw -> ref1 = ref2).
Proof.
  intros Hr%reachable_inv. split; [|split; [apply (si_fan _ Hr)|apply (si_wf _ Hr)]].
  intros w th ref todo rw Hth Hpc. destruct (si_threads _ Hr w th Hth) as [Hp _ _].
  destruct Hpc as [Hpc|[Hpc|[Hpc|Hpc]]]; rewrite Hpc in Hp; cbn in Hp; naive_solver.
Qed.
End watch_properties.
