(* ===== verification/Settling.v ===== *)
(** The concurrent system of [WatchSystem] comes to rest.

    When the outside does nothing more than take the responses that are sent,
    each step of a goroutine makes a measure smaller, in whatever order they
    run: events are handled once, a handled event makes finitely many
    notifications, a notification finitely many deliveries, a delivery one
    resolution and one response. So the goroutines stop after finitely many
    steps, and where none can step nothing is pending. *)

From S2P Require Import Prelude GoStrings GoPath GoStrconv GoHash Api Errors Xds ResourceName Interceptors Routes Resolver K8s Listers ListenerHandler ClusterHandler EndpointHandler Watches ConfigWatcher WatchSystem WatchProperties.

(** ** Lexicographic descent *)

(** Tuples of numbers, the first ones first. *)
Inductive descends : list nat -> list nat -> Prop :=
  | descends_here a b l m : a < b -> length l = length m -> descends (a :: l) (b :: m)
  | descends_later a l m : descends l m -> descends (a :: l) (a :: m).

Lemma descends_length l m : descends l m -> length l = length m.
Proof. induction 1; cbn; lia. Qed.

Lemma descends_wf : well_founded descends.
Proof.
  assert (forall n m, length m = n -> Acc descends m) as Hacc; [|by intros m; apply (Hacc (length m))].
  induction n as [|n IH]; intros m Hm.
  { destruct m; [|done]. constructor. intros l Hl. inversion Hl. }
  destruct m as [|b m]; [done|]. cbn in Hm. assert (length m = n) as Hn by lia. clear Hm.
  revert m Hn. induction (lt_wf b) as [b _ IHb]. intros m Hn.
  pose proof (IH m Hn) as Hm. revert Hn. induction Hm as [m _ IHm]. intros Hn.
  constructor. intros l Hl. inversion Hl as [a ? l' ? Hlt Hlen|? l' ? Hl']; subst.
  - apply IHb; [done|congruence].
  - apply IHm; [done|]. by apply descends_length.
Qed.

Section settling.
Context `{World}.
Implicit Types (st : sys) (th : thread) (w : watcherPtr) (ref : resourceRef).

(** The actions of the goroutines, and that responses are taken. *)
Definition internal (a : action) : bool :=
  match a with
  | Run _ | Resolve _ _ | Send _ | SendAborted _ | Leave _ _ | Receive _ | DropDone _ | DropShutdown _
  | Handle _ | Notify _ => true
  | Create _ _ | Cancel _ | Update _ | Shutdown => false
  end.

Definition internal_step st st' : Prop :=
  exists a, internal a = true /\ step a st = Some st'.

(** ** The measure *)

Definition npc_rank (n : npc) : nat := match n with NGet _ => 2 | NFan _ _ => 1 end.

Definition notifiers_rank (ns : list npc) : nat := sum_list_with npc_rank ns.

Definition threads_rank (m : gmap watcherPtr thread) : nat :=
  map_fold (fun _ th n => thread_rank th + n) 0 m.

Definition work st : list nat :=
  [if sys_crashed st then 0 else 1; length (sys_events st); notifiers_rank (sys_notifiers st);
   length (sys_deliveries st); threads_rank (sys_threads st)].

Lemma threads_rank_delete m w th :
  m !! w = Some th -> threads_rank m = thread_rank th + threads_rank (delete w m).
Proof. intros Hth. unfold threads_rank.
  apply (map_fold_delete_L (fun _ th n => thread_rank th + n) 0 w th m); [intros; lia|done]. Qed.

Lemma threads_rank_insert m w th th' :
  m !! w = Some th -> thread_rank th' < thread_rank th ->
  threads_rank (<[w := th']> m) < threads_rank m.
Proof.
  intros Hth Hlt. rewrite (threads_rank_delete m w th Hth).
  rewrite (threads_rank_delete _ w th') by apply lookup_insert_eq.
  rewrite delete_insert_eq. lia.
Qed.

(** A goroutine gets closer to its end, and the queues are as they were. *)
Definition moves w th st st' : Prop :=
  sys_crashed st' = sys_crashed st /\ sys_events st' = sys_events st /\
  sys_notifiers st' = sys_notifiers st /\ sys_deliveries st' = sys_deliveries st /\
  exists th', sys_threads st' = <[w := th']> (sys_threads st) /\ thread_rank th' < thread_rank th.

Lemma moves_put w th th' st : thread_rank th' < thread_rank th -> moves w th st (put_thread w th' st).
Proof. intros Hlt. split_and!; [done..|]. by exists th'. Qed.

Lemma moves_put_reg w th th' reg st :
  thread_rank th' < thread_rank th -> moves w th st (put_thread w th' (set_reg reg st)).
Proof. intros Hlt. split_and!; [done..|]. by exists th'. Qed.

Lemma moves_work w th st st' :
  sys_threads st !! w = Some th -> moves w th st st' -> descends (work st') (work st).
Proof.
  intros Hth (Hcr & He & Hn & Hd & th' & Hths & Hlt). unfold work. rewrite Hcr, He, Hn, Hd, Hths.
  do 4 apply descends_later. apply descends_here; [|done]. by apply (threads_rank_insert _ _ th).
Qed.

Lemma crash_work st : sys_crashed st = false -> descends (work (crash st)) (work st).
Proof. intros Hcr. unfold work. rewrite Hcr. cbn. apply descends_here; [lia|done]. Qed.

(** Where the pc of a thread goes down. *)
Ltac ranks Hpc := unfold thread_rank; cbn; rewrite Hpc; cbn; lia.

Lemma resolution_moves w r th st st' :
  run_resolution w r th st = Some st' -> st' = crash st \/ moves w th st st'.
Proof.
  unfold run_resolution, resolve_and_send.
  destruct (thread_pc th) eqn:Hpc; try done; [case_match; [|done]|];
    destruct (resolve _ _); intros [= <-]; try (by left); right; apply moves_put; ranks Hpc.
Qed.

Lemma run_moves w th st st' :
  run_thread w th st = Some st' -> st' = crash st \/ moves w th st st'.
Proof.
  unfold run_thread.
  destruct (thread_pc th) as [[|ref todo] q| | | |ref|[|ref todo] q| |] eqn:Hpc; try done.
  - intros [= <-]. right. apply moves_put. ranks Hpc.
  - intros [= <-]. right. unfold run_subscribe.
    destruct q; repeat case_match; (first [apply moves_put_reg|apply moves_put]); ranks Hpc.
  - case_match; [done|]. intros [= <-]. right. apply moves_put. ranks Hpc.
  - intros [= <-]. right. apply moves_put. ranks Hpc.
  - intros [= <-]. right. unfold run_release.
    destruct q; repeat case_match; (first [apply moves_put_reg|apply moves_put]); ranks Hpc.
  - destruct (closeDone w (sys_reg st)); intros [= <-]; [|by left..]. right.
    apply moves_put_reg. ranks Hpc.
Qed.

(** ** Each step descends *)

Lemma events_work st st' :
  sys_crashed st' = sys_crashed st -> length (sys_events st') < length (sys_events st) ->
  descends (work st') (work st).
Proof. intros Hcr Hlt. unfold work. rewrite Hcr. apply descends_later. by apply descends_here. Qed.

Lemma notifiers_work st st' :
  sys_crashed st' = sys_crashed st -> sys_events st' = sys_events st ->
  notifiers_rank (sys_notifiers st') < notifiers_rank (sys_notifiers st) ->
  descends (work st') (work st).
Proof.
  intros Hcr He Hlt. unfold work. rewrite Hcr, He. do 2 apply descends_later.
  by apply descends_here.
Qed.

Lemma deliveries_work st st' :
  sys_crashed st' = sys_crashed st -> sys_events st' = sys_events st ->
  sys_notifiers st' = sys_notifiers st ->
  length (sys_deliveries st') < length (sys_deliveries st) -> descends (work st') (work st).
Proof.
  intros Hcr He Hn Hlt. unfold work. rewrite Hcr, He, Hn. do 3 apply descends_later.
  by apply descends_here.
Qed.

Lemma length_delete_lt {A} (l : list A) k x : l !! k = Some x -> length (delete k l) < length l.
Proof. intros Hk. pose proof (lookup_lt_Some l k x Hk). rewrite length_delete; [lia|eauto]. Qed.

Lemma notifiers_rank_delete ns k n :
  ns !! k = Some n -> notifiers_rank ns = npc_rank n + notifiers_rank (delete k ns).
Proof.
  intros Hk. rewrite <-(take_drop_middle ns k n Hk) at 1. rewrite delete_take_drop.
  unfold notifiers_rank. rewrite !sum_list_with_app. cbn. lia.
Qed.

Lemma notifier_work k st st' : run_notifier k st = Some st' -> descends (work st') (work st).
Proof.
  unfold run_notifier. destruct (sys_notifiers st !! k) as [n|] eqn:Hk; [|done].
  pose proof (notifiers_rank_delete _ _ _ Hk) as Hrank. unfold notifiers_rank in Hrank.
  generalize dependent (delete k (sys_notifiers st)). intros rest Hrank.
  destruct n as [ref|rw ref]; [case_match|]; intros [= <-];
    (apply notifiers_work; [done|done|]; unfold notifiers_rank; cbn in *; lia).
Qed.

Lemma leave_moves w th order st :
  sys_inv st -> sys_threads st !! w = Some th -> thread_pc th = Waiting ->
  NoDup order -> list_to_set order = watchedResources w (sys_reg st) ->
  moves w th st (goto w th (Releasing order RGet) st).
Proof.
  intros Hinv Hth Hpc Hnd Hset. apply moves_put. unfold thread_rank. cbn. rewrite Hpc. cbn.
  destruct (si_threads _ Hinv w th Hth) as [Hp _ _]. rewrite Hpc in Hp. destruct Hp as (_ & Hrec & _).
  pose proof (size_list_to_set (request_refs (thread_req th))) as Hsize.
  rewrite <-Hrec, <-Hset, fin_sets.size_list_to_set in Hsize by done. lia.
Qed.

Lemma internal_descends a st st' :
  sys_inv st -> internal a = true -> step a st = Some st' -> descends (work st') (work st).
Proof.
  intros Hinv Ha [Hcr Hact]%step_act.
  destruct a as [stream req|w|w|w r|w|w|w order|k|k|k|c|k|k|]; try done; cbn in Hact;
    revert Hact; unfold_action.
  - destruct (sys_threads st !! w) as [th|] eqn:Hth; [|done]. intros [->|Hm]%run_moves;
      [by apply crash_work|by eapply moves_work].
  - destruct (sys_threads st !! w) as [th|] eqn:Hth; [|done]. intros [->|Hm]%resolution_moves;
      [by apply crash_work|by eapply moves_work].
  - destruct (sys_threads st !! w) as [th|] eqn:Hth; [|done].
    destruct (thread_pc th) eqn:Hpc; try done. intros [= <-].
    eapply moves_work; [done|]. apply moves_put. ranks Hpc.
  - destruct (sys_threads st !! w) as [th|] eqn:Hth; [|done].
    destruct (thread_pc th) eqn:Hpc; try done. case_match; [|done]. intros [= <-].
    eapply moves_work; [done|]. apply moves_put. ranks Hpc.
  - destruct (sys_threads st !! w) as [th|] eqn:Hth; [|done].
    destruct (thread_pc th) eqn:Hpc; try done. case_match eqn:Hg; [|done]. intros [= <-].
    rewrite !andb_true_iff, !bool_decide_eq_true in Hg. destruct Hg as [[_ ?] ?].
    eapply moves_work; [done|]. by apply leave_moves.
  - destruct (sys_deliveries st !! k) as [[w ref]|] eqn:Hk; [|done].
    destruct (sys_threads st !! w) as [th|]; [|done]. destruct (thread_pc th); try done.
    intros [= <-]. apply deliveries_work; cbn; eauto using length_delete_lt.
  - destruct (sys_deliveries st !! k) as [[w ref]|] eqn:Hk; [|done]. case_match; [|done].
    intros [= <-]. apply deliveries_work; cbn; eauto using length_delete_lt.
  - destruct (sys_deliveries st !! k) as [[w ref]|] eqn:Hk; [|done]. case_match; [|done].
    intros [= <-]. apply deliveries_work; cbn; eauto using length_delete_lt.
  - destruct (sys_events st !! k) as [c|] eqn:Hk; [|done]. intros [= <-].
    apply events_work; cbn; eauto using length_delete_lt.
  - apply notifier_work.
Qed.

(** No schedule of the goroutines is infinite. *)
Lemma internal_acc st : reachable st -> Acc (fun st2 st1 => internal_step st1 st2) st.
Proof.
  remember (work st) as m eqn:Hm. revert st Hm.
  induction (descends_wf m) as [m _ IH]. intros st -> Hr. constructor.
  intros st' (a & Ha & Hstep). apply (IH (work st')); [|done|by eapply reachable_step].
  eapply internal_descends; eauto using reachable_inv.
Qed.

(** ** Rest *)

(** A goroutine that waits for a change, or has ended. *)
Definition resting th : bool :=
  match thread_pc th with
  | Waiting => negb (thread_cancelled th)
  | Exited => true
  | _ => false
  end.

(** Nothing is queued or under way. *)
Definition settled st : Prop :=
  sys_events st = [] /\ sys_notifiers st = [] /\ sys_deliveries st = [] /\
  map_Forall (fun _ th => resting th = true) (sys_threads st).

Lemma settled_at_rest a st : settled st -> internal a = true -> step a st = None.
Proof.
  intros (He & Hn & Hd & Hths) Ha. unfold step. case_match; [done|].
  destruct a as [stream req|w|w|w r|w|w|w order|k|k|k|c|k|k|]; try done; cbn; unfold_action;
    unfold run_notifier; rewrite ?He, ?Hn, ?Hd, ?lookup_nil; try done;
    destruct (sys_threads st !! w) as [th|] eqn:Hth; [|done| |done| |done| |done| |done];
    pose proof (Hths w th Hth) as Hrest; unfold resting in Hrest; cbn in Hrest;
    unfold run_thread, run_resolution; destruct (thread_pc th); try done.
  all: by destruct (thread_cancelled th).
Qed.

(** A goroutine that does not rest can step. *)
Lemma thread_steps w th st :
  sys_crashed st = false -> sys_threads st !! w = Some th -> resting th = false ->
  exists st', internal_step st st'.
Proof.
  intros Hcr Hth Hrest. unfold internal_step, step. rewrite Hcr.
  assert (forall st', run_thread w th st = Some st' ->
    exists st' a, internal a = true /\ act a st = Some st') as Hrun.
  { intros st' Hst'. exists st', (Run w). cbn. unfold with_thread. by rewrite Hth. }
  assert (forall st', run_resolution w now th st = Some st' ->
    exists st' a, internal a = true /\ act a st = Some st') as Hres.
  { intros st' Hst'. exists st', (Resolve w now). cbn. unfold with_thread. by rewrite Hth. }
  unfold run_thread in Hrun. unfold run_resolution in Hres. unfold resting in Hrest.
  destruct (thread_pc th) as [[|ref todo] q| |resp| |ref|[|ref todo] q| |] eqn:Hpc; try done; eauto.
  - case_match; eauto.
  - eexists _, (Send w). cbn. unfold_action. by rewrite Hth, Hpc.
  - apply negb_false_iff in Hrest.
    eexists _, (Leave w (elements (watchedResources w (sys_reg st)))). split; [done|]. cbn.
    unfold_action. rewrite Hth, Hpc, Hrest.
    by rewrite !bool_decide_eq_true_2 by (first [apply NoDup_elements|by rewrite list_to_set_elements_L]).
  - case_match; eauto.
Qed.

(** A delivery ends when its watcher waits or has ended. *)
Lemma delivery_steps st w ref rest :
  sys_inv st -> sys_crashed st = false -> sys_deliveries st = (w, ref) :: rest ->
  exists st', internal_step st st'.
Proof.
  intros Hinv Hcr Hd. destruct (si_delivery _ Hinv w ref) as (th & Hth & _); [rewrite Hd; left|].
  destruct (resting th) eqn:Hrest; [|by eapply thread_steps].
  unfold internal_step, step. rewrite Hcr. unfold resting in Hrest.
  destruct (thread_pc th) eqn:Hpc; try done.
  - eexists _, (Receive 0). split; [done|]. cbn. unfold_action. rewrite Hd. cbn. by rewrite Hth, Hpc.
  - eexists _, (DropDone 0). split; [done|]. cbn. unfold_action. rewrite Hd. cbn.
    destruct (si_threads _ Hinv w th Hth) as [_ _ ->]. by rewrite Hpc.
Qed.

(** Until nothing is pending, some goroutine can step. *)
Lemma settled_or_steps st :
  reachable st -> sys_crashed st = false -> settled st \/ exists st', internal_step st st'.
Proof.
  intros Hr Hcr. assert (forall a st', internal a = true -> act a st = Some st' ->
    settled st \/ exists st', internal_step st st') as Hact.
  { intros a st' Ha Hst'. right. exists st', a. unfold step. by rewrite Hcr. }
  destruct (sys_events st) as [|c events] eqn:He.
  2: { eapply (Hact (Handle 0)); [done|]. cbn. by rewrite He. }
  destruct (sys_notifiers st) as [|n notifiers] eqn:Hn.
  2: { destruct n as [ref|rw ref]; [destruct (getResourceWatchers ref (sys_reg st)) eqn:Hg|];
       (eapply (Hact (Notify 0)); [done|]; cbn; unfold run_notifier; rewrite Hn; cbn; by rewrite ?Hg). }
  destruct (sys_deliveries st) as [|[w ref] deliveries] eqn:Hd.
  2: { right. eapply delivery_steps; eauto using reachable_inv. }
  destruct (decide (map_Forall (fun _ th => resting th = true) (sys_threads st))) as [Hall|Hno].
  { left. by split_and!. }
  apply map_not_Forall in Hno as (w & th & Hth & Hrest); [|apply _].
  right. eapply thread_steps; [done|done|by apply not_true_is_false].
Qed.

(** ** What the goroutines leave alone *)

(** What was asked of a watch. *)
Definition asked th : DiscoveryRequest * StreamState * bool :=
  (thread_req th, thread_stream th, thread_cancelled th).

(** The earlier states that the resolution under way may have read. *)
Definition reading st th : list Store :=
  match thread_pc th with Initial | Resolving _ => window st th | _ => [] end.

(** Nothing changed from outside, and no resolution reads older states. *)
Record keeps st st' : Prop := {
  keeps_store : sys_store st' = sys_store st;
  keeps_past : sys_past st' = sys_past st;
  keeps_shutdown : sys_shutdown st' = sys_shutdown st;
  keeps_asked : asked <$> sys_threads st' = asked <$> sys_threads st;
  keeps_reading w th th' : sys_threads st !! w = Some th -> sys_threads st' !! w = Some th' ->
    reading st' th' = reading st th \/ reading st' th' = []
}.

(** All threads are as before. *)
Lemma keeps_threads st st' :
  sys_store st' = sys_store st -> sys_past st' = sys_past st ->
  sys_shutdown st' = sys_shutdown st -> sys_threads st' = sys_threads st -> keeps st st'.
Proof.
  intros Hs Hp Hsh Ht. split; [done|done|done|by rewrite Ht|]. rewrite Ht.
  intros w th th' Hth Hth'. simplify_eq. left. unfold reading, window. by rewrite Hp.
Qed.

Lemma keeps_put w th th' st :
  sys_threads st !! w = Some th -> asked th' = asked th -> reading st th' = [] ->
  keeps st (put_thread w th' st).
Proof.
  intros Hth Hasked Hread. split; [done|done|done|..]; cbn.
  - rewrite fmap_insert, Hasked. apply insert_id. by rewrite lookup_fmap, Hth.
  - intros w' th1 th2 Hth1. rewrite lookup_insert. case_decide; intros Hth2; simplify_eq;
      [by right|by left].
Qed.

Lemma keeps_put_reg w th th' reg st :
  sys_threads st !! w = Some th -> asked th' = asked th -> reading st th' = [] ->
  keeps st (put_thread w th' (set_reg reg st)).
Proof.
  intros Hth Hasked Hread. by destruct (keeps_put w th th' (set_reg reg st) Hth Hasked Hread).
Qed.

Lemma keeps_begin w th p st :
  sys_threads st !! w = Some th -> keeps st (begin w th p st).
Proof.
  intros Hth. eapply keeps_put; [done|done|]. unfold reading, window. cbn.
  rewrite Nat.sub_diag. by destruct p.
Qed.

Lemma keeps_crash st : keeps st (crash st).
Proof. by apply keeps_threads. Qed.

Lemma resolution_keeps w r th st st' :
  sys_threads st !! w = Some th -> run_resolution w r th st = Some st' -> keeps st st'.
Proof.
  intros Hth. unfold run_resolution, resolve_and_send. destruct (thread_pc th); try done;
    [case_match; [|done]|]; destruct (resolve _ _); intros [= <-];
    first [by eapply keeps_put|apply keeps_crash].
Qed.

Lemma run_keeps w th st st' :
  sys_threads st !! w = Some th -> run_thread w th st = Some st' -> keeps st st'.
Proof.
  intros Hth. unfold run_thread.
  destruct (thread_pc th) as [[|ref todo] q| | | |ref|[|ref todo] q| |]; try done.
  - intros [= <-]. by apply keeps_begin.
  - intros [= <-]. unfold run_subscribe.
    destruct q; repeat case_match; first [by eapply keeps_put|by eapply keeps_put_reg].
  - case_match; [done|]. intros [= <-]. by eapply keeps_put.
  - intros [= <-]. by eapply keeps_put.
  - intros [= <-]. unfold run_release.
    destruct q; repeat case_match; first [by eapply keeps_put|by eapply keeps_put_reg].
  - case_match; intros [= <-]; [by eapply keeps_put_reg|apply keeps_crash..].
Qed.

Lemma internal_keeps a st st' : internal a = true -> step a st = Some st' -> keeps st st'.
Proof.
  intros Ha [Hcr Hact]%step_act.
  destruct a as [stream req|w|w|w r|w|w|w order|k|k|k|c|k|k|]; try done; cbn in Hact;
    revert Hact; unfold_action; unfold run_notifier.
  - destruct (sys_threads st !! w) as [th|] eqn:Hth; [|done]. by apply run_keeps.
  - destruct (sys_threads st !! w) as [th|] eqn:Hth; [|done]. by apply resolution_keeps.
  - destruct (sys_threads st !! w) as [th|] eqn:Hth; [|done].
    destruct (thread_pc th); try done. intros [= <-]. by eapply keeps_put.
  - destruct (sys_threads st !! w) as [th|] eqn:Hth; [|done].
    destruct (thread_pc th); try done. case_match; [|done]. intros [= <-]. by eapply keeps_put.
  - destruct (sys_threads st !! w) as [th|] eqn:Hth; [|done].
    destruct (thread_pc th); try done. case_match; [|done]. intros [= <-]. by eapply keeps_put.
  - destruct (sys_deliveries st !! k) as [[w ref]|]; [|done].
    destruct (sys_threads st !! w) as [th|] eqn:Hth; [|done]. destruct (thread_pc th); try done.
    intros [= <-]. pose proof (keeps_begin w th (Resolving ref) (end_delivery k st) Hth) as Hk.
    by destruct Hk.
  - repeat case_match; try done. intros [= <-]. by apply keeps_threads.
  - repeat case_match; try done. intros [= <-]. by apply keeps_threads.
  - case_match; [|done]. intros [= <-]. by apply keeps_threads.
  - repeat case_match; try done; intros [= <-]; by apply keeps_threads.
Qed.

Lemma keeps_lookup st st' w th' :
  keeps st st' -> sys_threads st' !! w = Some th' ->
  exists th, sys_threads st !! w = Some th /\ asked th = asked th'.
Proof.
  intros Hk Hth'. assert ((asked <$> sys_threads st') !! w = Some (asked th')) as Hw
    by by rewrite lookup_fmap, Hth'.
  rewrite (keeps_asked _ _ Hk), lookup_fmap in Hw. by apply fmap_Some_1 in Hw as (th & -> & ->); eauto.
Qed.

Lemma keeps_refl st : keeps st st.
Proof. by apply keeps_threads. Qed.

Lemma keeps_trans st1 st2 st3 : keeps st1 st2 -> keeps st2 st3 -> keeps st1 st3.
Proof.
  intros H12 H23. split; [destruct H12, H23; congruence..|]. intros w th th' Hth Hth'.
  destruct (keeps_lookup st2 st3 w th' H23 Hth') as (th2 & Hth2 & _).
  destruct (keeps_reading _ _ H23 w th2 th' Hth2 Hth') as [->|]; [|by right].
  by apply (keeps_reading _ _ H12 w).
Qed.

(** ** Panics *)

(** The resolver does not panic on what the open watches ask for, whichever of
    the states it may see it reads. *)
Definition safe st : Prop :=
  forall w th r l, sys_threads st !! w = Some th -> l = reading st th \/ l = [] ->
    asks_safely (thread_req th) (mix r (sys_store st) l).

Lemma keeps_safe st st' : keeps st st' -> safe st -> safe st'.
Proof.
  intros Hk Hsafe w th' r l Hth' Hl.
  destruct (keeps_lookup st st' w th' Hk Hth') as (th & Hth & [= <- _ _]).
  rewrite (keeps_store _ _ Hk). apply (Hsafe w); [done|].
  destruct (keeps_reading _ _ Hk w th th' Hth Hth') as [Heq|Heq]; rewrite Heq in Hl; naive_solver.
Qed.

Lemma resolution_no_crash w r th st st' :
  sys_inv st -> safe st -> sys_crashed st = false -> sys_threads st !! w = Some th ->
  run_resolution w r th st = Some st' -> sys_crashed st' = false.
Proof.
  intros Hinv Hsafe Hcr Hth. pose proof (si_threads _ Hinv w th Hth) as [Hp _ _].
  destruct (Hsafe w th r (reading st th) Hth (or_introl eq_refl)) as [Hinit Hupd].
  rewrite Forall_forall in Hupd. unfold reading in Hinit, Hupd. unfold run_resolution, resolve_and_send.
  destruct (thread_pc th) as [| | | |ref| | |]; try done.
  - case_match; [|done]. destruct (resolve _ _); [..|done]; by intros [= <-].
  - specialize (Hupd ref (proj2 (proj2 Hp))). cbv zeta. destruct (resolve _ (updateRequest _ _));
      [..|done]; by intros [= <-].
Qed.

Lemma run_no_crash w th st st' :
  sys_inv st -> sys_crashed st = false -> sys_threads st !! w = Some th ->
  run_thread w th st = Some st' -> sys_crashed st' = false.
Proof.
  intros Hinv Hcr Hth. pose proof (si_threads _ Hinv w th Hth) as [_ _ Hd]. unfold run_thread.
  destruct (thread_pc th) as [[|ref todo] q| | | |ref|[|ref todo] q| |]; try done.
  - by intros [= <-].
  - intros [= <-]. unfold run_subscribe. by destruct q; repeat case_match.
  - case_match; [done|]. by intros [= <-].
  - by intros [= <-].
  - intros [= <-]. unfold run_release. by destruct q; repeat case_match.
  - unfold closeDone. rewrite Hd. cbn. by intros [= <-].
Qed.

Lemma internal_no_crash a st st' :
  sys_inv st -> safe st -> internal a = true -> step a st = Some st' -> sys_crashed st' = false.
Proof.
  intros Hinv Hsafe Ha [Hcr Hact]%step_act.
  destruct a as [stream req|w|w|w r|w|w|w order|k|k|k|c|k|k|]; try done; cbn in Hact;
    revert Hact; unfold_action; unfold run_notifier.
  1: destruct (sys_threads st !! w) as [th|] eqn:Hth; [|done]; by apply run_no_crash.
  1: destruct (sys_threads st !! w) as [th|] eqn:Hth; [|done]; by apply resolution_no_crash.
  all: repeat case_match; try done; by intros [= <-].
Qed.

Lemma internal_steps_keep l st st' :
  Forall (fun a => internal a = true) l -> reachable st -> safe st -> sys_crashed st = false ->
  steps l st = Some st' -> keeps st st' /\ reachable st' /\ safe st' /\ sys_crashed st' = false.
Proof.
  intros Hl. revert st. induction Hl as [|a l Ha _ IH]; intros st Hr Hsafe Hcr; cbn.
  { intros [= <-]. by split; [apply keeps_refl|]. }
  destruct (step a st) as [st1|] eqn:Hst1; [|done]. intros Hsteps.
  pose proof (internal_keeps a st st1 Ha Hst1) as Hk.
  destruct (IH st1) as (Hk1 & ? & ? & ?); [by eapply reachable_step|by eapply keeps_safe|
    eapply internal_no_crash; eauto using reachable_inv|done|].
  split; [by eapply keeps_trans|done].
Qed.

(** There is a schedule that gets to rest. *)
Lemma internal_run_settles st :
  reachable st -> safe st -> sys_crashed st = false ->
  exists l st', Forall (fun a => internal a = true) l /\ steps l st = Some st' /\ settled st'.
Proof.
  intros Hr. induction (internal_acc st Hr) as [st _ IH]. intros Hsafe Hcr.
  destruct (settled_or_steps st Hr Hcr) as [Hset|(st1 & a & Ha & Hst1)]; [by exists [], st|].
  destruct (IH st1) as (l & st' & Hl & Hsteps & Hset).
  - by exists a.
  - by eapply reachable_step.
  - by eapply keeps_safe; [eapply internal_keeps|].
  - eapply internal_no_crash; eauto using reachable_inv.
  - exists (a :: l), st'. split; [by constructor|]. cbn. by rewrite Hst1.
Qed.

(** ** Property *)

End settling.
