(* ===== verification/KubeWorld.v ===== *)
(** The concurrent system over a real store: the watch goroutines with the
    resolver of [gtc/cache.go] and the event handlers of [gtc/notify.go].

    The store holds the listeners and the endpoint slices of the informers. The
    handlers keep track of every resource under its canonical name as long as
    listeners are named as Kubernetes requires and name their services, and
    slices stay with the service they belong to; the guard [kube_allowed] spells
    this out. *)

From S2P Require Import Prelude GoStrings GoPath GoStrconv GoHash Api Errors Xds ResourceName Interceptors Routes Resolver K8s Listers ListenerHandler ClusterHandler EndpointHandler Coherence Watches Notify ConfigWatcher WatchSystem WatchProperties.

Record kube := { kube_listeners : list GRPCListener; kube_slices : list EndpointSlice }.

Definition kube_lister (s : kube) : GRPCListenerLister :=
  NewGRPCListenerLister (indexer_of (kube_listeners s)).

(** The lister returns the slices of a service in one fixed order. That of
    client-go walks a map: two calls on the same store may differ in the order of
    the slices, and so in the order of the addresses and versions of an answer. *)
Definition kube_slice_lister (s : kube) : EndpointSliceLister := slices_of (kube_slices s).

(** What the watch streams of Kubernetes deliver: the new state of an object,
    or the last known state of a deleted one. *)
Inductive kube_change :=
  | SetListener (l : GRPCListener)
  | DeleteListener (l : GRPCListener)
  | SetSlice (s : EndpointSlice)
  | DeleteSlice (s : EndpointSlice).

Definition slice_key (s : EndpointSlice) : string * string :=
  (ObjectMeta_Namespace (EndpointSlice_ObjectMeta s), ObjectMeta_Name (EndpointSlice_ObjectMeta s)).

Definition other_listeners (l : GRPCListener) (ls : list GRPCListener) : list GRPCListener :=
  filter (fun l' => listener_key l' <> listener_key l) ls.

Definition other_slices (s : EndpointSlice) (ss : list EndpointSlice) : list EndpointSlice :=
  filter (fun s' => slice_key s' <> slice_key s) ss.

Definition kube_apply (c : kube_change) (s : kube) : kube :=
  match c with
  | SetListener l => {| kube_listeners := l :: other_listeners l (kube_listeners s);
                        kube_slices := kube_slices s |}
  | DeleteListener l => {| kube_listeners := other_listeners l (kube_listeners s);
                           kube_slices := kube_slices s |}
  | SetSlice x => {| kube_listeners := kube_listeners s;
                     kube_slices := x :: other_slices x (kube_slices s) |}
  | DeleteSlice x => {| kube_listeners := kube_listeners s;
                        kube_slices := other_slices x (kube_slices s) |}
  end.

(** ** The changes the handlers are made for *)

(** The listener has an admissible name and its service references are set. *)
Definition listener_fine (l : GRPCListener) : bool :=
  is_segment (GRPCListener_Namespace l) && is_segment (GRPCListener_Name l) &&
  forallb (fun r => forallb (fun b => forallb (fun s => bool_decide (is_Some s))
    (backend_services b)) (Route_Backends r)) (GRPCListener_Routes l).

Definition slice_service (s : EndpointSlice) : string :=
  label (EndpointSlice_ObjectMeta s) serviceNameLabel.

(** Listeners are fine, and a slice keeps its service. *)
Definition kube_allowed (c : kube_change) (s : kube) : bool :=
  forallb listener_fine (kube_listeners s) &&
  match c with
  | SetListener l | DeleteListener l => listener_fine l
  | SetSlice x | DeleteSlice x =>
      forallb (fun old => bool_decide (slice_key old <> slice_key x)
                 || bool_decide (slice_service old = slice_service x)) (kube_slices s)
  end.

Section kube_world.
Context `{XdsLibrary, UnicodeTables, MetaAccessor}.

(** The handler of the informer runs on the object of the change, and what it
    notified counts. [kube_allowed] is the condition under which it neither fails
    nor panics ([listener_change_notifications], [slice_change_notifications]). *)
Definition kube_notified (c : kube_change) (s : kube) : list resourceRef :=
  match c with
  | SetListener l => (grpcListenerChangedHandler_OnUpdate (ObjGRPCListener l) (ObjGRPCListener l)).1
  | DeleteListener l => (grpcListenerChangedHandler_OnDelete (ObjGRPCListener l)).1
  | SetSlice x =>
      (@endpointSliceChangedHandler_OnUpdate _ (kube_lister s) _
         (ObjEndpointSlice x) (ObjEndpointSlice x)).1
  | DeleteSlice x =>
      (@endpointSliceChangedHandler_OnDelete _ (kube_lister s) _ (ObjEndpointSlice x)).1
  end.

(** The state each read of a resolution sees, while the [i]-th name is handled:
    the state at this position of the current one and the earlier ones. Two
    reads of the same object for the same name see the same state. *)
Record kube_reads := {
  reads_Get : nat -> string -> string -> nat;
  reads_List : nat -> string -> string * string -> nat
}.

Definition pick (n : nat) (s : kube) (past : list kube) : kube :=
  match past with [] => s | _ :: _ => default s ((s :: past) !! n) end.

Definition kube_view (s : kube) : views := fun _ => (kube_lister s, kube_slice_lister s).

Definition kube_mix (r : kube_reads) (s : kube) (past : list kube) : views := fun i =>
  ({| lister_Get ns name := @lister_Get (kube_lister (pick (reads_Get r i ns name) s past)) ns name;
      lister_List := @lister_List (kube_lister s) |},
   {| Requirement := string * string;
      labels_NewRequirement := @labels_NewRequirement (kube_slice_lister s);
      slices_List ns req := @slices_List (kube_slice_lister (pick (reads_List r i ns req) s past)) ns req |}).

Definition kube_now : kube_reads :=
  {| reads_Get _ _ _ := 0; reads_List _ _ _ := 0 |}.

Global Instance kube_world : World := {|
  Store := kube;
  Change := kube_change;
  View := views;
  view := kube_view;
  Reads := kube_reads;
  mix := kube_mix;
  now := kube_now;
  mix_now s l := match l with [] => eq_refl | _ :: _ => eq_refl end;
  focus i v := fun j => v (i + j);
  resolve := views_resolve;
  applyChange := kube_apply;
  allowed := kube_allowed;
  notified := kube_notified
|}.

(** The name a client got from the controller: for backends, one that
    [backendName] prints. *)
Definition canonical (ref : resourceRef) : Prop :=
  resourceRef_typeURL ref = ListenerType \/
  forall p, parseBackendName (resourceRef_resourceName ref) = Ok p ->
    parsedBackendName_String p = resourceRef_resourceName ref.
End kube_world.

(** ** The store *)

Section store_lemmas.
Implicit Types (l : GRPCListener) (ls : list GRPCListener) (s : kube).

Definition find_listener (k : string) (ls : list GRPCListener) : option GRPCListener :=
  snd <$> list_find (fun l => listener_key l = k) ls.

Lemma find_listener_Some k ls l : find_listener k ls = Some l -> l ∈ ls /\ listener_key l = k.
Proof.
  unfold find_listener. intros ([i l'] & (Hi & ? & _)%list_find_Some & ->)%fmap_Some.
  split; [|done]. by eapply list_elem_of_lookup_2.
Qed.

Lemma find_listener_cons k l ls :
  find_listener k (l :: ls) = if decide (listener_key l = k) then Some l else find_listener k ls.
Proof.
  unfold find_listener. cbn [list_find]. case_decide; [done|].
  by destruct (list_find _ ls) as [[]|].
Qed.

Lemma find_other k l ls :
  find_listener k (other_listeners l ls)
    = if decide (listener_key l = k) then None else find_listener k ls.
Proof.
  induction ls as [|x ls IH]; [by case_decide|]. unfold other_listeners.
  destruct (decide (listener_key x = listener_key l)) as [Hx|Hx].
  - rewrite filter_cons_False by naive_solver. fold (other_listeners l ls).
    rewrite IH, find_listener_cons, Hx. by case_decide.
  - rewrite filter_cons_True by done. fold (other_listeners l ls).
    rewrite !find_listener_cons, IH. repeat case_decide; congruence.
Qed.

Lemma kube_List s : @lister_List (kube_lister s) labels_Everything = Ok (kube_listeners s).
Proof.
  cbn. unfold gRPCListenerLister_List. cbn. rewrite selected_Everything.
  unfold forM, imapM. generalize 0.
  induction (kube_listeners s) as [|l ls IH]; intros n; [done|]. cbn. by rewrite IH.
Qed.

Lemma kube_Get s ns name :
  @lister_Get (kube_lister s) ns name =
  match find_listener (ns +:+ "/" +:+ name) (kube_listeners s) with
  | Some l => Ok l
  | None => Err (notFoundError (Resource "grpclistener") name)
  end.
Proof.
  cbn. unfold gRPCListenerNamespaceLister_Get, find_listener. cbn.
  by destruct (list_find _ (kube_listeners s)) as [[]|].
Qed.

Lemma listener_fine_spec l : listener_fine l = true -> well_named l /\ services_set l.
Proof.
  unfold listener_fine. rewrite !andb_true_iff. intros [[Hns Hname] Hall]. split; [done|].
  intros i r j b Hi%list_elem_of_lookup_2 Hj%list_elem_of_lookup_2.
  rewrite forallb_elem in Hall. specialize (Hall r Hi). rewrite forallb_elem in Hall.
  specialize (Hall b Hj). rewrite forallb_elem in Hall. apply Forall_forall. intros x Hx.
  by apply (bool_decide_eq_true_1 _), Hall.
Qed.

(** The slices of a service the changed slice does not belong to. *)
Lemma listServiceSlices_other x ss ss' svc l :
  (forall old, old ∈ ss -> slice_key old = slice_key x -> slice_service old = slice_service x) ->
  ~ (slice_service x = ServiceRef_Name svc /\
     ObjectMeta_Namespace (EndpointSlice_ObjectMeta x) = serviceNamespace svc l) ->
  ss' = x :: other_slices x ss \/ ss' = other_slices x ss ->
  @listServiceSlices (slices_of ss') svc l = @listServiceSlices (slices_of ss) svc l.
Proof.
  intros Hlabel Hno Hss. unfold listServiceSlices. cbn. f_equal.
  set (P := fun s : EndpointSlice => ObjectMeta_Namespace (EndpointSlice_ObjectMeta s) = serviceNamespace svc l /\
      label (EndpointSlice_ObjectMeta s) serviceNameLabel = ServiceRef_Name svc).
  change (filter P ss' = filter P ss).
  assert (filter P (other_slices x ss) = filter P ss) as Hother.
  { apply filter_after_filter. intros y Hy [Hns Hl] Hkey. apply Hno.
    rewrite <-(Hlabel y Hy Hkey). unfold slice_key in Hkey. split; [done|congruence]. }
  destruct Hss as [->| ->]; [|done]. rewrite filter_cons_False; [done|].
  intros [? ?]. by apply Hno.
Qed.
End store_lemmas.

(** ** The handlers keep track of the resources *)

Section tracking.
Context `{XdsLibrary, !XdsLaws, UnicodeTables, MetaAccessor, !MetaAccessorLaws}.
Implicit Types (l : GRPCListener) (s : kube) (ref : resourceRef).

(** The answer for a name, in terms of what the resolver does for it. *)
Lemma answer_item req ref (v : views) :
  resourceRef_typeURL ref ∈ [ListenerType; ClusterType; EndpointType] ->
  answer (H := kube_world) req ref v = ok_result (
    '(a, vs) ← item_of (resourceRef_typeURL ref) (DiscoveryRequest_Node req)
                 (resourceRef_resourceName ref) (v 0);
    Ok {| resolveResponse_typeURL := resourceRef_typeURL ref; resolveResponse_resources := [Some a];
          resolveResponse_versionHasher := vs ≫= bytes_of |}).
Proof.
  intros Ht. unfold answer. cbn [resolve kube_world]. rewrite views_resolve_items by done.
  unfold updateRequest. cbn [resolveRequest_typeUrl resolveRequest_nodeInfo resolveRequest_resourceNames].
  by rewrite resolve_each_singleton.
Qed.

Lemma answer_other req ref (v : views) :
  resourceRef_typeURL ref ∉ [ListenerType; ClusterType; EndpointType] ->
  answer (H := kube_world) req ref v = None.
Proof. intros Ht. unfold answer. cbn [resolve kube_world]. by rewrite views_resolve_other. Qed.

(** *** Reads of several states *)

(** Two states give the resolver the same for [ref]. *)
Record same_for ref s s' : Prop := {
  same_listener ns n : resourceRef_typeURL ref = ListenerType ->
    parseListenerName (resourceRef_resourceName ref) = Ok (ns, n) ->
    @lister_Get (kube_lister s) ns n = @lister_Get (kube_lister s') ns n;
  same_backend : resourceRef_typeURL ref <> ListenerType ->
    ok_equiv (@lookupBackend (kube_lister s) (resourceRef_resourceName ref))
      (@lookupBackend (kube_lister s') (resourceRef_resourceName ref));
  same_slices p l b svc : resourceRef_typeURL ref = EndpointType ->
    @lookupBackend (kube_lister s) (resourceRef_resourceName ref) = Ok (p, l, b) ->
    Some svc ∈ backend_services b ->
    @listServiceSlices (kube_slice_lister s) svc l = @listServiceSlices (kube_slice_lister s') svc l
}.

Lemma ok_equiv_value {A} (m1 m2 : M A) a : ok_equiv m1 m2 -> m1 = Ok a -> m2 = Ok a.
Proof. unfold ok_equiv. intros Heq ->. by destruct m2; simplify_eq/=. Qed.

Lemma same_for_refl ref s : same_for ref s s.
Proof. by split. Qed.

Lemma same_for_trans ref s1 s2 s3 : same_for ref s1 s2 -> same_for ref s2 s3 -> same_for ref s1 s3.
Proof.
  intros [Hl1 Hb1 Hs1] [Hl2 Hb2 Hs2]. split.
  - intros ns n Ht Hp. by rewrite Hl1, Hl2.
  - intros Ht. by rewrite Hb1, Hb2.
  - intros p l b svc Ht Hlook Hsvc. rewrite (Hs1 p l b) by done. apply (Hs2 p l b); [done| |done].
    eapply ok_equiv_value; [apply Hb1|done]. rewrite Ht. apply not_eq_sym, listener_endpoint_type.
Qed.

Lemma same_for_sym ref s1 s2 : same_for ref s1 s2 -> same_for ref s2 s1.
Proof.
  intros [Hl Hb Hs]. split.
  - intros ns n Ht Hp. by rewrite Hl.
  - intros Ht. by rewrite Hb.
  - intros p l b svc Ht Hlook Hsvc. symmetry. apply (Hs p l b); [done| |done].
    eapply ok_equiv_value; [symmetry; apply Hb|done]. rewrite Ht.
    apply not_eq_sym, listener_endpoint_type.
Qed.

(** Every read of the listers is a read of a state of [P]. *)
Definition reads_from (P : kube -> Prop) (listers : GRPCListenerLister * EndpointSliceLister) : Prop :=
  (forall ns n, exists s, P s /\ @lister_Get listers.1 ns n = @lister_Get (kube_lister s) ns n) /\
  (forall svc l, exists s, P s /\
     @listServiceSlices listers.2 svc l = @listServiceSlices (kube_slice_lister s) svc l).

Lemma lookupBackend_from P listers name :
  reads_from P listers -> (exists s, P s) ->
  exists s, P s /\ @lookupBackend listers.1 name = @lookupBackend (kube_lister s) name.
Proof.
  intros [HG _] [s0 Hs0]. unfold lookupBackend.
  destruct (parseBackendName name) as [p| |]; cbn [mbind outcome_bind]; [|by exists s0..].
  destruct (HG (parsedBackendName_Namespace p) (parsedBackendName_ListenerName p)) as (s & Hs & ->).
  by exists s.
Qed.

(** A load assignment reads the slices of the services of the backend only. *)
Lemma makeLoadAssignment_ext (E1 E2 : EndpointSliceLister) node p l b :
  (forall svc, Some svc ∈ backend_services b ->
     @listServiceSlices E1 svc l = @listServiceSlices E2 svc l) ->
  @makeLoadAssignment _ E1 node p l b = @makeLoadAssignment _ E2 node p l b.
Proof.
  unfold makeLoadAssignment, backend_services. intros Hsvc.
  destruct (Backend_Service b) as [svc|] eqn:Hs.
  - unfold makeServiceLoadAssignment. rewrite Hs. cbn [deref mbind outcome_bind].
    by rewrite (Hsvc svc) by left.
  - case_decide as Hlen; [|done]. unfold makeLocalitiesLoadAssignment, forM, imapM.
    enough (forall n, imapM_from n (fun _ => @makeLocality E1 l) (Backend_Localities b)
              = imapM_from n (fun _ => @makeLocality E2 l) (Backend_Localities b)) as Heq
      by by rewrite Heq.
    clear Hs Hlen. revert Hsvc.
    induction (Backend_Localities b) as [|loc locs IH]; intros Hsvc n; [done|].
    cbn [imapM_from]. rewrite IH by (intros svc Hin; apply Hsvc; by right).
    unfold makeLocality. destruct (Locality_Service loc) as [svc|] eqn:Hloc; [|done].
    cbn [deref mbind outcome_bind]. rewrite (Hsvc svc); [done|]. cbn. rewrite Hloc. left.
Qed.

(** Reads of states that are the same for [ref] give the same resource. *)
Lemma item_from P listers ref node s :
  resourceRef_typeURL ref ∈ [ListenerType; ClusterType; EndpointType] ->
  P s -> (forall s', P s' -> same_for ref s' s) -> reads_from P listers ->
  ok_equiv (item_of (resourceRef_typeURL ref) node (resourceRef_resourceName ref) listers)
    (item_of (resourceRef_typeURL ref) node (resourceRef_resourceName ref) (kube_view s 0)).
Proof.
  intros Ht Hs Hsame Hfrom. unfold item_of. cbn [kube_view fst snd].
  pose proof listener_endpoint_type. pose proof cluster_endpoint_type.
  destruct (lookupBackend_from P listers (resourceRef_resourceName ref) Hfrom) as (s1 & Hs1 & Hlook);
    [eauto|].
  case_decide as Hl; [|case_decide as Hc].
  - unfold listener_item, makeListener.
    destruct (parseListenerName (resourceRef_resourceName ref)) as [[ns n]| |] eqn:Hp;
      cbn [mbind outcome_bind]; [|done..].
    destruct (proj1 Hfrom ns n) as (s2 & Hs2 & ->).
    by rewrite (same_listener _ _ _ (Hsame s2 Hs2) ns n).
  - unfold cluster_item. rewrite Hlook. by rewrite (same_backend _ _ _ (Hsame s1 Hs1) Hl).
  - assert (resourceRef_typeURL ref = EndpointType) as He by set_solver.
    unfold endpoint_item. rewrite Hlook. pose proof (same_backend _ _ _ (Hsame s1 Hs1) Hl) as Hb.
    destruct (@lookupBackend (kube_lister s1) (resourceRef_resourceName ref)) as [[[p l] b]| |] eqn:Hlk.
    2, 3: by rewrite <-Hb.
    rewrite (ok_equiv_value _ _ _ Hb eq_refl). cbn [mbind outcome_bind].
    rewrite (makeLoadAssignment_ext listers.2 (kube_slice_lister s)); [done|].
    intros svc Hsvc. destruct (proj2 Hfrom svc l) as (s2 & Hs2 & ->).
    apply (same_slices _ _ _ (Hsame s2 Hs2) p l b); [done| |done].
    eapply ok_equiv_value; [|exact (ok_equiv_value _ _ _ Hb eq_refl)]. symmetry.
    by apply (same_backend _ _ _ (Hsame s2 Hs2)).
Qed.

Lemma answer_from P listers (v : views) req ref s :
  P s -> (forall s', P s' -> same_for ref s' s) -> v 0 = listers -> reads_from P listers ->
  answer (H := kube_world) req ref v = answer (H := kube_world) req ref (kube_view s).
Proof.
  intros Hs Hsame Hv Hfrom.
  destruct (decide (resourceRef_typeURL ref ∈ [ListenerType; ClusterType; EndpointType])) as [Ht|Ht];
    [|by rewrite !answer_other].
  rewrite !answer_item by done. as_ok_equiv. rewrite Hv.
  by rewrite (item_from P listers ref _ s).
Qed.

Lemma pick_elem n s past : pick n s past ∈ s :: past.
Proof.
  unfold pick. destruct past as [|s' past]; [left|].
  destruct ((s :: s' :: past) !! n) eqn:Hn; cbn; [by eapply list_elem_of_lookup_2|left].
Qed.

Lemma mix_from r s past i : reads_from (fun s' => s' ∈ s :: past) (kube_mix r s past i).
Proof.
  split.
  - intros ns n. exists (pick (reads_Get r i ns n) s past). split; [apply pick_elem|reflexivity].
  - intros svc l. exists (pick (reads_List r i (serviceNamespace svc l)
      (serviceNameLabel, ServiceRef_Name svc)) s past). split; [apply pick_elem|reflexivity].
Qed.

(** *** Changes of a listener *)

(** [s'] is [s] after a change of the listener [l]. *)
Record listener_changed l s s' : Prop := {
  lc_listeners : kube_listeners s' = l :: other_listeners l (kube_listeners s) \/
                 kube_listeners s' = other_listeners l (kube_listeners s);
  lc_slices : kube_slices s' = kube_slices s;
  lc_fine : listener_fine l = true
}.

Lemma changed_find l s s' k :
  listener_changed l s s' -> listener_key l <> k ->
  find_listener k (kube_listeners s') = find_listener k (kube_listeners s).
Proof.
  intros [Hls _ _] Hk. destruct Hls as [-> | ->]; rewrite ?find_listener_cons, find_other;
    by rewrite !decide_False.
Qed.

Lemma changed_find_self l s s' x :
  listener_changed l s s' -> find_listener (listener_key l) (kube_listeners s') = Some x -> x = l.
Proof.
  intros [Hls _ _]. destruct Hls as [-> | ->]; rewrite ?find_listener_cons, ?find_other;
    rewrite ?decide_True by done; [by intros [= ->]|done].
Qed.

(** A name of a backend the changed listener does not have. *)
Definition not_a_backend l (name : string) : Prop :=
  forall i r j b, GRPCListener_Routes l !! i = Some r -> Route_Backends r !! j = Some b ->
    name <> backendName (GRPCListener_Namespace l) (GRPCListener_Name l) (Z.of_nat i) (Z.of_nat j).

(** The backend is not one of the changed listener. *)
Lemma lookupBackend_removed l s s' name p :
  listener_changed l s s' -> parseBackendName name = Ok p -> parsedBackendName_String p = name ->
  listener_key l = parsedBackendName_Namespace p +:+ "/" +:+ parsedBackendName_ListenerName p ->
  not_a_backend l name -> forall x, @lookupBackend (kube_lister s') name <> Ok x.
Proof.
  intros Hch Hp Hcanon Hk Hnot x. unfold lookupBackend. rewrite Hp. cbn [mbind outcome_bind].
  rewrite kube_Get, <-Hk. apply parseBackendName_no_slash in Hp as [Hns _].
  destruct (listener_fine_spec l (lc_fine _ _ _ Hch)) as [[Hlns%is_segment_no_slash _] _].
  destruct (namespaced_key_inj _ _ _ _ Hlns Hns Hk) as [Hns' Hname'].
  destruct (find_listener (listener_key l) (kube_listeners s')) as [l'|] eqn:Hl'; [|done].
  apply (changed_find_self l s s' l' Hch) in Hl' as ->. cbn [mbind outcome_bind]. intros Hx. inv_ok.
  match goal with Hfind : findBackendSpec p l = Ok _ |- _ =>
    apply findBackendSpec_Ok in Hfind as (Hr0 & Hb0 & r' & Hr & Hb) end.
  apply (Hnot _ r' _ _ Hr Hb). rewrite !Z2Nat.id by done. rewrite <-Hcanon.
  unfold parsedBackendName_String. by rewrite Hns', Hname'.
Qed.

Lemma lookupBackend_changed l s s' name :
  listener_changed l s s' ->
  (forall p, parseBackendName name = Ok p -> parsedBackendName_String p = name) ->
  not_a_backend l name ->
  (forall x, @lookupBackend (kube_lister s') name <> Ok x) \/
  @lookupBackend (kube_lister s') name = @lookupBackend (kube_lister s) name.
Proof.
  intros Hch Hcanon Hnot. destruct (parseBackendName name) as [p| |] eqn:Hp.
  2, 3: right; unfold lookupBackend; by rewrite Hp.
  destruct (decide (listener_key l
    = parsedBackendName_Namespace p +:+ "/" +:+ parsedBackendName_ListenerName p)) as [Hk|Hk].
  - left. by apply (lookupBackend_removed l s s' name p); auto.
  - right. unfold lookupBackend. rewrite Hp. cbn [mbind outcome_bind].
    by rewrite !kube_Get, (changed_find l s s').
Qed.

(** Without the backend there is no answer. *)
Lemma answer_no_backend req ref s :
  resourceRef_typeURL ref <> ListenerType ->
  (forall x, @lookupBackend (kube_lister s) (resourceRef_resourceName ref) <> Ok x) ->
  answer (H := kube_world) req ref (kube_view s) = None.
Proof.
  intros Hl Hno.
  destruct (decide (resourceRef_typeURL ref ∈ [ListenerType; ClusterType; EndpointType])) as [Ht|Ht];
    [|by apply answer_other].
  rewrite answer_item by done. unfold item_of. cbn [kube_view fst snd]. rewrite decide_False by done.
  unfold cluster_item, endpoint_item.
  destruct (@lookupBackend (kube_lister s) (resourceRef_resourceName ref)) as [x| |]; [by destruct (Hno x)|..];
    by case_decide.
Qed.

Lemma changed_listener_same req l s s' ref :
  listener_changed l s s' -> canonical ref ->
  ref ∉ (grpcListenerChangedHandler_handle (ObjGRPCListener l)).1 ->
  resourceRef_typeURL ref ∈ [ListenerType; ClusterType; EndpointType] ->
  answer (H := kube_world) req ref (kube_view s') = None \/ same_for ref s' s.
Proof.
  intros Hch Hcanon Hno Ht. rewrite (proj2 (handle_listener_refs l)) in Hno.
  destruct ref as [t name]. unfold canonical in Hcanon. cbn in Hcanon, Hno, Ht.
  destruct (decide (t = ListenerType)) as [->|Hne].
  { right. split; [|done|intros ????? _ _; by destruct listener_endpoint_type].
    intros ns n _ Hp. cbn in Hp. apply parseListenerName_Ok in Hp as [-> _]. rewrite !kube_Get.
    rewrite (changed_find l s s' _ Hch); [done|]. intros Heq. apply Hno. left.
    unfold listenerName. by rewrite <-Heq. }
  destruct (lookupBackend_changed l s s' name Hch) as [Hnone|Hsame]; [naive_solver|..].
  - intros i r j b Hi Hj ->. apply Hno. right.
    exists i, r, j, b. split; [done|]. split; [done|]. unfold backendRefOf.
    rewrite !elem_of_cons in Ht. destruct Ht as [->|[->|[->|?%elem_of_nil]]]; naive_solver.
  - left. by apply answer_no_backend.
  - right. split; cbn [resourceRef_typeURL resourceRef_resourceName]; [done|by rewrite Hsame|].
    intros p l0 b svc _ _ _. unfold kube_slice_lister. by rewrite (lc_slices _ _ _ Hch).
Qed.

(** *** Changes of a slice *)

Lemma lookupBackend_kube s name p l b :
  @lookupBackend (kube_lister s) name = Ok (p, l, b) ->
  parseBackendName name = Ok p /\ l ∈ kube_listeners s /\
  listener_key l = parsedBackendName_Namespace p +:+ "/" +:+ parsedBackendName_ListenerName p /\
  findBackendSpec p l = Ok b.
Proof.
  unfold lookupBackend. intros Hl. apply bind_Ok in Hl as (p' & Hp & Hl).
  apply bind_Ok in Hl as (l' & Hget & Hl). apply bind_Ok in Hl as (b' & Hb & Hl). simplify_eq.
  rewrite kube_Get in Hget. destruct (find_listener _ _) as [x|] eqn:Hx; [|done].
  injection Hget as ->. apply find_listener_Some in Hx as [? ?]. done.
Qed.

(** [s'] is [s] after a change of the slice [x]. *)
Record slice_changed (x : EndpointSlice) s s' : Prop := {
  sc_slices : kube_slices s' = x :: other_slices x (kube_slices s) \/
              kube_slices s' = other_slices x (kube_slices s);
  sc_listeners : kube_listeners s' = kube_listeners s;
  sc_fine l : l ∈ kube_listeners s -> listener_fine l = true;
  sc_label old : old ∈ kube_slices s -> slice_key old = slice_key x ->
    slice_service old = slice_service x
}.

Lemma fine_services_set (ls : list GRPCListener) :
  (forall l, l ∈ ls -> listener_fine l = true) -> Forall services_set ls.
Proof. intros Hls. apply Forall_forall. intros l Hl. by apply listener_fine_spec, Hls. Qed.

Lemma changed_slice_same x s s' ref :
  slice_changed x s s' -> canonical ref ->
  ref ∉ (@endpointSliceChangedHandler_handle _ (kube_lister s') _ (ObjEndpointSlice x)).1 ->
  same_for ref s' s.
Proof.
  intros [Hss Hls Hfine Hlabel] Hcanon Hno.
  assert (Forall services_set (kube_listeners s')) as Hset
    by (rewrite Hls; by apply fine_services_set).
  rewrite (proj2 (@handle_slice_refs _ (kube_lister s') _ _ x _ (kube_List s') Hset)) in Hno.
  destruct ref as [t name]. unfold canonical in Hcanon. cbn in *.
  assert (kube_lister s' = kube_lister s) as Hlister by (unfold kube_lister; by rewrite Hls).
  split; cbn [resourceRef_typeURL resourceRef_resourceName]; [by rewrite Hlister..|].
  rewrite Hlister. intros p l b svc -> Hl Hsvc.
  apply lookupBackend_kube in Hl as (Hp & Hin & Hkey & (Hr0 & Hb0 & r & Hr & Hb)%findBackendSpec_Ok).
  destruct Hcanon as [Heq|Hc]; [by destruct listener_endpoint_type|].
  specialize (Hc p Hp). apply parseBackendName_no_slash in Hp as [Hns _].
  destruct (listener_fine_spec l (Hfine l Hin)) as [[Hlns _] _].
  apply is_segment_no_slash in Hlns.
  destruct (namespaced_key_inj _ _ _ _ Hlns Hns Hkey) as [Hns' Hname'].
  unfold kube_slice_lister.
  eapply listServiceSlices_other; [exact Hlabel| |exact Hss]. intros [Hsl Hsns]. apply Hno.
  exists l, (Z.to_nat (parsedBackendName_RouteID p)), r,
    (Z.to_nat (parsedBackendName_BackendID p)), b, svc.
  rewrite Hls. split_and!; [done|done|done|done|by split; [|left]|].
  unfold backendRefOf. rewrite !Z2Nat.id by done. f_equal. rewrite <-Hc.
  unfold parsedBackendName_String. by rewrite Hns', Hname'.
Qed.

(** *** All changes *)

Lemma allowed_cases c s :
  kube_allowed c s = true ->
  (forall l, l ∈ kube_listeners s -> listener_fine l = true) /\
  match c with
  | SetListener l | DeleteListener l => listener_changed l s (kube_apply c s)
  | SetSlice x | DeleteSlice x => slice_changed x s (kube_apply c s)
  end.
Proof.
  unfold kube_allowed. rewrite andb_true_iff, forallb_elem. intros [Hfine Hc]. split; [done|].
  destruct c as [l|l|x|x]; [by split; cbn; auto..|split; [by cbn; auto..|]|split; [by cbn; auto..|]];
    rewrite forallb_elem in Hc; intros old Hin Hkey;
    by destruct (proj1 (orb_true_iff _ _) (Hc old Hin)) as [?%bool_decide_eq_true|?%bool_decide_eq_true].
Qed.

Lemma changed_fine l s s' :
  listener_changed l s s' -> (forall x, x ∈ kube_listeners s -> listener_fine x = true) ->
  forall x, x ∈ kube_listeners s' -> listener_fine x = true.
Proof.
  intros [Hls _ Hl] Hfine x Hx.
  destruct Hls as [Heq|Heq]; rewrite Heq in Hx; rewrite ?elem_of_cons in Hx;
    unfold other_listeners in Hx; rewrite list_elem_of_filter in Hx; naive_solver.
Qed.

(** An event about a slice that is handled after a change of a listener still
    notifies what it notified before, but for what the listener notifies and the
    backends it does not have any more. *)
Lemma slice_event_later req x l s s' ref :
  listener_changed l s s' -> (forall x, x ∈ kube_listeners s -> listener_fine x = true) ->
  canonical ref ->
  ref ∈ (@endpointSliceChangedHandler_handle _ (kube_lister s) _ (ObjEndpointSlice x)).1 ->
  ref ∉ (grpcListenerChangedHandler_handle (ObjGRPCListener l)).1 ->
  answer (H := kube_world) req ref (kube_view s') = None \/
  ref ∈ (@endpointSliceChangedHandler_handle _ (kube_lister s') _ (ObjEndpointSlice x)).1.
Proof.
  intros Hch Hfine Hcanon Hin Hno. pose proof (changed_fine l s s' Hch Hfine) as Hfine'.
  rewrite (proj2 (handle_listener_refs l)) in Hno.
  apply (proj2 (@handle_slice_refs _ (kube_lister s) _ _ x _ (kube_List s)
    (fine_services_set _ Hfine))) in Hin as (l0 & i & r & j & b & svc & Hl0 & Hr & Hb & Hsvc & Hrel & ->).
  destruct (decide (listener_key l0 = listener_key l)) as [Hkey|Hkey]; [left|right].
  - destruct Hcanon as [Ht|Hcanon]; [by destruct listener_endpoint_type|].
    apply answer_no_backend; [apply not_eq_sym, listener_endpoint_type|].
    cbn [backendRefOf resourceRef_resourceName resourceRef_typeURL] in Hcanon, Hno |- *.
    destruct (parseBackendName _) as [p| |] eqn:Hp;
      [|intros y; unfold lookupBackend; by rewrite Hp..].
    apply (lookupBackend_removed l s s' _ p Hch Hp); [by apply Hcanon| |].
    + destruct (listener_fine_spec l0 (Hfine l0 Hl0)) as [[Hns Hname] _].
      apply parse_backendName_key in Hp as [-> ->]; [|done|done]. by rewrite <-Hkey.
    + intros i' r' j' b' Hi' Hj' Heq. apply Hno. right. exists i', r', j', b'. split_and!; [done|done|].
      right. unfold backendRefOf. by rewrite Heq.
  - apply (proj2 (@handle_slice_refs _ (kube_lister s') _ _ x _ (kube_List s')
      (fine_services_set _ Hfine'))).
    exists l0, i, r, j, b, svc. split_and!; [|done..].
    destruct (lc_listeners _ _ _ Hch) as [-> | ->]; [right|];
      by apply list_elem_of_filter.
Qed.

(** An event that is still to be handled keeps notifying a resource unless a
    later event does or the resource is gone. *)
Lemma kube_later req c e s ref :
  canonical ref -> kube_allowed c s = true -> ref ∈ kube_notified e s ->
  ref ∉ kube_notified c (kube_apply c s) ->
  answer (H := kube_world) req ref (kube_view (kube_apply c s)) = None \/
  ref ∈ kube_notified e (kube_apply c s).
Proof.
  intros Hcanon Hc Hin Hno. apply allowed_cases in Hc as [Hfine Hc].
  destruct e as [l|l|x|x]; [by right|by right|..];
    (destruct c as [l|l|y|y]; [by eapply slice_event_later..|by right|by right]).
Qed.

(** A change that does not notify a resource leaves what is read for it alone, or
    the resource is gone. *)
Lemma quiet_change_same req c s ref :
  canonical ref -> resourceRef_typeURL ref ∈ [ListenerType; ClusterType; EndpointType] ->
  kube_allowed c s = true -> ref ∉ kube_notified c (kube_apply c s) ->
  answer (H := kube_world) req ref (kube_view (kube_apply c s)) = None \/
  same_for ref (kube_apply c s) s.
Proof.
  intros Hcanon Ht Hc Hno. apply allowed_cases in Hc as [_ Hc].
  destruct c; [by eapply changed_listener_same..|right|right]; by eapply changed_slice_same.
Qed.

Lemma same_answer req ref s s' :
  same_for ref s' s ->
  answer (H := kube_world) req ref (kube_view s') = answer (H := kube_world) req ref (kube_view s).
Proof.
  intros Hsame. apply (answer_from (fun x => x = s' \/ x = s) (kube_view s' 0)); [by right| |done|].
  - intros x [->| ->]; [done|apply same_for_refl].
  - split; intros; exists s'; (split; [by left|done]).
Qed.

Lemma quiet_same req s past ref :
  canonical ref -> resourceRef_typeURL ref ∈ [ListenerType; ClusterType; EndpointType] ->
  quiet_for (H := kube_world) ref s past ->
  answer (H := kube_world) req ref (kube_view s) = None \/
  forall s', s' ∈ s :: past -> same_for ref s' s.
Proof.
  intros Hcanon Ht. induction 1 as [s|c s past Hc Hno _ IH].
  - right. intros s' ->%list_elem_of_singleton. apply same_for_refl.
  - destruct (quiet_change_same req c s ref Hcanon Ht Hc Hno) as [?|Hsame]; [by left|].
    destruct IH as [Hnone|IH]; [left; cbn; by rewrite (same_answer req ref s)|right].
    intros s' [->|Hin]%elem_of_cons; [apply same_for_refl|].
    eapply same_for_trans; [by apply IH|]. by apply same_for_sym.
Qed.

(** The handlers keep track of every canonical resource. *)
Lemma kube_tracked req ref : canonical ref -> tracked (H := kube_world) req ref.
Proof.
  intros Hcanon. split_and!; [..|intros c e s; by apply kube_later].
  all: destruct (decide (resourceRef_typeURL ref ∈ [ListenerType; ClusterType; EndpointType])) as [Ht|Ht];
    [|intros; left; by apply answer_other].
  - intros s l r i Hquiet. destruct (quiet_same req s l ref Hcanon Ht Hquiet) as [?|Hsame]; [by left|].
    right. by apply (answer_from (fun s' => s' ∈ s :: l) (kube_mix r s l (i + 0))); [left| | |apply mix_from].
  - intros c s Hc Hno. destruct (quiet_change_same req c s ref Hcanon Ht Hc Hno) as [?|Hsame]; [by left|].
    right. by apply same_answer.
Qed.

(** ** Properties *)

End tracking.
