(* ===== verification/KubeRuns.v ===== *)
(** Runs of the controller over a small store: the witnesses of the properties
    of the concurrent system, and two runs that show what can go wrong. *)

From S2P Require Import Prelude GoStrings GoPath GoStrconv GoHash Api Errors Xds ResourceName Interceptors Routes Resolver K8s Listers ListenerHandler ClusterHandler EndpointHandler Coherence Watches Notify ConfigWatcher WatchSystem WatchProperties KubeWorld.

Local Existing Instance sample_xds.
Local Existing Instance sample_xds_laws.
Local Existing Instance ascii_tables.
Local Existing Instance sample_accessor.
Local Existing Instance sample_accessor_laws.

Definition sample_kube : kube :=
  {| kube_listeners := [sample_listener]; kube_slices := [sample_slice] |}.

(** The slice of the sample store after one of its endpoints went away. *)
Definition sample_slice_later : EndpointSlice :=
  {| EndpointSlice_ObjectMeta :=
       {| ObjectMeta_Name := "test-service-v1-abcde"; ObjectMeta_Namespace := "default";
          ObjectMeta_ResourceVersion := "43";
          ObjectMeta_Labels := {[serviceNameLabel := "test-service-v1"]} |};
     EndpointSlice_Endpoints := [sample_endpoint "10.0.0.1" "zone-a" (Some "zone-a") true];
     EndpointSlice_Ports := EndpointSlice_Ports sample_slice |}.

Definition endpoints_request : DiscoveryRequest :=
  {| DiscoveryRequest_TypeUrl := EndpointType;
     DiscoveryRequest_ResourceNames := ["default/test-xds/route/0/backend/0"];
     DiscoveryRequest_Node := Some (sample_node "zone-a") |}.

Definition endpoints_ref : resourceRef :=
  {| resourceRef_typeURL := EndpointType;
     resourceRef_resourceName := "default/test-xds/route/0/backend/0" |}.

(** A client opens a watch and gets its first response. *)
Definition open_watch : list (@action kube_world) :=
  Create ∅ endpoints_request :: replicate 6 (Run 0) ++ [Resolve 0 kube_now; Send 0].

(** The slice changes, the handler notifies, the watch is told and answers. *)
Definition change_slice : list (@action kube_world) :=
  [@Update kube_world (SetSlice sample_slice_later); Handle 0; Notify 0; Notify 0; Notify 0; Notify 0; Notify 0].

Definition run (l : list (@action kube_world)) : option (@sys kube_world) :=
  steps l (@init kube_world sample_kube).

Lemma run_reachable l st : run l = Some st -> reachable st.
Proof. apply steps_reachable. constructor. Qed.

(** All reads see the state before the latest change. *)
Definition kube_before : kube_reads := {| reads_Get _ _ _ := 1; reads_List _ _ _ := 1 |}.

(** The slice changes while the first response is made, which does not see it;
    then the watch is told. *)
Definition answered : list (@action kube_world) :=
  Create ∅ endpoints_request :: replicate 6 (Run 0) ++
  [@Update kube_world (SetSlice sample_slice_later); Resolve 0 kube_before; Send 0; Handle 0] ++
  replicate 5 (Notify 0) ++ [Receive 0; Resolve 0 kube_now; Send 0].

Lemma sample_canonical : canonical endpoints_ref.
Proof.
  right. intros p Hp. vm_compute in Hp. injection Hp as <-. by vm_compute.
Qed.

Example answered_pc :
  (st ← run answered; thread_pc <$> sys_threads st !! 0) = Some Waiting.
Proof. vm_compute. reflexivity. Qed.

(** ** Witnesses *)

(** Facts about the end of a run, checked by evaluation. *)
Definition ends_with (l : list (@action kube_world)) (st0 : @sys kube_world)
    (w : watcherPtr) (P : @sys kube_world -> @thread kube_world -> bool) : bool :=
  match steps l st0 with
  | Some st => match sys_threads st !! w with Some th => P st th | None => false end
  | None => false
  end.

Lemma ends_with_spec l st0 w P :
  ends_with l st0 w P = true ->
  exists st th, steps l st0 = Some st /\ sys_threads st !! w = Some th /\ P st th = true.
Proof.
  unfold ends_with. destruct (steps l st0) as [st|]; [|done].
  destruct (sys_threads st !! w) as [th|] eqn:Hth; [|done]. eauto.
Qed.

Definition is_waiting (p : pc) : bool := match p with Waiting => true | _ => false end.

Lemma is_waiting_spec p : is_waiting p = true -> p = Waiting.
Proof. by destruct p. Qed.

Definition same_refs (th : @thread kube_world) : bool :=
  bool_decide (request_refs (thread_req th) = request_refs endpoints_request).

(** Nothing is queued, running or pending. *)
Definition quiet (st : @sys kube_world) : bool :=
  match sys_events st, sys_notifiers st, sys_deliveries st with
  | [], [], [] => negb (sys_shutdown st) && negb (sys_crashed st)
  | _, _, _ => false
  end.

Lemma quiet_spec st :
  quiet st = true ->
  sys_events st = [] /\ sys_notifiers st = [] /\ sys_deliveries st = [] /\
  sys_shutdown st = false /\ sys_crashed st = false.
Proof.
  unfold quiet. destruct (sys_events st), (sys_notifiers st), (sys_deliveries st); try done.
  rewrite andb_true_iff, !negb_true_iff. naive_solver.
Qed.


Lemma subscriptions_follow_watch_witness :
  exists st, run open_watch = Some st /\
    forall ref, 0 ∈ subscribers (sys_reg st) ref <-> ref ∈ request_refs endpoints_request.
Proof.
  destruct (ends_with_spec open_watch (@init kube_world sample_kube) 0 (fun st th =>
    is_waiting (thread_pc th) && same_refs th))
    as (st & th & Hrun & Hth & Hall); [vm_compute; reflexivity|].
  apply andb_true_iff in Hall as [Hpc%is_waiting_spec Hreq%bool_decide_eq_true].
  exists st. split; [exact Hrun|]. rewrite <-Hreq.
  apply (subscriptions_follow_watch st 0 th (run_reachable _ _ Hrun) Hth).
  rewrite Hpc. exact I.
Defined.

(** A delivery is pending after the slice changed. *)
Lemma deliveries_requested_witness :
  exists st th, run (open_watch ++ change_slice) = Some st /\
    (0, endpoints_ref) ∈ sys_deliveries st /\
    sys_threads st !! 0 = Some th /\ endpoints_ref ∈ request_refs (thread_req th).
Proof.
  destruct (ends_with_spec (open_watch ++ change_slice) (@init kube_world sample_kube) 0
    (fun st _ => bool_decide (sys_deliveries st = [(0, endpoints_ref)])))
    as (st & th & Hrun & Hth & Hd%bool_decide_eq_true); [vm_compute; reflexivity|].
  exists st. destruct (proj1 (deliveries_requested st (run_reachable _ _ Hrun)) 0 endpoints_ref)
    as (th' & Hth' & Href); [rewrite Hd; left|].
  exists th'. split; [exact Hrun|]. split; [rewrite Hd; left|]. split; [exact Hth'|exact Href].
Defined.

(** The goroutine is about to add itself to the object it created. *)
Lemma one_object_per_resource_witness :
  exists st, run [Create ∅ endpoints_request; Run 0; Run 0; Run 0] = Some st /\
    watches_watchers (sys_reg st) !! endpoints_ref = Some 0.
Proof.
  destruct (ends_with_spec [Create ∅ endpoints_request; Run 0; Run 0; Run 0]
    (@init kube_world sample_kube) 0 (fun _ th =>
      match thread_pc th with
      | Subscribing [ref] (WAdd rw) => bool_decide (ref = endpoints_ref /\ rw = 0)
      | _ => false
      end)) as (st & th & Hrun & Hth & Hpc); [vm_compute; reflexivity|].
  exists st. split; [exact Hrun|].
  apply (proj1 (one_object_per_resource st (run_reachable _ _ Hrun)) 0 th endpoints_ref [] 0 Hth).
  right. left. destruct (thread_pc th) as [[|? []] []| | | | | | |]; try discriminate Hpc.
  apply bool_decide_eq_true in Hpc as [-> ->]. reflexivity.
Defined.

(** The watch is cancelled after it was told of a change, while it resolves. *)
Definition cancelled_midway : list (@action kube_world) :=
  open_watch ++ change_slice ++ [Receive 0; Cancel 0].

Definition panics {A} (m : M A) : bool := match m with Panic _ => true | _ => false end.

Lemma panics_spec {A} (m : M A) : panics m = false -> no_panic m.
Proof. by destruct m. Qed.

Lemma cancelled_watch_exits_witness :
  exists st l st' th', run cancelled_midway = Some st /\
    steps l st = Some st' /\ sys_threads st' !! 0 = Some th' /\ thread_pc th' = Exited.
Proof.
  destruct (ends_with_spec cancelled_midway (@init kube_world sample_kube) 0 (fun st th =>
    negb (sys_crashed st) && (thread_cancelled th &&
      (negb (panics (@resolve kube_world (view (sys_store st)) (initialRequest (thread_req th)))) &&
       forallb (fun ref => negb (panics (@resolve kube_world (view (sys_store st))
          (updateRequest (thread_req th) ref)))) (request_refs (thread_req th))))))
    as (st & th & Hrun & Hth & Hall); [vm_compute; reflexivity|].
  apply andb_true_iff in Hall as [Hcr%negb_true_iff Hall].
  apply andb_true_iff in Hall as [Hca Hall].
  apply andb_true_iff in Hall as [Hinit%negb_true_iff Hupd].
  destruct (cancelled_watch_exits st 0 th (run_reachable _ _ Hrun) Hcr Hth Hca)
    as (l & st' & th' & _ & _ & ? & ? & ?).
  { split; [by apply panics_spec|]. apply Forall_forall. intros ref Href.
    apply panics_spec, negb_true_iff.
    by apply (proj1 (forallb_forall _ _) Hupd ref), list_elem_of_In. }
  exists st, l, st', th'. split; [exact Hrun|]. split; [assumption|]. split; assumption.
Defined.

(** ** What can go wrong *)

(** A watch for the cluster of route -1. *)
Definition hostile_request : DiscoveryRequest :=
  {| DiscoveryRequest_TypeUrl := ClusterType;
     DiscoveryRequest_ResourceNames := ["default/test-xds/route/-1/backend/0"];
     DiscoveryRequest_Node := None |}.

(** C33: one request ends the process. From the start of the controller on a
    store with one ordinary listener, a single client that opens a watch for
    the cluster of route -1 makes the watch goroutine panic, and after that no
    step of any other watch, handler or client is possible. *)
Theorem one_request_crashes_controller :
  exists st, run (Create ∅ hostile_request :: replicate 6 (Run 0) ++ [@Resolve kube_world 0 kube_now]) = Some st /\
    sys_crashed st = true /\ forall a, step a st = None.
Proof.
  destruct (ends_with_spec (Create ∅ hostile_request :: replicate 6 (Run 0) ++ [@Resolve kube_world 0 kube_now])
    (@init kube_world sample_kube) 0 (fun st _ => sys_crashed st))
    as (st & th & Hrun & _ & Hcrashed); [vm_compute; reflexivity|].
  exists st. split; [exact Hrun|]. split; [exact Hcrashed|]. intros a. unfold step.
  by rewrite Hcrashed.
Qed.

(** The client acknowledges the first response: its watch is cancelled and ends,
    the slice changes, and the watch of the acknowledgement opens, on a stream
    that now knows the name. *)
Definition known_stream : StreamState :=
  {[ EndpointType := {[ "default/test-xds/route/0/backend/0" ]} ]}.

Definition acknowledged : list (@action kube_world) :=
  open_watch ++ [Cancel 0; Leave 0 [endpoints_ref]] ++ replicate 5 (Run 0) ++
  change_slice ++ Create known_stream endpoints_request :: replicate 6 (Run 1).

Definition sent_responses (st : @sys kube_world) (w : watcherPtr) : list resolveResponse :=
  default [] ((fun th => cacheResponse_resp <$> thread_sent th) <$> sys_threads st !! w).

(** C32: a change between two watches of a client is lost. There is a run in
    which a client got a response for a load assignment, its watch was replaced
    by one for the same resource on a stream that knows it, a slice changed in
    between, and nothing is queued, running or pending any more: the new watch
    waits and has sent nothing, and the only response the client has is not the
    current answer. *)
Theorem rewatch_loses_update :
  exists st th resp, run acknowledged = Some st /\ quiet st = true /\
    sys_threads st !! 1 = Some th /\ thread_pc th = Waiting /\ thread_cancelled th = false /\
    request_refs (thread_req th) = [endpoints_ref] /\
    sent_responses st 1 = [] /\ sent_responses st 0 = [resp] /\
    answer endpoints_request endpoints_ref (view (sys_store st)) <> None /\
    answer endpoints_request endpoints_ref (view (sys_store st)) <> Some resp.
Proof.
  destruct (ends_with_spec acknowledged (@init kube_world sample_kube) 1 (fun st th =>
    quiet st && (is_waiting (thread_pc th) && (negb (thread_cancelled th) && (same_refs th &&
      match sent_responses st 1, sent_responses st 0,
            answer endpoints_request endpoints_ref (view (sys_store st)) with
      | [], [r], Some r' =>
          bool_decide (resolveResponse_versionHasher r <> resolveResponse_versionHasher r')
      | _, _, _ => false
      end)))))
    as (st & th & Hrun & Hth & Hall); [vm_compute; reflexivity|].
  apply andb_true_iff in Hall as [Hq Hall].
  apply andb_true_iff in Hall as [Hpc%is_waiting_spec Hall].
  apply andb_true_iff in Hall as [Hca%negb_true_iff Hall].
  apply andb_true_iff in Hall as [Hreq%bool_decide_eq_true Hall].
  destruct (sent_responses st 1) eqn:H1; [|discriminate Hall].
  destruct (sent_responses st 0) as [|resp []] eqn:H0; [discriminate Hall| |discriminate Hall].
  destruct (answer endpoints_request endpoints_ref (view (sys_store st))) as [r'|] eqn:Ha;
    [|discriminate Hall].
  apply bool_decide_eq_true in Hall. exists st, th, resp.
  split; [exact Hrun|]. split; [exact Hq|]. split; [exact Hth|]. split; [exact Hpc|].
  split; [exact Hca|]. split; [exact Hreq|]. split; [exact H1|]. split; [exact H0|].
  rewrite Ha. split; congruence.
Qed.
