(* ===== verification/ClientView.v ===== *)
(** What a client of the controller holds: the responses of a watch, as the
    state-of-the-world protocol of xDS has a client read them.

    A client keeps the last resource it got under each name. A response of
    listeners or clusters is the whole set of them, so a resource that is not in
    it is gone; a response of load assignments adds to what is known. A client
    finds the name of a resource in its bytes: [ResourceNames].

    The watch goroutine of [gtc/cache.go] sends one resource when one changes.
    For load assignments, and for watches of one name, the client holds the
    current answer once nothing is pending. A watch of several clusters loses
    all of them but one. *)

From S2P Require Import Prelude GoStrings GoPath GoStrconv GoHash Api Errors Xds ResourceName Interceptors Routes Resolver K8s Listers ListenerHandler ClusterHandler EndpointHandler Coherence Watches Notify ConfigWatcher WatchSystem WatchProperties KubeWorld KubeRuns.
From Stdlib Require Import Ascii.

Class ResourceNames := { resource_name : Any -> string }.

(** The name is part of what was marshalled. *)
Class ResourceNamesLaws `{XdsLibrary, ResourceNames} : Prop := {
  name_of_listener typ l bs : proto_Marshal (MListener l) = Ok bs ->
    resource_name {| Any_TypeUrl := typ; Any_Value := bs |} = listenerv3.Listener_Name l;
  name_of_cluster typ c bs : proto_Marshal (MCluster c) = Ok bs ->
    resource_name {| Any_TypeUrl := typ; Any_Value := bs |} = cluster.Cluster_Name c;
  name_of_assignment typ cla bs : proto_Marshal (MClusterLoadAssignment cla) = Ok bs ->
    resource_name {| Any_TypeUrl := typ; Any_Value := bs |}
      = endpointv3.ClusterLoadAssignment_ClusterName cla
}.

(** ** The client *)

Section client.
Context `{XdsLibrary, ResourceNames}.

Definition absorb (rs : list Any) (cache : gmap string Any) : gmap string Any :=
  foldl (fun cache a => <[resource_name a := a]> cache) cache rs.

(** The types whose responses are complete. *)
Definition whole_set (typeURL : string) : bool :=
  bool_decide (typeURL = ListenerType) || bool_decide (typeURL = ClusterType).

Definition client_receive (cache : gmap string Any) (resp : resolveResponse) : gmap string Any :=
  absorb (omap id (resolveResponse_resources resp))
    (if whole_set (resolveResponse_typeURL resp) then ∅ else cache).

Definition client_cache (resps : list resolveResponse) : gmap string Any :=
  foldl client_receive ∅ resps.

Lemma absorb_other rs cache name :
  (forall a, a ∈ rs -> resource_name a <> name) -> absorb rs cache !! name = cache !! name.
Proof.
  revert cache. induction rs as [|a rs IH]; intros cache Hrs; [done|]. cbn.
  change (absorb rs (<[resource_name a := a]> cache) !! name = cache !! name).
  rewrite IH; [|set_solver]. apply lookup_insert_ne, Hrs. set_solver.
Qed.

(** The last resource of a name stays. *)
Lemma absorb_last rs cache j a :
  rs !! j = Some a ->
  (forall k b, j < k -> rs !! k = Some b -> resource_name b <> resource_name a) ->
  absorb rs cache !! resource_name a = Some a.
Proof.
  revert cache j. induction rs as [|b rs IH]; intros cache j Hj Hlast; [done|]. cbn.
  change (absorb rs (<[resource_name b := b]> cache) !! resource_name a = Some a).
  destruct j as [|j]; cbn in Hj.
  - injection Hj as ->. rewrite absorb_other; [apply lookup_insert_eq|].
    intros b [k Hk]%list_elem_of_lookup. apply (Hlast (S k)); [lia|done].
  - apply (IH _ j); [done|]. intros k c Hk Hc. apply (Hlast (S k)); [lia|done].
Qed.
End client.

(** ** Responses of the resolver *)

Section responses.
Context `{XdsLibrary, !XdsLaws, UnicodeTables, MetaAccessor, !MetaAccessorLaws,
  ResourceNames, !ResourceNamesLaws}.
Implicit Types (s : kube) (v : views) (ref : resourceRef) (req : DiscoveryRequest).

(** The resource that answers a request for [ref]. *)
Definition answer_resource req ref v : option Any :=
  resp ← answer (H := kube_world) req ref v; mjoin (head (resolveResponse_resources resp)).

(** Invert a successful computation whose steps return pairs. *)
Ltac inv_items :=
  repeat (inv_ok; match goal with p : (_ * _)%type |- _ => destruct p end); inv_ok; simplify_eq.

(** What the resolver gives for a name has this name. *)
Lemma item_name typ node name listers a vs :
  typ ∈ [ListenerType; ClusterType; EndpointType] ->
  canonical {| resourceRef_typeURL := typ; resourceRef_resourceName := name |} ->
  item_of typ node name listers = Ok (a, vs) -> resource_name a = name.
Proof.
  intros Ht Hcanon. unfold item_of. case_decide as Hl; [|case_decide as Hc].
  - unfold listener_item, makeListener. intros Ha. inv_items.
    match goal with He : encodeResource _ _ = Ok a |- _ =>
      apply encodeResource_Ok in He as (bs & Hbs & ->) end.
    by rewrite (name_of_listener _ _ _ Hbs).
  - unfold cluster_item. intros Ha. inv_items.
    match goal with He : encodeResource _ _ = Ok a |- _ =>
      apply encodeResource_Ok in He as (bs & Hbs & ->) end.
    by rewrite (name_of_cluster _ _ _ Hbs).
  - destruct Hcanon as [?|Hcanon]; [done|]. unfold endpoint_item, lookupBackend.
    intros Ha. inv_items.
    match goal with He : encodeResource _ _ = Ok a |- _ =>
      apply encodeResource_Ok in He as (bs & Hbs & ->) end.
    rewrite (name_of_assignment _ _ _ Hbs).
    erewrite makeLoadAssignment_name by done. by apply Hcanon.
Qed.

(** The resource that answers is the one the resolver gives for the name. *)
Lemma answer_resource_item req ref v :
  resourceRef_typeURL ref ∈ [ListenerType; ClusterType; EndpointType] ->
  answer_resource req ref v = fst <$> ok_result (item_of (resourceRef_typeURL ref)
    (DiscoveryRequest_Node req) (resourceRef_resourceName ref) (v 0)).
Proof.
  intros Ht. unfold answer_resource. rewrite answer_item by done.
  by destruct (item_of _ _ _ _) as [[a vs]| |].
Qed.

(** The response to a request for one name. *)
Lemma update_response req ref v resp :
  canonical ref -> @resolve kube_world v (updateRequest req ref) = Ok resp ->
  exists a, resolveResponse_resources resp = [Some a] /\
    resolveResponse_typeURL resp = resourceRef_typeURL ref /\
    answer_resource req ref v = Some a /\ resource_name a = resourceRef_resourceName ref.
Proof.
  intros Hcanon Hresp.
  destruct (decide (resourceRef_typeURL ref ∈ [ListenerType; ClusterType; EndpointType])) as [Ht|Ht].
  - rewrite answer_resource_item by done. cbn [resolve kube_world] in Hresp.
    rewrite views_resolve_items in Hresp by done. unfold updateRequest in Hresp.
    cbn [resolveRequest_typeUrl resolveRequest_nodeInfo resolveRequest_resourceNames] in Hresp.
    rewrite resolve_each_singleton in Hresp.
    destruct (item_of _ _ _ (v 0)) as [[a vs]| |] eqn:Ha; try done.
    injection Hresp as <-. exists a. split_and!; [done|done|done|].
    destruct ref. by eapply item_name.
  - cbn [resolve kube_world] in Hresp. by rewrite views_resolve_other in Hresp.
Qed.

Lemma request_refs_lookup req i ref :
  request_refs req !! i = Some ref <->
  exists name, DiscoveryRequest_ResourceNames req !! i = Some name /\
    ref = {| resourceRef_typeURL := DiscoveryRequest_TypeUrl req; resourceRef_resourceName := name |}.
Proof.
  unfold request_refs. rewrite list_lookup_fmap_Some. split; intros (name & ? & ?); exists name; done.
Qed.

(** The response to a request for all names, position by position. *)
Lemma initial_response req v resp :
  Forall canonical (request_refs req) -> @resolve kube_world v (initialRequest req) = Ok resp ->
  length (omap id (resolveResponse_resources resp)) = length (request_refs req) /\
  forall i ref, request_refs req !! i = Some ref -> exists a,
    answer_resource req ref (focus (World := kube_world) i v) = Some a /\
    resource_name a = resourceRef_resourceName ref /\
    omap id (resolveResponse_resources resp) !! i = Some a.
Proof.
  intros Hcanon Hresp. rewrite Forall_lookup in Hcanon. cbn [resolve kube_world] in Hresp.
  destruct (decide (DiscoveryRequest_TypeUrl req ∈ [ListenerType; ClusterType; EndpointType]))
    as [Ht|Ht]; [|by rewrite views_resolve_other in Hresp].
  rewrite views_resolve_items in Hresp by done. unfold initialRequest in Hresp.
  cbn [resolveRequest_typeUrl resolveRequest_nodeInfo resolveRequest_resourceNames] in Hresp.
  apply resolve_each_Ok in Hresp as (_ & items & Hitems & Hres & _).
  assert (omap id (resolveResponse_resources resp) = items.*1) as ->.
  { rewrite Hres. clear. induction items as [|[a vs] items IH]; cbn; [done|]. by f_equal. }
  split.
  { rewrite length_fmap, (imapM_length _ _ _ Hitems). unfold request_refs. by rewrite length_fmap. }
  intros i ref Hi. pose proof (Hcanon i ref Hi) as Hc. apply request_refs_lookup in Hi as (name & Hi & ->).
  destruct (imapM_lookup _ _ _ _ _ Hitems Hi) as ([a vs] & Hai & Ha). exists a.
  rewrite answer_resource_item by done. cbn [focus kube_world]. rewrite Nat.add_0_r.
  cbn [resourceRef_typeURL resourceRef_resourceName]. rewrite Ha. split; [done|].
  split; [by eapply item_name|]. by rewrite list_lookup_fmap, Hai.
Qed.

(** The request for all names fails only when the one for some name does. *)
Lemma initial_fails req v :
  DiscoveryRequest_ResourceNames req <> [] ->
  is_ok (@resolve kube_world v (initialRequest req)) = false ->
  exists j ref', request_refs req !! j = Some ref' /\
    answer (H := kube_world) req ref' (focus (World := kube_world) j v) = None.
Proof.
  intros Hne Hfail.
  destruct (decide (DiscoveryRequest_TypeUrl req ∈ [ListenerType; ClusterType; EndpointType]))
    as [Ht|Ht]; last first.
  { destruct (DiscoveryRequest_ResourceNames req) as [|name names] eqn:Hnames; [done|].
    eexists 0, _. unfold request_refs. rewrite Hnames. split; [done|]. by apply answer_other. }
  cbn [resolve kube_world] in Hfail. rewrite views_resolve_items in Hfail by done.
  unfold initialRequest, resolve_each in Hfail.
  cbn [resolveRequest_typeUrl resolveRequest_nodeInfo resolveRequest_resourceNames] in Hfail.
  rewrite is_ok_ret in Hfail.
  destruct (imapM_fails _ _ Hfail) as (j & name & Hj & Hname).
  exists j, {| resourceRef_typeURL := DiscoveryRequest_TypeUrl req; resourceRef_resourceName := name |}.
  split; [apply request_refs_lookup; eauto|]. rewrite answer_item by done. cbn [focus kube_world].
  rewrite Nat.add_0_r. cbn [resourceRef_typeURL resourceRef_resourceName].
  by destruct (item_of _ _ _ (v j)) as [[a vs]| |].
Qed.
End responses.

(** ** What was sent *)

Section view.
Context `{XdsLibrary, !XdsLaws, UnicodeTables, MetaAccessor, !MetaAccessorLaws,
  ResourceNames, !ResourceNamesLaws}.
Implicit Types (st : @sys kube_world) (th : @thread kube_world) (ref : resourceRef).

(** The responses of a watch, with the one it is sending. *)
Definition delivered th : list resolveResponse :=
  (cacheResponse_resp <$> thread_sent th) ++
  match thread_pc th with Sending resp => [resp] | _ => [] end.

(** A response for one name leaves the others alone, or there are no others. *)
Definition keeps_others (req : DiscoveryRequest) : Prop :=
  whole_set (DiscoveryRequest_TypeUrl req) = false \/
  forall ref ref', ref ∈ request_refs req -> ref' ∈ request_refs req -> ref = ref'.

(** What the watch resolved last for [ref] is what the client has, unless that
    was the first resolution, of all names, and it failed. *)
Definition view th ref : Prop :=
  forall q v i a, thread_seen th !! ref = Some (q, v, i) ->
    answer_resource (thread_req th) ref (focus (World := kube_world) i v) = Some a ->
    (q = initialRequest (thread_req th) /\ request_refs (thread_req th) !! i = Some ref /\
     is_ok (@resolve kube_world v q) = false) \/
    client_cache (delivered th) !! resourceRef_resourceName ref = Some a.

Definition thread_view th : Prop :=
  thread_cancelled th = false -> Forall canonical (request_refs (thread_req th)) ->
  keeps_others (thread_req th) ->
  forall ref, ref ∈ request_refs (thread_req th) -> view th ref.

Definition view_inv st : Prop := forall w th, sys_threads st !! w = Some th -> thread_view th.

Lemma view_put st w th reg :
  view_inv st -> thread_view th -> view_inv (put_thread w th (set_reg reg st)).
Proof.
  intros Hview Hth w' th'. cbn. rewrite lookup_insert. case_decide; [by intros [= <-]|].
  apply Hview.
Qed.

Lemma view_goto st w th : view_inv st -> thread_view th -> view_inv (put_thread w th st).
Proof.
  intros. replace st with (set_reg (sys_reg st) st) by by destruct st. by apply view_put.
Qed.

Lemma view_queues st events notifiers deliveries :
  view_inv st -> view_inv (set_queues events notifiers deliveries st).
Proof. done. Qed.

(** Moves that send and resolve nothing. *)
Definition sending (p : pc) : bool := match p with Sending _ => true | _ => false end.

Lemma thread_view_pc th p :
  thread_view th -> sending (thread_pc th) = false -> sending p = false ->
  thread_view (set_pc p th).
Proof.
  intros Hview Hpc Hp Hca Hcanon Hkeep ref Href q v i a Hs Ha.
  destruct (Hview Hca Hcanon Hkeep ref Href q v i a Hs Ha) as [?|Hc]; [by left|right].
  rewrite <-Hc. unfold delivered. cbn. by destruct p, (thread_pc th).
Qed.

Lemma view_move st w th p reg :
  view_inv st -> sys_threads st !! w = Some th -> sending (thread_pc th) = false ->
  sending p = false -> view_inv (goto w th p (set_reg reg st)).
Proof. intros Hview Hth Hpc Hp. apply view_put; [done|]. apply thread_view_pc; eauto. Qed.

Lemma view_step st w th p :
  view_inv st -> sys_threads st !! w = Some th -> sending (thread_pc th) = false ->
  sending p = false -> view_inv (goto w th p st).
Proof. intros Hview Hth Hpc Hp. apply view_goto; [done|]. apply thread_view_pc; eauto. Qed.

Lemma view_begin st w th p :
  view_inv st -> sys_threads st !! w = Some th -> sending (thread_pc th) = false ->
  sending p = false -> view_inv (begin w th p st).
Proof.
  intros Hview Hth Hpc Hp. apply view_goto; [done|]. apply (thread_view_pc th p); eauto.
Qed.

Lemma view_cancelled th : thread_cancelled th = true -> thread_view th.
Proof. intros Hca Hca'. congruence. Qed.

Lemma client_cache_snoc resps resp :
  client_cache (resps ++ [resp]) = client_receive (client_cache resps) resp.
Proof. unfold client_cache. by rewrite foldl_app. Qed.

Lemma request_ref_inj req ref ref' :
  ref ∈ request_refs req -> ref' ∈ request_refs req ->
  resourceRef_resourceName ref = resourceRef_resourceName ref' -> ref = ref'.
Proof.
  rewrite !request_refs_spec. destruct ref, ref'. cbn. naive_solver congruence.
Qed.

(** The first resolution, of all names. *)
Lemma view_initial st w th v :
  view_inv st -> sys_threads st !! w = Some th -> thread_pc th = Initial ->
  view_inv (resolve_and_send w th (request_refs (thread_req th))
              (initialRequest (thread_req th)) v st).
Proof.
  intros Hview Hth Hpc. unfold resolve_and_send.
  destruct (resolve v (initialRequest (thread_req th))) as [resp|e|p] eqn:Hresp;
    [| |done]; apply view_goto; try done; intros Hca Hcanon Hkeep ref Href q v' i a Hs Ha;
    (destruct (saw_seen (H := kube_world) (request_refs (thread_req th)) (initialRequest (thread_req th))
       v th ref) as [[Hno _]|(j & Hj & Hlast & Hseen)]; [done|]);
    cbn [thread_req thread_seen set_pc saw] in *; rewrite Hseen in Hs; injection Hs as <- <- <-;
    [right|left; by rewrite Hresp].
  destruct (initial_response _ _ _ Hcanon Hresp) as [Hlen Hall].
  destruct (Hall j ref Hj) as (a' & Ha' & Hn & Hin). rewrite Ha in Ha'. injection Ha' as <-.
  unfold delivered. cbn [thread_pc set_pc]. rewrite client_cache_snoc, <-Hn.
  apply (absorb_last _ _ j); [done|]. intros k b Hk Hb Hname. apply (Hlast k Hk).
  destruct (lookup_lt_is_Some_2 (request_refs (thread_req th)) k) as [ref' Href'].
  { rewrite <-Hlen. by eapply lookup_lt_Some. }
  destruct (Hall k ref' Href') as (b' & _ & Hn' & Hb'). rewrite Hb in Hb'. injection Hb' as <-.
  rewrite Href'. f_equal. apply (request_ref_inj (thread_req th)); [|done|congruence].
  by eapply list_elem_of_lookup_2.
Qed.

(** A later resolution, of the name that changed. *)
Lemma view_update st w th ref v :
  view_inv st -> sys_threads st !! w = Some th -> thread_pc th = Resolving ref ->
  ref ∈ request_refs (thread_req th) ->
  view_inv (resolve_and_send w th [ref] (updateRequest (thread_req th) ref) v st).
Proof.
  intros Hview Hth Hpc Hin. unfold resolve_and_send.
  destruct (resolve v (updateRequest (thread_req th) ref)) as [resp|e|p] eqn:Hresp;
    [| |done]; apply view_goto; try done; intros Hca Hcanon Hkeep ref' Href' q v' i a Hs Ha;
    cbn [thread_req thread_seen set_pc thread_cancelled saw] in Hca, Hcanon, Hkeep, Href', Ha, Hs |- *;
    pose proof (saw_seen (H := kube_world) [ref] (updateRequest (thread_req th) ref) v th ref') as Hsaw;
    cbn [thread_seen saw] in Hsaw; rewrite Hs in Hsaw.
  - assert (canonical ref) as Hc by by eapply Forall_forall in Hcanon.
    destruct (update_response _ _ _ _ Hc Hresp) as (a0 & Hres & Htyp & Ha0 & Hn0).
    assert (delivered (set_pc (Sending resp) (saw [ref] (updateRequest (thread_req th) ref) v th))
            = delivered th ++ [resp]) as ->.
    { unfold delivered. cbn [thread_pc set_pc]. rewrite Hpc. by rewrite app_nil_r. }
    rewrite client_cache_snoc. unfold client_receive. rewrite Hres. cbn [omap list_omap id].
    destruct Hsaw as [[Hno Hold]|(j & Hj & _ & Hnew)].
    + destruct Hkeep as [Hkeep|Hsame]; [|destruct Hno; rewrite (Hsame ref' ref) by done; left].
      assert (whole_set (resolveResponse_typeURL resp) = false) as ->.
      { rewrite Htyp. apply request_refs_spec in Hin as [-> _]. done. }
      rewrite absorb_other; [by apply (Hview w th Hth Hca Hcanon (or_introl Hkeep) ref' Href' q v' i a)|].
      intros a1 ->%list_elem_of_singleton. rewrite Hn0. intros Hn.
      apply Hno. rewrite (request_ref_inj (thread_req th) ref' ref); [left|done|done|done].
    + destruct j as [|j]; [|done]. injection Hj as ->. injection Hnew as -> -> ->. right.
      change (answer_resource (thread_req th) ref' v = Some a) in Ha.
      rewrite Ha0 in Ha. injection Ha as <-. rewrite <-Hn0. cbn. apply lookup_insert_eq.
  - assert (delivered (set_pc Waiting (saw [ref] (updateRequest (thread_req th) ref) v th))
            = delivered th) as ->.
    { unfold delivered. cbn [thread_pc set_pc]. by rewrite Hpc. }
    destruct Hsaw as [[Hno Hold]|(j & Hj & _ & Hnew)];
      [by apply (Hview w th Hth Hca Hcanon Hkeep ref' Href' q v' i a)|].
    destruct j as [|j]; [|done]. injection Hj as ->. injection Hnew as -> -> ->.
    change (answer_resource (thread_req th) ref' v = Some a) in Ha.
    unfold answer_resource, answer in Ha. by rewrite Hresp in Ha.
Qed.

Lemma view_run st w th st' :
  view_inv st -> sys_threads st !! w = Some th -> run_thread w th st = Some st' ->
  view_inv st'.
Proof.
  intros Hview Hth. unfold run_thread.
  destruct (thread_pc th) as [[|ref todo] q| | | |ref|[|ref todo] q| |] eqn:Hpc; try done.
  - intros [= <-]. apply view_begin; by rewrite ?Hpc.
  - intros [= <-]. unfold run_subscribe. destruct q; repeat case_match;
      first [apply view_move; by rewrite ?Hpc|apply view_step; by rewrite ?Hpc].
  - case_match; [done|]. intros [= <-]. apply view_step; by rewrite ?Hpc.
  - intros [= <-]. apply view_step; by rewrite ?Hpc.
  - intros [= <-]. unfold run_release. destruct q; repeat case_match;
      first [apply view_move; by rewrite ?Hpc|apply view_step; by rewrite ?Hpc].
  - case_match; intros [= <-]; [apply view_move; by rewrite ?Hpc|done|done].
Qed.

Lemma view_resolution st w r th st' :
  sys_inv st -> view_inv st -> sys_threads st !! w = Some th ->
  run_resolution w r th st = Some st' -> view_inv st'.
Proof.
  intros Hinv Hview Hth. unfold run_resolution. destruct (thread_pc th) eqn:Hpc; try done.
  - case_match; [|done]. intros [= <-]. by apply view_initial.
  - intros [= <-]. apply view_update; try done.
    destruct (si_threads _ Hinv w th Hth) as [Hp _ _]. rewrite Hpc in Hp. by apply Hp.
Qed.

Lemma view_act a st st' :
  sys_inv st -> view_inv st -> act a st = Some st' -> view_inv st'.
Proof.
  intros Hinv Hview. destruct a as [stream req|w|w|w r|w|w|w order|k|k|k|c|k|k|]; cbn; unfold_action.
  - intros [= <-]. apply view_put; [done|]. intros _ _ _ ref _ q v i a. cbn.
    by rewrite lookup_empty.
  - destruct (sys_threads st !! w) as [th|] eqn:Hth; [|done]. intros [= <-].
    apply view_goto; [done|by apply view_cancelled].
  - destruct (sys_threads st !! w) as [th|] eqn:Hth; [|done]. by apply view_run.
  - destruct (sys_threads st !! w) as [th|] eqn:Hth; [|done]. by apply view_resolution.
  - destruct (sys_threads st !! w) as [th|] eqn:Hth; [|done].
    destruct (thread_pc th) as [| |resp| | | | |] eqn:Hpc; try done. intros [= <-].
    apply view_goto; [done|]. intros Hca Hcanon Hkeep ref Href q v i a Hs Ha.
    destruct (Hview w th Hth Hca Hcanon Hkeep ref Href q v i a Hs Ha) as [?|Hc]; [by left|right].
    rewrite <-Hc. unfold delivered. rewrite Hpc. cbn [thread_pc finish_send thread_sent].
    by rewrite fmap_app, app_nil_r.
  - destruct (sys_threads st !! w) as [th|] eqn:Hth; [|done].
    destruct (thread_pc th); try done. case_match eqn:Hca; [|done]. intros [= <-].
    apply view_goto; [done|by apply view_cancelled].
  - destruct (sys_threads st !! w) as [th|] eqn:Hth; [|done].
    destruct (thread_pc th) eqn:Hpc; try done. case_match; [|done]. intros [= <-].
    apply view_step; by rewrite ?Hpc.
  - destruct (sys_deliveries st !! k) as [[w ref]|]; [|done].
    destruct (sys_threads st !! w) as [th|] eqn:Hth; [|done].
    destruct (thread_pc th) eqn:Hpc; try done. intros [= <-].
    apply view_begin; [by apply view_queues|done|by rewrite ?Hpc|done].
  - destruct (sys_deliveries st !! k) as [[w ref]|]; [|done]. case_match; [|done].
    intros [= <-]. by apply view_queues.
  - case_match; [|done]. case_match; [|done]. intros [= <-]. by apply view_queues.
  - case_match; [|done]. by intros [= <-].
  - case_match; [|done]. intros [= <-]. by apply view_queues.
  - unfold run_notifier. repeat case_match; try done; intros [= <-]; by apply view_queues.
  - by intros [= <-].
Qed.

Lemma reachable_view st : reachable st -> view_inv st.
Proof.
  induction 1 as [s|st a st' Hr IH [_ Hact]%step_act].
  - intros w th. cbn. by rewrite lookup_empty.
  - eapply view_act; eauto using reachable_inv.
Qed.

(** The first resolution of the watch was the latest one of [ref], and it failed
    because of another name. *)
Definition first_failed th ref : Prop :=
  exists v i j ref', thread_seen th !! ref = Some (initialRequest (thread_req th), v, i) /\
    request_refs (thread_req th) !! j = Some ref' /\ j <> i /\
    answer (H := kube_world) (thread_req th) ref' (focus (World := kube_world) j v) = None.

(** What an open watch that waits has sent, when nothing concerns [ref]. *)
Lemma waiting_client_current st w th ref a :
  reachable st -> sys_shutdown st = false -> sys_threads st !! w = Some th ->
  hasResourceDiff (thread_stream th) (thread_req th) = true ->
  thread_pc th = Waiting -> thread_cancelled th = false ->
  Forall canonical (request_refs (thread_req th)) -> keeps_others (thread_req th) ->
  ref ∈ request_refs (thread_req th) ->
  (forall c, c ∈ sys_events st -> ref ∉ kube_notified c (sys_store st)) ->
  (forall n, n ∈ sys_notifiers st -> npc_ref n <> ref) ->
  (w, ref) ∉ sys_deliveries st ->
  answer_resource (thread_req th) ref (kube_view (sys_store st)) = Some a ->
  client_cache (cacheResponse_resp <$> thread_sent th) !! resourceRef_resourceName ref = Some a \/
  first_failed th ref.
Proof.
  intros Hr Hsh Hth Hdiff Hpc Hca Hcanon Hkeep Href He Hn Hd Ha.
  assert (canonical ref) as Hc by by eapply Forall_forall in Hcanon.
  destruct (quiet_watch_current (H := kube_world) st w th ref Hr Hsh Hth Hdiff Hpc Href
    (kube_tracked _ _ Hc) He Hn Hd) as [Hgone|(q & v & i & Hs & Hsame)].
  { unfold answer_resource in Ha. by rewrite Hgone in Ha. }
  assert (answer_resource (thread_req th) ref (focus (World := kube_world) i v) = Some a) as Has.
  { unfold answer_resource in *. by rewrite Hsame. }
  destruct (reachable_view st Hr w th Hth Hca Hcanon Hkeep ref Href q v i a Hs Has)
    as [(-> & Hi & Hfail)|Hcache].
  - right. destruct (initial_fails (thread_req th) v) as (j & ref' & Hj & Hnone); [|done|].
    { intros Hnil. unfold request_refs in Href. rewrite Hnil in Href. by apply elem_of_nil in Href. }
    exists v, i, j, ref'. split_and!; [done|done| |done]. intros ->.
    assert (ref' = ref) as -> by congruence. unfold answer_resource in Has. by rewrite Hnone in Has.
  - left. unfold delivered in Hcache. by rewrite Hpc, app_nil_r in Hcache.
Qed.

(** ** Properties *)


(** An update of one of several clusters or listeners makes the client forget
    the others: whatever it held, it holds the changed resource alone. *)
Theorem update_forgets_others req ref v resp cache :
  canonical ref -> whole_set (resourceRef_typeURL ref) = true ->
  @resolve kube_world v (updateRequest req ref) = Ok resp ->
  exists a, answer_resource req ref v = Some a /\
    client_receive cache resp = {[resourceRef_resourceName ref := a]}.
Proof.
  intros Hcanon Hwhole Hresp.
  destruct (update_response req ref v resp Hcanon Hresp) as (a & Hres & Htyp & Ha & Hname).
  exists a. split; [done|]. unfold client_receive. rewrite Hres, Htyp, Hwhole. cbn.
  by rewrite Hname.
Qed.
End view.

(** ** Runs *)

Local Existing Instance sample_xds.
Local Existing Instance sample_xds_laws.
Local Existing Instance ascii_tables.
Local Existing Instance sample_accessor.
Local Existing Instance sample_accessor_laws.

(** The sample library writes the name after a space. *)
Definition sample_names : ResourceNames :=
  {| resource_name a := default "" (snd <$> strings_Cut " "%char (Any_Value a)) |}.
Local Existing Instance sample_names.

Lemma sample_names_laws : @ResourceNamesLaws sample_xds sample_names.
Proof.
  split; intros typ m bs [= <-]; cbn [resource_name sample_names Any_Value message_name].
  - change ("Listener " +:+ ?x) with ("Listener" +:+ String " " x). by rewrite strings_Cut_app.
  - change ("Cluster " +:+ ?x) with ("Cluster" +:+ String " " x). by rewrite strings_Cut_app.
  - change ("ClusterLoadAssignment " +:+ ?x) with ("ClusterLoadAssignment" +:+ String " " x). by rewrite strings_Cut_app.
Qed.
Local Existing Instance sample_names_laws.

Definition two_names (typeURL : string) : DiscoveryRequest :=
  {| DiscoveryRequest_TypeUrl := typeURL;
     DiscoveryRequest_ResourceNames :=
       ["default/test-xds/route/0/backend/0"; "default/test-xds/route/1/backend/1"];
     DiscoveryRequest_Node := Some (sample_node "zone-a") |}.

Definition second_ref (typeURL : string) : resourceRef :=
  {| resourceRef_typeURL := typeURL;
     resourceRef_resourceName := "default/test-xds/route/1/backend/1" |}.

(** A watch of two names opens and gets its first response. *)
Definition open_two (typeURL : string) : list (@action kube_world) :=
  Create ∅ (two_names typeURL) :: replicate 11 (Run 0) ++ [Resolve 0 kube_now; Send 0].

(** Both are notified, and the watch answers twice. *)
Definition answer_two : list (@action kube_world) :=
  [Receive 0; Resolve 0 kube_now; Send 0; Receive 0; Resolve 0 kube_now; Send 0].

Definition two_endpoints : list (@action kube_world) :=
  open_two EndpointType ++ [@Update kube_world (SetSlice sample_slice_later); Handle 0] ++
  replicate 6 (Notify 0) ++ answer_two.

(** A new version of the listener, which changes nothing else. *)
Definition sample_listener_later : GRPCListener :=
  {| GRPCListener_ObjectMeta :=
       {| ObjectMeta_Name := "test-xds"; ObjectMeta_Namespace := "default";
          ObjectMeta_ResourceVersion := "44"; ObjectMeta_Labels := ∅ |};
     GRPCListener_Spec := GRPCListener_Spec sample_listener |}.

Definition two_cluster_updates : list (@action kube_world) :=
  open_two ClusterType ++ [@Update kube_world (SetListener sample_listener_later); Handle 0] ++
  replicate 11 (Notify 0) ++ answer_two.

Lemma second_canonical typeURL : Forall canonical (request_refs (two_names typeURL)).
Proof.
  repeat (apply Forall_cons; split; [|]); [..|apply Forall_nil_2]; right; intros p Hp;
    vm_compute in Hp; injection Hp as <-; by vm_compute.
Qed.

Definition is_some {A} (o : option A) : bool := match o with Some _ => true | None => false end.

Definition same_request (req : DiscoveryRequest) (th : @thread kube_world) : bool :=
  bool_decide (DiscoveryRequest_TypeUrl (thread_req th) = DiscoveryRequest_TypeUrl req /\
               request_refs (thread_req th) = request_refs req).


Lemma update_forgets_others_witness :
  exists resp a, @resolve kube_world (kube_view sample_kube)
      (updateRequest (two_names ClusterType) (second_ref ClusterType)) = Ok resp /\
    client_receive ∅ resp = {[resourceRef_resourceName (second_ref ClusterType) := a]}.
Proof.
  assert (is_ok (@resolve kube_world (kube_view sample_kube)
    (updateRequest (two_names ClusterType) (second_ref ClusterType))) = true) as Hok
    by (vm_compute; reflexivity).
  apply is_ok_spec in Hok as [resp Hresp].
  destruct (update_forgets_others (two_names ClusterType) (second_ref ClusterType)
    (kube_view sample_kube) resp ∅) as (a & _ & Hc).
  - exact (Forall_lookup_1 _ _ 1 _ (second_canonical ClusterType) eq_refl).
  - reflexivity.
  - exact Hresp.
  - exists resp, a. split; [exact Hresp|exact Hc].
Defined.

(** C31: a change of a listener takes clusters away from its clients. There
    is a run in which a client watches two clusters of a listener and gets both,
    the listener is stored again with nothing but a new version, and nothing is
    queued, running or pending any more: the store gives both clusters, but the
    client, which reads each response as all there is, holds one of them. *)
Theorem clusters_lost_on_update :
  exists st th, run two_cluster_updates = Some st /\ quiet st = true /\
    sys_threads st !! 0 = Some th /\ thread_pc th = Waiting /\ thread_cancelled th = false /\
    length (thread_sent th) = 3 /\
    Forall (fun ref => answer_resource (thread_req th) ref (kube_view (sys_store st)) <> None)
      (request_refs (thread_req th)) /\
    (fun ref => bool_decide (is_Some (client_cache (take 1 (cacheResponse_resp <$> thread_sent th))
       !! resourceRef_resourceName ref))) <$> request_refs (thread_req th) = [true; true] /\
    size (client_cache (cacheResponse_resp <$> thread_sent th)) = 1.
Proof.
  destruct (ends_with_spec two_cluster_updates (@init kube_world sample_kube) 0 (fun st th =>
    quiet st && (is_waiting (thread_pc th) && (negb (thread_cancelled th) &&
      (bool_decide (length (thread_sent th) = 3) &&
      (forallb (fun ref => is_some (answer_resource (thread_req th) ref (kube_view (sys_store st))))
         (request_refs (thread_req th)) &&
      (bool_decide ((fun ref => bool_decide (is_Some (client_cache
           (take 1 (cacheResponse_resp <$> thread_sent th)) !! resourceRef_resourceName ref)))
           <$> request_refs (thread_req th) = [true; true]) &&
       bool_decide (size (client_cache (cacheResponse_resp <$> thread_sent th)) = 1))))))))
    as (st & th & Hrun & Hth & Hall); [vm_compute; reflexivity|].
  rewrite !andb_true_iff, !bool_decide_eq_true, negb_true_iff in Hall.
  destruct Hall as (Hq & Hpc%is_waiting_spec & Hca & Hsent & Hans & Hfirst & Hsize).
  exists st, th. do 6 (split; [assumption|]). split; [|by split].
  apply Forall_forall. intros ref Href. rewrite forallb_elem in Hans.
  specialize (Hans ref Href). by destruct (answer_resource _ _ _).
Qed.

(** A watch for a load assignment that is there and one of an unknown listener. *)
Definition one_unknown : DiscoveryRequest :=
  {| DiscoveryRequest_TypeUrl := EndpointType;
     DiscoveryRequest_ResourceNames :=
       ["default/test-xds/route/0/backend/0"; "default/unknown/route/0/backend/0"];
     DiscoveryRequest_Node := Some (sample_node "zone-a") |}.

(** One name that cannot be resolved withholds the others. There is a run in
    which a client asks for a load assignment that the store gives and for one
    that it does not, and everything comes to rest: the watch has sent nothing. *)
Theorem unknown_name_withholds_others :
  exists st th, run (Create ∅ one_unknown :: replicate 11 (Run 0) ++ [@Resolve kube_world 0 kube_now]) = Some st /\
    quiet st = true /\ sys_threads st !! 0 = Some th /\ thread_pc th = Waiting /\
    thread_cancelled th = false /\ thread_sent th = [] /\
    endpoints_ref ∈ request_refs (thread_req th) /\
    answer_resource (thread_req th) endpoints_ref (kube_view (sys_store st)) <> None.
Proof.
  destruct (ends_with_spec (Create ∅ one_unknown :: replicate 11 (Run 0) ++ [@Resolve kube_world 0 kube_now])
    (@init kube_world sample_kube) 0 (fun st th =>
    quiet st && (is_waiting (thread_pc th) && (negb (thread_cancelled th) &&
      (bool_decide (length (thread_sent th) = 0 /\ endpoints_ref ∈ request_refs (thread_req th)) &&
       is_some (answer_resource (thread_req th) endpoints_ref (kube_view (sys_store st))))))))
    as (st & th & Hrun & Hth & Hall); [vm_compute; reflexivity|].
  rewrite !andb_true_iff, bool_decide_eq_true, negb_true_iff in Hall.
  destruct Hall as (Hq & Hpc%is_waiting_spec & Hca & [Hsent%nil_length_inv Href] & Ha).
  exists st, th. do 7 (split; [assumption|]). by destruct (answer_resource _ _ _).
Qed.
