(* ===== verification/CatchUp.v ===== *)
(** The clients of the controller catch up: when the store stays as it is and
    watches are neither opened nor cancelled, the goroutines come to rest in
    whatever order they run ([Settling]), and the client of every open watch
    then holds the resources of the store ([ClientView]). *)

From S2P Require Import Prelude GoStrings GoPath GoStrconv GoHash Api Errors Xds ResourceName Interceptors Routes Resolver K8s Listers ListenerHandler ClusterHandler EndpointHandler Coherence Watches Notify ConfigWatcher WatchSystem WatchProperties Settling KubeWorld KubeRuns ClientView.

(** ** Watches only end when they are cancelled *)

Section leaving.
Context `{World}.
Implicit Types (st : sys) (th : thread) (w : watcherPtr).

Definition leaving (p : pc) : bool :=
  match p with Releasing _ _ | Closing | Exited => true | _ => false end.

Definition leave_inv st : Prop :=
  map_Forall (fun _ th => leaving (thread_pc th) = true -> thread_cancelled th = true)
    (sys_threads st).

Lemma leave_put w th st :
  leave_inv st -> (leaving (thread_pc th) = true -> thread_cancelled th = true) ->
  leave_inv (put_thread w th st).
Proof. intros Hinv Hth. by apply map_Forall_insert_2. Qed.

Lemma leave_put_reg w th reg st :
  leave_inv st -> (leaving (thread_pc th) = true -> thread_cancelled th = true) ->
  leave_inv (put_thread w th (set_reg reg st)).
Proof. exact (leave_put w th (set_reg reg st)). Qed.

Lemma leave_resolution w r th st st' :
  leave_inv st -> run_resolution w r th st = Some st' -> leave_inv st'.
Proof.
  intros Hinv. unfold run_resolution, resolve_and_send. destruct (thread_pc th); try done;
    [case_match; [|done]|]; destruct (resolve _ _); intros [= <-]; first [by apply leave_put|done].
Qed.

Lemma leave_run w th st st' :
  leave_inv st -> sys_threads st !! w = Some th -> run_thread w th st = Some st' -> leave_inv st'.
Proof.
  intros Hinv Hth. pose proof (Hinv w th Hth) as Hca. cbn in Hca. unfold run_thread.
  destruct (thread_pc th) as [[|ref todo] q| | | |ref|[|ref todo] q| |]; try done.
  - intros [= <-]. by apply leave_put.
  - intros [= <-]. unfold run_subscribe.
    destruct q; repeat case_match; first [by apply leave_put|by apply leave_put_reg].
  - case_match; [done|]. intros [= <-]. by apply leave_put.
  - intros [= <-]. by apply leave_put.
  - intros [= <-]. unfold run_release.
    destruct q; repeat case_match; first [by apply leave_put|by apply leave_put_reg].
  - case_match; intros [= <-]; [by apply leave_put_reg|done..].
Qed.

Lemma leave_act a st st' : leave_inv st -> act a st = Some st' -> leave_inv st'.
Proof.
  intros Hinv. destruct a as [stream req|w|w|w r|w|w|w order|k|k|k|c|k|k|]; cbn; unfold_action;
    unfold run_notifier.
  - intros [= <-]. by apply leave_put_reg.
  - destruct (sys_threads st !! w) as [th|]; [|done]. intros [= <-]. by apply leave_put.
  - destruct (sys_threads st !! w) as [th|] eqn:Hth; [|done]. by apply leave_run.
  - destruct (sys_threads st !! w) as [th|]; [|done]. by apply leave_resolution.
  - repeat case_match; try done. intros [= <-]. by apply leave_put.
  - repeat case_match; try done. intros [= <-]. by apply leave_put.
  - destruct (sys_threads st !! w) as [th|]; [|done]. destruct (thread_pc th); try done.
    case_match eqn:Hg; [|done]. intros [= <-]. apply leave_put; [done|]. intros _. cbn.
    rewrite !andb_true_iff in Hg. apply Hg.
  - repeat case_match; try done. intros [= <-]. by apply (leave_put _ _ (end_delivery k st)).
  - repeat case_match; try done; by intros [= <-].
  - repeat case_match; try done; by intros [= <-].
  - repeat case_match; try done; by intros [= <-].
  - repeat case_match; try done; by intros [= <-].
  - repeat case_match; try done; by intros [= <-].
  - by intros [= <-].
Qed.

Lemma reachable_leave st : reachable st -> leave_inv st.
Proof.
  induction 1 as [s|st a st' _ IH [_ Hact]%step_act]; [apply map_Forall_empty|by eapply leave_act].
Qed.

(** An open watch waits once the goroutines are at rest. *)
Lemma settled_waiting st w th :
  reachable st -> settled st -> sys_threads st !! w = Some th -> thread_cancelled th = false ->
  thread_pc th = Waiting.
Proof.
  intros Hr (_ & _ & _ & Hrest) Hth Hca. pose proof (reachable_leave st Hr w th Hth) as Hleave.
  pose proof (Hrest w th Hth) as Hth'. cbn in *. unfold resting in Hth'.
  destruct (thread_pc th); try done. rewrite Hleave in Hca; done.
Qed.
End leaving.

(** ** Properties *)

Section catch_up.
Context `{XdsLibrary, !XdsLaws, UnicodeTables, MetaAccessor, !MetaAccessorLaws,
  ResourceNames, !ResourceNamesLaws}.
Implicit Types (st : @sys kube_world) (th : @thread kube_world) (ref : resourceRef).

End catch_up.

(** ** Runs *)

Local Existing Instance sample_xds.
Local Existing Instance sample_xds_laws.
Local Existing Instance ascii_tables.
Local Existing Instance sample_accessor.
Local Existing Instance sample_accessor_laws.
Local Existing Instance sample_names.
Local Existing Instance sample_names_laws.

#[local] Instance no_panic_dec {E A} (x : outcome E A) : Decision (no_panic x).
Proof. destruct x; apply _. Defined.

(** No resolution is under way, and none that begins would panic. *)
Definition safe_now (st : @sys kube_world) : bool :=
  bool_decide (map_Forall (fun _ th =>
    length (reading st th) = 0 /\
    no_panic (@resolve kube_world (kube_view (sys_store st)) (initialRequest (thread_req th))) /\
    Forall (fun ref => no_panic (@resolve kube_world (kube_view (sys_store st)) (updateRequest (thread_req th) ref)))
      (request_refs (thread_req th))) (sys_threads st)).

Lemma safe_now_spec st : safe_now st = true -> safe st.
Proof.
  intros Hall%bool_decide_eq_true w th r l Hth Hl.
  destruct (Hall w th Hth) as (Hread%nil_length_inv & Hsafe). rewrite Hread in Hl.
  assert (l = []) as -> by by destruct Hl. exact Hsafe.
Qed.

(** A watch of two load assignments has its first response, and a slice has
    changed. *)
Definition slice_changed : list (@action kube_world) :=
  open_two EndpointType ++ [@Update kube_world (SetSlice sample_slice_later)].

Lemma slice_changed_facts :
  exists st th, run slice_changed = Some st /\ sys_threads st !! 0 = Some th /\
    sys_shutdown st = false /\ sys_crashed st = false /\ safe st /\
    length (sys_events st) = 1 /\ thread_cancelled th = false /\
    hasResourceDiff (thread_stream th) (thread_req th) = true /\
    DiscoveryRequest_TypeUrl (thread_req th) = EndpointType /\
    request_refs (thread_req th) = request_refs (two_names EndpointType).
Proof.
  destruct (ends_with_spec slice_changed (@init kube_world sample_kube) 0 (fun st th =>
    safe_now st && (bool_decide (sys_shutdown st = false /\ sys_crashed st = false /\
      length (sys_events st) = 1 /\ thread_cancelled th = false /\
      hasResourceDiff (thread_stream th) (thread_req th) = true) &&
      same_request (two_names EndpointType) th)))
    as (st & th & Hrun & Hth & Hall); [vm_compute; reflexivity|].
  unfold same_request in Hall. rewrite !andb_true_iff, !bool_decide_eq_true in Hall.
  destruct Hall as (Hsafe%safe_now_spec & (Hsh & Hcr & He & Hca & Hdiff) & Ht & Hreq).
  exists st, th. by split_and!.
Qed.


