(* ===== verification/Queue.v ===== *)
(** The queue between the informers and the change handlers:
    [pkg/controllersupport/handler.go].

    The work queue is client-go's and stays a parameter, [WorkQueue]; what the
    workers rely on are its laws. The handler is the interface [EventHandler],
    implemented by the two handlers of [gtc/notify.go]. *)

From S2P Require Import Prelude GoStrings GoPath GoStrconv Api Errors Xds ResourceName Interceptors Routes Resolver K8s Listers ListenerHandler ClusterHandler EndpointHandler Watches Notify.

(** [type EventHandler interface]; a handler may notify watches. *)
Class EventHandler := {
  handler_OnAdd : object -> N unit;
  handler_OnUpdate : object -> object -> N unit;
  handler_OnDelete : object -> N unit
}.

Inductive queueEventKind := kindUnknown | kindAdd | kindUpdate | kindDelete.

Record queueEvent := {
  queueEvent_kind : queueEventKind;
  queueEvent_object : object;
  queueEvent_oldObj : object;
  queueEvent_newObj : object
}.

(** What the queue may hold: it is a queue of [any]. *)
Inductive item := ItemEvent (e : queueEvent) | ItemOther.

(** [Get] returns an item, reports the shutdown, or blocks. *)
Inductive get_result (Q : Type) := GotItem (x : item) (q : Q) | GotShutdown | Blocks.
Arguments GotItem {Q}.
Arguments GotShutdown {Q}.
Arguments Blocks {Q}.

(** [workqueue.RateLimitingInterface] *)
Class WorkQueue := {
  wq : Type;
  wq_Add : item -> wq -> wq;
  wq_Get : wq -> get_result wq;
  wq_Done : item -> wq -> wq;
  wq_Forget : item -> wq -> wq;
  wq_ShutDown : wq -> wq
}.

(** The items that wait in the queue, the items taken and not yet done, whether
    an item was added again while it is processed, and whether the queue is shut
    down. *)
Class WorkQueueLaws `{WorkQueue} := {
  wq_waiting : wq -> list item;
  wq_processing : wq -> list item;
  wq_dirty : wq -> item -> bool;
  wq_closed : wq -> bool;
  Get_first q x rest :
    wq_waiting q = x :: rest ->
    exists q', wq_Get q = GotItem x q' /\ wq_waiting q' = rest /\
      wq_processing q' = x :: wq_processing q /\ wq_dirty q' x = false /\
      wq_closed q' = wq_closed q;
  Get_empty q :
    wq_waiting q = [] -> wq_Get q = if wq_closed q then GotShutdown else Blocks;
  Done_removes q x ps :
    wq_processing q = x :: ps -> wq_dirty q x = false ->
    wq_waiting (wq_Done x q) = wq_waiting q /\ wq_processing (wq_Done x q) = ps /\
    wq_closed (wq_Done x q) = wq_closed q;
  Forget_keeps q x :
    wq_waiting (wq_Forget x q) = wq_waiting q /\
    wq_processing (wq_Forget x q) = wq_processing q /\
    wq_dirty (wq_Forget x q) x = wq_dirty q x /\
    wq_closed (wq_Forget x q) = wq_closed q;
  ShutDown_closes q :
    wq_waiting (wq_ShutDown q) = wq_waiting q /\
    wq_processing (wq_ShutDown q) = wq_processing q /\
    wq_closed (wq_ShutDown q) = true
}.

Section queue.
Context `{WorkQueue, EventHandler}.

(** [QueuedEventHandler.OnAdd], [OnUpdate], [OnDelete]: enqueue the event. *)
Definition QueuedEventHandler_OnAdd (obj : object) (_ : bool) (q : wq) : wq :=
  wq_Add (ItemEvent {| queueEvent_kind := kindAdd; queueEvent_object := obj;
                       queueEvent_oldObj := ObjNil; queueEvent_newObj := ObjNil |}) q.

Definition QueuedEventHandler_OnUpdate (oldObj newObj : object) (q : wq) : wq :=
  wq_Add (ItemEvent {| queueEvent_kind := kindUpdate; queueEvent_object := ObjNil;
                       queueEvent_oldObj := oldObj; queueEvent_newObj := newObj |}) q.

Definition QueuedEventHandler_OnDelete (obj : object) (q : wq) : wq :=
  wq_Add (ItemEvent {| queueEvent_kind := kindDelete; queueEvent_object := obj;
                       queueEvent_oldObj := ObjNil; queueEvent_newObj := ObjNil |}) q.

(** The [switch] of [processItem]. *)
Definition dispatch (event : queueEvent) : N unit :=
  match queueEvent_kind event with
  | kindAdd => handler_OnAdd (queueEvent_object event)
  | kindUpdate => handler_OnUpdate (queueEvent_oldObj event) (queueEvent_newObj event)
  | kindDelete => handler_OnDelete (queueEvent_object event)
  | kindUnknown => mret tt
  end.

(** How a call of [processItem] ends. *)
Inductive processed :=
  | Continue (q : wq) (refs : list resourceRef)
  | Stop (q : wq)
  | Waits
  | Crashed (q : wq) (refs : list resourceRef) (p : panic_reason).

(** [func (h *QueuedEventHandler) processItem]. The deferred calls run last
    declared first, also when the handler panics; an error is logged. *)
Definition processItem (q : wq) : processed :=
  match wq_Get q with
  | GotShutdown => Stop q
  | Blocks => Waits
  | GotItem x q' =>
      let deferred := wq_Done x (wq_Forget x q') in
      match x with
      | ItemOther => Continue deferred []
      | ItemEvent event =>
          match dispatch event with
          | (refs, Ok _) => Continue deferred refs
          | (refs, Err _) => Continue deferred refs
          | (refs, Panic p) => Crashed deferred refs p
          end
      end
  end.

(** [func (h *QueuedEventHandler) runWorker]: at most [fuel] items. *)
Fixpoint runWorker (fuel : nat) (q : wq) : list resourceRef * processed :=
  match fuel with
  | 0 => ([], Continue q [])
  | S fuel =>
      match processItem q with
      | Continue q' refs => let '(refs', r) := runWorker fuel q' in (refs ++ refs', r)
      | r => ([], r)
      end
  end.

(** The resources an item makes its handler notify. *)
Definition item_refs (x : item) : list resourceRef :=
  match x with ItemEvent event => (dispatch event).1 | ItemOther => [] end.

Definition item_returns (x : item) : Prop :=
  match x with ItemEvent event => no_panic (dispatch event).2 | ItemOther => True end.

(** ** Lemmas *)

Context `{!WorkQueueLaws}.

Lemma processItem_first q x rest :
  wq_waiting q = x :: rest -> item_returns x ->
  exists q', processItem q = Continue q' (item_refs x) /\ wq_waiting q' = rest /\
    wq_processing q' = wq_processing q /\ wq_closed q' = wq_closed q.
Proof.
  intros Hq Hx. destruct (Get_first q x rest Hq) as (q1 & Hget & Hw1 & Hp1 & Hd1 & Hc1).
  destruct (Forget_keeps q1 x) as (Hw2 & Hp2 & Hd2 & Hc2). rewrite Hp1 in Hp2.
  destruct (Done_removes (wq_Forget x q1) x _ Hp2) as (Hw3 & Hp3 & Hc3); [congruence|].
  exists (wq_Done x (wq_Forget x q1)). split; [|split; [congruence|split; congruence]].
  unfold processItem. rewrite Hget. destruct x as [event|]; [|done]. cbn in Hx |- *.
  by destruct (dispatch event) as [refs [| |]].
Qed.
End queue.

(** The two handlers of [gtc/notify.go]. *)
Definition listener_handler `{XdsLibrary} : EventHandler := {|
  handler_OnAdd := grpcListenerChangedHandler_OnAdd;
  handler_OnUpdate := grpcListenerChangedHandler_OnUpdate;
  handler_OnDelete := grpcListenerChangedHandler_OnDelete
|}.

Definition slice_handler `{XdsLibrary, GRPCListenerLister, MetaAccessor} : EventHandler := {|
  handler_OnAdd := endpointSliceChangedHandler_OnAdd;
  handler_OnUpdate := endpointSliceChangedHandler_OnUpdate;
  handler_OnDelete := endpointSliceChangedHandler_OnDelete
|}.

(** ** Properties *)

Section queue_properties.
Context `{WorkQueue, EventHandler}.

(** C29: a worker drains the queue. When the queue was shut down and no handler
    panics on what is left in it, a worker handles every waiting item once, in
    order, an item whose handler failed like any other, then stops; afterwards
    the queue is empty and every item it took is done. *)
Theorem runWorker_drains `{!WorkQueueLaws} q :
  wq_closed q = true -> Forall item_returns (wq_waiting q) ->
  exists q', runWorker (S (length (wq_waiting q))) q = (wq_waiting q ≫= item_refs, Stop q') /\
    wq_waiting q' = [] /\ wq_processing q' = wq_processing q.
Proof.
  remember (wq_waiting q) as xs eqn:Hxs. revert q Hxs.
  induction xs as [|x xs IH]; intros q Hxs Hc Hall; cbn [runWorker length].
  - exists q. unfold processItem. by rewrite (Get_empty q), Hc by done.
  - apply Forall_cons in Hall as [Hx Hall].
    destruct (processItem_first q x xs) as (q' & -> & Hw & Hp & Hc'); [done|done|].
    destruct (IH q') as (q2 & Hrun & Hw2 & Hp2); [congruence..|].
    exists q2. cbn in Hrun. rewrite Hrun. split; [done|]. split; [done|congruence].
Qed.

(** Every outcome of a handler but a panic lets the worker go on. Whatever
    was taken from the queue is forgotten and done exactly once, before the
    worker takes the next item or the panic goes on. *)
Theorem processItem_always_done q x q' :
  wq_Get q = GotItem x q' ->
  match processItem q with
  | Continue q2 refs => q2 = wq_Done x (wq_Forget x q') /\ refs = item_refs x /\ item_returns x
  | Crashed q2 refs _ => q2 = wq_Done x (wq_Forget x q') /\ refs = item_refs x /\ ~ item_returns x
  | Stop _ | Waits => False
  end.
Proof.
  intros Hget. unfold processItem. rewrite Hget. destruct x as [event|]; [|done]. cbn.
  destruct (dispatch event) as [refs [| |]]; cbn; naive_solver.
Qed.
End queue_properties.

(** ** Witnesses *)

(** A first-in first-out queue. *)
Record fifo := {
  fifo_waiting : list item;
  fifo_processing : list item;
  fifo_closed : bool
}.

Definition fifo_queue : WorkQueue := {|
  wq := fifo;
  wq_Add x q :=
    if fifo_closed q then q
    else {| fifo_waiting := fifo_waiting q ++ [x]; fifo_processing := fifo_processing q;
            fifo_closed := false |};
  wq_Get q :=
    match fifo_waiting q with
    | x :: rest => GotItem x {| fifo_waiting := rest; fifo_processing := x :: fifo_processing q;
                                fifo_closed := fifo_closed q |}
    | [] => if fifo_closed q then GotShutdown else Blocks
    end;
  wq_Done x q := {| fifo_waiting := fifo_waiting q; fifo_processing := tail (fifo_processing q);
                    fifo_closed := fifo_closed q |};
  wq_Forget x q := q;
  wq_ShutDown q := {| fifo_waiting := fifo_waiting q; fifo_processing := fifo_processing q;
                      fifo_closed := true |}
|}.

Definition fifo_laws : @WorkQueueLaws fifo_queue.
Proof.
  refine {| wq_waiting := fifo_waiting : @wq fifo_queue -> _;
            wq_processing := fifo_processing; wq_dirty _ _ := false;
            wq_closed := fifo_closed |}.
  - intros q x rest Hq. cbn. rewrite Hq. by eexists.
  - intros q Hq. cbn. by rewrite Hq.
  - intros q x ps Hq _. cbn. by rewrite Hq.
  - done.
  - done.
Defined.

Definition sample_queue : @wq fifo_queue :=
  {| fifo_waiting := [ItemOther; ItemEvent {| queueEvent_kind := kindDelete;
       queueEvent_object := ObjGRPCListener sample_listener;
       queueEvent_oldObj := ObjNil; queueEvent_newObj := ObjNil |}];
     fifo_processing := []; fifo_closed := true |}.

Lemma runWorker_drains_witness :
  exists q', @runWorker fifo_queue (@listener_handler sample_xds) 3 sample_queue
      = ((@grpcListenerChangedHandler_handle sample_xds (ObjGRPCListener sample_listener)).1, Stop q').
Proof.
  destruct (@runWorker_drains fifo_queue (@listener_handler sample_xds) fifo_laws sample_queue)
    as (q' & Hrun & _); [reflexivity|by repeat constructor|].
  exists q'. etransitivity; [exact Hrun|]. by vm_compute.
Defined.

Lemma processItem_always_done_witness :
  exists q', processItem (H0 := @listener_handler sample_xds) sample_queue = Continue q' [] /\
    fifo_processing q' = [].
Proof.
  pose proof (@processItem_always_done fifo_queue (@listener_handler sample_xds) sample_queue
    ItemOther _ eq_refl) as Hd.
  destruct (processItem sample_queue) as [q' refs| | |] eqn:Hp; [|contradiction Hd..|].
  - destruct Hd as (Hq & Hrefs & _). exists q'. rewrite Hq, Hrefs. split; reflexivity.
  - vm_compute in Hp. discriminate Hp.
Defined.
