(* ===== verification/Lifecycle.v ===== *)
(** The life of the controller process: the goroutines that [main] of
    [cmd/controller/main.go], [XDSServer.Run] of [gtc/server.go],
    [QueuedEventHandler.Run] of [pkg/controllersupport/handler.go] and
    [runWebserver] start, and how they end.

    The state is the program points of these goroutines. A step is one action of
    a goroutine, or of the outside: a signal, an informer event, a client that
    opens or leaves a stream, a failing socket. The libraries are parameters:
    [ErrGroup] is golang.org/x/sync/errgroup, [GrpcServer] is the server of
    grpc-go, [StreamHandler] is the stream handler of go-control-plane, the queue
    is the [WorkQueue] of [Queue]. [net/http] and [context] are the standard
    library: a context derived from another is done when its parent is, and
    [ListenAndServe] returns [ErrServerClosed] as soon as [Shutdown] is called. *)

From S2P Require Import Prelude GoStrings GoPath GoStrconv Api Errors Xds ResourceName Interceptors Routes Resolver K8s Listers ListenerHandler ClusterHandler EndpointHandler Watches Notify Queue Fairness.

(** ** The libraries *)

(** [errgroup.Group] with the context of [errgroup.WithContext]: a goroutine is
    started, a goroutine returns, the context was cancelled by a failure, [Wait]
    returns (or blocks). *)
Class ErrGroup := {
  grp : Type;
  grp_new : grp;
  grp_Go : grp -> grp;
  grp_returns : option error -> grp -> grp;
  grp_cancelled : grp -> bool;
  grp_Wait : grp -> option (option error)
}.

(** "The first call to return a non-nil error cancels the group's context. The
    error will be returned by Wait"; "Wait blocks until all function calls from
    the Go method have returned." *)
Class ErrGroupLaws `{ErrGroup} := {
  grp_running : grp -> nat;
  grp_error : grp -> option error;
  new_running : grp_running grp_new = 0;
  new_error : grp_error grp_new = None;
  Go_running g : grp_running (grp_Go g) = S (grp_running g);
  Go_error g : grp_error (grp_Go g) = grp_error g;
  returns_running e g : grp_running (grp_returns e g) = pred (grp_running g);
  returns_error e g :
    grp_error (grp_returns e g) = match grp_error g with Some x => Some x | None => e end;
  cancelled_error g : grp_cancelled g = bool_decide (is_Some (grp_error g));
  Wait_spec g : grp_Wait g = if decide (grp_running g = 0) then Some (grp_error g) else None
}.

(** [grpc.Server]: calls in progress, [GracefulStop] called, whether
    [GracefulStop] returns, whether [Serve] returns. *)
Class GrpcServer := {
  gs : Type;
  gs_new : gs;
  gs_open : nat -> gs -> gs;
  gs_close : nat -> gs -> gs;
  gs_calls : gs -> gset nat;
  gs_GracefulStop : gs -> gs;
  gs_stop_returns : gs -> bool;
  gs_serve_returns : gs -> bool
}.

(** "GracefulStop stops the server from accepting new connections and RPCs and
    blocks until all the pending RPCs are finished." [Serve] returns nil only
    after it was called, and has returned at the latest when it has finished. *)
Class GrpcServerLaws `{GrpcServer} := {
  gs_stopping : gs -> bool;
  new_calls : gs_calls gs_new = ∅;
  new_stopping : gs_stopping gs_new = false;
  open_calls c g :
    gs_calls (gs_open c g) = if gs_stopping g then gs_calls g else gs_calls g ∪ {[c]};
  open_stopping c g : gs_stopping (gs_open c g) = gs_stopping g;
  close_calls c g : gs_calls (gs_close c g) = gs_calls g ∖ {[c]};
  close_stopping c g : gs_stopping (gs_close c g) = gs_stopping g;
  stop_calls g : gs_calls (gs_GracefulStop g) = gs_calls g;
  stop_stopping g : gs_stopping (gs_GracefulStop g) = true;
  stop_returns_spec g : gs_stop_returns g = gs_stopping g && bool_decide (gs_calls g = ∅);
  serve_returns_stopping g : gs_serve_returns g = true -> gs_stopping g = true;
  serve_returns_stopped g : gs_stop_returns g = true -> gs_serve_returns g = true
}.

(** The stream handler of [sotwv3.NewServer(ctx, ...)]: whether it returns by
    itself, given whether [ctx] is done. *)
Class StreamHandler := { stream_returns : bool -> bool }.

Class StreamHandlerLaws `{StreamHandler} := {
  stream_returns_done : stream_returns true = true
}.

(** ** Program points *)

(** [QueuedEventHandler.Run]: workers left to start, then waiting for the
    context, then returned with the queue shut down. *)
Inductive qpc := QStarting (left_ : nat) | QWaiting | QReturned.

(** A worker goroutine, [wait.UntilWithContext(ctx, h.runWorker, time.Second)]:
    about to test the context, in [runWorker] about to call [Get], in the
    handler, in the pause, ended. *)
Inductive wpc := WLoop | WGet | WHandle (x : item) | WPause | WEnded.

(** The goroutine that listens and serves, and the one it starts. *)
Inductive servepc := SListen | SServe | SReturned.
Inductive stoppc := TNotStarted | TWaiting | TStopping | TStopped.

(** [runWebserver], and the goroutine that shuts it down. *)
Inductive webpc := HServe | HReturned.
Inductive webstoppc := CWaiting | CShutdown | CDone.

(** [XDSServer.Run] and [main], both in [Wait] of their group. *)
Inductive runpc := RWait | RReturned.
Inductive mainpc := MWait | MExited (err : option error).

Inductive queueName := ListenerQueue | SliceQueue.

Global Instance queueName_eq_dec : EqDecision queueName.
Proof. solve_decision. Defined.
Global Instance servepc_eq_dec : EqDecision servepc.
Proof. solve_decision. Defined.
Global Instance stoppc_eq_dec : EqDecision stoppc.
Proof. solve_decision. Defined.
Global Instance webpc_eq_dec : EqDecision webpc.
Proof. solve_decision. Defined.
Global Instance webstoppc_eq_dec : EqDecision webstoppc.
Proof. solve_decision. Defined.
Global Instance qpc_eq_dec : EqDecision qpc.
Proof. solve_decision. Defined.
Global Instance runpc_eq_dec : EqDecision runpc.
Proof. solve_decision. Defined.

Definition ErrServerClosed : error := errorString "http: Server closed".

(** [!errors.Is(err, http.ErrServerClosed)] for an error of the library. *)
Definition isServerClosed (err : error) : bool :=
  match err with errorString t => bool_decide (t = "http: Server closed") | _ => false end.

(** The end of [runWebserver]. *)
Definition webserver_result (err : error) : option error :=
  if isServerClosed err then None else Some err.

(** An event of an informer, as [cache.ResourceEventHandler] receives it. *)
Inductive informerEvent :=
  | Added (obj : object) (isInInitialList : bool)
  | Updated (oldObj newObj : object)
  | Deleted (obj : object).

(** What the process does next. *)
Inductive label :=
  | Signal
  | QueueStep (n : queueName)
  | WorkerStep (n : queueName) (i : nat)
  | Event (n : queueName) (e : informerEvent)
  | ListenOk
  | ListenFails (e : error)
  | ServeFails (e : error)
  | ServeReturns
  | StopperStep
  | StreamOpens (c : nat)
  | ClientLeaves (c : nat)
  | StreamReturns (c : nat)
  | WebFails (e : error)
  | WebReturns
  | WebStopperStep
  | ShutdownDeadline
  | ConnOpens
  | ConnCloses
  | RunReturns
  | MainReturns.

(** The goroutines of the program; the other labels are the outside. *)
Inductive goroutine :=
  | GQueue (n : queueName) | GWorker (n : queueName) (i : nat) | GServe | GStopper
  | GStream (c : nat) | GWeb | GWebStopper | GTimer | GRun | GMain.

Definition owner (l : label) : option goroutine :=
  match l with
  | QueueStep n => Some (GQueue n)
  | WorkerStep n i => Some (GWorker n i)
  | ListenOk | ListenFails _ | ServeReturns => Some GServe
  | StopperStep => Some GStopper
  | StreamReturns c => Some (GStream c)
  | WebReturns => Some GWeb
  | WebStopperStep => Some GWebStopper
  | ShutdownDeadline => Some GTimer
  | RunReturns => Some GRun
  | MainReturns => Some GMain
  | Signal | Event _ _ | ServeFails _ | StreamOpens _ | ClientLeaves _ | WebFails _
  | ConnOpens | ConnCloses => None
  end.

Create Rewrite HintDb lifecycle.

Section lifecycle.
Context `{ErrGroup, GrpcServer, StreamHandler, WorkQueue}.
Context (handlers : queueName -> EventHandler).

(** ** State *)

Record queueRun := {
  qr_pc : qpc;
  qr_workers : list wpc;
  qr_queue : wq
}.

Record grpcSide := {
  gr_serve : servepc;
  gr_stopper : stoppc;
  gr_server : gs
}.

(** Connections with a request in progress, and whether [Shutdown] was called. *)
Record webSide := {
  wb_serve : webpc;
  wb_stopper : webstoppc;
  wb_conns : nat;
  wb_closed : bool
}.

Record proc := {
  proc_signal : bool;
  proc_main : mainpc;
  proc_group : grp;              (* of main *)
  proc_run : runpc;
  proc_rungroup : grp;           (* of XDSServer.Run *)
  proc_listenerQueue : queueRun;
  proc_sliceQueue : queueRun;
  proc_grpc : grpcSide;
  proc_web : webSide;
  proc_notified : list resourceRef;
  proc_failures : list error;    (* of the sockets, latest first *)
  proc_crashed : bool
}.

Definition queue_of (n : queueName) (st : proc) : queueRun :=
  match n with
  | ListenerQueue => proc_listenerQueue st
  | SliceQueue => proc_sliceQueue st
  end.

Definition set_groups (main : mainpc) (g : grp) (run : runpc) (rg : grp) (st : proc) : proc :=
  {| proc_signal := proc_signal st; proc_main := main; proc_group := g;
     proc_run := run; proc_rungroup := rg;
     proc_listenerQueue := proc_listenerQueue st; proc_sliceQueue := proc_sliceQueue st;
     proc_grpc := proc_grpc st; proc_web := proc_web st; proc_notified := proc_notified st;
     proc_failures := proc_failures st; proc_crashed := proc_crashed st |}.

Definition set_queue (n : queueName) (q : queueRun) (st : proc) : proc :=
  {| proc_signal := proc_signal st; proc_main := proc_main st; proc_group := proc_group st;
     proc_run := proc_run st; proc_rungroup := proc_rungroup st;
     proc_listenerQueue := match n with ListenerQueue => q | SliceQueue => proc_listenerQueue st end;
     proc_sliceQueue := match n with SliceQueue => q | ListenerQueue => proc_sliceQueue st end;
     proc_grpc := proc_grpc st; proc_web := proc_web st; proc_notified := proc_notified st;
     proc_failures := proc_failures st; proc_crashed := proc_crashed st |}.

Definition set_grpc (g : grpcSide) (st : proc) : proc :=
  {| proc_signal := proc_signal st; proc_main := proc_main st; proc_group := proc_group st;
     proc_run := proc_run st; proc_rungroup := proc_rungroup st;
     proc_listenerQueue := proc_listenerQueue st; proc_sliceQueue := proc_sliceQueue st;
     proc_grpc := g; proc_web := proc_web st; proc_notified := proc_notified st;
     proc_failures := proc_failures st; proc_crashed := proc_crashed st |}.

Definition set_web (w : webSide) (st : proc) : proc :=
  {| proc_signal := proc_signal st; proc_main := proc_main st; proc_group := proc_group st;
     proc_run := proc_run st; proc_rungroup := proc_rungroup st;
     proc_listenerQueue := proc_listenerQueue st; proc_sliceQueue := proc_sliceQueue st;
     proc_grpc := proc_grpc st; proc_web := w; proc_notified := proc_notified st;
     proc_failures := proc_failures st; proc_crashed := proc_crashed st |}.

Definition set_outside (signal : bool) (refs : list resourceRef) (failures : list error)
    (crashed : bool) (st : proc) : proc :=
  {| proc_signal := signal; proc_main := proc_main st; proc_group := proc_group st;
     proc_run := proc_run st; proc_rungroup := proc_rungroup st;
     proc_listenerQueue := proc_listenerQueue st; proc_sliceQueue := proc_sliceQueue st;
     proc_grpc := proc_grpc st; proc_web := proc_web st; proc_notified := refs;
     proc_failures := failures; proc_crashed := crashed |}.

(** ** Contexts *)

(** The context of [main]'s group, derived from the one of the signals. *)
Definition main_ctx_done (st : proc) : bool :=
  proc_signal st || grp_cancelled (proc_group st).

(** [groupCtx] of [XDSServer.Run], derived from it. *)
Definition run_ctx_done (st : proc) : bool :=
  main_ctx_done st || grp_cancelled (proc_rungroup st).

(** A goroutine of the group of [XDSServer.Run] returns. *)
Definition run_goroutine_returns (err : option error) (st : proc) : proc :=
  set_groups (proc_main st) (proc_group st) (proc_run st)
    (grp_returns err (proc_rungroup st)) st.

(** A goroutine of the group of [main] returns. *)
Definition main_goroutine_returns (err : option error) (st : proc) : proc :=
  set_groups (proc_main st) (grp_returns err (proc_group st)) (proc_run st)
    (proc_rungroup st) st.

Definition fails (e : error) (st : proc) : proc :=
  set_outside (proc_signal st) (proc_notified st) (e :: proc_failures st) (proc_crashed st) st.

(** ** The queues *)

(** [QueuedEventHandler.Run]: start the workers, wait for the context, shut the
    queue down (the deferred call) and return. *)
Definition QueuedEventHandler_Run (n : queueName) (st : proc) : option proc :=
  let q := queue_of n st in
  match qr_pc q with
  | QStarting (S k) =>
      Some (set_queue n {| qr_pc := QStarting k; qr_workers := qr_workers q ++ [WLoop];
                           qr_queue := qr_queue q |} st)
  | QStarting 0 =>
      Some (set_queue n {| qr_pc := QWaiting; qr_workers := qr_workers q;
                           qr_queue := qr_queue q |} st)
  | QWaiting =>
      if run_ctx_done st then
        Some (run_goroutine_returns None
                (set_queue n {| qr_pc := QReturned; qr_workers := qr_workers q;
                                qr_queue := wq_ShutDown (qr_queue q) |} st))
      else None
  | QReturned => None
  end.

(** The worker [i] moves on, and leaves the queue as [queue]. *)
Definition worker_moves (n : queueName) (i : nat) (w : wpc) (queue : wq) (st : proc) : proc :=
  let q := queue_of n st in
  set_queue n {| qr_pc := qr_pc q; qr_workers := <[i := w]> (qr_workers q); qr_queue := queue |} st.

(** The end of [processItem]: the deferred calls, also when the handler panics. *)
Definition worker_handles (n : queueName) (i : nat) (x : item) (st : proc) : proc :=
  let deferred := wq_Done x (wq_Forget x (qr_queue (queue_of n st))) in
  let '(refs, res) := match x with
                      | ItemOther => ([], Ok tt)
                      | ItemEvent event => @dispatch (handlers n) event
                      end in
  let crashed := match res with Panic _ => true | _ => proc_crashed st end in
  let st' := worker_moves n i WGet deferred st in
  set_outside (proc_signal st') (proc_notified st' ++ refs) (proc_failures st') crashed st'.

(** The goroutine of a worker, in the pieces of [processItem]. *)
Definition worker_step (n : queueName) (i : nat) (st : proc) : option proc :=
  let queue := qr_queue (queue_of n st) in
  match qr_workers (queue_of n st) !! i with
  | Some WLoop => Some (worker_moves n i (if run_ctx_done st then WEnded else WGet) queue st)
  | Some WGet =>
      match wq_Get queue with
      | GotItem x queue' => Some (worker_moves n i (WHandle x) queue' st)
      | GotShutdown => Some (worker_moves n i WPause queue st)
      | Blocks => None
      end
  | Some (WHandle x) => Some (worker_handles n i x st)
  | Some WPause => Some (worker_moves n i (if run_ctx_done st then WEnded else WLoop) queue st)
  | Some WEnded | None => None
  end.

(** An informer calls the handler registered for its events. *)
Definition informer_event (n : queueName) (e : informerEvent) (st : proc) : proc :=
  let q := queue_of n st in
  let queue := match e with
               | Added obj init => QueuedEventHandler_OnAdd obj init (qr_queue q)
               | Updated old new => QueuedEventHandler_OnUpdate old new (qr_queue q)
               | Deleted obj => QueuedEventHandler_OnDelete obj (qr_queue q)
               end in
  set_queue n {| qr_pc := qr_pc q; qr_workers := qr_workers q; qr_queue := queue |} st.

(** ** The gRPC server *)

Definition set_serve (p : servepc) (t : stoppc) (g : gs) (st : proc) : proc :=
  set_grpc {| gr_serve := p; gr_stopper := t; gr_server := g |} st.

(** The third goroutine of [XDSServer.Run]: [net.Listen] succeeds, and the
    goroutine that waits for the context is started. *)
Definition listen_ok (st : proc) : option proc :=
  let g := proc_grpc st in
  match gr_serve g with
  | SListen => Some (set_serve SServe TWaiting (gr_server g) st)
  | _ => None
  end.

Definition listen_fails (e : error) (st : proc) : option proc :=
  let g := proc_grpc st in
  match gr_serve g with
  | SListen =>
      Some (run_goroutine_returns (Some (unableToBind e))
              (fails (unableToBind e) (set_serve SReturned (gr_stopper g) (gr_server g) st)))
  | _ => None
  end.

(** [return s.server.Serve(lis)] *)
Definition serve_fails (e : error) (st : proc) : option proc :=
  let g := proc_grpc st in
  match gr_serve g with
  | SServe =>
      Some (run_goroutine_returns (Some e)
              (fails e (set_serve SReturned (gr_stopper g) (gr_server g) st)))
  | _ => None
  end.

(** [Serve] returns nil once the server was stopped under it. When it is called
    after [GracefulStop], gRPC returns [ErrServerStopped]: that is a run with
    [serve_fails]. *)
Definition serve_returns (st : proc) : option proc :=
  let g := proc_grpc st in
  match gr_serve g with
  | SServe =>
      if gs_serve_returns (gr_server g)
      then Some (run_goroutine_returns None (set_serve SReturned (gr_stopper g) (gr_server g) st))
      else None
  | _ => None
  end.

(** [<-groupCtx.Done(); s.server.GracefulStop()] *)
Definition stopper_step (st : proc) : option proc :=
  let g := proc_grpc st in
  match gr_stopper g with
  | TWaiting =>
      if run_ctx_done st
      then Some (set_serve (gr_serve g) TStopping (gs_GracefulStop (gr_server g)) st)
      else None
  | TStopping =>
      if gs_stop_returns (gr_server g)
      then Some (set_serve (gr_serve g) TStopped (gr_server g) st)
      else None
  | TNotStarted | TStopped => None
  end.

(** Calls of [StreamAggregatedResources]. The handler was given the context of
    the signals, which [main] passes to [NewXDSServer]. *)
Definition stream_opens (c : nat) (st : proc) : option proc :=
  let g := proc_grpc st in
  match gr_serve g with
  | SServe =>
      if decide (c ∈ gs_calls (gr_server g)) then None
      else Some (set_serve (gr_serve g) (gr_stopper g) (gs_open c (gr_server g)) st)
  | _ => None
  end.

Definition client_leaves (c : nat) (st : proc) : option proc :=
  let g := proc_grpc st in
  if decide (c ∈ gs_calls (gr_server g))
  then Some (set_serve (gr_serve g) (gr_stopper g) (gs_close c (gr_server g)) st)
  else None.

Definition StreamAggregatedResources_returns (c : nat) (st : proc) : option proc :=
  let g := proc_grpc st in
  if stream_returns (proc_signal st) && bool_decide (c ∈ gs_calls (gr_server g))
  then Some (set_serve (gr_serve g) (gr_stopper g) (gs_close c (gr_server g)) st)
  else None.

(** ** The web server *)

Definition web_fails (e : error) (st : proc) : option proc :=
  let w := proc_web st in
  match wb_serve w with
  | HServe =>
      if wb_closed w || isServerClosed e then None
      else Some (main_goroutine_returns (webserver_result e)
                   (fails e (set_web {| wb_serve := HReturned; wb_stopper := wb_stopper w;
                                        wb_conns := wb_conns w; wb_closed := false |} st)))
  | HReturned => None
  end.

Definition web_returns (st : proc) : option proc :=
  let w := proc_web st in
  match wb_serve w with
  | HServe =>
      if wb_closed w
      then Some (main_goroutine_returns (webserver_result ErrServerClosed)
                   (set_web {| wb_serve := HReturned; wb_stopper := wb_stopper w;
                               wb_conns := wb_conns w; wb_closed := true |} st))
      else None
  | HReturned => None
  end.

(** The goroutine that waits for the context and calls [Shutdown], which
    returns when no request is in progress. *)
Definition webstopper_step (st : proc) : option proc :=
  let w := proc_web st in
  match wb_stopper w with
  | CWaiting =>
      if main_ctx_done st
      then Some (set_web {| wb_serve := wb_serve w; wb_stopper := CShutdown;
                            wb_conns := wb_conns w; wb_closed := true |} st)
      else None
  | CShutdown =>
      if decide (wb_conns w = 0)
      then Some (set_web {| wb_serve := wb_serve w; wb_stopper := CDone;
                            wb_conns := wb_conns w; wb_closed := true |} st)
      else None
  | CDone => None
  end.

(** The timeout of [shutdownCtx]: [Shutdown] reports it and [Close] drops the
    connections. *)
Definition shutdown_deadline (st : proc) : option proc :=
  let w := proc_web st in
  match wb_stopper w with
  | CShutdown =>
      Some (set_web {| wb_serve := wb_serve w; wb_stopper := CDone;
                       wb_conns := 0; wb_closed := true |} st)
  | _ => None
  end.

Definition conn_opens (st : proc) : option proc :=
  let w := proc_web st in
  if wb_closed w || bool_decide (wb_serve w = HReturned) then None
  else Some (set_web {| wb_serve := wb_serve w; wb_stopper := wb_stopper w;
                        wb_conns := S (wb_conns w); wb_closed := wb_closed w |} st).

Definition conn_closes (st : proc) : option proc :=
  let w := proc_web st in
  match wb_conns w with
  | 0 => None
  | S k => Some (set_web {| wb_serve := wb_serve w; wb_stopper := wb_stopper w;
                            wb_conns := k; wb_closed := wb_closed w |} st)
  end.

(** ** The groups *)

(** [return errGroup.Wait()] of [XDSServer.Run], in a goroutine of [main]. *)
Definition XDSServer_Run_returns (st : proc) : option proc :=
  match proc_run st, grp_Wait (proc_rungroup st) with
  | RWait, Some err =>
      Some (main_goroutine_returns err
              (set_groups (proc_main st) (proc_group st) RReturned (proc_rungroup st) st))
  | _, _ => None
  end.

(** [group.Wait()] of [main], which logs the error and returns. *)
Definition main_returns (st : proc) : option proc :=
  match proc_main st, grp_Wait (proc_group st) with
  | MWait, Some err =>
      Some (set_groups (MExited err) (proc_group st) (proc_run st) (proc_rungroup st) st)
  | _, _ => None
  end.

(** ** The process *)

Definition running (st : proc) : bool :=
  match proc_main st with MWait => negb (proc_crashed st) | MExited _ => false end.

Definition act (l : label) (st : proc) : option proc :=
  match l with
  | Signal => Some (set_outside true (proc_notified st) (proc_failures st) (proc_crashed st) st)
  | QueueStep n => QueuedEventHandler_Run n st
  | WorkerStep n i => worker_step n i st
  | Event n e => Some (informer_event n e st)
  | ListenOk => listen_ok st
  | ListenFails e => listen_fails e st
  | ServeFails e => serve_fails e st
  | ServeReturns => serve_returns st
  | StopperStep => stopper_step st
  | StreamOpens c => stream_opens c st
  | ClientLeaves c => client_leaves c st
  | StreamReturns c => StreamAggregatedResources_returns c st
  | WebFails e => web_fails e st
  | WebReturns => web_returns st
  | WebStopperStep => webstopper_step st
  | ShutdownDeadline => shutdown_deadline st
  | ConnOpens => conn_opens st
  | ConnCloses => conn_closes st
  | RunReturns => XDSServer_Run_returns st
  | MainReturns => main_returns st
  end.

(** Nothing happens once [main] has returned or a goroutine has panicked. *)
Definition step (l : label) (st : proc) : option proc :=
  if running st then act l st else None.

(** [main] after its two [group.Go], and [XDSServer.Run] after its three. *)
Definition start (workers : nat) (listeners slices : wq) : proc :=
  {| proc_signal := false; proc_main := MWait; proc_group := grp_Go (grp_Go grp_new);
     proc_run := RWait; proc_rungroup := grp_Go (grp_Go (grp_Go grp_new));
     proc_listenerQueue := {| qr_pc := QStarting workers; qr_workers := []; qr_queue := listeners |};
     proc_sliceQueue := {| qr_pc := QStarting workers; qr_workers := []; qr_queue := slices |};
     proc_grpc := {| gr_serve := SListen; gr_stopper := TNotStarted; gr_server := gs_new |};
     proc_web := {| wb_serve := HServe; wb_stopper := CWaiting; wb_conns := 0; wb_closed := false |};
     proc_notified := []; proc_failures := []; proc_crashed := false |}.

Inductive reachable (workers : nat) (listeners slices : wq) : proc -> Prop :=
  | reachable_start : reachable workers listeners slices (start workers listeners slices)
  | reachable_step l st st' :
      reachable workers listeners slices st -> step l st = Some st' ->
      reachable workers listeners slices st'.

Lemma process_run_reachable workers listeners slices ls st st' :
  reachable workers listeners slices st -> run_labels step ls st = Some st' ->
  reachable workers listeners slices st'.
Proof.
  revert st. induction ls as [|l ls IH]; cbn; intros st Hr Hrun; [by simplify_eq|].
  destruct (step l st) as [st1|] eqn:Hs; [|done]. apply (IH st1); [by eapply reachable_step|done].
Qed.

(** ** Invariants *)

Context `{!ErrGroupLaws, !GrpcServerLaws}.

Definition queue_left (p : qpc) : nat := match p with QReturned => 0 | _ => 1 end.
Definition serve_left (p : servepc) : nat := match p with SReturned => 0 | _ => 1 end.
Definition run_left (p : runpc) : nat := match p with RReturned => 0 | RWait => 1 end.
Definition web_left (p : webpc) : nat := match p with HReturned => 0 | HServe => 1 end.

(** The groups count the goroutines that have not returned. *)
Record counted (st : proc) : Prop := {
  cn_run : grp_running (proc_rungroup st) =
    queue_left (qr_pc (proc_listenerQueue st)) + queue_left (qr_pc (proc_sliceQueue st))
    + serve_left (gr_serve (proc_grpc st));
  cn_main : grp_running (proc_group st) =
    run_left (proc_run st) + web_left (wb_serve (proc_web st));
  cn_returned : proc_run st = RReturned -> grp_running (proc_rungroup st) = 0;
  cn_exited err : proc_main st = MExited err -> grp_running (proc_group st) = 0
}.

(** The helper goroutines and the servers they stop. *)
Definition grpc_stops (g : grpcSide) : Prop :=
  (gr_serve g = SListen -> gr_stopper g = TNotStarted) /\
  match gr_stopper g with
  | TNotStarted => gr_serve g <> SServe /\ gs_stopping (gr_server g) = false
  | TWaiting => gs_stopping (gr_server g) = false
  | TStopping => gs_stopping (gr_server g) = true
  | TStopped => gs_stopping (gr_server g) = true /\ gs_calls (gr_server g) = ∅
  end.

Definition web_stops (w : webSide) : Prop :=
  wb_closed w = negb (bool_decide (wb_stopper w = CWaiting)).

(** What has ended has ended because its context is done. *)
Record caused (st : proc) : Prop := {
  ca_queue n : qr_pc (queue_of n st) = QReturned -> run_ctx_done st = true;
  ca_stop : gs_stopping (gr_server (proc_grpc st)) = true -> run_ctx_done st = true;
  ca_serve : gr_serve (proc_grpc st) = SReturned -> run_ctx_done st = true;
  ca_shutdown : wb_closed (proc_web st) = true -> main_ctx_done st = true;
  ca_web : wb_serve (proc_web st) = HReturned -> main_ctx_done st = true;
  ca_run : proc_run st = RReturned -> main_ctx_done st = true;
  ca_exit : proc_main st = MExited None -> proc_signal st = true
}.

(** Errors are failures of the sockets. *)
Record reported (st : proc) : Prop := {
  re_run e : grp_error (proc_rungroup st) = Some e -> e ∈ proc_failures st;
  re_main e : grp_error (proc_group st) = Some e -> e ∈ proc_failures st;
  re_exit e : proc_main st = MExited (Some e) -> e ∈ proc_failures st
}.

Local Hint Rewrite returns_running returns_error Go_running Go_error new_running new_error
  cancelled_error open_stopping close_calls close_stopping stop_calls
  stop_stopping : lifecycle.

(** Case analysis on a step, with the fields of the state as variables. *)
Ltac open_state st :=
  destruct st as [sig main g run rg [lp lws lq] [sp sws sq] [sv tp srv] [hv cp conns closed]
                  refs errs crashed]; cbn in *; subst.

Ltac cases_in H :=
  repeat (match type of H with
          | context [match ?x with _ => _ end] => destruct x eqn:?
          end; try discriminate H).

Ltac step_cases l Hs :=
  destruct l; cbn [act] in Hs;
  unfold QueuedEventHandler_Run, worker_step, worker_handles, worker_moves, informer_event, listen_ok, listen_fails,
    serve_fails, serve_returns, stopper_step, stream_opens, client_leaves,
    StreamAggregatedResources_returns, web_fails, web_returns, webstopper_step,
    shutdown_deadline, conn_opens, conn_closes, XDSServer_Run_returns, main_returns in Hs;
  repeat match goal with n : queueName |- _ => destruct n end;
  cbn in Hs; cases_in Hs; simplify_eq Hs; intros; subst.

Ltac finish_fields :=
  unfold run_ctx_done, main_ctx_done in *; cbn in *; autorewrite with lifecycle in *;
  intros; simplify_eq/=;
  repeat match goal with H : ?x = ?x -> _ |- _ => specialize (H eq_refl) end.

Lemma act_counted l st st' :
  proc_main st = MWait -> counted st -> act l st = Some st' -> counted st'.
Proof.
  intros Hm [C1 C2 C3 C4] Hs. open_state st.
  step_cases l Hs; split; finish_fields; rewrite ?Wait_spec in *; repeat case_decide;
    simplify_eq/=; first [lia|by auto].
Qed.

Lemma act_stops l st st' :
  grpc_stops (proc_grpc st) -> web_stops (proc_web st) -> act l st = Some st' ->
  grpc_stops (proc_grpc st') /\ web_stops (proc_web st').
Proof.
  intros [Hl Hg] Hw Hs. open_state st. unfold grpc_stops, web_stops in *. cbn in *.
  step_cases l Hs; (split; [|done || by destruct cp]); cbn; autorewrite with lifecycle;
    try done; try (split; [done|]).
  - specialize (Hl eq_refl) as ->. naive_solver.
  - destruct tp; naive_solver.
  - destruct tp; naive_solver.
  - destruct tp; naive_solver.
  - split; [|done]. intros. by discriminate Hl.
  - split; [intros; by discriminate Hl|].
    rewrite stop_returns_spec in *. by apply andb_prop in Heqb as [? ?%bool_decide_eq_true].
  - rewrite open_calls. destruct tp; [naive_solver|done|done|]. by destruct Hg as [-> ->].
  - destruct tp; set_solver.
  - destruct tp; set_solver.
Qed.

Lemma act_main_ctx l st st' :
  act l st = Some st' -> main_ctx_done st = true -> main_ctx_done st' = true.
Proof.
  unfold main_ctx_done. rewrite !orb_true_iff, !cancelled_error, !bool_decide_eq_true.
  intros Hs Hd. open_state st. step_cases l Hs; cbn; autorewrite with lifecycle; try done;
    (destruct Hd as [?|[? ->]]; [by left|by right]).
Qed.

Lemma act_run_ctx l st st' :
  act l st = Some st' -> run_ctx_done st = true -> run_ctx_done st' = true.
Proof.
  intros Hs. unfold run_ctx_done. rewrite !orb_true_iff.
  intros [Hm|Hr]; [left; by eapply act_main_ctx|right]. revert Hr.
  rewrite !cancelled_error, !bool_decide_eq_true. intros Hr.
  open_state st. step_cases l Hs; cbn; autorewrite with lifecycle; try done; by destruct Hr as [? ->].
Qed.

Lemma returns_cancels e g : grp_cancelled (grp_returns (Some e) g) = true.
Proof. rewrite cancelled_error, returns_error. by destruct (grp_error g). Qed.

Lemma not_cancelled g : grp_cancelled g = false -> grp_error g = None.
Proof. rewrite cancelled_error. by destruct (grp_error g). Qed.

Lemma act_caused l st st' :
  proc_main st = MWait -> counted st -> grpc_stops (proc_grpc st) -> web_stops (proc_web st) ->
  caused st -> act l st = Some st' -> caused st'.
Proof.
  intros Hm Hc Hg Hw [A1 A2 A3 A4 A5 A6 A7] Hs.
  pose proof (act_main_ctx l st st' Hs) as Hmc. pose proof (act_run_ctx l st st' Hs) as Hrc.
  pose proof (A1 ListenerQueue) as A1l. pose proof (A1 SliceQueue) as A1s. clear A1.
  open_state st. step_cases l Hs; split; try (intros [|]);
    cbn -[run_ctx_done main_ctx_done] in *; try solve [auto|discriminate]; intros Hx.
  - unfold run_ctx_done. cbn. by rewrite returns_cancels, orb_true_r.
  - unfold run_ctx_done. cbn. by rewrite returns_cancels, orb_true_r.
  - apply Hrc, A2. by apply serve_returns_stopping.
  - apply Hrc, A2. by rewrite open_stopping in Hx.
  - apply Hrc, A2. by rewrite close_stopping in Hx.
  - apply Hrc, A2. by rewrite close_stopping in Hx.
  - unfold main_ctx_done, webserver_result. cbn. apply orb_false_iff in Heqb as [_ ->].
    by rewrite returns_cancels, orb_true_r.
  - rewrite Wait_spec in *. case_decide as Hr; simplify_eq. destruct Hc as [C1 _ _ _]. cbn in C1.
    rewrite Hr in C1. destruct lp; cbn in C1; [lia|lia|]. specialize (A1l eq_refl).
    unfold run_ctx_done in A1l. cbn in A1l. apply orb_true_iff in A1l as [?|Hgc]; [by apply Hmc|].
    rewrite cancelled_error in Hgc. apply bool_decide_eq_true in Hgc as [e He].
    unfold main_ctx_done. cbn. by rewrite He, returns_cancels, orb_true_r.
  - injection Hx as ->. rewrite Wait_spec in *. case_decide as Hr; [|done].
    injection Heqo as Hx. destruct Hc as [_ C2 _ _]. cbn in C2.
    destruct hv; cbn in C2; [lia|]. specialize (A5 eq_refl). unfold main_ctx_done in A5. cbn in A5.
    rewrite cancelled_error, Hx in A5. by apply orb_true_iff in A5 as [?|?].
Qed.

Lemma act_reported l st st' :
  proc_main st = MWait -> reported st -> act l st = Some st' -> reported st'.
Proof.
  intros Hm [R1 R2 R3] Hs. open_state st.
  step_cases l Hs; split; cbn in *; autorewrite with lifecycle; intros err Herr; auto;
    unfold webserver_result in *; rewrite ?Wait_spec in *; rewrite ?elem_of_cons;
    repeat case_match; simplify_eq/=; auto.
Qed.

Record lifecycle_inv (st : proc) : Prop := {
  li_counted : counted st;
  li_grpc : grpc_stops (proc_grpc st);
  li_web : web_stops (proc_web st);
  li_caused : caused st;
  li_reported : reported st
}.

Lemma running_main st : running st = true -> proc_main st = MWait.
Proof. unfold running. by destruct (proc_main st). Qed.

Lemma process_step_inv l st st' : lifecycle_inv st -> step l st = Some st' -> lifecycle_inv st'.
Proof.
  unfold step. destruct (running st) eqn:Hr; [|done]. apply running_main in Hr.
  intros [Hc Hg Hw Ha Hre] Hs. destruct (act_stops l st st' Hg Hw Hs) as [Hg' Hw'].
  split; [by eapply act_counted|done|done|by eapply act_caused|by eapply act_reported].
Qed.

Lemma start_inv workers q1 q2 : lifecycle_inv (start workers q1 q2).
Proof.
  split; [split|split|split|split|split]; try (intros [|]); cbn; autorewrite with lifecycle;
    try rewrite new_stopping; done.
Qed.

Lemma process_reachable_inv workers q1 q2 st : reachable workers q1 q2 st -> lifecycle_inv st.
Proof. induction 1; [apply start_inv|by eapply process_step_inv]. Qed.

(** ** Shutdown *)

Definition queue_rank (p : qpc) : nat :=
  match p with QStarting k => 2 + k | QWaiting => 1 | QReturned => 0 end.
Definition serve_rank (p : servepc) : nat :=
  match p with SListen => 2 | SServe => 1 | SReturned => 0 end.
Definition stop_rank (p : stoppc) : nat :=
  match p with TNotStarted => 3 | TWaiting => 2 | TStopping => 1 | TStopped => 0 end.
Definition webstop_rank (p : webstoppc) : nat :=
  match p with CWaiting => 2 | CShutdown => 1 | CDone => 0 end.
Definition main_rank (p : mainpc) : nat := match p with MWait => 1 | MExited _ => 0 end.

(** What is left to do, and the calls that a graceful stop waits for. *)
Definition todo (st : proc) : nat * nat :=
  (queue_rank (qr_pc (proc_listenerQueue st)) + queue_rank (qr_pc (proc_sliceQueue st))
   + serve_rank (gr_serve (proc_grpc st)) + stop_rank (gr_stopper (proc_grpc st))
   + run_left (proc_run st) + web_left (wb_serve (proc_web st))
   + webstop_rank (wb_stopper (proc_web st)) + main_rank (proc_main st),
   if gs_stopping (gr_server (proc_grpc st)) then size (gs_calls (gr_server (proc_grpc st))) else 0).

Definition less (a b : nat * nat) : Prop := a.1 < b.1 \/ a.1 = b.1 /\ a.2 < b.2.

(** The goroutine that brings the process closer to its end when the context of
    the signals is done. *)
Definition grpc_helper (g : grpcSide) : option goroutine :=
  match gr_serve g, gr_stopper g with
  | SListen, _ => Some GServe
  | SServe, TWaiting => Some GStopper
  | SServe, TStopping =>
      match elements (gs_calls (gr_server g)) with
      | c :: _ => Some (GStream c)
      | [] => Some GStopper
      end
  | SServe, _ => Some GServe
  | SReturned, _ => None
  end.

Definition shutdown_helper (st : proc) : option goroutine :=
  if negb (running st) then None
  else if bool_decide (qr_pc (proc_listenerQueue st) <> QReturned) then Some (GQueue ListenerQueue)
  else if bool_decide (qr_pc (proc_sliceQueue st) <> QReturned) then Some (GQueue SliceQueue)
  else match grpc_helper (proc_grpc st) with
  | Some g => Some g
  | None =>
      match proc_run st with
      | RWait => Some GRun
      | RReturned =>
          match wb_serve (proc_web st), wb_stopper (proc_web st) with
          | HReturned, _ => Some GMain
          | HServe, CWaiting => Some GWebStopper
          | HServe, _ => Some GWeb
          end
      end
  end.

Definition signalled (st : proc) : Prop := lifecycle_inv st /\ proc_signal st = true.
Definition ended (st : proc) : Prop := running st = false.

Lemma less_wf : well_founded less.
Proof.
  intros [a b]. revert b. induction (lt_wf a) as [a _ IHa]. intros b.
  induction (lt_wf b) as [b _ IHb]. constructor. intros [a' b'] [Hl|[Heq Hl]]; cbn in *.
  - by apply IHa.
  - subst. by apply IHb.
Qed.

Lemma helper_not st h :
  shutdown_helper st = Some h ->
  (forall n i, h <> GWorker n i) /\
  (gr_stopper (proc_grpc st) <> TStopping -> forall c, h <> GStream c).
Proof.
  unfold shutdown_helper, grpc_helper. repeat case_match; naive_solver.
Qed.

(** A call ends: the measure gets smaller when a stop waits for it. *)
Lemma call_ends c st h :
  shutdown_helper st = Some h -> grpc_stops (proc_grpc st) ->
  c ∈ gs_calls (gr_server (proc_grpc st)) ->
  let st' := set_serve (gr_serve (proc_grpc st)) (gr_stopper (proc_grpc st))
               (gs_close c (gr_server (proc_grpc st))) st in
  less (todo st') (todo st) \/
  (h <> GStream c /\ todo st' = todo st /\ shutdown_helper st' = shutdown_helper st).
Proof.
  intros Hh [_ Hg] Hc st'. destruct (helper_not _ _ Hh) as [_ Hst]. subst st'.
  destruct (gs_stopping (gr_server (proc_grpc st))) eqn:Hs.
  - left. right. cbn. rewrite close_stopping, close_calls, Hs. split; [done|].
    apply subset_size. set_solver.
  - right. unfold todo, shutdown_helper, running, grpc_helper. cbn. rewrite close_stopping, Hs.
    destruct (gr_stopper (proc_grpc st)); try naive_solver congruence.
Qed.

Lemma step_todo l st st' h :
  lifecycle_inv st -> shutdown_helper st = Some h -> step l st = Some st' ->
  ended st' \/ less (todo st') (todo st) \/
  (owner l <> Some h /\ todo st' = todo st /\ shutdown_helper st' = shutdown_helper st).
Proof.
  intros [_ Hg _ _ _] Hh. unfold step. destruct (running st) eqn:Hrun; [|done]. intros Hs.
  pose proof (running_main _ Hrun) as Hm. unfold running, ended, grpc_stops in *.
  open_state st. apply negb_true_iff in Hrun as ->.
  destruct (helper_not _ _ Hh) as [Hw Hst]. cbn in Hst.
  step_cases l Hs; try (right; left; left; cbn; lia); try (by left);
    try (right; right; split; [cbn; try congruence; by intros [= <-]; eapply Hw|by split]).
  - right. left. left. destruct Hg as [Hg _]. rewrite (Hg eq_refl). cbn. lia.
  - right. right. split; [done|]. unfold todo, shutdown_helper, running, grpc_helper. cbn.
    rewrite open_calls, open_stopping. destruct (gs_stopping srv) eqn:Hb; [done|].
    split; [done|]. destruct tp; naive_solver congruence.
  - right. destruct (call_ends c _ h Hh Hg e) as [?|(_ & ? & ?)]; [by left|by right].
  - right. apply andb_prop in Heqb as [_ Hc%bool_decide_eq_true].
    destruct (call_ends c _ h Hh Hg Hc) as [?|(? & ? & ?)]; [by left|right].
    split; [|done]. cbn. congruence.
Qed.

Context `{!StreamHandlerLaws}.

(** The helpful goroutine can step. *)
Lemma queue_acts n st :
  run_ctx_done st = true -> qr_pc (queue_of n st) <> QReturned ->
  is_Some (act (QueueStep n) st).
Proof.
  intros Hc Hp. cbn. unfold QueuedEventHandler_Run. rewrite Hc.
  by destruct (qr_pc (queue_of n st)) as [[|k]| |].
Qed.

Lemma grpc_acts st h :
  proc_signal st = true -> run_ctx_done st = true -> grpc_stops (proc_grpc st) ->
  grpc_helper (proc_grpc st) = Some h ->
  exists l, owner l = Some h /\ is_Some (act l st).
Proof.
  intros Hsig Hrc [_ Hg]. unfold grpc_helper. destruct (gr_serve (proc_grpc st)) eqn:Hs; [| |done].
  { intros [= <-]. exists ListenOk. cbn. unfold listen_ok. by rewrite Hs. }
  destruct (gr_stopper (proc_grpc st)) eqn:Ht.
  - by destruct Hg.
  - intros [= <-]. exists StopperStep. cbn. unfold stopper_step. by rewrite Ht, Hrc.
  - destruct (elements (gs_calls (gr_server (proc_grpc st)))) as [|c cs] eqn:Hc.
    + intros [= <-]. exists StopperStep. cbn. unfold stopper_step.
      rewrite Ht, stop_returns_spec, Hg, bool_decide_true; [done|].
      by apply elements_empty_inv, leibniz_equiv in Hc.
    + intros [= <-]. exists (StreamReturns c). cbn. unfold StreamAggregatedResources_returns.
      rewrite Hsig, stream_returns_done, bool_decide_true; [done|].
      apply elem_of_elements. rewrite Hc. apply list_elem_of_here.
  - intros [= <-]. exists ServeReturns. cbn. unfold serve_returns. destruct Hg as [Hg1 Hg2].
    rewrite Hs, serve_returns_stopped; [done|]. by rewrite stop_returns_spec, Hg1, Hg2.
Qed.

Lemma helper_enabled st h :
  signalled st -> shutdown_helper st = Some h -> enabled step owner h st.
Proof.
  intros [[[C1 C2 _ _] Hg Hw _ _] Hsig] Hh.
  assert (running st = true) as Hr by (unfold shutdown_helper in Hh; by destruct (running st)).
  pose proof (running_main _ Hr) as Hm.
  assert (main_ctx_done st = true) as Hmc by (unfold main_ctx_done; by rewrite Hsig).
  assert (run_ctx_done st = true) as Hrc by (unfold run_ctx_done; by rewrite Hmc).
  unfold enabled, step. rewrite Hr. unfold shutdown_helper in Hh. rewrite Hr in Hh. cbn in Hh.
  case_bool_decide as Hq1; [exists (QueueStep ListenerQueue); simplify_eq; by auto using queue_acts|].
  case_bool_decide as Hq2; [exists (QueueStep SliceQueue); simplify_eq; by auto using queue_acts|].
  rewrite Hq1, Hq2 in C1.
  destruct (grpc_helper (proc_grpc st)) as [g|] eqn:Hgh; [simplify_eq; by apply grpc_acts|].
  assert (gr_serve (proc_grpc st) = SReturned) as Hs.
  { unfold grpc_helper in Hgh. by repeat case_match. }
  rewrite Hs in C1. cbn in C1. destruct (proc_run st) eqn:Hrun; cbn in C2.
  { exists RunReturns. simplify_eq. split; [done|]. cbn. unfold XDSServer_Run_returns.
    by rewrite Hrun, Wait_spec, C1. }
  destruct (wb_serve (proc_web st)) eqn:Hws.
  - destruct (wb_stopper (proc_web st)) eqn:Hst; simplify_eq; [exists WebStopperStep|exists WebReturns..];
      (split; [done|]); cbn; unfold webstopper_step, web_returns; unfold web_stops in Hw;
      by rewrite ?Hst, ?Hws, ?Hmc, ?Hw, ?Hst.
  - exists MainReturns. simplify_eq. split; [done|]. cbn. unfold main_returns.
    by rewrite Hm, Wait_spec, C2.
Qed.

Lemma shutdown_helpful :
  helpful step owner less todo signalled ended shutdown_helper.
Proof.
  split.
  - apply less_wf.
  - intros l st st' [Hi Hsig] Hs. split; [by eapply process_step_inv|]. unfold step in Hs.
    destruct (running st); [|done]. clear Hi. open_state st. by step_cases l Hs.
  - intros st _. unfold ended, shutdown_helper. destruct (running st); [right|by left]. cbn.
    repeat case_match; eauto.
  - apply helper_enabled.
  - intros l st st' g [Hi _]. by apply step_todo.
Qed.

(** ** States in which the program waits *)

Definition blocked (l : label) (st : proc) : bool :=
  match step l st with None => true | Some _ => false end.

(** No goroutine of the program can step. *)
Definition idle (st : proc) : bool :=
  let workers n := forallb (fun i => blocked (WorkerStep n i) st)
                     (seq 0 (length (qr_workers (queue_of n st)))) in
  forallb (fun l => blocked l st)
    [QueueStep ListenerQueue; QueueStep SliceQueue; ListenOk; ServeReturns; StopperStep;
     WebReturns; WebStopperStep; ShutdownDeadline; RunReturns; MainReturns] &&
  workers ListenerQueue && workers SliceQueue &&
  forallb (fun c => blocked (StreamReturns c) st)
    (elements (gs_calls (gr_server (proc_grpc st)))).

Lemma blocked_worker n i st :
  forallb (fun i => blocked (WorkerStep n i) st)
    (seq 0 (length (qr_workers (queue_of n st)))) = true ->
  step (WorkerStep n i) st = None.
Proof.
  intros Hall. destruct (decide (i < length (qr_workers (queue_of n st)))) as [Hi|Hi].
  - rewrite forallb_elem in Hall. specialize (Hall i). unfold blocked in Hall.
    destruct (step (WorkerStep n i) st); [|done]. by discriminate Hall; apply elem_of_seq; lia.
  - unfold step. destruct (running st); [|done]. cbn. unfold worker_step.
    by rewrite lookup_ge_None_2 by lia.
Qed.

Lemma idle_stuck st g : idle st = true -> ~ enabled step owner g st.
Proof.
  unfold idle. cbv zeta. rewrite !andb_true_iff.
  intros [[[Hls Hw1] Hw2] Hcs] (l & Ho & st' & Hs).
  assert (forall l', l' ∈ [QueueStep ListenerQueue; QueueStep SliceQueue; ListenOk; ServeReturns;
    StopperStep; WebReturns; WebStopperStep; ShutdownDeadline; RunReturns; MainReturns] ->
    step l' st = None) as Hnone.
  { intros l' Hl'. apply (proj1 (forallb_elem _ _) Hls) in Hl'. unfold blocked in Hl'.
    by destruct (step l' st). }
  assert (step ListenOk st = None -> forall e, step (ListenFails e) st = None) as Hlf.
  { unfold step. cbn. unfold listen_ok, listen_fails. by repeat case_match. }
  destruct l as [|[]|[] i| | | | | | | |c|c| | | | | | | |]; try discriminate Ho;
    try (rewrite Hnone in Hs;
         [done|solve [repeat first [apply list_elem_of_here|apply list_elem_of_further]]]).
  - by rewrite blocked_worker in Hs.
  - by rewrite blocked_worker in Hs.
  - rewrite Hlf in Hs; [done|]. apply Hnone.
    repeat first [apply list_elem_of_here|apply list_elem_of_further].
  - destruct (decide (c ∈ gs_calls (gr_server (proc_grpc st)))) as [Hc|Hc].
    + apply elem_of_elements in Hc. apply (proj1 (forallb_elem _ _) Hcs) in Hc.
      unfold blocked in Hc. by rewrite Hs in Hc.
    + unfold step in Hs. destruct (running st); [|done]. cbn in Hs.
      unfold StreamAggregatedResources_returns in Hs.
      by rewrite (bool_decide_false _ Hc), andb_false_r in Hs.
Qed.

(** ** Properties *)

(** C18: the controller ends after a signal. In every run in which no goroutine
    that can step is left out for ever, once the process has received a signal
    [main] returns, or a handler has panicked; clients may hold streams open and
    open new ones, events may arrive and requests may be in progress all the
    while. *)
Theorem shutdown_on_signal workers q1 q2 (e : execution step) n :
  ex_state step e 0 = start workers q1 q2 -> fair step owner e ->
  proc_signal (ex_state step e n) = true ->
  exists k, n <= k /\
    ((exists err, proc_main (ex_state step e k) = MExited err) \/
     proc_crashed (ex_state step e k) = true).
Proof.
  intros H0' Hfair Hsig.
  assert (lifecycle_inv (ex_state step e n)) as Hi.
  { clear Hsig. induction n as [|n IH]; [rewrite H0'; apply start_inv|].
    pose proof (ex_step _ e n) as Hs. destruct (ex_label step e n); [by eapply process_step_inv|by rewrite Hs]. }
  destruct (fair_reaches_goal _ _ _ _ _ _ _ shutdown_helpful e n Hfair) as (k & Hk & Hend); [done|].
  exists k. split; [done|]. unfold ended, running in Hend.
  destruct (proc_main _); [right; by apply negb_false_iff|left; eauto].
Qed.

Lemma moves_queue n i w q st : qr_queue (queue_of n (worker_moves n i w q st)) = q.
Proof. by destruct n. Qed.

Lemma outside_queue n a b c d st : queue_of n (set_outside a b c d st) = queue_of n st.
Proof. by destruct n. Qed.

Lemma moves_at n i w w' q st :
  qr_workers (queue_of n st) !! i = Some w' ->
  qr_workers (queue_of n (worker_moves n i w q st)) !! i = Some w.
Proof.
  intros Hi. assert (i < length (qr_workers (queue_of n st))) by by eapply lookup_lt_Some.
  destruct n; cbn; by apply list_lookup_insert_eq.
Qed.

Lemma worker_second_step n i x q st :
  running st = true -> qr_workers (queue_of n st) !! i = Some WGet ->
  step (WorkerStep n i) (worker_moves n i (WHandle x) q st)
    = Some (worker_handles n i x (worker_moves n i (WHandle x) q st)).
Proof.
  intros Hr Hi. unfold step.
  assert (running (worker_moves n i (WHandle x) q st) = true) as -> by done.
  cbn. unfold worker_step. by rewrite (moves_at n i _ WGet).
Qed.

(** The goroutine of a worker does what [processItem] does. A worker about
    to take an item takes and handles it in two steps with the queue and the
    notifications that [processItem] computes, also when the handler panics,
    pauses when the queue is shut down, and waits when the queue is empty. *)
Theorem worker_refines_processItem n i st :
  running st = true -> qr_workers (queue_of n st) !! i = Some WGet ->
  match @processItem _ (handlers n) (qr_queue (queue_of n st)) with
  | Continue q' refs =>
      exists st', run_labels step [WorkerStep n i; WorkerStep n i] st = Some st' /\
        qr_queue (queue_of n st') = q' /\ proc_notified st' = proc_notified st ++ refs /\
        qr_workers (queue_of n st') !! i = Some WGet /\ running st' = true
  | Crashed q' refs _ =>
      exists st', run_labels step [WorkerStep n i; WorkerStep n i] st = Some st' /\
        qr_queue (queue_of n st') = q' /\ proc_notified st' = proc_notified st ++ refs /\
        proc_crashed st' = true
  | Stop q' =>
      exists st', step (WorkerStep n i) st = Some st' /\ qr_queue (queue_of n st') = q' /\
        qr_workers (queue_of n st') !! i = Some WPause
  | Waits => step (WorkerStep n i) st = None
  end.
Proof.
  intros Hr Hi. unfold processItem. cbn [run_labels].
  assert (step (WorkerStep n i) st = worker_step n i st) as -> by (unfold step; by rewrite Hr).
  unfold worker_step at 1 2 3 4. rewrite Hi.
  destruct (wq_Get (qr_queue (queue_of n st))) as [x q'| |]; [|by eauto using moves_queue, moves_at|done].
  cbn [mbind option_bind]. rewrite (worker_second_step n i x q' st Hr Hi). cbn.
  unfold worker_handles. rewrite moves_queue.
  pose proof (moves_at n i WGet _ (wq_Done x (wq_Forget x q')) _
    (moves_at n i (WHandle x) _ q' _ Hi)) as Hat.
  destruct x as [event|]; [destruct (dispatch event) as [refs [| |]]|]; cbn;
    eexists; (split; [done|]); rewrite outside_queue, moves_queue; done.
Qed.

(** C20: when and why the controller exits. [main] returns only after both
    queues, the gRPC server and the web server have returned; it returns without
    an error only after a signal, and the error it reports is one of a socket:
    it could not be bound, or it failed while serving. *)
Theorem exit_reasons workers q1 q2 st err :
  reachable workers q1 q2 st -> proc_main st = MExited err ->
  qr_pc (proc_listenerQueue st) = QReturned /\ qr_pc (proc_sliceQueue st) = QReturned /\
  gr_serve (proc_grpc st) = SReturned /\ wb_serve (proc_web st) = HReturned /\
  match err with
  | None => proc_signal st = true
  | Some e => e ∈ proc_failures st
  end.
Proof.
  intros [[C1 C2 C3 C4] _ _ Ha Hre]%process_reachable_inv Hm.
  pose proof (C4 _ Hm) as Hg. rewrite C2 in Hg.
  destruct (proc_run st) eqn:Hrun; cbn in Hg; [lia|]. rewrite (C3 eq_refl) in C1.
  destruct (qr_pc (proc_listenerQueue st)); cbn in C1; try lia.
  destruct (qr_pc (proc_sliceQueue st)); cbn in C1; try lia.
  destruct (gr_serve (proc_grpc st)); cbn in C1; try lia.
  destruct (wb_serve (proc_web st)); cbn in Hg; [lia|].
  split_and!; try done. destruct err; [by eapply re_exit|by apply ca_exit].
Qed.
End lifecycle.

(** ** Runs *)

Definition plain_group : ErrGroup := {|
  grp := nat * option error;
  grp_new := (0, None);
  grp_Go g := (S g.1, g.2);
  grp_returns e g := (pred g.1, match g.2 with Some x => Some x | None => e end);
  grp_cancelled g := bool_decide (is_Some g.2);
  grp_Wait g := if decide (g.1 = 0) then Some g.2 else None
|}.

Definition plain_group_laws : @ErrGroupLaws plain_group.
Proof. by refine {| grp_running := fst : @grp plain_group -> _; grp_error := snd |}. Defined.

(** A server whose [Serve] returns when [GracefulStop] has finished. *)
Definition plain_grpc : GrpcServer := {|
  gs := gset nat * bool;
  gs_new := (∅, false);
  gs_open c g := if g.2 then g else (g.1 ∪ {[c]}, g.2);
  gs_close c g := (g.1 ∖ {[c]}, g.2);
  gs_calls g := g.1;
  gs_GracefulStop g := (g.1, true);
  gs_stop_returns g := g.2 && bool_decide (g.1 = ∅);
  gs_serve_returns g := g.2 && bool_decide (g.1 = ∅)
|}.

Definition plain_grpc_laws : @GrpcServerLaws plain_grpc.
Proof.
  refine {| gs_stopping := snd : @gs plain_grpc -> _ |}; try done.
  - by intros c [calls []].
  - by intros c [calls []].
  - by intros [calls []].
Defined.

Definition plain_stream : StreamHandler := {| stream_returns done := done |}.

Definition plain_stream_laws : @StreamHandlerLaws plain_stream.
Proof. by split. Defined.

Definition empty_queue : @wq fifo_queue :=
  {| fifo_waiting := []; fifo_processing := []; fifo_closed := false |}.

(** A state has a property that evaluates to true. *)
Definition holds {A} (o : option A) (f : A -> bool) : bool :=
  match o with Some x => f x | None => false end.

Lemma holds_spec {A} (o : option A) (f : A -> bool) :
  holds o f = true -> exists x, o = Some x /\ f x = true.
Proof. destruct o as [x|]; [by exists x|done]. Qed.

(** The number of workers that [NewXDSServer] asks for. *)
Definition xds_workers : nat := 10.

Definition plain_start : @proc plain_group plain_grpc fifo_queue :=
  @start plain_group plain_grpc fifo_queue xds_workers empty_queue empty_queue.

Definition plain_handlers (n : queueName) : EventHandler := @listener_handler sample_xds.

Abbreviation plain_run ls :=
  (run_labels (@step plain_group plain_grpc plain_stream fifo_queue plain_handlers) ls plain_start).

(** Everything is up. *)
Definition up : list label :=
  replicate 11 (QueueStep ListenerQueue) ++ replicate 11 (QueueStep SliceQueue) ++ [ListenOk].

(** The end of what depends on the queues and the gRPC server. *)
Definition server_down : list label :=
  [QueueStep ListenerQueue; QueueStep SliceQueue; StopperStep; StopperStep; ServeReturns;
   RunReturns].

Definition exited_clean {A B C} (st : @proc A B C) : bool :=
  match proc_main st with MExited None => true | _ => false end.
Lemma exited_clean_spec {A B C} (st : @proc A B C) :
  exited_clean st = true -> proc_main st = MExited None.
Proof. unfold exited_clean. by destruct (proc_main st) as [|[]]. Qed.

Definition exited_failed {A B C} (st : @proc A B C) : bool :=
  match proc_main st with MExited (Some _) => true | _ => false end.

(** A signal while a client holds a stream open. *)
Definition signal_run : list label :=
  up ++ [StreamOpens 7; Signal; QueueStep ListenerQueue; QueueStep SliceQueue; StopperStep;
         StreamReturns 7; StopperStep; ServeReturns; RunReturns; WebStopperStep; WebReturns;
         MainReturns].

Lemma ended_stuck `{ErrGroup, GrpcServer, StreamHandler, WorkQueue} handlers st g :
  running st = false -> ~ enabled (step handlers) owner g st.
Proof. unfold enabled, step. intros -> (l & _ & [x [=]]). Qed.

Lemma signal_run_ends : holds (plain_run signal_run) (fun st => negb (running st)) = true.
Proof. vm_compute. reflexivity. Qed.

Lemma signal_run_signals : holds (plain_run (take 25 signal_run)) proc_signal = true.
Proof. vm_compute. reflexivity. Qed.

Lemma shutdown_on_signal_witness :
  exists (e : execution (@step plain_group plain_grpc plain_stream fifo_queue plain_handlers)) k,
    ex_label _ e 24 = Some Signal /\ 25 <= k /\ running (ex_state _ e k) = false.
Proof.
  destruct (holds_spec _ _ signal_run_ends) as (st & Hrun & Hend%negb_true_iff).
  exists (finite_execution _ _ _ _ Hrun).
  destruct (@shutdown_on_signal plain_group plain_grpc plain_stream fifo_queue plain_handlers
    plain_group_laws plain_grpc_laws plain_stream_laws xds_workers empty_queue empty_queue
    (finite_execution _ _ _ _ Hrun) 25) as (k & Hk & Hm).
  - reflexivity.
  - apply finite_fair. intros g. by apply ended_stuck.
  - cbn [ex_state finite_execution]. unfold prefix_state.
    destruct (holds_spec _ _ signal_run_signals) as (st' & Hst' & Hs). rewrite Hst'. exact Hs.
  - exists k. split; [reflexivity|]. split; [exact Hk|]. unfold running.
    destruct Hm as [[err ->]| ->]; [reflexivity|]. by destruct (proc_main _).
Defined.

(** A worker waits for an item, and an item arrives. *)
Definition item_run : list label :=
  up ++ [WorkerStep ListenerQueue 0;
         Event ListenerQueue (Added (ObjGRPCListener sample_listener) false)].

Lemma item_run_waits :
  holds (plain_run item_run) (fun st => running st &&
    match qr_workers (proc_listenerQueue st) !! 0 with Some WGet => true | _ => false end &&
    match @processItem _ (plain_handlers ListenerQueue) (qr_queue (proc_listenerQueue st)) with
    | Continue _ refs => negb (bool_decide (refs = [])) | _ => false end) = true.
Proof. vm_compute. reflexivity. Qed.

Lemma worker_refines_processItem_witness :
  exists st st', plain_run item_run = Some st /\
    run_labels (@step plain_group plain_grpc plain_stream fifo_queue plain_handlers)
      [WorkerStep ListenerQueue 0; WorkerStep ListenerQueue 0] st = Some st' /\
    exists refs, refs <> [] /\ proc_notified st' = proc_notified st ++ refs.
Proof.
  destruct (holds_spec _ _ item_run_waits) as (st & Hrun & Hb).
  rewrite !andb_true_iff in Hb. destruct Hb as [[Hr Hw] Hp].
  assert (qr_workers (queue_of ListenerQueue st) !! 0 = Some WGet) as Hi.
  { cbn. destruct (qr_workers (proc_listenerQueue st) !! 0) as [[]|]; try discriminate Hw. reflexivity. }
  pose proof (@worker_refines_processItem plain_group plain_grpc plain_stream fifo_queue
    plain_handlers ListenerQueue 0 st Hr Hi) as Hs.
  cbn [queue_of] in Hs.
  destruct (processItem (qr_queue (proc_listenerQueue st))) as [q' refs| | |]; try discriminate Hp.
  destruct Hs as (st' & Hrun2 & _ & Hn & _). exists st, st'.
  refine (conj Hrun (conj Hrun2 (ex_intro _ refs (conj _ Hn)))).
  intros ->. discriminate Hp.
Defined.

(** The web server cannot bind its port. *)
Definition port_in_use : error := libraryError "bind: address already in use".

Definition failing_run : list label :=
  up ++ [WebFails port_in_use] ++ server_down ++ [MainReturns].

Lemma failing_run_exits : holds (plain_run failing_run) exited_failed = true.
Proof. vm_compute. reflexivity. Qed.

Lemma exit_reasons_witness :
  exists st err, plain_run failing_run = Some st /\ proc_main st = MExited (Some err) /\
    gr_serve (proc_grpc st) = SReturned /\ err ∈ proc_failures st.
Proof.
  destruct (holds_spec _ _ failing_run_exits) as (st & Hrun & Hex).
  unfold exited_failed in Hex. destruct (proc_main st) as [|[err|]] eqn:Hm; try discriminate Hex.
  exists st, err. split; [exact Hrun|]. split; [exact Hm|].
  destruct (@exit_reasons plain_group plain_grpc plain_stream fifo_queue plain_handlers
    plain_group_laws plain_grpc_laws xds_workers empty_queue empty_queue st _
    (process_run_reachable _ _ _ _ _ _ _ (reachable_start _ _ _ _) Hrun) Hm)
    as (_ & _ & Hs & _ & Hf).
  split; [exact Hs|exact Hf].
Defined.

(** A worker takes an event, then the process is told to stop. *)
Definition busy_worker_run : list label :=
  up ++ [WorkerStep ListenerQueue 0;
         Event ListenerQueue (Added (ObjGRPCListener sample_listener) false);
         WorkerStep ListenerQueue 0; Signal] ++ server_down ++
  [WebStopperStep; WebReturns; MainReturns].

Definition worker_busy {A B C} (st : @proc A B C) : bool :=
  match qr_workers (proc_listenerQueue st) !! 0 with Some (WHandle _) => true | _ => false end.

(** C0: [QueuedEventHandler.Run] does not wait for its workers. There is a run
    in which it has returned, and even [main] has, while a worker is still in
    the handler of an event. *)
Theorem queue_run_leaves_workers :
  exists st x,
    plain_run busy_worker_run = Some st /\
    qr_pc (proc_listenerQueue st) = QReturned /\ proc_main st = MExited None /\
    qr_workers (proc_listenerQueue st) !! 0 = Some (WHandle x).
Proof.
  destruct (holds_spec (plain_run busy_worker_run) (fun st =>
    bool_decide (qr_pc (proc_listenerQueue st) = QReturned) && exited_clean st && worker_busy st))
    as (st & Hrun & Hb); [vm_compute; reflexivity|].
  rewrite !andb_true_iff, bool_decide_eq_true in Hb. destruct Hb as [[Hq Hm] Hw].
  apply exited_clean_spec in Hm. unfold worker_busy in Hw.
  destruct (qr_workers (proc_listenerQueue st) !! 0) as [[| |x| |]|] eqn:Hx; try discriminate Hw.
  exists st, x. exact (conj Hrun (conj Hq (conj Hm Hx))).
Qed.

(** A request to the web server is in progress when the process is told to
    stop. *)
Definition busy_conn_run : list label :=
  up ++ [ConnOpens; Signal] ++ server_down ++ [WebStopperStep; WebReturns; MainReturns].

(** C0: [main] does not wait for [Shutdown] of the web server, because
    [ListenAndServe] returns as soon as [Shutdown] is called: there is a run in
    which the process exits without an error while a request is in progress and
    [Shutdown] is still waiting for it. *)
Theorem exit_drops_requests :
  exists st,
    plain_run busy_conn_run = Some st /\ proc_main st = MExited None /\
    wb_conns (proc_web st) = 1 /\ wb_stopper (proc_web st) = CShutdown.
Proof.
  destruct (holds_spec (plain_run busy_conn_run) (fun st =>
    exited_clean st && bool_decide (wb_conns (proc_web st) = 1)
    && bool_decide (wb_stopper (proc_web st) = CShutdown)))
    as (st & Hrun & Hb); [vm_compute; reflexivity|].
  rewrite !andb_true_iff, !bool_decide_eq_true in Hb. destruct Hb as [[Hm Hc] Hs].
  exists st. exact (conj Hrun (conj (exited_clean_spec _ Hm) (conj Hc Hs))).
Qed.

(** What is left of the process after the web server failed, with a client
    connected. *)
Definition waits_for_client : list label :=
  up ++ [StreamOpens 7; WebFails port_in_use; QueueStep ListenerQueue; QueueStep SliceQueue;
         StopperStep; WebStopperStep; WebStopperStep] ++
  (WorkerStep ListenerQueue <$> seq 0 xds_workers) ++ (WorkerStep SliceQueue <$> seq 0 xds_workers).

(** A failure does not end the streams. When the web server fails while a
    client holds a stream open, and [Serve] returns once the graceful stop has
    finished, the controller stops accepting calls and then no goroutine of it
    can step: it waits for the client to leave or for a signal, because the
    streams were given the context of the signals and not the one of the
    group. *)
Theorem failure_waits_for_streams :
  exists st,
    plain_run waits_for_client = Some st /\ running st = true /\
    main_ctx_done st = true /\ gs_calls (gr_server (proc_grpc st)) = {[7]} /\
    forall g, ~ enabled (@step plain_group plain_grpc plain_stream fifo_queue plain_handlers)
                owner g st.
Proof.
  destruct (holds_spec (plain_run waits_for_client) (fun st =>
    running st && main_ctx_done st && bool_decide (gs_calls (gr_server (proc_grpc st)) = {[7]})
    && @idle _ _ plain_stream _ plain_handlers st)) as (st & Hrun & Hb); [vm_compute; reflexivity|].
  rewrite !andb_true_iff, bool_decide_eq_true in Hb. destruct Hb as [[[Hr Hd] Hc] Hi].
  exists st. exact (conj Hrun (conj Hr (conj Hd (conj Hc (fun g => idle_stuck _ st g Hi))))).
Qed.
