(* ===== verification/Bootstrap.v ===== *)
(** The bootstrap configuration of a client: package [bootstrap] and what
    [cmd/bootstrapgen] does with it.

    The environment, the host name and the metadata server of the cloud are
    outside the program: they are the parameter [Host]. *)

From S2P Require Import Prelude GoStrings GoPath GoStrconv Api Errors.

(** ** config.go *)

Record Cred := { Cred_Type : string }.

Record XDSServer := {
  XDSServer_URI : string;
  XDSServer_Features : list string;
  XDSServer_Creds : list Cred
}.

Record bootstrapLocality := { bootstrapLocality_Zone : string }.

Record bootstrapNode := {
  bootstrapNode_ID : string;
  bootstrapNode_Locality : bootstrapLocality
}.

Record BootstrapConfig := {
  BootstrapConfig_XDSServers : list XDSServer;
  BootstrapConfig_Node : bootstrapNode
}.

(** ** The host *)

Class Host := {
  os_Getenv : string -> string;
  os_Hostname : M string;
  metadata_OnGCE : bool;
  metadata_Zone : M string
}.

Definition ErrNotRunningOnGCE : error := errorString "not running on GCE".

Definition ProviderTypeEnv : string := "env".
Definition ProviderTypeGcloud : string := "gcloud".

(** The implementations of [ConfigProvider]. *)
Inductive ConfigProvider := envProvider | gcloudProvider.

Section bootstrap.
Context `{Host, UnicodeTables}.

Definition getNodeID : M string :=
  let nodeID := os_Getenv "GTC_NODE_ID" in
  if decide (nodeID <> "") then Ok nodeID else os_Hostname.

(** [func (e *envProvider) Provide] *)
Definition envProvider_Provide (serverURI : string) : M BootstrapConfig :=
  nodeID ← getNodeID;
  Ok {| BootstrapConfig_XDSServers :=
          [{| XDSServer_URI := serverURI; XDSServer_Features := ["xds_v3"];
              XDSServer_Creds := [{| Cred_Type := "insecure" |}] |}];
        BootstrapConfig_Node :=
          {| bootstrapNode_ID := nodeID;
             bootstrapNode_Locality :=
               {| bootstrapLocality_Zone := os_Getenv "GTC_ZONE" |} |} |}.

(** [func (e *gcloudProvider) Provide] *)
Definition gcloudProvider_Provide (serverURI : string) : M BootstrapConfig :=
  if negb metadata_OnGCE then Err ErrNotRunningOnGCE
  else
    nodeID ← getNodeID;
    zone ← metadata_Zone;
    Ok {| BootstrapConfig_XDSServers :=
            [{| XDSServer_URI := serverURI; XDSServer_Features := ["xds_v3"];
                XDSServer_Creds := [{| Cred_Type := "insecure" |}] |}];
          BootstrapConfig_Node :=
            {| bootstrapNode_ID := nodeID;
               bootstrapNode_Locality := {| bootstrapLocality_Zone := zone |} |} |}.

Definition BuildConfigProvider (providerType : string) : M ConfigProvider :=
  let t := strings_ToLower providerType in
  if decide (t = ProviderTypeEnv) then Ok envProvider
  else if decide (t = ProviderTypeGcloud) then Ok gcloudProvider
  else Err (unknownProviderError providerType).

Definition Provide (p : ConfigProvider) (serverURI : string) : M BootstrapConfig :=
  match p with
  | envProvider => envProvider_Provide serverURI
  | gcloudProvider => gcloudProvider_Provide serverURI
  end.

(** The part of [main] of [cmd/bootstrapgen] that makes the configuration; a
    [log.Fatal] is the error. *)
Definition bootstrapgen (serverURI provider : string) : M BootstrapConfig :=
  if decide (serverURI = "") then Err (errorString "please provide a server-uri")
  else
    configProvider ← BuildConfigProvider provider;
    Provide configProvider serverURI.

(** ** Properties *)

(** The configuration that is written. It names one server, at the
    requested address and with insecure credentials and the xDS v3 feature; the
    node id is the variable [GTC_NODE_ID], or the host name when it is empty or
    unset; the zone is the variable [GTC_ZONE] for the environment provider and
    the zone of the metadata server, on GCE only, for the cloud provider. *)
Theorem bootstrapgen_spec serverURI provider cfg :
  bootstrapgen serverURI provider = Ok cfg <->
  serverURI <> "" /\
  exists nodeID zone,
    cfg = {| BootstrapConfig_XDSServers :=
               [{| XDSServer_URI := serverURI; XDSServer_Features := ["xds_v3"];
                   XDSServer_Creds := [{| Cred_Type := "insecure" |}] |}];
             BootstrapConfig_Node :=
               {| bootstrapNode_ID := nodeID;
                  bootstrapNode_Locality := {| bootstrapLocality_Zone := zone |} |} |} /\
    (os_Getenv "GTC_NODE_ID" = nodeID /\ nodeID <> "" \/
     os_Getenv "GTC_NODE_ID" = "" /\ os_Hostname = Ok nodeID) /\
    (strings_ToLower provider = "env" /\ zone = os_Getenv "GTC_ZONE" \/
     strings_ToLower provider = "gcloud" /\ metadata_OnGCE = true /\ metadata_Zone = Ok zone).
Proof.
  unfold bootstrapgen, BuildConfigProvider, ProviderTypeEnv, ProviderTypeGcloud.
  case_decide as Huri; [naive_solver|].
  assert (forall id, getNodeID = Ok id <->
    os_Getenv "GTC_NODE_ID" = id /\ id <> "" \/
    os_Getenv "GTC_NODE_ID" = "" /\ os_Hostname = Ok id) as Hid.
  { intros id. unfold getNodeID. case_decide as Hn; naive_solver. }
  case_decide as Henv; [|case_decide as Hgc; [|naive_solver]]; cbn [mbind outcome_bind Provide].
  - unfold envProvider_Provide. rewrite bind_Ok. setoid_rewrite Hid. split.
    + intros (id & ? & [= <-]). split; [done|]. eexists _, _. split; [done|]. naive_solver.
    + intros (_ & id & zone & -> & ? & [[_ ->]|[? _]]); [by eexists|congruence].
  - unfold gcloudProvider_Provide. destruct metadata_OnGCE; cbn [negb]; [|naive_solver].
    rewrite bind_Ok. setoid_rewrite bind_Ok. setoid_rewrite Hid. split.
    + intros (id & ? & zone & Hz & [= <-]). split; [done|]. eexists _, _. split; [done|].
      naive_solver.
    + intros (_ & id & zone & -> & ? & [[? _]|(_ & _ & Hz)]); [congruence|].
      exists id. split; [done|]. by exists zone.
Qed.

(** An unknown provider is reported with the name as it was given. *)
Theorem unknown_provider serverURI provider :
  serverURI <> "" -> strings_ToLower provider ∉ ["env"; "gcloud"] ->
  bootstrapgen serverURI provider = Err (unknownProviderError provider).
Proof.
  intros Huri Hp. rewrite !not_elem_of_cons in Hp. destruct Hp as (? & ? & _).
  unfold bootstrapgen, BuildConfigProvider, ProviderTypeEnv, ProviderTypeGcloud.
  by rewrite !decide_False by done.
Qed.
End bootstrap.

(** ** Witnesses *)

Definition sample_host : Host := {|
  os_Getenv v := if decide (v = "GTC_ZONE") then "zone-a" else "";
  os_Hostname := Ok "client-0";
  metadata_OnGCE := false;
  metadata_Zone := Err (libraryError "not on GCE")
|}.

Example bootstrapgen_env :
  @bootstrapgen sample_host ascii_tables "gtc:16000" "ENV" =
  Ok {| BootstrapConfig_XDSServers :=
          [{| XDSServer_URI := "gtc:16000"; XDSServer_Features := ["xds_v3"];
              XDSServer_Creds := [{| Cred_Type := "insecure" |}] |}];
        BootstrapConfig_Node :=
          {| bootstrapNode_ID := "client-0";
             bootstrapNode_Locality := {| bootstrapLocality_Zone := "zone-a" |} |} |}.
Proof. vm_compute. reflexivity. Qed.

Lemma unknown_provider_witness :
  @bootstrapgen sample_host ascii_tables "gtc:16000" "aws" = Err (unknownProviderError "aws").
Proof.
  apply unknown_provider; [discriminate|]. vm_compute.
  intros Hin. apply elem_of_cons in Hin as [[=]|Hin]. apply elem_of_cons in Hin as [[=]|Hin].
  inversion Hin.
Defined.
