(* ===== verification/ErrorText.v ===== *)
(** The texts of the errors: the [Error] methods of [gtc] and [bootstrap], and
    what [fmt.Errorf] is called with.

    A string that came from outside is written with [%q], so that it stays on
    one line and can be told from any other. *)

From S2P Require Import Prelude GoStrings GoPath GoStrconv GoQuote Api Errors Xds ResourceName.
From S2P Require Import Interceptors Routes GoHash Resolver K8s Listers ListenerHandler ClusterHandler EndpointHandler Watches ConfigWatcher Bootstrap.

(** The texts of the errors that libraries make. *)
Class LibraryTexts := {
  notFound_text : GroupResource -> string -> string;
  status_text : Z -> string -> string
}.

Section texts.
Context `{LibraryTexts, PrintTables}.

(** [func (u unsupportedResourceType) Error() string] *)
Definition unsupportedResourceType_Error (u : string) : string :=
  "Unsupported type URL " +:+ strconv_Quote u.

(** [func (m malformedResourceNameErr) Error() string] *)
Definition malformedResourceNameErr_Error (m : string) : string :=
  "malformed resource name " +:+ strconv_Quote m.

(** [func (u UnknownProviderError) Error() string] *)
Definition UnknownProviderError_Error (u : string) : string :=
  "unknown bootstrap provider " +:+ strconv_Quote u.

(** [fmt.Errorf] of [makeRegexMatcher] and of [makeFractionalPercent] *)
Definition unsupportedEngine_Error (engine : string) : string :=
  "unsupported engine " +:+ strconv_Quote engine.
Definition unsupportedDenominator_Error (denominator : string) : string :=
  "unsupported denominator " +:+ strconv_Quote denominator +:+ " for runtime fraction".

Fixpoint error_Error (e : error) : string :=
  match e with
  | errorString text => text
  | unsupportedEngine engine => unsupportedEngine_Error engine
  | unsupportedDenominator denominator => unsupportedDenominator_Error denominator
  | malformedListenerResourceNameError m => malformedListenerResourceNameError_Error m
  | malformedResourceNameErr m => malformedResourceNameErr_Error m
  | routeNotFoundError r l => routeNotFoundError_Error r l
  | backendNotFoundError r b l => backendNotFoundError_Error r b l
  | unsupportedResourceType u => unsupportedResourceType_Error u
  | unknownProviderError u => UnknownProviderError_Error u
  | notFoundError gr name => notFound_text gr name
  | unableToBind err => "unable to bind " +:+ error_Error err
  | statusError code message => status_text code message
  | libraryError text => text
  end.

(** The errors of [f] on the inputs of [P] tell the input: each is one line of visible characters,
    and two different inputs never give the same text. *)
Definition one_line (e : error) : Prop := Forall visible (bytes_of (error_Error e)).

Definition reports_on {A B} (P : A -> Prop) (f : A -> M B) (input : A -> string) : Prop :=
  forall a1 a2 e1 e2, P a1 -> P a2 -> f a1 = Err e1 -> f a2 = Err e2 ->
    one_line e1 /\ (error_Error e1 = error_Error e2 -> input a1 = input a2).

Definition reports {A B} (f : A -> M B) (input : A -> string) : Prop :=
  reports_on (fun _ => True) f input.

(** A request for a type that no handler is registered for. *)
Definition unsupported `{XdsLibrary} (req : resolveRequest) : Prop :=
  resolveRequest_typeUrl req ∉ [ListenerType; ClusterType; EndpointType].

(** ** Lemmas *)

Lemma bytes_of_app s t : bytes_of (s +:+ t) = bytes_of s ++ bytes_of t.
Proof. induction s as [|c s IH]; [done|]. rewrite str_app_cons. cbn. by rewrite IH. Qed.

Lemma bytes_of_inj s t : bytes_of s = bytes_of t -> s = t.
Proof. intros Heq. by rewrite <-(of_bytes_bytes_of s), Heq, of_bytes_bytes_of. Qed.

Lemma str_app_inj_l p s t : p +:+ s = p +:+ t -> s = t.
Proof.
  intros Heq. apply (f_equal bytes_of) in Heq. rewrite !bytes_of_app in Heq.
  by apply bytes_of_inj, (app_inv_head (bytes_of p)).
Qed.

Lemma str_app_inj_r p s t : s +:+ p = t +:+ p -> s = t.
Proof.
  intros Heq. apply (f_equal bytes_of) in Heq. rewrite !bytes_of_app in Heq.
  by apply bytes_of_inj, (app_inv_tail (bytes_of p)).
Qed.

(** A quotation between two literals. *)
Lemma quotation_inj p q s t :
  p +:+ strconv_Quote s +:+ q = p +:+ strconv_Quote t +:+ q -> s = t.
Proof. by intros ?%str_app_inj_l%str_app_inj_r%strconv_Quote_inj. Qed.

Lemma quotation_last_inj p s t : p +:+ strconv_Quote s = p +:+ strconv_Quote t -> s = t.
Proof. by intros ?%str_app_inj_l%strconv_Quote_inj. Qed.

Lemma visible_quotation p q s :
  Forall visible (bytes_of p) -> Forall visible (bytes_of q) ->
  Forall visible (bytes_of (p +:+ strconv_Quote s +:+ q)).
Proof. intros Hp Hq. rewrite !bytes_of_app. rewrite !Forall_app. auto with gtc. Qed.

Lemma visible_quotation_last p s :
  Forall visible (bytes_of p) -> Forall visible (bytes_of (p +:+ strconv_Quote s)).
Proof. intros Hp. rewrite bytes_of_app, Forall_app. auto with gtc. Qed.

Lemma visible_literal s :
  forallb (fun b => bool_decide (visible b)) (bytes_of s) = true -> Forall visible (bytes_of s).
Proof.
  intros Hs. apply Forall_forall. intros b Hb%list_elem_of_In. eapply forallb_forall in Hs; [|done].
  by apply bool_decide_eq_true in Hs.
Qed.

(** Errors that are all of one form, with the input quoted after a literal. *)
Lemma reports_quoted {A B} (P : A -> Prop) (f : A -> M B) (input : A -> string)
    (mk : string -> error) p :
  (forall a e, P a -> f a = Err e -> e = mk (input a)) ->
  (forall s, error_Error (mk s) = p +:+ strconv_Quote s) ->
  Forall visible (bytes_of p) -> reports_on P f input.
Proof.
  intros Hf Htext Hp a1 a2 e1 e2 HP1 HP2 ->%(Hf _ _ HP1) ->%(Hf _ _ HP2). unfold one_line. rewrite !Htext.
  split; [by apply visible_quotation_last|apply quotation_last_inj].
Qed.

Lemma parseBackendName_Err name e :
  parseBackendName name = Err e -> e = malformedResourceNameErr name.
Proof. unfold parseBackendName. repeat case_match; congruence. Qed.
End texts.

Section reports.
Context `{LibraryTexts, PrintTables, UnicodeTables, XdsLibrary}.

Lemma BuildConfigProvider_Err p e :
  BuildConfigProvider p = Err e -> e = unknownProviderError p.
Proof. unfold BuildConfigProvider. repeat case_match; congruence. Qed.

Lemma makeFractionalPercent_reports : reports makeFractionalPercent Fraction_Denominator.
Proof.
  intros a1 a2 e1 e2 _ _ Hf1 Hf2. unfold makeFractionalPercent in Hf1, Hf2.
  destruct (DenominatorType_value (strings_ToUpper (Fraction_Denominator a1))); [done|].
  destruct (DenominatorType_value (strings_ToUpper (Fraction_Denominator a2))); [done|].
  injection Hf1 as <-. injection Hf2 as <-. split; [|apply quotation_inj].
  apply (visible_quotation "unsupported denominator " " for runtime fraction");
    by apply visible_literal.
Qed.

Lemma makeRegexMatcher_reports : reports makeRegexMatcher RegexMatcher_Engine.
Proof.
  intros a1 a2 e1 e2 _ _ Hf1 Hf2. unfold makeRegexMatcher in Hf1, Hf2.
  destruct (decide (RegexMatcher_Engine a1 <> "re2")) as [N1|E1],
    (decide (RegexMatcher_Engine a2 <> "re2")) as [N2|E2];
    repeat case_decide; simplify_eq; unfold one_line; cbn [error_Error];
    try apply dec_stable in E1; try apply dec_stable in E2;
    (split; [first [by apply visible_quotation_last, visible_literal | by apply visible_literal]|]);
    try congruence.
  - apply quotation_last_inj.
  - done.
  - done.
Qed.
End reports.

(** ** Properties *)

(** The name of a listener is written as it is: a name with a line break gives a
    message of two lines. *)
Example listener_name_is_not_quoted `{LibraryTexts, PrintTables} :
  parseListenerName (of_bytes [97; 10; 98]%Z)
    = Err (malformedListenerResourceNameError (of_bytes [97; 10; 98]%Z)) /\
  ~ one_line (malformedListenerResourceNameError (of_bytes [97; 10; 98]%Z)).
Proof.
  split; [reflexivity|]. intros Hall. unfold one_line in Hall. eapply Forall_forall in Hall.
  2: { apply list_elem_of_In. cbn. do 40 right. left. reflexivity. }
  destruct Hall as [[Hlo _] _]. by vm_compute in Hlo.
Qed.

(** C30: what a client or a user got wrong can be read off the error, safely.
    The errors for a malformed backend name, for a type URL that the resolver of
    the controller has no handler for (which it always rejects), for an unknown
    bootstrap provider, for an unsupported denominator and for an unsupported
    regex engine are each a single line of visible characters, whatever bytes
    were sent, and two different inputs never give the same text. The error for a
    malformed listener name is not of this kind: the name is not quoted and may
    break the line. *)
Theorem rejected_input_is_reported
    `{LibraryTexts, PrintTables, UnicodeTables, XdsLibrary, GRPCListenerLister, EndpointSliceLister} :
  reports parseBackendName id /\
  (reports_on unsupported configWatcher_resolve resolveRequest_typeUrl /\
   forall req, unsupported req -> exists e, configWatcher_resolve req = Err e) /\
  reports BuildConfigProvider id /\
  reports makeFractionalPercent Fraction_Denominator /\
  reports makeRegexMatcher RegexMatcher_Engine /\
  ~ reports parseListenerName id.
Proof.
  split_and!.
  - eapply (reports_quoted _ _ _ malformedResourceNameErr); [|done|by apply visible_literal].
    intros name e _. apply parseBackendName_Err.
  - eapply (reports_quoted _ _ _ unsupportedResourceType); [|done|by apply visible_literal].
    intros req e Hreq. rewrite resolve_other by done. congruence.
  - intros req Hreq. rewrite resolve_other by done. by eexists.
  - eapply (reports_quoted _ _ _ unknownProviderError); [|done|by apply visible_literal].
    intros name e _. apply BuildConfigProvider_Err.
  - apply makeFractionalPercent_reports.
  - apply makeRegexMatcher_reports.
  - intros Hall. destruct listener_name_is_not_quoted as [Herr Hline].
    apply Hline. by eapply Hall.
Qed.
