(* ===== verification/Heap.v ===== *)
(** Go values in memory, and the building blocks of the generated deep-copy
    functions.

    A value is a scalar, a struct, a pointer or a slice; what a pointer or a
    slice refers to is a cell of the heap. A [copier] reads a value and returns
    a copy of it in an extended heap. A [shape] is a Go type; [read] follows the
    pointers of a value of that type and gives the tree it stands for, and
    [footprint] the cells it is made of. A copier is correct when the copy reads
    the same and shares no cell with anything that was there before. *)

From S2P Require Import Prelude.

Abbreviation addr := nat.

Inductive val :=
  | Scalar (s : string)
  | Struct (fs : list val)
  | Ptr (p : option addr)
  | Slice (p : option addr).

(** The cell of a pointer holds one value, the cell of a slice its elements. *)
Abbreviation heap := (gmap addr (list val)).

Definition copier := val -> heap -> val * heap.

(** [*out = *in] *)
Definition assign : copier := fun v h => (v, h).

(** Copy values one after the other. *)
Fixpoint copy_all (cs : list copier) (vs : list val) (h : heap) : list val * heap :=
  match cs, vs with
  | c :: cs', v :: vs' =>
      let '(v', h1) := c v h in
      let '(vs'', h2) := copy_all cs' vs' h1 in
      (v' :: vs'', h2)
  | _, _ => (vs, h)
  end.

(** The fields of a struct: first [*out = *in], then the fields in order. *)
Definition fields (cs : list copier) : copier := fun v h =>
  match v with
  | Struct fs => let '(fs', h') := copy_all cs fs h in (Struct fs', h')
  | _ => (v, h)
  end.

(** [if in.F != nil { *out = new(T); (copy the pointee) }] *)
Definition ptr (c : copier) : copier := fun v h =>
  match v with
  | Ptr (Some a) =>
      match h !! a with
      | Some [x] =>
          let b := fresh (dom h) in
          let '(x', h') := c x (<[b := []]> h) in
          (Ptr (Some b), <[b := [x']]> h')
      | _ => (v, h)
      end
  | _ => (v, h)
  end.

(** [if in.F != nil { *out = make([]T, len( *in)); (copy each element) }] *)
Definition slice (c : copier) : copier := fun v h =>
  match v with
  | Slice (Some a) =>
      match h !! a with
      | Some xs =>
          let b := fresh (dom h) in
          let '(xs', h') := copy_all (replicate (length xs) c) xs (<[b := []]> h) in
          (Slice (Some b), <[b := xs']> h')
      | _ => (v, h)
      end
  | _ => (v, h)
  end.

(** ** Types *)

Inductive shape :=
  | SScalar
  | SStruct (fs : list shape)
  | SPtr (s : shape)
  | SSlice (s : shape).

(** The tree a value stands for. *)
Inductive tree :=
  | TScalar (s : string)
  | TStruct (ts : list tree)
  | TNil
  | TPtr (t : tree)
  | TSlice (ts : list tree).

(** A value of a type, with the tree it reads as and its cells. *)
Inductive reads (h : heap) : shape -> val -> tree -> gset addr -> Prop :=
  | reads_scalar s : reads h SScalar (Scalar s) (TScalar s) ∅
  | reads_struct ss vs ts A :
      reads_all h ss vs ts A -> reads h (SStruct ss) (Struct vs) (TStruct ts) A
  | reads_nil_ptr s : reads h (SPtr s) (Ptr None) TNil ∅
  | reads_ptr s a x t A :
      h !! a = Some [x] -> reads h s x t A -> reads h (SPtr s) (Ptr (Some a)) (TPtr t) ({[a]} ∪ A)
  | reads_nil_slice s : reads h (SSlice s) (Slice None) TNil ∅
  | reads_slice s a xs ts A :
      h !! a = Some xs -> reads_all h (replicate (length xs) s) xs ts A ->
      reads h (SSlice s) (Slice (Some a)) (TSlice ts) ({[a]} ∪ A)
with reads_all (h : heap) : list shape -> list val -> list tree -> gset addr -> Prop :=
  | reads_all_nil : reads_all h [] [] [] ∅
  | reads_all_cons s ss v vs t ts A B :
      reads h s v t A -> reads_all h ss vs ts B ->
      reads_all h (s :: ss) (v :: vs) (t :: ts) (A ∪ B).

Scheme reads_mut := Induction for reads Sort Prop
  with reads_all_mut := Induction for reads_all Sort Prop.
Combined Scheme reads_both from reads_mut, reads_all_mut.

(** A correct copier for a type: the old heap is kept as it is, the copy reads
    as the original did, and every cell of the copy is new. *)
Definition deep (s : shape) (c : copier) : Prop :=
  forall h v t A, reads h s v t A ->
    exists v' h' B, c v h = (v', h') /\ h ⊆ h' /\ reads h' s v' t B /\ B ## dom h.

(** Types without pointers. *)
Fixpoint flat (s : shape) : bool :=
  match s with
  | SScalar => true
  | SStruct ss => forallb flat ss
  | SPtr _ | SSlice _ => false
  end.

(** ** Lemmas *)

Lemma reads_mono h h' : h ⊆ h' ->
  (forall s v t A, reads h s v t A -> reads h' s v t A) /\
  (forall ss vs ts A, reads_all h ss vs ts A -> reads_all h' ss vs ts A).
Proof.
  intros Hsub. apply (reads_both h (fun s v t A _ => reads h' s v t A)
    (fun ss vs ts A _ => reads_all h' ss vs ts A)); intros;
    try (by econstructor); econstructor; eauto using lookup_weaken.
Qed.

Lemma reads_footprint h :
  (forall s v t A, reads h s v t A -> A ⊆ dom h) /\
  (forall ss vs ts A, reads_all h ss vs ts A -> A ⊆ dom h).
Proof.
  apply (reads_both h (fun _ _ _ A _ => A ⊆ dom h) (fun _ _ _ A _ => A ⊆ dom h)); intros;
    try set_solver; apply union_subseteq; split; [|done|..|done];
    apply singleton_subseteq_l, elem_of_dom; eauto.
Qed.

Lemma flat_footprint h :
  (forall s v t A, reads h s v t A -> flat s = true -> A = ∅) /\
  (forall ss vs ts A, reads_all h ss vs ts A -> forallb flat ss = true -> A = ∅).
Proof.
  apply (reads_both h (fun s _ _ A _ => flat s = true -> A = ∅)
    (fun ss _ _ A _ => forallb flat ss = true -> A = ∅)); cbn; try done.
  intros s ss v vs t ts A B _ IH1 _ IH2 [H1 H2]%andb_true_iff.
  rewrite IH1, IH2 by done. set_solver.
Qed.

Lemma deep_assign s : flat s = true -> deep s assign.
Proof.
  intros Hs h v t A Hr. exists v, h, A. split; [done|]. split; [done|]. split; [done|].
  rewrite (proj1 (flat_footprint h) _ _ _ _ Hr Hs). set_solver.
Qed.

(** Copying a list of values, each by a correct copier. *)
Lemma copy_all_deep ss cs :
  Forall2 deep ss cs ->
  forall h vs ts A, reads_all h ss vs ts A ->
    exists vs' h' B, copy_all cs vs h = (vs', h') /\ h ⊆ h' /\
      reads_all h' ss vs' ts B /\ B ## dom h /\ length vs' = length vs.
Proof.
  induction 1 as [|s c ss cs Hc _ IH]; intros h vs ts A Hr; inversion Hr; subst.
  { exists [], h, ∅. split; [done|]. split; [done|]. split; [constructor|]. split; [set_solver|done]. }
  destruct (Hc h v t A0) as (v' & h1 & B1 & Hv & Hsub1 & Hr1 & Hd1); [done|].
  destruct (IH h1 vs0 ts0 B) as (vs' & h2 & B2 & Hvs & Hsub2 & Hr2 & Hd2 & Hlen).
  { by apply (reads_mono h h1 Hsub1). }
  exists (v' :: vs'), h2, (B1 ∪ B2). cbn. rewrite Hv, Hvs. split; [done|].
  split; [by trans h1|]. split; [|split; [|cbn; lia]].
  - constructor; [by apply (reads_mono h1 h2 Hsub2)|done].
  - pose proof (subseteq_dom _ _ Hsub1). set_solver.
Qed.

Lemma deep_fields ss cs : Forall2 deep ss cs -> deep (SStruct ss) (fields cs).
Proof.
  intros Hcs h v t A Hr. inversion Hr; subst.
  destruct (copy_all_deep ss cs Hcs h vs ts A) as (vs' & h' & B & Hvs & ? & ? & ? & _); [done|].
  exists (Struct vs'), h', B. cbn. rewrite Hvs. split; [done|]. split; [done|].
  split; [by constructor|done].
Qed.

(** A new cell, filled after its contents are copied. *)
Lemma fill_cell (h h' : heap) b xs :
  b ∉ dom h -> <[b := []]> h ⊆ h' -> h ⊆ <[b := xs]> h'.
Proof.
  intros Hb Hsub. apply insert_subseteq_r; [by apply not_elem_of_dom|].
  trans (<[b := []]> h); [|done]. apply insert_subseteq. by apply not_elem_of_dom.
Qed.

(** Values that do not use a cell read the same when it changes. *)
Lemma reads_other_cell h b ys :
  (forall s v t A, reads h s v t A -> b ∉ A -> reads (<[b := ys]> h) s v t A) /\
  (forall ss vs ts A, reads_all h ss vs ts A -> b ∉ A -> reads_all (<[b := ys]> h) ss vs ts A).
Proof.
  apply (reads_both h (fun s v t A _ => b ∉ A -> reads (<[b := ys]> h) s v t A)
    (fun ss vs ts A _ => b ∉ A -> reads_all (<[b := ys]> h) ss vs ts A)).
  - constructor.
  - intros ss vs ts A _ IH Hb. constructor. by apply IH.
  - constructor.
  - intros s a x t A Ha _ IH Hb. apply reads_ptr with x; [|apply IH; set_solver].
    by rewrite lookup_insert_ne by set_solver.
  - constructor.
  - intros s a xs ts A Ha _ IH Hb. apply reads_slice with xs; [|apply IH; set_solver].
    by rewrite lookup_insert_ne by set_solver.
  - constructor.
  - intros s ss v vs t ts A B _ IH1 _ IH2 Hb. constructor; [apply IH1|apply IH2]; set_solver.
Qed.

Lemma deep_ptr s c : deep s c -> deep (SPtr s) (ptr c).
Proof.
  intros Hc h v t A Hr. inversion Hr as [| |?|? a x t0 A0 Ha Hx0|?|]; subst.
  { exists (Ptr None), h, ∅. split; [done|]. split; [done|]. split; [constructor|set_solver]. }
  set (b := fresh (dom h)).
  assert (b ∉ dom h) as Hb by apply is_fresh.
  destruct (Hc (<[b := []]> h) x t0 A0) as (x' & h' & B & Hx & Hsub & Hr' & Hd).
  { apply (reads_mono h); [|done]. apply insert_subseteq. by apply not_elem_of_dom. }
  exists (Ptr (Some b)), (<[b := [x']]> h'), ({[b]} ∪ B). cbn. rewrite Ha. fold b. rewrite Hx.
  split; [done|]. split; [by apply fill_cell|]. split.
  - econstructor; [by rewrite lookup_insert_eq|]. apply reads_other_cell; [done|]. set_solver.
  - set_solver.
Qed.

Lemma deep_slice s c : deep s c -> deep (SSlice s) (slice c).
Proof.
  intros Hc h v t A Hr. inversion Hr as [| |?|?|?|? a xs ts A0 Ha Hx0]; subst.
  { exists (Slice None), h, ∅. split; [done|]. split; [done|]. split; [constructor|set_solver]. }
  set (b := fresh (dom h)).
  assert (b ∉ dom h) as Hb by apply is_fresh.
  destruct (copy_all_deep (replicate (length xs) s) (replicate (length xs) c))
    with (h := <[b := []]> h) (vs := xs) (ts := ts) (A := A0)
    as (xs' & h' & B & Hx & Hsub & Hr' & Hd & Hlen).
  { by apply Forall2_replicate. }
  { apply (reads_mono h); [|done]. apply insert_subseteq. by apply not_elem_of_dom. }
  exists (Slice (Some b)), (<[b := xs']> h'), ({[b]} ∪ B). cbn. rewrite Ha. fold b. rewrite Hx.
  split; [done|]. split; [by apply fill_cell|]. split.
  - econstructor; [by rewrite lookup_insert_eq|]. rewrite Hlen.
    apply reads_other_cell; [done|]. set_solver.
  - set_solver.
Qed.

#[export] Hint Resolve deep_ptr deep_slice deep_fields : gtc.
