(* ===== verification/Deepcopy.v ===== *)
(** The generated deep-copy functions of package [v1alpha1]:
    [api/gtc/v1alpha1/zz_generated.deepcopy.go].

    For each type [T]: [T_shape] is the struct type of [types.go], [matcher.go]
    or [interceptor.go], with its fields in order; [T_DeepCopyInto] lists what
    the function does with each of them, [assign] for the fields that the
    initial [*out = *in] copies and that are not treated further;
    [T_DeepCopy] copies through a pointer. The functions of [metav1.ObjectMeta]
    and [metav1.ListMeta] belong to apimachinery and are parameters. *)

From S2P Require Import Prelude Heap.

(** Numerator, Denominator *)
Definition Fraction_shape : shape :=
  SStruct [SScalar; SScalar].

Definition Fraction_DeepCopyInto : copier :=
  fields [assign; assign].

Definition Fraction_DeepCopy : copier := ptr Fraction_DeepCopyInto.

(** no fields *)
Definition MetadataFault_shape : shape :=
  SStruct [].

Definition MetadataFault_DeepCopyInto : copier :=
  fields [].

Definition MetadataFault_DeepCopy : copier := ptr MetadataFault_DeepCopyInto.

(** Code, Metadata, Percentage *)
Definition FaultAbort_shape : shape :=
  SStruct [SPtr SScalar; SPtr MetadataFault_shape; SPtr Fraction_shape].

Definition FaultAbort_DeepCopyInto : copier :=
  fields [ptr assign; ptr assign; ptr assign].

Definition FaultAbort_DeepCopy : copier := ptr FaultAbort_DeepCopyInto.

(** Fixed, Metadata, Percentage *)
Definition FaultDelay_shape : shape :=
  SStruct [SPtr SScalar; SPtr MetadataFault_shape; SPtr Fraction_shape].

Definition FaultDelay_DeepCopyInto : copier :=
  fields [ptr assign; ptr assign; ptr assign].

Definition FaultDelay_DeepCopy : copier := ptr FaultDelay_DeepCopyInto.

(** Start, End *)
Definition RangeMatcher_shape : shape :=
  SStruct [SScalar; SScalar].

Definition RangeMatcher_DeepCopyInto : copier :=
  fields [assign; assign].

Definition RangeMatcher_DeepCopy : copier := ptr RangeMatcher_DeepCopyInto.

(** Regex, Engine *)
Definition RegexMatcher_shape : shape :=
  SStruct [SScalar; SScalar].

Definition RegexMatcher_DeepCopyInto : copier :=
  fields [assign; assign].

Definition RegexMatcher_DeepCopy : copier := ptr RegexMatcher_DeepCopyInto.

(** Name, Exact, Regex, Range, Present, Prefix, Suffix, Invert *)
Definition HeaderMatcher_shape : shape :=
  SStruct [SScalar; SPtr SScalar; SPtr RegexMatcher_shape; SPtr RangeMatcher_shape; SPtr SScalar;
    SPtr SScalar; SPtr SScalar; SScalar].

Definition HeaderMatcher_DeepCopyInto : copier :=
  fields [assign; ptr assign; ptr assign; ptr assign; ptr assign; ptr assign; ptr assign; assign].

Definition HeaderMatcher_DeepCopy : copier := ptr HeaderMatcher_DeepCopyInto.

(** Delay, Abort, MaxActiveFaults, Headers *)
Definition FaultInterceptor_shape : shape :=
  SStruct [SPtr FaultDelay_shape; SPtr FaultAbort_shape; SPtr SScalar; SSlice HeaderMatcher_shape].

Definition FaultInterceptor_DeepCopyInto : copier :=
  fields [ptr FaultDelay_DeepCopyInto; ptr FaultAbort_DeepCopyInto; ptr assign;
    slice HeaderMatcher_DeepCopyInto].

Definition FaultInterceptor_DeepCopy : copier := ptr FaultInterceptor_DeepCopyInto.

(** Fault *)
Definition Interceptor_shape : shape :=
  SStruct [SPtr FaultInterceptor_shape].

Definition Interceptor_DeepCopyInto : copier :=
  fields [ptr FaultInterceptor_DeepCopyInto].

Definition Interceptor_DeepCopy : copier := ptr Interceptor_DeepCopyInto.

(** Number, Name *)
Definition PortRef_shape : shape :=
  SStruct [SScalar; SScalar].

Definition PortRef_DeepCopyInto : copier :=
  fields [assign; assign].

Definition PortRef_DeepCopy : copier := ptr PortRef_DeepCopyInto.

(** Name, Namespace, Port *)
Definition ServiceRef_shape : shape :=
  SStruct [SScalar; SScalar; PortRef_shape].

Definition ServiceRef_DeepCopyInto : copier :=
  fields [assign; assign; assign].

Definition ServiceRef_DeepCopy : copier := ptr ServiceRef_DeepCopyInto.

(** Weight, Priority, Service *)
Definition Locality_shape : shape :=
  SStruct [SScalar; SScalar; SPtr ServiceRef_shape].

Definition Locality_DeepCopyInto : copier :=
  fields [assign; assign; ptr assign].

Definition Locality_DeepCopy : copier := ptr Locality_DeepCopyInto.

(** MinRingSize, MaxRingSize *)
Definition RingHashConfig_shape : shape :=
  SStruct [SScalar; SScalar].

Definition RingHashConfig_DeepCopyInto : copier :=
  fields [assign; assign].

Definition RingHashConfig_DeepCopy : copier := ptr RingHashConfig_DeepCopyInto.

(** Weight, MaxRequests, LBPolicy, RingHashConfig, Interceptors, Service, Localities *)
Definition Backend_shape : shape :=
  SStruct [SScalar; SPtr SScalar; SScalar; SPtr RingHashConfig_shape; SSlice Interceptor_shape;
    SPtr ServiceRef_shape; SSlice Locality_shape].

Definition Backend_DeepCopyInto : copier :=
  fields [assign; ptr assign; assign; ptr assign; slice Interceptor_DeepCopyInto; ptr assign;
    slice Locality_DeepCopyInto].

Definition Backend_DeepCopy : copier := ptr Backend_DeepCopyInto.

(** BaseInterval, MaxInterval *)
Definition RetryBackoff_shape : shape :=
  SStruct [SScalar; SPtr SScalar].

Definition RetryBackoff_DeepCopyInto : copier :=
  fields [assign; ptr assign].

Definition RetryBackoff_DeepCopy : copier := ptr RetryBackoff_DeepCopyInto.

(** RetryOn, NumRetries, Backoff *)
Definition RetryPolicy_shape : shape :=
  SStruct [SSlice SScalar; SPtr SScalar; SPtr RetryBackoff_shape].

Definition RetryPolicy_DeepCopyInto : copier :=
  fields [slice assign; ptr assign; ptr RetryBackoff_DeepCopyInto].

Definition RetryPolicy_DeepCopy : copier := ptr RetryPolicy_DeepCopyInto.

(** Metadata, Channel, Terminal *)
Definition HashPolicy_shape : shape :=
  SStruct [SScalar; SPtr SScalar; SScalar].

Definition HashPolicy_DeepCopyInto : copier :=
  fields [assign; ptr assign; assign].

Definition HashPolicy_DeepCopy : copier := ptr HashPolicy_DeepCopyInto.

(** Name, Exact, Regex, Range, Present, Prefix, Suffix, Invert *)
Definition MetadataMatcher_shape : shape :=
  SStruct [SScalar; SPtr SScalar; SPtr RegexMatcher_shape; SPtr RangeMatcher_shape; SPtr SScalar;
    SPtr SScalar; SPtr SScalar; SScalar].

Definition MetadataMatcher_DeepCopyInto : copier :=
  fields [assign; ptr assign; ptr assign; ptr assign; ptr assign; ptr assign; ptr assign; assign].

Definition MetadataMatcher_DeepCopy : copier := ptr MetadataMatcher_DeepCopyInto.

(** Namespace, Service, Method *)
Definition MethodMatcher_shape : shape :=
  SStruct [SScalar; SScalar; SScalar].

Definition MethodMatcher_DeepCopyInto : copier :=
  fields [assign; assign; assign].

Definition MethodMatcher_DeepCopy : copier := ptr MethodMatcher_DeepCopyInto.

(** Namespace, Service *)
Definition ServiceMatcher_shape : shape :=
  SStruct [SScalar; SScalar].

Definition ServiceMatcher_DeepCopyInto : copier :=
  fields [assign; assign].

Definition ServiceMatcher_DeepCopy : copier := ptr ServiceMatcher_DeepCopyInto.

(** Method, Service, Namespace, Metadata, Fraction *)
Definition RouteMatcher_shape : shape :=
  SStruct [SPtr MethodMatcher_shape; SPtr ServiceMatcher_shape; SPtr SScalar;
    SSlice MetadataMatcher_shape; SPtr Fraction_shape].

Definition RouteMatcher_DeepCopyInto : copier :=
  fields [ptr assign; ptr assign; ptr assign; slice MetadataMatcher_DeepCopyInto; ptr assign].

Definition RouteMatcher_DeepCopy : copier := ptr RouteMatcher_DeepCopyInto.

(** Matcher, Interceptors, HashPolicy, MaxStreamDuration, GrpcTimeoutHeaderMax, Retry, Backends *)
Definition Route_shape : shape :=
  SStruct [SPtr RouteMatcher_shape; SSlice Interceptor_shape; SSlice HashPolicy_shape;
    SPtr SScalar; SPtr SScalar; SPtr RetryPolicy_shape; SSlice Backend_shape].

Definition Route_DeepCopyInto : copier :=
  fields [ptr RouteMatcher_DeepCopyInto; slice Interceptor_DeepCopyInto;
    slice HashPolicy_DeepCopyInto; ptr assign; ptr assign; ptr RetryPolicy_DeepCopyInto;
    slice Backend_DeepCopyInto].

Definition Route_DeepCopy : copier := ptr Route_DeepCopyInto.

(** MaxStreamDuration, Interceptors, Retry, Routes *)
Definition GRPCListenerSpec_shape : shape :=
  SStruct [SPtr SScalar; SSlice Interceptor_shape; SPtr RetryPolicy_shape; SSlice Route_shape].

Definition GRPCListenerSpec_DeepCopyInto : copier :=
  fields [ptr assign; slice Interceptor_DeepCopyInto; ptr RetryPolicy_DeepCopyInto;
    slice Route_DeepCopyInto].

Definition GRPCListenerSpec_DeepCopy : copier := ptr GRPCListenerSpec_DeepCopyInto.

(** Prefix, Path, Regex *)
Definition PathMatcher_shape : shape :=
  SStruct [SScalar; SScalar; SPtr RegexMatcher_shape].

Definition PathMatcher_DeepCopyInto : copier :=
  fields [assign; assign; ptr assign].

Definition PathMatcher_DeepCopy : copier := ptr PathMatcher_DeepCopyInto.

(** ** Correctness *)

(** Field by field: a flat field is assigned, a pointer or a slice is copied. *)
Ltac deep_copy :=
  apply deep_fields;
  repeat first
    [ apply Forall2_nil; done
    | apply Forall2_cons; split
    | apply deep_assign; reflexivity
    | apply deep_ptr
    | apply deep_slice
    | solve [auto with gtc] ].

Lemma Fraction_ok : deep Fraction_shape Fraction_DeepCopyInto.
Proof. deep_copy. Qed.
#[local] Hint Resolve Fraction_ok : gtc.

Lemma MetadataFault_ok : deep MetadataFault_shape MetadataFault_DeepCopyInto.
Proof. deep_copy. Qed.
#[local] Hint Resolve MetadataFault_ok : gtc.

Lemma FaultAbort_ok : deep FaultAbort_shape FaultAbort_DeepCopyInto.
Proof. deep_copy. Qed.
#[local] Hint Resolve FaultAbort_ok : gtc.

Lemma FaultDelay_ok : deep FaultDelay_shape FaultDelay_DeepCopyInto.
Proof. deep_copy. Qed.
#[local] Hint Resolve FaultDelay_ok : gtc.

Lemma RangeMatcher_ok : deep RangeMatcher_shape RangeMatcher_DeepCopyInto.
Proof. deep_copy. Qed.
#[local] Hint Resolve RangeMatcher_ok : gtc.

Lemma RegexMatcher_ok : deep RegexMatcher_shape RegexMatcher_DeepCopyInto.
Proof. deep_copy. Qed.
#[local] Hint Resolve RegexMatcher_ok : gtc.

Lemma HeaderMatcher_ok : deep HeaderMatcher_shape HeaderMatcher_DeepCopyInto.
Proof. deep_copy. Qed.
#[local] Hint Resolve HeaderMatcher_ok : gtc.

Lemma FaultInterceptor_ok : deep FaultInterceptor_shape FaultInterceptor_DeepCopyInto.
Proof. deep_copy. Qed.
#[local] Hint Resolve FaultInterceptor_ok : gtc.

Lemma Interceptor_ok : deep Interceptor_shape Interceptor_DeepCopyInto.
Proof. deep_copy. Qed.
#[local] Hint Resolve Interceptor_ok : gtc.

Lemma PortRef_ok : deep PortRef_shape PortRef_DeepCopyInto.
Proof. deep_copy. Qed.
#[local] Hint Resolve PortRef_ok : gtc.

Lemma ServiceRef_ok : deep ServiceRef_shape ServiceRef_DeepCopyInto.
Proof. deep_copy. Qed.
#[local] Hint Resolve ServiceRef_ok : gtc.

Lemma Locality_ok : deep Locality_shape Locality_DeepCopyInto.
Proof. deep_copy. Qed.
#[local] Hint Resolve Locality_ok : gtc.

Lemma RingHashConfig_ok : deep RingHashConfig_shape RingHashConfig_DeepCopyInto.
Proof. deep_copy. Qed.
#[local] Hint Resolve RingHashConfig_ok : gtc.

Lemma Backend_ok : deep Backend_shape Backend_DeepCopyInto.
Proof. deep_copy. Qed.
#[local] Hint Resolve Backend_ok : gtc.

Lemma RetryBackoff_ok : deep RetryBackoff_shape RetryBackoff_DeepCopyInto.
Proof. deep_copy. Qed.
#[local] Hint Resolve RetryBackoff_ok : gtc.

Lemma RetryPolicy_ok : deep RetryPolicy_shape RetryPolicy_DeepCopyInto.
Proof. deep_copy. Qed.
#[local] Hint Resolve RetryPolicy_ok : gtc.

Lemma HashPolicy_ok : deep HashPolicy_shape HashPolicy_DeepCopyInto.
Proof. deep_copy. Qed.
#[local] Hint Resolve HashPolicy_ok : gtc.

Lemma MetadataMatcher_ok : deep MetadataMatcher_shape MetadataMatcher_DeepCopyInto.
Proof. deep_copy. Qed.
#[local] Hint Resolve MetadataMatcher_ok : gtc.

Lemma MethodMatcher_ok : deep MethodMatcher_shape MethodMatcher_DeepCopyInto.
Proof. deep_copy. Qed.
#[local] Hint Resolve MethodMatcher_ok : gtc.

Lemma ServiceMatcher_ok : deep ServiceMatcher_shape ServiceMatcher_DeepCopyInto.
Proof. deep_copy. Qed.
#[local] Hint Resolve ServiceMatcher_ok : gtc.

Lemma RouteMatcher_ok : deep RouteMatcher_shape RouteMatcher_DeepCopyInto.
Proof. deep_copy. Qed.
#[local] Hint Resolve RouteMatcher_ok : gtc.

Lemma Route_ok : deep Route_shape Route_DeepCopyInto.
Proof. deep_copy. Qed.
#[local] Hint Resolve Route_ok : gtc.

Lemma GRPCListenerSpec_ok : deep GRPCListenerSpec_shape GRPCListenerSpec_DeepCopyInto.
Proof. deep_copy. Qed.
#[local] Hint Resolve GRPCListenerSpec_ok : gtc.

Lemma PathMatcher_ok : deep PathMatcher_shape PathMatcher_DeepCopyInto.
Proof. deep_copy. Qed.
#[local] Hint Resolve PathMatcher_ok : gtc.

(** ** The objects of the API *)

(** The metadata types of apimachinery. *)
Class MetaCopy := {
  ObjectMeta_shape : shape;
  ListMeta_shape : shape;
  ObjectMeta_DeepCopyInto : copier;
  ListMeta_DeepCopyInto : copier
}.

(** Their functions make deep copies. *)
Class MetaCopyLaws `{MetaCopy} : Prop := {
  ObjectMeta_ok : deep ObjectMeta_shape ObjectMeta_DeepCopyInto;
  ListMeta_ok : deep ListMeta_shape ListMeta_DeepCopyInto
}.

(** [metav1.TypeMeta]: Kind, APIVersion *)
Definition TypeMeta_shape : shape := SStruct [SScalar; SScalar].

Section api_objects.
Context `{MetaCopy}.

(** TypeMeta, ObjectMeta, Spec *)
Definition GRPCListener_shape : shape :=
  SStruct [TypeMeta_shape; ObjectMeta_shape; GRPCListenerSpec_shape].

Definition GRPCListener_DeepCopyInto : copier :=
  fields [assign; ObjectMeta_DeepCopyInto; GRPCListenerSpec_DeepCopyInto].

Definition GRPCListener_DeepCopy : copier := ptr GRPCListener_DeepCopyInto.

(** TypeMeta, ListMeta, Items *)
Definition GRPCListenerList_shape : shape :=
  SStruct [TypeMeta_shape; ListMeta_shape; SSlice GRPCListener_shape].

Definition GRPCListenerList_DeepCopyInto : copier :=
  fields [assign; ListMeta_DeepCopyInto; slice GRPCListener_DeepCopyInto].

Definition GRPCListenerList_DeepCopy : copier := ptr GRPCListenerList_DeepCopyInto.


(** [DeepCopyObject] returns the copy as an interface, nil for nil. *)
Definition GRPCListener_DeepCopyObject : copier := GRPCListener_DeepCopy.
Definition GRPCListenerList_DeepCopyObject : copier := GRPCListenerList_DeepCopy.

Context `{!MetaCopyLaws}.

Lemma GRPCListener_ok : deep GRPCListener_shape GRPCListener_DeepCopyInto.
Proof. pose proof ObjectMeta_ok. deep_copy. Qed.
#[local] Hint Resolve GRPCListener_ok : gtc.

Lemma GRPCListenerList_ok : deep GRPCListenerList_shape GRPCListenerList_DeepCopyInto.
Proof. pose proof ListMeta_ok. deep_copy. Qed.
#[local] Hint Resolve GRPCListenerList_ok : gtc.

(** Every type with its function. *)
Definition copied_types : list (shape * copier) :=
  [(Fraction_shape, Fraction_DeepCopyInto);
   (MetadataFault_shape, MetadataFault_DeepCopyInto);
   (FaultAbort_shape, FaultAbort_DeepCopyInto);
   (FaultDelay_shape, FaultDelay_DeepCopyInto);
   (RangeMatcher_shape, RangeMatcher_DeepCopyInto);
   (RegexMatcher_shape, RegexMatcher_DeepCopyInto);
   (HeaderMatcher_shape, HeaderMatcher_DeepCopyInto);
   (FaultInterceptor_shape, FaultInterceptor_DeepCopyInto);
   (Interceptor_shape, Interceptor_DeepCopyInto);
   (PortRef_shape, PortRef_DeepCopyInto);
   (ServiceRef_shape, ServiceRef_DeepCopyInto);
   (Locality_shape, Locality_DeepCopyInto);
   (RingHashConfig_shape, RingHashConfig_DeepCopyInto);
   (Backend_shape, Backend_DeepCopyInto);
   (RetryBackoff_shape, RetryBackoff_DeepCopyInto);
   (RetryPolicy_shape, RetryPolicy_DeepCopyInto);
   (HashPolicy_shape, HashPolicy_DeepCopyInto);
   (MetadataMatcher_shape, MetadataMatcher_DeepCopyInto);
   (MethodMatcher_shape, MethodMatcher_DeepCopyInto);
   (ServiceMatcher_shape, ServiceMatcher_DeepCopyInto);
   (RouteMatcher_shape, RouteMatcher_DeepCopyInto);
   (Route_shape, Route_DeepCopyInto);
   (GRPCListenerSpec_shape, GRPCListenerSpec_DeepCopyInto);
   (GRPCListener_shape, GRPCListener_DeepCopyInto);
   (GRPCListenerList_shape, GRPCListenerList_DeepCopyInto);
   (PathMatcher_shape, PathMatcher_DeepCopyInto)].

Lemma copied_types_ok : Forall (fun p => deep p.1 p.2) copied_types.
Proof. unfold copied_types. repeat (apply Forall_cons; split; [cbn; auto with gtc|]). done. Qed.
End api_objects.

(** ** Properties *)

(** C26: deep copies are deep. For each of the 26 types of the API, copying a
    value of the type through a pointer leaves the memory that was there as it
    is, and returns a pointer to a value that reads the same, nil where the
    original is nil, and none of whose cells existed before: no change of the
    copy can be seen through the original, nor the other way round. *)
Theorem deepcopy_shares_nothing `{MetaCopy} s c h v t A :
  MetaCopyLaws -> (s, c) ∈ copied_types -> reads h (SPtr s) v t A ->
  exists v' h' B, ptr c v h = (v', h') /\ h ⊆ h' /\ reads h' (SPtr s) v' t B /\ B ## A.
Proof.
  intros Hlaws Hin Hr.
  pose proof (proj1 (Forall_forall _ _) copied_types_ok _ Hin) as Hc. cbn in Hc.
  destruct (deep_ptr s c Hc h v t A Hr) as (v' & h' & B & ? & ? & ? & Hd).
  exists v', h', B. split_and!; try done.
  pose proof (proj1 (reads_footprint h) _ _ _ _ Hr). set_solver.
Qed.

(** ** Witnesses *)

(** Metadata with a name only. *)
Definition sample_meta : MetaCopy := {|
  ObjectMeta_shape := SStruct [SScalar];
  ListMeta_shape := SStruct [SScalar];
  ObjectMeta_DeepCopyInto := fields [assign];
  ListMeta_DeepCopyInto := fields [assign]
|}.

Lemma sample_meta_laws : @MetaCopyLaws sample_meta.
Proof. split; deep_copy. Qed.

(** A hash policy whose channel is set, in cell 0, the flag in cell 1. *)
Definition sample_heap : heap :=
  {[ 0 := [Struct [Scalar "x-user"; Ptr (Some 1); Scalar "true"]]; 1 := [Scalar "true"] ]}.

Definition sample_tree : tree :=
  TPtr (TStruct [TScalar "x-user"; TPtr (TScalar "true"); TScalar "true"]).

Lemma deepcopy_shares_nothing_witness :
  exists v' h' B, HashPolicy_DeepCopy (Ptr (Some 0)) sample_heap = (v', h') /\
    reads h' (SPtr HashPolicy_shape) v' sample_tree B /\ B ## {[0; 1]}.
Proof.
  assert (reads sample_heap (SPtr HashPolicy_shape) (Ptr (Some 0)) sample_tree
            ({[0]} ∪ (∅ ∪ (({[1]} ∪ ∅) ∪ (∅ ∪ ∅))))) as Hr.
  { apply reads_ptr with (Struct [Scalar "x-user"; Ptr (Some 1); Scalar "true"]); [reflexivity|].
    constructor. constructor; [constructor|]. constructor.
    - apply reads_ptr with (Scalar "true"); [reflexivity|constructor].
    - constructor; constructor. }
  destruct (@deepcopy_shares_nothing sample_meta _ _ _ _ _ _ sample_meta_laws
    (list_elem_of_lookup_2 (@copied_types sample_meta) 16
       (HashPolicy_shape, HashPolicy_DeepCopyInto) eq_refl) Hr)
    as (v' & h' & B & Hc & _ & Hr' & Hd).
  exists v', h', B. split; [exact Hc|]. split; [exact Hr'|].
  intros x Hx Hx'. apply (Hd x Hx). set_solver.
Defined.
