(* ===== verification/Informers.v ===== *)
(** The factory of shared informers:
    [client/informers/externalversions/factory.go].

    A type of objects is named by a string, an informer by a number; creating an
    informer is the caller's [newFunc], which is given the resync period. The
    goroutines [informer.Run] that the factory started are part of the state,
    with the counter of the wait group. Every method runs under the lock of the
    factory but for the wait of [Shutdown]. *)

From S2P Require Import Prelude GoStrings.

Abbreviation objType := string.
Definition informer := nat.

Record sharedInformerFactory := {
  factory_namespace : string;
  factory_tweakListOptions : option nat;         (* which function, if any *)
  factory_defaultResync : Z;
  factory_customResync : gmap objType Z;
  factory_informers : gmap objType informer;
  factory_startedInformers : gmap objType bool;
  factory_wg : nat;
  factory_shuttingDown : bool;
  (** the goroutines that were started, and those that have not returned *)
  factory_started : list (objType * informer);
  factory_running : list (objType * informer)
}.

(** ** Construction *)

Definition SharedInformerOption := sharedInformerFactory -> sharedInformerFactory.

Definition WithCustomResyncConfig (resyncConfig : gmap objType Z) : SharedInformerOption := fun f =>
  {| factory_namespace := factory_namespace f;
     factory_tweakListOptions := factory_tweakListOptions f;
     factory_defaultResync := factory_defaultResync f;
     factory_customResync := resyncConfig ∪ factory_customResync f;
     factory_informers := factory_informers f;
     factory_startedInformers := factory_startedInformers f;
     factory_wg := factory_wg f; factory_shuttingDown := factory_shuttingDown f;
     factory_started := factory_started f; factory_running := factory_running f |}.

Definition WithTweakListOptions (tweak : nat) : SharedInformerOption := fun f =>
  {| factory_namespace := factory_namespace f;
     factory_tweakListOptions := Some tweak;
     factory_defaultResync := factory_defaultResync f;
     factory_customResync := factory_customResync f;
     factory_informers := factory_informers f;
     factory_startedInformers := factory_startedInformers f;
     factory_wg := factory_wg f; factory_shuttingDown := factory_shuttingDown f;
     factory_started := factory_started f; factory_running := factory_running f |}.

Definition WithNamespace (namespace : string) : SharedInformerOption := fun f =>
  {| factory_namespace := namespace;
     factory_tweakListOptions := factory_tweakListOptions f;
     factory_defaultResync := factory_defaultResync f;
     factory_customResync := factory_customResync f;
     factory_informers := factory_informers f;
     factory_startedInformers := factory_startedInformers f;
     factory_wg := factory_wg f; factory_shuttingDown := factory_shuttingDown f;
     factory_started := factory_started f; factory_running := factory_running f |}.

Definition NewSharedInformerFactoryWithOptions (defaultResync : Z)
    (options : list SharedInformerOption) : sharedInformerFactory :=
  foldl (fun factory opt => opt factory)
    {| factory_namespace := ""; factory_tweakListOptions := None;
       factory_defaultResync := defaultResync; factory_customResync := ∅;
       factory_informers := ∅; factory_startedInformers := ∅;
       factory_wg := 0; factory_shuttingDown := false;
       factory_started := []; factory_running := [] |} options.

Definition NewSharedInformerFactory (defaultResync : Z) : sharedInformerFactory :=
  NewSharedInformerFactoryWithOptions defaultResync [].

Definition NewFilteredSharedInformerFactory (defaultResync : Z) (namespace : string)
    (tweak : nat) : sharedInformerFactory :=
  NewSharedInformerFactoryWithOptions defaultResync
    [WithNamespace namespace; WithTweakListOptions tweak].

(** ** Methods *)

(** The body of the loop of [Start]. *)
Definition startOne (f : sharedInformerFactory) (entry : objType * informer)
  : sharedInformerFactory :=
  if default false (factory_startedInformers f !! entry.1) then f
  else {| factory_namespace := factory_namespace f;
          factory_tweakListOptions := factory_tweakListOptions f;
          factory_defaultResync := factory_defaultResync f;
          factory_customResync := factory_customResync f;
          factory_informers := factory_informers f;
          factory_startedInformers := <[entry.1 := true]> (factory_startedInformers f);
          factory_wg := S (factory_wg f); factory_shuttingDown := factory_shuttingDown f;
          factory_started := entry :: factory_started f;
          factory_running := entry :: factory_running f |}.

(** [func (f *sharedInformerFactory) Start] *)
Definition Start (f : sharedInformerFactory) : sharedInformerFactory :=
  if factory_shuttingDown f then f
  else foldl startOne f (map_to_list (factory_informers f)).

(** The locked part of [Shutdown]; it then waits for [factory_wg] to be 0. *)
Definition Shutdown (f : sharedInformerFactory) : sharedInformerFactory :=
  {| factory_namespace := factory_namespace f;
     factory_tweakListOptions := factory_tweakListOptions f;
     factory_defaultResync := factory_defaultResync f;
     factory_customResync := factory_customResync f;
     factory_informers := factory_informers f;
     factory_startedInformers := factory_startedInformers f;
     factory_wg := factory_wg f; factory_shuttingDown := true;
     factory_started := factory_started f; factory_running := factory_running f |}.

(** A goroutine returns: its stop channel was closed. *)
Definition goroutineReturns (k : nat) (f : sharedInformerFactory) : option sharedInformerFactory :=
  match factory_running f !! k with
  | None => None
  | Some _ =>
      Some {| factory_namespace := factory_namespace f;
              factory_tweakListOptions := factory_tweakListOptions f;
              factory_defaultResync := factory_defaultResync f;
              factory_customResync := factory_customResync f;
              factory_informers := factory_informers f;
              factory_startedInformers := factory_startedInformers f;
              factory_wg := pred (factory_wg f);
              factory_shuttingDown := factory_shuttingDown f;
              factory_started := factory_started f;
              factory_running := delete k (factory_running f) |}
  end.

(** [func (f *sharedInformerFactory) WaitForCacheSync]; [synced] is the result
    of [cache.WaitForCacheSync] for an informer. *)
Definition WaitForCacheSync (synced : informer -> bool) (f : sharedInformerFactory)
  : gmap objType bool :=
  synced <$> filter (fun p => default false (factory_startedInformers f !! p.1) = true)
               (factory_informers f).

(** [func (f *sharedInformerFactory) InformerFor]: the informer, and the resync
    period [newFunc] was called with when it is a new one. *)
Definition InformerFor (obj : objType) (newInformer : informer) (f : sharedInformerFactory)
  : informer * option Z * sharedInformerFactory :=
  match factory_informers f !! obj with
  | Some i => (i, None, f)
  | None =>
      let resyncPeriod := default (factory_defaultResync f) (factory_customResync f !! obj) in
      (newInformer, Some resyncPeriod,
       {| factory_namespace := factory_namespace f;
          factory_tweakListOptions := factory_tweakListOptions f;
          factory_defaultResync := factory_defaultResync f;
          factory_customResync := factory_customResync f;
          factory_informers := <[obj := newInformer]> (factory_informers f);
          factory_startedInformers := factory_startedInformers f;
          factory_wg := factory_wg f; factory_shuttingDown := factory_shuttingDown f;
          factory_started := factory_started f; factory_running := factory_running f |})
  end.

(** ** Use of a factory *)

Inductive call :=
  | CallInformerFor (obj : objType) (newInformer : informer)
  | CallStart
  | CallShutdown
  | Returns (k : nat).

Definition perform (c : call) (f : sharedInformerFactory) : option sharedInformerFactory :=
  match c with
  | CallInformerFor obj i => Some (InformerFor obj i f).2
  | CallStart => Some (Start f)
  | CallShutdown => Some (Shutdown f)
  | Returns k => goroutineReturns k f
  end.

Fixpoint performs (cs : list call) (f : sharedInformerFactory) : option sharedInformerFactory :=
  match cs with
  | [] => Some f
  | c :: cs' => perform c f ≫= performs cs'
  end.

(** ** Invariant *)

Record factory_inv (f : sharedInformerFactory) : Prop := {
  fi_started t :
    factory_startedInformers f !! t = Some true <-> exists i, (t, i) ∈ factory_started f;
  fi_known t i : (t, i) ∈ factory_started f -> factory_informers f !! t = Some i;
  fi_once : NoDup (factory_started f).*1;
  fi_running p : p ∈ factory_running f -> p ∈ factory_started f;
  fi_wg : factory_wg f = length (factory_running f)
}.

(** ** Lemmas *)

Section factory_lemmas.
Implicit Types (f : sharedInformerFactory) (t : objType) (i : informer).

Lemma startOne_inv f t i :
  factory_inv f -> factory_informers f !! t = Some i ->
  factory_inv (startOne f (t, i)) /\
  factory_informers (startOne f (t, i)) = factory_informers f /\
  factory_shuttingDown (startOne f (t, i)) = factory_shuttingDown f /\
  (exists j, (t, j) ∈ factory_started (startOne f (t, i))) /\
  (forall p, p ∈ factory_started f -> p ∈ factory_started (startOne f (t, i))).
Proof.
  intros [Hs Hk Ho Hr Hw] Hi. unfold startOne. cbn [fst].
  destruct (default false (factory_startedInformers f !! t)) eqn:Hd.
  - assert (factory_startedInformers f !! t = Some true) as Ht
      by (destruct (factory_startedInformers f !! t); simplify_eq/=; done).
    split; [by split|]. split; [done|]. split; [done|]. split; [by apply Hs|done].
  - assert (forall j, (t, j) ∉ factory_started f) as Hnot.
    { intros j Hj. assert (factory_startedInformers f !! t = Some true) as Ht by (apply Hs; eauto).
      by rewrite Ht in Hd. }
    split; [split; cbn|].
    + intros t'. setoid_rewrite elem_of_cons. rewrite lookup_insert. case_decide; subst.
      * split; [eauto|done].
      * rewrite Hs. naive_solver.
    + intros t' i'. rewrite elem_of_cons. naive_solver.
    + constructor; [|done]. intros ([t' j] & Heq & Hj)%list_elem_of_fmap. cbn in Heq. subst t'.
      by apply (Hnot j).
    + intros p. rewrite !elem_of_cons. naive_solver.
    + by rewrite Hw.
    + cbn. split; [done|]. split; [done|]. split; [exists i; left|]. intros p Hp. by right.
Qed.

Lemma start_loop_inv f (l : list (objType * informer)) :
  factory_inv f -> Forall (fun p => factory_informers f !! p.1 = Some p.2) l ->
  factory_inv (foldl startOne f l) /\
  factory_informers (foldl startOne f l) = factory_informers f /\
  (forall p, p ∈ factory_started f -> p ∈ factory_started (foldl startOne f l)) /\
  (forall p, p ∈ l -> exists j, (p.1, j) ∈ factory_started (foldl startOne f l)).
Proof.
  revert f. induction l as [|[t i] l IH]; intros f Hf Hl; cbn [foldl].
  { split_and!; [done|done|done|]. by intros p ?%elem_of_nil. }
  apply Forall_cons in Hl as [Hi Hl]. cbn in Hi.
  destruct (startOne_inv f t i Hf Hi) as (Hf' & Hinf & _ & [j Hj] & Hkeep).
  destruct (IH (startOne f (t, i)) Hf') as (Hf'' & Hinf' & Hkeep' & Hall).
  { by rewrite Hinf. }
  split_and!; [done|congruence|by eauto|].
  intros p [->|Hp]%elem_of_cons; [exists j; cbn; by apply Hkeep'|by apply Hall].
Qed.

Lemma Start_inv f :
  factory_inv f ->
  factory_inv (Start f) /\
  factory_informers (Start f) = factory_informers f /\
  (factory_shuttingDown f = false -> forall t i,
     factory_informers f !! t = Some i -> (t, i) ∈ factory_started (Start f)).
Proof.
  intros Hf. unfold Start. destruct (factory_shuttingDown f); [by split_and!|].
  destruct (start_loop_inv f (map_to_list (factory_informers f)) Hf) as (Hf' & Hinf & _ & Hall).
  { apply Forall_forall. intros [t i] Hin. by apply elem_of_map_to_list in Hin. }
  split_and!; [done|done|]. intros _ t i Hi.
  destruct (Hall (t, i)) as [j Hj]; [by apply elem_of_map_to_list|].
  pose proof (fi_known _ Hf' t j Hj) as Hj'. rewrite Hinf in Hj'. cbn in Hj. by simplify_eq.
Qed.

Lemma perform_inv c f f' : factory_inv f -> perform c f = Some f' -> factory_inv f'.
Proof.
  intros Hf. destruct c as [t i| | |k]; cbn; [intros [= <-]..|].
  - unfold InformerFor. destruct (factory_informers f !! t) eqn:Ht; [done|].
    destruct Hf as [Hs Hk Ho Hr Hw]. split; cbn; try done. intros t' i' Hin.
    rewrite lookup_insert_ne; [by apply Hk|]. intros <-. apply Hk in Hin. congruence.
  - by apply Start_inv.
  - by destruct Hf.
  - unfold goroutineReturns. destruct (factory_running f !! k) as [p|] eqn:Hk; [|done].
    intros [= <-]. destruct Hf as [Hs Hkn Ho Hr Hw]. split; cbn; try done.
    + intros q Hq. apply Hr. eapply elem_of_submseteq; [done|].
      apply sublist_submseteq, sublist_delete.
    + rewrite Hw, length_delete by eauto. lia.
Qed.

Lemma new_factory_inv resync opts :
  Forall (fun opt => exists m n tw, opt = WithCustomResyncConfig m \/ opt = WithNamespace n \/
            opt = WithTweakListOptions tw) opts ->
  factory_inv (NewSharedInformerFactoryWithOptions resync opts).
Proof.
  unfold NewSharedInformerFactoryWithOptions.
  match goal with |- _ -> factory_inv (foldl _ ?f0 _) => assert (factory_inv f0) as H0 end.
  { split; cbn; [|set_solver|constructor|set_solver|done]. intros t.
    rewrite lookup_empty. set_solver. }
  revert H0. generalize (Build_sharedInformerFactory "" None resync ∅ ∅ ∅ 0 false [] []).
  intros f Hf Hopts. revert f Hf.
  induction Hopts as [|opt opts (m & n & tw & Hopt) _ IH]; intros f Hf; cbn; [done|].
  apply IH. destruct Hf. by destruct Hopt as [->|[-> | ->]].
Qed.

Lemma performs_inv cs f f' : factory_inv f -> performs cs f = Some f' -> factory_inv f'.
Proof.
  revert f. induction cs as [|c cs IH]; intros f Hf; cbn; [by intros [= <-]|].
  intros (f1 & Hc & Hcs)%bind_Some. by eapply IH; [eapply perform_inv|].
Qed.
End factory_lemmas.

(** ** Properties *)

(** C24: informers are started once. Whatever sequence of [InformerFor],
    [Start], [Shutdown] and returning goroutines a factory goes through, no type
    of objects has had two goroutines, each goroutine runs the informer the
    factory has for its type, and the counter [Shutdown] waits on is the number
    of goroutines that have not returned; a [Start] before [Shutdown] leaves
    every known informer started, a [Start] after it starts nothing. *)
Theorem informers_started_once resync cs f :
  performs cs (NewSharedInformerFactory resync) = Some f ->
  NoDup (factory_started f).*1 /\
  (forall t i, (t, i) ∈ factory_started f -> factory_informers f !! t = Some i) /\
  factory_wg f = length (factory_running f) /\
  (factory_shuttingDown f = false -> forall t i, factory_informers f !! t = Some i ->
     (t, i) ∈ factory_started (Start f)) /\
  (factory_shuttingDown f = true -> Start f = f).
Proof.
  intros Hcs. assert (factory_inv f) as Hf.
  { eapply performs_inv; [|exact Hcs]. by apply new_factory_inv. }
  split_and!; [apply Hf|apply Hf|apply Hf|by apply Start_inv|].
  intros Hsd. unfold Start. by rewrite Hsd.
Qed.

(** ** Witnesses *)

Lemma informers_started_once_witness :
  exists f, performs [CallInformerFor "GRPCListener" 7; CallStart; CallStart;
                      CallInformerFor "GRPCListener" 8; CallStart; Returns 0; CallShutdown]
              (NewSharedInformerFactory 0) = Some f /\
    factory_started f = [("GRPCListener", 7)] /\ factory_wg f = 0 /\ Start f = f.
Proof.
  eexists. split; [reflexivity|]. split; [reflexivity|]. split; [reflexivity|].
  apply (informers_started_once 0
    [CallInformerFor "GRPCListener" 7; CallStart; CallStart; CallInformerFor "GRPCListener" 8;
     CallStart; Returns 0; CallShutdown]); reflexivity.
Defined.
