(* ===== verification/Builder.v ===== *)
(** The builders of API objects the tests use:
    [pkg/testruntime/builder.go].

    An option is a function that mutates the object under construction; here it
    maps the object to the mutated one. *)

From S2P Require Import Prelude GoStrings GoPath GoStrconv Api Errors Xds ResourceName Interceptors Routes Resolver K8s Listers ListenerHandler ClusterHandler.

(** ** Backends *)

Definition BackendOption := Backend -> Backend.

Definition WithMaxRequests (req : Z) : BackendOption := fun c =>
  {| Backend_Weight := Backend_Weight c; Backend_MaxRequests := Some req;
     Backend_LBPolicy := Backend_LBPolicy c;
     Backend_RingHashConfig := Backend_RingHashConfig c;
     Backend_Interceptors := Backend_Interceptors c; Backend_Service := Backend_Service c;
     Backend_Localities := Backend_Localities c |}.

Definition WithServiceRef (s : ServiceRef) : BackendOption := fun c =>
  {| Backend_Weight := Backend_Weight c; Backend_MaxRequests := Backend_MaxRequests c;
     Backend_LBPolicy := Backend_LBPolicy c;
     Backend_RingHashConfig := Backend_RingHashConfig c;
     Backend_Interceptors := Backend_Interceptors c; Backend_Service := Some s;
     Backend_Localities := Backend_Localities c |}.

Definition WithLocalities (l : list Locality) : BackendOption := fun c =>
  {| Backend_Weight := Backend_Weight c; Backend_MaxRequests := Backend_MaxRequests c;
     Backend_LBPolicy := Backend_LBPolicy c;
     Backend_RingHashConfig := Backend_RingHashConfig c;
     Backend_Interceptors := Backend_Interceptors c; Backend_Service := Backend_Service c;
     Backend_Localities := l |}.

Definition WithBackendInterceptorOverrides (overrides : list Interceptor) : BackendOption := fun c =>
  {| Backend_Weight := Backend_Weight c; Backend_MaxRequests := Backend_MaxRequests c;
     Backend_LBPolicy := Backend_LBPolicy c;
     Backend_RingHashConfig := Backend_RingHashConfig c; Backend_Interceptors := overrides;
     Backend_Service := Backend_Service c; Backend_Localities := Backend_Localities c |}.

Definition WithBackendRingHashConfig (config : RingHashConfig) : BackendOption := fun c =>
  {| Backend_Weight := Backend_Weight c; Backend_MaxRequests := Backend_MaxRequests c;
     Backend_LBPolicy := Backend_LBPolicy c; Backend_RingHashConfig := Some config;
     Backend_Interceptors := Backend_Interceptors c; Backend_Service := Backend_Service c;
     Backend_Localities := Backend_Localities c |}.

Definition WithBackendLBPolicy (p : string) : BackendOption := fun c =>
  {| Backend_Weight := Backend_Weight c; Backend_MaxRequests := Backend_MaxRequests c;
     Backend_LBPolicy := p; Backend_RingHashConfig := Backend_RingHashConfig c;
     Backend_Interceptors := Backend_Interceptors c; Backend_Service := Backend_Service c;
     Backend_Localities := Backend_Localities c |}.

Definition BuildBackend (opts : list BackendOption) : Backend :=
  foldl (fun c opt => opt c)
    {| Backend_Weight := 1; Backend_MaxRequests := None; Backend_LBPolicy := "";
       Backend_RingHashConfig := None; Backend_Interceptors := []; Backend_Service := None;
       Backend_Localities := [] |} opts.

(** ** Localities *)

Definition LocalityOption := Locality -> Locality.

Definition WithLocalityWeight (weight : Z) : LocalityOption := fun l =>
  {| Locality_Weight := weight; Locality_Priority := Locality_Priority l;
     Locality_Service := Locality_Service l |}.

Definition WithLocalityPriority (priority : Z) : LocalityOption := fun l =>
  {| Locality_Weight := Locality_Weight l; Locality_Priority := priority;
     Locality_Service := Locality_Service l |}.

Definition WithLocalityServiceRef (s : ServiceRef) : LocalityOption := fun l =>
  {| Locality_Weight := Locality_Weight l; Locality_Priority := Locality_Priority l;
     Locality_Service := Some s |}.

Definition BuildLocality (opts : list LocalityOption) : Locality :=
  foldl (fun l opt => opt l)
    {| Locality_Weight := 1; Locality_Priority := 0; Locality_Service := None |} opts.

(** ** Matchers *)

Definition MetadataInvertMatch (m : MetadataMatcher) : MetadataMatcher :=
  {| MetadataMatcher_Name := MetadataMatcher_Name m;
     MetadataMatcher_Exact := MetadataMatcher_Exact m;
     MetadataMatcher_Regex := MetadataMatcher_Regex m;
     MetadataMatcher_Range := MetadataMatcher_Range m;
     MetadataMatcher_Present := MetadataMatcher_Present m;
     MetadataMatcher_Prefix := MetadataMatcher_Prefix m;
     MetadataMatcher_Suffix := MetadataMatcher_Suffix m; MetadataMatcher_Invert := true |}.

Definition MetadataExactMatch (name value : string) : MetadataMatcher :=
  {| MetadataMatcher_Name := name; MetadataMatcher_Exact := Some value;
     MetadataMatcher_Regex := None; MetadataMatcher_Range := None;
     MetadataMatcher_Present := None; MetadataMatcher_Prefix := None;
     MetadataMatcher_Suffix := None; MetadataMatcher_Invert := false |}.

Definition MetadataPresentMatch (name : string) (present : bool) : MetadataMatcher :=
  {| MetadataMatcher_Name := name; MetadataMatcher_Exact := None;
     MetadataMatcher_Regex := None; MetadataMatcher_Range := None;
     MetadataMatcher_Present := Some present; MetadataMatcher_Prefix := None;
     MetadataMatcher_Suffix := None; MetadataMatcher_Invert := false |}.

Definition MetadataPrefixMatch (name prefix : string) : MetadataMatcher :=
  {| MetadataMatcher_Name := name; MetadataMatcher_Exact := None;
     MetadataMatcher_Regex := None; MetadataMatcher_Range := None;
     MetadataMatcher_Present := None; MetadataMatcher_Prefix := Some prefix;
     MetadataMatcher_Suffix := None; MetadataMatcher_Invert := false |}.

Definition MetadataSuffixMatch (name suffix : string) : MetadataMatcher :=
  {| MetadataMatcher_Name := name; MetadataMatcher_Exact := None;
     MetadataMatcher_Regex := None; MetadataMatcher_Range := None;
     MetadataMatcher_Present := None; MetadataMatcher_Prefix := None;
     MetadataMatcher_Suffix := Some suffix; MetadataMatcher_Invert := false |}.

Definition RouteMatcherOption := RouteMatcher -> RouteMatcher.

Definition WithMethodMatcher (namespace service method : string) : RouteMatcherOption := fun m =>
  {| RouteMatcher_Method := Some {| MethodMatcher_Namespace := namespace;
       MethodMatcher_Service := service; MethodMatcher_Method := method |};
     RouteMatcher_Service := RouteMatcher_Service m;
     RouteMatcher_Namespace := RouteMatcher_Namespace m;
     RouteMatcher_Metadata := RouteMatcher_Metadata m;
     RouteMatcher_Fraction := RouteMatcher_Fraction m |}.

Definition WithFractionMatcher (fr : Fraction) : RouteMatcherOption := fun r =>
  {| RouteMatcher_Method := RouteMatcher_Method r;
     RouteMatcher_Service := RouteMatcher_Service r;
     RouteMatcher_Namespace := RouteMatcher_Namespace r;
     RouteMatcher_Metadata := RouteMatcher_Metadata r; RouteMatcher_Fraction := Some fr |}.

Definition WithServiceMatcher (namespace service : string) : RouteMatcherOption := fun m =>
  {| RouteMatcher_Method := RouteMatcher_Method m;
     RouteMatcher_Service := Some {| ServiceMatcher_Namespace := namespace;
       ServiceMatcher_Service := service |};
     RouteMatcher_Namespace := RouteMatcher_Namespace m;
     RouteMatcher_Metadata := RouteMatcher_Metadata m;
     RouteMatcher_Fraction := RouteMatcher_Fraction m |}.

Definition WithNamespaceMatcher (namespace : string) : RouteMatcherOption := fun m =>
  {| RouteMatcher_Method := RouteMatcher_Method m;
     RouteMatcher_Service := RouteMatcher_Service m; RouteMatcher_Namespace := Some namespace;
     RouteMatcher_Metadata := RouteMatcher_Metadata m;
     RouteMatcher_Fraction := RouteMatcher_Fraction m |}.

Definition WithMetadataMatchers (mms : list MetadataMatcher) : RouteMatcherOption := fun m =>
  {| RouteMatcher_Method := RouteMatcher_Method m;
     RouteMatcher_Service := RouteMatcher_Service m;
     RouteMatcher_Namespace := RouteMatcher_Namespace m; RouteMatcher_Metadata := mms;
     RouteMatcher_Fraction := RouteMatcher_Fraction m |}.

Definition BuildRouteMatcher (opts : list RouteMatcherOption) : RouteMatcher :=
  foldl (fun m opt => opt m)
    {| RouteMatcher_Method := None; RouteMatcher_Service := None; RouteMatcher_Namespace := None;
       RouteMatcher_Metadata := []; RouteMatcher_Fraction := None |} opts.

(** ** Routes *)

Definition RouteOption := Route -> Route.

Definition WithRouteMatcher (m : RouteMatcher) : RouteOption := fun r =>
  {| Route_Matcher := Some m; Route_Interceptors := Route_Interceptors r;
     Route_HashPolicy := Route_HashPolicy r;
     Route_MaxStreamDuration := Route_MaxStreamDuration r;
     Route_GrpcTimeoutHeaderMax := Route_GrpcTimeoutHeaderMax r; Route_Retry := Route_Retry r;
     Route_Backends := Route_Backends r |}.

Definition WithRouteMaxStreamDuration (d : Duration) : RouteOption := fun r =>
  {| Route_Matcher := Route_Matcher r; Route_Interceptors := Route_Interceptors r;
     Route_HashPolicy := Route_HashPolicy r; Route_MaxStreamDuration := Some d;
     Route_GrpcTimeoutHeaderMax := Route_GrpcTimeoutHeaderMax r; Route_Retry := Route_Retry r;
     Route_Backends := Route_Backends r |}.

Definition WithBackends (backends : list Backend) : RouteOption := fun r =>
  {| Route_Matcher := Route_Matcher r; Route_Interceptors := Route_Interceptors r;
     Route_HashPolicy := Route_HashPolicy r;
     Route_MaxStreamDuration := Route_MaxStreamDuration r;
     Route_GrpcTimeoutHeaderMax := Route_GrpcTimeoutHeaderMax r; Route_Retry := Route_Retry r;
     Route_Backends := backends |}.

Definition WithRouteInterceptorOverrides (overrides : list Interceptor) : RouteOption := fun r =>
  {| Route_Matcher := Route_Matcher r; Route_Interceptors := overrides;
     Route_HashPolicy := Route_HashPolicy r;
     Route_MaxStreamDuration := Route_MaxStreamDuration r;
     Route_GrpcTimeoutHeaderMax := Route_GrpcTimeoutHeaderMax r; Route_Retry := Route_Retry r;
     Route_Backends := Route_Backends r |}.

Definition WithRouteRetry (retry : RetryPolicy) : RouteOption := fun r =>
  {| Route_Matcher := Route_Matcher r; Route_Interceptors := Route_Interceptors r;
     Route_HashPolicy := Route_HashPolicy r;
     Route_MaxStreamDuration := Route_MaxStreamDuration r;
     Route_GrpcTimeoutHeaderMax := Route_GrpcTimeoutHeaderMax r; Route_Retry := Some retry;
     Route_Backends := Route_Backends r |}.

Definition WithRouteHashPolicy (ps : list HashPolicy) : RouteOption := fun r =>
  {| Route_Matcher := Route_Matcher r; Route_Interceptors := Route_Interceptors r;
     Route_HashPolicy := ps; Route_MaxStreamDuration := Route_MaxStreamDuration r;
     Route_GrpcTimeoutHeaderMax := Route_GrpcTimeoutHeaderMax r; Route_Retry := Route_Retry r;
     Route_Backends := Route_Backends r |}.

Definition BuildRoute (opts : list RouteOption) : Route :=
  foldl (fun r opt => opt r)
    {| Route_Matcher := None; Route_Interceptors := []; Route_HashPolicy := [];
       Route_MaxStreamDuration := None; Route_GrpcTimeoutHeaderMax := None; Route_Retry := None;
       Route_Backends := [] |} opts.

(** ** Listeners *)

Definition ListenerOption := GRPCListener -> GRPCListener.

Definition WithInterceptors (fs : list Interceptor) : ListenerOption := fun s =>
  {| GRPCListener_ObjectMeta := GRPCListener_ObjectMeta s;
     GRPCListener_Spec :=
       {| GRPCListenerSpec_MaxStreamDuration := GRPCListenerSpec_MaxStreamDuration (GRPCListener_Spec s);
          GRPCListenerSpec_Interceptors := fs;
          GRPCListenerSpec_Retry := GRPCListenerSpec_Retry (GRPCListener_Spec s);
          GRPCListenerSpec_Routes := GRPCListenerSpec_Routes (GRPCListener_Spec s) |} |}.

Definition WithRoutes (rs : list Route) : ListenerOption := fun s =>
  {| GRPCListener_ObjectMeta := GRPCListener_ObjectMeta s;
     GRPCListener_Spec :=
       {| GRPCListenerSpec_MaxStreamDuration := GRPCListenerSpec_MaxStreamDuration (GRPCListener_Spec s);
          GRPCListenerSpec_Interceptors := GRPCListenerSpec_Interceptors (GRPCListener_Spec s);
          GRPCListenerSpec_Retry := GRPCListenerSpec_Retry (GRPCListener_Spec s);
          GRPCListenerSpec_Routes := rs |} |}.

Definition WithMaxStreamDuration (d : Duration) : ListenerOption := fun s =>
  {| GRPCListener_ObjectMeta := GRPCListener_ObjectMeta s;
     GRPCListener_Spec :=
       {| GRPCListenerSpec_MaxStreamDuration := Some d;
          GRPCListenerSpec_Interceptors := GRPCListenerSpec_Interceptors (GRPCListener_Spec s);
          GRPCListenerSpec_Retry := GRPCListenerSpec_Retry (GRPCListener_Spec s);
          GRPCListenerSpec_Routes := GRPCListenerSpec_Routes (GRPCListener_Spec s) |} |}.

Definition WithListenerRetry (r : RetryPolicy) : ListenerOption := fun s =>
  {| GRPCListener_ObjectMeta := GRPCListener_ObjectMeta s;
     GRPCListener_Spec :=
       {| GRPCListenerSpec_MaxStreamDuration := GRPCListenerSpec_MaxStreamDuration (GRPCListener_Spec s);
          GRPCListenerSpec_Interceptors := GRPCListenerSpec_Interceptors (GRPCListener_Spec s);
          GRPCListenerSpec_Retry := Some r;
          GRPCListenerSpec_Routes := GRPCListenerSpec_Routes (GRPCListener_Spec s) |} |}.

Definition BuildGRPCListener (name namespace : string) (opts : list ListenerOption)
  : GRPCListener :=
  foldl (fun s opt => opt s)
    {| GRPCListener_ObjectMeta :=
         {| ObjectMeta_Name := name; ObjectMeta_Namespace := namespace;
            ObjectMeta_ResourceVersion := ""; ObjectMeta_Labels := ∅ |};
       GRPCListener_Spec :=
         {| GRPCListenerSpec_MaxStreamDuration := None; GRPCListenerSpec_Interceptors := [];
            GRPCListenerSpec_Retry := None; GRPCListenerSpec_Routes := [] |} |} opts.

(** ** What the tests build can be served *)

(** A metadata matcher made by one of the functions above. *)
Inductive built_metadata : MetadataMatcher -> Prop :=
  | built_exact name value : built_metadata (MetadataExactMatch name value)
  | built_present name b : built_metadata (MetadataPresentMatch name b)
  | built_prefix name p : built_metadata (MetadataPrefixMatch name p)
  | built_suffix name p : built_metadata (MetadataSuffixMatch name p)
  | built_invert m : built_metadata m -> built_metadata (MetadataInvertMatch m).

Lemma built_metadata_ok m : built_metadata m -> metadata_ok m.
Proof.
  unfold metadata_ok. induction 1 as [| | | |m _ IH]; cbn; [left; by eexists|..|exact IH];
    right; (split; [done|]).
  - right. left. by eexists.
  - do 2 right. left. by eexists.
  - do 3 right. by eexists.
Qed.

(** A route to services, by metadata, as the tests write it. *)
Definition test_route (mms : list MetadataMatcher) (svcs : list ServiceRef) : Route :=
  BuildRoute
    [WithRouteMatcher (BuildRouteMatcher [WithMetadataMatchers mms]);
     WithBackends ((fun s => BuildBackend [WithServiceRef s]) <$> svcs)].

Section builder.
Context `{XdsLibrary, UnicodeTables}.

(** A listener that the test builders make of routes by metadata to
    services can be translated: it has a route configuration, and the id of
    every route and backend finds the backend with that service, of weight 1. *)
Theorem built_listener_served name ns rname (routes : list (list MetadataMatcher * list ServiceRef)) :
  marshalling_succeeds -> Forall (fun r => Forall built_metadata r.1) routes ->
  let l := BuildGRPCListener name ns [WithRoutes ((fun r => test_route r.1 r.2) <$> routes)] in
  is_ok (makeRouteConfig rname l) = true /\
  forall i r j svc, routes !! i = Some r -> r.2 !! j = Some svc ->
    exists b, findBackendSpec
        {| parsedBackendName_Namespace := ns; parsedBackendName_ListenerName := name;
           parsedBackendName_RouteID := Z.of_nat i; parsedBackendName_BackendID := Z.of_nat j |} l
      = Ok b /\ Backend_Service b = Some svc /\ Backend_Weight b = 1%Z.
Proof.
  intros Hany Hroutes l. split.
  - apply makeRouteConfig_is_ok; [done|]. unfold l. cbn. apply Forall_fmap.
    eapply Forall_impl; [exact Hroutes|]. intros [mms svcs] Hmms. cbn in *. split; [|split; [done|split; [|done]]].
    + split; [done|]. eapply Forall_impl; [exact Hmms|]. apply built_metadata_ok.
    + cbn. apply Forall_fmap, Forall_true. intros s. unfold compose, backend_filters_ok. constructor.
  - intros i r j svc Hi Hj. exists (BuildBackend [WithServiceRef svc]). split; [|done].
    apply (findBackendSpec_nat l i j (test_route r.1 r.2)); [done|done|..].
    + unfold l. cbn. by rewrite list_lookup_fmap, Hi.
    + cbn. by rewrite list_lookup_fmap, Hj.
Qed.
End builder.

(** ** Witnesses *)

Lemma built_listener_served_witness :
  is_ok (@makeRouteConfig sample_xds ascii_tables "default/test"
    (BuildGRPCListener "test" "default"
      [WithRoutes [test_route [MetadataInvertMatch (MetadataExactMatch "env" "dev")]
                     [sample_service]]])) = true.
Proof.
  apply (@built_listener_served sample_xds ascii_tables "test" "default" "default/test"
    [([MetadataInvertMatch (MetadataExactMatch "env" "dev")], [sample_service])]
    sample_marshalling).
  repeat constructor.
Defined.
