(* ===== verification/Json.v ===== *)
(** JSON values, and how [encoding/json] encodes a struct from its tags.

    A struct is encoded as an object with one member per field, in the order of
    the declaration. A field with the option [omitempty] has no member when it is
    a nil pointer or an empty slice; a field that is itself a struct always has
    one. *)

From S2P Require Import Prelude GoStrings GoPath GoQuote.

Inductive json :=
  | JNull
  | JBool (b : bool)
  | JNumber (n : Z)
  | JString (s : string)
  | JArray (l : list json)
  | JObject (members : list (string * json)).

Abbreviation members := (list (string * json)).

(** A string is written as UTF-8: each byte that does not belong to the encoding
    of a rune is replaced by U+FFFD. *)
Definition json_text (s : string) : string := of_runes (runes s).

Definition JText (s : string) : json := JString (json_text s).

(** ** Fields *)

(** A pointer with [omitempty], and a slice with it. *)
Definition omitempty (key : string) (value : option json) : members :=
  match value with None => [] | Some j => [(key, j)] end.

Definition omitempty_list (key : string) (values : list json) : members :=
  match values with [] => [] | _ => [(key, JArray values)] end.

(** A field without the option always has a member. *)
Definition field (key : string) (value : json) : members := [(key, value)].

(** ** Lemmas *)

Lemma runes_ascii bs :
  Forall (fun b => 0 <= b < 0x80)%Z bs -> runes_fuel (length bs) bs = bs /\ (bs ≫= encode_rune) = bs.
Proof.
  induction 1 as [|b bs Hb _ [IH1 IH2]]; [done|]. cbn [length runes_fuel]. split.
  - unfold decode_rune, RuneSelf. rewrite (proj2 (Z.ltb_lt b 0x80)) by lia. by rewrite IH1.
  - rewrite bind_cons, IH2. unfold encode_rune, in_rng.
    rewrite (proj2 (Z.ltb_ge b 0)), (proj2 (Z.ltb_ge 0x10FFFF b)), (proj2 (Z.leb_gt 0xD800 b)),
      (proj2 (Z.leb_le b 0x7F)) by lia. done.
Qed.

(** ASCII is written as it is. *)
Lemma json_text_ascii s : Forall (fun b => 0 <= b < 0x80)%Z (bytes_of s) -> json_text s = s.
Proof.
  intros [H1 H2]%runes_ascii. unfold json_text, of_runes, runes.
  by rewrite H1, H2, of_bytes_bytes_of.
Qed.

Example json_text_invalid : bytes_of (json_text (of_bytes [97; 0xFF; 0xC3; 0xA9]%Z))
  = [97; 0xEF; 0xBF; 0xBD; 0xC3; 0xA9]%Z.
Proof. reflexivity. Qed.
