(* ===== verification/SchemaParser.v ===== *)
(** The schema that the apply configurations are checked with:
    [client/applyconfiguration/internal/internal.go].

    The parser of [structured-merge-diff] is the parameter [NewParser]; it is
    called once, behind a [sync.Once]. *)

From S2P Require Import Prelude GoStrings GoPath Api Errors.

Definition newline : string := String (Ascii.ascii_of_nat 10) "".
Definition lines (ls : list string) : string := foldr (fun l s => l +:+ newline +:+ s) "" ls.

(** [var schemaYAML] *)
Definition schemaYAML : string := lines
  ["types:";
   "- name: __untyped_atomic_";
   "  scalar: untyped";
   "  list:";
   "    elementType:";
   "      namedType: __untyped_atomic_";
   "    elementRelationship: atomic";
   "  map:";
   "    elementType:";
   "      namedType: __untyped_atomic_";
   "    elementRelationship: atomic";
   "- name: __untyped_deduced_";
   "  scalar: untyped";
   "  list:";
   "    elementType:";
   "      namedType: __untyped_atomic_";
   "    elementRelationship: atomic";
   "  map:";
   "    elementType:";
   "      namedType: __untyped_deduced_";
   "    elementRelationship: separable"].

Section parser.
Context {P : Type} (NewParser : string -> option P * option error).

(** [parserOnce], [parser], and how often the parser was made. *)
Record parser_state := {
  parser_once : bool;
  parser_parser : option P;
  parser_made : nat
}.

Definition parser_start : parser_state :=
  {| parser_once := false; parser_parser := None; parser_made := 0 |}.

(** [func Parser]. [Once.Do] counts as done even when the function panics; the
    assignment to [parser] has happened by then. *)
Definition Parser (st : parser_state) : parser_state * M (option P) :=
  if parser_once st then (st, Ok (parser_parser st))
  else
    let '(p, err) := NewParser schemaYAML in
    let st' := {| parser_once := true; parser_parser := p; parser_made := S (parser_made st) |} in
    match err with
    | Some _ => (st', Panic (PanicValue "Failed to parse schema"))
    | None => (st', Ok p)
    end.

(** A program that calls [Parser] again and again, and recovers from panics. *)
Fixpoint Parsers (n : nat) (st : parser_state) : parser_state * list (M (option P)) :=
  match n with
  | 0 => (st, [])
  | S k =>
      let '(st1, r) := Parser st in
      let '(st2, rs) := Parsers k st1 in (st2, r :: rs)
  end.

Lemma Parsers_done n st :
  parser_once st = true -> Parsers n st = (st, replicate n (Ok (parser_parser st))).
Proof.
  intros Hst. induction n as [|n IH]; cbn; [done|]. unfold Parser. rewrite Hst, IH. done.
Qed.

(** The schema is parsed once, however often it is asked for. When it parses,
    every call returns that parser; when it does not, the first call panics and
    all later ones return what [NewParser] returned beside its error, which is a
    nil parser, without a panic. *)
Theorem schema_parsed_once n :
  let '(p, err) := NewParser schemaYAML in
  let '(st, rs) := Parsers (S n) parser_start in
  parser_made st = 1 /\
  rs = match err with
       | None => Ok p
       | Some _ => Panic (PanicValue "Failed to parse schema")
       end :: replicate n (Ok p).
Proof.
  destruct (NewParser schemaYAML) as [p err] eqn:Hp. cbn [Parsers]. unfold Parser.
  cbn [parser_once parser_start]. rewrite Hp.
  destruct err; rewrite Parsers_done by done; done.
Qed.
End parser.
