(* ===== verification/ApplyConfig.v ===== *)
(** The apply configurations of [client/applyconfiguration/gtc/v1alpha1]: the
    declarative form of the API types that server-side apply sends.

    A field of a configuration is a pointer; a builder [With...] sets it and
    returns the same configuration, so it is a function from the configuration to
    the configuration. A configuration that was passed to another builder is not
    changed afterwards. A builder of a slice copies its arguments and panics on a
    nil one. [GRPCListenerApplyConfiguration] embeds a pointer to the
    configuration of the metadata, whose type is client-go's; only the fields
    that its builders set are here. *)

From S2P Require Import Prelude GoStrings GoPath Api Errors.

(** The loop of the builders of slices. *)
Definition append_values {A} (method : string) (field : list A) (values : list (option A))
  : M (list A) :=
  foldM (fun acc value =>
      match value with
      | None => Panic (PanicValue ("nil value passed to " +:+ method))
      | Some a => Ok (acc ++ [a])
      end) values field.

Record RingHashConfigApplyConfiguration := {
  RingHashConfigApplyConfiguration_MinRingSize : option Z;
  RingHashConfigApplyConfiguration_MaxRingSize : option Z
}.

(** [func RingHashConfig()] *)
Definition RingHashConfigApplyConfiguration_New : RingHashConfigApplyConfiguration :=
  {| RingHashConfigApplyConfiguration_MinRingSize := None;
     RingHashConfigApplyConfiguration_MaxRingSize := None |}.

Definition RingHashConfigApplyConfiguration_WithMinRingSize (value : Z)
    (b : RingHashConfigApplyConfiguration) : RingHashConfigApplyConfiguration :=
  {| RingHashConfigApplyConfiguration_MinRingSize := Some value;
     RingHashConfigApplyConfiguration_MaxRingSize := RingHashConfigApplyConfiguration_MaxRingSize b |}.

Definition RingHashConfigApplyConfiguration_WithMaxRingSize (value : Z)
    (b : RingHashConfigApplyConfiguration) : RingHashConfigApplyConfiguration :=
  {| RingHashConfigApplyConfiguration_MinRingSize := RingHashConfigApplyConfiguration_MinRingSize b;
     RingHashConfigApplyConfiguration_MaxRingSize := Some value |}.

Record FractionApplyConfiguration := {
  FractionApplyConfiguration_Numerator : option Z;
  FractionApplyConfiguration_Denominator : option string
}.

(** [func Fraction()] *)
Definition FractionApplyConfiguration_New : FractionApplyConfiguration :=
  {| FractionApplyConfiguration_Numerator := None;
     FractionApplyConfiguration_Denominator := None |}.

Definition FractionApplyConfiguration_WithNumerator (value : Z)
    (b : FractionApplyConfiguration) : FractionApplyConfiguration :=
  {| FractionApplyConfiguration_Numerator := Some value;
     FractionApplyConfiguration_Denominator := FractionApplyConfiguration_Denominator b |}.

Definition FractionApplyConfiguration_WithDenominator (value : string)
    (b : FractionApplyConfiguration) : FractionApplyConfiguration :=
  {| FractionApplyConfiguration_Numerator := FractionApplyConfiguration_Numerator b;
     FractionApplyConfiguration_Denominator := Some value |}.

Record FaultDelayApplyConfiguration := {
  FaultDelayApplyConfiguration_Fixed : option Duration;
  FaultDelayApplyConfiguration_Metadata : option MetadataFault;
  FaultDelayApplyConfiguration_Percentage : option FractionApplyConfiguration
}.

(** [func FaultDelay()] *)
Definition FaultDelayApplyConfiguration_New : FaultDelayApplyConfiguration :=
  {| FaultDelayApplyConfiguration_Fixed := None;
     FaultDelayApplyConfiguration_Metadata := None;
     FaultDelayApplyConfiguration_Percentage := None |}.

Definition FaultDelayApplyConfiguration_WithFixed (value : Duration)
    (b : FaultDelayApplyConfiguration) : FaultDelayApplyConfiguration :=
  {| FaultDelayApplyConfiguration_Fixed := Some value;
     FaultDelayApplyConfiguration_Metadata := FaultDelayApplyConfiguration_Metadata b;
     FaultDelayApplyConfiguration_Percentage := FaultDelayApplyConfiguration_Percentage b |}.

Definition FaultDelayApplyConfiguration_WithMetadata (value : MetadataFault)
    (b : FaultDelayApplyConfiguration) : FaultDelayApplyConfiguration :=
  {| FaultDelayApplyConfiguration_Fixed := FaultDelayApplyConfiguration_Fixed b;
     FaultDelayApplyConfiguration_Metadata := Some value;
     FaultDelayApplyConfiguration_Percentage := FaultDelayApplyConfiguration_Percentage b |}.

Definition FaultDelayApplyConfiguration_WithPercentage (value : option FractionApplyConfiguration)
    (b : FaultDelayApplyConfiguration) : FaultDelayApplyConfiguration :=
  {| FaultDelayApplyConfiguration_Fixed := FaultDelayApplyConfiguration_Fixed b;
     FaultDelayApplyConfiguration_Metadata := FaultDelayApplyConfiguration_Metadata b;
     FaultDelayApplyConfiguration_Percentage := value |}.

Record FaultAbortApplyConfiguration := {
  FaultAbortApplyConfiguration_Code : option Z;
  FaultAbortApplyConfiguration_Metadata : option MetadataFault;
  FaultAbortApplyConfiguration_Percentage : option FractionApplyConfiguration
}.

(** [func FaultAbort()] *)
Definition FaultAbortApplyConfiguration_New : FaultAbortApplyConfiguration :=
  {| FaultAbortApplyConfiguration_Code := None;
     FaultAbortApplyConfiguration_Metadata := None;
     FaultAbortApplyConfiguration_Percentage := None |}.

Definition FaultAbortApplyConfiguration_WithCode (value : Z)
    (b : FaultAbortApplyConfiguration) : FaultAbortApplyConfiguration :=
  {| FaultAbortApplyConfiguration_Code := Some value;
     FaultAbortApplyConfiguration_Metadata := FaultAbortApplyConfiguration_Metadata b;
     FaultAbortApplyConfiguration_Percentage := FaultAbortApplyConfiguration_Percentage b |}.

Definition FaultAbortApplyConfiguration_WithMetadata (value : MetadataFault)
    (b : FaultAbortApplyConfiguration) : FaultAbortApplyConfiguration :=
  {| FaultAbortApplyConfiguration_Code := FaultAbortApplyConfiguration_Code b;
     FaultAbortApplyConfiguration_Metadata := Some value;
     FaultAbortApplyConfiguration_Percentage := FaultAbortApplyConfiguration_Percentage b |}.

Definition FaultAbortApplyConfiguration_WithPercentage (value : option FractionApplyConfiguration)
    (b : FaultAbortApplyConfiguration) : FaultAbortApplyConfiguration :=
  {| FaultAbortApplyConfiguration_Code := FaultAbortApplyConfiguration_Code b;
     FaultAbortApplyConfiguration_Metadata := FaultAbortApplyConfiguration_Metadata b;
     FaultAbortApplyConfiguration_Percentage := value |}.

Record RegexMatcherApplyConfiguration := {
  RegexMatcherApplyConfiguration_Regex : option string;
  RegexMatcherApplyConfiguration_Engine : option string
}.

(** [func RegexMatcher()] *)
Definition RegexMatcherApplyConfiguration_New : RegexMatcherApplyConfiguration :=
  {| RegexMatcherApplyConfiguration_Regex := None;
     RegexMatcherApplyConfiguration_Engine := None |}.

Definition RegexMatcherApplyConfiguration_WithRegex (value : string)
    (b : RegexMatcherApplyConfiguration) : RegexMatcherApplyConfiguration :=
  {| RegexMatcherApplyConfiguration_Regex := Some value;
     RegexMatcherApplyConfiguration_Engine := RegexMatcherApplyConfiguration_Engine b |}.

Definition RegexMatcherApplyConfiguration_WithEngine (value : string)
    (b : RegexMatcherApplyConfiguration) : RegexMatcherApplyConfiguration :=
  {| RegexMatcherApplyConfiguration_Regex := RegexMatcherApplyConfiguration_Regex b;
     RegexMatcherApplyConfiguration_Engine := Some value |}.

Record RangeMatcherApplyConfiguration := {
  RangeMatcherApplyConfiguration_Start : option Z;
  RangeMatcherApplyConfiguration_End : option Z
}.

(** [func RangeMatcher()] *)
Definition RangeMatcherApplyConfiguration_New : RangeMatcherApplyConfiguration :=
  {| RangeMatcherApplyConfiguration_Start := None;
     RangeMatcherApplyConfiguration_End := None |}.

Definition RangeMatcherApplyConfiguration_WithStart (value : Z)
    (b : RangeMatcherApplyConfiguration) : RangeMatcherApplyConfiguration :=
  {| RangeMatcherApplyConfiguration_Start := Some value;
     RangeMatcherApplyConfiguration_End := RangeMatcherApplyConfiguration_End b |}.

Definition RangeMatcherApplyConfiguration_WithEnd (value : Z)
    (b : RangeMatcherApplyConfiguration) : RangeMatcherApplyConfiguration :=
  {| RangeMatcherApplyConfiguration_Start := RangeMatcherApplyConfiguration_Start b;
     RangeMatcherApplyConfiguration_End := Some value |}.

Record HeaderMatcherApplyConfiguration := {
  HeaderMatcherApplyConfiguration_Name : option string;
  HeaderMatcherApplyConfiguration_Exact : option string;
  HeaderMatcherApplyConfiguration_Regex : option RegexMatcherApplyConfiguration;
  HeaderMatcherApplyConfiguration_Range : option RangeMatcherApplyConfiguration;
  HeaderMatcherApplyConfiguration_Present : option bool;
  HeaderMatcherApplyConfiguration_Prefix : option string;
  HeaderMatcherApplyConfiguration_Suffix : option string;
  HeaderMatcherApplyConfiguration_Invert : option bool
}.

(** [func HeaderMatcher()] *)
Definition HeaderMatcherApplyConfiguration_New : HeaderMatcherApplyConfiguration :=
  {| HeaderMatcherApplyConfiguration_Name := None;
     HeaderMatcherApplyConfiguration_Exact := None;
     HeaderMatcherApplyConfiguration_Regex := None;
     HeaderMatcherApplyConfiguration_Range := None;
     HeaderMatcherApplyConfiguration_Present := None;
     HeaderMatcherApplyConfiguration_Prefix := None;
     HeaderMatcherApplyConfiguration_Suffix := None;
     HeaderMatcherApplyConfiguration_Invert := None |}.

Definition HeaderMatcherApplyConfiguration_WithName (value : string)
    (b : HeaderMatcherApplyConfiguration) : HeaderMatcherApplyConfiguration :=
  {| HeaderMatcherApplyConfiguration_Name := Some value;
     HeaderMatcherApplyConfiguration_Exact := HeaderMatcherApplyConfiguration_Exact b;
     HeaderMatcherApplyConfiguration_Regex := HeaderMatcherApplyConfiguration_Regex b;
     HeaderMatcherApplyConfiguration_Range := HeaderMatcherApplyConfiguration_Range b;
     HeaderMatcherApplyConfiguration_Present := HeaderMatcherApplyConfiguration_Present b;
     HeaderMatcherApplyConfiguration_Prefix := HeaderMatcherApplyConfiguration_Prefix b;
     HeaderMatcherApplyConfiguration_Suffix := HeaderMatcherApplyConfiguration_Suffix b;
     HeaderMatcherApplyConfiguration_Invert := HeaderMatcherApplyConfiguration_Invert b |}.

Definition HeaderMatcherApplyConfiguration_WithExact (value : string)
    (b : HeaderMatcherApplyConfiguration) : HeaderMatcherApplyConfiguration :=
  {| HeaderMatcherApplyConfiguration_Name := HeaderMatcherApplyConfiguration_Name b;
     HeaderMatcherApplyConfiguration_Exact := Some value;
     HeaderMatcherApplyConfiguration_Regex := HeaderMatcherApplyConfiguration_Regex b;
     HeaderMatcherApplyConfiguration_Range := HeaderMatcherApplyConfiguration_Range b;
     HeaderMatcherApplyConfiguration_Present := HeaderMatcherApplyConfiguration_Present b;
     HeaderMatcherApplyConfiguration_Prefix := HeaderMatcherApplyConfiguration_Prefix b;
     HeaderMatcherApplyConfiguration_Suffix := HeaderMatcherApplyConfiguration_Suffix b;
     HeaderMatcherApplyConfiguration_Invert := HeaderMatcherApplyConfiguration_Invert b |}.

Definition HeaderMatcherApplyConfiguration_WithRegex (value : option RegexMatcherApplyConfiguration)
    (b : HeaderMatcherApplyConfiguration) : HeaderMatcherApplyConfiguration :=
  {| HeaderMatcherApplyConfiguration_Name := HeaderMatcherApplyConfiguration_Name b;
     HeaderMatcherApplyConfiguration_Exact := HeaderMatcherApplyConfiguration_Exact b;
     HeaderMatcherApplyConfiguration_Regex := value;
     HeaderMatcherApplyConfiguration_Range := HeaderMatcherApplyConfiguration_Range b;
     HeaderMatcherApplyConfiguration_Present := HeaderMatcherApplyConfiguration_Present b;
     HeaderMatcherApplyConfiguration_Prefix := HeaderMatcherApplyConfiguration_Prefix b;
     HeaderMatcherApplyConfiguration_Suffix := HeaderMatcherApplyConfiguration_Suffix b;
     HeaderMatcherApplyConfiguration_Invert := HeaderMatcherApplyConfiguration_Invert b |}.

Definition HeaderMatcherApplyConfiguration_WithRange (value : option RangeMatcherApplyConfiguration)
    (b : HeaderMatcherApplyConfiguration) : HeaderMatcherApplyConfiguration :=
  {| HeaderMatcherApplyConfiguration_Name := HeaderMatcherApplyConfiguration_Name b;
     HeaderMatcherApplyConfiguration_Exact := HeaderMatcherApplyConfiguration_Exact b;
     HeaderMatcherApplyConfiguration_Regex := HeaderMatcherApplyConfiguration_Regex b;
     HeaderMatcherApplyConfiguration_Range := value;
     HeaderMatcherApplyConfiguration_Present := HeaderMatcherApplyConfiguration_Present b;
     HeaderMatcherApplyConfiguration_Prefix := HeaderMatcherApplyConfiguration_Prefix b;
     HeaderMatcherApplyConfiguration_Suffix := HeaderMatcherApplyConfiguration_Suffix b;
     HeaderMatcherApplyConfiguration_Invert := HeaderMatcherApplyConfiguration_Invert b |}.

Definition HeaderMatcherApplyConfiguration_WithPresent (value : bool)
    (b : HeaderMatcherApplyConfiguration) : HeaderMatcherApplyConfiguration :=
  {| HeaderMatcherApplyConfiguration_Name := HeaderMatcherApplyConfiguration_Name b;
     HeaderMatcherApplyConfiguration_Exact := HeaderMatcherApplyConfiguration_Exact b;
     HeaderMatcherApplyConfiguration_Regex := HeaderMatcherApplyConfiguration_Regex b;
     HeaderMatcherApplyConfiguration_Range := HeaderMatcherApplyConfiguration_Range b;
     HeaderMatcherApplyConfiguration_Present := Some value;
     HeaderMatcherApplyConfiguration_Prefix := HeaderMatcherApplyConfiguration_Prefix b;
     HeaderMatcherApplyConfiguration_Suffix := HeaderMatcherApplyConfiguration_Suffix b;
     HeaderMatcherApplyConfiguration_Invert := HeaderMatcherApplyConfiguration_Invert b |}.

Definition HeaderMatcherApplyConfiguration_WithPrefix (value : string)
    (b : HeaderMatcherApplyConfiguration) : HeaderMatcherApplyConfiguration :=
  {| HeaderMatcherApplyConfiguration_Name := HeaderMatcherApplyConfiguration_Name b;
     HeaderMatcherApplyConfiguration_Exact := HeaderMatcherApplyConfiguration_Exact b;
     HeaderMatcherApplyConfiguration_Regex := HeaderMatcherApplyConfiguration_Regex b;
     HeaderMatcherApplyConfiguration_Range := HeaderMatcherApplyConfiguration_Range b;
     HeaderMatcherApplyConfiguration_Present := HeaderMatcherApplyConfiguration_Present b;
     HeaderMatcherApplyConfiguration_Prefix := Some value;
     HeaderMatcherApplyConfiguration_Suffix := HeaderMatcherApplyConfiguration_Suffix b;
     HeaderMatcherApplyConfiguration_Invert := HeaderMatcherApplyConfiguration_Invert b |}.

Definition HeaderMatcherApplyConfiguration_WithSuffix (value : string)
    (b : HeaderMatcherApplyConfiguration) : HeaderMatcherApplyConfiguration :=
  {| HeaderMatcherApplyConfiguration_Name := HeaderMatcherApplyConfiguration_Name b;
     HeaderMatcherApplyConfiguration_Exact := HeaderMatcherApplyConfiguration_Exact b;
     HeaderMatcherApplyConfiguration_Regex := HeaderMatcherApplyConfiguration_Regex b;
     HeaderMatcherApplyConfiguration_Range := HeaderMatcherApplyConfiguration_Range b;
     HeaderMatcherApplyConfiguration_Present := HeaderMatcherApplyConfiguration_Present b;
     HeaderMatcherApplyConfiguration_Prefix := HeaderMatcherApplyConfiguration_Prefix b;
     HeaderMatcherApplyConfiguration_Suffix := Some value;
     HeaderMatcherApplyConfiguration_Invert := HeaderMatcherApplyConfiguration_Invert b |}.

Definition HeaderMatcherApplyConfiguration_WithInvert (value : bool)
    (b : HeaderMatcherApplyConfiguration) : HeaderMatcherApplyConfiguration :=
  {| HeaderMatcherApplyConfiguration_Name := HeaderMatcherApplyConfiguration_Name b;
     HeaderMatcherApplyConfiguration_Exact := HeaderMatcherApplyConfiguration_Exact b;
     HeaderMatcherApplyConfiguration_Regex := HeaderMatcherApplyConfiguration_Regex b;
     HeaderMatcherApplyConfiguration_Range := HeaderMatcherApplyConfiguration_Range b;
     HeaderMatcherApplyConfiguration_Present := HeaderMatcherApplyConfiguration_Present b;
     HeaderMatcherApplyConfiguration_Prefix := HeaderMatcherApplyConfiguration_Prefix b;
     HeaderMatcherApplyConfiguration_Suffix := HeaderMatcherApplyConfiguration_Suffix b;
     HeaderMatcherApplyConfiguration_Invert := Some value |}.

Record FaultInterceptorApplyConfiguration := {
  FaultInterceptorApplyConfiguration_Delay : option FaultDelayApplyConfiguration;
  FaultInterceptorApplyConfiguration_Abort : option FaultAbortApplyConfiguration;
  FaultInterceptorApplyConfiguration_MaxActiveFaults : option Z;
  FaultInterceptorApplyConfiguration_Headers : list HeaderMatcherApplyConfiguration
}.

(** [func FaultInterceptor()] *)
Definition FaultInterceptorApplyConfiguration_New : FaultInterceptorApplyConfiguration :=
  {| FaultInterceptorApplyConfiguration_Delay := None;
     FaultInterceptorApplyConfiguration_Abort := None;
     FaultInterceptorApplyConfiguration_MaxActiveFaults := None;
     FaultInterceptorApplyConfiguration_Headers := [] |}.

Definition FaultInterceptorApplyConfiguration_WithDelay (value : option FaultDelayApplyConfiguration)
    (b : FaultInterceptorApplyConfiguration) : FaultInterceptorApplyConfiguration :=
  {| FaultInterceptorApplyConfiguration_Delay := value;
     FaultInterceptorApplyConfiguration_Abort := FaultInterceptorApplyConfiguration_Abort b;
     FaultInterceptorApplyConfiguration_MaxActiveFaults := FaultInterceptorApplyConfiguration_MaxActiveFaults b;
     FaultInterceptorApplyConfiguration_Headers := FaultInterceptorApplyConfiguration_Headers b |}.

Definition FaultInterceptorApplyConfiguration_WithAbort (value : option FaultAbortApplyConfiguration)
    (b : FaultInterceptorApplyConfiguration) : FaultInterceptorApplyConfiguration :=
  {| FaultInterceptorApplyConfiguration_Delay := FaultInterceptorApplyConfiguration_Delay b;
     FaultInterceptorApplyConfiguration_Abort := value;
     FaultInterceptorApplyConfiguration_MaxActiveFaults := FaultInterceptorApplyConfiguration_MaxActiveFaults b;
     FaultInterceptorApplyConfiguration_Headers := FaultInterceptorApplyConfiguration_Headers b |}.

Definition FaultInterceptorApplyConfiguration_WithMaxActiveFaults (value : Z)
    (b : FaultInterceptorApplyConfiguration) : FaultInterceptorApplyConfiguration :=
  {| FaultInterceptorApplyConfiguration_Delay := FaultInterceptorApplyConfiguration_Delay b;
     FaultInterceptorApplyConfiguration_Abort := FaultInterceptorApplyConfiguration_Abort b;
     FaultInterceptorApplyConfiguration_MaxActiveFaults := Some value;
     FaultInterceptorApplyConfiguration_Headers := FaultInterceptorApplyConfiguration_Headers b |}.

Definition FaultInterceptorApplyConfiguration_WithHeaders (values : list (option HeaderMatcherApplyConfiguration))
    (b : FaultInterceptorApplyConfiguration) : M FaultInterceptorApplyConfiguration :=
  appended ← append_values "WithHeaders" (FaultInterceptorApplyConfiguration_Headers b) values;
  Ok {| FaultInterceptorApplyConfiguration_Delay := FaultInterceptorApplyConfiguration_Delay b;
     FaultInterceptorApplyConfiguration_Abort := FaultInterceptorApplyConfiguration_Abort b;
     FaultInterceptorApplyConfiguration_MaxActiveFaults := FaultInterceptorApplyConfiguration_MaxActiveFaults b;
     FaultInterceptorApplyConfiguration_Headers := appended |}.

Record InterceptorApplyConfiguration := {
  InterceptorApplyConfiguration_Fault : option FaultInterceptorApplyConfiguration
}.

(** [func Interceptor()] *)
Definition InterceptorApplyConfiguration_New : InterceptorApplyConfiguration :=
  {| InterceptorApplyConfiguration_Fault := None |}.

Definition InterceptorApplyConfiguration_WithFault (value : option FaultInterceptorApplyConfiguration)
    (b : InterceptorApplyConfiguration) : InterceptorApplyConfiguration :=
  {| InterceptorApplyConfiguration_Fault := value |}.

Record PortRefApplyConfiguration := {
  PortRefApplyConfiguration_Number : option Z;
  PortRefApplyConfiguration_Name : option string
}.

(** [func PortRef()] *)
Definition PortRefApplyConfiguration_New : PortRefApplyConfiguration :=
  {| PortRefApplyConfiguration_Number := None;
     PortRefApplyConfiguration_Name := None |}.

Definition PortRefApplyConfiguration_WithNumber (value : Z)
    (b : PortRefApplyConfiguration) : PortRefApplyConfiguration :=
  {| PortRefApplyConfiguration_Number := Some value;
     PortRefApplyConfiguration_Name := PortRefApplyConfiguration_Name b |}.

Definition PortRefApplyConfiguration_WithName (value : string)
    (b : PortRefApplyConfiguration) : PortRefApplyConfiguration :=
  {| PortRefApplyConfiguration_Number := PortRefApplyConfiguration_Number b;
     PortRefApplyConfiguration_Name := Some value |}.

Record ServiceRefApplyConfiguration := {
  ServiceRefApplyConfiguration_Name : option string;
  ServiceRefApplyConfiguration_Namespace : option string;
  ServiceRefApplyConfiguration_Port : option PortRefApplyConfiguration
}.

(** [func ServiceRef()] *)
Definition ServiceRefApplyConfiguration_New : ServiceRefApplyConfiguration :=
  {| ServiceRefApplyConfiguration_Name := None;
     ServiceRefApplyConfiguration_Namespace := None;
     ServiceRefApplyConfiguration_Port := None |}.

Definition ServiceRefApplyConfiguration_WithName (value : string)
    (b : ServiceRefApplyConfiguration) : ServiceRefApplyConfiguration :=
  {| ServiceRefApplyConfiguration_Name := Some value;
     ServiceRefApplyConfiguration_Namespace := ServiceRefApplyConfiguration_Namespace b;
     ServiceRefApplyConfiguration_Port := ServiceRefApplyConfiguration_Port b |}.

Definition ServiceRefApplyConfiguration_WithNamespace (value : string)
    (b : ServiceRefApplyConfiguration) : ServiceRefApplyConfiguration :=
  {| ServiceRefApplyConfiguration_Name := ServiceRefApplyConfiguration_Name b;
     ServiceRefApplyConfiguration_Namespace := Some value;
     ServiceRefApplyConfiguration_Port := ServiceRefApplyConfiguration_Port b |}.

Definition ServiceRefApplyConfiguration_WithPort (value : option PortRefApplyConfiguration)
    (b : ServiceRefApplyConfiguration) : ServiceRefApplyConfiguration :=
  {| ServiceRefApplyConfiguration_Name := ServiceRefApplyConfiguration_Name b;
     ServiceRefApplyConfiguration_Namespace := ServiceRefApplyConfiguration_Namespace b;
     ServiceRefApplyConfiguration_Port := value |}.

Record LocalityApplyConfiguration := {
  LocalityApplyConfiguration_Weight : option Z;
  LocalityApplyConfiguration_Priority : option Z;
  LocalityApplyConfiguration_Service : option ServiceRefApplyConfiguration
}.

(** [func Locality()] *)
Definition LocalityApplyConfiguration_New : LocalityApplyConfiguration :=
  {| LocalityApplyConfiguration_Weight := None;
     LocalityApplyConfiguration_Priority := None;
     LocalityApplyConfiguration_Service := None |}.

Definition LocalityApplyConfiguration_WithWeight (value : Z)
    (b : LocalityApplyConfiguration) : LocalityApplyConfiguration :=
  {| LocalityApplyConfiguration_Weight := Some value;
     LocalityApplyConfiguration_Priority := LocalityApplyConfiguration_Priority b;
     LocalityApplyConfiguration_Service := LocalityApplyConfiguration_Service b |}.

Definition LocalityApplyConfiguration_WithPriority (value : Z)
    (b : LocalityApplyConfiguration) : LocalityApplyConfiguration :=
  {| LocalityApplyConfiguration_Weight := LocalityApplyConfiguration_Weight b;
     LocalityApplyConfiguration_Priority := Some value;
     LocalityApplyConfiguration_Service := LocalityApplyConfiguration_Service b |}.

Definition LocalityApplyConfiguration_WithService (value : option ServiceRefApplyConfiguration)
    (b : LocalityApplyConfiguration) : LocalityApplyConfiguration :=
  {| LocalityApplyConfiguration_Weight := LocalityApplyConfiguration_Weight b;
     LocalityApplyConfiguration_Priority := LocalityApplyConfiguration_Priority b;
     LocalityApplyConfiguration_Service := value |}.

Record BackendApplyConfiguration := {
  BackendApplyConfiguration_Weight : option Z;
  BackendApplyConfiguration_MaxRequests : option Z;
  BackendApplyConfiguration_LBPolicy : option string;
  BackendApplyConfiguration_RingHashConfig : option RingHashConfigApplyConfiguration;
  BackendApplyConfiguration_Interceptors : list InterceptorApplyConfiguration;
  BackendApplyConfiguration_Service : option ServiceRefApplyConfiguration;
  BackendApplyConfiguration_Localities : list LocalityApplyConfiguration
}.

(** [func Backend()] *)
Definition BackendApplyConfiguration_New : BackendApplyConfiguration :=
  {| BackendApplyConfiguration_Weight := None;
     BackendApplyConfiguration_MaxRequests := None;
     BackendApplyConfiguration_LBPolicy := None;
     BackendApplyConfiguration_RingHashConfig := None;
     BackendApplyConfiguration_Interceptors := [];
     BackendApplyConfiguration_Service := None;
     BackendApplyConfiguration_Localities := [] |}.

Definition BackendApplyConfiguration_WithWeight (value : Z)
    (b : BackendApplyConfiguration) : BackendApplyConfiguration :=
  {| BackendApplyConfiguration_Weight := Some value;
     BackendApplyConfiguration_MaxRequests := BackendApplyConfiguration_MaxRequests b;
     BackendApplyConfiguration_LBPolicy := BackendApplyConfiguration_LBPolicy b;
     BackendApplyConfiguration_RingHashConfig := BackendApplyConfiguration_RingHashConfig b;
     BackendApplyConfiguration_Interceptors := BackendApplyConfiguration_Interceptors b;
     BackendApplyConfiguration_Service := BackendApplyConfiguration_Service b;
     BackendApplyConfiguration_Localities := BackendApplyConfiguration_Localities b |}.

Definition BackendApplyConfiguration_WithMaxRequests (value : Z)
    (b : BackendApplyConfiguration) : BackendApplyConfiguration :=
  {| BackendApplyConfiguration_Weight := BackendApplyConfiguration_Weight b;
     BackendApplyConfiguration_MaxRequests := Some value;
     BackendApplyConfiguration_LBPolicy := BackendApplyConfiguration_LBPolicy b;
     BackendApplyConfiguration_RingHashConfig := BackendApplyConfiguration_RingHashConfig b;
     BackendApplyConfiguration_Interceptors := BackendApplyConfiguration_Interceptors b;
     BackendApplyConfiguration_Service := BackendApplyConfiguration_Service b;
     BackendApplyConfiguration_Localities := BackendApplyConfiguration_Localities b |}.

Definition BackendApplyConfiguration_WithLBPolicy (value : string)
    (b : BackendApplyConfiguration) : BackendApplyConfiguration :=
  {| BackendApplyConfiguration_Weight := BackendApplyConfiguration_Weight b;
     BackendApplyConfiguration_MaxRequests := BackendApplyConfiguration_MaxRequests b;
     BackendApplyConfiguration_LBPolicy := Some value;
     BackendApplyConfiguration_RingHashConfig := BackendApplyConfiguration_RingHashConfig b;
     BackendApplyConfiguration_Interceptors := BackendApplyConfiguration_Interceptors b;
     BackendApplyConfiguration_Service := BackendApplyConfiguration_Service b;
     BackendApplyConfiguration_Localities := BackendApplyConfiguration_Localities b |}.

Definition BackendApplyConfiguration_WithRingHashConfig (value : option RingHashConfigApplyConfiguration)
    (b : BackendApplyConfiguration) : BackendApplyConfiguration :=
  {| BackendApplyConfiguration_Weight := BackendApplyConfiguration_Weight b;
     BackendApplyConfiguration_MaxRequests := BackendApplyConfiguration_MaxRequests b;
     BackendApplyConfiguration_LBPolicy := BackendApplyConfiguration_LBPolicy b;
     BackendApplyConfiguration_RingHashConfig := value;
     BackendApplyConfiguration_Interceptors := BackendApplyConfiguration_Interceptors b;
     BackendApplyConfiguration_Service := BackendApplyConfiguration_Service b;
     BackendApplyConfiguration_Localities := BackendApplyConfiguration_Localities b |}.

Definition BackendApplyConfiguration_WithInterceptors (values : list (option InterceptorApplyConfiguration))
    (b : BackendApplyConfiguration) : M BackendApplyConfiguration :=
  appended ← append_values "WithInterceptors" (BackendApplyConfiguration_Interceptors b) values;
  Ok {| BackendApplyConfiguration_Weight := BackendApplyConfiguration_Weight b;
     BackendApplyConfiguration_MaxRequests := BackendApplyConfiguration_MaxRequests b;
     BackendApplyConfiguration_LBPolicy := BackendApplyConfiguration_LBPolicy b;
     BackendApplyConfiguration_RingHashConfig := BackendApplyConfiguration_RingHashConfig b;
     BackendApplyConfiguration_Interceptors := appended;
     BackendApplyConfiguration_Service := BackendApplyConfiguration_Service b;
     BackendApplyConfiguration_Localities := BackendApplyConfiguration_Localities b |}.

Definition BackendApplyConfiguration_WithService (value : option ServiceRefApplyConfiguration)
    (b : BackendApplyConfiguration) : BackendApplyConfiguration :=
  {| BackendApplyConfiguration_Weight := BackendApplyConfiguration_Weight b;
     BackendApplyConfiguration_MaxRequests := BackendApplyConfiguration_MaxRequests b;
     BackendApplyConfiguration_LBPolicy := BackendApplyConfiguration_LBPolicy b;
     BackendApplyConfiguration_RingHashConfig := BackendApplyConfiguration_RingHashConfig b;
     BackendApplyConfiguration_Interceptors := BackendApplyConfiguration_Interceptors b;
     BackendApplyConfiguration_Service := value;
     BackendApplyConfiguration_Localities := BackendApplyConfiguration_Localities b |}.

Definition BackendApplyConfiguration_WithLocalities (values : list (option LocalityApplyConfiguration))
    (b : BackendApplyConfiguration) : M BackendApplyConfiguration :=
  appended ← append_values "WithLocalities" (BackendApplyConfiguration_Localities b) values;
  Ok {| BackendApplyConfiguration_Weight := BackendApplyConfiguration_Weight b;
     BackendApplyConfiguration_MaxRequests := BackendApplyConfiguration_MaxRequests b;
     BackendApplyConfiguration_LBPolicy := BackendApplyConfiguration_LBPolicy b;
     BackendApplyConfiguration_RingHashConfig := BackendApplyConfiguration_RingHashConfig b;
     BackendApplyConfiguration_Interceptors := BackendApplyConfiguration_Interceptors b;
     BackendApplyConfiguration_Service := BackendApplyConfiguration_Service b;
     BackendApplyConfiguration_Localities := appended |}.

Record ClusterApplyConfiguration := {
  ClusterApplyConfiguration_Weight : option Z;
  ClusterApplyConfiguration_MaxRequests : option Z;
  ClusterApplyConfiguration_Service : option ServiceRefApplyConfiguration;
  ClusterApplyConfiguration_Localities : list LocalityApplyConfiguration
}.

(** [func Cluster()] *)
Definition ClusterApplyConfiguration_New : ClusterApplyConfiguration :=
  {| ClusterApplyConfiguration_Weight := None;
     ClusterApplyConfiguration_MaxRequests := None;
     ClusterApplyConfiguration_Service := None;
     ClusterApplyConfiguration_Localities := [] |}.

Definition ClusterApplyConfiguration_WithWeight (value : Z)
    (b : ClusterApplyConfiguration) : ClusterApplyConfiguration :=
  {| ClusterApplyConfiguration_Weight := Some value;
     ClusterApplyConfiguration_MaxRequests := ClusterApplyConfiguration_MaxRequests b;
     ClusterApplyConfiguration_Service := ClusterApplyConfiguration_Service b;
     ClusterApplyConfiguration_Localities := ClusterApplyConfiguration_Localities b |}.

Definition ClusterApplyConfiguration_WithMaxRequests (value : Z)
    (b : ClusterApplyConfiguration) : ClusterApplyConfiguration :=
  {| ClusterApplyConfiguration_Weight := ClusterApplyConfiguration_Weight b;
     ClusterApplyConfiguration_MaxRequests := Some value;
     ClusterApplyConfiguration_Service := ClusterApplyConfiguration_Service b;
     ClusterApplyConfiguration_Localities := ClusterApplyConfiguration_Localities b |}.

Definition ClusterApplyConfiguration_WithService (value : option ServiceRefApplyConfiguration)
    (b : ClusterApplyConfiguration) : ClusterApplyConfiguration :=
  {| ClusterApplyConfiguration_Weight := ClusterApplyConfiguration_Weight b;
     ClusterApplyConfiguration_MaxRequests := ClusterApplyConfiguration_MaxRequests b;
     ClusterApplyConfiguration_Service := value;
     ClusterApplyConfiguration_Localities := ClusterApplyConfiguration_Localities b |}.

Definition ClusterApplyConfiguration_WithLocalities (values : list (option LocalityApplyConfiguration))
    (b : ClusterApplyConfiguration) : M ClusterApplyConfiguration :=
  appended ← append_values "WithLocalities" (ClusterApplyConfiguration_Localities b) values;
  Ok {| ClusterApplyConfiguration_Weight := ClusterApplyConfiguration_Weight b;
     ClusterApplyConfiguration_MaxRequests := ClusterApplyConfiguration_MaxRequests b;
     ClusterApplyConfiguration_Service := ClusterApplyConfiguration_Service b;
     ClusterApplyConfiguration_Localities := appended |}.

Record ClusterRefApplyConfiguration := {
  ClusterRefApplyConfiguration_Name : option string
}.

(** [func ClusterRef()] *)
Definition ClusterRefApplyConfiguration_New : ClusterRefApplyConfiguration :=
  {| ClusterRefApplyConfiguration_Name := None |}.

Definition ClusterRefApplyConfiguration_WithName (value : string)
    (b : ClusterRefApplyConfiguration) : ClusterRefApplyConfiguration :=
  {| ClusterRefApplyConfiguration_Name := Some value |}.

Record DefaultClusterApplyConfiguration := {
  DefaultClusterApplyConfiguration_MaxRequests : option Z;
  DefaultClusterApplyConfiguration_Service : option ServiceRefApplyConfiguration
}.

(** [func DefaultCluster()] *)
Definition DefaultClusterApplyConfiguration_New : DefaultClusterApplyConfiguration :=
  {| DefaultClusterApplyConfiguration_MaxRequests := None;
     DefaultClusterApplyConfiguration_Service := None |}.

Definition DefaultClusterApplyConfiguration_WithMaxRequests (value : Z)
    (b : DefaultClusterApplyConfiguration) : DefaultClusterApplyConfiguration :=
  {| DefaultClusterApplyConfiguration_MaxRequests := Some value;
     DefaultClusterApplyConfiguration_Service := DefaultClusterApplyConfiguration_Service b |}.

Definition DefaultClusterApplyConfiguration_WithService (value : option ServiceRefApplyConfiguration)
    (b : DefaultClusterApplyConfiguration) : DefaultClusterApplyConfiguration :=
  {| DefaultClusterApplyConfiguration_MaxRequests := DefaultClusterApplyConfiguration_MaxRequests b;
     DefaultClusterApplyConfiguration_Service := value |}.

Record FaultFilterApplyConfiguration := {
  FaultFilterApplyConfiguration_Delay : option FaultDelayApplyConfiguration;
  FaultFilterApplyConfiguration_Abort : option FaultAbortApplyConfiguration;
  FaultFilterApplyConfiguration_MaxActiveFaults : option Z;
  FaultFilterApplyConfiguration_Headers : list HeaderMatcherApplyConfiguration
}.

(** [func FaultFilter()] *)
Definition FaultFilterApplyConfiguration_New : FaultFilterApplyConfiguration :=
  {| FaultFilterApplyConfiguration_Delay := None;
     FaultFilterApplyConfiguration_Abort := None;
     FaultFilterApplyConfiguration_MaxActiveFaults := None;
     FaultFilterApplyConfiguration_Headers := [] |}.

Definition FaultFilterApplyConfiguration_WithDelay (value : option FaultDelayApplyConfiguration)
    (b : FaultFilterApplyConfiguration) : FaultFilterApplyConfiguration :=
  {| FaultFilterApplyConfiguration_Delay := value;
     FaultFilterApplyConfiguration_Abort := FaultFilterApplyConfiguration_Abort b;
     FaultFilterApplyConfiguration_MaxActiveFaults := FaultFilterApplyConfiguration_MaxActiveFaults b;
     FaultFilterApplyConfiguration_Headers := FaultFilterApplyConfiguration_Headers b |}.

Definition FaultFilterApplyConfiguration_WithAbort (value : option FaultAbortApplyConfiguration)
    (b : FaultFilterApplyConfiguration) : FaultFilterApplyConfiguration :=
  {| FaultFilterApplyConfiguration_Delay := FaultFilterApplyConfiguration_Delay b;
     FaultFilterApplyConfiguration_Abort := value;
     FaultFilterApplyConfiguration_MaxActiveFaults := FaultFilterApplyConfiguration_MaxActiveFaults b;
     FaultFilterApplyConfiguration_Headers := FaultFilterApplyConfiguration_Headers b |}.

Definition FaultFilterApplyConfiguration_WithMaxActiveFaults (value : Z)
    (b : FaultFilterApplyConfiguration) : FaultFilterApplyConfiguration :=
  {| FaultFilterApplyConfiguration_Delay := FaultFilterApplyConfiguration_Delay b;
     FaultFilterApplyConfiguration_Abort := FaultFilterApplyConfiguration_Abort b;
     FaultFilterApplyConfiguration_MaxActiveFaults := Some value;
     FaultFilterApplyConfiguration_Headers := FaultFilterApplyConfiguration_Headers b |}.

Definition FaultFilterApplyConfiguration_WithHeaders (values : list (option HeaderMatcherApplyConfiguration))
    (b : FaultFilterApplyConfiguration) : M FaultFilterApplyConfiguration :=
  appended ← append_values "WithHeaders" (FaultFilterApplyConfiguration_Headers b) values;
  Ok {| FaultFilterApplyConfiguration_Delay := FaultFilterApplyConfiguration_Delay b;
     FaultFilterApplyConfiguration_Abort := FaultFilterApplyConfiguration_Abort b;
     FaultFilterApplyConfiguration_MaxActiveFaults := FaultFilterApplyConfiguration_MaxActiveFaults b;
     FaultFilterApplyConfiguration_Headers := appended |}.

Record FilterApplyConfiguration := {
  FilterApplyConfiguration_Fault : option FaultFilterApplyConfiguration
}.

(** [func Filter()] *)
Definition FilterApplyConfiguration_New : FilterApplyConfiguration :=
  {| FilterApplyConfiguration_Fault := None |}.

Definition FilterApplyConfiguration_WithFault (value : option FaultFilterApplyConfiguration)
    (b : FilterApplyConfiguration) : FilterApplyConfiguration :=
  {| FilterApplyConfiguration_Fault := value |}.

Record RetryBackoffApplyConfiguration := {
  RetryBackoffApplyConfiguration_BaseInterval : option Duration;
  RetryBackoffApplyConfiguration_MaxInterval : option Duration
}.

(** [func RetryBackoff()] *)
Definition RetryBackoffApplyConfiguration_New : RetryBackoffApplyConfiguration :=
  {| RetryBackoffApplyConfiguration_BaseInterval := None;
     RetryBackoffApplyConfiguration_MaxInterval := None |}.

Definition RetryBackoffApplyConfiguration_WithBaseInterval (value : Duration)
    (b : RetryBackoffApplyConfiguration) : RetryBackoffApplyConfiguration :=
  {| RetryBackoffApplyConfiguration_BaseInterval := Some value;
     RetryBackoffApplyConfiguration_MaxInterval := RetryBackoffApplyConfiguration_MaxInterval b |}.

Definition RetryBackoffApplyConfiguration_WithMaxInterval (value : Duration)
    (b : RetryBackoffApplyConfiguration) : RetryBackoffApplyConfiguration :=
  {| RetryBackoffApplyConfiguration_BaseInterval := RetryBackoffApplyConfiguration_BaseInterval b;
     RetryBackoffApplyConfiguration_MaxInterval := Some value |}.

Record RetryPolicyApplyConfiguration := {
  RetryPolicyApplyConfiguration_RetryOn : list string;
  RetryPolicyApplyConfiguration_NumRetries : option Z;
  RetryPolicyApplyConfiguration_Backoff : option RetryBackoffApplyConfiguration
}.

(** [func RetryPolicy()] *)
Definition RetryPolicyApplyConfiguration_New : RetryPolicyApplyConfiguration :=
  {| RetryPolicyApplyConfiguration_RetryOn := [];
     RetryPolicyApplyConfiguration_NumRetries := None;
     RetryPolicyApplyConfiguration_Backoff := None |}.

Definition RetryPolicyApplyConfiguration_WithRetryOn (values : list string)
    (b : RetryPolicyApplyConfiguration) : RetryPolicyApplyConfiguration :=
  {| RetryPolicyApplyConfiguration_RetryOn := RetryPolicyApplyConfiguration_RetryOn b ++ values;
     RetryPolicyApplyConfiguration_NumRetries := RetryPolicyApplyConfiguration_NumRetries b;
     RetryPolicyApplyConfiguration_Backoff := RetryPolicyApplyConfiguration_Backoff b |}.

Definition RetryPolicyApplyConfiguration_WithNumRetries (value : Z)
    (b : RetryPolicyApplyConfiguration) : RetryPolicyApplyConfiguration :=
  {| RetryPolicyApplyConfiguration_RetryOn := RetryPolicyApplyConfiguration_RetryOn b;
     RetryPolicyApplyConfiguration_NumRetries := Some value;
     RetryPolicyApplyConfiguration_Backoff := RetryPolicyApplyConfiguration_Backoff b |}.

Definition RetryPolicyApplyConfiguration_WithBackoff (value : option RetryBackoffApplyConfiguration)
    (b : RetryPolicyApplyConfiguration) : RetryPolicyApplyConfiguration :=
  {| RetryPolicyApplyConfiguration_RetryOn := RetryPolicyApplyConfiguration_RetryOn b;
     RetryPolicyApplyConfiguration_NumRetries := RetryPolicyApplyConfiguration_NumRetries b;
     RetryPolicyApplyConfiguration_Backoff := value |}.

Record MethodMatcherApplyConfiguration := {
  MethodMatcherApplyConfiguration_Namespace : option string;
  MethodMatcherApplyConfiguration_Service : option string;
  MethodMatcherApplyConfiguration_Method : option string
}.

(** [func MethodMatcher()] *)
Definition MethodMatcherApplyConfiguration_New : MethodMatcherApplyConfiguration :=
  {| MethodMatcherApplyConfiguration_Namespace := None;
     MethodMatcherApplyConfiguration_Service := None;
     MethodMatcherApplyConfiguration_Method := None |}.

Definition MethodMatcherApplyConfiguration_WithNamespace (value : string)
    (b : MethodMatcherApplyConfiguration) : MethodMatcherApplyConfiguration :=
  {| MethodMatcherApplyConfiguration_Namespace := Some value;
     MethodMatcherApplyConfiguration_Service := MethodMatcherApplyConfiguration_Service b;
     MethodMatcherApplyConfiguration_Method := MethodMatcherApplyConfiguration_Method b |}.

Definition MethodMatcherApplyConfiguration_WithService (value : string)
    (b : MethodMatcherApplyConfiguration) : MethodMatcherApplyConfiguration :=
  {| MethodMatcherApplyConfiguration_Namespace := MethodMatcherApplyConfiguration_Namespace b;
     MethodMatcherApplyConfiguration_Service := Some value;
     MethodMatcherApplyConfiguration_Method := MethodMatcherApplyConfiguration_Method b |}.

Definition MethodMatcherApplyConfiguration_WithMethod (value : string)
    (b : MethodMatcherApplyConfiguration) : MethodMatcherApplyConfiguration :=
  {| MethodMatcherApplyConfiguration_Namespace := MethodMatcherApplyConfiguration_Namespace b;
     MethodMatcherApplyConfiguration_Service := MethodMatcherApplyConfiguration_Service b;
     MethodMatcherApplyConfiguration_Method := Some value |}.

Record ServiceMatcherApplyConfiguration := {
  ServiceMatcherApplyConfiguration_Namespace : option string;
  ServiceMatcherApplyConfiguration_Service : option string
}.

(** [func ServiceMatcher()] *)
Definition ServiceMatcherApplyConfiguration_New : ServiceMatcherApplyConfiguration :=
  {| ServiceMatcherApplyConfiguration_Namespace := None;
     ServiceMatcherApplyConfiguration_Service := None |}.

Definition ServiceMatcherApplyConfiguration_WithNamespace (value : string)
    (b : ServiceMatcherApplyConfiguration) : ServiceMatcherApplyConfiguration :=
  {| ServiceMatcherApplyConfiguration_Namespace := Some value;
     ServiceMatcherApplyConfiguration_Service := ServiceMatcherApplyConfiguration_Service b |}.

Definition ServiceMatcherApplyConfiguration_WithService (value : string)
    (b : ServiceMatcherApplyConfiguration) : ServiceMatcherApplyConfiguration :=
  {| ServiceMatcherApplyConfiguration_Namespace := ServiceMatcherApplyConfiguration_Namespace b;
     ServiceMatcherApplyConfiguration_Service := Some value |}.

Record MetadataMatcherApplyConfiguration := {
  MetadataMatcherApplyConfiguration_Name : option string;
  MetadataMatcherApplyConfiguration_Exact : option string;
  MetadataMatcherApplyConfiguration_Regex : option RegexMatcherApplyConfiguration;
  MetadataMatcherApplyConfiguration_Range : option RangeMatcherApplyConfiguration;
  MetadataMatcherApplyConfiguration_Present : option bool;
  MetadataMatcherApplyConfiguration_Prefix : option string;
  MetadataMatcherApplyConfiguration_Suffix : option string;
  MetadataMatcherApplyConfiguration_Invert : option bool
}.

(** [func MetadataMatcher()] *)
Definition MetadataMatcherApplyConfiguration_New : MetadataMatcherApplyConfiguration :=
  {| MetadataMatcherApplyConfiguration_Name := None;
     MetadataMatcherApplyConfiguration_Exact := None;
     MetadataMatcherApplyConfiguration_Regex := None;
     MetadataMatcherApplyConfiguration_Range := None;
     MetadataMatcherApplyConfiguration_Present := None;
     MetadataMatcherApplyConfiguration_Prefix := None;
     MetadataMatcherApplyConfiguration_Suffix := None;
     MetadataMatcherApplyConfiguration_Invert := None |}.

Definition MetadataMatcherApplyConfiguration_WithName (value : string)
    (b : MetadataMatcherApplyConfiguration) : MetadataMatcherApplyConfiguration :=
  {| MetadataMatcherApplyConfiguration_Name := Some value;
     MetadataMatcherApplyConfiguration_Exact := MetadataMatcherApplyConfiguration_Exact b;
     MetadataMatcherApplyConfiguration_Regex := MetadataMatcherApplyConfiguration_Regex b;
     MetadataMatcherApplyConfiguration_Range := MetadataMatcherApplyConfiguration_Range b;
     MetadataMatcherApplyConfiguration_Present := MetadataMatcherApplyConfiguration_Present b;
     MetadataMatcherApplyConfiguration_Prefix := MetadataMatcherApplyConfiguration_Prefix b;
     MetadataMatcherApplyConfiguration_Suffix := MetadataMatcherApplyConfiguration_Suffix b;
     MetadataMatcherApplyConfiguration_Invert := MetadataMatcherApplyConfiguration_Invert b |}.

Definition MetadataMatcherApplyConfiguration_WithExact (value : string)
    (b : MetadataMatcherApplyConfiguration) : MetadataMatcherApplyConfiguration :=
  {| MetadataMatcherApplyConfiguration_Name := MetadataMatcherApplyConfiguration_Name b;
     MetadataMatcherApplyConfiguration_Exact := Some value;
     MetadataMatcherApplyConfiguration_Regex := MetadataMatcherApplyConfiguration_Regex b;
     MetadataMatcherApplyConfiguration_Range := MetadataMatcherApplyConfiguration_Range b;
     MetadataMatcherApplyConfiguration_Present := MetadataMatcherApplyConfiguration_Present b;
     MetadataMatcherApplyConfiguration_Prefix := MetadataMatcherApplyConfiguration_Prefix b;
     MetadataMatcherApplyConfiguration_Suffix := MetadataMatcherApplyConfiguration_Suffix b;
     MetadataMatcherApplyConfiguration_Invert := MetadataMatcherApplyConfiguration_Invert b |}.

Definition MetadataMatcherApplyConfiguration_WithRegex (value : option RegexMatcherApplyConfiguration)
    (b : MetadataMatcherApplyConfiguration) : MetadataMatcherApplyConfiguration :=
  {| MetadataMatcherApplyConfiguration_Name := MetadataMatcherApplyConfiguration_Name b;
     MetadataMatcherApplyConfiguration_Exact := MetadataMatcherApplyConfiguration_Exact b;
     MetadataMatcherApplyConfiguration_Regex := value;
     MetadataMatcherApplyConfiguration_Range := MetadataMatcherApplyConfiguration_Range b;
     MetadataMatcherApplyConfiguration_Present := MetadataMatcherApplyConfiguration_Present b;
     MetadataMatcherApplyConfiguration_Prefix := MetadataMatcherApplyConfiguration_Prefix b;
     MetadataMatcherApplyConfiguration_Suffix := MetadataMatcherApplyConfiguration_Suffix b;
     MetadataMatcherApplyConfiguration_Invert := MetadataMatcherApplyConfiguration_Invert b |}.

Definition MetadataMatcherApplyConfiguration_WithRange (value : option RangeMatcherApplyConfiguration)
    (b : MetadataMatcherApplyConfiguration) : MetadataMatcherApplyConfiguration :=
  {| MetadataMatcherApplyConfiguration_Name := MetadataMatcherApplyConfiguration_Name b;
     MetadataMatcherApplyConfiguration_Exact := MetadataMatcherApplyConfiguration_Exact b;
     MetadataMatcherApplyConfiguration_Regex := MetadataMatcherApplyConfiguration_Regex b;
     MetadataMatcherApplyConfiguration_Range := value;
     MetadataMatcherApplyConfiguration_Present := MetadataMatcherApplyConfiguration_Present b;
     MetadataMatcherApplyConfiguration_Prefix := MetadataMatcherApplyConfiguration_Prefix b;
     MetadataMatcherApplyConfiguration_Suffix := MetadataMatcherApplyConfiguration_Suffix b;
     MetadataMatcherApplyConfiguration_Invert := MetadataMatcherApplyConfiguration_Invert b |}.

Definition MetadataMatcherApplyConfiguration_WithPresent (value : bool)
    (b : MetadataMatcherApplyConfiguration) : MetadataMatcherApplyConfiguration :=
  {| MetadataMatcherApplyConfiguration_Name := MetadataMatcherApplyConfiguration_Name b;
     MetadataMatcherApplyConfiguration_Exact := MetadataMatcherApplyConfiguration_Exact b;
     MetadataMatcherApplyConfiguration_Regex := MetadataMatcherApplyConfiguration_Regex b;
     MetadataMatcherApplyConfiguration_Range := MetadataMatcherApplyConfiguration_Range b;
     MetadataMatcherApplyConfiguration_Present := Some value;
     MetadataMatcherApplyConfiguration_Prefix := MetadataMatcherApplyConfiguration_Prefix b;
     MetadataMatcherApplyConfiguration_Suffix := MetadataMatcherApplyConfiguration_Suffix b;
     MetadataMatcherApplyConfiguration_Invert := MetadataMatcherApplyConfiguration_Invert b |}.

Definition MetadataMatcherApplyConfiguration_WithPrefix (value : string)
    (b : MetadataMatcherApplyConfiguration) : MetadataMatcherApplyConfiguration :=
  {| MetadataMatcherApplyConfiguration_Name := MetadataMatcherApplyConfiguration_Name b;
     MetadataMatcherApplyConfiguration_Exact := MetadataMatcherApplyConfiguration_Exact b;
     MetadataMatcherApplyConfiguration_Regex := MetadataMatcherApplyConfiguration_Regex b;
     MetadataMatcherApplyConfiguration_Range := MetadataMatcherApplyConfiguration_Range b;
     MetadataMatcherApplyConfiguration_Present := MetadataMatcherApplyConfiguration_Present b;
     MetadataMatcherApplyConfiguration_Prefix := Some value;
     MetadataMatcherApplyConfiguration_Suffix := MetadataMatcherApplyConfiguration_Suffix b;
     MetadataMatcherApplyConfiguration_Invert := MetadataMatcherApplyConfiguration_Invert b |}.

Definition MetadataMatcherApplyConfiguration_WithSuffix (value : string)
    (b : MetadataMatcherApplyConfiguration) : MetadataMatcherApplyConfiguration :=
  {| MetadataMatcherApplyConfiguration_Name := MetadataMatcherApplyConfiguration_Name b;
     MetadataMatcherApplyConfiguration_Exact := MetadataMatcherApplyConfiguration_Exact b;
     MetadataMatcherApplyConfiguration_Regex := MetadataMatcherApplyConfiguration_Regex b;
     MetadataMatcherApplyConfiguration_Range := MetadataMatcherApplyConfiguration_Range b;
     MetadataMatcherApplyConfiguration_Present := MetadataMatcherApplyConfiguration_Present b;
     MetadataMatcherApplyConfiguration_Prefix := MetadataMatcherApplyConfiguration_Prefix b;
     MetadataMatcherApplyConfiguration_Suffix := Some value;
     MetadataMatcherApplyConfiguration_Invert := MetadataMatcherApplyConfiguration_Invert b |}.

Definition MetadataMatcherApplyConfiguration_WithInvert (value : bool)
    (b : MetadataMatcherApplyConfiguration) : MetadataMatcherApplyConfiguration :=
  {| MetadataMatcherApplyConfiguration_Name := MetadataMatcherApplyConfiguration_Name b;
     MetadataMatcherApplyConfiguration_Exact := MetadataMatcherApplyConfiguration_Exact b;
     MetadataMatcherApplyConfiguration_Regex := MetadataMatcherApplyConfiguration_Regex b;
     MetadataMatcherApplyConfiguration_Range := MetadataMatcherApplyConfiguration_Range b;
     MetadataMatcherApplyConfiguration_Present := MetadataMatcherApplyConfiguration_Present b;
     MetadataMatcherApplyConfiguration_Prefix := MetadataMatcherApplyConfiguration_Prefix b;
     MetadataMatcherApplyConfiguration_Suffix := MetadataMatcherApplyConfiguration_Suffix b;
     MetadataMatcherApplyConfiguration_Invert := Some value |}.

Record RouteMatcherApplyConfiguration := {
  RouteMatcherApplyConfiguration_Method : option MethodMatcherApplyConfiguration;
  RouteMatcherApplyConfiguration_Service : option ServiceMatcherApplyConfiguration;
  RouteMatcherApplyConfiguration_Namespace : option string;
  RouteMatcherApplyConfiguration_Metadata : list MetadataMatcherApplyConfiguration;
  RouteMatcherApplyConfiguration_Fraction : option FractionApplyConfiguration
}.

(** [func RouteMatcher()] *)
Definition RouteMatcherApplyConfiguration_New : RouteMatcherApplyConfiguration :=
  {| RouteMatcherApplyConfiguration_Method := None;
     RouteMatcherApplyConfiguration_Service := None;
     RouteMatcherApplyConfiguration_Namespace := None;
     RouteMatcherApplyConfiguration_Metadata := [];
     RouteMatcherApplyConfiguration_Fraction := None |}.

Definition RouteMatcherApplyConfiguration_WithMethod (value : option MethodMatcherApplyConfiguration)
    (b : RouteMatcherApplyConfiguration) : RouteMatcherApplyConfiguration :=
  {| RouteMatcherApplyConfiguration_Method := value;
     RouteMatcherApplyConfiguration_Service := RouteMatcherApplyConfiguration_Service b;
     RouteMatcherApplyConfiguration_Namespace := RouteMatcherApplyConfiguration_Namespace b;
     RouteMatcherApplyConfiguration_Metadata := RouteMatcherApplyConfiguration_Metadata b;
     RouteMatcherApplyConfiguration_Fraction := RouteMatcherApplyConfiguration_Fraction b |}.

Definition RouteMatcherApplyConfiguration_WithService (value : option ServiceMatcherApplyConfiguration)
    (b : RouteMatcherApplyConfiguration) : RouteMatcherApplyConfiguration :=
  {| RouteMatcherApplyConfiguration_Method := RouteMatcherApplyConfiguration_Method b;
     RouteMatcherApplyConfiguration_Service := value;
     RouteMatcherApplyConfiguration_Namespace := RouteMatcherApplyConfiguration_Namespace b;
     RouteMatcherApplyConfiguration_Metadata := RouteMatcherApplyConfiguration_Metadata b;
     RouteMatcherApplyConfiguration_Fraction := RouteMatcherApplyConfiguration_Fraction b |}.

Definition RouteMatcherApplyConfiguration_WithNamespace (value : string)
    (b : RouteMatcherApplyConfiguration) : RouteMatcherApplyConfiguration :=
  {| RouteMatcherApplyConfiguration_Method := RouteMatcherApplyConfiguration_Method b;
     RouteMatcherApplyConfiguration_Service := RouteMatcherApplyConfiguration_Service b;
     RouteMatcherApplyConfiguration_Namespace := Some value;
     RouteMatcherApplyConfiguration_Metadata := RouteMatcherApplyConfiguration_Metadata b;
     RouteMatcherApplyConfiguration_Fraction := RouteMatcherApplyConfiguration_Fraction b |}.

Definition RouteMatcherApplyConfiguration_WithMetadata (values : list (option MetadataMatcherApplyConfiguration))
    (b : RouteMatcherApplyConfiguration) : M RouteMatcherApplyConfiguration :=
  appended ← append_values "WithMetadata" (RouteMatcherApplyConfiguration_Metadata b) values;
  Ok {| RouteMatcherApplyConfiguration_Method := RouteMatcherApplyConfiguration_Method b;
     RouteMatcherApplyConfiguration_Service := RouteMatcherApplyConfiguration_Service b;
     RouteMatcherApplyConfiguration_Namespace := RouteMatcherApplyConfiguration_Namespace b;
     RouteMatcherApplyConfiguration_Metadata := appended;
     RouteMatcherApplyConfiguration_Fraction := RouteMatcherApplyConfiguration_Fraction b |}.

Definition RouteMatcherApplyConfiguration_WithFraction (value : option FractionApplyConfiguration)
    (b : RouteMatcherApplyConfiguration) : RouteMatcherApplyConfiguration :=
  {| RouteMatcherApplyConfiguration_Method := RouteMatcherApplyConfiguration_Method b;
     RouteMatcherApplyConfiguration_Service := RouteMatcherApplyConfiguration_Service b;
     RouteMatcherApplyConfiguration_Namespace := RouteMatcherApplyConfiguration_Namespace b;
     RouteMatcherApplyConfiguration_Metadata := RouteMatcherApplyConfiguration_Metadata b;
     RouteMatcherApplyConfiguration_Fraction := value |}.

Record HashPolicyApplyConfiguration := {
  HashPolicyApplyConfiguration_Metadata : option string;
  HashPolicyApplyConfiguration_Channel : option bool;
  HashPolicyApplyConfiguration_Terminal : option bool
}.

(** [func HashPolicy()] *)
Definition HashPolicyApplyConfiguration_New : HashPolicyApplyConfiguration :=
  {| HashPolicyApplyConfiguration_Metadata := None;
     HashPolicyApplyConfiguration_Channel := None;
     HashPolicyApplyConfiguration_Terminal := None |}.

Definition HashPolicyApplyConfiguration_WithMetadata (value : string)
    (b : HashPolicyApplyConfiguration) : HashPolicyApplyConfiguration :=
  {| HashPolicyApplyConfiguration_Metadata := Some value;
     HashPolicyApplyConfiguration_Channel := HashPolicyApplyConfiguration_Channel b;
     HashPolicyApplyConfiguration_Terminal := HashPolicyApplyConfiguration_Terminal b |}.

Definition HashPolicyApplyConfiguration_WithChannel (value : bool)
    (b : HashPolicyApplyConfiguration) : HashPolicyApplyConfiguration :=
  {| HashPolicyApplyConfiguration_Metadata := HashPolicyApplyConfiguration_Metadata b;
     HashPolicyApplyConfiguration_Channel := Some value;
     HashPolicyApplyConfiguration_Terminal := HashPolicyApplyConfiguration_Terminal b |}.

Definition HashPolicyApplyConfiguration_WithTerminal (value : bool)
    (b : HashPolicyApplyConfiguration) : HashPolicyApplyConfiguration :=
  {| HashPolicyApplyConfiguration_Metadata := HashPolicyApplyConfiguration_Metadata b;
     HashPolicyApplyConfiguration_Channel := HashPolicyApplyConfiguration_Channel b;
     HashPolicyApplyConfiguration_Terminal := Some value |}.

Record RouteApplyConfiguration := {
  RouteApplyConfiguration_Matcher : option RouteMatcherApplyConfiguration;
  RouteApplyConfiguration_Interceptors : list InterceptorApplyConfiguration;
  RouteApplyConfiguration_HashPolicy : list HashPolicyApplyConfiguration;
  RouteApplyConfiguration_MaxStreamDuration : option Duration;
  RouteApplyConfiguration_GrpcTimeoutHeaderMax : option Duration;
  RouteApplyConfiguration_Retry : option RetryPolicyApplyConfiguration;
  RouteApplyConfiguration_Backends : list BackendApplyConfiguration
}.

(** [func Route()] *)
Definition RouteApplyConfiguration_New : RouteApplyConfiguration :=
  {| RouteApplyConfiguration_Matcher := None;
     RouteApplyConfiguration_Interceptors := [];
     RouteApplyConfiguration_HashPolicy := [];
     RouteApplyConfiguration_MaxStreamDuration := None;
     RouteApplyConfiguration_GrpcTimeoutHeaderMax := None;
     RouteApplyConfiguration_Retry := None;
     RouteApplyConfiguration_Backends := [] |}.

Definition RouteApplyConfiguration_WithMatcher (value : option RouteMatcherApplyConfiguration)
    (b : RouteApplyConfiguration) : RouteApplyConfiguration :=
  {| RouteApplyConfiguration_Matcher := value;
     RouteApplyConfiguration_Interceptors := RouteApplyConfiguration_Interceptors b;
     RouteApplyConfiguration_HashPolicy := RouteApplyConfiguration_HashPolicy b;
     RouteApplyConfiguration_MaxStreamDuration := RouteApplyConfiguration_MaxStreamDuration b;
     RouteApplyConfiguration_GrpcTimeoutHeaderMax := RouteApplyConfiguration_GrpcTimeoutHeaderMax b;
     RouteApplyConfiguration_Retry := RouteApplyConfiguration_Retry b;
     RouteApplyConfiguration_Backends := RouteApplyConfiguration_Backends b |}.

Definition RouteApplyConfiguration_WithInterceptors (values : list (option InterceptorApplyConfiguration))
    (b : RouteApplyConfiguration) : M RouteApplyConfiguration :=
  appended ← append_values "WithInterceptors" (RouteApplyConfiguration_Interceptors b) values;
  Ok {| RouteApplyConfiguration_Matcher := RouteApplyConfiguration_Matcher b;
     RouteApplyConfiguration_Interceptors := appended;
     RouteApplyConfiguration_HashPolicy := RouteApplyConfiguration_HashPolicy b;
     RouteApplyConfiguration_MaxStreamDuration := RouteApplyConfiguration_MaxStreamDuration b;
     RouteApplyConfiguration_GrpcTimeoutHeaderMax := RouteApplyConfiguration_GrpcTimeoutHeaderMax b;
     RouteApplyConfiguration_Retry := RouteApplyConfiguration_Retry b;
     RouteApplyConfiguration_Backends := RouteApplyConfiguration_Backends b |}.

Definition RouteApplyConfiguration_WithHashPolicy (values : list (option HashPolicyApplyConfiguration))
    (b : RouteApplyConfiguration) : M RouteApplyConfiguration :=
  appended ← append_values "WithHashPolicy" (RouteApplyConfiguration_HashPolicy b) values;
  Ok {| RouteApplyConfiguration_Matcher := RouteApplyConfiguration_Matcher b;
     RouteApplyConfiguration_Interceptors := RouteApplyConfiguration_Interceptors b;
     RouteApplyConfiguration_HashPolicy := appended;
     RouteApplyConfiguration_MaxStreamDuration := RouteApplyConfiguration_MaxStreamDuration b;
     RouteApplyConfiguration_GrpcTimeoutHeaderMax := RouteApplyConfiguration_GrpcTimeoutHeaderMax b;
     RouteApplyConfiguration_Retry := RouteApplyConfiguration_Retry b;
     RouteApplyConfiguration_Backends := RouteApplyConfiguration_Backends b |}.

Definition RouteApplyConfiguration_WithMaxStreamDuration (value : Duration)
    (b : RouteApplyConfiguration) : RouteApplyConfiguration :=
  {| RouteApplyConfiguration_Matcher := RouteApplyConfiguration_Matcher b;
     RouteApplyConfiguration_Interceptors := RouteApplyConfiguration_Interceptors b;
     RouteApplyConfiguration_HashPolicy := RouteApplyConfiguration_HashPolicy b;
     RouteApplyConfiguration_MaxStreamDuration := Some value;
     RouteApplyConfiguration_GrpcTimeoutHeaderMax := RouteApplyConfiguration_GrpcTimeoutHeaderMax b;
     RouteApplyConfiguration_Retry := RouteApplyConfiguration_Retry b;
     RouteApplyConfiguration_Backends := RouteApplyConfiguration_Backends b |}.

Definition RouteApplyConfiguration_WithGrpcTimeoutHeaderMax (value : Duration)
    (b : RouteApplyConfiguration) : RouteApplyConfiguration :=
  {| RouteApplyConfiguration_Matcher := RouteApplyConfiguration_Matcher b;
     RouteApplyConfiguration_Interceptors := RouteApplyConfiguration_Interceptors b;
     RouteApplyConfiguration_HashPolicy := RouteApplyConfiguration_HashPolicy b;
     RouteApplyConfiguration_MaxStreamDuration := RouteApplyConfiguration_MaxStreamDuration b;
     RouteApplyConfiguration_GrpcTimeoutHeaderMax := Some value;
     RouteApplyConfiguration_Retry := RouteApplyConfiguration_Retry b;
     RouteApplyConfiguration_Backends := RouteApplyConfiguration_Backends b |}.

Definition RouteApplyConfiguration_WithRetry (value : option RetryPolicyApplyConfiguration)
    (b : RouteApplyConfiguration) : RouteApplyConfiguration :=
  {| RouteApplyConfiguration_Matcher := RouteApplyConfiguration_Matcher b;
     RouteApplyConfiguration_Interceptors := RouteApplyConfiguration_Interceptors b;
     RouteApplyConfiguration_HashPolicy := RouteApplyConfiguration_HashPolicy b;
     RouteApplyConfiguration_MaxStreamDuration := RouteApplyConfiguration_MaxStreamDuration b;
     RouteApplyConfiguration_GrpcTimeoutHeaderMax := RouteApplyConfiguration_GrpcTimeoutHeaderMax b;
     RouteApplyConfiguration_Retry := value;
     RouteApplyConfiguration_Backends := RouteApplyConfiguration_Backends b |}.

Definition RouteApplyConfiguration_WithBackends (values : list (option BackendApplyConfiguration))
    (b : RouteApplyConfiguration) : M RouteApplyConfiguration :=
  appended ← append_values "WithBackends" (RouteApplyConfiguration_Backends b) values;
  Ok {| RouteApplyConfiguration_Matcher := RouteApplyConfiguration_Matcher b;
     RouteApplyConfiguration_Interceptors := RouteApplyConfiguration_Interceptors b;
     RouteApplyConfiguration_HashPolicy := RouteApplyConfiguration_HashPolicy b;
     RouteApplyConfiguration_MaxStreamDuration := RouteApplyConfiguration_MaxStreamDuration b;
     RouteApplyConfiguration_GrpcTimeoutHeaderMax := RouteApplyConfiguration_GrpcTimeoutHeaderMax b;
     RouteApplyConfiguration_Retry := RouteApplyConfiguration_Retry b;
     RouteApplyConfiguration_Backends := appended |}.

Record GRPCListenerSpecApplyConfiguration := {
  GRPCListenerSpecApplyConfiguration_MaxStreamDuration : option Duration;
  GRPCListenerSpecApplyConfiguration_Interceptors : list InterceptorApplyConfiguration;
  GRPCListenerSpecApplyConfiguration_Retry : option RetryPolicyApplyConfiguration;
  GRPCListenerSpecApplyConfiguration_Routes : list RouteApplyConfiguration
}.

(** [func GRPCListenerSpec()] *)
Definition GRPCListenerSpecApplyConfiguration_New : GRPCListenerSpecApplyConfiguration :=
  {| GRPCListenerSpecApplyConfiguration_MaxStreamDuration := None;
     GRPCListenerSpecApplyConfiguration_Interceptors := [];
     GRPCListenerSpecApplyConfiguration_Retry := None;
     GRPCListenerSpecApplyConfiguration_Routes := [] |}.

Definition GRPCListenerSpecApplyConfiguration_WithMaxStreamDuration (value : Duration)
    (b : GRPCListenerSpecApplyConfiguration) : GRPCListenerSpecApplyConfiguration :=
  {| GRPCListenerSpecApplyConfiguration_MaxStreamDuration := Some value;
     GRPCListenerSpecApplyConfiguration_Interceptors := GRPCListenerSpecApplyConfiguration_Interceptors b;
     GRPCListenerSpecApplyConfiguration_Retry := GRPCListenerSpecApplyConfiguration_Retry b;
     GRPCListenerSpecApplyConfiguration_Routes := GRPCListenerSpecApplyConfiguration_Routes b |}.

Definition GRPCListenerSpecApplyConfiguration_WithInterceptors (values : list (option InterceptorApplyConfiguration))
    (b : GRPCListenerSpecApplyConfiguration) : M GRPCListenerSpecApplyConfiguration :=
  appended ← append_values "WithInterceptors" (GRPCListenerSpecApplyConfiguration_Interceptors b) values;
  Ok {| GRPCListenerSpecApplyConfiguration_MaxStreamDuration := GRPCListenerSpecApplyConfiguration_MaxStreamDuration b;
     GRPCListenerSpecApplyConfiguration_Interceptors := appended;
     GRPCListenerSpecApplyConfiguration_Retry := GRPCListenerSpecApplyConfiguration_Retry b;
     GRPCListenerSpecApplyConfiguration_Routes := GRPCListenerSpecApplyConfiguration_Routes b |}.

Definition GRPCListenerSpecApplyConfiguration_WithRetry (value : option RetryPolicyApplyConfiguration)
    (b : GRPCListenerSpecApplyConfiguration) : GRPCListenerSpecApplyConfiguration :=
  {| GRPCListenerSpecApplyConfiguration_MaxStreamDuration := GRPCListenerSpecApplyConfiguration_MaxStreamDuration b;
     GRPCListenerSpecApplyConfiguration_Interceptors := GRPCListenerSpecApplyConfiguration_Interceptors b;
     GRPCListenerSpecApplyConfiguration_Retry := value;
     GRPCListenerSpecApplyConfiguration_Routes := GRPCListenerSpecApplyConfiguration_Routes b |}.

Definition GRPCListenerSpecApplyConfiguration_WithRoutes (values : list (option RouteApplyConfiguration))
    (b : GRPCListenerSpecApplyConfiguration) : M GRPCListenerSpecApplyConfiguration :=
  appended ← append_values "WithRoutes" (GRPCListenerSpecApplyConfiguration_Routes b) values;
  Ok {| GRPCListenerSpecApplyConfiguration_MaxStreamDuration := GRPCListenerSpecApplyConfiguration_MaxStreamDuration b;
     GRPCListenerSpecApplyConfiguration_Interceptors := GRPCListenerSpecApplyConfiguration_Interceptors b;
     GRPCListenerSpecApplyConfiguration_Retry := GRPCListenerSpecApplyConfiguration_Retry b;
     GRPCListenerSpecApplyConfiguration_Routes := appended |}.

Record PathMatcherApplyConfiguration := {
  PathMatcherApplyConfiguration_Prefix : option string;
  PathMatcherApplyConfiguration_Path : option string;
  PathMatcherApplyConfiguration_Regex : option RegexMatcherApplyConfiguration
}.

(** [func PathMatcher()] *)
Definition PathMatcherApplyConfiguration_New : PathMatcherApplyConfiguration :=
  {| PathMatcherApplyConfiguration_Prefix := None;
     PathMatcherApplyConfiguration_Path := None;
     PathMatcherApplyConfiguration_Regex := None |}.

Definition PathMatcherApplyConfiguration_WithPrefix (value : string)
    (b : PathMatcherApplyConfiguration) : PathMatcherApplyConfiguration :=
  {| PathMatcherApplyConfiguration_Prefix := Some value;
     PathMatcherApplyConfiguration_Path := PathMatcherApplyConfiguration_Path b;
     PathMatcherApplyConfiguration_Regex := PathMatcherApplyConfiguration_Regex b |}.

Definition PathMatcherApplyConfiguration_WithPath (value : string)
    (b : PathMatcherApplyConfiguration) : PathMatcherApplyConfiguration :=
  {| PathMatcherApplyConfiguration_Prefix := PathMatcherApplyConfiguration_Prefix b;
     PathMatcherApplyConfiguration_Path := Some value;
     PathMatcherApplyConfiguration_Regex := PathMatcherApplyConfiguration_Regex b |}.

Definition PathMatcherApplyConfiguration_WithRegex (value : option RegexMatcherApplyConfiguration)
    (b : PathMatcherApplyConfiguration) : PathMatcherApplyConfiguration :=
  {| PathMatcherApplyConfiguration_Prefix := PathMatcherApplyConfiguration_Prefix b;
     PathMatcherApplyConfiguration_Path := PathMatcherApplyConfiguration_Path b;
     PathMatcherApplyConfiguration_Regex := value |}.

(** ** grpclistener.go *)

(** [v1.OwnerReferenceApplyConfiguration] of client-go, and its metadata. *)
Record OwnerReferenceApplyConfiguration := {
  OwnerReferenceApplyConfiguration_Kind : option string;
  OwnerReferenceApplyConfiguration_Name : option string
}.

Record ObjectMetaApplyConfiguration := {
  ObjectMetaApplyConfiguration_Name : option string;
  ObjectMetaApplyConfiguration_GenerateName : option string;
  ObjectMetaApplyConfiguration_Namespace : option string;
  ObjectMetaApplyConfiguration_UID : option string;
  ObjectMetaApplyConfiguration_ResourceVersion : option string;
  ObjectMetaApplyConfiguration_Generation : option Z;
  ObjectMetaApplyConfiguration_CreationTimestamp : option Z;
  ObjectMetaApplyConfiguration_DeletionTimestamp : option Z;
  ObjectMetaApplyConfiguration_DeletionGracePeriodSeconds : option Z;
  ObjectMetaApplyConfiguration_Labels : option (gmap string string);
  ObjectMetaApplyConfiguration_Annotations : option (gmap string string);
  ObjectMetaApplyConfiguration_OwnerReferences : list OwnerReferenceApplyConfiguration;
  ObjectMetaApplyConfiguration_Finalizers : list string
}.

Definition emptyObjectMeta : ObjectMetaApplyConfiguration :=
  {| ObjectMetaApplyConfiguration_Name := None;
     ObjectMetaApplyConfiguration_GenerateName := None;
     ObjectMetaApplyConfiguration_Namespace := None;
     ObjectMetaApplyConfiguration_UID := None;
     ObjectMetaApplyConfiguration_ResourceVersion := None;
     ObjectMetaApplyConfiguration_Generation := None;
     ObjectMetaApplyConfiguration_CreationTimestamp := None;
     ObjectMetaApplyConfiguration_DeletionTimestamp := None;
     ObjectMetaApplyConfiguration_DeletionGracePeriodSeconds := None;
     ObjectMetaApplyConfiguration_Labels := None;
     ObjectMetaApplyConfiguration_Annotations := None;
     ObjectMetaApplyConfiguration_OwnerReferences := [];
     ObjectMetaApplyConfiguration_Finalizers := [] |}.

Record GRPCListenerApplyConfiguration := {
  GRPCListenerApplyConfiguration_Kind : option string;
  GRPCListenerApplyConfiguration_APIVersion : option string;
  GRPCListenerApplyConfiguration_ObjectMeta : option ObjectMetaApplyConfiguration;
  GRPCListenerApplyConfiguration_Spec : option GRPCListenerSpecApplyConfiguration
}.

Definition GRPCListenerApplyConfiguration_empty : GRPCListenerApplyConfiguration :=
  {| GRPCListenerApplyConfiguration_Kind := None;
     GRPCListenerApplyConfiguration_APIVersion := None;
     GRPCListenerApplyConfiguration_ObjectMeta := None;
     GRPCListenerApplyConfiguration_Spec := None |}.

Definition GRPCListenerApplyConfiguration_WithKind (value : string)
    (b : GRPCListenerApplyConfiguration) : GRPCListenerApplyConfiguration :=
  {| GRPCListenerApplyConfiguration_Kind := Some value;
     GRPCListenerApplyConfiguration_APIVersion := GRPCListenerApplyConfiguration_APIVersion b;
     GRPCListenerApplyConfiguration_ObjectMeta := GRPCListenerApplyConfiguration_ObjectMeta b;
     GRPCListenerApplyConfiguration_Spec := GRPCListenerApplyConfiguration_Spec b |}.

Definition GRPCListenerApplyConfiguration_WithAPIVersion (value : string)
    (b : GRPCListenerApplyConfiguration) : GRPCListenerApplyConfiguration :=
  {| GRPCListenerApplyConfiguration_Kind := GRPCListenerApplyConfiguration_Kind b;
     GRPCListenerApplyConfiguration_APIVersion := Some value;
     GRPCListenerApplyConfiguration_ObjectMeta := GRPCListenerApplyConfiguration_ObjectMeta b;
     GRPCListenerApplyConfiguration_Spec := GRPCListenerApplyConfiguration_Spec b |}.

Definition GRPCListenerApplyConfiguration_WithSpec
    (value : option GRPCListenerSpecApplyConfiguration)
    (b : GRPCListenerApplyConfiguration) : GRPCListenerApplyConfiguration :=
  {| GRPCListenerApplyConfiguration_Kind := GRPCListenerApplyConfiguration_Kind b;
     GRPCListenerApplyConfiguration_APIVersion := GRPCListenerApplyConfiguration_APIVersion b;
     GRPCListenerApplyConfiguration_ObjectMeta := GRPCListenerApplyConfiguration_ObjectMeta b;
     GRPCListenerApplyConfiguration_Spec := value |}.

(** [func (b *GRPCListenerApplyConfiguration) ensureObjectMetaApplyConfigurationExists],
    and the metadata it makes available. *)
Definition ensureObjectMetaApplyConfigurationExists (b : GRPCListenerApplyConfiguration)
  : ObjectMetaApplyConfiguration :=
  default emptyObjectMeta (GRPCListenerApplyConfiguration_ObjectMeta b).

Definition set_meta (m : ObjectMetaApplyConfiguration) (b : GRPCListenerApplyConfiguration)
  : GRPCListenerApplyConfiguration :=
  {| GRPCListenerApplyConfiguration_Kind := GRPCListenerApplyConfiguration_Kind b;
     GRPCListenerApplyConfiguration_APIVersion := GRPCListenerApplyConfiguration_APIVersion b;
     GRPCListenerApplyConfiguration_ObjectMeta := Some m;
     GRPCListenerApplyConfiguration_Spec := GRPCListenerApplyConfiguration_Spec b |}.

(** The body of [WithLabels] and [WithAnnotations]: a nil map is made when there
    are entries, then the entries are stored. *)
Definition add_entries (entries : gmap string string) (field : option (gmap string string))
  : M (option (gmap string string)) :=
  let field := match field with
               | None => if decide (0 < size entries) then Some ∅ else None
               | Some m => Some m
               end in
  foldM (fun field entry =>
      match field with
      | None => Panic (PanicValue "assignment to entry in nil map")
      | Some m => Ok (Some (<[entry.1 := entry.2]> m))
      end) (map_to_list entries) field.

Definition GRPCListenerApplyConfiguration_WithName (value : string)
    (b : GRPCListenerApplyConfiguration) : GRPCListenerApplyConfiguration :=
  let m := ensureObjectMetaApplyConfigurationExists b in
  set_meta
      {| ObjectMetaApplyConfiguration_Name := Some value;
         ObjectMetaApplyConfiguration_GenerateName := ObjectMetaApplyConfiguration_GenerateName m;
         ObjectMetaApplyConfiguration_Namespace := ObjectMetaApplyConfiguration_Namespace m;
         ObjectMetaApplyConfiguration_UID := ObjectMetaApplyConfiguration_UID m;
         ObjectMetaApplyConfiguration_ResourceVersion := ObjectMetaApplyConfiguration_ResourceVersion m;
         ObjectMetaApplyConfiguration_Generation := ObjectMetaApplyConfiguration_Generation m;
         ObjectMetaApplyConfiguration_CreationTimestamp := ObjectMetaApplyConfiguration_CreationTimestamp m;
         ObjectMetaApplyConfiguration_DeletionTimestamp := ObjectMetaApplyConfiguration_DeletionTimestamp m;
         ObjectMetaApplyConfiguration_DeletionGracePeriodSeconds := ObjectMetaApplyConfiguration_DeletionGracePeriodSeconds m;
         ObjectMetaApplyConfiguration_Labels := ObjectMetaApplyConfiguration_Labels m;
         ObjectMetaApplyConfiguration_Annotations := ObjectMetaApplyConfiguration_Annotations m;
         ObjectMetaApplyConfiguration_OwnerReferences := ObjectMetaApplyConfiguration_OwnerReferences m;
         ObjectMetaApplyConfiguration_Finalizers := ObjectMetaApplyConfiguration_Finalizers m |} b.

Definition GRPCListenerApplyConfiguration_WithGenerateName (value : string)
    (b : GRPCListenerApplyConfiguration) : GRPCListenerApplyConfiguration :=
  let m := ensureObjectMetaApplyConfigurationExists b in
  set_meta
      {| ObjectMetaApplyConfiguration_Name := ObjectMetaApplyConfiguration_Name m;
         ObjectMetaApplyConfiguration_GenerateName := Some value;
         ObjectMetaApplyConfiguration_Namespace := ObjectMetaApplyConfiguration_Namespace m;
         ObjectMetaApplyConfiguration_UID := ObjectMetaApplyConfiguration_UID m;
         ObjectMetaApplyConfiguration_ResourceVersion := ObjectMetaApplyConfiguration_ResourceVersion m;
         ObjectMetaApplyConfiguration_Generation := ObjectMetaApplyConfiguration_Generation m;
         ObjectMetaApplyConfiguration_CreationTimestamp := ObjectMetaApplyConfiguration_CreationTimestamp m;
         ObjectMetaApplyConfiguration_DeletionTimestamp := ObjectMetaApplyConfiguration_DeletionTimestamp m;
         ObjectMetaApplyConfiguration_DeletionGracePeriodSeconds := ObjectMetaApplyConfiguration_DeletionGracePeriodSeconds m;
         ObjectMetaApplyConfiguration_Labels := ObjectMetaApplyConfiguration_Labels m;
         ObjectMetaApplyConfiguration_Annotations := ObjectMetaApplyConfiguration_Annotations m;
         ObjectMetaApplyConfiguration_OwnerReferences := ObjectMetaApplyConfiguration_OwnerReferences m;
         ObjectMetaApplyConfiguration_Finalizers := ObjectMetaApplyConfiguration_Finalizers m |} b.

Definition GRPCListenerApplyConfiguration_WithNamespace (value : string)
    (b : GRPCListenerApplyConfiguration) : GRPCListenerApplyConfiguration :=
  let m := ensureObjectMetaApplyConfigurationExists b in
  set_meta
      {| ObjectMetaApplyConfiguration_Name := ObjectMetaApplyConfiguration_Name m;
         ObjectMetaApplyConfiguration_GenerateName := ObjectMetaApplyConfiguration_GenerateName m;
         ObjectMetaApplyConfiguration_Namespace := Some value;
         ObjectMetaApplyConfiguration_UID := ObjectMetaApplyConfiguration_UID m;
         ObjectMetaApplyConfiguration_ResourceVersion := ObjectMetaApplyConfiguration_ResourceVersion m;
         ObjectMetaApplyConfiguration_Generation := ObjectMetaApplyConfiguration_Generation m;
         ObjectMetaApplyConfiguration_CreationTimestamp := ObjectMetaApplyConfiguration_CreationTimestamp m;
         ObjectMetaApplyConfiguration_DeletionTimestamp := ObjectMetaApplyConfiguration_DeletionTimestamp m;
         ObjectMetaApplyConfiguration_DeletionGracePeriodSeconds := ObjectMetaApplyConfiguration_DeletionGracePeriodSeconds m;
         ObjectMetaApplyConfiguration_Labels := ObjectMetaApplyConfiguration_Labels m;
         ObjectMetaApplyConfiguration_Annotations := ObjectMetaApplyConfiguration_Annotations m;
         ObjectMetaApplyConfiguration_OwnerReferences := ObjectMetaApplyConfiguration_OwnerReferences m;
         ObjectMetaApplyConfiguration_Finalizers := ObjectMetaApplyConfiguration_Finalizers m |} b.

Definition GRPCListenerApplyConfiguration_WithUID (value : string)
    (b : GRPCListenerApplyConfiguration) : GRPCListenerApplyConfiguration :=
  let m := ensureObjectMetaApplyConfigurationExists b in
  set_meta
      {| ObjectMetaApplyConfiguration_Name := ObjectMetaApplyConfiguration_Name m;
         ObjectMetaApplyConfiguration_GenerateName := ObjectMetaApplyConfiguration_GenerateName m;
         ObjectMetaApplyConfiguration_Namespace := ObjectMetaApplyConfiguration_Namespace m;
         ObjectMetaApplyConfiguration_UID := Some value;
         ObjectMetaApplyConfiguration_ResourceVersion := ObjectMetaApplyConfiguration_ResourceVersion m;
         ObjectMetaApplyConfiguration_Generation := ObjectMetaApplyConfiguration_Generation m;
         ObjectMetaApplyConfiguration_CreationTimestamp := ObjectMetaApplyConfiguration_CreationTimestamp m;
         ObjectMetaApplyConfiguration_DeletionTimestamp := ObjectMetaApplyConfiguration_DeletionTimestamp m;
         ObjectMetaApplyConfiguration_DeletionGracePeriodSeconds := ObjectMetaApplyConfiguration_DeletionGracePeriodSeconds m;
         ObjectMetaApplyConfiguration_Labels := ObjectMetaApplyConfiguration_Labels m;
         ObjectMetaApplyConfiguration_Annotations := ObjectMetaApplyConfiguration_Annotations m;
         ObjectMetaApplyConfiguration_OwnerReferences := ObjectMetaApplyConfiguration_OwnerReferences m;
         ObjectMetaApplyConfiguration_Finalizers := ObjectMetaApplyConfiguration_Finalizers m |} b.

Definition GRPCListenerApplyConfiguration_WithResourceVersion (value : string)
    (b : GRPCListenerApplyConfiguration) : GRPCListenerApplyConfiguration :=
  let m := ensureObjectMetaApplyConfigurationExists b in
  set_meta
      {| ObjectMetaApplyConfiguration_Name := ObjectMetaApplyConfiguration_Name m;
         ObjectMetaApplyConfiguration_GenerateName := ObjectMetaApplyConfiguration_GenerateName m;
         ObjectMetaApplyConfiguration_Namespace := ObjectMetaApplyConfiguration_Namespace m;
         ObjectMetaApplyConfiguration_UID := ObjectMetaApplyConfiguration_UID m;
         ObjectMetaApplyConfiguration_ResourceVersion := Some value;
         ObjectMetaApplyConfiguration_Generation := ObjectMetaApplyConfiguration_Generation m;
         ObjectMetaApplyConfiguration_CreationTimestamp := ObjectMetaApplyConfiguration_CreationTimestamp m;
         ObjectMetaApplyConfiguration_DeletionTimestamp := ObjectMetaApplyConfiguration_DeletionTimestamp m;
         ObjectMetaApplyConfiguration_DeletionGracePeriodSeconds := ObjectMetaApplyConfiguration_DeletionGracePeriodSeconds m;
         ObjectMetaApplyConfiguration_Labels := ObjectMetaApplyConfiguration_Labels m;
         ObjectMetaApplyConfiguration_Annotations := ObjectMetaApplyConfiguration_Annotations m;
         ObjectMetaApplyConfiguration_OwnerReferences := ObjectMetaApplyConfiguration_OwnerReferences m;
         ObjectMetaApplyConfiguration_Finalizers := ObjectMetaApplyConfiguration_Finalizers m |} b.

Definition GRPCListenerApplyConfiguration_WithGeneration (value : Z)
    (b : GRPCListenerApplyConfiguration) : GRPCListenerApplyConfiguration :=
  let m := ensureObjectMetaApplyConfigurationExists b in
  set_meta
      {| ObjectMetaApplyConfiguration_Name := ObjectMetaApplyConfiguration_Name m;
         ObjectMetaApplyConfiguration_GenerateName := ObjectMetaApplyConfiguration_GenerateName m;
         ObjectMetaApplyConfiguration_Namespace := ObjectMetaApplyConfiguration_Namespace m;
         ObjectMetaApplyConfiguration_UID := ObjectMetaApplyConfiguration_UID m;
         ObjectMetaApplyConfiguration_ResourceVersion := ObjectMetaApplyConfiguration_ResourceVersion m;
         ObjectMetaApplyConfiguration_Generation := Some value;
         ObjectMetaApplyConfiguration_CreationTimestamp := ObjectMetaApplyConfiguration_CreationTimestamp m;
         ObjectMetaApplyConfiguration_DeletionTimestamp := ObjectMetaApplyConfiguration_DeletionTimestamp m;
         ObjectMetaApplyConfiguration_DeletionGracePeriodSeconds := ObjectMetaApplyConfiguration_DeletionGracePeriodSeconds m;
         ObjectMetaApplyConfiguration_Labels := ObjectMetaApplyConfiguration_Labels m;
         ObjectMetaApplyConfiguration_Annotations := ObjectMetaApplyConfiguration_Annotations m;
         ObjectMetaApplyConfiguration_OwnerReferences := ObjectMetaApplyConfiguration_OwnerReferences m;
         ObjectMetaApplyConfiguration_Finalizers := ObjectMetaApplyConfiguration_Finalizers m |} b.

Definition GRPCListenerApplyConfiguration_WithCreationTimestamp (value : Z)
    (b : GRPCListenerApplyConfiguration) : GRPCListenerApplyConfiguration :=
  let m := ensureObjectMetaApplyConfigurationExists b in
  set_meta
      {| ObjectMetaApplyConfiguration_Name := ObjectMetaApplyConfiguration_Name m;
         ObjectMetaApplyConfiguration_GenerateName := ObjectMetaApplyConfiguration_GenerateName m;
         ObjectMetaApplyConfiguration_Namespace := ObjectMetaApplyConfiguration_Namespace m;
         ObjectMetaApplyConfiguration_UID := ObjectMetaApplyConfiguration_UID m;
         ObjectMetaApplyConfiguration_ResourceVersion := ObjectMetaApplyConfiguration_ResourceVersion m;
         ObjectMetaApplyConfiguration_Generation := ObjectMetaApplyConfiguration_Generation m;
         ObjectMetaApplyConfiguration_CreationTimestamp := Some value;
         ObjectMetaApplyConfiguration_DeletionTimestamp := ObjectMetaApplyConfiguration_DeletionTimestamp m;
         ObjectMetaApplyConfiguration_DeletionGracePeriodSeconds := ObjectMetaApplyConfiguration_DeletionGracePeriodSeconds m;
         ObjectMetaApplyConfiguration_Labels := ObjectMetaApplyConfiguration_Labels m;
         ObjectMetaApplyConfiguration_Annotations := ObjectMetaApplyConfiguration_Annotations m;
         ObjectMetaApplyConfiguration_OwnerReferences := ObjectMetaApplyConfiguration_OwnerReferences m;
         ObjectMetaApplyConfiguration_Finalizers := ObjectMetaApplyConfiguration_Finalizers m |} b.

Definition GRPCListenerApplyConfiguration_WithDeletionTimestamp (value : Z)
    (b : GRPCListenerApplyConfiguration) : GRPCListenerApplyConfiguration :=
  let m := ensureObjectMetaApplyConfigurationExists b in
  set_meta
      {| ObjectMetaApplyConfiguration_Name := ObjectMetaApplyConfiguration_Name m;
         ObjectMetaApplyConfiguration_GenerateName := ObjectMetaApplyConfiguration_GenerateName m;
         ObjectMetaApplyConfiguration_Namespace := ObjectMetaApplyConfiguration_Namespace m;
         ObjectMetaApplyConfiguration_UID := ObjectMetaApplyConfiguration_UID m;
         ObjectMetaApplyConfiguration_ResourceVersion := ObjectMetaApplyConfiguration_ResourceVersion m;
         ObjectMetaApplyConfiguration_Generation := ObjectMetaApplyConfiguration_Generation m;
         ObjectMetaApplyConfiguration_CreationTimestamp := ObjectMetaApplyConfiguration_CreationTimestamp m;
         ObjectMetaApplyConfiguration_DeletionTimestamp := Some value;
         ObjectMetaApplyConfiguration_DeletionGracePeriodSeconds := ObjectMetaApplyConfiguration_DeletionGracePeriodSeconds m;
         ObjectMetaApplyConfiguration_Labels := ObjectMetaApplyConfiguration_Labels m;
         ObjectMetaApplyConfiguration_Annotations := ObjectMetaApplyConfiguration_Annotations m;
         ObjectMetaApplyConfiguration_OwnerReferences := ObjectMetaApplyConfiguration_OwnerReferences m;
         ObjectMetaApplyConfiguration_Finalizers := ObjectMetaApplyConfiguration_Finalizers m |} b.

Definition GRPCListenerApplyConfiguration_WithDeletionGracePeriodSeconds (value : Z)
    (b : GRPCListenerApplyConfiguration) : GRPCListenerApplyConfiguration :=
  let m := ensureObjectMetaApplyConfigurationExists b in
  set_meta
      {| ObjectMetaApplyConfiguration_Name := ObjectMetaApplyConfiguration_Name m;
         ObjectMetaApplyConfiguration_GenerateName := ObjectMetaApplyConfiguration_GenerateName m;
         ObjectMetaApplyConfiguration_Namespace := ObjectMetaApplyConfiguration_Namespace m;
         ObjectMetaApplyConfiguration_UID := ObjectMetaApplyConfiguration_UID m;
         ObjectMetaApplyConfiguration_ResourceVersion := ObjectMetaApplyConfiguration_ResourceVersion m;
         ObjectMetaApplyConfiguration_Generation := ObjectMetaApplyConfiguration_Generation m;
         ObjectMetaApplyConfiguration_CreationTimestamp := ObjectMetaApplyConfiguration_CreationTimestamp m;
         ObjectMetaApplyConfiguration_DeletionTimestamp := ObjectMetaApplyConfiguration_DeletionTimestamp m;
         ObjectMetaApplyConfiguration_DeletionGracePeriodSeconds := Some value;
         ObjectMetaApplyConfiguration_Labels := ObjectMetaApplyConfiguration_Labels m;
         ObjectMetaApplyConfiguration_Annotations := ObjectMetaApplyConfiguration_Annotations m;
         ObjectMetaApplyConfiguration_OwnerReferences := ObjectMetaApplyConfiguration_OwnerReferences m;
         ObjectMetaApplyConfiguration_Finalizers := ObjectMetaApplyConfiguration_Finalizers m |} b.

Definition GRPCListenerApplyConfiguration_WithLabels (entries : gmap string string)
    (b : GRPCListenerApplyConfiguration) : M GRPCListenerApplyConfiguration :=
  let m := ensureObjectMetaApplyConfigurationExists b in
  stored ← add_entries entries (ObjectMetaApplyConfiguration_Labels m);
  Ok (set_meta
      {| ObjectMetaApplyConfiguration_Name := ObjectMetaApplyConfiguration_Name m;
         ObjectMetaApplyConfiguration_GenerateName := ObjectMetaApplyConfiguration_GenerateName m;
         ObjectMetaApplyConfiguration_Namespace := ObjectMetaApplyConfiguration_Namespace m;
         ObjectMetaApplyConfiguration_UID := ObjectMetaApplyConfiguration_UID m;
         ObjectMetaApplyConfiguration_ResourceVersion := ObjectMetaApplyConfiguration_ResourceVersion m;
         ObjectMetaApplyConfiguration_Generation := ObjectMetaApplyConfiguration_Generation m;
         ObjectMetaApplyConfiguration_CreationTimestamp := ObjectMetaApplyConfiguration_CreationTimestamp m;
         ObjectMetaApplyConfiguration_DeletionTimestamp := ObjectMetaApplyConfiguration_DeletionTimestamp m;
         ObjectMetaApplyConfiguration_DeletionGracePeriodSeconds := ObjectMetaApplyConfiguration_DeletionGracePeriodSeconds m;
         ObjectMetaApplyConfiguration_Labels := stored;
         ObjectMetaApplyConfiguration_Annotations := ObjectMetaApplyConfiguration_Annotations m;
         ObjectMetaApplyConfiguration_OwnerReferences := ObjectMetaApplyConfiguration_OwnerReferences m;
         ObjectMetaApplyConfiguration_Finalizers := ObjectMetaApplyConfiguration_Finalizers m |} b).

Definition GRPCListenerApplyConfiguration_WithAnnotations (entries : gmap string string)
    (b : GRPCListenerApplyConfiguration) : M GRPCListenerApplyConfiguration :=
  let m := ensureObjectMetaApplyConfigurationExists b in
  stored ← add_entries entries (ObjectMetaApplyConfiguration_Annotations m);
  Ok (set_meta
      {| ObjectMetaApplyConfiguration_Name := ObjectMetaApplyConfiguration_Name m;
         ObjectMetaApplyConfiguration_GenerateName := ObjectMetaApplyConfiguration_GenerateName m;
         ObjectMetaApplyConfiguration_Namespace := ObjectMetaApplyConfiguration_Namespace m;
         ObjectMetaApplyConfiguration_UID := ObjectMetaApplyConfiguration_UID m;
         ObjectMetaApplyConfiguration_ResourceVersion := ObjectMetaApplyConfiguration_ResourceVersion m;
         ObjectMetaApplyConfiguration_Generation := ObjectMetaApplyConfiguration_Generation m;
         ObjectMetaApplyConfiguration_CreationTimestamp := ObjectMetaApplyConfiguration_CreationTimestamp m;
         ObjectMetaApplyConfiguration_DeletionTimestamp := ObjectMetaApplyConfiguration_DeletionTimestamp m;
         ObjectMetaApplyConfiguration_DeletionGracePeriodSeconds := ObjectMetaApplyConfiguration_DeletionGracePeriodSeconds m;
         ObjectMetaApplyConfiguration_Labels := ObjectMetaApplyConfiguration_Labels m;
         ObjectMetaApplyConfiguration_Annotations := stored;
         ObjectMetaApplyConfiguration_OwnerReferences := ObjectMetaApplyConfiguration_OwnerReferences m;
         ObjectMetaApplyConfiguration_Finalizers := ObjectMetaApplyConfiguration_Finalizers m |} b).

Definition GRPCListenerApplyConfiguration_WithOwnerReferences (values : list (option OwnerReferenceApplyConfiguration))
    (b : GRPCListenerApplyConfiguration) : M GRPCListenerApplyConfiguration :=
  let m := ensureObjectMetaApplyConfigurationExists b in
  appended ← append_values "WithOwnerReferences" (ObjectMetaApplyConfiguration_OwnerReferences m) values;
  Ok (set_meta
      {| ObjectMetaApplyConfiguration_Name := ObjectMetaApplyConfiguration_Name m;
         ObjectMetaApplyConfiguration_GenerateName := ObjectMetaApplyConfiguration_GenerateName m;
         ObjectMetaApplyConfiguration_Namespace := ObjectMetaApplyConfiguration_Namespace m;
         ObjectMetaApplyConfiguration_UID := ObjectMetaApplyConfiguration_UID m;
         ObjectMetaApplyConfiguration_ResourceVersion := ObjectMetaApplyConfiguration_ResourceVersion m;
         ObjectMetaApplyConfiguration_Generation := ObjectMetaApplyConfiguration_Generation m;
         ObjectMetaApplyConfiguration_CreationTimestamp := ObjectMetaApplyConfiguration_CreationTimestamp m;
         ObjectMetaApplyConfiguration_DeletionTimestamp := ObjectMetaApplyConfiguration_DeletionTimestamp m;
         ObjectMetaApplyConfiguration_DeletionGracePeriodSeconds := ObjectMetaApplyConfiguration_DeletionGracePeriodSeconds m;
         ObjectMetaApplyConfiguration_Labels := ObjectMetaApplyConfiguration_Labels m;
         ObjectMetaApplyConfiguration_Annotations := ObjectMetaApplyConfiguration_Annotations m;
         ObjectMetaApplyConfiguration_OwnerReferences := appended;
         ObjectMetaApplyConfiguration_Finalizers := ObjectMetaApplyConfiguration_Finalizers m |} b).

Definition GRPCListenerApplyConfiguration_WithFinalizers (values : list string)
    (b : GRPCListenerApplyConfiguration) : GRPCListenerApplyConfiguration :=
  let m := ensureObjectMetaApplyConfigurationExists b in
  set_meta
      {| ObjectMetaApplyConfiguration_Name := ObjectMetaApplyConfiguration_Name m;
         ObjectMetaApplyConfiguration_GenerateName := ObjectMetaApplyConfiguration_GenerateName m;
         ObjectMetaApplyConfiguration_Namespace := ObjectMetaApplyConfiguration_Namespace m;
         ObjectMetaApplyConfiguration_UID := ObjectMetaApplyConfiguration_UID m;
         ObjectMetaApplyConfiguration_ResourceVersion := ObjectMetaApplyConfiguration_ResourceVersion m;
         ObjectMetaApplyConfiguration_Generation := ObjectMetaApplyConfiguration_Generation m;
         ObjectMetaApplyConfiguration_CreationTimestamp := ObjectMetaApplyConfiguration_CreationTimestamp m;
         ObjectMetaApplyConfiguration_DeletionTimestamp := ObjectMetaApplyConfiguration_DeletionTimestamp m;
         ObjectMetaApplyConfiguration_DeletionGracePeriodSeconds := ObjectMetaApplyConfiguration_DeletionGracePeriodSeconds m;
         ObjectMetaApplyConfiguration_Labels := ObjectMetaApplyConfiguration_Labels m;
         ObjectMetaApplyConfiguration_Annotations := ObjectMetaApplyConfiguration_Annotations m;
         ObjectMetaApplyConfiguration_OwnerReferences := ObjectMetaApplyConfiguration_OwnerReferences m;
         ObjectMetaApplyConfiguration_Finalizers := ObjectMetaApplyConfiguration_Finalizers m ++ values |} b.

(** [func GRPCListener(name, namespace string)] *)
Definition GRPCListenerApplyConfiguration_New (name namespace : string)
  : GRPCListenerApplyConfiguration :=
  let b := GRPCListenerApplyConfiguration_empty in
  let b := GRPCListenerApplyConfiguration_WithName name b in
  let b := GRPCListenerApplyConfiguration_WithNamespace namespace b in
  let b := GRPCListenerApplyConfiguration_WithKind "GRPCListener" b in
  GRPCListenerApplyConfiguration_WithAPIVersion "api.gtc.dev/v1alpha1" b.

(** ** Lemmas *)

Lemma append_values_Ok {A} method (field vs : list A) :
  append_values method field (Some <$> vs) = Ok (field ++ vs).
Proof.
  unfold append_values. revert field. induction vs as [|v vs IH]; intros field; cbn.
  - by rewrite app_nil_r.
  - rewrite IH. by rewrite <- app_assoc.
Qed.

(** A nil argument is the only failure, and it is a panic. *)
Lemma append_values_nil {A} method (field : list A) vs :
  None ∈ vs -> append_values method field vs
    = Panic (PanicValue ("nil value passed to " +:+ method)).
Proof.
  unfold append_values. revert field. induction vs as [|[v|] vs IH]; intros field Hin; cbn;
    [by apply elem_of_nil in Hin| |done].
  apply IH. by apply elem_of_cons in Hin as [|].
Qed.
