(* ===== verification/ApplyJson.v ===== *)
(** The JSON encodings of the apply configurations, from the tags of their
    structs: [XApplyConfiguration_json] is what [encoding/json] makes of the apply
    configuration of [X]. *)

From S2P Require Import Prelude GoStrings GoPath Api Errors Json ApplyConfig.

(** [metav1.Duration] is encoded as the text of the duration; the encoding of the
    metadata is that of client-go. *)
Class MetaJson := {
  Duration_String : Duration -> string;
  ObjectMetaApplyConfiguration_encode : ObjectMetaApplyConfiguration -> json
}.

Section encodings.
Context `{MetaJson}.

Definition Duration_json (d : Duration) : json := JString (Duration_String d).
Definition MetadataFault_json (m : MetadataFault) : json := JObject [].

(** ** The apply configurations *)

Definition RingHashConfigApplyConfiguration_json (b : RingHashConfigApplyConfiguration) : json :=
  JObject (omitempty "minRingSize" (JNumber <$> RingHashConfigApplyConfiguration_MinRingSize b) ++
    omitempty "maxRingSize" (JNumber <$> RingHashConfigApplyConfiguration_MaxRingSize b)).

Definition FractionApplyConfiguration_json (b : FractionApplyConfiguration) : json :=
  JObject (omitempty "numerator" (JNumber <$> FractionApplyConfiguration_Numerator b) ++
    omitempty "denominator" (JText <$> FractionApplyConfiguration_Denominator b)).

Definition FaultDelayApplyConfiguration_json (b : FaultDelayApplyConfiguration) : json :=
  JObject (omitempty "fixed" (Duration_json <$> FaultDelayApplyConfiguration_Fixed b) ++
    omitempty "metadata" (MetadataFault_json <$> FaultDelayApplyConfiguration_Metadata b) ++
    omitempty "percentage" (FractionApplyConfiguration_json <$> FaultDelayApplyConfiguration_Percentage b)).

Definition FaultAbortApplyConfiguration_json (b : FaultAbortApplyConfiguration) : json :=
  JObject (omitempty "code" (JNumber <$> FaultAbortApplyConfiguration_Code b) ++
    omitempty "metadata" (MetadataFault_json <$> FaultAbortApplyConfiguration_Metadata b) ++
    omitempty "percentage" (FractionApplyConfiguration_json <$> FaultAbortApplyConfiguration_Percentage b)).

Definition RegexMatcherApplyConfiguration_json (b : RegexMatcherApplyConfiguration) : json :=
  JObject (omitempty "regex" (JText <$> RegexMatcherApplyConfiguration_Regex b) ++
    omitempty "engine" (JText <$> RegexMatcherApplyConfiguration_Engine b)).

Definition RangeMatcherApplyConfiguration_json (b : RangeMatcherApplyConfiguration) : json :=
  JObject (omitempty "start" (JNumber <$> RangeMatcherApplyConfiguration_Start b) ++
    omitempty "end" (JNumber <$> RangeMatcherApplyConfiguration_End b)).

Definition HeaderMatcherApplyConfiguration_json (b : HeaderMatcherApplyConfiguration) : json :=
  JObject (omitempty "name" (JText <$> HeaderMatcherApplyConfiguration_Name b) ++
    omitempty "exact" (JText <$> HeaderMatcherApplyConfiguration_Exact b) ++
    omitempty "regex" (RegexMatcherApplyConfiguration_json <$> HeaderMatcherApplyConfiguration_Regex b) ++
    omitempty "range" (RangeMatcherApplyConfiguration_json <$> HeaderMatcherApplyConfiguration_Range b) ++
    omitempty "present" (JBool <$> HeaderMatcherApplyConfiguration_Present b) ++
    omitempty "prefix" (JText <$> HeaderMatcherApplyConfiguration_Prefix b) ++
    omitempty "suffix" (JText <$> HeaderMatcherApplyConfiguration_Suffix b) ++
    omitempty "invert" (JBool <$> HeaderMatcherApplyConfiguration_Invert b)).

Definition FaultInterceptorApplyConfiguration_json (b : FaultInterceptorApplyConfiguration) : json :=
  JObject (omitempty "delay" (FaultDelayApplyConfiguration_json <$> FaultInterceptorApplyConfiguration_Delay b) ++
    omitempty "abort" (FaultAbortApplyConfiguration_json <$> FaultInterceptorApplyConfiguration_Abort b) ++
    omitempty "maxActiveFaults" (JNumber <$> FaultInterceptorApplyConfiguration_MaxActiveFaults b) ++
    omitempty_list "headers" (HeaderMatcherApplyConfiguration_json <$> FaultInterceptorApplyConfiguration_Headers b)).

Definition InterceptorApplyConfiguration_json (b : InterceptorApplyConfiguration) : json :=
  JObject (omitempty "fault" (FaultInterceptorApplyConfiguration_json <$> InterceptorApplyConfiguration_Fault b)).

Definition PortRefApplyConfiguration_json (b : PortRefApplyConfiguration) : json :=
  JObject (omitempty "number" (JNumber <$> PortRefApplyConfiguration_Number b) ++
    omitempty "name" (JText <$> PortRefApplyConfiguration_Name b)).

Definition ServiceRefApplyConfiguration_json (b : ServiceRefApplyConfiguration) : json :=
  JObject (omitempty "name" (JText <$> ServiceRefApplyConfiguration_Name b) ++
    omitempty "namespace" (JText <$> ServiceRefApplyConfiguration_Namespace b) ++
    omitempty "port" (PortRefApplyConfiguration_json <$> ServiceRefApplyConfiguration_Port b)).

Definition LocalityApplyConfiguration_json (b : LocalityApplyConfiguration) : json :=
  JObject (omitempty "weight" (JNumber <$> LocalityApplyConfiguration_Weight b) ++
    omitempty "priority" (JNumber <$> LocalityApplyConfiguration_Priority b) ++
    omitempty "service" (ServiceRefApplyConfiguration_json <$> LocalityApplyConfiguration_Service b)).

Definition BackendApplyConfiguration_json (b : BackendApplyConfiguration) : json :=
  JObject (omitempty "weight" (JNumber <$> BackendApplyConfiguration_Weight b) ++
    omitempty "maxRequests" (JNumber <$> BackendApplyConfiguration_MaxRequests b) ++
    omitempty "lbPolicy" (JText <$> BackendApplyConfiguration_LBPolicy b) ++
    omitempty "ringHashConfig" (RingHashConfigApplyConfiguration_json <$> BackendApplyConfiguration_RingHashConfig b) ++
    omitempty_list "interceptors" (InterceptorApplyConfiguration_json <$> BackendApplyConfiguration_Interceptors b) ++
    omitempty "service" (ServiceRefApplyConfiguration_json <$> BackendApplyConfiguration_Service b) ++
    omitempty_list "localities" (LocalityApplyConfiguration_json <$> BackendApplyConfiguration_Localities b)).

Definition ClusterApplyConfiguration_json (b : ClusterApplyConfiguration) : json :=
  JObject (omitempty "weight" (JNumber <$> ClusterApplyConfiguration_Weight b) ++
    omitempty "maxRequests" (JNumber <$> ClusterApplyConfiguration_MaxRequests b) ++
    omitempty "service" (ServiceRefApplyConfiguration_json <$> ClusterApplyConfiguration_Service b) ++
    omitempty_list "localities" (LocalityApplyConfiguration_json <$> ClusterApplyConfiguration_Localities b)).

Definition ClusterRefApplyConfiguration_json (b : ClusterRefApplyConfiguration) : json :=
  JObject (omitempty "name" (JText <$> ClusterRefApplyConfiguration_Name b)).

Definition DefaultClusterApplyConfiguration_json (b : DefaultClusterApplyConfiguration) : json :=
  JObject (omitempty "maxRequests" (JNumber <$> DefaultClusterApplyConfiguration_MaxRequests b) ++
    omitempty "service" (ServiceRefApplyConfiguration_json <$> DefaultClusterApplyConfiguration_Service b)).

Definition FaultFilterApplyConfiguration_json (b : FaultFilterApplyConfiguration) : json :=
  JObject (omitempty "delay" (FaultDelayApplyConfiguration_json <$> FaultFilterApplyConfiguration_Delay b) ++
    omitempty "abort" (FaultAbortApplyConfiguration_json <$> FaultFilterApplyConfiguration_Abort b) ++
    omitempty "maxActiveFaults" (JNumber <$> FaultFilterApplyConfiguration_MaxActiveFaults b) ++
    omitempty_list "headers" (HeaderMatcherApplyConfiguration_json <$> FaultFilterApplyConfiguration_Headers b)).

Definition FilterApplyConfiguration_json (b : FilterApplyConfiguration) : json :=
  JObject (omitempty "fault" (FaultFilterApplyConfiguration_json <$> FilterApplyConfiguration_Fault b)).

Definition RetryBackoffApplyConfiguration_json (b : RetryBackoffApplyConfiguration) : json :=
  JObject (omitempty "baseInterval" (Duration_json <$> RetryBackoffApplyConfiguration_BaseInterval b) ++
    omitempty "maxInterval" (Duration_json <$> RetryBackoffApplyConfiguration_MaxInterval b)).

Definition RetryPolicyApplyConfiguration_json (b : RetryPolicyApplyConfiguration) : json :=
  JObject (omitempty_list "retryOn" (JText <$> RetryPolicyApplyConfiguration_RetryOn b) ++
    omitempty "numRetries" (JNumber <$> RetryPolicyApplyConfiguration_NumRetries b) ++
    omitempty "backoff" (RetryBackoffApplyConfiguration_json <$> RetryPolicyApplyConfiguration_Backoff b)).

Definition MethodMatcherApplyConfiguration_json (b : MethodMatcherApplyConfiguration) : json :=
  JObject (omitempty "namespace" (JText <$> MethodMatcherApplyConfiguration_Namespace b) ++
    omitempty "service" (JText <$> MethodMatcherApplyConfiguration_Service b) ++
    omitempty "method" (JText <$> MethodMatcherApplyConfiguration_Method b)).

Definition ServiceMatcherApplyConfiguration_json (b : ServiceMatcherApplyConfiguration) : json :=
  JObject (omitempty "namespace" (JText <$> ServiceMatcherApplyConfiguration_Namespace b) ++
    omitempty "service" (JText <$> ServiceMatcherApplyConfiguration_Service b)).

Definition MetadataMatcherApplyConfiguration_json (b : MetadataMatcherApplyConfiguration) : json :=
  JObject (omitempty "name" (JText <$> MetadataMatcherApplyConfiguration_Name b) ++
    omitempty "exact" (JText <$> MetadataMatcherApplyConfiguration_Exact b) ++
    omitempty "regex" (RegexMatcherApplyConfiguration_json <$> MetadataMatcherApplyConfiguration_Regex b) ++
    omitempty "range" (RangeMatcherApplyConfiguration_json <$> MetadataMatcherApplyConfiguration_Range b) ++
    omitempty "present" (JBool <$> MetadataMatcherApplyConfiguration_Present b) ++
    omitempty "prefix" (JText <$> MetadataMatcherApplyConfiguration_Prefix b) ++
    omitempty "suffix" (JText <$> MetadataMatcherApplyConfiguration_Suffix b) ++
    omitempty "invert" (JBool <$> MetadataMatcherApplyConfiguration_Invert b)).

Definition RouteMatcherApplyConfiguration_json (b : RouteMatcherApplyConfiguration) : json :=
  JObject (omitempty "method" (MethodMatcherApplyConfiguration_json <$> RouteMatcherApplyConfiguration_Method b) ++
    omitempty "service" (ServiceMatcherApplyConfiguration_json <$> RouteMatcherApplyConfiguration_Service b) ++
    omitempty "namespace" (JText <$> RouteMatcherApplyConfiguration_Namespace b) ++
    omitempty_list "metadata" (MetadataMatcherApplyConfiguration_json <$> RouteMatcherApplyConfiguration_Metadata b) ++
    omitempty "fraction" (FractionApplyConfiguration_json <$> RouteMatcherApplyConfiguration_Fraction b)).

Definition HashPolicyApplyConfiguration_json (b : HashPolicyApplyConfiguration) : json :=
  JObject (omitempty "metadata" (JText <$> HashPolicyApplyConfiguration_Metadata b) ++
    omitempty "channel" (JBool <$> HashPolicyApplyConfiguration_Channel b) ++
    omitempty "terminal" (JBool <$> HashPolicyApplyConfiguration_Terminal b)).

Definition RouteApplyConfiguration_json (b : RouteApplyConfiguration) : json :=
  JObject (omitempty "matcher" (RouteMatcherApplyConfiguration_json <$> RouteApplyConfiguration_Matcher b) ++
    omitempty_list "interceptors" (InterceptorApplyConfiguration_json <$> RouteApplyConfiguration_Interceptors b) ++
    omitempty_list "hashPolicy" (HashPolicyApplyConfiguration_json <$> RouteApplyConfiguration_HashPolicy b) ++
    omitempty "maxStreamDuration" (Duration_json <$> RouteApplyConfiguration_MaxStreamDuration b) ++
    omitempty "grpcTimeoutHeaderMax" (Duration_json <$> RouteApplyConfiguration_GrpcTimeoutHeaderMax b) ++
    omitempty "retry" (RetryPolicyApplyConfiguration_json <$> RouteApplyConfiguration_Retry b) ++
    omitempty_list "backends" (BackendApplyConfiguration_json <$> RouteApplyConfiguration_Backends b)).

Definition GRPCListenerSpecApplyConfiguration_json (b : GRPCListenerSpecApplyConfiguration) : json :=
  JObject (omitempty "maxStreamDuration" (Duration_json <$> GRPCListenerSpecApplyConfiguration_MaxStreamDuration b) ++
    omitempty_list "interceptors" (InterceptorApplyConfiguration_json <$> GRPCListenerSpecApplyConfiguration_Interceptors b) ++
    omitempty "retry" (RetryPolicyApplyConfiguration_json <$> GRPCListenerSpecApplyConfiguration_Retry b) ++
    omitempty_list "routes" (RouteApplyConfiguration_json <$> GRPCListenerSpecApplyConfiguration_Routes b)).

Definition PathMatcherApplyConfiguration_json (b : PathMatcherApplyConfiguration) : json :=
  JObject (omitempty "prefix" (JText <$> PathMatcherApplyConfiguration_Prefix b) ++
    omitempty "path" (JText <$> PathMatcherApplyConfiguration_Path b) ++
    omitempty "regex" (RegexMatcherApplyConfiguration_json <$> PathMatcherApplyConfiguration_Regex b)).

(** The encoding of a [GRPCListenerApplyConfiguration]: the type metadata is
    inlined. *)
Definition GRPCListenerApplyConfiguration_json (b : GRPCListenerApplyConfiguration) : json :=
  JObject (omitempty "kind" (JText <$> GRPCListenerApplyConfiguration_Kind b) ++
    omitempty "apiVersion" (JText <$> GRPCListenerApplyConfiguration_APIVersion b) ++
    omitempty "metadata"
      (ObjectMetaApplyConfiguration_encode <$> GRPCListenerApplyConfiguration_ObjectMeta b) ++
    omitempty "spec"
      (GRPCListenerSpecApplyConfiguration_json <$> GRPCListenerApplyConfiguration_Spec b)).
End encodings.
