(* ===== verification/ApplyDecode.v ===== *)
(** What an apply configuration says, read by the tags of the API types.

    The decoders read members by the keys of the tags of
    [api/gtc/v1alpha1/*.go], as [encoding/json] does: an absent or null member
    leaves the zero value. [X_of] is the value of the API type [X] whose fields
    are those a configuration has set, and zero elsewhere. The theorem says that
    the encoding of a configuration, by the tags of
    [client/applyconfiguration/gtc/v1alpha1/*.go], is read as that value. *)

From Stdlib Require Import Ascii.
From S2P Require Import Prelude GoStrings GoPath GoStrconv Api Errors Json ApplyConfig ApplyJson.

(** The text of a duration can be parsed back. A [Duration] is an [int64]. *)
Class MetaJsonLaws `{MetaJson} := {
  ParseDuration : string -> option Duration;
  ParseDuration_String d : ParseDuration (Duration_String d) = Some d
}.

(** ** Members *)

Definition object_members (j : json) : option members :=
  match j with JObject ms => Some ms | _ => None end.

Fixpoint member (key : string) (ms : members) : option json :=
  match ms with
  | [] => None
  | (k, j) :: ms => if decide (k = key) then Some j else member key ms
  end.

Definition string_decode (j : json) : option string :=
  match j with JString s => Some s | _ => None end.
(** The numbers met here fit their fields: they come from fields of the same width. *)
Definition number_decode (j : json) : option Z :=
  match j with JNumber n => Some n | _ => None end.
Definition bool_decode (j : json) : option bool :=
  match j with JBool b => Some b | _ => None end.
Definition MetadataFault_decode (j : json) : option MetadataFault :=
  match j with JObject _ => Some mkMetadataFault | _ => None end.

Definition decode_pointer {A} (dec : json -> option A) (o : option json) : option (option A) :=
  match o with None | Some JNull => Some None | Some j => Some <$> dec j end.
Definition decode_value {A} (dec : json -> option A) (zero : A) (o : option json) : option A :=
  match o with None | Some JNull => Some zero | Some j => dec j end.
Definition decode_list {A} (dec : json -> option A) (o : option json) : option (list A) :=
  match o with
  | None | Some JNull => Some []
  | Some (JArray l) => mapM dec l
  | Some _ => None
  end.

(** The zero values of the structs that are fields of others. *)
Definition PortRef_zero : PortRef := {| PortRef_Number := 0; PortRef_Name := "" |}.
Definition GRPCListenerSpec_zero : GRPCListenerSpec :=
  {| GRPCListenerSpec_MaxStreamDuration := None; GRPCListenerSpec_Interceptors := [];
     GRPCListenerSpec_Retry := None; GRPCListenerSpec_Routes := [] |}.

(** ** The value a configuration stands for *)

Definition Fraction_of (b : FractionApplyConfiguration) : Fraction :=
  {| Fraction_Numerator := default 0%Z (FractionApplyConfiguration_Numerator b);
     Fraction_Denominator := default "" (json_text <$> FractionApplyConfiguration_Denominator b) |}.

Definition FaultDelay_of (b : FaultDelayApplyConfiguration) : FaultDelay :=
  {| FaultDelay_Fixed := FaultDelayApplyConfiguration_Fixed b;
     FaultDelay_Metadata := FaultDelayApplyConfiguration_Metadata b;
     FaultDelay_Percentage := Fraction_of <$> FaultDelayApplyConfiguration_Percentage b |}.

Definition FaultAbort_of (b : FaultAbortApplyConfiguration) : FaultAbort :=
  {| FaultAbort_Code := FaultAbortApplyConfiguration_Code b;
     FaultAbort_Metadata := FaultAbortApplyConfiguration_Metadata b;
     FaultAbort_Percentage := Fraction_of <$> FaultAbortApplyConfiguration_Percentage b |}.

Definition RegexMatcher_of (b : RegexMatcherApplyConfiguration) : RegexMatcher :=
  {| RegexMatcher_Regex := default "" (json_text <$> RegexMatcherApplyConfiguration_Regex b);
     RegexMatcher_Engine := default "" (json_text <$> RegexMatcherApplyConfiguration_Engine b) |}.

Definition RangeMatcher_of (b : RangeMatcherApplyConfiguration) : RangeMatcher :=
  {| RangeMatcher_Start := default 0%Z (RangeMatcherApplyConfiguration_Start b);
     RangeMatcher_End := default 0%Z (RangeMatcherApplyConfiguration_End b) |}.

Definition HeaderMatcher_of (b : HeaderMatcherApplyConfiguration) : HeaderMatcher :=
  {| HeaderMatcher_Name := default "" (json_text <$> HeaderMatcherApplyConfiguration_Name b);
     HeaderMatcher_Exact := json_text <$> HeaderMatcherApplyConfiguration_Exact b;
     HeaderMatcher_Regex := RegexMatcher_of <$> HeaderMatcherApplyConfiguration_Regex b;
     HeaderMatcher_Range := RangeMatcher_of <$> HeaderMatcherApplyConfiguration_Range b;
     HeaderMatcher_Present := HeaderMatcherApplyConfiguration_Present b;
     HeaderMatcher_Prefix := json_text <$> HeaderMatcherApplyConfiguration_Prefix b;
     HeaderMatcher_Suffix := json_text <$> HeaderMatcherApplyConfiguration_Suffix b;
     HeaderMatcher_Invert := default false (HeaderMatcherApplyConfiguration_Invert b) |}.

Definition FaultInterceptor_of (b : FaultInterceptorApplyConfiguration) : FaultInterceptor :=
  {| FaultInterceptor_Delay := FaultDelay_of <$> FaultInterceptorApplyConfiguration_Delay b;
     FaultInterceptor_Abort := FaultAbort_of <$> FaultInterceptorApplyConfiguration_Abort b;
     FaultInterceptor_MaxActiveFaults := FaultInterceptorApplyConfiguration_MaxActiveFaults b;
     FaultInterceptor_Headers := HeaderMatcher_of <$> FaultInterceptorApplyConfiguration_Headers b |}.

Definition Interceptor_of (b : InterceptorApplyConfiguration) : Interceptor :=
  {| Interceptor_Fault := FaultInterceptor_of <$> InterceptorApplyConfiguration_Fault b |}.

Definition RetryBackoff_of (b : RetryBackoffApplyConfiguration) : RetryBackoff :=
  {| RetryBackoff_BaseInterval := default 0%Z (RetryBackoffApplyConfiguration_BaseInterval b);
     RetryBackoff_MaxInterval := RetryBackoffApplyConfiguration_MaxInterval b |}.

Definition RetryPolicy_of (b : RetryPolicyApplyConfiguration) : RetryPolicy :=
  {| RetryPolicy_RetryOn := json_text <$> RetryPolicyApplyConfiguration_RetryOn b;
     RetryPolicy_NumRetries := RetryPolicyApplyConfiguration_NumRetries b;
     RetryPolicy_Backoff := RetryBackoff_of <$> RetryPolicyApplyConfiguration_Backoff b |}.

Definition MethodMatcher_of (b : MethodMatcherApplyConfiguration) : MethodMatcher :=
  {| MethodMatcher_Namespace := default "" (json_text <$> MethodMatcherApplyConfiguration_Namespace b);
     MethodMatcher_Service := default "" (json_text <$> MethodMatcherApplyConfiguration_Service b);
     MethodMatcher_Method := default "" (json_text <$> MethodMatcherApplyConfiguration_Method b) |}.

Definition ServiceMatcher_of (b : ServiceMatcherApplyConfiguration) : ServiceMatcher :=
  {| ServiceMatcher_Namespace := default "" (json_text <$> ServiceMatcherApplyConfiguration_Namespace b);
     ServiceMatcher_Service := default "" (json_text <$> ServiceMatcherApplyConfiguration_Service b) |}.

Definition MetadataMatcher_of (b : MetadataMatcherApplyConfiguration) : MetadataMatcher :=
  {| MetadataMatcher_Name := default "" (json_text <$> MetadataMatcherApplyConfiguration_Name b);
     MetadataMatcher_Exact := json_text <$> MetadataMatcherApplyConfiguration_Exact b;
     MetadataMatcher_Regex := RegexMatcher_of <$> MetadataMatcherApplyConfiguration_Regex b;
     MetadataMatcher_Range := RangeMatcher_of <$> MetadataMatcherApplyConfiguration_Range b;
     MetadataMatcher_Present := MetadataMatcherApplyConfiguration_Present b;
     MetadataMatcher_Prefix := json_text <$> MetadataMatcherApplyConfiguration_Prefix b;
     MetadataMatcher_Suffix := json_text <$> MetadataMatcherApplyConfiguration_Suffix b;
     MetadataMatcher_Invert := default false (MetadataMatcherApplyConfiguration_Invert b) |}.

Definition RouteMatcher_of (b : RouteMatcherApplyConfiguration) : RouteMatcher :=
  {| RouteMatcher_Method := MethodMatcher_of <$> RouteMatcherApplyConfiguration_Method b;
     RouteMatcher_Service := ServiceMatcher_of <$> RouteMatcherApplyConfiguration_Service b;
     RouteMatcher_Namespace := json_text <$> RouteMatcherApplyConfiguration_Namespace b;
     RouteMatcher_Metadata := MetadataMatcher_of <$> RouteMatcherApplyConfiguration_Metadata b;
     RouteMatcher_Fraction := Fraction_of <$> RouteMatcherApplyConfiguration_Fraction b |}.

Definition HashPolicy_of (b : HashPolicyApplyConfiguration) : HashPolicy :=
  {| HashPolicy_Metadata := default "" (json_text <$> HashPolicyApplyConfiguration_Metadata b);
     HashPolicy_Channel := HashPolicyApplyConfiguration_Channel b;
     HashPolicy_Terminal := default false (HashPolicyApplyConfiguration_Terminal b) |}.

Definition RingHashConfig_of (b : RingHashConfigApplyConfiguration) : RingHashConfig :=
  {| RingHashConfig_MinRingSize := default 0%Z (RingHashConfigApplyConfiguration_MinRingSize b);
     RingHashConfig_MaxRingSize := default 0%Z (RingHashConfigApplyConfiguration_MaxRingSize b) |}.

Definition PortRef_of (b : PortRefApplyConfiguration) : PortRef :=
  {| PortRef_Number := default 0%Z (PortRefApplyConfiguration_Number b);
     PortRef_Name := default "" (json_text <$> PortRefApplyConfiguration_Name b) |}.

Definition ServiceRef_of (b : ServiceRefApplyConfiguration) : ServiceRef :=
  {| ServiceRef_Name := default "" (json_text <$> ServiceRefApplyConfiguration_Name b);
     ServiceRef_Namespace := default "" (json_text <$> ServiceRefApplyConfiguration_Namespace b);
     ServiceRef_Port := default PortRef_zero (PortRef_of <$> ServiceRefApplyConfiguration_Port b) |}.

Definition Locality_of (b : LocalityApplyConfiguration) : Locality :=
  {| Locality_Weight := default 0%Z (LocalityApplyConfiguration_Weight b);
     Locality_Priority := default 0%Z (LocalityApplyConfiguration_Priority b);
     Locality_Service := ServiceRef_of <$> LocalityApplyConfiguration_Service b |}.

Definition Backend_of (b : BackendApplyConfiguration) : Backend :=
  {| Backend_Weight := default 0%Z (BackendApplyConfiguration_Weight b);
     Backend_MaxRequests := BackendApplyConfiguration_MaxRequests b;
     Backend_LBPolicy := default "" (json_text <$> BackendApplyConfiguration_LBPolicy b);
     Backend_RingHashConfig := RingHashConfig_of <$> BackendApplyConfiguration_RingHashConfig b;
     Backend_Interceptors := Interceptor_of <$> BackendApplyConfiguration_Interceptors b;
     Backend_Service := ServiceRef_of <$> BackendApplyConfiguration_Service b;
     Backend_Localities := Locality_of <$> BackendApplyConfiguration_Localities b |}.

Definition Route_of (b : RouteApplyConfiguration) : Route :=
  {| Route_Matcher := RouteMatcher_of <$> RouteApplyConfiguration_Matcher b;
     Route_Interceptors := Interceptor_of <$> RouteApplyConfiguration_Interceptors b;
     Route_HashPolicy := HashPolicy_of <$> RouteApplyConfiguration_HashPolicy b;
     Route_MaxStreamDuration := RouteApplyConfiguration_MaxStreamDuration b;
     Route_GrpcTimeoutHeaderMax := RouteApplyConfiguration_GrpcTimeoutHeaderMax b;
     Route_Retry := RetryPolicy_of <$> RouteApplyConfiguration_Retry b;
     Route_Backends := Backend_of <$> RouteApplyConfiguration_Backends b |}.

Definition GRPCListenerSpec_of (b : GRPCListenerSpecApplyConfiguration) : GRPCListenerSpec :=
  {| GRPCListenerSpec_MaxStreamDuration := GRPCListenerSpecApplyConfiguration_MaxStreamDuration b;
     GRPCListenerSpec_Interceptors := Interceptor_of <$> GRPCListenerSpecApplyConfiguration_Interceptors b;
     GRPCListenerSpec_Retry := RetryPolicy_of <$> GRPCListenerSpecApplyConfiguration_Retry b;
     GRPCListenerSpec_Routes := Route_of <$> GRPCListenerSpecApplyConfiguration_Routes b |}.

Section decoders.
Context `{MetaJsonLaws}.

Definition Duration_decode (j : json) : option Duration :=
  string_decode j ≫= ParseDuration.

(** ** Decoders *)

Definition Fraction_decode (j : json) : option Fraction :=
  ms ← object_members j;
  x0 ← decode_value number_decode 0%Z (member "numerator" ms);
  x1 ← decode_value string_decode "" (member "denominator" ms);
  Some {| Fraction_Numerator := x0;
          Fraction_Denominator := x1 |}.

Definition FaultDelay_decode (j : json) : option FaultDelay :=
  ms ← object_members j;
  x0 ← decode_pointer Duration_decode (member "fixed" ms);
  x1 ← decode_pointer MetadataFault_decode (member "metadata" ms);
  x2 ← decode_pointer Fraction_decode (member "percentage" ms);
  Some {| FaultDelay_Fixed := x0;
          FaultDelay_Metadata := x1;
          FaultDelay_Percentage := x2 |}.

Definition FaultAbort_decode (j : json) : option FaultAbort :=
  ms ← object_members j;
  x0 ← decode_pointer number_decode (member "code" ms);
  x1 ← decode_pointer MetadataFault_decode (member "metadata" ms);
  x2 ← decode_pointer Fraction_decode (member "percentage" ms);
  Some {| FaultAbort_Code := x0;
          FaultAbort_Metadata := x1;
          FaultAbort_Percentage := x2 |}.

Definition RegexMatcher_decode (j : json) : option RegexMatcher :=
  ms ← object_members j;
  x0 ← decode_value string_decode "" (member "regex" ms);
  x1 ← decode_value string_decode "" (member "engine" ms);
  Some {| RegexMatcher_Regex := x0;
          RegexMatcher_Engine := x1 |}.

Definition RangeMatcher_decode (j : json) : option RangeMatcher :=
  ms ← object_members j;
  x0 ← decode_value number_decode 0%Z (member "start" ms);
  x1 ← decode_value number_decode 0%Z (member "end" ms);
  Some {| RangeMatcher_Start := x0;
          RangeMatcher_End := x1 |}.

Definition HeaderMatcher_decode (j : json) : option HeaderMatcher :=
  ms ← object_members j;
  x0 ← decode_value string_decode "" (member "name" ms);
  x1 ← decode_pointer string_decode (member "exact" ms);
  x2 ← decode_pointer RegexMatcher_decode (member "regex" ms);
  x3 ← decode_pointer RangeMatcher_decode (member "range" ms);
  x4 ← decode_pointer bool_decode (member "present" ms);
  x5 ← decode_pointer string_decode (member "prefix" ms);
  x6 ← decode_pointer string_decode (member "suffix" ms);
  x7 ← decode_value bool_decode false (member "invert" ms);
  Some {| HeaderMatcher_Name := x0;
          HeaderMatcher_Exact := x1;
          HeaderMatcher_Regex := x2;
          HeaderMatcher_Range := x3;
          HeaderMatcher_Present := x4;
          HeaderMatcher_Prefix := x5;
          HeaderMatcher_Suffix := x6;
          HeaderMatcher_Invert := x7 |}.

Definition FaultInterceptor_decode (j : json) : option FaultInterceptor :=
  ms ← object_members j;
  x0 ← decode_pointer FaultDelay_decode (member "delay" ms);
  x1 ← decode_pointer FaultAbort_decode (member "abort" ms);
  x2 ← decode_pointer number_decode (member "maxActiveFaults" ms);
  x3 ← decode_list HeaderMatcher_decode (member "headers" ms);
  Some {| FaultInterceptor_Delay := x0;
          FaultInterceptor_Abort := x1;
          FaultInterceptor_MaxActiveFaults := x2;
          FaultInterceptor_Headers := x3 |}.

Definition Interceptor_decode (j : json) : option Interceptor :=
  ms ← object_members j;
  x0 ← decode_pointer FaultInterceptor_decode (member "fault" ms);
  Some {| Interceptor_Fault := x0 |}.

Definition RetryBackoff_decode (j : json) : option RetryBackoff :=
  ms ← object_members j;
  x0 ← decode_value Duration_decode 0%Z (member "baseInterval" ms);
  x1 ← decode_pointer Duration_decode (member "maxInterval" ms);
  Some {| RetryBackoff_BaseInterval := x0;
          RetryBackoff_MaxInterval := x1 |}.

Definition RetryPolicy_decode (j : json) : option RetryPolicy :=
  ms ← object_members j;
  x0 ← decode_list string_decode (member "retryOn" ms);
  x1 ← decode_pointer number_decode (member "numRetries" ms);
  x2 ← decode_pointer RetryBackoff_decode (member "backoff" ms);
  Some {| RetryPolicy_RetryOn := x0;
          RetryPolicy_NumRetries := x1;
          RetryPolicy_Backoff := x2 |}.

Definition MethodMatcher_decode (j : json) : option MethodMatcher :=
  ms ← object_members j;
  x0 ← decode_value string_decode "" (member "namespace" ms);
  x1 ← decode_value string_decode "" (member "service" ms);
  x2 ← decode_value string_decode "" (member "method" ms);
  Some {| MethodMatcher_Namespace := x0;
          MethodMatcher_Service := x1;
          MethodMatcher_Method := x2 |}.

Definition ServiceMatcher_decode (j : json) : option ServiceMatcher :=
  ms ← object_members j;
  x0 ← decode_value string_decode "" (member "namespace" ms);
  x1 ← decode_value string_decode "" (member "service" ms);
  Some {| ServiceMatcher_Namespace := x0;
          ServiceMatcher_Service := x1 |}.

Definition MetadataMatcher_decode (j : json) : option MetadataMatcher :=
  ms ← object_members j;
  x0 ← decode_value string_decode "" (member "name" ms);
  x1 ← decode_pointer string_decode (member "exact" ms);
  x2 ← decode_pointer RegexMatcher_decode (member "regex" ms);
  x3 ← decode_pointer RangeMatcher_decode (member "range" ms);
  x4 ← decode_pointer bool_decode (member "present" ms);
  x5 ← decode_pointer string_decode (member "prefix" ms);
  x6 ← decode_pointer string_decode (member "suffix" ms);
  x7 ← decode_value bool_decode false (member "invert" ms);
  Some {| MetadataMatcher_Name := x0;
          MetadataMatcher_Exact := x1;
          MetadataMatcher_Regex := x2;
          MetadataMatcher_Range := x3;
          MetadataMatcher_Present := x4;
          MetadataMatcher_Prefix := x5;
          MetadataMatcher_Suffix := x6;
          MetadataMatcher_Invert := x7 |}.

Definition RouteMatcher_decode (j : json) : option RouteMatcher :=
  ms ← object_members j;
  x0 ← decode_pointer MethodMatcher_decode (member "method" ms);
  x1 ← decode_pointer ServiceMatcher_decode (member "service" ms);
  x2 ← decode_pointer string_decode (member "namespace" ms);
  x3 ← decode_list MetadataMatcher_decode (member "metadata" ms);
  x4 ← decode_pointer Fraction_decode (member "fraction" ms);
  Some {| RouteMatcher_Method := x0;
          RouteMatcher_Service := x1;
          RouteMatcher_Namespace := x2;
          RouteMatcher_Metadata := x3;
          RouteMatcher_Fraction := x4 |}.

Definition HashPolicy_decode (j : json) : option HashPolicy :=
  ms ← object_members j;
  x0 ← decode_value string_decode "" (member "metadata" ms);
  x1 ← decode_pointer bool_decode (member "channel" ms);
  x2 ← decode_value bool_decode false (member "terminal" ms);
  Some {| HashPolicy_Metadata := x0;
          HashPolicy_Channel := x1;
          HashPolicy_Terminal := x2 |}.

Definition RingHashConfig_decode (j : json) : option RingHashConfig :=
  ms ← object_members j;
  x0 ← decode_value number_decode 0%Z (member "minRingSize" ms);
  x1 ← decode_value number_decode 0%Z (member "maxRingSize" ms);
  Some {| RingHashConfig_MinRingSize := x0;
          RingHashConfig_MaxRingSize := x1 |}.

Definition PortRef_decode (j : json) : option PortRef :=
  ms ← object_members j;
  x0 ← decode_value number_decode 0%Z (member "number" ms);
  x1 ← decode_value string_decode "" (member "name" ms);
  Some {| PortRef_Number := x0;
          PortRef_Name := x1 |}.

Definition ServiceRef_decode (j : json) : option ServiceRef :=
  ms ← object_members j;
  x0 ← decode_value string_decode "" (member "name" ms);
  x1 ← decode_value string_decode "" (member "namespace" ms);
  x2 ← decode_value PortRef_decode PortRef_zero (member "port" ms);
  Some {| ServiceRef_Name := x0;
          ServiceRef_Namespace := x1;
          ServiceRef_Port := x2 |}.

Definition Locality_decode (j : json) : option Locality :=
  ms ← object_members j;
  x0 ← decode_value number_decode 0%Z (member "weight" ms);
  x1 ← decode_value number_decode 0%Z (member "priority" ms);
  x2 ← decode_pointer ServiceRef_decode (member "service" ms);
  Some {| Locality_Weight := x0;
          Locality_Priority := x1;
          Locality_Service := x2 |}.

Definition Backend_decode (j : json) : option Backend :=
  ms ← object_members j;
  x0 ← decode_value number_decode 0%Z (member "weight" ms);
  x1 ← decode_pointer number_decode (member "maxRequests" ms);
  x2 ← decode_value string_decode "" (member "lbPolicy" ms);
  x3 ← decode_pointer RingHashConfig_decode (member "ringHashConfig" ms);
  x4 ← decode_list Interceptor_decode (member "interceptors" ms);
  x5 ← decode_pointer ServiceRef_decode (member "service" ms);
  x6 ← decode_list Locality_decode (member "localities" ms);
  Some {| Backend_Weight := x0;
          Backend_MaxRequests := x1;
          Backend_LBPolicy := x2;
          Backend_RingHashConfig := x3;
          Backend_Interceptors := x4;
          Backend_Service := x5;
          Backend_Localities := x6 |}.

Definition Route_decode (j : json) : option Route :=
  ms ← object_members j;
  x0 ← decode_pointer RouteMatcher_decode (member "matcher" ms);
  x1 ← decode_list Interceptor_decode (member "interceptors" ms);
  x2 ← decode_list HashPolicy_decode (member "hashPolicy" ms);
  x3 ← decode_pointer Duration_decode (member "maxStreamDuration" ms);
  x4 ← decode_pointer Duration_decode (member "grpcTimeoutHeaderMax" ms);
  x5 ← decode_pointer RetryPolicy_decode (member "retry" ms);
  x6 ← decode_list Backend_decode (member "backends" ms);
  Some {| Route_Matcher := x0;
          Route_Interceptors := x1;
          Route_HashPolicy := x2;
          Route_MaxStreamDuration := x3;
          Route_GrpcTimeoutHeaderMax := x4;
          Route_Retry := x5;
          Route_Backends := x6 |}.

Definition GRPCListenerSpec_decode (j : json) : option GRPCListenerSpec :=
  ms ← object_members j;
  x0 ← decode_pointer Duration_decode (member "maxStreamDuration" ms);
  x1 ← decode_list Interceptor_decode (member "interceptors" ms);
  x2 ← decode_pointer RetryPolicy_decode (member "retry" ms);
  x3 ← decode_list Route_decode (member "routes" ms);
  Some {| GRPCListenerSpec_MaxStreamDuration := x0;
          GRPCListenerSpec_Interceptors := x1;
          GRPCListenerSpec_Retry := x2;
          GRPCListenerSpec_Routes := x3 |}.

(** ** Lemmas *)

(** What [enc] makes of a configuration is read by [dec] as the value it stands
    for; it is never null. *)
Definition means {A B} (dec : json -> option A) (enc : B -> json) (val : B -> A) : Prop :=
  forall b, dec (enc b) = Some (val b) /\ enc b <> JNull.

Lemma member_other k k' o ms :
  k' <> k -> member k (omitempty k' o ++ ms) = member k ms.
Proof. intros Hk. destruct o; cbn; [|done]. by rewrite decide_False. Qed.

Lemma member_same k o ms : member k ms = None -> member k (omitempty k o ++ ms) = o.
Proof. intros Hms. destruct o; cbn; [|done]. by rewrite decide_True. Qed.

Lemma member_last k o : member k (omitempty k o) = o.
Proof. destruct o; cbn; [|done]. by rewrite decide_True. Qed.

Lemma member_none k k' o : k' <> k -> member k (omitempty k' o) = None.
Proof. intros Hk. destruct o; cbn; [|done]. by rewrite decide_False. Qed.

(** The member of a slice, in the same form. *)
Definition list_value (l : list json) : option json :=
  match l with [] => None | _ => Some (JArray l) end.

Lemma omitempty_list_as k l : omitempty_list k l = omitempty k (list_value l).
Proof. by destruct l. Qed.

(** A value of each kind is decoded. *)
Lemma means_text : means string_decode JText json_text.
Proof. done. Qed.
Lemma means_number : means number_decode JNumber id.
Proof. done. Qed.
Lemma means_bool : means bool_decode JBool id.
Proof. done. Qed.
Lemma means_duration : means Duration_decode Duration_json id.
Proof. intros d. split; [apply ParseDuration_String|done]. Qed.
Lemma means_fault : means MetadataFault_decode MetadataFault_json id.
Proof. by intros []. Qed.

Lemma decode_pointer_json {A B} (dec : json -> option A) enc (val : B -> A) (o : option B) :
  means dec enc val -> decode_pointer dec (enc <$> o) = Some (val <$> o).
Proof.
  intros Hd. destruct o as [b|]; [|done]. destruct (Hd b) as [Hb Hn]. cbn.
  destruct (enc b); cbn in *; by rewrite ?Hb.
Qed.

Lemma decode_value_json {A B} (dec : json -> option A) enc (val : B -> A) zero (o : option B) :
  means dec enc val -> decode_value dec zero (enc <$> o) = Some (default zero (val <$> o)).
Proof.
  intros Hd. destruct o as [b|]; [|done]. destruct (Hd b) as [Hb Hn]. cbn.
  by destruct (enc b).
Qed.

Lemma decode_list_json {A B} (dec : json -> option A) enc (val : B -> A) (l : list B) :
  means dec enc val -> decode_list dec (list_value (enc <$> l)) = Some (val <$> l).
Proof.
  intros Hd. destruct l as [|b l]; [done|].
  change (mapM dec (enc <$> b :: l) = Some (val <$> b :: l)).
  apply mapM_Some. rewrite Forall2_fmap_l, Forall2_fmap_r.
  apply Forall_Forall2_diag, Forall_forall. intros y _. apply (proj1 (Hd y)).
Qed.

(** Look a member up, past the ones with other keys. *)
Ltac find_member :=
  repeat rewrite member_other by discriminate;
  first [rewrite member_last
        |rewrite member_same by
           (repeat rewrite member_other by discriminate; by apply member_none)].

Ltac decode_field :=
  first [erewrite decode_value_json by eassumption
        |erewrite decode_pointer_json by eassumption
        |erewrite decode_list_json by eassumption];
  rewrite ?list_fmap_id, ?option_fmap_id; cbn [mbind option_bind].

Ltac decode_struct :=
  pose proof means_text; pose proof means_number; pose proof means_bool;
  pose proof means_duration; pose proof means_fault;
  let b := fresh "b" in intros b; split; [|done];
  match goal with |- ?dec ?e = Some ?v =>
    unfold dec; let e' := eval red in e in change e with e';
    let v' := eval red in v in change v with v' end;
  cbn [object_members mbind option_bind]; rewrite ?omitempty_list_as;
  repeat (find_member; decode_field); reflexivity.

Lemma Fraction_decode_json : means Fraction_decode FractionApplyConfiguration_json Fraction_of.
Proof.
  decode_struct.
Qed.

Lemma FaultDelay_decode_json : means FaultDelay_decode FaultDelayApplyConfiguration_json FaultDelay_of.
Proof.
  pose proof Fraction_decode_json. decode_struct.
Qed.

Lemma FaultAbort_decode_json : means FaultAbort_decode FaultAbortApplyConfiguration_json FaultAbort_of.
Proof.
  pose proof Fraction_decode_json. decode_struct.
Qed.

Lemma RegexMatcher_decode_json : means RegexMatcher_decode RegexMatcherApplyConfiguration_json RegexMatcher_of.
Proof.
  decode_struct.
Qed.

Lemma RangeMatcher_decode_json : means RangeMatcher_decode RangeMatcherApplyConfiguration_json RangeMatcher_of.
Proof.
  decode_struct.
Qed.

Lemma HeaderMatcher_decode_json : means HeaderMatcher_decode HeaderMatcherApplyConfiguration_json HeaderMatcher_of.
Proof.
  pose proof RegexMatcher_decode_json. pose proof RangeMatcher_decode_json. decode_struct.
Qed.

Lemma FaultInterceptor_decode_json : means FaultInterceptor_decode FaultInterceptorApplyConfiguration_json FaultInterceptor_of.
Proof.
  pose proof FaultDelay_decode_json. pose proof FaultAbort_decode_json. pose proof HeaderMatcher_decode_json. decode_struct.
Qed.

Lemma Interceptor_decode_json : means Interceptor_decode InterceptorApplyConfiguration_json Interceptor_of.
Proof.
  pose proof FaultInterceptor_decode_json. decode_struct.
Qed.

Lemma RetryBackoff_decode_json : means RetryBackoff_decode RetryBackoffApplyConfiguration_json RetryBackoff_of.
Proof.
  decode_struct.
Qed.

Lemma RetryPolicy_decode_json : means RetryPolicy_decode RetryPolicyApplyConfiguration_json RetryPolicy_of.
Proof.
  pose proof RetryBackoff_decode_json. decode_struct.
Qed.

Lemma MethodMatcher_decode_json : means MethodMatcher_decode MethodMatcherApplyConfiguration_json MethodMatcher_of.
Proof.
  decode_struct.
Qed.

Lemma ServiceMatcher_decode_json : means ServiceMatcher_decode ServiceMatcherApplyConfiguration_json ServiceMatcher_of.
Proof.
  decode_struct.
Qed.

Lemma MetadataMatcher_decode_json : means MetadataMatcher_decode MetadataMatcherApplyConfiguration_json MetadataMatcher_of.
Proof.
  pose proof RegexMatcher_decode_json. pose proof RangeMatcher_decode_json. decode_struct.
Qed.

Lemma RouteMatcher_decode_json : means RouteMatcher_decode RouteMatcherApplyConfiguration_json RouteMatcher_of.
Proof.
  pose proof MethodMatcher_decode_json. pose proof ServiceMatcher_decode_json. pose proof MetadataMatcher_decode_json. pose proof Fraction_decode_json. decode_struct.
Qed.

Lemma HashPolicy_decode_json : means HashPolicy_decode HashPolicyApplyConfiguration_json HashPolicy_of.
Proof.
  decode_struct.
Qed.

Lemma RingHashConfig_decode_json : means RingHashConfig_decode RingHashConfigApplyConfiguration_json RingHashConfig_of.
Proof.
  decode_struct.
Qed.

Lemma PortRef_decode_json : means PortRef_decode PortRefApplyConfiguration_json PortRef_of.
Proof.
  decode_struct.
Qed.

Lemma ServiceRef_decode_json : means ServiceRef_decode ServiceRefApplyConfiguration_json ServiceRef_of.
Proof.
  pose proof PortRef_decode_json. decode_struct.
Qed.

Lemma Locality_decode_json : means Locality_decode LocalityApplyConfiguration_json Locality_of.
Proof.
  pose proof ServiceRef_decode_json. decode_struct.
Qed.

Lemma Backend_decode_json : means Backend_decode BackendApplyConfiguration_json Backend_of.
Proof.
  pose proof RingHashConfig_decode_json. pose proof Interceptor_decode_json. pose proof ServiceRef_decode_json. pose proof Locality_decode_json. decode_struct.
Qed.

Lemma Route_decode_json : means Route_decode RouteApplyConfiguration_json Route_of.
Proof.
  pose proof RouteMatcher_decode_json. pose proof Interceptor_decode_json. pose proof HashPolicy_decode_json. pose proof RetryPolicy_decode_json. pose proof Backend_decode_json. decode_struct.
Qed.

Lemma GRPCListenerSpec_decode_json : means GRPCListenerSpec_decode GRPCListenerSpecApplyConfiguration_json GRPCListenerSpec_of.
Proof.
  pose proof Interceptor_decode_json. pose proof RetryPolicy_decode_json. pose proof Route_decode_json. decode_struct.
Qed.

(** ** Properties *)

(** C27: an apply configuration says what its fields say. Whatever a
    [GRPCListenerApplyConfiguration] was built with, the body that [Apply] sends
    for it has its kind, its API version and its metadata, and a member [spec]
    that, read by the tags of the API types, is the specification with the
    fields that were set, at every depth, and the zero value elsewhere; strings
    that are not valid UTF-8 are read with the replacements of [encoding/json]. *)
Theorem apply_body_means (b : GRPCListenerApplyConfiguration) :
  exists ms, GRPCListenerApplyConfiguration_json b = JObject ms /\
    member "kind" ms = JText <$> GRPCListenerApplyConfiguration_Kind b /\
    member "apiVersion" ms = JText <$> GRPCListenerApplyConfiguration_APIVersion b /\
    member "metadata" ms
      = ObjectMetaApplyConfiguration_encode <$> GRPCListenerApplyConfiguration_ObjectMeta b /\
    decode_value GRPCListenerSpec_decode GRPCListenerSpec_zero (member "spec" ms)
      = Some (default GRPCListenerSpec_zero
                (GRPCListenerSpec_of <$> GRPCListenerApplyConfiguration_Spec b)).
Proof.
  eexists. split; [reflexivity|]. split; [by find_member|]. split; [by find_member|].
  split; [by find_member|]. find_member. apply decode_value_json, GRPCListenerSpec_decode_json.
Qed.
End decoders.

(** ** Witnesses *)

(** Durations as signed numbers of nanoseconds. *)
Definition plain_meta : MetaJson := {|
  Duration_String d :=
    if (d <? 0)%Z then String "-"%char (print_N (Z.to_N (- d))) else String "+"%char (print_N (Z.to_N d));
  ObjectMetaApplyConfiguration_encode m :=
    JObject (omitempty "name" (JText <$> ObjectMetaApplyConfiguration_Name m) ++
             omitempty "namespace" (JText <$> ObjectMetaApplyConfiguration_Namespace m))
|}.

Definition plain_meta_laws : @MetaJsonLaws plain_meta.
Proof.
  refine {| ParseDuration s :=
    match s with
    | String "-"%char r => (fun n => (- Z.of_N n)%Z) <$> parse_unsigned r
    | String "+"%char r => Z.of_N <$> parse_unsigned r
    | _ => None
    end |}.
  intros d. cbn. destruct (Z.ltb_spec d 0); rewrite parse_unsigned_print; cbn; f_equal; lia.
Defined.

Definition sample_spec : GRPCListenerSpec :=
  {| GRPCListenerSpec_MaxStreamDuration := Some 5000000000%Z;
     GRPCListenerSpec_Interceptors := [];
     GRPCListenerSpec_Retry := None;
     GRPCListenerSpec_Routes :=
       [{| Route_Matcher := None; Route_Interceptors := [];
           Route_HashPolicy := [{| HashPolicy_Metadata := "user"; HashPolicy_Channel := None;
                                   HashPolicy_Terminal := true |}];
           Route_MaxStreamDuration := None; Route_GrpcTimeoutHeaderMax := None;
           Route_Retry := None;
           Route_Backends :=
             [{| Backend_Weight := 1; Backend_MaxRequests := Some 0%Z; Backend_LBPolicy := "";
                 Backend_RingHashConfig := None; Backend_Interceptors := [];
                 Backend_Service := Some {| ServiceRef_Name := "echo"; ServiceRef_Namespace := "";
                   ServiceRef_Port := {| PortRef_Number := 3333; PortRef_Name := "" |} |};
                 Backend_Localities := [] |}] |}] |}.

(** A configuration made with the builders. *)
Definition sample_applied : M GRPCListenerApplyConfiguration :=
  spec ← GRPCListenerSpecApplyConfiguration_WithRoutes
    [Some (RouteApplyConfiguration_WithMaxStreamDuration 5%Z RouteApplyConfiguration_New)]
    GRPCListenerSpecApplyConfiguration_New;
  Ok (GRPCListenerApplyConfiguration_WithSpec (Some spec)
        (GRPCListenerApplyConfiguration_New "test-xds" "default")).

Lemma apply_body_means_witness :
  exists b ms, sample_applied = Ok b /\ @GRPCListenerApplyConfiguration_json plain_meta b = JObject ms /\
    decode_value (@GRPCListenerSpec_decode plain_meta plain_meta_laws) GRPCListenerSpec_zero
      (member "spec" ms)
    = Some {| GRPCListenerSpec_MaxStreamDuration := None; GRPCListenerSpec_Interceptors := [];
              GRPCListenerSpec_Retry := None;
              GRPCListenerSpec_Routes :=
                [{| Route_Matcher := None; Route_Interceptors := []; Route_HashPolicy := [];
                    Route_MaxStreamDuration := Some 5%Z; Route_GrpcTimeoutHeaderMax := None;
                    Route_Retry := None; Route_Backends := [] |}] |}.
Proof.
  destruct sample_applied as [b| |] eqn:Hb; [|discriminate Hb..].
  destruct (@apply_body_means plain_meta plain_meta_laws b) as (ms & Hms & _ & _ & _ & Hspec).
  exists b, ms. split; [reflexivity|]. split; [exact Hms|]. rewrite Hspec.
  vm_compute in Hb. injection Hb as <-. reflexivity.
Defined.
