(* ===== verification/Clientset.v ===== *)
(** The clients of the API group: the typed client of
    [client/clientset/versioned/typed/gtc/v1alpha1/grpclistener.go] and its fake
    of [fake/fake_grpclistener.go].

    The REST client of client-go is the parameter [RestClient]: it executes a
    request, whose parts are what the fluent calls of the source set. The
    [testing.Fake] of client-go is the parameter [FakeClient]: it invokes an
    action on its object tracker. A call returns a pointer and an error as in Go;
    a failed type assertion panics. *)

From S2P Require Import Prelude GoStrings GoPath GoStrconv Api Errors Json ApplyConfig ApplyJson ApplyDecode.

(** ** Requests *)

Inductive PatchType := ApplyPatchType | OtherPatchType (mediaType : string).

Inductive verb := GET | POST | PUT | DELETE | PATCH (pt : PatchType).

(** [v1.ListOptions], with the fields the clients read or set. *)
Record ListOptions := {
  ListOptions_LabelSelector : string;
  ListOptions_TimeoutSeconds : option Z;
  ListOptions_Watch : bool
}.

(** The other options, which are only passed on. *)
Inductive params :=
  | NoParams
  | GetParams (options : string)
  | ListParams (options : ListOptions)
  | CreateParams (options : string)
  | UpdateParams (options : string)
  | PatchParams (options : string).

Inductive body :=
  | NoBody
  | ListenerBody (l : GRPCListener)
  | DeleteBody (options : string)
  | DataBody (data : json).

(** A request as it is when [Do] or [Watch] is called. *)
Record request := {
  request_verb : verb;
  request_namespace : string;
  request_resource : string;
  request_name : option string;
  request_subresources : list string;
  request_params : params;
  request_timeout : Z;
  request_body : body
}.

(** [Do(ctx)] and what [Into] or [Error] make of the result. *)
Inductive response :=
  | ListenerResponse (l : GRPCListener)
  | ListResponse (ls : list GRPCListener)
  | DoneResponse
  | FailedResponse (e : error).

Class RestClient := {
  rest_state : Type;
  rest_Do : request -> rest_state -> rest_state * response;
  rest_Watch : request -> rest_state -> M nat
}.

(** [opts.ToPatchOptions()] of [v1.ApplyOptions]. *)
Class ApplyOptionsLib := { ToPatchOptions : string -> string }.

(** ** The typed client *)

Definition emptyMeta : ObjectMeta :=
  {| ObjectMeta_Name := ""; ObjectMeta_Namespace := ""; ObjectMeta_ResourceVersion := "";
     ObjectMeta_Labels := ∅ |}.

(** [&v1alpha1.GRPCListener{}] *)
Definition emptyListener : GRPCListener :=
  {| GRPCListener_ObjectMeta := emptyMeta;
     GRPCListener_Spec := {| GRPCListenerSpec_MaxStreamDuration := None;
                             GRPCListenerSpec_Interceptors := [];
                             GRPCListenerSpec_Retry := None; GRPCListenerSpec_Routes := [] |} |}.

Definition second : Z := 1000000000.

(** Arithmetic on [int64] wraps around. *)
Definition int64_wrap (z : Z) : Z := ((z + 2 ^ 63) mod 2 ^ 64 - 2 ^ 63)%Z.

(** [time.Duration( *opts.TimeoutSeconds ) * time.Second] *)
Definition list_timeout (opts : ListOptions) : Z :=
  match ListOptions_TimeoutSeconds opts with
  | Some s => int64_wrap (s * second)
  | None => 0
  end.

(** A pointer and an error. *)
Abbreviation returned A := (option A * option error)%type.

(** [Into(result)], with [result] a new object: what the function returns. *)
Definition into_listener (r : response) : returned GRPCListener :=
  match r with
  | ListenerResponse l => (Some l, None)
  | FailedResponse e => (Some emptyListener, Some e)
  | ListResponse _ | DoneResponse => (Some emptyListener, None)
  end.

Definition into_list (r : response) : returned (list GRPCListener) :=
  match r with
  | ListResponse ls => (Some ls, None)
  | FailedResponse e => (Some [], Some e)
  | ListenerResponse _ | DoneResponse => (Some [], None)
  end.

Definition response_error (r : response) : option error :=
  match r with FailedResponse e => Some e | _ => None end.

Section typed_client.
Context `{RestClient, ApplyOptionsLib, MetaJson}.

(** [type gRPCListeners struct]: the client and its namespace. *)
Record gRPCListeners := { gRPCListeners_ns : string }.

Definition do_listener (req : request) (st : rest_state)
  : rest_state * returned GRPCListener :=
  let '(st', r) := rest_Do req st in (st', into_listener r).

Definition gRPCListeners_Get (c : gRPCListeners) (name options : string) (st : rest_state)
  : rest_state * returned GRPCListener :=
  do_listener {| request_verb := GET; request_namespace := gRPCListeners_ns c;
                 request_resource := "grpclisteners"; request_name := Some name;
                 request_subresources := []; request_params := GetParams options;
                 request_timeout := 0; request_body := NoBody |} st.

Definition gRPCListeners_List (c : gRPCListeners) (opts : ListOptions) (st : rest_state)
  : rest_state * returned (list GRPCListener) :=
  let '(st', r) :=
    rest_Do {| request_verb := GET; request_namespace := gRPCListeners_ns c;
               request_resource := "grpclisteners"; request_name := None;
               request_subresources := []; request_params := ListParams opts;
               request_timeout := list_timeout opts; request_body := NoBody |} st in
  (st', into_list r).

Definition gRPCListeners_Watch (c : gRPCListeners) (opts : ListOptions) (st : rest_state) : M nat :=
  let opts' := {| ListOptions_LabelSelector := ListOptions_LabelSelector opts;
                  ListOptions_TimeoutSeconds := ListOptions_TimeoutSeconds opts;
                  ListOptions_Watch := true |} in
  rest_Watch {| request_verb := GET; request_namespace := gRPCListeners_ns c;
                request_resource := "grpclisteners"; request_name := None;
                request_subresources := []; request_params := ListParams opts';
                request_timeout := list_timeout opts; request_body := NoBody |} st.

Definition gRPCListeners_Create (c : gRPCListeners) (gRPCListener : GRPCListener)
    (opts : string) (st : rest_state) : rest_state * returned GRPCListener :=
  do_listener {| request_verb := POST; request_namespace := gRPCListeners_ns c;
                 request_resource := "grpclisteners"; request_name := None;
                 request_subresources := []; request_params := CreateParams opts;
                 request_timeout := 0; request_body := ListenerBody gRPCListener |} st.

Definition gRPCListeners_Update (c : gRPCListeners) (gRPCListener : GRPCListener)
    (opts : string) (st : rest_state) : rest_state * returned GRPCListener :=
  do_listener {| request_verb := PUT; request_namespace := gRPCListeners_ns c;
                 request_resource := "grpclisteners";
                 request_name := Some (GRPCListener_Name gRPCListener);
                 request_subresources := []; request_params := UpdateParams opts;
                 request_timeout := 0; request_body := ListenerBody gRPCListener |} st.

Definition gRPCListeners_Delete (c : gRPCListeners) (name opts : string) (st : rest_state)
  : rest_state * option error :=
  let '(st', r) :=
    rest_Do {| request_verb := DELETE; request_namespace := gRPCListeners_ns c;
               request_resource := "grpclisteners"; request_name := Some name;
               request_subresources := []; request_params := NoParams;
               request_timeout := 0; request_body := DeleteBody opts |} st in
  (st', response_error r).

Definition gRPCListeners_DeleteCollection (c : gRPCListeners) (opts : string)
    (listOpts : ListOptions) (st : rest_state) : rest_state * option error :=
  let '(st', r) :=
    rest_Do {| request_verb := DELETE; request_namespace := gRPCListeners_ns c;
               request_resource := "grpclisteners"; request_name := None;
               request_subresources := []; request_params := ListParams listOpts;
               request_timeout := list_timeout listOpts; request_body := DeleteBody opts |} st in
  (st', response_error r).

Definition gRPCListeners_Patch (c : gRPCListeners) (name : string) (pt : PatchType) (data : json)
    (opts : string) (subresources : list string) (st : rest_state)
  : rest_state * returned GRPCListener :=
  do_listener {| request_verb := PATCH pt; request_namespace := gRPCListeners_ns c;
                 request_resource := "grpclisteners"; request_name := Some name;
                 request_subresources := subresources; request_params := PatchParams opts;
                 request_timeout := 0; request_body := DataBody data |} st.

(** [gRPCListener.Name]: the name is a field of the embedded metadata, so that
    reading it dereferences the pointer to the metadata. *)
Definition apply_name (b : GRPCListenerApplyConfiguration) : M (option string) :=
  meta ← deref (GRPCListenerApplyConfiguration_ObjectMeta b);
  Ok (ObjectMetaApplyConfiguration_Name meta).

Definition nil_configuration : error :=
  errorString "gRPCListener provided to Apply must not be nil".
Definition nil_name : error := errorString "gRPCListener.Name must be provided to Apply".

(** The guards of [Apply], in both clients: the name and the data to send.
    [json.Marshal] does not fail on the types of a configuration (pointers to
    numbers, strings and booleans, slices and structs of them), so that its error
    return has no counterpart here. *)
Definition apply_arguments (gRPCListener : option GRPCListenerApplyConfiguration)
  : M (string * json) :=
  match gRPCListener with
  | None => Err nil_configuration
  | Some b =>
      let data := GRPCListenerApplyConfiguration_json b in
      name ← apply_name b;
      match name with
      | None => Err nil_name
      | Some n => Ok (n, data)
      end
  end.

Definition gRPCListeners_Apply (c : gRPCListeners)
    (gRPCListener : option GRPCListenerApplyConfiguration) (opts : string) (st : rest_state)
  : M (rest_state * returned GRPCListener) :=
  match apply_arguments gRPCListener with
  | Err e => Ok (st, (None, Some e))
  | Panic p => Panic p
  | Ok (name, data) =>
      Ok (do_listener
            {| request_verb := PATCH ApplyPatchType; request_namespace := gRPCListeners_ns c;
               request_resource := "grpclisteners"; request_name := Some name;
               request_subresources := []; request_params := PatchParams (ToPatchOptions opts);
               request_timeout := 0; request_body := DataBody data |} st)
  end.
End typed_client.

(** ** The fake client *)

(** The actions of [k8s.io/client-go/testing] on the resource
    [grpclistenersResource]. *)
Inductive action :=
  | GetAction (ns name : string)
  | ListAction (ns : string) (opts : ListOptions)
  | WatchAction (ns : string) (opts : ListOptions)
  | CreateAction (ns : string) (l : GRPCListener)
  | UpdateAction (ns : string) (l : GRPCListener)
  | DeleteAction (ns name opts : string)
  | DeleteCollectionAction (ns : string) (listOpts : ListOptions)
  | PatchAction (ns name : string) (pt : PatchType) (data : json) (subresources : list string).

Inductive runtimeObject :=
  | RuntimeListener (l : GRPCListener)
  | RuntimeList (ls : list GRPCListener)
  | RuntimeOther.

(** [Fake.Invokes] and [Fake.InvokesWatch], and the label selector of
    [testing.ExtractFromListOptions], nil when there is none. *)
Class FakeClient := {
  fake_state : Type;
  fake_Invokes : action -> runtimeObject -> fake_state ->
    fake_state * (option runtimeObject * option error);
  fake_InvokesWatch : action -> fake_state -> fake_state * (option nat * option error);
  ExtractLabel : ListOptions -> option (gmap string string -> bool)
}.

(** [obj.( *v1alpha1.GRPCListener )] and the same for lists. *)
Definition assert_listener (obj : runtimeObject) : M GRPCListener :=
  match obj with
  | RuntimeListener l => Ok l
  | _ => Panic (PanicValue "interface conversion")
  end.
Definition assert_list (obj : runtimeObject) : M (list GRPCListener) :=
  match obj with
  | RuntimeList ls => Ok ls
  | _ => Panic (PanicValue "interface conversion")
  end.

Section fake_client.
Context `{FakeClient, MetaJson}.

Record FakeGRPCListeners := { FakeGRPCListeners_ns : string }.

(** Invoke an action that returns a listener: nil stays nil. *)
Definition invoke_listener (a : action) (st : fake_state)
  : M (fake_state * returned GRPCListener) :=
  let '(st', (obj, err)) := fake_Invokes a (RuntimeListener emptyListener) st in
  match obj with
  | None => Ok (st', (None, err))
  | Some o => l ← assert_listener o; Ok (st', (Some l, err))
  end.

Definition FakeGRPCListeners_Get (c : FakeGRPCListeners) (name options : string)
    (st : fake_state) : M (fake_state * returned GRPCListener) :=
  invoke_listener (GetAction (FakeGRPCListeners_ns c) name) st.

Definition FakeGRPCListeners_List (c : FakeGRPCListeners) (opts : ListOptions)
    (st : fake_state) : M (fake_state * returned (list GRPCListener)) :=
  let '(st', (obj, err)) :=
    fake_Invokes (ListAction (FakeGRPCListeners_ns c) opts) (RuntimeList []) st in
  match obj with
  | None => Ok (st', (None, err))
  | Some o =>
      let label := default (fun _ => true) (ExtractLabel opts) in
      items ← assert_list o;
      let list := foldl (fun list item =>
        if label (ObjectMeta_Labels (GRPCListener_ObjectMeta item))
        then list ++ [item] else list) [] items in
      Ok (st', (Some list, err))
  end.

Definition FakeGRPCListeners_Watch (c : FakeGRPCListeners) (opts : ListOptions)
    (st : fake_state) : fake_state * returned nat :=
  fake_InvokesWatch (WatchAction (FakeGRPCListeners_ns c) opts) st.

Definition FakeGRPCListeners_Create (c : FakeGRPCListeners) (gRPCListener : GRPCListener)
    (opts : string) (st : fake_state) : M (fake_state * returned GRPCListener) :=
  invoke_listener (CreateAction (FakeGRPCListeners_ns c) gRPCListener) st.

Definition FakeGRPCListeners_Update (c : FakeGRPCListeners) (gRPCListener : GRPCListener)
    (opts : string) (st : fake_state) : M (fake_state * returned GRPCListener) :=
  invoke_listener (UpdateAction (FakeGRPCListeners_ns c) gRPCListener) st.

Definition FakeGRPCListeners_Delete (c : FakeGRPCListeners) (name opts : string)
    (st : fake_state) : fake_state * option error :=
  let '(st', (_, err)) :=
    fake_Invokes (DeleteAction (FakeGRPCListeners_ns c) name opts)
      (RuntimeListener emptyListener) st in
  (st', err).

Definition FakeGRPCListeners_DeleteCollection (c : FakeGRPCListeners) (opts : string)
    (listOpts : ListOptions) (st : fake_state) : fake_state * option error :=
  let '(st', (_, err)) :=
    fake_Invokes (DeleteCollectionAction (FakeGRPCListeners_ns c) listOpts) (RuntimeList []) st in
  (st', err).

Definition FakeGRPCListeners_Patch (c : FakeGRPCListeners) (name : string) (pt : PatchType)
    (data : json) (opts : string) (subresources : list string) (st : fake_state)
  : M (fake_state * returned GRPCListener) :=
  invoke_listener (PatchAction (FakeGRPCListeners_ns c) name pt data subresources) st.

Definition FakeGRPCListeners_Apply (c : FakeGRPCListeners)
    (gRPCListener : option GRPCListenerApplyConfiguration) (opts : string) (st : fake_state)
  : M (fake_state * returned GRPCListener) :=
  match apply_arguments gRPCListener with
  | Err e => Ok (st, (None, Some e))
  | Panic p => Panic p
  | Ok (name, data) =>
      invoke_listener (PatchAction (FakeGRPCListeners_ns c) name ApplyPatchType data []) st
  end.
End fake_client.

(** ** Stores of listeners *)

Abbreviation key := (string * string)%type.

Definition listener_key (l : GRPCListener) : key := (GRPCListener_Namespace l, GRPCListener_Name l).

(** The listeners of a namespace, of all namespaces when it is empty. *)
Definition in_namespace (ns : string) (store : gmap key GRPCListener) : list GRPCListener :=
  (map_to_list (filter (fun kl => ns = "" \/ kl.1.1 = ns) store)).*2.

(** [errors.NewAlreadyExists] of apimachinery, for this resource. *)
Class StatusErrors := { NewAlreadyExists : string -> error }.

Definition missing (name : string) : error := notFoundError (Resource "grpclisteners") name.

(** The API server lists what the options select, and rejects options that it
    cannot read ([readable_options]), such as a selector with a wrong syntax. *)
Class RestLaws `{RestClient, FakeClient} := {
  rest_store : rest_state -> gmap key GRPCListener;
  readable_options : ListOptions -> bool;
  rest_list ns opts t st : readable_options opts = true -> exists ls,
    rest_Do {| request_verb := GET; request_namespace := ns; request_resource := "grpclisteners";
               request_name := None; request_subresources := [];
               request_params := ListParams opts; request_timeout := t;
               request_body := NoBody |} st = (st, ListResponse ls) /\
    ls ≡ₚ filter (fun l => default (fun _ => true) (ExtractLabel opts)
                             (ObjectMeta_Labels (GRPCListener_ObjectMeta l)) = true)
            (in_namespace ns (rest_store st))
}.

(** The loop of the fake [List] is a filter. *)
Lemma fake_filter (f : gmap string string -> bool) items acc :
  foldl (fun list item => if f (ObjectMeta_Labels (GRPCListener_ObjectMeta item))
                          then list ++ [item] else list) acc items
  = acc ++ filter (fun l => f (ObjectMeta_Labels (GRPCListener_ObjectMeta l)) = true) items.
Proof.
  revert acc. induction items as [|x items IH]; intros acc; cbn [foldl].
  - by rewrite app_nil_r.
  - rewrite IH, filter_cons. destruct (f (ObjectMeta_Labels (GRPCListener_ObjectMeta x))) eqn:Hf.
    + rewrite decide_True by done. by rewrite <- app_assoc.
    + by rewrite decide_False by done.
Qed.

(** ** Applying a built configuration *)

(** A call of one of the builder methods. *)
Inductive builder_call :=
  | WithKind (value : string)
  | WithAPIVersion (value : string)
  | WithName (value : string)
  | WithGenerateName (value : string)
  | WithNamespace (value : string)
  | WithUID (value : string)
  | WithResourceVersion (value : string)
  | WithGeneration (value : Z)
  | WithCreationTimestamp (value : Z)
  | WithDeletionTimestamp (value : Z)
  | WithDeletionGracePeriodSeconds (value : Z)
  | WithLabels (entries : gmap string string)
  | WithAnnotations (entries : gmap string string)
  | WithOwnerReferences (values : list (option OwnerReferenceApplyConfiguration))
  | WithFinalizers (values : list string)
  | WithSpec (value : option GRPCListenerSpecApplyConfiguration).

Definition run_call (b : GRPCListenerApplyConfiguration) (call : builder_call)
  : M GRPCListenerApplyConfiguration :=
  match call with
  | WithKind v => Ok (GRPCListenerApplyConfiguration_WithKind v b)
  | WithAPIVersion v => Ok (GRPCListenerApplyConfiguration_WithAPIVersion v b)
  | WithName v => Ok (GRPCListenerApplyConfiguration_WithName v b)
  | WithGenerateName v => Ok (GRPCListenerApplyConfiguration_WithGenerateName v b)
  | WithNamespace v => Ok (GRPCListenerApplyConfiguration_WithNamespace v b)
  | WithUID v => Ok (GRPCListenerApplyConfiguration_WithUID v b)
  | WithResourceVersion v => Ok (GRPCListenerApplyConfiguration_WithResourceVersion v b)
  | WithGeneration v => Ok (GRPCListenerApplyConfiguration_WithGeneration v b)
  | WithCreationTimestamp v => Ok (GRPCListenerApplyConfiguration_WithCreationTimestamp v b)
  | WithDeletionTimestamp v => Ok (GRPCListenerApplyConfiguration_WithDeletionTimestamp v b)
  | WithDeletionGracePeriodSeconds v =>
      Ok (GRPCListenerApplyConfiguration_WithDeletionGracePeriodSeconds v b)
  | WithLabels es => GRPCListenerApplyConfiguration_WithLabels es b
  | WithAnnotations es => GRPCListenerApplyConfiguration_WithAnnotations es b
  | WithOwnerReferences vs => GRPCListenerApplyConfiguration_WithOwnerReferences vs b
  | WithFinalizers vs => Ok (GRPCListenerApplyConfiguration_WithFinalizers vs b)
  | WithSpec v => Ok (GRPCListenerApplyConfiguration_WithSpec v b)
  end.

Definition run_calls (b : GRPCListenerApplyConfiguration) (calls : list builder_call)
  : M GRPCListenerApplyConfiguration := foldM run_call calls b.

(** The calls that make the metadata exist. *)
Definition meta_call (call : builder_call) : bool :=
  match call with WithKind _ | WithAPIVersion _ | WithSpec _ => false | _ => true end.

(** The name of the last [WithName], which the documentation of the builders
    promises to be the one in force. *)
Definition last_name (calls : list builder_call) : option string :=
  foldl (fun n call => match call with WithName v => Some v | _ => n end) None calls.

Lemma run_call_name b call b' :
  run_call b call = Ok b' ->
  apply_name b' =
    if meta_call call
    then Ok (match call with
             | WithName v => Some v
             | _ => ObjectMetaApplyConfiguration_Name (ensureObjectMetaApplyConfigurationExists b)
             end)
    else apply_name b.
Proof.
  destruct call; cbn; intros Hb; try (injection Hb as <-; reflexivity).
  all: unfold GRPCListenerApplyConfiguration_WithLabels,
         GRPCListenerApplyConfiguration_WithAnnotations,
         GRPCListenerApplyConfiguration_WithOwnerReferences in Hb; cbn in Hb.
  all: match type of Hb with context [mbind _ ?x] => destruct x eqn:? end;
       cbn in Hb; by simplify_eq/=.
Qed.

Lemma last_name_meta calls : existsb meta_call calls = false -> last_name calls = None.
Proof.
  unfold last_name. induction calls as [|call calls IH] using rev_ind; [done|].
  rewrite existsb_app, foldl_snoc. intros [Hc Hl]%orb_false_iff. by destruct call; auto.
Qed.

(** Reading the name of what the calls made of [&GRPCListenerApplyConfiguration{}]. *)
Lemma run_calls_name calls b :
  run_calls GRPCListenerApplyConfiguration_empty calls = Ok b ->
  apply_name b = if existsb meta_call calls then Ok (last_name calls) else Panic NilDereference.
Proof.
  revert b. induction calls as [|call calls IH] using rev_ind; intros b; [by intros [= <-]|].
  unfold run_calls, last_name. rewrite foldM_app, existsb_app, foldl_snoc.
  fold (run_calls GRPCListenerApplyConfiguration_empty calls).
  destruct (run_calls _ calls) as [b1| |] eqn:Hb1; try done. specialize (IH b1 eq_refl).
  cbn [mbind foldM existsb]. cbn. destruct (run_call b1 call) as [b2| |] eqn:Hb2; try done.
  intros [= <-]. apply run_call_name in Hb2. rewrite Hb2, orb_false_r. fold (last_name calls).
  unfold apply_name, ensureObjectMetaApplyConfigurationExists in *.
  pose proof (last_name_meta calls).
  destruct (existsb meta_call calls), (GRPCListenerApplyConfiguration_ObjectMeta b1), call;
    cbn in *; simplify_eq; try (by f_equal; auto); try (f_equal; symmetry; auto).
Qed.

(** [GRPCListener(name, namespace)] is such a sequence of calls. *)
Lemma New_calls name namespace :
  run_calls GRPCListenerApplyConfiguration_empty
    [WithName name; WithNamespace namespace; WithKind "GRPCListener";
     WithAPIVersion "api.gtc.dev/v1alpha1"]
  = Ok (GRPCListenerApplyConfiguration_New name namespace).
Proof. reflexivity. Qed.

Section applying.
Context `{RestClient, FakeClient, ApplyOptionsLib, MetaJson}.

(** C34: what [Apply] does with a configuration that was built by any sequence of
    builder calls from an empty one, in both clients. With a name, it is the
    server-side-apply [Patch] of the object of the last name given, with the
    encoded configuration as its body. With metadata but no name it sends
    nothing and returns an error. When no call touched the metadata it does not
    return the error: reading the name dereferences a nil pointer. *)
Theorem apply_of_built_configuration calls b ns opts (st : rest_state) (ft : fake_state) :
  run_calls GRPCListenerApplyConfiguration_empty calls = Ok b ->
  let c := {| gRPCListeners_ns := ns |} in
  let fc := {| FakeGRPCListeners_ns := ns |} in
  let data := GRPCListenerApplyConfiguration_json b in
  match existsb meta_call calls, last_name calls with
  | true, Some name =>
      gRPCListeners_Apply c (Some b) opts st
        = Ok (gRPCListeners_Patch c name ApplyPatchType data (ToPatchOptions opts) [] st) /\
      FakeGRPCListeners_Apply fc (Some b) opts ft
        = FakeGRPCListeners_Patch fc name ApplyPatchType data (ToPatchOptions opts) [] ft
  | true, None =>
      gRPCListeners_Apply c (Some b) opts st = Ok (st, (None, Some nil_name)) /\
      FakeGRPCListeners_Apply fc (Some b) opts ft = Ok (ft, (None, Some nil_name))
  | false, _ =>
      gRPCListeners_Apply c (Some b) opts st = Panic NilDereference /\
      FakeGRPCListeners_Apply fc (Some b) opts ft = Panic NilDereference
  end.
Proof.
  intros Hb. apply run_calls_name in Hb. cbn zeta.
  unfold gRPCListeners_Apply, FakeGRPCListeners_Apply, apply_arguments. rewrite Hb.
  by destruct (existsb meta_call calls), (last_name calls).
Qed.
End applying.

(** ** The timeout of a list *)

(** The timeout that [List], [Watch] and [DeleteCollection] send is the
    number of seconds of the options when that many nanoseconds fit in an
    [int64], and another number otherwise, as the multiplication wraps around. *)
Theorem list_timeout_exact_iff opts s :
  ListOptions_TimeoutSeconds opts = Some s -> (- 2 ^ 63 <= s < 2 ^ 63)%Z ->
  list_timeout opts = (s * second)%Z <-> (- 9223372036 <= s <= 9223372036)%Z.
Proof.
  intros Hs Hr. unfold list_timeout, int64_wrap, second. rewrite Hs.
  change (2 ^ 63)%Z with 9223372036854775808%Z in *.
  change (2 ^ 64)%Z with 18446744073709551616%Z in *. split; intros Ht.
  - pose proof (Z.mod_pos_bound (s * 1000000000 + 9223372036854775808) 18446744073709551616).
    lia.
  - rewrite Z.mod_small by lia. lia.
Qed.

(** ** Witnesses *)

(** A selector that is one key selects the objects that have it. *)
Definition key_selector (opts : ListOptions) : option (gmap string string -> bool) :=
  if decide (ListOptions_LabelSelector opts = "") then None
  else Some (fun labels => bool_decide (is_Some (labels !! ListOptions_LabelSelector opts))).

Definition alreadyExists (name : string) : error :=
  errorString (name +:+ " already exists").

(** A server that lists, and cannot read the selector [!]. *)
Definition plain_readable (opts : ListOptions) : bool :=
  bool_decide (ListOptions_LabelSelector opts <> "!").

Definition server_state : Type := gmap key GRPCListener.

Definition serve (req : request) (store : server_state) : server_state * response :=
  let ns := request_namespace req in
  match request_verb req, request_name req, request_params req with
  | GET, Some name, _ =>
      (store, match store !! (ns, name) with
              | Some l => ListenerResponse l
              | None => FailedResponse (missing name)
              end)
  | GET, None, ListParams opts =>
      if plain_readable opts then
        (store, ListResponse (filter (fun l => default (fun _ => true) (key_selector opts)
                               (ObjectMeta_Labels (GRPCListener_ObjectMeta l)) = true)
                            (in_namespace ns store)))
      else (store, FailedResponse (errorString "unable to parse requirement"))
  | _, _, _ => (store, FailedResponse (errorString "method not allowed"))
  end.

Definition track (a : action) (d : runtimeObject) (store : gmap key GRPCListener)
  : gmap key GRPCListener * (option runtimeObject * option error) :=
  match a with
  | GetAction ns name =>
      (store, match store !! (ns, name) with
              | Some l => (Some (RuntimeListener l), None)
              | None => (None, Some (missing name))
              end)
  | ListAction ns _ => (store, (Some (RuntimeList (in_namespace ns store)), None))
  | CreateAction _ l =>
      match store !! listener_key l with
      | Some _ => (store, (None, Some (alreadyExists (GRPCListener_Name l))))
      | None => (<[listener_key l := l]> store, (Some (RuntimeListener l), None))
      end
  | UpdateAction _ l =>
      match store !! listener_key l with
      | Some _ => (<[listener_key l := l]> store, (Some (RuntimeListener l), None))
      | None => (store, (None, Some (missing (GRPCListener_Name l))))
      end
  | DeleteAction ns name _ =>
      match store !! (ns, name) with
      | Some _ => (delete (ns, name) store, (None, None))
      | None => (store, (None, Some (missing name)))
      end
  | _ => (store, (None, Some (errorString "no reaction")))
  end.

Definition plain_rest : RestClient :=
  {| rest_state := server_state; rest_Do := serve;
     rest_Watch _ _ := Err (errorString "watching is not supported") |}.
Definition plain_fake : FakeClient :=
  {| fake_state := gmap key GRPCListener; fake_Invokes := track;
     fake_InvokesWatch _ st := (st, (None, Some (errorString "watching is not supported")));
     ExtractLabel := key_selector |}.
Definition plain_errors : StatusErrors := {| NewAlreadyExists := alreadyExists |}.

Definition plain_rest_laws : @RestLaws plain_rest plain_fake.
Proof.
  refine (@Build_RestLaws plain_rest plain_fake id plain_readable _).
  intros ns opts t store Hr. eexists. cbn. rewrite Hr. by split.
Defined.

Definition sample (name : string) (labels : gmap string string) (spec : GRPCListenerSpec)
  : GRPCListener :=
  {| GRPCListener_ObjectMeta :=
       {| ObjectMeta_Name := name; ObjectMeta_Namespace := "default";
          ObjectMeta_ResourceVersion := ""; ObjectMeta_Labels := labels |};
     GRPCListener_Spec := spec |}.

Definition select (selector : string) : ListOptions :=
  {| ListOptions_LabelSelector := selector; ListOptions_TimeoutSeconds := None;
     ListOptions_Watch := false |}.

Definition plain_options : ApplyOptionsLib := {| ToPatchOptions opts := opts |}.

Lemma apply_of_built_configuration_witness :
  let b := GRPCListenerApplyConfiguration_New "a" "default" in
  @gRPCListeners_Apply plain_rest plain_options plain_meta {| gRPCListeners_ns := "default" |}
    (Some b) "" ∅
  = Ok (@gRPCListeners_Patch plain_rest {| gRPCListeners_ns := "default" |} "a" ApplyPatchType
          (@GRPCListenerApplyConfiguration_json plain_meta b) "" [] ∅) /\
  @gRPCListeners_Apply plain_rest plain_options plain_meta {| gRPCListeners_ns := "default" |}
    (Some (GRPCListenerApplyConfiguration_WithSpec None GRPCListenerApplyConfiguration_empty))
    "" ∅ = Panic NilDereference.
Proof.
  split.
  - exact (proj1 (@apply_of_built_configuration plain_rest plain_fake plain_options plain_meta
      _ _ "default" "" ∅ ∅ (New_calls "a" "default"))).
  - exact (proj1 (@apply_of_built_configuration plain_rest plain_fake plain_options plain_meta
      [WithSpec None] _ "default" "" ∅ ∅ eq_refl)).
Defined.

Lemma list_timeout_exact_iff_witness :
  let opts := {| ListOptions_LabelSelector := ""; ListOptions_Watch := false;
                 ListOptions_TimeoutSeconds := Some 9223372037%Z |} in
  list_timeout opts <> (9223372037 * second)%Z.
Proof.
  cbn zeta. intros Heq.
  apply (list_timeout_exact_iff _ 9223372037%Z) in Heq; [lia|reflexivity|lia].
Defined.
