(* ===== verification/FakeClientset.v ===== *)
(** The fake clientset of [client/clientset/versioned/fake/clientset_generated.go]
    and [typed/gtc/v1alpha1/fake/fake_gtc_client.go]: an object tracker, and the
    reactors that answer the actions of the fake clients from it.

    The tracker is the parameter [ObjectTracker], and [testing.Fake], which runs
    actions through its chains of reactors, is [FakeLib]; both are client-go's.
    A watch of the tracker is a channel for 100 events; the tracker panics when
    an event does not fit. *)

From S2P Require Import Prelude GoStrings GoPath GoStrconv Api Errors Json ApplyConfig ApplyJson ApplyDecode Clientset.

(** ** client-go/testing *)

(** [func(action) (handled bool, ret A, err error)] *)
Record reaction A := {
  reaction_handled : bool;
  reaction_ret : option A;
  reaction_err : option error
}.
Arguments reaction_handled {A} _.
Arguments reaction_ret {A} _.
Arguments reaction_err {A} _.

(** [SimpleReactor] and [SimpleWatchReactor]: the verbs and resources they
    are for, and the function. *)
Record reactor (S A : Type) := {
  reactor_Verb : string;
  reactor_Resource : string;
  reactor_React : action -> S -> S * reaction A
}.
Arguments reactor_Verb {S A} _.
Arguments reactor_Resource {S A} _.
Arguments reactor_React {S A} _.

(** The exported chains of [testing.Fake]. *)
Record Fake (S : Type) := {
  Fake_ReactionChain : list (reactor S runtimeObject);
  Fake_WatchReactionChain : list (reactor S nat)
}.
Arguments Fake_ReactionChain {S} _.
Arguments Fake_WatchReactionChain {S} _.

Definition action_verb (a : action) : string :=
  match a with
  | GetAction _ _ => "get"
  | ListAction _ _ => "list"
  | WatchAction _ _ => "watch"
  | CreateAction _ _ => "create"
  | UpdateAction _ _ => "update"
  | DeleteAction _ _ _ => "delete"
  | DeleteCollectionAction _ _ => "delete-collection"
  | PatchAction _ _ _ _ _ => "patch"
  end.

Definition action_namespace (a : action) : string :=
  match a with
  | GetAction ns _ | ListAction ns _ | WatchAction ns _ | CreateAction ns _ | UpdateAction ns _
  | DeleteAction ns _ _ | DeleteCollectionAction ns _ | PatchAction ns _ _ _ _ => ns
  end.

(** [Handles]: the verb and the resource of a reactor, with "*" for all. *)
Definition handles {S A} (r : reactor S A) (a : action) : bool :=
  bool_decide (reactor_Verb r = "*" \/ reactor_Verb r = action_verb a)
  && bool_decide (reactor_Resource r = "*" \/ reactor_Resource r = "grpclisteners").

Section fake.
Context {S : Type}.

Definition AddReactor (verb resource : string) (f : action -> S -> S * reaction runtimeObject)
    (c : Fake S) : Fake S :=
  {| Fake_ReactionChain := Fake_ReactionChain c ++
       [{| reactor_Verb := verb; reactor_Resource := resource; reactor_React := f |}];
     Fake_WatchReactionChain := Fake_WatchReactionChain c |}.

Definition AddWatchReactor (resource : string) (f : action -> S -> S * reaction nat)
    (c : Fake S) : Fake S :=
  {| Fake_ReactionChain := Fake_ReactionChain c;
     Fake_WatchReactionChain := Fake_WatchReactionChain c ++
       [{| reactor_Verb := "watch"; reactor_Resource := resource; reactor_React := f |}] |}.
End fake.

Class FakeLib := {
  Fake_Invokes : forall S, list (reactor S runtimeObject) -> action -> runtimeObject -> S ->
    S * (option runtimeObject * option error);
  Fake_InvokesWatch : forall S, list (reactor S nat) -> action -> S ->
    S * (option nat * option error);
  (** [errors.New] of an unhandled watch *)
  unhandled_watch : action -> error
}.

(** An action goes to the first reactor that handles it. *)
Class FakeLibLaws `{FakeLib} : Prop := {
  invokes_nil S a d (st : S) : Fake_Invokes S [] a d st = (st, (Some d, None));
  invokes_cons S r rest a d (st : S) :
    Fake_Invokes S (r :: rest) a d st =
    if handles r a then
      let '(st', x) := reactor_React r a st in
      if reaction_handled x then (st', (reaction_ret x, reaction_err x))
      else Fake_Invokes S rest a d st'
    else Fake_Invokes S rest a d st;
  watch_nil S a (st : S) : Fake_InvokesWatch S [] a st = (st, (None, Some (unhandled_watch a)));
  watch_cons S r rest a (st : S) :
    Fake_InvokesWatch S (r :: rest) a st =
    if handles r a then
      let '(st', x) := reactor_React r a st in
      if reaction_handled x then (st', (reaction_ret x, reaction_err x))
      else Fake_InvokesWatch S rest a st'
    else Fake_InvokesWatch S rest a st
}.

(** What a watch pushes. *)
Inductive event := Added (l : GRPCListener) | Modified (l : GRPCListener) | Deleted (l : GRPCListener).

Class ObjectTracker := {
  tracker : Type;
  NewObjectTracker : tracker;
  tracker_Add : GRPCListener -> tracker -> tracker * option error;
  (** [testing.ObjectReaction] *)
  ObjectReaction : action -> tracker -> tracker * reaction runtimeObject;
  (** [tracker.Watch(gvr, ns)], and the events a watch has pushed *)
  tracker_Watch : string -> tracker -> tracker * (option nat * option error);
  tracker_events : nat -> tracker -> list event;
  tracker_ExtractLabel : ListOptions -> option (gmap string string -> bool)
}.

(** ** The clientset *)

Section clientset.
Context `{FakeLib, ObjectTracker}.

(** [type Clientset struct]. The state of the tracker is passed along; the
    discovery client shares the fake. *)
Record Clientset := {
  Clientset_Fake : Fake tracker;
  Clientset_discovery : Fake tracker
}.

(** The reactor for watches: the function literal in [NewSimpleClientset]. *)
Definition watchReaction (a : action) (o : tracker) : tracker * reaction nat :=
  let ns := action_namespace a in
  let '(o', (watch, err)) := tracker_Watch ns o in
  match err with
  | Some e => (o', {| reaction_handled := false; reaction_ret := None; reaction_err := Some e |})
  | None => (o', {| reaction_handled := true; reaction_ret := watch; reaction_err := None |})
  end.

Definition newClientset : Clientset :=
  let fake := AddWatchReactor "*" watchReaction
    (AddReactor "*" "*" ObjectReaction
      {| Fake_ReactionChain := []; Fake_WatchReactionChain := [] |}) in
  {| Clientset_Fake := fake; Clientset_discovery := fake |}.

Definition NewSimpleClientset (objects : list GRPCListener) : M (Clientset * tracker) :=
  o ← foldM (fun o obj =>
        match tracker_Add obj o with
        | (_, Some _) => Panic (PanicValue "NewSimpleClientset")
        | (o', None) => Ok o'
        end) objects NewObjectTracker;
  Ok (newClientset, o).

(** [ApiV1alpha1()] and [FakeApiV1alpha1.GRPCListeners(ns)]: the client that
    runs its actions through the fake of the clientset. *)
Record FakeApiV1alpha1 := { FakeApiV1alpha1_Fake : Fake tracker }.

Definition Clientset_ApiV1alpha1 (c : Clientset) : FakeApiV1alpha1 :=
  {| FakeApiV1alpha1_Fake := Clientset_Fake c |}.

Definition FakeApiV1alpha1_GRPCListeners (c : FakeApiV1alpha1) (namespace : string)
  : FakeClient * FakeGRPCListeners :=
  ({| fake_state := tracker;
      fake_Invokes := Fake_Invokes tracker (Fake_ReactionChain (FakeApiV1alpha1_Fake c));
      fake_InvokesWatch :=
        Fake_InvokesWatch tracker (Fake_WatchReactionChain (FakeApiV1alpha1_Fake c));
      ExtractLabel := tracker_ExtractLabel |},
   {| FakeGRPCListeners_ns := namespace |}).

(** [RESTClient()] of the fake is a nil pointer. *)
Definition FakeApiV1alpha1_RESTClient (c : FakeApiV1alpha1) : option unit := None.

(** The client of a clientset, as the interface [FakeClient] has it. *)
Definition simple_client : FakeClient :=
  (FakeApiV1alpha1_GRPCListeners (Clientset_ApiV1alpha1 newClientset) "").1.
End clientset.

(** ** What the tracker promises *)

Definition sees (ns : string) (l : GRPCListener) : bool :=
  bool_decide (ns = "" \/ GRPCListener_Namespace l = ns).

Definition event_object (e : event) : GRPCListener :=
  match e with Added l | Modified l | Deleted l => l end.

(** Every open watch of the namespace gets the event, the others do not. *)
Definition pushes `{ObjectTracker} (watches : tracker -> gmap nat string) (e : event)
    (st st' : tracker) : Prop :=
  watches st' = watches st /\
  forall w ns, watches st !! w = Some ns ->
    tracker_events w st' = tracker_events w st ++ (if sees ns (event_object e) then [e] else []).

Definition handled {A} (ret : option A) (err : option error) : reaction A :=
  {| reaction_handled := true; reaction_ret := ret; reaction_err := err |}.

(** The channels of the watches have room for [n] more events, even if nothing is
    read from them. *)
Definition channel_size : nat := 100.

Definition room `{ObjectTracker} (watches : tracker -> gmap nat string) (n : nat) (st : tracker)
  : Prop :=
  forall w ns, watches st !! w = Some ns -> length (tracker_events w st) + n <= channel_size.

(** What the tracker of client-go does with a listener. [Add] fails on an object
    it has already. *)
Class TrackerLaws `{ObjectTracker, StatusErrors} := {
  tracker_store : tracker -> gmap key GRPCListener;
  tracker_watches : tracker -> gmap nat string;
  new_store : tracker_store NewObjectTracker = ∅;
  new_watches : tracker_watches NewObjectTracker = ∅;
  add_object l st : room tracker_watches 1 st ->
    match tracker_store st !! listener_key l with
    | Some _ => exists st' e, tracker_Add l st = (st', Some e)
    | None => exists st', tracker_Add l st = (st', None) /\
        tracker_store st' = <[listener_key l := l]> (tracker_store st) /\
        pushes tracker_watches (Added l) st st'
    end;
  react_get ns name st :
    ObjectReaction (GetAction ns name) st
    = (st, match tracker_store st !! (ns, name) with
           | Some l => handled (Some (RuntimeListener l)) None
           | None => handled None (Some (missing name))
           end);
  react_list ns opts st : exists ls,
    ObjectReaction (ListAction ns opts) st = (st, handled (Some (RuntimeList ls)) None) /\
    ls ≡ₚ in_namespace ns (tracker_store st);
  react_create ns l st : GRPCListener_Namespace l = ns -> room tracker_watches 1 st -> exists st',
    ObjectReaction (CreateAction ns l) st
    = (match tracker_store st !! listener_key l with
       | Some _ => (st, handled None (Some (NewAlreadyExists (GRPCListener_Name l))))
       | None => (st', handled (Some (RuntimeListener l)) None)
       end) /\
    tracker_store st' = <[listener_key l := l]> (tracker_store st) /\
    pushes tracker_watches (Added l) st st';
  react_update ns l st : GRPCListener_Namespace l = ns -> room tracker_watches 1 st -> exists st',
    ObjectReaction (UpdateAction ns l) st
    = (match tracker_store st !! listener_key l with
       | Some _ => (st', handled (Some (RuntimeListener l)) None)
       | None => (st, handled None (Some (missing (GRPCListener_Name l))))
       end) /\
    tracker_store st' = <[listener_key l := l]> (tracker_store st) /\
    pushes tracker_watches (Modified l) st st';
  react_delete ns name o st : room tracker_watches 1 st -> exists st' r,
    ObjectReaction (DeleteAction ns name o) st
    = (match tracker_store st !! (ns, name) with
       | Some _ => (st', handled r None)
       | None => (st, handled None (Some (missing name)))
       end) /\
    tracker_store st' = delete (ns, name) (tracker_store st) /\
    forall l, tracker_store st !! (ns, name) = Some l -> pushes tracker_watches (Deleted l) st st';
  watch_opens ns st : exists st' w,
    tracker_Watch ns st = (st', (Some w, None)) /\
    tracker_store st' = tracker_store st /\
    tracker_watches st !! w = None /\ tracker_watches st' = <[w := ns]> (tracker_watches st) /\
    tracker_events w st' = [] /\
    forall w', w' <> w -> tracker_events w' st' = tracker_events w' st
}.

(** ** The clientset is a fake client *)

Section laws.
Context `{FakeLib, !FakeLibLaws, ObjectTracker, StatusErrors, !TrackerLaws}.

Lemma simple_invokes a d st :
  reaction_handled (ObjectReaction a st).2 = true ->
  @fake_Invokes simple_client a d st
  = ((ObjectReaction a st).1,
     (reaction_ret (ObjectReaction a st).2, reaction_err (ObjectReaction a st).2)).
Proof.
  intros Hh. unfold simple_client. cbn. rewrite invokes_cons. unfold handles. cbn.
  rewrite !bool_decide_true by (by left). cbn.
  destruct (ObjectReaction a st) as [st' x]. cbn in *. by rewrite Hh.
Qed.

Lemma simple_watch ns opts st :
  @FakeGRPCListeners_Watch simple_client {| FakeGRPCListeners_ns := ns |} opts st =
  let '(st', (w, err)) := tracker_Watch ns st in
  (st', match err with
        | Some _ => (None, Some (unhandled_watch (WatchAction ns opts)))
        | None => (w, None)
        end).
Proof.
  unfold FakeGRPCListeners_Watch, simple_client. cbn. rewrite watch_cons. unfold handles. cbn.
  rewrite !bool_decide_true by tauto. cbn. unfold watchReaction. cbn.
  destruct (tracker_Watch ns st) as [st' [w [e|]]]; cbn; [|done]. by rewrite watch_nil.
Qed.

(** ** Watches *)

(** The listeners of a namespace. *)
Definition ns_store (ns : string) (m : gmap key GRPCListener) : gmap key GRPCListener :=
  filter (fun kl => ns = "" \/ kl.1.1 = ns) m.

(** What a reader of a watch makes of its events. *)
Definition replay_one (m : gmap key GRPCListener) (e : event) : gmap key GRPCListener :=
  match e with
  | Added l | Modified l => <[listener_key l := l]> m
  | Deleted l => delete (listener_key l) m
  end.
Definition replay (es : list event) (m : gmap key GRPCListener) : gmap key GRPCListener :=
  foldl replay_one m es.

Definition listed (ls : list GRPCListener) : gmap key GRPCListener :=
  list_to_map ((fun l => (listener_key l, l)) <$> ls).

(** Objects are stored under their own names. *)
Definition keyed (m : gmap key GRPCListener) : Prop :=
  forall k l, m !! k = Some l -> listener_key l = k.

(** The calls of a client, of which only the effect on the tracker matters. *)
Inductive operation :=
  | OpGet (name : string)
  | OpList (opts : ListOptions)
  | OpCreate (l : GRPCListener)
  | OpUpdate (l : GRPCListener)
  | OpDelete (name : string).

Definition client_op (ns : string) (op : operation) (st : tracker) : M tracker :=
  let c := {| FakeGRPCListeners_ns := ns |} in
  match op with
  | OpGet name => '(st', _) ← @FakeGRPCListeners_Get simple_client c name "" st; Ok st'
  | OpList opts => '(st', _) ← @FakeGRPCListeners_List simple_client c opts st; Ok st'
  | OpCreate l => '(st', _) ← @FakeGRPCListeners_Create simple_client c l "" st; Ok st'
  | OpUpdate l => '(st', _) ← @FakeGRPCListeners_Update simple_client c l "" st; Ok st'
  | OpDelete name => Ok (@FakeGRPCListeners_Delete simple_client c name "" st).1
  end.

(** Calls of clients of several namespaces. *)
Fixpoint run_ops (ops : list (string * operation)) (st : tracker) : M tracker :=
  match ops with
  | [] => Ok st
  | (ns, op) :: ops' => st' ← client_op ns op st; run_ops ops' st'
  end.

(** A client stores listeners of its namespace. *)
Definition own_namespace (ns : string) (op : operation) : Prop :=
  match op with
  | OpCreate l | OpUpdate l => GRPCListener_Namespace l = ns
  | _ => True
  end.

Lemma ns_store_insert ns l m :
  ns_store ns (<[listener_key l := l]> m)
  = if sees ns l then <[listener_key l := l]> (ns_store ns m) else ns_store ns m.
Proof.
  unfold ns_store, sees. case_bool_decide as Hs.
  - by rewrite map_filter_insert_True.
  - rewrite map_filter_insert_False by done. by apply map_filter_delete_not.
Qed.

Lemma ns_store_delete ns l m :
  ns_store ns (delete (listener_key l) m)
  = if sees ns l then delete (listener_key l) (ns_store ns m) else ns_store ns m.
Proof.
  unfold ns_store, sees. case_bool_decide as Hs; [by rewrite map_filter_delete|].
  by apply map_filter_delete_not.
Qed.

Lemma ns_store_lookup ns m k l : ns_store ns m !! k = Some l -> m !! k = Some l.
Proof. unfold ns_store. rewrite map_lookup_filter_Some. tauto. Qed.

Lemma keyed_insert l m : keyed m -> keyed (<[listener_key l := l]> m).
Proof. intros Hm k x. rewrite lookup_insert_Some. intros [[<- <-]|[_ ?]]; [done|by apply Hm]. Qed.

Lemma keyed_delete k m : keyed m -> keyed (delete k m).
Proof. intros Hm k' x. rewrite lookup_delete_Some. intros [_ ?]. by apply Hm. Qed.

(** A listing is the store of the namespace. *)
Lemma listed_store ns m ls : keyed m -> ls ≡ₚ in_namespace ns m -> listed ls = ns_store ns m.
Proof.
  intros Hm Hls. unfold listed, in_namespace in *. fold (ns_store ns m) in Hls.
  assert (((fun l => (listener_key l, l)) <$> (map_to_list (ns_store ns m)).*2)
    = map_to_list (ns_store ns m)) as Heq.
  { rewrite <-list_fmap_compose. rewrite <-(list_fmap_id (map_to_list (ns_store ns m))) at 2.
    apply list_fmap_ext. intros i [k l] Hk%list_elem_of_lookup_2%elem_of_map_to_list. cbn.
    by rewrite (Hm k l (ns_store_lookup _ _ _ _ Hk)). }
  rewrite <-(list_to_map_to_list (ns_store ns m)). symmetry.
  rewrite <-Heq. apply list_to_map_proper; [|by rewrite Hls].
  rewrite Heq. apply NoDup_fst_map_to_list.
Qed.

(** A call keeps the open watches up to date with the store, with [n] events each
    at most. *)
Record follows (n : nat) (st st' : tracker) : Prop := {
  follows_keyed : keyed (tracker_store st) -> keyed (tracker_store st');
  follows_watches : tracker_watches st' = tracker_watches st;
  follows_length w ns : tracker_watches st !! w = Some ns ->
    length (tracker_events w st') <= length (tracker_events w st) + n;
  follows_events w ns : keyed (tracker_store st) -> tracker_watches st !! w = Some ns ->
    exists es, tracker_events w st' = tracker_events w st ++ es /\
      replay es (ns_store ns (tracker_store st)) = ns_store ns (tracker_store st')
}.

Lemma follows_refl st : follows 1 st st.
Proof. split; [done|done|lia|]. intros w ns _ _. exists []. by rewrite app_nil_r. Qed.

Lemma follows_trans n1 n2 st1 st2 st3 :
  follows n1 st1 st2 -> follows n2 st2 st3 -> follows (n1 + n2) st1 st3.
Proof.
  intros [Hk1 Hw1 Hl1 He1] [Hk2 Hw2 Hl2 He2]. split; [tauto|congruence| |].
  - intros w ns Hns. specialize (Hl1 w ns Hns). rewrite <-Hw1 in Hns. specialize (Hl2 w ns Hns). lia.
  - intros w ns Hk Hns. destruct (He1 w ns Hk Hns) as (es1 & He & Hr1).
    destruct (He2 w ns (Hk1 Hk)) as (es2 & He' & Hr2); [congruence|].
    exists (es1 ++ es2). split; [by rewrite He', He, app_assoc|]. unfold replay in *.
    by rewrite foldl_app, Hr1.
Qed.

Lemma pushes_length e st st' w ns :
  pushes tracker_watches e st st' -> tracker_watches st !! w = Some ns ->
  length (tracker_events w st') <= length (tracker_events w st) + 1.
Proof.
  intros [_ Hev] Hns. rewrite (Hev w ns Hns), length_app. case_match; cbn; lia.
Qed.

Lemma follows_set e st st' :
  (e = Added (event_object e) \/ e = Modified (event_object e)) ->
  tracker_store st' = <[listener_key (event_object e) := event_object e]> (tracker_store st) ->
  pushes tracker_watches e st st' -> follows 1 st st'.
Proof.
  intros He Hs Hp. pose proof Hp as [Hw Hev].
  split; [|done|intros w ns; by apply (pushes_length e)|].
  - intros Hk. rewrite Hs. by apply keyed_insert.
  - intros w ns Hk Hns. eexists. split; [by apply Hev|]. rewrite Hs, ns_store_insert.
    destruct (sees ns (event_object e)); [|done]. cbn. by destruct He as [-> | ->].
Qed.

Lemma follows_delete ns name l st st' :
  tracker_store st !! (ns, name) = Some l ->
  tracker_store st' = delete (ns, name) (tracker_store st) ->
  pushes tracker_watches (Deleted l) st st' -> follows 1 st st'.
Proof.
  intros Hl Hs Hp. pose proof Hp as [Hw Hev].
  split; [|done|intros w ns'; by apply (pushes_length (Deleted l))|].
  - intros Hk. rewrite Hs. by apply keyed_delete.
  - intros w ns' Hk Hns. eexists. split; [by apply Hev|]. rewrite Hs, <-(Hk _ _ Hl).
    rewrite ns_store_delete. cbn. by destruct (sees ns' l).
Qed.

Lemma room_follows n m st st' :
  follows m st st' -> room tracker_watches (m + n) st -> room tracker_watches n st'.
Proof.
  intros [_ Hw Hl _] Hroom w ns Hns. rewrite Hw in Hns.
  specialize (Hroom w ns Hns). specialize (Hl w ns Hns). lia.
Qed.

Lemma room_le n m st : m <= n -> room tracker_watches n st -> room tracker_watches m st.
Proof. intros Hle Hroom w ns Hns. specialize (Hroom w ns Hns). lia. Qed.

Lemma client_op_follows ns op st :
  own_namespace ns op -> room tracker_watches 1 st ->
  exists st', client_op ns op st = Ok st' /\ follows 1 st st'.
Proof.
  intros Hns Hroom. destruct op as [name|opts|l|l|name]; cbn; unfold FakeGRPCListeners_Get,
    FakeGRPCListeners_List, FakeGRPCListeners_Create, FakeGRPCListeners_Update,
    FakeGRPCListeners_Delete, invoke_listener; cbn [FakeGRPCListeners_ns].
  - rewrite simple_invokes; rewrite react_get; [|by destruct (tracker_store st !! (ns, name))].
    destruct (tracker_store st !! (ns, name)); cbn; eexists; (split; [done|apply follows_refl]).
  - destruct (react_list ns opts st) as (ls & Hl & _). rewrite simple_invokes; rewrite Hl; [|done].
    cbn. eexists. split; [done|apply follows_refl].
  - destruct (react_create ns l st Hns Hroom) as (st' & Hc & Hs & Hp).
    rewrite simple_invokes; rewrite Hc; [|by destruct (tracker_store st !! _)].
    destruct (tracker_store st !! listener_key l); cbn; eexists; (split; [done|]);
      [apply follows_refl|]. apply (follows_set (Added l)); eauto.
  - destruct (react_update ns l st Hns Hroom) as (st' & Hc & Hs & Hp).
    rewrite simple_invokes; rewrite Hc; [|by destruct (tracker_store st !! _)].
    destruct (tracker_store st !! listener_key l); cbn; eexists; (split; [done|]);
      [|apply follows_refl]. apply (follows_set (Modified l)); eauto.
  - destruct (react_delete ns name "" st Hroom) as (st' & r & Hc & Hs & Hp).
    rewrite simple_invokes; rewrite Hc; [|by destruct (tracker_store st !! _)].
    destruct (tracker_store st !! (ns, name)) as [l|] eqn:Hl; cbn; eexists; (split; [done|]);
      [|apply follows_refl]. apply (follows_delete ns name l); auto.
Qed.

Lemma run_ops_follows ops st :
  Forall (fun '(ns, op) => own_namespace ns op) ops -> room tracker_watches (length ops) st ->
  exists st', run_ops ops st = Ok st' /\ follows (length ops) st st'.
Proof.
  revert st. induction ops as [|[ns op] ops IH]; intros st Hall Hroom.
  { exists st. split; [done|]. split; [done|done|lia|]. intros w ns _ _. exists [].
    by rewrite app_nil_r. }
  apply Forall_cons in Hall as [Hop Hall]. cbn [run_ops length] in *.
  destruct (client_op_follows ns op st Hop) as (st1 & -> & Hf1).
  { eapply room_le; [|done]. lia. }
  cbn [mbind outcome_bind].
  destruct (IH st1 Hall) as (st2 & -> & Hf2); [by eapply room_follows|].
  exists st2. split; [done|]. by apply (follows_trans 1 _ _ st1).
Qed.

(** *** The objects of a new clientset *)

Definition no_watches (st : tracker) : Prop := tracker_watches st = ∅.

Lemma no_watches_room n st : no_watches st -> room tracker_watches n st.
Proof. intros Hn w ns. rewrite Hn. by rewrite lookup_empty. Qed.

Definition add_all (objects : list GRPCListener) (o : tracker) : M tracker :=
  foldM (fun o obj =>
    match tracker_Add obj o with
    | (_, Some _) => Panic (PanicValue "NewSimpleClientset")
    | (o', None) => Ok o'
    end) objects o.

Lemma add_all_distinct objects o :
  no_watches o -> keyed (tracker_store o) -> NoDup (listener_key <$> objects) ->
  (forall k, k ∈ listener_key <$> objects -> tracker_store o !! k = None) ->
  exists o', add_all objects o = Ok o' /\ no_watches o' /\ keyed (tracker_store o').
Proof.
  revert o. induction objects as [|l objects IH]; intros o Hn Hk Hnd Hnew; [by exists o|].
  rewrite fmap_cons in Hnd, Hnew. apply NoDup_cons in Hnd as [Hl Hnd]. cbn.
  pose proof (add_object l o (no_watches_room 1 o Hn)) as Hadd.
  rewrite Hnew in Hadd by by left. destruct Hadd as (o' & -> & Hs & Hp).
  cbn. apply IH.
  - destruct Hp as [Hw _]. unfold no_watches in *. by rewrite Hw.
  - rewrite Hs. by apply keyed_insert.
  - done.
  - intros k Hin. rewrite Hs, lookup_insert_ne; [apply Hnew; by right|]. by intros <-.
Qed.

Lemma add_all_duplicate objects o :
  no_watches o -> ~ (NoDup (listener_key <$> objects) /\
    forall k, k ∈ listener_key <$> objects -> tracker_store o !! k = None) ->
  add_all objects o = Panic (PanicValue "NewSimpleClientset").
Proof.
  revert o. induction objects as [|l objects IH]; intros o Hn Hdup.
  { destruct Hdup. split; [constructor|]. intros k Hk. by apply elem_of_nil in Hk. }
  cbn. pose proof (add_object l o (no_watches_room 1 o Hn)) as Hadd.
  destruct (tracker_store o !! listener_key l) as [x|] eqn:Hl.
  { destruct Hadd as (o' & e & ->). done. }
  destruct Hadd as (o' & -> & Hs & Hp). cbn. apply IH.
  - destruct Hp as [Hw _]. unfold no_watches in *. by rewrite Hw.
  - intros [Hnd Hnew]. apply Hdup. rewrite fmap_cons.
    assert (listener_key l ∉ listener_key <$> objects) as Hnin.
    { intros Hin%Hnew. by rewrite Hs, lookup_insert_eq in Hin. }
    split; [by constructor|]. intros k [->|Hin]%elem_of_cons; [done|].
    specialize (Hnew k Hin). rewrite Hs, lookup_insert_ne in Hnew; [done|]. by intros <-.
Qed.

(** ** Properties *)


(** The error of the tracker does not reach the caller: the reactor leaves the
    watch unhandled, and the fake reports that. *)
Theorem watch_error_replaced ns opts st st' w e :
  tracker_Watch ns st = (st', (w, Some e)) ->
  @FakeGRPCListeners_Watch simple_client {| FakeGRPCListeners_ns := ns |} opts st
  = (st', (None, Some (unhandled_watch (WatchAction ns opts)))).
Proof. intros Hw. by rewrite simple_watch, Hw. Qed.

End laws.

(** ** An instance *)

Fixpoint invoke_chain {S} (chain : list (reactor S runtimeObject)) (a : action)
    (d : runtimeObject) (st : S) : S * (option runtimeObject * option error) :=
  match chain with
  | [] => (st, (Some d, None))
  | r :: rest =>
      if handles r a then
        let '(st', x) := reactor_React r a st in
        if reaction_handled x then (st', (reaction_ret x, reaction_err x))
        else invoke_chain rest a d st'
      else invoke_chain rest a d st
  end.

Fixpoint watch_chain {S} (chain : list (reactor S nat)) (a : action) (st : S)
  : S * (option nat * option error) :=
  match chain with
  | [] => (st, (None, Some (errorString "unhandled watch")))
  | r :: rest =>
      if handles r a then
        let '(st', x) := reactor_React r a st in
        if reaction_handled x then (st', (reaction_ret x, reaction_err x))
        else watch_chain rest a st'
      else watch_chain rest a st
  end.

Definition plain_lib : FakeLib :=
  {| Fake_Invokes S := @invoke_chain S; Fake_InvokesWatch S := @watch_chain S;
     unhandled_watch _ := errorString "unhandled watch" |}.

Lemma plain_lib_laws : @FakeLibLaws plain_lib.
Proof. by split. Qed.

(** A store, and for each watch its namespace and its events. *)
Record plain_state := {
  plain_store : gmap key GRPCListener;
  plain_watches : gmap nat (string * list event)
}.

Definition push (e : event) (ws : gmap nat (string * list event)) : gmap nat (string * list event) :=
  (fun '(ns, es) => (ns, es ++ (if sees ns (event_object e) then [e] else []))) <$> ws.

Definition put (e : event) (st : plain_state) : plain_state :=
  {| plain_store := <[listener_key (event_object e) := event_object e]> (plain_store st);
     plain_watches := push e (plain_watches st) |}.

Definition plain_react (a : action) (st : plain_state) : plain_state * reaction runtimeObject :=
  match a with
  | GetAction ns name =>
      (st, match plain_store st !! (ns, name) with
           | Some l => handled (Some (RuntimeListener l)) None
           | None => handled None (Some (missing name))
           end)
  | ListAction ns _ => (st, handled (Some (RuntimeList (in_namespace ns (plain_store st)))) None)
  | CreateAction _ l =>
      match plain_store st !! listener_key l with
      | Some _ => (st, handled None (Some (alreadyExists (GRPCListener_Name l))))
      | None => (put (Added l) st, handled (Some (RuntimeListener l)) None)
      end
  | UpdateAction _ l =>
      match plain_store st !! listener_key l with
      | Some _ => (put (Modified l) st, handled (Some (RuntimeListener l)) None)
      | None => (st, handled None (Some (missing (GRPCListener_Name l))))
      end
  | DeleteAction ns name _ =>
      match plain_store st !! (ns, name) with
      | Some l =>
          ({| plain_store := delete (ns, name) (plain_store st);
              plain_watches := push (Deleted l) (plain_watches st) |}, handled None None)
      | None => (st, handled None (Some (missing name)))
      end
  | _ => (st, handled None (Some (errorString "no reaction")))
  end.

Definition plain_tracker : ObjectTracker :=
  {| tracker := plain_state;
     NewObjectTracker := {| plain_store := ∅; plain_watches := ∅ |};
     tracker_Add l st :=
       match plain_store st !! listener_key l with
       | Some _ => (st, Some (alreadyExists (GRPCListener_Name l)))
       | None => (put (Added l) st, None)
       end;
     ObjectReaction := plain_react;
     tracker_Watch ns st :=
       let w := fresh (dom (plain_watches st)) in
       ({| plain_store := plain_store st;
           plain_watches := <[w := (ns, [])]> (plain_watches st) |}, (Some w, None));
     tracker_events w st := default [] (snd <$> plain_watches st !! w);
     tracker_ExtractLabel := key_selector |}.

Lemma push_pushes e (st st' : plain_state) :
  plain_watches st' = push e (plain_watches st) ->
  @pushes plain_tracker (fun st => fst <$> plain_watches st) e st st'.
Proof.
  intros Hst. unfold pushes. rewrite Hst. unfold push. split.
  - rewrite <-map_fmap_compose. apply map_fmap_ext. by intros w [ns es].
  - intros w ns. cbn. rewrite Hst, !lookup_fmap. unfold push. rewrite lookup_fmap.
    destruct (plain_watches st !! w) as [[ns' es]|]; cbn; [|done]. by intros [= ->].
Qed.

Definition plain_tracker_laws : @TrackerLaws plain_tracker plain_errors.
Proof.
  refine (@Build_TrackerLaws plain_tracker plain_errors plain_store
            (fun st => fst <$> plain_watches st) _ _ _ _ _ _ _ _ _).
  - done.
  - done.
  - intros l st _. cbn. destruct (plain_store st !! listener_key l); [by eexists _, _|].
    eexists. split; [done|]. split; [done|]. by apply push_pushes.
  - done.
  - intros ns opts st. eexists. by split.
  - intros ns l st _ _. cbn. exists (put (Added l) st). split; [done|]. split; [done|].
    by apply push_pushes.
  - intros ns l st _ _. cbn. exists (put (Modified l) st). split; [done|]. split; [done|].
    by apply push_pushes.
  - intros ns name o st _. cbn. destruct (plain_store st !! (ns, name)) as [l|] eqn:Hl.
    + eexists _, _. split; [done|]. split; [done|]. intros l' [= <-]. by apply push_pushes.
    + exists {| plain_store := delete (ns, name) (plain_store st);
                plain_watches := plain_watches st |}, None. by split.
  - intros ns st. cbn. eexists _, _. split; [done|]. split; [done|].
    pose proof (is_fresh (dom (plain_watches st))) as Hf. apply not_elem_of_dom in Hf.
    split; [by rewrite lookup_fmap, Hf|]. cbn. rewrite fmap_insert. split; [done|].
    rewrite lookup_insert_eq. split; [done|]. intros w' Hw. by rewrite lookup_insert_ne.
Defined.

(** A reader of the default namespace, while clients of two namespaces work. *)
Definition elsewhere : GRPCListener :=
  {| GRPCListener_ObjectMeta :=
       {| ObjectMeta_Name := "a"; ObjectMeta_Namespace := "other";
          ObjectMeta_ResourceVersion := ""; ObjectMeta_Labels := ∅ |};
     GRPCListener_Spec := GRPCListener_Spec emptyListener |}.

Definition before_ops : list (string * operation) :=
  [("default", OpCreate (sample "b" ∅ sample_spec)); ("other", OpCreate elsewhere)].
Definition after_ops : list (string * operation) :=
  [("default", OpDelete "a"); ("other", OpDelete "a");
   ("default", OpCreate (sample "c" ∅ sample_spec));
   ("default", OpUpdate (sample "b" {["team" := "x"]} sample_spec))].

