(* ===== verification/ClientConfig.v ===== *)
(** How the clients of the API group are made:
    [client/clientset/versioned/clientset.go],
    [client/clientset/versioned/typed/gtc/v1alpha1/gtc_client.go], and the table
    [ForKind] of [client/applyconfiguration/utils.go].

    The constructors of [k8s.io/client-go/rest] and of its discovery client are
    the parameter [RestLib]. A Go [float32] is only compared with 0. *)

From S2P Require Import Prelude GoStrings GoPath GoStrconv Api Errors Json ApplyConfig ApplyJson ApplyDecode Clientset.

(** ** Configurations *)

Record GroupVersion := { GroupVersion_Group : string; GroupVersion_Version : string }.

(** [v1alpha1.SchemeGroupVersion] *)
Definition SchemeGroupVersion : GroupVersion :=
  {| GroupVersion_Group := GroupName; GroupVersion_Version := "v1alpha1" |}.

Class RestLib := {
  float32 : Type;
  float_positive : float32 -> bool;
  RateLimiter : Type;
  NewTokenBucketRateLimiter : float32 -> Z -> RateLimiter;
  (** what else a configuration holds: hosts, credentials, transports *)
  Transport : Type;
  HTTPClient : Type;
  DefaultKubernetesUserAgent : string
}.

(** The codecs a client can be given. *)
Inductive Serializer := NoSerializer | CodecsWithoutConversion.

Section configuration.
Context `{RestLib}.

(** [rest.Config], with the fields that the constructors read or set. *)
Record Config := {
  Config_GroupVersion : option GroupVersion;
  Config_APIPath : string;
  Config_NegotiatedSerializer : Serializer;
  Config_UserAgent : string;
  Config_QPS : float32;
  Config_Burst : Z;
  Config_RateLimiter : option RateLimiter;
  Config_Transport : Transport
}.

Definition set_UserAgent (ua : string) (c : Config) : Config :=
  {| Config_GroupVersion := Config_GroupVersion c; Config_APIPath := Config_APIPath c;
     Config_NegotiatedSerializer := Config_NegotiatedSerializer c; Config_UserAgent := ua;
     Config_QPS := Config_QPS c; Config_Burst := Config_Burst c;
     Config_RateLimiter := Config_RateLimiter c; Config_Transport := Config_Transport c |}.

Definition set_RateLimiter (r : RateLimiter) (c : Config) : Config :=
  {| Config_GroupVersion := Config_GroupVersion c; Config_APIPath := Config_APIPath c;
     Config_NegotiatedSerializer := Config_NegotiatedSerializer c;
     Config_UserAgent := Config_UserAgent c;
     Config_QPS := Config_QPS c; Config_Burst := Config_Burst c;
     Config_RateLimiter := Some r; Config_Transport := Config_Transport c |}.

(** [if config.UserAgent == ""] *)
Definition default_UserAgent (c : Config) : Config :=
  if decide (Config_UserAgent c = "") then set_UserAgent DefaultKubernetesUserAgent c else c.

(** [func setConfigDefaults]; it never fails. *)
Definition setConfigDefaults (config : Config) : M Config :=
  Ok (default_UserAgent
        {| Config_GroupVersion := Some SchemeGroupVersion; Config_APIPath := "/apis";
           Config_NegotiatedSerializer := CodecsWithoutConversion;
           Config_UserAgent := Config_UserAgent config; Config_QPS := Config_QPS config;
           Config_Burst := Config_Burst config; Config_RateLimiter := Config_RateLimiter config;
           Config_Transport := Config_Transport config |}).

(** ** Constructors *)

(** [rest.HTTPClientFor], [rest.RESTClientForConfigAndClient] and
    [discovery.NewDiscoveryClientForConfigAndClient]: what they are given, or an
    error. *)
Context (HTTPClientFor : Config -> M HTTPClient)
        (RESTClientForConfigAndClient : Config -> HTTPClient -> option error)
        (NewDiscoveryClientForConfigAndClient : Config -> HTTPClient -> option error).

(** A client knows the configuration and the HTTP client that it was made with. *)
Record RESTClient := { RESTClient_config : Config; RESTClient_http : HTTPClient }.

Definition rest_client (c : Config) (h : HTTPClient) : M RESTClient :=
  match RESTClientForConfigAndClient c h with
  | Some e => Err e
  | None => Ok {| RESTClient_config := c; RESTClient_http := h |}
  end.
Definition discovery_client (c : Config) (h : HTTPClient) : M RESTClient :=
  match NewDiscoveryClientForConfigAndClient c h with
  | Some e => Err e
  | None => Ok {| RESTClient_config := c; RESTClient_http := h |}
  end.

(** [type ApiV1alpha1Client struct] *)
Record ApiV1alpha1Client := { ApiV1alpha1Client_restClient : RESTClient }.

(** [gtc_client.go]: [NewForConfigAndClient], [NewForConfig],
    [NewForConfigOrDie] and [RESTClient], which is nil for a nil client. *)
Definition ApiV1alpha1_NewForConfigAndClient (c : Config) (h : HTTPClient)
  : M ApiV1alpha1Client :=
  config ← setConfigDefaults c;
  client ← rest_client config h;
  Ok {| ApiV1alpha1Client_restClient := client |}.

Definition ApiV1alpha1_NewForConfig (c : Config) : M ApiV1alpha1Client :=
  config ← setConfigDefaults c;
  httpClient ← HTTPClientFor config;
  ApiV1alpha1_NewForConfigAndClient config httpClient.

(** [panic(err)] *)
Definition or_die {A} (m : M A) : M A :=
  match m with Err _ => Panic (PanicValue "NewForConfigOrDie") | r => r end.

Definition ApiV1alpha1_NewForConfigOrDie (c : Config) : M ApiV1alpha1Client :=
  or_die (ApiV1alpha1_NewForConfig c).

Definition ApiV1alpha1Client_RESTClient (c : option ApiV1alpha1Client) : option RESTClient :=
  ApiV1alpha1Client_restClient <$> c.

(** [type Clientset struct] *)
Record Clientset := {
  Clientset_DiscoveryClient : RESTClient;
  Clientset_apiV1alpha1 : ApiV1alpha1Client
}.

Definition burst_required : error :=
  errorString "burst is required to be greater than 0 when RateLimiter is not set and QPS is set to greater than 0".

(** The rate limiter of [NewForConfigAndClient] of [clientset.go]. *)
Definition limit_rate (c : Config) : M Config :=
  match Config_RateLimiter c with
  | Some _ => Ok c
  | None =>
      if float_positive (Config_QPS c) then
        if (Config_Burst c <=? 0)%Z then Err burst_required
        else Ok (set_RateLimiter (NewTokenBucketRateLimiter (Config_QPS c) (Config_Burst c)) c)
      else Ok c
  end.

Definition NewForConfigAndClient (c : Config) (httpClient : HTTPClient) : M Clientset :=
  configShallowCopy ← limit_rate c;
  api ← ApiV1alpha1_NewForConfigAndClient configShallowCopy httpClient;
  disc ← discovery_client configShallowCopy httpClient;
  Ok {| Clientset_DiscoveryClient := disc; Clientset_apiV1alpha1 := api |}.

Definition NewForConfig (c : Config) : M Clientset :=
  let configShallowCopy := default_UserAgent c in
  httpClient ← HTTPClientFor configShallowCopy;
  NewForConfigAndClient configShallowCopy httpClient.

Definition NewForConfigOrDie (c : Config) : M Clientset := or_die (NewForConfig c).

(** [New] of [gtc_client.go] and of [clientset.go], over a REST client that is
    there; [discovery.NewDiscoveryClient] is client-go's. *)
Definition ApiV1alpha1_New (c : RESTClient) : ApiV1alpha1Client :=
  {| ApiV1alpha1Client_restClient := c |}.
Definition Clientset_New (NewDiscoveryClient : RESTClient -> RESTClient) (c : RESTClient)
  : Clientset :=
  {| Clientset_DiscoveryClient := NewDiscoveryClient c; Clientset_apiV1alpha1 := ApiV1alpha1_New c |}.

(** The accessors of a clientset: [Discovery] is nil for a nil clientset,
    [ApiV1alpha1] dereferences it. *)
Definition Clientset_Discovery (c : option Clientset) : option RESTClient :=
  Clientset_DiscoveryClient <$> c.
Definition Clientset_ApiV1alpha1 (c : option Clientset) : M ApiV1alpha1Client :=
  cs ← deref c; Ok (Clientset_apiV1alpha1 cs).

(** [newGRPCListeners]: the REST client of the group, and the namespace. *)
Definition newGRPCListeners (c : option ApiV1alpha1Client) (namespace : string)
  : option RESTClient * gRPCListeners :=
  (ApiV1alpha1Client_RESTClient c, {| gRPCListeners_ns := namespace |}).
Definition ApiV1alpha1Client_GRPCListeners (c : option ApiV1alpha1Client) (namespace : string)
  : option RESTClient * gRPCListeners := newGRPCListeners c namespace.

(** The client of listeners that a program gets from a clientset. *)
Definition listeners_of (m : M Clientset) (namespace : string)
  : M (option RESTClient * gRPCListeners) :=
  cs ← m; api ← Clientset_ApiV1alpha1 (Some cs);
  Ok (ApiV1alpha1Client_GRPCListeners (Some api) namespace).

(** ** Lemmas *)

Lemma default_UserAgent_idem c :
  default_UserAgent (default_UserAgent c) = default_UserAgent c.
Proof.
  unfold default_UserAgent. destruct (decide (Config_UserAgent c = "")) as [He|Hn].
  - cbn. by destruct (decide _).
  - by rewrite decide_False.
Qed.

Lemma limit_rate_Ok c c' :
  limit_rate c = Ok c' ->
  Config_UserAgent c' = Config_UserAgent c /\ Config_Transport c' = Config_Transport c /\
  (Config_RateLimiter c' = None -> float_positive (Config_QPS c) = false).
Proof.
  unfold limit_rate. destruct (Config_RateLimiter c) eqn:Hr; [intros [= <-]; by rewrite Hr|].
  destruct (float_positive _) eqn:Hq; [|by intros [= <-]].
  destruct (_ <=? _)%Z; [done|]. by intros [= <-].
Qed.

Lemma limit_rate_fails c e :
  limit_rate c = Err e <->
  e = burst_required /\ Config_RateLimiter c = None /\
  float_positive (Config_QPS c) = true /\ (Config_Burst c <= 0)%Z.
Proof.
  unfold limit_rate. destruct (Config_RateLimiter c); [naive_solver|].
  destruct (float_positive _); [|naive_solver].
  destruct (Z.leb_spec (Config_Burst c) 0); [|naive_solver lia]. naive_solver.
Qed.

(** The clients of a clientset. When [NewForConfig] returns, the typed client
    speaks to the API group of the program under [/apis], with its codecs; it
    and the discovery client share one HTTP client, one user agent and one rate
    limiter, which is set whenever the configuration asks for a rate. *)
Theorem NewForConfig_clients c cs :
  NewForConfig c = Ok cs ->
  let api := ApiV1alpha1Client_restClient (Clientset_apiV1alpha1 cs) in
  let disc := Clientset_DiscoveryClient cs in
  Config_GroupVersion (RESTClient_config api) = Some SchemeGroupVersion /\
  Config_APIPath (RESTClient_config api) = "/apis" /\
  Config_NegotiatedSerializer (RESTClient_config api) = CodecsWithoutConversion /\
  RESTClient_http api = RESTClient_http disc /\
  HTTPClientFor (default_UserAgent c) = Ok (RESTClient_http api) /\
  Config_UserAgent (RESTClient_config api)
    = (if decide (Config_UserAgent c = "") then DefaultKubernetesUserAgent else Config_UserAgent c) /\
  Config_RateLimiter (RESTClient_config api) = Config_RateLimiter (RESTClient_config disc) /\
  (Config_RateLimiter (RESTClient_config api) = None -> float_positive (Config_QPS c) = false).
Proof.
  unfold NewForConfig, NewForConfigAndClient, ApiV1alpha1_NewForConfigAndClient, rest_client,
    discovery_client, setConfigDefaults.
  destruct (HTTPClientFor (default_UserAgent c)) as [h| |] eqn:Hh; try done. cbn [mbind outcome_bind].
  destruct (limit_rate (default_UserAgent c)) as [c1| |] eqn:Hl; try done. cbn [mbind outcome_bind].
  apply limit_rate_Ok in Hl as (Hua & _ & Hq).
  destruct (RESTClientForConfigAndClient _ h); [done|]. cbn [mbind outcome_bind].
  destruct (NewDiscoveryClientForConfigAndClient c1 h); [done|]. cbn [mbind outcome_bind].
  intros [= <-]. cbn zeta. cbn [Clientset_apiV1alpha1 Clientset_DiscoveryClient
    ApiV1alpha1Client_restClient RESTClient_config RESTClient_http].
  unfold default_UserAgent in *.
  destruct (decide (Config_UserAgent c = "")); cbn in *; rewrite ?Hua; split_and!; try done;
    by case_decide; cbn; rewrite ?Hua.
Qed.

(** The errors of [NewForConfig]. It fails with an error of one of the
    constructors of client-go, or because a rate is asked for, there is no rate
    limiter and the burst is not positive; in that last case it always fails. *)
Theorem NewForConfig_errors c :
  (forall e, NewForConfig c = Err e ->
     HTTPClientFor (default_UserAgent c) = Err e \/
     (e = burst_required /\ Config_RateLimiter c = None /\
      float_positive (Config_QPS c) = true /\ (Config_Burst c <= 0)%Z) \/
     (exists c' h, RESTClientForConfigAndClient c' h = Some e \/
                   NewDiscoveryClientForConfigAndClient c' h = Some e)) /\
  (forall h, HTTPClientFor (default_UserAgent c) = Ok h -> Config_RateLimiter c = None ->
     float_positive (Config_QPS c) = true -> (Config_Burst c <= 0)%Z ->
     NewForConfig c = Err burst_required).
Proof.
  assert (Config_RateLimiter (default_UserAgent c) = Config_RateLimiter c /\
          Config_QPS (default_UserAgent c) = Config_QPS c /\
          Config_Burst (default_UserAgent c) = Config_Burst c) as (Hr & Hq & Hb)
    by (unfold default_UserAgent; by destruct (decide _)).
  unfold NewForConfig, NewForConfigAndClient. split.
  - intros e [He|(h & _ & [He|(c1 & _ & He)]%bind_Err)]%bind_Err; [by left| |].
    + right; left. apply limit_rate_fails in He. by rewrite Hr, Hq, Hb in He.
    + right; right. unfold ApiV1alpha1_NewForConfigAndClient, rest_client, discovery_client in He.
      cbn [mbind outcome_bind setConfigDefaults] in He.
      destruct (RESTClientForConfigAndClient _ h) eqn:H1; cbn in He;
        [injection He as <-; eauto|].
      destruct (NewDiscoveryClientForConfigAndClient c1 h) eqn:H2; cbn in He; [|done].
      injection He as <-. eauto.
  - intros h -> Hr' Hq' Hb'. cbn [mbind outcome_bind].
    assert (limit_rate (default_UserAgent c) = Err burst_required) as ->; [|done].
    apply limit_rate_fails. by rewrite Hr, Hq, Hb.
Qed.
End configuration.

(** ** Apply configurations by kind *)

Record GroupVersionKind := {
  GroupVersionKind_GroupVersion : GroupVersion;
  GroupVersionKind_Kind : string
}.

Global Instance GroupVersion_eq_dec : EqDecision GroupVersion.
Proof. solve_decision. Defined.

(** [SchemeGroupVersion.WithKind(kind)] *)
Definition WithKind (kind : string) : GroupVersionKind :=
  {| GroupVersionKind_GroupVersion := SchemeGroupVersion; GroupVersionKind_Kind := kind |}.

(** The configurations of [client/applyconfiguration/gtc/v1alpha1], by their types. *)
Inductive applyConfiguration :=
  | CBackend (c : BackendApplyConfiguration)
  | CFaultAbort (c : FaultAbortApplyConfiguration)
  | CFaultDelay (c : FaultDelayApplyConfiguration)
  | CFaultInterceptor (c : FaultInterceptorApplyConfiguration)
  | CFraction (c : FractionApplyConfiguration)
  | CGRPCListener (c : GRPCListenerApplyConfiguration)
  | CGRPCListenerSpec (c : GRPCListenerSpecApplyConfiguration)
  | CHashPolicy (c : HashPolicyApplyConfiguration)
  | CHeaderMatcher (c : HeaderMatcherApplyConfiguration)
  | CInterceptor (c : InterceptorApplyConfiguration)
  | CLocality (c : LocalityApplyConfiguration)
  | CMetadataMatcher (c : MetadataMatcherApplyConfiguration)
  | CMethodMatcher (c : MethodMatcherApplyConfiguration)
  | CPortRef (c : PortRefApplyConfiguration)
  | CRangeMatcher (c : RangeMatcherApplyConfiguration)
  | CRegexMatcher (c : RegexMatcherApplyConfiguration)
  | CRetryBackoff (c : RetryBackoffApplyConfiguration)
  | CRetryPolicy (c : RetryPolicyApplyConfiguration)
  | CRingHashConfig (c : RingHashConfigApplyConfiguration)
  | CRoute (c : RouteApplyConfiguration)
  | CRouteMatcher (c : RouteMatcherApplyConfiguration)
  | CServiceMatcher (c : ServiceMatcherApplyConfiguration)
  | CServiceRef (c : ServiceRefApplyConfiguration)
  | CCluster (c : ClusterApplyConfiguration)
  | CClusterRef (c : ClusterRefApplyConfiguration)
  | CDefaultCluster (c : DefaultClusterApplyConfiguration)
  | CFaultFilter (c : FaultFilterApplyConfiguration)
  | CFilter (c : FilterApplyConfiguration)
  | CPathMatcher (c : PathMatcherApplyConfiguration).

(** [func ForKind]: nil for a kind that is not in the table. *)
Definition ForKind (kind : GroupVersionKind) : option applyConfiguration :=
  if decide (GroupVersionKind_GroupVersion kind = SchemeGroupVersion) then
    match GroupVersionKind_Kind kind with
    | "Backend" => Some (CBackend BackendApplyConfiguration_New)
    | "FaultAbort" => Some (CFaultAbort FaultAbortApplyConfiguration_New)
    | "FaultDelay" => Some (CFaultDelay FaultDelayApplyConfiguration_New)
    | "FaultInterceptor" => Some (CFaultInterceptor FaultInterceptorApplyConfiguration_New)
    | "Fraction" => Some (CFraction FractionApplyConfiguration_New)
    | "GRPCListener" => Some (CGRPCListener GRPCListenerApplyConfiguration_empty)
    | "GRPCListenerSpec" => Some (CGRPCListenerSpec GRPCListenerSpecApplyConfiguration_New)
    | "HashPolicy" => Some (CHashPolicy HashPolicyApplyConfiguration_New)
    | "HeaderMatcher" => Some (CHeaderMatcher HeaderMatcherApplyConfiguration_New)
    | "Interceptor" => Some (CInterceptor InterceptorApplyConfiguration_New)
    | "Locality" => Some (CLocality LocalityApplyConfiguration_New)
    | "MetadataMatcher" => Some (CMetadataMatcher MetadataMatcherApplyConfiguration_New)
    | "MethodMatcher" => Some (CMethodMatcher MethodMatcherApplyConfiguration_New)
    | "PortRef" => Some (CPortRef PortRefApplyConfiguration_New)
    | "RangeMatcher" => Some (CRangeMatcher RangeMatcherApplyConfiguration_New)
    | "RegexMatcher" => Some (CRegexMatcher RegexMatcherApplyConfiguration_New)
    | "RetryBackoff" => Some (CRetryBackoff RetryBackoffApplyConfiguration_New)
    | "RetryPolicy" => Some (CRetryPolicy RetryPolicyApplyConfiguration_New)
    | "RingHashConfig" => Some (CRingHashConfig RingHashConfigApplyConfiguration_New)
    | "Route" => Some (CRoute RouteApplyConfiguration_New)
    | "RouteMatcher" => Some (CRouteMatcher RouteMatcherApplyConfiguration_New)
    | "ServiceMatcher" => Some (CServiceMatcher ServiceMatcherApplyConfiguration_New)
    | "ServiceRef" => Some (CServiceRef ServiceRefApplyConfiguration_New)
    | _ => None
    end
  else None.

(** The name of the type of a configuration. *)
Definition kind_of (c : applyConfiguration) : string :=
  match c with
  | CBackend _ => "Backend"
  | CFaultAbort _ => "FaultAbort"
  | CFaultDelay _ => "FaultDelay"
  | CFaultInterceptor _ => "FaultInterceptor"
  | CFraction _ => "Fraction"
  | CGRPCListener _ => "GRPCListener"
  | CGRPCListenerSpec _ => "GRPCListenerSpec"
  | CHashPolicy _ => "HashPolicy"
  | CHeaderMatcher _ => "HeaderMatcher"
  | CInterceptor _ => "Interceptor"
  | CLocality _ => "Locality"
  | CMetadataMatcher _ => "MetadataMatcher"
  | CMethodMatcher _ => "MethodMatcher"
  | CPortRef _ => "PortRef"
  | CRangeMatcher _ => "RangeMatcher"
  | CRegexMatcher _ => "RegexMatcher"
  | CRetryBackoff _ => "RetryBackoff"
  | CRetryPolicy _ => "RetryPolicy"
  | CRingHashConfig _ => "RingHashConfig"
  | CRoute _ => "Route"
  | CRouteMatcher _ => "RouteMatcher"
  | CServiceMatcher _ => "ServiceMatcher"
  | CServiceRef _ => "ServiceRef"
  | CCluster _ => "Cluster"
  | CClusterRef _ => "ClusterRef"
  | CDefaultCluster _ => "DefaultCluster"
  | CFaultFilter _ => "FaultFilter"
  | CFilter _ => "Filter"
  | CPathMatcher _ => "PathMatcher"
  end.

(** The configurations of types that the API does not have, or does not use, any
    more. *)
Definition stale (c : applyConfiguration) : bool :=
  match c with
  | CCluster _ | CClusterRef _ | CDefaultCluster _ | CFaultFilter _ | CFilter _ | CPathMatcher _ => true
  | _ => false
  end.

(** The table of [ForKind]. It gives a configuration of the type that the kind
    names, only for kinds of the version of the API group; and it has one for
    every type of configuration but for those stale ones, although
    its documentation promises nil only where no configuration exists. *)
Theorem ForKind_types kind :
  (forall c, ForKind kind = Some c -> kind = WithKind (kind_of c)) /\
  (forall c', kind = WithKind (kind_of c') ->
     if stale c' then ForKind kind = None
     else exists c, ForKind kind = Some c /\ kind_of c = kind_of c').
Proof.
  split.
  - intros c. unfold ForKind, WithKind. destruct kind as [gv k]. cbn.
    destruct (decide _) as [->|]; [|done]. intros Hc. f_equal. revert Hc.
    repeat (match goal with |- match ?x with _ => _ end = _ -> _ => destruct x end; try done).
    all: by intros [= <-].
  - intros c' ->. unfold ForKind. cbn [GroupVersionKind_GroupVersion WithKind].
    rewrite decide_True by done. destruct c'; cbn; by eexists.
Qed.

(** ** Registration of the types *)

Record GroupKind := { GroupKind_Group : string; GroupKind_Kind : string }.

(** [func Kind] of [api/gtc/v1alpha1/register.go] *)
Definition Kind (kind : string) : GroupKind :=
  {| GroupKind_Group := GroupVersion_Group (GroupVersionKind_GroupVersion (WithKind kind));
     GroupKind_Kind := GroupVersionKind_Kind (WithKind kind) |}.

(** A scheme of apimachinery: [AddKnownTypes] registers types under a version,
    [AddToGroupVersion] the common ones. *)
Class SchemeLib := {
  scheme : Type;
  AddKnownTypes : GroupVersion -> list string -> scheme -> M scheme;
  AddToGroupVersion : GroupVersion -> scheme -> M scheme;
  recognizes : scheme -> GroupVersion -> string -> bool
}.

Class SchemeLaws `{SchemeLib} := {
  AddKnownTypes_keeps gv types s s' gv' k :
    AddKnownTypes gv types s = Ok s' -> recognizes s gv' k = true -> recognizes s' gv' k = true;
  AddKnownTypes_adds gv types s s' k :
    AddKnownTypes gv types s = Ok s' -> k ∈ types -> recognizes s' gv k = true;
  AddToGroupVersion_keeps gv s s' gv' k :
    AddToGroupVersion gv s = Ok s' -> recognizes s gv' k = true -> recognizes s' gv' k = true
}.

Section registration.
Context `{SchemeLib}.

(** [func addKnownTypes] *)
Definition addKnownTypes (s : scheme) : M scheme :=
  s ← AddKnownTypes SchemeGroupVersion ["GRPCListener"; "GRPCListenerList"] s;
  AddToGroupVersion SchemeGroupVersion s.

(** [runtime.SchemeBuilder.AddToScheme]: the functions in order, until one
    fails; the builder of the API has one, and so have the clientsets. *)
Definition SchemeBuilder_AddToScheme (builder : list (scheme -> M scheme)) (s : scheme) : M scheme :=
  foldM (fun s f => f s) builder s.

Definition AddToScheme (s : scheme) : M scheme := SchemeBuilder_AddToScheme [addKnownTypes] s.

(** [init] of [scheme/register.go] and of [fake/register.go]:
    [utilruntime.Must] panics on an error. *)
Definition init_scheme (s : scheme) : M scheme :=
  s ← AddToGroupVersion {| GroupVersion_Group := ""; GroupVersion_Version := "v1" |} s;
  match SchemeBuilder_AddToScheme [AddToScheme] s with
  | Err _ => Panic (PanicValue "Must")
  | r => r
  end.

(** The schemes of the clients, once initialised, know both kinds of the API
    group under its version: what the codecs of the clients encode and decode. *)
Theorem init_scheme_registers `{!SchemeLaws} s s' k :
  init_scheme s = Ok s' -> k ∈ ["GRPCListener"; "GRPCListenerList"] ->
  recognizes s' SchemeGroupVersion k = true.
Proof.
  unfold init_scheme, SchemeBuilder_AddToScheme, AddToScheme, SchemeBuilder_AddToScheme,
    addKnownTypes. cbn [foldM]. intros Hi Hk. inv_ok.
  destruct (AddKnownTypes _ _ r) as [s1| |] eqn:H1; try done. cbn [mbind outcome_bind] in Hi.
  destruct (AddToGroupVersion SchemeGroupVersion s1) as [s2| |] eqn:H2; try done.
  cbn in Hi. injection Hi as <-. eapply AddToGroupVersion_keeps; [exact H2|].
  by eapply AddKnownTypes_adds.
Qed.
End registration.

(** ** Witnesses *)

Definition plain_rest_lib : RestLib :=
  {| float32 := Z; float_positive q := (0 <? q)%Z; RateLimiter := Z * Z;
     NewTokenBucketRateLimiter q b := (q, b); Transport := string; HTTPClient := string;
     DefaultKubernetesUserAgent := "controller" |}.

Definition in_cluster (qps burst : Z) : @Config plain_rest_lib :=
  {| Config_GroupVersion := None; Config_APIPath := ""; Config_NegotiatedSerializer := NoSerializer;
     Config_UserAgent := ""; Config_QPS := qps : @float32 plain_rest_lib; Config_Burst := burst;
     Config_RateLimiter := None;
     Config_Transport := "https://10.0.0.1" : @Transport plain_rest_lib |}.

Definition connect (c : @Config plain_rest_lib) : M (@HTTPClient plain_rest_lib) :=
  Ok (Config_Transport c).

Lemma NewForConfig_clients_witness :
  exists cs, @NewForConfig plain_rest_lib connect (fun _ _ => None) (fun _ _ => None)
               (in_cluster 5 10) = Ok cs /\
    Config_UserAgent (RESTClient_config (ApiV1alpha1Client_restClient (Clientset_apiV1alpha1 cs)))
      = "controller" /\
    Config_APIPath (RESTClient_config (ApiV1alpha1Client_restClient (Clientset_apiV1alpha1 cs)))
      = "/apis".
Proof.
  eexists. split; [reflexivity|].
  destruct (@NewForConfig_clients plain_rest_lib connect (fun _ _ => None) (fun _ _ => None)
    (in_cluster 5 10) _ eq_refl) as (_ & Hp & _ & _ & _ & Hu & _).
  split; [exact Hu|exact Hp].
Defined.

Lemma NewForConfig_errors_witness :
  @NewForConfig plain_rest_lib connect (fun _ _ => None) (fun _ _ => None) (in_cluster 5 0)
  = Err burst_required.
Proof.
  apply (proj2 (@NewForConfig_errors plain_rest_lib connect (fun _ _ => None) (fun _ _ => None)
    (in_cluster 5 0)) "https://10.0.0.1"); reflexivity.
Defined.

Lemma ForKind_types_witness :
  WithKind "Route" = WithKind (kind_of (CRoute RouteApplyConfiguration_New)) /\
  ForKind (WithKind "Filter") = None.
Proof.
  split; [apply ForKind_types; reflexivity|].
  exact (proj2 (ForKind_types (WithKind "Filter")) (CFilter FilterApplyConfiguration_New) eq_refl).
Defined.

(** A scheme as the list of what it knows. *)
Definition plain_scheme : SchemeLib :=
  {| scheme := list (GroupVersion * string);
     AddKnownTypes gv types s := Ok (((fun k => (gv, k)) <$> types) ++ s);
     AddToGroupVersion gv s := Ok ((gv, "WatchEvent") :: s);
     recognizes s gv k := bool_decide ((gv, k) ∈ s) |}.

Definition plain_scheme_laws : @SchemeLaws plain_scheme.
Proof.
  refine (@Build_SchemeLaws plain_scheme _ _ _); cbn.
  - intros gv types s s' gv' k [= <-]. rewrite !bool_decide_eq_true, elem_of_app. by right.
  - intros gv types s s' k [= <-] Hk. rewrite bool_decide_eq_true, elem_of_app. left.
    apply list_elem_of_fmap. eauto.
  - intros gv s s' gv' k [= <-]. rewrite !bool_decide_eq_true. by right.
Defined.

Lemma init_scheme_registers_witness :
  exists s', @init_scheme plain_scheme [] = Ok s' /\
    @recognizes plain_scheme s' SchemeGroupVersion "GRPCListener" = true.
Proof.
  eexists. split; [reflexivity|].
  apply (@init_scheme_registers plain_scheme plain_scheme_laws [] _ "GRPCListener" eq_refl).
  apply elem_of_cons. left. reflexivity.
Defined.
