(* ===== verification/GtcInformers.v ===== *)
(** The informer of listeners that a factory gives access to:
    [client/informers/externalversions/gtc/interface.go], the [interface.go] and
    [grpclistener.go] of its version, and [generic.go].

    An informer of the file [Informers] is a number; here it is the address of
    what [NewFilteredGRPCListenerInformer] built. A function that tweaks list
    options is named by a number, and [tweaks] says what it does. *)

From S2P Require Import Prelude GoStrings GoPath GoStrconv Api Errors Json ApplyConfig ApplyJson ApplyDecode Clientset Informers.

(** ** Access *)

(** [type group struct], [type version struct] and [type gRPCListenerInformer
    struct]; the factory they hold is part of the state. *)
Record group := { group_namespace : string; group_tweakListOptions : option nat }.
Record version := { version_namespace : string; version_tweakListOptions : option nat }.
Record gRPCListenerInformer := {
  gRPCListenerInformer_namespace : string;
  gRPCListenerInformer_tweakListOptions : option nat
}.

(** [func New] of [gtc/interface.go] and of [gtc/v1alpha1/interface.go] *)
Definition gtc_New (namespace : string) (tweakListOptions : option nat) : group :=
  {| group_namespace := namespace; group_tweakListOptions := tweakListOptions |}.
Definition v1alpha1_New (namespace : string) (tweakListOptions : option nat) : version :=
  {| version_namespace := namespace; version_tweakListOptions := tweakListOptions |}.

(** [func (f *sharedInformerFactory) Api] *)
Definition Api (f : sharedInformerFactory) : group :=
  gtc_New (factory_namespace f) (factory_tweakListOptions f).

(** [func (g *group) V1alpha1] *)
Definition V1alpha1 (g : group) : version :=
  v1alpha1_New (group_namespace g) (group_tweakListOptions g).

(** [func (v *version) GRPCListeners] *)
Definition GRPCListeners (v : version) : gRPCListenerInformer :=
  {| gRPCListenerInformer_namespace := version_namespace v;
     gRPCListenerInformer_tweakListOptions := version_tweakListOptions v |}.

(** ** Informers *)

(** What [cache.NewSharedIndexInformer] is given. *)
Record SharedIndexInformer := {
  SharedIndexInformer_namespace : string;
  SharedIndexInformer_tweakListOptions : option nat;
  SharedIndexInformer_objType : string;
  SharedIndexInformer_resyncPeriod : Z;
  SharedIndexInformer_indexers : list string
}.

Definition NewFilteredGRPCListenerInformer (namespace : string) (resyncPeriod : Z)
    (indexers : list string) (tweakListOptions : option nat) : SharedIndexInformer :=
  {| SharedIndexInformer_namespace := namespace;
     SharedIndexInformer_tweakListOptions := tweakListOptions;
     SharedIndexInformer_objType := "GRPCListener";
     SharedIndexInformer_resyncPeriod := resyncPeriod;
     SharedIndexInformer_indexers := indexers |}.

Definition NewGRPCListenerInformer (namespace : string) (resyncPeriod : Z)
    (indexers : list string) : SharedIndexInformer :=
  NewFilteredGRPCListenerInformer namespace resyncPeriod indexers None.

Definition NamespaceIndex : string := "namespace".

(** [func (f *gRPCListenerInformer) defaultInformer] *)
Definition defaultInformer (f : gRPCListenerInformer) (resyncPeriod : Z) : SharedIndexInformer :=
  NewFilteredGRPCListenerInformer (gRPCListenerInformer_namespace f) resyncPeriod [NamespaceIndex]
    (gRPCListenerInformer_tweakListOptions f).

(** The factory and the informers that were built. *)
Record world := {
  world_factory : sharedInformerFactory;
  world_informers : list SharedIndexInformer
}.

(** [func (f *gRPCListenerInformer) Informer] *)
Definition Informer (f : gRPCListenerInformer) (w : world) : informer * world :=
  match InformerFor "GRPCListener" (length (world_informers w)) (world_factory w) with
  | (i, Some resync, factory) =>
      (i, {| world_factory := factory;
             world_informers := world_informers w ++ [defaultInformer f resync] |})
  | (i, None, factory) => (i, {| world_factory := factory; world_informers := world_informers w |})
  end.

(** [func (f *gRPCListenerInformer) Lister]: the lister of the indexer of the
    informer. *)
Definition Lister (f : gRPCListenerInformer) (w : world) : informer * world := Informer f w.

(** [cfg.GTCInformers.Api().V1alpha1().GRPCListeners()] *)
Definition grpcListeners (w : world) : gRPCListenerInformer :=
  GRPCListeners (V1alpha1 (Api (world_factory w))).

Record GroupVersionResource := {
  GroupVersionResource_Group : string;
  GroupVersionResource_Version : string;
  GroupVersionResource_Resource : string
}.

Global Instance GroupVersionResource_eq_dec : EqDecision GroupVersionResource.
Proof. solve_decision. Defined.

(** [type genericInformer struct] *)
Record genericInformer := {
  genericInformer_informer : informer;
  genericInformer_resource : GroupResource
}.

Definition grpclisteners_resource : GroupVersionResource :=
  {| GroupVersionResource_Group := GroupName; GroupVersionResource_Version := "v1alpha1";
     GroupVersionResource_Resource := "grpclisteners" |}.

(** [func (f *sharedInformerFactory) ForResource]; [GVR_String] is what [%v]
    prints of a resource. *)
Definition ForResource (GVR_String : GroupVersionResource -> string)
    (resource : GroupVersionResource) (w : world) : M (genericInformer * world) :=
  if decide (resource = grpclisteners_resource) then
    let '(i, w') := Informer (grpcListeners w) w in
    Ok ({| genericInformer_informer := i;
           genericInformer_resource :=
             {| GroupResource_Group := GroupVersionResource_Group resource;
                GroupResource_Resource := GroupVersionResource_Resource resource |} |}, w')
  else Err (errorString ("no informer found for " +:+ GVR_String resource)).

(** [func (f *genericInformer) Informer] and [Lister]; the indexer of an informer
    and [cache.NewGenericLister] are client-go's. *)
Definition genericInformer_Informer (f : genericInformer) : informer := genericInformer_informer f.
Definition genericInformer_Lister {Indexer GenericLister} (GetIndexer : informer -> Indexer)
    (NewGenericLister : Indexer -> GroupResource -> GenericLister) (f : genericInformer)
  : GenericLister :=
  NewGenericLister (GetIndexer (genericInformer_Informer f)) (genericInformer_resource f).

(** ** Lists and watches *)

Section list_watch.
Context `{RestClient} (tweaks : nat -> ListOptions -> ListOptions).

Definition tweak (t : option nat) (options : ListOptions) : ListOptions :=
  match t with Some f => tweaks f options | None => options end.

(** The [ListFunc] and the [WatchFunc] of an informer. *)
Definition ListFunc (inf : SharedIndexInformer) (options : ListOptions) (st : rest_state)
  : rest_state * (option (list GRPCListener) * option error) :=
  gRPCListeners_List {| gRPCListeners_ns := SharedIndexInformer_namespace inf |}
    (tweak (SharedIndexInformer_tweakListOptions inf) options) st.

Definition WatchFunc (inf : SharedIndexInformer) (options : ListOptions) (st : rest_state) : M nat :=
  gRPCListeners_Watch {| gRPCListeners_ns := SharedIndexInformer_namespace inf |}
    (tweak (SharedIndexInformer_tweakListOptions inf) options) st.
End list_watch.

(** ** Use of a factory *)

Inductive access :=
  | AccessInformer
  | AccessLister
  | AccessResource (resource : GroupVersionResource)
  | AccessStart
  | AccessShutdown.

Definition on_factory (g : sharedInformerFactory -> sharedInformerFactory) (w : world) : world :=
  {| world_factory := g (world_factory w); world_informers := world_informers w |}.

Definition do_access (w : world) (a : access) : world :=
  match a with
  | AccessInformer => (Informer (grpcListeners w) w).2
  | AccessLister => (Lister (grpcListeners w) w).2
  | AccessResource r =>
      match ForResource (fun _ => "") r w with Ok (_, w') => w' | _ => w end
  | AccessStart => on_factory Start w
  | AccessShutdown => on_factory Shutdown w
  end.

(** The options of a factory. *)
Inductive factoryOption :=
  | CustomResyncConfig (resyncConfig : gmap objType Z)
  | TweakListOptions (tweak : nat)
  | Namespace (namespace : string).

Definition apply_option (o : factoryOption) : SharedInformerOption :=
  match o with
  | CustomResyncConfig c => WithCustomResyncConfig c
  | TweakListOptions t => WithTweakListOptions t
  | Namespace ns => WithNamespace ns
  end.

Definition new_factory (resync : Z) (options : list factoryOption) : sharedInformerFactory :=
  NewSharedInformerFactoryWithOptions resync (apply_option <$> options).

Definition new_world (resync : Z) (options : list factoryOption) : world :=
  {| world_factory := new_factory resync options; world_informers := [] |}.

(** The informer that a factory builds. *)
Definition factory_informer (f : sharedInformerFactory) : SharedIndexInformer :=
  NewFilteredGRPCListenerInformer (factory_namespace f)
    (default (factory_defaultResync f) (factory_customResync f !! "GRPCListener"))
    [NamespaceIndex] (factory_tweakListOptions f).

(** Either nothing was built, or one informer, which the factory has. *)
Record world_inv (f0 : sharedInformerFactory) (w : world) : Prop := {
  wi_config : factory_informer (world_factory w) = factory_informer f0;
  wi_one : (world_informers w = [] /\ factory_informers (world_factory w) = ∅) \/
           (world_informers w = [factory_informer f0] /\
            factory_informers (world_factory w) = {[ "GRPCListener" := 0 ]})
}.

(** The configuration and the informers of a factory do not change when it is
    started or shut down. *)
Definition same_informers (f g : sharedInformerFactory) : Prop :=
  factory_informer f = factory_informer g /\ factory_informers f = factory_informers g.

Lemma startOne_same f e : same_informers (startOne f e) f.
Proof. unfold startOne, same_informers. by destruct (default false _). Qed.

Lemma Start_same f : same_informers (Start f) f.
Proof.
  unfold Start. destruct (factory_shuttingDown f); [done|].
  generalize (map_to_list (factory_informers f)) as l. intros l. revert f.
  induction l as [|e l IH]; intros f; [done|]. cbn. destruct (IH (startOne f e)) as [H1 H2].
  destruct (startOne_same f e) as [H3 H4]. split; congruence.
Qed.

Lemma on_factory_inv g f0 w :
  (forall f, same_informers (g f) f) -> world_inv f0 w -> world_inv f0 (on_factory g w).
Proof.
  intros Hg [Hc Ho]. destruct (Hg (world_factory w)) as [H1 H2]. constructor; cbn.
  - congruence.
  - by rewrite H2.
Qed.

Lemma Informer_spec f0 w :
  world_inv f0 w ->
  exists w', Informer (grpcListeners w) w = (0, w') /\ world_inv f0 w' /\
    world_informers w' = [factory_informer f0].
Proof.
  intros [Hc [[Hn Hf]|[Hn Hf]]]; unfold Informer, InformerFor; rewrite Hf, Hn.
  - rewrite lookup_empty. cbn. eexists. split; [done|].
    assert (defaultInformer (grpcListeners w) (default (factory_defaultResync (world_factory w))
      (factory_customResync (world_factory w) !! "GRPCListener")) = factory_informer f0) as ->
      by (by rewrite <- Hc).
    split; [|done]. constructor; cbn; [by rewrite <- Hc|]. by right.
  - rewrite lookup_singleton_eq. eexists. split; [done|]. cbn. split; [|done].
    constructor; cbn; [done|]. by right.
Qed.

Lemma do_access_inv f0 w a : world_inv f0 w -> world_inv f0 (do_access w a).
Proof.
  intros Hw. destruct (Informer_spec f0 w Hw) as (w' & Hi & Hw' & _).
  destruct a; cbn; unfold Lister.
  - by rewrite Hi.
  - by rewrite Hi.
  - unfold ForResource. destruct (decide _); [|done]. by rewrite Hi.
  - apply on_factory_inv; [apply Start_same|done].
  - by apply on_factory_inv.
Qed.

Lemma new_factory_informers resync options :
  factory_informers (new_factory resync options) = ∅.
Proof.
  unfold new_factory, NewSharedInformerFactoryWithOptions.
  match goal with |- factory_informers (foldl _ ?f _) = _ =>
    assert (factory_informers f = ∅) as Hf by done; revert Hf; generalize f end.
  induction options as [|o options IH]; intros f Hf; [done|]. cbn. apply IH. by destruct o.
Qed.

Lemma accesses_inv resync options accesses :
  world_inv (new_factory resync options) (foldl do_access (new_world resync options) accesses).
Proof.
  assert (world_inv (new_factory resync options) (new_world resync options)) as Hw.
  { constructor; [done|]. left. split; [done|]. apply new_factory_informers. }
  revert Hw. generalize (new_world resync options) as w.
  induction accesses as [|a accesses IH]; intros w Hw; [done|]. cbn. apply IH.
  by apply do_access_inv.
Qed.

(** ** Properties *)

(** C23: a factory shares one informer of listeners. After any accesses to its
    informer, its lister or its resources, and any starts and shutdowns, one
    informer at most was built; [Informer], [Lister] and [ForResource] all give
    it, and it was built with the namespace, the list options and the resync
    period that the options of the factory set. *)
Theorem factory_shares_one_informer resync options accesses :
  let w := foldl do_access (new_world resync options) accesses in
  length (world_informers w) <= 1 /\
  exists w', Informer (grpcListeners w) w = (0, w') /\ Lister (grpcListeners w) w = (0, w') /\
    (forall text, ForResource text grpclisteners_resource w
       = Ok ({| genericInformer_informer := 0;
                genericInformer_resource := Resource "grpclisteners" |}, w')) /\
    world_informers w' = [factory_informer (new_factory resync options)].
Proof.
  cbn zeta. pose proof (accesses_inv resync options accesses) as Hw.
  split; [by destruct (wi_one _ _ Hw) as [[-> _]|[-> _]]; cbn; lia|].
  destruct (Informer_spec _ _ Hw) as (w' & Hi & _ & Hl). exists w'. split_and!; try done.
  intros text. unfold ForResource. rewrite decide_True by done. by rewrite Hi.
Qed.

Section listing.
Context `{RestClient, FakeClient, !RestLaws} (tweaks : nat -> ListOptions -> ListOptions).

(** What the informer of a factory lists. The controller makes its factory
    without options: its informer then lists every listener of every namespace.
    With a namespace it lists the listeners of that namespace, with a function
    those that its options select; the API server must be able to read the
    options. *)
Theorem factory_informer_lists f opts st :
  readable_options (tweak tweaks (factory_tweakListOptions f) opts) = true ->
  exists ls,
    ListFunc tweaks (factory_informer f) opts st = (st, (Some ls, None)) /\
    ls ≡ₚ filter (fun l => default (fun _ => true)
                             (ExtractLabel (tweak tweaks (factory_tweakListOptions f) opts))
                             (ObjectMeta_Labels (GRPCListener_ObjectMeta l)) = true)
            (in_namespace (factory_namespace f) (rest_store st)).
Proof.
  intros Hr. unfold ListFunc, gRPCListeners_List.
  destruct (rest_list (factory_namespace f) (tweak tweaks (factory_tweakListOptions f) opts)
    (list_timeout (tweak tweaks (factory_tweakListOptions f) opts)) st Hr) as (ls & Hls & Hp).
  exists ls. cbn. by rewrite Hls.
Qed.
End listing.

(** ** Witnesses *)

Definition two_namespaces : gmap key GRPCListener :=
  {[ ("default", "a") := sample "a" ∅ sample_spec; ("prod", "b") := sample "b" ∅ sample_spec ]}.

Lemma factory_informer_lists_witness :
  exists ls,
    @ListFunc plain_rest (fun _ o => o) (factory_informer (new_factory 60 [])) (select "")
      two_namespaces = (two_namespaces, (Some ls, None)) /\
    ls ≡ₚ (map_to_list two_namespaces).*2.
Proof.
  destruct (@factory_informer_lists plain_rest plain_fake plain_rest_laws
    (fun _ o => o) (new_factory 60 []) (select "") two_namespaces eq_refl) as (ls & Hls & Hp).
  exists ls. split; [exact Hls|]. vm_compute in Hp. vm_compute. exact Hp.
Defined.
