(* ===== verification/Server.v ===== *)
(** The controller as [cmd/controller/main.go] puts it together, and
    [NewXDSServer] of [gtc/server.go]: which informers, listers, queues and
    registries the parts of the server hold, and in which order they are made
    and started. The callbacks of [gtc/logger.go] and the health handlers of
    [runWebserver] are here too; how the server runs and stops is in the file
    [Lifecycle].

    The informers of endpoint slices belong to client-go: they are the parameter
    [KubeInformers]. A registry of watches is named by a number. *)

From S2P Require Import Prelude GoStrings GoPath GoStrconv Api Errors Xds Json ApplyConfig ApplyJson ApplyDecode Clientset ClientConfig Informers GtcInformers.

(** ** Parts *)

(** The handlers of [gtc/notify.go], with the registry and the lister they hold. *)
Inductive changedHandler :=
  | GrpcListenerChangedHandler (watches : nat)
  | EndpointSliceChangedHandler (listenersLister : informer) (watches : nat).

(** [type QueuedEventHandler struct] of [pkg/controllersupport/handler.go] *)
Record QueuedEventHandler := {
  QueuedEventHandler_handler : changedHandler;
  QueuedEventHandler_workers : Z;
  QueuedEventHandler_name : string
}.

Definition NewQueuedEventHandler (handler : changedHandler) (workers : Z) (name : string)
  : QueuedEventHandler :=
  {| QueuedEventHandler_handler := handler; QueuedEventHandler_workers := workers;
     QueuedEventHandler_name := name |}.

(** [newConfigWatcher], with what it reads from. *)
Record configWatcher := {
  configWatcher_endpointSlices : nat;
  configWatcher_grpcListeners : informer;
  configWatcher_watches : nat
}.

(** The options of the gRPC server, in nanoseconds. *)
Record grpcOptions := {
  grpcOptions_MaxConcurrentStreams : Z;
  grpcOptions_KeepaliveTime : Z;
  grpcOptions_KeepaliveTimeout : Z;
  grpcOptions_KeepaliveMinTime : Z;
  grpcOptions_PermitWithoutStream : bool
}.

Definition xds_options : grpcOptions :=
  {| grpcOptions_MaxConcurrentStreams := 1000000;
     grpcOptions_KeepaliveTime := 30000000000; grpcOptions_KeepaliveTimeout := 5000000000;
     grpcOptions_KeepaliveMinTime := 30000000000; grpcOptions_PermitWithoutStream := true |}.

(** [type XDSServer struct]; [XDSServer_ads] is the discovery service that was
    registered on its gRPC server. *)
Record XDSServer := {
  XDSServer_bindAddr : string;
  XDSServer_server : grpcOptions;
  XDSServer_ads : configWatcher;
  XDSServer_grpcListenerChangedQueue : QueuedEventHandler;
  XDSServer_endpointSliceChangedQueue : QueuedEventHandler
}.

(** The factory of informers of client-go, and its informer of endpoint slices. *)
Class KubeInformers := {
  kube_state : Type;
  (** [Discovery().V1().EndpointSlices().Informer()], which [Lister] calls too *)
  kube_Informer : kube_state -> nat * kube_state;
  kube_AddEventHandler : nat -> QueuedEventHandler -> kube_state -> kube_state * option error;
  kube_Start : kube_state -> kube_state
}.

(** An informer is made once; handlers are added to it; [Start] runs the informers
    that were made. *)
Class KubeInformersLaws `{KubeInformers} := {
  kube_running : kube_state -> list nat;
  kube_handlers : kube_state -> list (nat * QueuedEventHandler);
  kube_Informer_once st i st' :
    kube_Informer st = (i, st') ->
    kube_Informer st' = (i, st') /\ kube_running st' = kube_running st /\
    kube_handlers st' = kube_handlers st;
  kube_Add i h st st' err :
    kube_AddEventHandler i h st = (st', err) ->
    kube_running st' = kube_running st /\
    (forall j, kube_Informer st = (j, st) -> kube_Informer st' = (j, st')) /\
    (err = None -> kube_handlers st' = kube_handlers st ++ [(i, h)]);
  kube_Start_runs i st :
    kube_Informer st = (i, st) ->
    i ∈ kube_running (kube_Start st) /\ kube_handlers (kube_Start st) = kube_handlers st
}.

Section server.
Context `{KubeInformers} (gtc_AddEventHandler : informer -> option error).

(** The informers and their handlers, and the registries that were made. *)
Record cluster := {
  cluster_gtc : world;
  cluster_gtc_handlers : list (informer * QueuedEventHandler);
  cluster_kube : kube_state;
  cluster_watches : nat
}.

Definition with_gtc (w : world) (c : cluster) : cluster :=
  {| cluster_gtc := w; cluster_gtc_handlers := cluster_gtc_handlers c;
     cluster_kube := cluster_kube c; cluster_watches := cluster_watches c |}.
Definition with_gtc_handler (i : informer) (h : QueuedEventHandler) (c : cluster) : cluster :=
  {| cluster_gtc := cluster_gtc c; cluster_gtc_handlers := cluster_gtc_handlers c ++ [(i, h)];
     cluster_kube := cluster_kube c; cluster_watches := cluster_watches c |}.
Definition with_kube (k : kube_state) (c : cluster) : cluster :=
  {| cluster_gtc := cluster_gtc c; cluster_gtc_handlers := cluster_gtc_handlers c;
     cluster_kube := k; cluster_watches := cluster_watches c |}.

(** [newWatches()] *)
Definition newRegistry (c : cluster) : nat * cluster :=
  (cluster_watches c,
   {| cluster_gtc := cluster_gtc c; cluster_gtc_handlers := cluster_gtc_handlers c;
      cluster_kube := cluster_kube c; cluster_watches := S (cluster_watches c) |}).

(** [EndpointSlices().Lister()] and [GRPCListeners().Lister()], which make the
    informer when it was not asked for before. *)
Definition slices_Lister (c : cluster) : nat * cluster :=
  let '(i, k) := kube_Informer (cluster_kube c) in (i, with_kube k c).
Definition listeners_Lister (c : cluster) : informer * cluster :=
  let '(i, w) := Lister (grpcListeners (cluster_gtc c)) (cluster_gtc c) in (i, with_gtc w c).

(** [Informer().AddEventHandler(queue)] of the two factories. *)
Definition listeners_AddEventHandler (h : QueuedEventHandler) (c : cluster)
  : cluster * option error :=
  let '(i, w) := Informer (grpcListeners (cluster_gtc c)) (cluster_gtc c) in
  match gtc_AddEventHandler i with
  | Some e => (with_gtc w c, Some e)
  | None => (with_gtc_handler i h (with_gtc w c), None)
  end.
Definition slices_AddEventHandler (h : QueuedEventHandler) (c : cluster) : cluster * option error :=
  let '(i, k) := kube_Informer (cluster_kube c) in
  let '(k', err) := kube_AddEventHandler i h k in (with_kube k' c, err).

(** [func NewXDSServer] *)
Definition NewXDSServer (bindAddr : string) (c : cluster) : cluster * M XDSServer :=
  let '(watches, c) := newRegistry c in
  let '(slicesLister, c) := slices_Lister c in
  let '(listenersLister, c) := listeners_Lister c in
  let srv := {| configWatcher_endpointSlices := slicesLister;
                configWatcher_grpcListeners := listenersLister;
                configWatcher_watches := watches |} in
  let grpcListenerChangedQueue :=
    NewQueuedEventHandler (GrpcListenerChangedHandler watches) 10 "grpc-listeners-changes" in
  let '(listenersLister', c) := listeners_Lister c in
  let endpointSliceChangedQueue :=
    NewQueuedEventHandler (EndpointSliceChangedHandler listenersLister' watches) 10
      "endpointslices-changes" in
  match listeners_AddEventHandler grpcListenerChangedQueue c with
  | (c, Some err) => (c, Err err)
  | (c, None) =>
      match slices_AddEventHandler endpointSliceChangedQueue c with
      | (c, Some err) => (c, Err err)
      | (c, None) =>
          (c, Ok {| XDSServer_bindAddr := bindAddr; XDSServer_server := xds_options;
                    XDSServer_ads := srv;
                    XDSServer_grpcListenerChangedQueue := grpcListenerChangedQueue;
                    XDSServer_endpointSliceChangedQueue := endpointSliceChangedQueue |})
      end
  end.

(** ** [main], until its goroutines run *)

Inductive mainState :=
  | MainReturned (logged : string) (err : error)
  | MainRuns (server : XDSServer) (httpAddr : string)
  | MainPanics (p : panic_reason).

(** [gtcInformerFactory.Start(ctx.Done())] and the same for Kubernetes. *)
Definition start_informers (c : cluster) : cluster :=
  let c := with_gtc (on_factory Start (cluster_gtc c)) c in
  with_kube (kube_Start (cluster_kube c)) c.

(** The clients; [restclient.InClusterConfig] and [kubernetes.NewForConfig] are
    client-go's, [gtcapi.NewForConfig] is [NewForConfig] of the file
    [ClientConfig]. *)
Context {Config KubeClient GtcClient : Type} (InClusterConfig : M Config)
        (kubernetes_NewForConfig : Config -> M KubeClient)
        (gtcapi_NewForConfig : Config -> M GtcClient)
        (kubeinformers_NewSharedInformerFactory : KubeClient -> Z -> kube_state).

Definition sixty_minutes : Z := 3600000000000.

(** The two factories, which [main] makes with a resync period of an hour. *)
Definition new_cluster (kubeClient : KubeClient) (gtcClient : GtcClient) : cluster :=
  {| cluster_gtc := new_world sixty_minutes []; cluster_gtc_handlers := [];
     cluster_kube := kubeinformers_NewSharedInformerFactory kubeClient sixty_minutes;
     cluster_watches := 0 |}.

Definition main (xdsAddr httpAddr : string) : option cluster * mainState :=
  match InClusterConfig with
  | Panic p => (None, MainPanics p)
  | Err e => (None, MainReturned "Can't build kube config" e)
  | Ok kubeConfig =>
      match kubernetes_NewForConfig kubeConfig with
      | Panic p => (None, MainPanics p)
      | Err e => (None, MainReturned "Can't create kubernetes client" e)
      | Ok kubeClient =>
          match gtcapi_NewForConfig kubeConfig with
          | Panic p => (None, MainPanics p)
          | Err e => (None, MainReturned "Can't create gtc client" e)
          | Ok gtcClient =>
              match NewXDSServer xdsAddr (new_cluster kubeClient gtcClient) with
              | (c, Panic p) => (Some c, MainPanics p)
              | (c, Err e) => (Some c, MainReturned "Can't create gtc server" e)
              | (c, Ok server) => (Some (start_informers c), MainRuns server httpAddr)
              end
          end
      end
  end.
End server.

(** ** Lemmas *)

(** A factory before it is started. *)
Record unstarted (f0 : sharedInformerFactory) (w : world) : Prop := {
  un_world : world_inv f0 w;
  un_factory : factory_inv (world_factory w);
  un_running : factory_shuttingDown (world_factory w) = false;
  un_started : factory_started (world_factory w) = []
}.

Lemma new_world_unstarted resync : unstarted (new_factory resync []) (new_world resync []).
Proof.
  constructor; [exact (accesses_inv resync [] [])| |done|done].
  apply new_factory_inv. constructor.
Qed.

(** Asking for the informer of listeners makes it, at the first address. *)
Lemma unstarted_Informer f0 w :
  unstarted f0 w ->
  exists w', Informer (grpcListeners w) w = (0, w') /\ unstarted f0 w' /\
    factory_informers (world_factory w') !! "GRPCListener" = Some 0.
Proof.
  intros [Hw Hf Hr Hs]. destruct (Informer_spec f0 w Hw) as (w' & Hi & Hw' & Hl).
  exists w'. split; [done|]. unfold Informer in Hi.
  pose proof (perform_inv (CallInformerFor "GRPCListener" (length (world_informers w)))
    (world_factory w) _ Hf eq_refl) as Hf'.
  destruct (InformerFor _ _ _) as [[i r] f] eqn:Hif. cbn in Hf'.
  assert (world_factory w' = f) as Hfw by (by destruct r; injection Hi as _ <-).
  assert (factory_shuttingDown f = false /\ factory_started f = []) as [H1 H2].
  { unfold InformerFor in Hif. destruct (factory_informers (world_factory w) !! _);
      by injection Hif as _ _ <-. }
  split; [constructor; by rewrite ?Hfw|].
  destruct (wi_one _ _ Hw') as [[Hn _]|[_ ->]]; [congruence|]. by apply lookup_singleton_eq.
Qed.

Section wiring.
Context `{KubeInformersLaws} (gtc_AddEventHandler : informer -> option error).

Lemma listeners_Lister_spec f0 c :
  unstarted f0 (cluster_gtc c) ->
  exists w, listeners_Lister c = (0, with_gtc w c) /\ unstarted f0 w /\
    factory_informers (world_factory w) !! "GRPCListener" = Some 0.
Proof.
  intros Hu. destruct (unstarted_Informer _ _ Hu) as (w & Hi & Hw & Hk). exists w.
  unfold listeners_Lister, Lister. by rewrite Hi.
Qed.

(** What [NewXDSServer] leaves behind, whether it returns a server or not. *)
Lemma NewXDSServer_spec f0 bindAddr c :
  unstarted f0 (cluster_gtc c) ->
  let '(c', r) := NewXDSServer gtc_AddEventHandler bindAddr c in
  unstarted f0 (cluster_gtc c') /\ kube_running (cluster_kube c') = kube_running (cluster_kube c) /\
  forall s, r = Ok s ->
    factory_informers (world_factory (cluster_gtc c')) !! "GRPCListener" = Some 0 /\
    XDSServer_bindAddr s = bindAddr /\
    configWatcher_watches (XDSServer_ads s) = cluster_watches c /\
    configWatcher_grpcListeners (XDSServer_ads s) = 0 /\
    XDSServer_grpcListenerChangedQueue s
      = {| QueuedEventHandler_handler := GrpcListenerChangedHandler (cluster_watches c);
           QueuedEventHandler_workers := 10; QueuedEventHandler_name := "grpc-listeners-changes" |} /\
    XDSServer_endpointSliceChangedQueue s
      = {| QueuedEventHandler_handler := EndpointSliceChangedHandler 0 (cluster_watches c);
           QueuedEventHandler_workers := 10; QueuedEventHandler_name := "endpointslices-changes" |} /\
    cluster_gtc_handlers c'
      = cluster_gtc_handlers c ++ [(0, XDSServer_grpcListenerChangedQueue s)] /\
    kube_Informer (cluster_kube c')
      = (configWatcher_endpointSlices (XDSServer_ads s), cluster_kube c') /\
    kube_handlers (cluster_kube c') = kube_handlers (cluster_kube c) ++
      [(configWatcher_endpointSlices (XDSServer_ads s), XDSServer_endpointSliceChangedQueue s)].
Proof.
  intros Hu. unfold NewXDSServer, newRegistry. cbn [fst snd].
  unfold slices_Lister. cbn [cluster_kube].
  destruct (kube_Informer (cluster_kube c)) as [i k] eqn:Hk.
  destruct (kube_Informer_once _ _ _ Hk) as (Hk1 & Hrun & Hh).
  match goal with |- context [listeners_Lister ?x] =>
    destruct (listeners_Lister_spec f0 x Hu) as (w1 & -> & Hw1 & _) end.
  match goal with |- context [listeners_Lister ?x] =>
    destruct (listeners_Lister_spec f0 x Hw1) as (w2 & -> & Hw2 & _) end.
  unfold listeners_AddEventHandler. cbn [cluster_gtc with_gtc with_kube].
  destruct (unstarted_Informer _ _ Hw2) as (w3 & -> & Hw3 & Hw3k).
  destruct (gtc_AddEventHandler 0) as [e|]; [by cbn|].
  unfold slices_AddEventHandler. cbn [cluster_kube with_gtc with_kube with_gtc_handler]. rewrite Hk1.
  destruct (kube_AddEventHandler i _ k) as [k' err] eqn:Ha.
  destruct (kube_Add _ _ _ _ _ Ha) as (Hr' & Hi' & Hh').
  destruct err as [e|]; cbn; (split; [done|]); (split; [congruence|]); [done|].
  intros s [= <-]. cbn. rewrite (Hi' _ Hk1), Hh', Hh by done. by split_and!.
Qed.

(** ** Properties *)

(** The parts of a server share what they must share. When [NewXDSServer]
    returns a server, the watchers of its discovery service and the two handlers
    of changes use one registry; the informer whose changes the listener queue
    handles is the one that the discovery service and the other handler read
    listeners from, and the informer of slices that the discovery service reads
    is the one whose changes the other queue handles; each queue has ten
    workers. *)
Theorem NewXDSServer_wiring resync bindAddr k n s c' :
  let c := {| cluster_gtc := new_world resync []; cluster_gtc_handlers := []; cluster_kube := k;
              cluster_watches := n |} in
  NewXDSServer gtc_AddEventHandler bindAddr c = (c', Ok s) ->
  let ads := XDSServer_ads s in
  QueuedEventHandler_handler (XDSServer_grpcListenerChangedQueue s)
    = GrpcListenerChangedHandler (configWatcher_watches ads) /\
  QueuedEventHandler_handler (XDSServer_endpointSliceChangedQueue s)
    = EndpointSliceChangedHandler (configWatcher_grpcListeners ads) (configWatcher_watches ads) /\
  cluster_gtc_handlers c'
    = [(configWatcher_grpcListeners ads, XDSServer_grpcListenerChangedQueue s)] /\
  kube_handlers (cluster_kube c') = kube_handlers k ++
    [(configWatcher_endpointSlices ads, XDSServer_endpointSliceChangedQueue s)] /\
  QueuedEventHandler_workers (XDSServer_grpcListenerChangedQueue s) = 10%Z /\
  QueuedEventHandler_workers (XDSServer_endpointSliceChangedQueue s) = 10%Z.
Proof.
  cbn zeta. intros Hn.
  match type of Hn with NewXDSServer _ _ ?c = _ =>
    pose proof (NewXDSServer_spec _ bindAddr c (new_world_unstarted resync)) as Hs end.
  rewrite Hn in Hs. destruct Hs as (_ & _ & Hs).
  destruct (Hs s eq_refl) as (_ & _ & Hw & Hl & Hq1 & Hq2 & Hh & _ & Hk). cbn in *.
  rewrite Hw, Hl, Hh, Hk, Hq1, Hq2. by split_and!.
Qed.

Section startup.
Context {Config KubeClient GtcClient : Type} (InClusterConfig : M Config)
        (kubernetes_NewForConfig : Config -> M KubeClient)
        (gtcapi_NewForConfig : Config -> M GtcClient)
        (kubeinformers_NewSharedInformerFactory : KubeClient -> Z -> kube_state).
Context (new_factory_stopped : forall kc d,
          kube_running (kubeinformers_NewSharedInformerFactory kc d) = []).

Abbreviation startup := (main gtc_AddEventHandler InClusterConfig kubernetes_NewForConfig
  gtcapi_NewForConfig kubeinformers_NewSharedInformerFactory).

(** C21: the function [main] starts the informers after their handlers were added, and only
    when everything was made. When it goes on to run the server, the informer of
    listeners and the informer of slices that the server reads have been
    started, each with the queue of the server among its handlers; when it
    returns early it has started no informer. *)
Theorem main_starts_informers_last xdsAddr httpAddr :
  match startup xdsAddr httpAddr with
  | (Some c, MainRuns s http) =>
      http = httpAddr /\ XDSServer_bindAddr s = xdsAddr /\
      ("GRPCListener", configWatcher_grpcListeners (XDSServer_ads s))
        ∈ factory_started (world_factory (cluster_gtc c)) /\
      (configWatcher_grpcListeners (XDSServer_ads s), XDSServer_grpcListenerChangedQueue s)
        ∈ cluster_gtc_handlers c /\
      configWatcher_endpointSlices (XDSServer_ads s) ∈ kube_running (cluster_kube c) /\
      (configWatcher_endpointSlices (XDSServer_ads s), XDSServer_endpointSliceChangedQueue s)
        ∈ kube_handlers (cluster_kube c)
  | (Some c, _) =>
      factory_started (world_factory (cluster_gtc c)) = [] /\ kube_running (cluster_kube c) = []
  | (None, MainRuns _ _) => False
  | (None, _) => True
  end.
Proof.
  unfold main. destruct InClusterConfig as [cfg|e|p]; [|done..].
  destruct (kubernetes_NewForConfig cfg) as [kc|e|p]; [|done..].
  destruct (gtcapi_NewForConfig cfg) as [gc|e|p]; [|done..].
  match goal with |- context [NewXDSServer _ _ ?c] =>
    pose proof (NewXDSServer_spec _ xdsAddr c (new_world_unstarted sixty_minutes)) as Hs end.
  destruct (NewXDSServer _ _ _) as [c r]. destruct Hs as (Hu & Hr & Hs). cbn in Hr.
  rewrite new_factory_stopped in Hr. destruct r as [s|e|p]; [|by split; [apply Hu|]..].
  destruct (Hs s eq_refl) as (Hi & Hb & _ & Hl & _ & _ & Hh & Hk & Hkh).
  destruct (kube_Start_runs _ _ Hk) as [Hrun Hsame]. cbn. rewrite Hl, Hh, Hsame, Hkh. cbn.
  split_and!; [done|done| |by left|done|].
  - apply (Start_inv _ (un_factory _ _ Hu)); [apply Hu|done].
  - apply elem_of_app. right. by left.
Qed.
End startup.
End wiring.

(** ** The discovery service and its callbacks *)

(** [type adsHandler struct]: [StreamHandler] is that of the discovery server,
    [AnyType] the type URL of an aggregated stream. *)
Section ads.
Context {Stream : Type} (StreamHandler : Stream -> string -> option error) (AnyType : string).

Definition adsHandler_StreamAggregatedResources (stream : Stream) : option error :=
  StreamHandler stream AnyType.
Definition adsHandler_DeltaAggregatedResources (_ : Stream) : option error :=
  Some (errorString "unsupported").
End ads.

Inductive logField := FieldInt64 (v : Z) | FieldString (v : string) | FieldStrings (v : list string).
Inductive logLevel := DebugLevel | ErrorLevel.
Record logEntry := {
  logEntry_level : logLevel;
  logEntry_message : string;
  logEntry_fields : list (string * logField)
}.

(** The fields of a discovery request and of a response that are logged. *)
Record streamRequest := {
  streamRequest_ResourceNames : list string;
  streamRequest_TypeUrl : string;
  streamRequest_VersionInfo : string;
  streamRequest_ResponseNonce : string;
  streamRequest_ErrorDetail : option string       (* its message *)
}.
Record streamResponse := { streamResponse_VersionInfo : string; streamResponse_Nonce : string }.

(** [type loggerCallbacks struct]: what is logged, and the error that is
    returned. *)
Definition OnStreamOpen (id : Z) (typ : string) : list logEntry * option error :=
  ([{| logEntry_level := DebugLevel; logEntry_message := "New stream opened";
       logEntry_fields := [("stream_id", FieldInt64 id)] |}], None).

(** [n.Id] dereferences the node. *)
Definition OnStreamClosed (id : Z) (n : option core.Node) (node_id : core.Node -> string)
  : M (list logEntry) :=
  node ← deref n;
  Ok [{| logEntry_level := DebugLevel; logEntry_message := "Stream closed";
         logEntry_fields := [("stream_id", FieldInt64 id); ("node_id", FieldString (node_id node))] |}].

Definition OnStreamRequest (id : Z) (req : streamRequest) : list logEntry * option error :=
  (match streamRequest_ErrorDetail req with
   | Some message =>
       [{| logEntry_level := ErrorLevel; logEntry_message := "Client NACKed a response";
           logEntry_fields := [("err", FieldString message); ("stream_id", FieldInt64 id)] |}]
   | None => []
   end ++
   [{| logEntry_level := DebugLevel; logEntry_message := "Received a new stream request";
       logEntry_fields :=
         [("resources", FieldStrings (streamRequest_ResourceNames req));
          ("type", FieldString (streamRequest_TypeUrl req));
          ("version", FieldString (streamRequest_VersionInfo req));
          ("nonce", FieldString (streamRequest_ResponseNonce req));
          ("stream_id", FieldInt64 id)] |}], None).

Definition OnStreamResponse (id : Z) (req : streamRequest) (resp : streamResponse) : list logEntry :=
  [{| logEntry_level := DebugLevel; logEntry_message := "Sending a new response";
      logEntry_fields :=
        [("stream_id", FieldInt64 id); ("type", FieldString (streamRequest_TypeUrl req));
         ("resources", FieldStrings (streamRequest_ResourceNames req));
         ("response_version", FieldString (streamResponse_VersionInfo resp));
         ("response_nonce", FieldString (streamResponse_Nonce resp))] |}].

(** ** The web server *)

(** The handlers that [runWebserver] registers: the status and the body of the
    answer to a request for a path. *)
Definition webserver_handle (path : string) : Z * string :=
  if decide (path = "/healthz" \/ path = "/readyz") then (200%Z, "ok")
  else (404%Z, "404 page not found").

(** The [http.Server] that it runs, with its timeouts in nanoseconds. *)
Record httpServer := {
  httpServer_Addr : string;
  httpServer_Handler : string -> Z * string;
  httpServer_ReadTimeout : Z;
  httpServer_WriteTimeout : Z;
  httpServer_MaxHeaderBytes : Z
}.

Definition webserver (addr : string) : httpServer :=
  {| httpServer_Addr := addr; httpServer_Handler := webserver_handle;
     httpServer_ReadTimeout := 5000000000; httpServer_WriteTimeout := 5000000000;
     httpServer_MaxHeaderBytes := Z.shiftl 1 20 |}.

(** [func newLogger]: the configuration of zap that a level chooses. *)
Inductive zapConfig := ZapDevelopment | ZapProduction.
Definition newLogger (lvl : string) : zapConfig :=
  if decide (lvl = "debug") then ZapDevelopment else ZapProduction.

(** ** Witnesses *)

(** Informers that are only counted. *)
Record plain_kube := {
  pk_made : bool;
  pk_running : list nat;
  pk_handlers : list (nat * QueuedEventHandler)
}.

Definition plain_informers : KubeInformers :=
  {| kube_state := plain_kube;
     kube_Informer st :=
       (0, {| pk_made := true; pk_running := pk_running st; pk_handlers := pk_handlers st |});
     kube_AddEventHandler i h st :=
       ({| pk_made := pk_made st; pk_running := pk_running st;
           pk_handlers := pk_handlers st ++ [(i, h)] |}, None);
     kube_Start st :=
       {| pk_made := pk_made st; pk_running := if pk_made st then [0] else pk_running st;
          pk_handlers := pk_handlers st |} |}.

Definition plain_informers_laws : @KubeInformersLaws plain_informers.
Proof.
  refine (@Build_KubeInformersLaws plain_informers pk_running pk_handlers _ _ _).
  - intros st i st' [= <- <-]. done.
  - intros i h st st' err [= <- <-]. split; [done|]. split; [|done].
    intros j Hj. cbn in *. destruct st as [m r hs]. by injection Hj as <- <-.
  - intros i st Hst. cbn in *. destruct st as [m r hs]. injection Hst as <- <-. cbn.
    split; [by left|done].
Defined.

Definition no_informers : plain_kube := {| pk_made := false; pk_running := []; pk_handlers := [] |}.

Lemma NewXDSServer_wiring_witness :
  exists c' s, @NewXDSServer plain_informers (fun _ => None) ":18000"
      (@Build_cluster plain_informers (new_world 0 []) [] no_informers 3) = (c', Ok s) /\
    cluster_gtc_handlers c'
      = [(configWatcher_grpcListeners (XDSServer_ads s), XDSServer_grpcListenerChangedQueue s)].
Proof.
  eexists _, _. split; [reflexivity|].
  apply (@NewXDSServer_wiring plain_informers plain_informers_laws (fun _ => None) 0 ":18000"
    no_informers 3 _ _ eq_refl).
Defined.

Definition plain_main (config : M unit) :=
  @main plain_informers (fun _ => None) unit unit unit config (fun _ => Ok tt) (fun _ => Ok tt)
    (fun _ _ => no_informers) ":18000" ":8081".

Lemma main_starts_informers_last_witness :
  (exists c s, plain_main (Ok tt) = (Some c, MainRuns s ":8081") /\
     ("GRPCListener", configWatcher_grpcListeners (XDSServer_ads s))
       ∈ factory_started (world_factory (cluster_gtc c))).
Proof.
  eexists _, _. split; [reflexivity|].
  pose proof (@main_starts_informers_last plain_informers plain_informers_laws (fun _ => None)
    unit unit unit (Ok tt) (fun _ => Ok tt) (fun _ => Ok tt) (fun _ _ => no_informers)
    (fun _ _ => eq_refl) ":18000" ":8081") as Hm.
  destruct Hm as (_ & _ & Hs & _). exact Hs.
Defined.
