(* ===== verification/EchoServer.v ===== *)
(** The echo service of the tests: the servers of [pkg/echoserver/server.go], the
    generated stubs of [pkg/echoserver/proto/echo_grpc.pb.go] and the behaviours
    of [pkg/testruntime/backend.go].

    A behaviour makes a server whose functions close over counters; a server is
    the data those closures share. A gRPC server runs calls concurrently, so the
    swappable server is a machine whose threads are calls and swaps, at the
    granularity of the memory accesses and lock operations of the source. *)

From S2P Require Import Prelude GoStrings GoPath GoStrconv Api Errors.
From Stdlib Require Import SpecFloat.

(** ** Messages *)

(** A [float64] is a floating-point number of the IEEE standard. *)
Abbreviation float64 := spec_float.
Definition float_zero : float64 := S754_zero false.

Record EchoRequest := {
  EchoRequest_Payload : string;
  EchoRequest_Flackeyness : float64
}.

Record EchoReply := {
  EchoReply_ServerId : string;
  EchoReply_Payload : string;
  EchoReply_Variant : string
}.

Inductive method := MethodEcho | MethodEchoPremium.

Global Instance method_eq_dec : EqDecision method.
Proof. solve_decision. Defined.

(** ** Behaviours *)

(** What a [Behavior] makes for a server of a given identifier. *)
Inductive server :=
  | DefaultServer (id : string)
  | SequenceServer (codes : list Z) (id : string) (echoCount echoPremiumCount : nat)
  | HangServer (d : Z) (id : string).

Abbreviation Behavior := (string -> server).

Definition DefaultBehavior : Behavior := fun id => DefaultServer id.
Definition SequenceBehavior (codes : list Z) : Behavior := fun id => SequenceServer codes id 0 0.
Definition HangBehavior (d : Z) : Behavior := fun id => HangServer d id.

Definition server_id (s : server) : string :=
  match s with DefaultServer id | SequenceServer _ id _ _ | HangServer _ id => id end.

Definition variant (m : method) : string :=
  match m with MethodEcho => "standard" | MethodEchoPremium => "premium" end.

(** [&echo.EchoReply{ServerId: id, Payload: req.Payload, Variant: ...}] *)
Definition reply (id : string) (m : method) (req : EchoRequest) : EchoReply :=
  {| EchoReply_ServerId := id; EchoReply_Payload := EchoRequest_Payload req;
     EchoReply_Variant := variant m |}.

(** The counter that the function of a method uses. *)
Definition count (m : method) (s : server) : nat :=
  match s, m with
  | SequenceServer _ _ n _, MethodEcho => n
  | SequenceServer _ _ _ n, MethodEchoPremium => n
  | _, _ => 0
  end.

Definition set_count (m : method) (n : nat) (s : server) : server :=
  match s, m with
  | SequenceServer codes id _ p, MethodEcho => SequenceServer codes id n p
  | SequenceServer codes id e _, MethodEchoPremium => SequenceServer codes id e n
  | _, _ => s
  end.

Definition nope (code : Z) : error := statusError code "nope".

(** A call of [EchoFunc] or [EchoPremiumFunc] that nothing interrupts: the
    server after it, the time slept and the result. *)
Definition call_func (m : method) (req : EchoRequest) (s : server) : server * Z * M EchoReply :=
  match s with
  | DefaultServer id => (s, 0%Z, Ok (reply id m req))
  | SequenceServer codes id _ _ =>
      let n := count m s in
      if decide (n < length codes) then
        match codes !! n with
        | Some code => (set_count m (S n) s, 0%Z, Err (nope code))
        | None => (s, 0%Z, Panic (IndexOutOfRange (Z.of_nat n) (length codes)))
        end
      else (s, 0%Z, Ok (reply id m req))
  | HangServer d id => (s, d, Ok (reply id m req))
  end.

(** [func (e *Server) Echo] and [EchoPremium] *)
Definition Server_Echo := call_func MethodEcho.
Definition Server_EchoPremium := call_func MethodEchoPremium.

(** Calls one after the other. *)
Fixpoint call_funcs (m : method) (reqs : list EchoRequest) (s : server)
  : server * list (M EchoReply) :=
  match reqs with
  | [] => (s, [])
  | req :: reqs =>
      let '(s1, _, r) := call_func m req s in
      let '(s2, rs) := call_funcs m reqs s1 in (s2, r :: rs)
  end.

(** ** The generated stubs *)

Definition Unimplemented : Z := 12.

(** [UnimplementedEchoServer] *)
Definition UnimplementedEchoServer_Echo : M EchoReply :=
  Err (statusError Unimplemented "method Echo not implemented").
Definition UnimplementedEchoServer_EchoPremium : M EchoReply :=
  Err (statusError Unimplemented "method EchoPremium not implemented").

(** [type EchoServer interface], over the state of the server. *)
Record EchoServer (St : Type) := {
  es_Echo : EchoRequest -> St -> St * M EchoReply;
  es_EchoPremium : EchoRequest -> St -> St * M EchoReply
}.
Arguments es_Echo {St}.
Arguments es_EchoPremium {St}.

(** A [grpc.UnaryServerInterceptor] gets the request, the full method and the
    handler. *)
Abbreviation handler St := (EchoRequest -> St -> St * M EchoReply).
Abbreviation interceptor St := (EchoRequest -> string -> handler St -> St -> St * M EchoReply).

(** [_Echo_Echo_Handler] and [_Echo_EchoPremium_Handler]; [dec] decodes the
    request. *)
Definition run_handler {St} (fullMethod : string) (f : handler St) (dec : M EchoRequest)
    (icpt : option (interceptor St)) (st : St) : St * M EchoReply :=
  match dec with
  | Err e => (st, Err e)
  | Panic p => (st, Panic p)
  | Ok req =>
      match icpt with
      | None => f req st
      | Some i => i req fullMethod f st
      end
  end.

Definition _Echo_Echo_Handler {St} (srv : EchoServer St) :=
  run_handler "/echo.Echo/Echo" (es_Echo srv).
Definition _Echo_EchoPremium_Handler {St} (srv : EchoServer St) :=
  run_handler "/echo.Echo/EchoPremium" (es_EchoPremium srv).

Record MethodDesc := {
  MethodDesc_MethodName : string;
  MethodDesc_Handler :
    forall St, EchoServer St -> M EchoRequest -> option (interceptor St) -> St -> St * M EchoReply
}.

Record ServiceDesc := {
  ServiceDesc_ServiceName : string;
  ServiceDesc_Methods : list MethodDesc
}.

Definition Echo_ServiceDesc : ServiceDesc :=
  {| ServiceDesc_ServiceName := "echo.Echo";
     ServiceDesc_Methods :=
       [ {| MethodDesc_MethodName := "Echo"; MethodDesc_Handler := @_Echo_Echo_Handler |};
         {| MethodDesc_MethodName := "EchoPremium";
            MethodDesc_Handler := @_Echo_EchoPremium_Handler |} ] |}.

(** [type echoClient struct]: [cc.Invoke] is what the connection does with a
    full method and a request. *)
Section client.
Context {St : Type} (Invoke : string -> EchoRequest -> St -> St * M EchoReply).

Definition echoClient_Echo (req : EchoRequest) (st : St) : St * M EchoReply :=
  Invoke "/echo.Echo/Echo" req st.
Definition echoClient_EchoPremium (req : EchoRequest) (st : St) : St * M EchoReply :=
  Invoke "/echo.Echo/EchoPremium" req st.
End client.

(** ** Lemmas on calls that nothing interrupts *)

Lemma sequence_call codes id e p m req :
  let s := SequenceServer codes id e p in
  call_func m req s =
    match codes !! count m s with
    | Some code => (set_count m (S (count m s)) s, 0%Z, Err (nope code))
    | None => (s, 0%Z, Ok (reply id m req))
    end.
Proof.
  cbn zeta. unfold call_func. destruct (decide _) as [Hlt|Hge].
  - by destruct (lookup_lt_is_Some_2 codes _ Hlt) as [c ->].
  - by rewrite lookup_ge_None_2 by lia.
Qed.

Lemma count_set m n codes id e p :
  exists e' p', set_count m n (SequenceServer codes id e p) = SequenceServer codes id e' p' /\
    count m (SequenceServer codes id e' p') = n.
Proof. destruct m; cbn; eauto. Qed.

Lemma sequence_calls m reqs codes id e p :
  let s := SequenceServer codes id e p in
  (call_funcs m reqs s).2 = imap (fun i req =>
     match codes !! (count m s + i) with
     | Some code => Err (nope code)
     | None => Ok (reply id m req)
     end) reqs.
Proof.
  cbn zeta. revert e p. induction reqs as [|req reqs IH]; intros e p; [done|].
  cbn [call_funcs imap]. rewrite sequence_call, Nat.add_0_r.
  destruct (codes !! count m _) as [c|] eqn:Hc.
  - destruct (count_set m (S (count m (SequenceServer codes id e p))) codes id e p)
      as (e' & p' & -> & Hn).
    specialize (IH e' p'). rewrite Hn in IH. destruct (call_funcs _ _ _) as [s2 rs]. cbn in *.
    rewrite IH. f_equal. apply imap_ext. intros i x _. cbn. by rewrite Nat.add_succ_r.
  - specialize (IH e p). destruct (call_funcs _ _ _) as [s2 rs]. cbn in *. rewrite IH. f_equal.
    apply imap_ext. intros i x _. cbn. rewrite lookup_ge_None in Hc.
    by rewrite !lookup_ge_None_2 by lia.
Qed.

(** ** The swappable server *)

(** Where a call of a closure is: [if count < len(codes)] has been passed;
    [code := codes[count]] has been read; the [count] of [count++] has been read. *)
Inductive body_pc := BodyStart | BodyTested | BodyChose (code : Z) | BodyLoaded (code : Z) (n : nat).

(** A call: before [RLock]; holding the lock; running the function of the server
    at an address; its result known and the lock still held; returned. *)
Inductive call_pc :=
  | CallStart
  | CallLocked
  | CallRunning (srv : nat) (pc : body_pc)
  | CallResult (srv : nat) (r : M EchoReply)
  | CallDone (srv : nat) (r : M EchoReply).

(** A swap: before [Lock]; announced to the readers; holding the lock; the
    implementation stored; returned. *)
Inductive swap_pc := SwapStart | SwapPending | SwapLocked | SwapStored | SwapDone.

Inductive thread :=
  | Call (m : method) (req : EchoRequest) (pc : call_pc)
  | Swap (srv : nat) (pc : swap_pc).

(** [type SwapableServer struct], with the servers at their addresses and the
    threads at work; [crashed] when a panic ended the process. *)
Record state := {
  servers : list server;
  impl : option nat;
  threads : list thread;
  crashed : option panic_reason
}.

Definition holds_read (t : thread) : bool :=
  match t with
  | Call _ _ (CallLocked | CallRunning _ _ | CallResult _ _) => true
  | _ => false
  end.
Definition holds_write (t : thread) : bool :=
  match t with Swap _ (SwapLocked | SwapStored) => true | _ => false end.
Definition wants_write (t : thread) : bool :=
  match t with Swap _ (SwapPending | SwapLocked | SwapStored) => true | _ => false end.

(** A [sync.RWMutex]: a writer that called [Lock] keeps other writers and new
    readers out, and waits for the readers. *)
Definition can_RLock (ts : list thread) : bool := negb (existsb wants_write ts).
Definition can_announce (ts : list thread) : bool := negb (existsb wants_write ts).
Definition can_Lock (ts : list thread) : bool := negb (existsb holds_read ts).

Definition set_thread (i : nat) (t : thread) (st : state) : state :=
  {| servers := servers st; impl := impl st; threads := <[i := t]> (threads st);
     crashed := crashed st |}.
Definition crash (p : panic_reason) (st : state) : state :=
  {| servers := servers st; impl := impl st; threads := threads st; crashed := Some p |}.

(** One access of the function of a server. *)
Definition step_body (i : nat) (m : method) (req : EchoRequest) (srv : nat) (pc : body_pc)
    (st : state) : option state :=
  s ← servers st !! srv;
  let goto pc' := Some (set_thread i (Call m req (CallRunning srv pc')) st) in
  let finish r := Some (set_thread i (Call m req (CallResult srv r)) st) in
  match s, pc with
  | SequenceServer codes id _ _, BodyStart =>
      if decide (count m s < length codes) then goto BodyTested
      else finish (Ok (reply id m req))
  | SequenceServer codes _ _ _, BodyTested =>
      match codes !! count m s with
      | Some code => goto (BodyChose code)
      | None => Some (crash (IndexOutOfRange (Z.of_nat (count m s)) (length codes)) st)
      end
  | SequenceServer _ _ _ _, BodyChose code => goto (BodyLoaded code (count m s))
  | SequenceServer _ _ _ _, BodyLoaded code n =>
      Some {| servers := <[srv := set_count m (S n) s]> (servers st); impl := impl st;
              threads := <[i := Call m req (CallResult srv (Err (nope code)))]> (threads st);
              crashed := crashed st |}
  | (DefaultServer id | HangServer _ id), BodyStart => finish (Ok (reply id m req))
  | _, _ => None
  end.

(** [func (s *SwapableServer) Echo] and [EchoPremium]: a nil implementation
    panics. *)
Definition step_call (i : nat) (m : method) (req : EchoRequest) (pc : call_pc) (st : state)
  : option state :=
  match pc with
  | CallStart =>
      if can_RLock (threads st) then Some (set_thread i (Call m req CallLocked) st) else None
  | CallLocked =>
      match impl st with
      | Some srv => Some (set_thread i (Call m req (CallRunning srv BodyStart)) st)
      | None => Some (crash NilDereference st)
      end
  | CallRunning srv bpc => step_body i m req srv bpc st
  | CallResult srv r => Some (set_thread i (Call m req (CallDone srv r)) st)
  | CallDone _ _ => None
  end.

(** [func (s *SwapableServer) Swap] *)
Definition step_swap (i srv : nat) (pc : swap_pc) (st : state) : option state :=
  match pc with
  | SwapStart =>
      if can_announce (threads st) then Some (set_thread i (Swap srv SwapPending) st) else None
  | SwapPending =>
      if can_Lock (threads st) then Some (set_thread i (Swap srv SwapLocked) st) else None
  | SwapLocked =>
      Some {| servers := servers st; impl := Some srv;
              threads := <[i := Swap srv SwapStored]> (threads st); crashed := crashed st |}
  | SwapStored => Some (set_thread i (Swap srv SwapDone) st)
  | SwapDone => None
  end.

Definition step (i : nat) (st : state) : option state :=
  match crashed st with
  | Some _ => None
  | None =>
      match threads st !! i with
      | Some (Call m req pc) => step_call i m req pc st
      | Some (Swap srv pc) => step_swap i srv pc st
      | None => None
      end
  end.

Fixpoint run (schedule : list nat) (st : state) : option state :=
  match schedule with
  | [] => Some st
  | i :: schedule => st' ← step i st; run schedule st'
  end.

(** A new thread: the gRPC server starts a call, a test changes the behaviour to
    a server it made. *)
Definition starting (st : state) (t : thread) : Prop :=
  match t with
  | Call _ _ CallStart => True
  | Swap srv SwapStart => srv < length (servers st)
  | _ => False
  end.

(** The states from [st]: threads start at any time, and step in any order. *)
Inductive reachable (st : state) : state -> Prop :=
  | reach_refl : reachable st st
  | reach_spawn st1 t : reachable st st1 -> starting st1 t ->
      reachable st {| servers := servers st1; impl := impl st1; threads := threads st1 ++ [t];
                      crashed := crashed st1 |}
  | reach_new st1 s : reachable st st1 ->
      reachable st {| servers := servers st1 ++ [s]; impl := impl st1; threads := threads st1;
                      crashed := crashed st1 |}
  | reach_step st1 st2 i : reachable st st1 -> step i st1 = Some st2 -> reachable st st2.

(** [newBackend]: the default behaviour is installed before the server starts. *)
Definition backend_start (id : string) : state :=
  {| servers := [DefaultBehavior id]; impl := Some 0; threads := []; crashed := None |}.

(** ** Invariant of the machine *)

Definition is_sequence (s : server) : Prop :=
  match s with SequenceServer _ _ _ _ => True | _ => False end.

(** What a thread relies on. *)
Definition thread_ok (ss : list server) (im : option nat) (t : thread) : Prop :=
  match t with
  | Call _ _ (CallRunning srv pc) =>
      im = Some srv /\ (pc = BodyStart \/ exists s, ss !! srv = Some s /\ is_sequence s)
  | Call _ _ (CallResult srv _) => im = Some srv
  | Swap srv _ => srv < length ss
  | _ => True
  end.

Record Inv (st : state) : Prop := {
  inv_one i j ti tj :
    threads st !! i = Some ti -> threads st !! j = Some tj ->
    wants_write ti = true -> wants_write tj = true -> i = j;
  inv_excl i j ti tj :
    threads st !! i = Some ti -> threads st !! j = Some tj ->
    holds_write ti = true -> holds_read tj = false;
  inv_threads : Forall (thread_ok (servers st) (impl st)) (threads st);
  inv_impl : exists k, impl st = Some k /\ k < length (servers st)
}.

Lemma existsb_lookup {A} (f : A -> bool) l i x :
  existsb f l = false -> l !! i = Some x -> f x = false.
Proof.
  intros Hf Hi. destruct (f x) eqn:Hx; [|done].
  assert (existsb f l = true) as Ht; [|congruence].
  apply existsb_exists. exists x. split; [|done]. apply list_elem_of_In. by eapply list_elem_of_lookup_2.
Qed.

Lemma holds_wants t : holds_write t = true -> wants_write t = true.
Proof. by destruct t as [|? []]. Qed.
Lemma read_not_write t : holds_read t = true -> holds_write t = false.
Proof. by destruct t. Qed.

(** Replacing a thread by one that respects the lock. *)
Lemma inv_update st i t t' ss' im' :
  Inv st -> threads st !! i = Some t ->
  (wants_write t' = true -> wants_write t = true \/ can_announce (threads st) = true) ->
  (holds_write t' = true -> holds_write t = true \/ can_Lock (threads st) = true) ->
  (holds_read t' = true -> holds_read t = true \/ can_RLock (threads st) = true) ->
  thread_ok ss' im' t' ->
  (forall j tj, j <> i -> threads st !! j = Some tj ->
     thread_ok (servers st) (impl st) tj -> thread_ok ss' im' tj) ->
  (exists k, im' = Some k /\ k < length ss') ->
  Inv {| servers := ss'; impl := im'; threads := <[i := t']> (threads st);
         crashed := crashed st |}.
Proof.
  intros HI Hi Hw Hh Hr Hok Hoth Him. pose proof (lookup_lt_Some _ _ _ Hi) as Hlt.
  unfold can_announce, can_Lock, can_RLock in *.
  constructor; cbn; [| | |done].
  - intros a b ta tb Ha Hb Hwa Hwb.
    apply list_lookup_insert_Some in Ha as [(-> & <- & _)|[Hai Ha]];
      apply list_lookup_insert_Some in Hb as [(Hbi & <- & _)|[Hbi Hb]]; try done.
    + destruct (Hw Hwa) as [Ht|Hn%negb_true_iff]; [exact (inv_one st HI _ _ _ _ Hi Hb Ht Hwb)|].
      rewrite (existsb_lookup _ _ _ _ Hn Hb) in Hwb. done.
    + subst b. destruct (Hw Hwb) as [Ht|Hn%negb_true_iff]; [exact (inv_one st HI _ _ _ _ Ha Hi Hwa Ht)|].
      rewrite (existsb_lookup _ _ _ _ Hn Ha) in Hwa. done.
    + exact (inv_one st HI _ _ _ _ Ha Hb Hwa Hwb).
  - intros a b ta tb Ha Hb Hwa.
    apply list_lookup_insert_Some in Ha as [(-> & <- & _)|[Hai Ha]];
      apply list_lookup_insert_Some in Hb as [(Hbi & <- & _)|[Hbi Hb]].
    + destruct (holds_read t') eqn:Hrd; [|done]. by rewrite (read_not_write _ Hrd) in Hwa.
    + destruct (Hh Hwa) as [Ht|Hn%negb_true_iff]; [exact (inv_excl st HI _ _ _ _ Hi Hb Ht)|].
      by eapply existsb_lookup.
    + subst b. destruct (holds_read t') eqn:Hrd; [|done].
      destruct (Hr eq_refl) as [Ht|Hn%negb_true_iff].
      * by rewrite (inv_excl st HI _ _ _ _ Ha Hi Hwa) in Ht.
      * apply holds_wants in Hwa. by rewrite (existsb_lookup _ _ _ _ Hn Ha) in Hwa.
    + exact (inv_excl st HI _ _ _ _ Ha Hb Hwa).
  - apply Forall_lookup. intros a ta Ha.
    apply list_lookup_insert_Some in Ha as [(-> & <- & _)|[Hai Ha]]; [done|].
    eapply Hoth; [done..|]. exact (proj1 (Forall_lookup _ _) (inv_threads st HI) a ta Ha).
Qed.

Lemma inv_set_thread st i t t' :
  Inv st -> threads st !! i = Some t ->
  (wants_write t' = true -> wants_write t = true \/ can_announce (threads st) = true) ->
  (holds_write t' = true -> holds_write t = true \/ can_Lock (threads st) = true) ->
  (holds_read t' = true -> holds_read t = true \/ can_RLock (threads st) = true) ->
  thread_ok (servers st) (impl st) t' -> Inv (set_thread i t' st).
Proof. intros HI **. eapply inv_update; eauto. exact (inv_impl st HI). Qed.

Lemma backend_inv_crash st p : Inv st -> Inv (crash p st).
Proof. intros []. by constructor. Qed.

Lemma is_sequence_set m n s : is_sequence s -> is_sequence (set_count m n s).
Proof. by destruct s, m. Qed.

Lemma step_body_inv i m req srv pc st st' :
  Inv st -> threads st !! i = Some (Call m req (CallRunning srv pc)) ->
  step_body i m req srv pc st = Some st' -> Inv st'.
Proof.
  intros HI Hi Hst. pose proof (proj1 (Forall_lookup _ _) (inv_threads st HI) _ _ Hi) as [Him _].
  unfold step_body in Hst. destruct (servers st !! srv) as [s|] eqn:Hs; cbn in Hst; [|done].
  assert (forall t', holds_read t' = true -> wants_write t' = false -> holds_write t' = false ->
    thread_ok (servers st) (impl st) t' -> Inv (set_thread i t' st)) as Hset.
  { intros t' H1 H2 H3 H4. eapply inv_set_thread; [done..| | | |done]; try congruence.
    intros _. by left. }
  destruct s as [id|codes id e p|d id], pc as [| |c|c n]; try done;
    [injection Hst as <-; by apply Hset| | | | |injection Hst as <-; by apply Hset].
  all: assert (exists s, servers st !! srv = Some s /\ is_sequence s) as Hseq by (by eexists).
  - destruct (decide _); injection Hst as <-; apply Hset; cbn; eauto.
  - destruct (codes !! _); injection Hst as <-; [apply Hset; cbn; eauto|by apply backend_inv_crash].
  - injection Hst as <-. apply Hset; cbn; eauto.
  - injection Hst as <-. eapply inv_update; [done..|cbn; by auto|cbn; by auto|cbn; by auto|done| |].
    + intros j tj _ _ Hok. destruct tj as [? ? []|]; cbn in *; try done.
      * destruct Hok as [? [?|(s & Hsr & Hs2)]]; [by auto|]. split; [done|]. right.
        destruct (decide (srv0 = srv)) as [->|].
        -- eexists. rewrite list_lookup_insert_eq by (by eapply lookup_lt_Some).
           split; [done|]. by destruct m.
        -- eexists. by rewrite list_lookup_insert_ne.
      * by rewrite length_insert.
    + rewrite length_insert. exact (inv_impl st HI).
Qed.

Lemma backend_step_inv i st st' : Inv st -> step i st = Some st' -> Inv st'.
Proof.
  intros HI. unfold step. destruct (crashed st) eqn:Hc; [done|].
  destruct (threads st !! i) as [t|] eqn:Hi; [|done].
  pose proof (proj1 (Forall_lookup _ _) (inv_threads st HI) _ _ Hi) as Hok.
  destruct t as [m req [| |srv pc|srv r|srv r]|srv pc]; cbn [step_call].
  - destruct (can_RLock _) eqn:Hr; intros [= <-]. eapply inv_set_thread; cbn; eauto.
  - destruct (impl st) eqn:Him; intros [= <-]; [|by apply backend_inv_crash].
    eapply inv_set_thread; cbn; eauto.
  - intros Hst. by eapply step_body_inv.
  - intros [= <-]. eapply inv_set_thread; cbn; eauto; done.
  - done.
  - destruct pc; cbn [step_swap].
    + destruct (can_announce _) eqn:Hr; intros [= <-]. eapply inv_set_thread; cbn; eauto; done.
    + destruct (can_Lock _) eqn:Hr; intros [= <-]. eapply inv_set_thread; cbn; eauto; done.
    + intros [= <-]. eapply inv_update; cbn; eauto; try done.
      intros j tj Hj Htj Hold. pose proof (inv_excl st HI _ _ _ _ Hi Htj eq_refl) as Hnr.
      destruct tj as [? ? []|]; cbn in *; done.
    + intros [= <-]. eapply inv_set_thread; cbn; eauto; done.
    + done.
Qed.

Lemma backend_reachable_inv st0 st : Inv st0 -> reachable st0 st -> Inv st.
Proof.
  intros HI. induction 1 as [|st1 t Hr IH Ht|st1 s Hr IH|st1 st2 i Hr IH Hst]; [done| | |].
  - assert (forall i ti, (threads st1 ++ [t]) !! i = Some ti ->
      threads st1 !! i = Some ti \/ (wants_write ti = false /\ holds_read ti = false)) as Hl.
    { intros i ti [?|[_ Hi]]%lookup_app_Some; [by left|]. right.
      apply list_lookup_singleton_Some in Hi as [_ <-]. by destruct t as [? ? []|? []]. }
    constructor; cbn.
    + intros i j ti tj Hi Hj Hwi Hwj.
      destruct (Hl _ _ Hi) as [Hi'|[? _]]; [|congruence].
      destruct (Hl _ _ Hj) as [Hj'|[? _]]; [|congruence]. by eapply (inv_one st1 IH).
    + intros i j ti tj Hi Hj Hwi. destruct (Hl _ _ Hj) as [Hj'|[_ ?]]; [|done].
      destruct (Hl _ _ Hi) as [Hi'|[Hw _]]; [exact (inv_excl st1 IH _ _ _ _ Hi' Hj' Hwi)|].
      apply holds_wants in Hwi. congruence.
    + apply Forall_app. split; [apply (inv_threads st1 IH)|]. apply Forall_singleton.
      by destruct t as [? ? []|? []].
    + exact (inv_impl st1 IH).
  - constructor; cbn; [exact (inv_one st1 IH)|exact (inv_excl st1 IH)| |].
    + eapply Forall_impl; [exact (inv_threads st1 IH)|]. intros t Ht.
      destruct t as [? ? []|]; cbn in *; try done.
      * destruct Ht as [? [?|(s' & ? & ?)]]; [by auto|]. split; [done|]. right. exists s'.
        split; [|done]. by apply lookup_app_l_Some.
      * rewrite length_app. lia.
    + destruct (inv_impl st1 IH) as (k & ? & ?). exists k. rewrite length_app. split; [done|lia].
  - by eapply backend_step_inv.
Qed.

Lemma backend_inv id : Inv (backend_start id).
Proof. constructor; [done..|constructor|]. exists 0. cbn. split; [done|lia]. Qed.


(** ** A call that nothing interrupts, in the machine *)

Lemma run_step i k st st' stf :
  step i st = Some st' -> run (replicate k i) st' = Some stf ->
  run (replicate (S k) i) st = Some stf.
Proof. intros Hst Hrun. cbn. by rewrite Hst. Qed.

Lemma step_set i t st :
  i < length (threads st) -> crashed st = None ->
  step i (set_thread i t st) =
    match t with
    | Call m req pc => step_call i m req pc (set_thread i t st)
    | Swap srv pc => step_swap i srv pc (set_thread i t st)
    end.
Proof. intros Hi Hc. unfold step. cbn. by rewrite Hc, list_lookup_insert_eq. Qed.

(** One access of the body of thread [i], whose server [Hs] gives. *)
Ltac body_step Hs :=
  match goal with
  | |- step ?i ?st' = _ =>
      match st' with
      | {| threads := <[_ := ?t]> (threads ?st) |} => change st' with (set_thread i t st)
      | _ => idtac
      end
  end;
  rewrite step_set by done; cbn [step_call]; unfold step_body; cbn [servers set_thread];
  rewrite Hs; cbn [mbind option_bind]; cbv beta iota zeta; try (unfold set_thread; cbn; rewrite list_insert_insert_eq; reflexivity).

(** The body, from its start to its result. *)
Lemma uninterrupted_body i m req srv s st :
  crashed st = None -> i < length (threads st) -> servers st !! srv = Some s ->
  exists k, run (replicate k i) (set_thread i (Call m req (CallRunning srv BodyStart)) st) =
    Some {| servers := <[srv := (call_func m req s).1.1]> (servers st); impl := impl st;
            threads := <[i := Call m req (CallResult srv (call_func m req s).2)]> (threads st);
            crashed := None |}.
Proof.
  intros Hc Hi Hs.
  assert (forall r, run [] (set_thread i (Call m req (CallResult srv r)) st) =
    Some {| servers := <[srv := s]> (servers st); impl := impl st;
            threads := <[i := Call m req (CallResult srv r)]> (threads st);
            crashed := None |}) as Hend.
  { intros r. cbn. unfold set_thread. by rewrite Hc, (list_insert_id (servers st)). }
  destruct s as [id|codes id e p|d id].
  - exists 1. eapply (run_step i 0); [|apply Hend]. body_step Hs.
  - rewrite sequence_call. destruct (codes !! count m _) as [code|] eqn:Hcode.
    + pose proof (lookup_lt_Some _ _ _ Hcode) as Hlt. exists 4.
      eapply (run_step i 3); [|eapply (run_step i 2); [|eapply (run_step i 1);
        [|eapply (run_step i 0)]]].
      * body_step Hs. rewrite decide_True by done. unfold set_thread. cbn.
        by rewrite list_insert_insert_eq.
      * body_step Hs. rewrite Hcode. unfold set_thread. cbn. by rewrite list_insert_insert_eq.
      * body_step Hs.
      * body_step Hs.
      * cbn. by rewrite Hc.
    + exists 1. eapply (run_step i 0); [|apply Hend]. body_step Hs.
      rewrite decide_False by (apply lookup_ge_None in Hcode; lia).
      unfold set_thread. cbn. by rewrite list_insert_insert_eq.
  - exists 1. eapply (run_step i 0); [|apply Hend]. body_step Hs.
Qed.

Lemma run_replicate_app i a b st st' :
  run (replicate a i) st = Some st' -> run (replicate (a + b) i) st = run (replicate b i) st'.
Proof.
  revert st. induction a as [|a IH]; intros st; cbn; [by intros [= ->]|].
  destruct (step i st) as [st1|]; cbn; [apply IH|done].
Qed.

(** The machine refines [call_func]. *)
Lemma uninterrupted_call i m req srv s st :
  crashed st = None -> threads st !! i = Some (Call m req CallStart) ->
  can_RLock (threads st) = true -> impl st = Some srv -> servers st !! srv = Some s ->
  exists k, run (replicate k i) st =
    Some {| servers := <[srv := (call_func m req s).1.1]> (servers st); impl := impl st;
            threads := <[i := Call m req (CallDone srv (call_func m req s).2)]> (threads st);
            crashed := None |}.
Proof.
  intros Hc Hi Hr Him Hs. pose proof (lookup_lt_Some _ _ _ Hi) as Hlt.
  destruct (uninterrupted_body i m req srv s st Hc Hlt Hs) as [k Hk].
  exists (2 + (k + 1)). eapply run_step; [|eapply run_step].
  - unfold step. rewrite Hc, Hi. cbn [step_call]. by rewrite Hr.
  - rewrite step_set by done. cbn [step_call]. change (impl (set_thread _ _ st)) with (impl st).
    rewrite Him. unfold set_thread. cbn. by rewrite list_insert_insert_eq.
  - fold (set_thread i (Call m req (CallRunning srv BodyStart)) st).
    rewrite (run_replicate_app _ _ _ _ _ Hk). cbn. unfold step. cbn.
    rewrite list_lookup_insert_eq by done. cbn. unfold set_thread. cbn.
    by rewrite list_insert_insert_eq.
Qed.

(** ** Crashes and progress *)

Lemma step_crash i st st' p :
  Inv st -> step i st = Some st' -> crashed st = None -> crashed st' = Some p ->
  exists codes id e q, SequenceServer codes id e q ∈ servers st' /\
    exists n, p = IndexOutOfRange (Z.of_nat n) (length codes).
Proof.
  intros HI. unfold step. destruct (crashed st) eqn:Hc; [done|].
  destruct (threads st !! i) as [[m req pc|srv pc]|] eqn:Hi; [| |done].
  - destruct pc as [| |srv bpc| |]; cbn [step_call].
    + destruct (can_RLock _); intros [= <-]; cbn; congruence.
    + destruct (inv_impl st HI) as (k & -> & _). intros [= <-]; cbn; congruence.
    + unfold step_body. destruct (servers st !! srv) as [s|] eqn:Hs; cbn; [|done].
      destruct s as [id|codes id e q|d id], bpc; try done.
      all: try (intros [= <-]; cbn; congruence).
      * destruct (decide _); intros [= <-]; cbn; congruence.
      * destruct (codes !! _); intros [= <-]; cbn; [congruence|]. intros _ [= <-].
        eexists codes, id, e, q. split; [by eapply list_elem_of_lookup_2|]. by eexists.
    + intros [= <-]. cbn. congruence.
    + done.
  - destruct pc; cbn [step_swap]; [destruct (can_announce _)|destruct (can_Lock _)|..];
      intros [= <-]; cbn; congruence.
Qed.

Lemma existsb_witness {A} (f : A -> bool) l :
  existsb f l = true -> exists i x, l !! i = Some x /\ f x = true.
Proof.
  intros (x & Hx%list_elem_of_In & Hf)%existsb_exists.
  apply list_elem_of_lookup_1 in Hx as [i Hi]. eauto.
Qed.

Lemma reader_steps st i t :
  Inv st -> crashed st = None -> threads st !! i = Some t -> holds_read t = true ->
  is_Some (step i st).
Proof.
  intros HI Hc Hi Hr. pose proof (proj1 (Forall_lookup _ _) (inv_threads st HI) _ _ Hi) as Hok.
  destruct (inv_impl st HI) as (k & Him & Hk). apply lookup_lt_is_Some in Hk as [s Hs].
  unfold step. rewrite Hc, Hi. destruct t as [m req pc|]; [|done].
  destruct pc as [| |srv bpc| |]; try done; cbn [step_call].
  - by rewrite Him.
  - destruct Hok as [Him' Hpc]. assert (srv = k) as -> by congruence.
    unfold step_body. rewrite Hs. cbn.
    destruct Hpc as [->|(s' & Hs' & Hseq)].
    + destruct s; cbn; try done. by destruct (decide _).
    + assert (s' = s) as -> by congruence. destruct s as [|codes id e q|]; try done.
      destruct bpc; cbn; try done; [by destruct (decide _)|by destruct (codes !! _)].
Qed.

Definition finished (t : thread) : bool :=
  match t with Call _ _ (CallDone _ _) | Swap _ SwapDone => true | _ => false end.

Lemma progress st i t :
  Inv st -> crashed st = None -> threads st !! i = Some t -> finished t = false ->
  exists j, is_Some (step j st).
Proof.
  intros HI Hc Hi Hf. destruct (existsb holds_read (threads st)) eqn:Hread.
  { apply existsb_witness in Hread as (j & tj & Hj & Hr). exists j. by eapply reader_steps. }
  destruct (existsb wants_write (threads st)) eqn:Hwrite.
  { apply existsb_witness in Hwrite as (j & tj & Hj & Hw). exists j. unfold step.
    rewrite Hc, Hj. destruct tj as [|srv []]; try done; cbn. unfold can_Lock. by rewrite Hread. }
  exists i. unfold step. rewrite Hc, Hi. pose proof (existsb_lookup _ _ _ _ Hread Hi) as Hr.
  pose proof (existsb_lookup _ _ _ _ Hwrite Hi) as Hw.
  destruct t as [m req []|srv []]; try done; cbn; unfold can_RLock, can_announce;
    by rewrite Hwrite.
Qed.

(** ** Properties *)

(** C37: a swap of the implementation never overlaps a call. In every state that
    a backend can reach, a call that runs, or whose result is not yet returned,
    runs on the server that is installed, and no swap is between its [Lock] and
    its [Unlock]: what a call answers comes from one server only. *)
Theorem swap_never_overlaps_call id st i m req srv pc :
  reachable (backend_start id) st ->
  threads st !! i = Some (Call m req pc) ->
  (exists bpc, pc = CallRunning srv bpc) \/ (exists r, pc = CallResult srv r) ->
  impl st = Some srv /\ existsb holds_write (threads st) = false.
Proof.
  intros Hr Hi Hpc. pose proof (backend_reachable_inv _ _ (backend_inv id) Hr) as HI.
  pose proof (proj1 (Forall_lookup _ _) (inv_threads st HI) _ _ Hi) as Hok.
  assert (holds_read (Call m req pc) = true) as Hread by (by destruct Hpc as [[? ->]|[? ->]]).
  split; [by destruct Hpc as [[? ->]|[? ->]]; destruct Hok|].
  destruct (existsb holds_write (threads st)) eqn:Hw; [|done].
  apply existsb_witness in Hw as (j & tj & Hj & Hw).
  by rewrite (inv_excl st HI _ _ _ _ Hj Hi Hw) in Hread.
Qed.

(** The backends do not deadlock: as long as a call or a swap has not
    returned and nothing has panicked, some thread can take a step. *)
Theorem backend_never_deadlocks id st i t :
  reachable (backend_start id) st -> crashed st = None ->
  threads st !! i = Some t -> finished t = false -> exists j, is_Some (step j st).
Proof. intros Hr. apply progress. by apply (backend_reachable_inv _ _ (backend_inv id)). Qed.

(** The only panic that calls and swaps of a backend can cause is an index
    out of range in a server of [SequenceBehavior]; the implementation is never
    nil when a call reads it. *)
Theorem backend_crashes_only_in_sequences id st p :
  reachable (backend_start id) st -> crashed st = Some p ->
  (exists n len, p = IndexOutOfRange n len) /\ exists s, s ∈ servers st /\ is_sequence s.
Proof.
  induction 1 as [|st1 t Hr IH Ht|st1 s Hr IH|st1 st2 i Hr IH Hst]; intros Hp; [done|by auto| |].
  - destruct (IH Hp) as (? & s' & Hs' & ?). split; [done|]. exists s'. cbn.
    by rewrite elem_of_app; auto.
  - pose proof (backend_reachable_inv _ _ (backend_inv id) Hr) as HI.
    assert (crashed st1 = None) as Hc by (unfold step in Hst; by destruct (crashed st1)).
    destruct (step_crash _ _ _ _ HI Hst Hc Hp) as (codes & id' & e & q & Hin & n & ->).
    split; [by eexists _, _|]. by eexists.
Qed.

(** Calls of a sequence server one after the other get the codes in order,
    each once, and every later call gets the reply of the backend; the two
    methods count separately. *)
Theorem sequence_serves_codes_in_order codes id m reqs :
  (call_funcs m reqs (SequenceBehavior codes id)).2 =
    imap (fun i req => match codes !! i with
                       | Some code => Err (nope code)
                       | None => Ok (reply id m req)
                       end) reqs.
Proof. unfold SequenceBehavior. rewrite sequence_calls. by destruct m. Qed.

(** A backend whose behaviour is a sequence of one code, and two calls. *)
Definition racing (code : Z) (req : EchoRequest) : state :=
  {| servers := [DefaultBehavior "backend-0"; SequenceBehavior [code] "backend-0"]; impl := Some 1;
     threads := [Swap 1 SwapDone; Call MethodEcho req CallStart; Call MethodEcho req CallStart];
     crashed := None |}.

Lemma reachable_run st0 st schedule st' :
  reachable st0 st -> run schedule st = Some st' -> reachable st0 st'.
Proof.
  revert st. induction schedule as [|i schedule IH]; intros st Hr; cbn; [by intros [= <-]|].
  destruct (step i st) as [st1|] eqn:Hst; [|done]. apply IH. by eapply reach_step.
Qed.

Lemma racing_reachable code req : reachable (backend_start "backend-0") (racing code req).
Proof.
  pose (ss := [DefaultBehavior "backend-0"; SequenceBehavior [code] "backend-0"]).
  pose (c := Call MethodEcho req CallStart).
  pose (st ts := {| servers := ss; impl := Some 0; threads := ts; crashed := None |}).
  apply (reachable_run _ (st [Swap 1 SwapStart; c; c]) [0; 0; 0; 0]); [|reflexivity].
  apply (reach_spawn _ (st [Swap 1 SwapStart; c]) c); [|exact I].
  apply (reach_spawn _ (st [Swap 1 SwapStart]) c); [|exact I].
  apply (reach_spawn _ (st []) (Swap 1 SwapStart)); [|cbn; lia].
  apply (reach_new _ (backend_start "backend-0")), reach_refl.
Qed.

Lemma racing_crash (code : Z) (req : EchoRequest) :
  exists st, reachable (backend_start "backend-0") st /\
    crashed st = Some (IndexOutOfRange 1 1).
Proof.
  exists (crash (IndexOutOfRange 1 1)
    {| servers := [DefaultBehavior "backend-0"; SequenceServer [code] "backend-0" 1 0];
       impl := Some 1;
       threads := [Swap 1 SwapDone;
                   Call MethodEcho req (CallResult 1 (Err (nope code)));
                   Call MethodEcho req (CallRunning 1 BodyTested)];
       crashed := None |}).
  split; [|done]. eapply (reachable_run _ _ [1; 1; 1; 2; 2; 2; 1; 1; 1; 2]);
    [apply (racing_reachable code req)|reflexivity].
Qed.

(** The counters of a sequence server are not protected, and a gRPC server
    runs calls concurrently: with one code left, two calls can both pass the
    test, and the second then reads past the end of the codes, which panics. *)
Theorem sequence_race_panics code req :
  reachable (backend_start "backend-0") (racing code req) /\
  exists schedule st, run schedule (racing code req) = Some st /\
    crashed st = Some (IndexOutOfRange 1 1).
Proof.
  split; [apply racing_reachable|]. exists [1; 1; 1; 2; 2; 2; 1; 1; 1; 2]. by eexists.
Qed.

(** The stubs reach the server. With a connection that runs the method of
    the service description that the full method names, as gRPC does, a call
    of the client is a call of the server. *)
Theorem echo_stubs_reach_server {St} (srv : EchoServer St)
    (Invoke : string -> EchoRequest -> St -> St * M EchoReply) req st :
  (forall md, In md (ServiceDesc_Methods Echo_ServiceDesc) ->
     forall req st,
       Invoke ("/" +:+ ServiceDesc_ServiceName Echo_ServiceDesc +:+ "/" +:+ MethodDesc_MethodName md)
         req st = MethodDesc_Handler md St srv (Ok req) None st) ->
  echoClient_Echo Invoke req st = es_Echo srv req st /\
  echoClient_EchoPremium Invoke req st = es_EchoPremium srv req st.
Proof.
  intros Hconn. split.
  - apply (Hconn {| MethodDesc_MethodName := "Echo"; MethodDesc_Handler := @_Echo_Echo_Handler |}).
    by left.
  - apply (Hconn {| MethodDesc_MethodName := "EchoPremium";
                    MethodDesc_Handler := @_Echo_EchoPremium_Handler |}). by right; left.
Qed.

(** ** Witnesses *)

Definition hello : EchoRequest :=
  {| EchoRequest_Payload := "Hello There!"; EchoRequest_Flackeyness := float_zero |}.

(** A call of the first server under way, a swap waiting for it. *)
Definition waiting : state :=
  {| servers := [DefaultBehavior "backend-0"; HangBehavior 1000 "backend-0"]; impl := Some 0;
     threads := [Call MethodEcho hello (CallRunning 0 BodyStart); Swap 1 SwapPending];
     crashed := None |}.

Lemma waiting_reachable : reachable (backend_start "backend-0") waiting.
Proof.
  pose (ss := [DefaultBehavior "backend-0"; HangBehavior 1000 "backend-0"]).
  pose (st ts := {| servers := ss; impl := Some 0; threads := ts; crashed := None |}).
  pose (c := Call MethodEcho hello CallStart).
  apply (reachable_run _ (st [c; Swap 1 SwapStart]) [0; 0; 1]); [|reflexivity].
  apply (reach_spawn _ (st [c]) (Swap 1 SwapStart)); [|cbn; lia].
  apply (reach_spawn _ (st []) c); [|exact I].
  apply (reach_new _ (backend_start "backend-0")), reach_refl.
Qed.

Lemma swap_never_overlaps_call_witness :
  impl waiting = Some 0 /\ existsb holds_write (threads waiting) = false /\ step 1 waiting = None.
Proof.
  destruct (swap_never_overlaps_call "backend-0" waiting 0 MethodEcho hello 0
    (CallRunning 0 BodyStart) waiting_reachable eq_refl (or_introl (ex_intro _ BodyStart eq_refl)))
    as [H1 H2].
  split; [exact H1|]. split; [exact H2|reflexivity].
Defined.

Lemma backend_never_deadlocks_witness : exists j, is_Some (step j waiting).
Proof.
  exact (backend_never_deadlocks "backend-0" waiting 1 (Swap 1 SwapPending) waiting_reachable
    eq_refl eq_refl eq_refl).
Defined.

Lemma backend_crashes_only_in_sequences_witness :
  exists st, crashed st = Some (IndexOutOfRange 1 1) /\ exists s, s ∈ servers st /\ is_sequence s.
Proof.
  destruct (racing_crash 14 hello) as (st & Hr & Hc). exists st. split; [exact Hc|].
  exact (proj2 (backend_crashes_only_in_sequences "backend-0" st _ Hr Hc)).
Defined.

(** A server that answers with its state, behind a connection to it. *)
Definition sample_server : EchoServer nat :=
  {| es_Echo req n := (S n, Ok (reply "backend-0" MethodEcho req));
     es_EchoPremium req n := (S n, Ok (reply "backend-0" MethodEchoPremium req)) |}.
Definition sample_invoke (full : string) (req : EchoRequest) (n : nat) : nat * M EchoReply :=
  if decide (full = "/echo.Echo/Echo") then es_Echo sample_server req n
  else if decide (full = "/echo.Echo/EchoPremium") then es_EchoPremium sample_server req n
  else (n, Err (statusError Unimplemented "unknown method")).

Lemma echo_stubs_reach_server_witness :
  echoClient_Echo sample_invoke hello 4 = (5, Ok (reply "backend-0" MethodEcho hello)) /\
  echoClient_EchoPremium sample_invoke hello 4
    = (5, Ok (reply "backend-0" MethodEchoPremium hello)).
Proof.
  apply (echo_stubs_reach_server sample_server sample_invoke hello 4).
  intros md [<-|[<-|[]]] req st; reflexivity.
Defined.
