(* ===== verification/EchoProto.v ===== *)
(** The generated messages of [pkg/echoserver/proto/echo.pb.go].

    The file holds the messages with their accessors, the descriptor of
    [echo.proto] as bytes, and tables that tie the Go types to it. The runtime of
    protobuf-go builds a file descriptor from these when the package is
    initialised; it is the parameter [ProtoImpl]. The bytes are read here with
    the documented wire format, so that the tables, the struct tags and the
    service of [echo_grpc.pb.go] can be compared with what they describe. *)

From S2P Require Import Prelude GoStrings GoPath GoStrconv Api Errors EchoServer.
From Stdlib Require Import Ascii.

(** ** Messages *)

Module pb.
(** What the runtime keeps in a message: [state] points at a [MessageInfo] of
    [msgTypes], by its index. *)
Record EchoRequest := {
  EchoRequest_state : option nat;
  EchoRequest_sizeCache : Z;
  EchoRequest_unknownFields : list Z;
  EchoRequest_Payload : string;
  EchoRequest_Flackeyness : float64
}.

Record EchoReply := {
  EchoReply_state : option nat;
  EchoReply_sizeCache : Z;
  EchoReply_unknownFields : list Z;
  EchoReply_Payload : string;
  EchoReply_ServerId : string;
  EchoReply_Variant : string
}.

(** The accessors give the zero value on a nil message. *)
Definition EchoRequest_GetPayload (x : option EchoRequest) : string :=
  match x with Some m => EchoRequest_Payload m | None => "" end.
Definition EchoRequest_GetFlackeyness (x : option EchoRequest) : float64 :=
  match x with Some m => EchoRequest_Flackeyness m | None => float_zero end.
Definition EchoReply_GetPayload (x : option EchoReply) : string :=
  match x with Some m => EchoReply_Payload m | None => "" end.
Definition EchoReply_GetServerId (x : option EchoReply) : string :=
  match x with Some m => EchoReply_ServerId m | None => "" end.
Definition EchoReply_GetVariant (x : option EchoReply) : string :=
  match x with Some m => EchoReply_Variant m | None => "" end.

(** [EchoRequest{}] and [EchoReply{}], and [ms.StoreMessageInfo(mi)]. *)
Definition new_EchoRequest : EchoRequest :=
  {| EchoRequest_state := None; EchoRequest_sizeCache := 0; EchoRequest_unknownFields := [];
     EchoRequest_Payload := ""; EchoRequest_Flackeyness := float_zero |}.
Definition new_EchoReply : EchoReply :=
  {| EchoReply_state := None; EchoReply_sizeCache := 0; EchoReply_unknownFields := [];
     EchoReply_Payload := ""; EchoReply_ServerId := ""; EchoReply_Variant := "" |}.
Definition EchoRequest_StoreMessageInfo (mi : nat) (x : EchoRequest) : EchoRequest :=
  {| EchoRequest_state := Some mi; EchoRequest_sizeCache := EchoRequest_sizeCache x;
     EchoRequest_unknownFields := EchoRequest_unknownFields x;
     EchoRequest_Payload := EchoRequest_Payload x;
     EchoRequest_Flackeyness := EchoRequest_Flackeyness x |}.
Definition EchoReply_StoreMessageInfo (mi : nat) (x : EchoReply) : EchoReply :=
  {| EchoReply_state := Some mi; EchoReply_sizeCache := EchoReply_sizeCache x;
     EchoReply_unknownFields := EchoReply_unknownFields x;
     EchoReply_Payload := EchoReply_Payload x; EchoReply_ServerId := EchoReply_ServerId x;
     EchoReply_Variant := EchoReply_Variant x |}.

(** What [ProtoReflect] returns: the state inside the message, or the message
    wrapped by a [MessageInfo]. *)
Inductive reflected (A : Type) := MessageStateOf (x : A) | MessageOf (mi : nat) (x : option A).
Arguments MessageStateOf {A}.
Arguments MessageOf {A}.

Section reflection.
(** [protoimpl.UnsafeEnabled] *)
Context (UnsafeEnabled : bool).

(** [Reset], a nil dereference for a nil message. *)
Definition EchoRequest_Reset (x : option EchoRequest) : M EchoRequest :=
  _ ← deref x;
  Ok (if UnsafeEnabled then EchoRequest_StoreMessageInfo 0 new_EchoRequest else new_EchoRequest).
Definition EchoReply_Reset (x : option EchoReply) : M EchoReply :=
  _ ← deref x;
  Ok (if UnsafeEnabled then EchoReply_StoreMessageInfo 1 new_EchoReply else new_EchoReply).

(** [ProtoReflect], with the message after it. *)
Definition EchoRequest_ProtoReflect (x : option EchoRequest)
  : option EchoRequest * reflected EchoRequest :=
  match UnsafeEnabled, x with
  | true, Some m =>
      let m' := match EchoRequest_state m with
                | None => EchoRequest_StoreMessageInfo 0 m
                | Some _ => m
                end in
      (Some m', MessageStateOf m')
  | _, _ => (x, MessageOf 0 x)
  end.
Definition EchoReply_ProtoReflect (x : option EchoReply)
  : option EchoReply * reflected EchoReply :=
  match UnsafeEnabled, x with
  | true, Some m =>
      let m' := match EchoReply_state m with
                | None => EchoReply_StoreMessageInfo 1 m
                | Some _ => m
                end in
      (Some m', MessageStateOf m')
  | _, _ => (x, MessageOf 1 x)
  end.
End reflection.

(** The [MessageInfo] that a reflected message is interpreted with. *)
Definition reflected_info {A} (state : A -> option nat) (r : reflected A) : option nat :=
  match r with MessageStateOf x => state x | MessageOf mi _ => Some mi end.
End pb.

(** The tags of the fields of the structs, in order. *)
Definition EchoRequest_tags : list string :=
  ["bytes,1,opt,name=payload,proto3"; "fixed64,2,opt,name=flackeyness,proto3"].
Definition EchoReply_tags : list string :=
  ["bytes,1,opt,name=payload,proto3"; "bytes,2,opt,name=server_id,json=serverId,proto3";
   "bytes,3,opt,name=variant,proto3"].

(** ** The tables *)

Definition rawDesc : list Z :=
  [0x0a; 0x1f; 0x70; 0x6b; 0x67; 0x2f; 0x65; 0x63; 0x68; 0x6f; 0x73; 0x65; 0x72; 0x76; 0x65; 0x72;
   0x2f; 0x70; 0x72; 0x6f; 0x74; 0x6f; 0x2f; 0x65; 0x63; 0x68; 0x6f; 0x2e; 0x70; 0x72; 0x6f; 0x74;
   0x6f; 0x12; 0x04; 0x65; 0x63; 0x68; 0x6f; 0x22; 0x49; 0x0a; 0x0b; 0x45; 0x63; 0x68; 0x6f; 0x52;
   0x65; 0x71; 0x75; 0x65; 0x73; 0x74; 0x12; 0x18; 0x0a; 0x07; 0x70; 0x61; 0x79; 0x6c; 0x6f; 0x61;
   0x64; 0x18; 0x01; 0x20; 0x01; 0x28; 0x09; 0x52; 0x07; 0x70; 0x61; 0x79; 0x6c; 0x6f; 0x61; 0x64;
   0x12; 0x20; 0x0a; 0x0b; 0x66; 0x6c; 0x61; 0x63; 0x6b; 0x65; 0x79; 0x6e; 0x65; 0x73; 0x73; 0x18;
   0x02; 0x20; 0x01; 0x28; 0x01; 0x52; 0x0b; 0x66; 0x6c; 0x61; 0x63; 0x6b; 0x65; 0x79; 0x6e; 0x65;
   0x73; 0x73; 0x22; 0x5c; 0x0a; 0x09; 0x45; 0x63; 0x68; 0x6f; 0x52; 0x65; 0x70; 0x6c; 0x79; 0x12;
   0x18; 0x0a; 0x07; 0x70; 0x61; 0x79; 0x6c; 0x6f; 0x61; 0x64; 0x18; 0x01; 0x20; 0x01; 0x28; 0x09;
   0x52; 0x07; 0x70; 0x61; 0x79; 0x6c; 0x6f; 0x61; 0x64; 0x12; 0x1b; 0x0a; 0x09; 0x73; 0x65; 0x72;
   0x76; 0x65; 0x72; 0x5f; 0x69; 0x64; 0x18; 0x02; 0x20; 0x01; 0x28; 0x09; 0x52; 0x08; 0x73; 0x65;
   0x72; 0x76; 0x65; 0x72; 0x49; 0x64; 0x12; 0x18; 0x0a; 0x07; 0x76; 0x61; 0x72; 0x69; 0x61; 0x6e;
   0x74; 0x18; 0x03; 0x20; 0x01; 0x28; 0x09; 0x52; 0x07; 0x76; 0x61; 0x72; 0x69; 0x61; 0x6e; 0x74;
   0x32; 0x69; 0x0a; 0x04; 0x45; 0x63; 0x68; 0x6f; 0x12; 0x2c; 0x0a; 0x04; 0x45; 0x63; 0x68; 0x6f;
   0x12; 0x11; 0x2e; 0x65; 0x63; 0x68; 0x6f; 0x2e; 0x45; 0x63; 0x68; 0x6f; 0x52; 0x65; 0x71; 0x75;
   0x65; 0x73; 0x74; 0x1a; 0x0f; 0x2e; 0x65; 0x63; 0x68; 0x6f; 0x2e; 0x45; 0x63; 0x68; 0x6f; 0x52;
   0x65; 0x70; 0x6c; 0x79; 0x22; 0x00; 0x12; 0x33; 0x0a; 0x0b; 0x45; 0x63; 0x68; 0x6f; 0x50; 0x72;
   0x65; 0x6d; 0x69; 0x75; 0x6d; 0x12; 0x11; 0x2e; 0x65; 0x63; 0x68; 0x6f; 0x2e; 0x45; 0x63; 0x68;
   0x6f; 0x52; 0x65; 0x71; 0x75; 0x65; 0x73; 0x74; 0x1a; 0x0f; 0x2e; 0x65; 0x63; 0x68; 0x6f; 0x2e;
   0x45; 0x63; 0x68; 0x6f; 0x52; 0x65; 0x70; 0x6c; 0x79; 0x22; 0x00; 0x42; 0x2f; 0x5a; 0x2d; 0x67;
   0x69; 0x74; 0x68; 0x75; 0x62; 0x2e; 0x63; 0x6f; 0x6d; 0x2f; 0x76; 0x6f; 0x69; 0x61; 0x70; 0x70;
   0x2f; 0x67; 0x74; 0x63; 0x2f; 0x70; 0x6b; 0x67; 0x2f; 0x65; 0x63; 0x68; 0x6f; 0x73; 0x65; 0x72;
   0x76; 0x65; 0x72; 0x2f; 0x73; 0x72; 0x63; 0x2f; 0x65; 0x63; 0x68; 0x6f; 0x62; 0x06; 0x70; 0x72;
   0x6f; 0x74; 0x6f; 0x33]%Z.

(** The Go types behind the indexes, by the names of their messages. *)
Inductive goType := GoEchoRequest | GoEchoReply.

Definition goTypes : list goType := [GoEchoRequest; GoEchoReply].

Definition depIdxs : list nat := [0; 0; 1; 1; 2; 0; 0; 0; 0].

(** A field that the runtime reaches through an [Exporter], and the exporters of
    the two messages. *)
Inductive internal := InternalState | InternalSizeCache | InternalUnknownFields.

Definition EchoRequest_Exporter (i : Z) : option internal :=
  if decide (i = 0)%Z then Some InternalState
  else if decide (i = 1)%Z then Some InternalSizeCache
  else if decide (i = 2)%Z then Some InternalUnknownFields
  else None.
Definition EchoReply_Exporter (i : Z) : option internal :=
  if decide (i = 0)%Z then Some InternalState
  else if decide (i = 1)%Z then Some InternalSizeCache
  else if decide (i = 2)%Z then Some InternalUnknownFields
  else None.

Record MessageInfo := { MessageInfo_Exporter : option (Z -> option internal) }.

(** [make([]protoimpl.MessageInfo, 2)] *)
Definition msgTypes : list MessageInfo := replicate 2 {| MessageInfo_Exporter := None |}.

Record DescBuilder := {
  DescBuilder_GoPackagePath : string;
  DescBuilder_RawDescriptor : list Z;
  DescBuilder_NumEnums : nat;
  DescBuilder_NumMessages : nat;
  DescBuilder_NumExtensions : nat;
  DescBuilder_NumServices : nat
}.

Record TypeBuilder := {
  TypeBuilder_File : DescBuilder;
  TypeBuilder_GoTypes : list goType;
  TypeBuilder_DependencyIndexes : list nat;
  TypeBuilder_MessageInfos : list MessageInfo
}.

(** ** The package *)

Class ProtoImpl := {
  UnsafeEnabled : bool;
  FileDescriptor : Type;
  TypeBuilder_Build : TypeBuilder -> FileDescriptor;
  CompressGZIP : list Z -> list Z
}.

Section package.
Context `{ProtoImpl}.

(** The variables of the package. A nil slice is empty. *)
Record pkg := {
  pkg_File : option FileDescriptor;
  pkg_rawDesc : list Z;
  pkg_rawDescOnce : bool;
  pkg_rawDescData : list Z;
  pkg_msgTypes : list MessageInfo;
  pkg_goTypes : list goType;
  pkg_depIdxs : list nat
}.

Definition loaded : pkg :=
  {| pkg_File := None; pkg_rawDesc := rawDesc; pkg_rawDescOnce := false;
     pkg_rawDescData := rawDesc; pkg_msgTypes := msgTypes; pkg_goTypes := goTypes;
     pkg_depIdxs := depIdxs |}.

(** [file_pkg_echoserver_proto_echo_proto_rawDescGZIP] *)
Definition rawDescGZIP (p : pkg) : pkg * list Z :=
  let p' :=
    if pkg_rawDescOnce p then p
    else {| pkg_File := pkg_File p; pkg_rawDesc := pkg_rawDesc p; pkg_rawDescOnce := true;
            pkg_rawDescData := CompressGZIP (pkg_rawDescData p);
            pkg_msgTypes := pkg_msgTypes p; pkg_goTypes := pkg_goTypes p;
            pkg_depIdxs := pkg_depIdxs p |} in
  (p', pkg_rawDescData p').

(** [Descriptor] of the messages: the compressed descriptor and an index path. *)
Definition EchoRequest_Descriptor (p : pkg) : pkg * (list Z * list nat) :=
  let '(p', d) := rawDescGZIP p in (p', (d, [0])).
Definition EchoReply_Descriptor (p : pkg) : pkg * (list Z * list nat) :=
  let '(p', d) := rawDescGZIP p in (p', (d, [1])).

(** [file_pkg_echoserver_proto_echo_proto_init]: the exporters are set where
    the runtime cannot use unsafe pointers; an index out of range panics, but the
    table has its two entries. *)
Definition with_exporters (infos : list MessageInfo) : list MessageInfo :=
  if UnsafeEnabled then infos
  else <[1 := {| MessageInfo_Exporter := Some EchoReply_Exporter |}]>
         (<[0 := {| MessageInfo_Exporter := Some EchoRequest_Exporter |}]> infos).

Definition echo_builder (p : pkg) : TypeBuilder :=
  {| TypeBuilder_File :=
       {| DescBuilder_GoPackagePath :=
            "github.com/jlevesy/grpc-traffic-controller/pkg/echoserver/proto";
          DescBuilder_RawDescriptor := pkg_rawDesc p; DescBuilder_NumEnums := 0;
          DescBuilder_NumMessages := 2; DescBuilder_NumExtensions := 0;
          DescBuilder_NumServices := 1 |};
     TypeBuilder_GoTypes := pkg_goTypes p; TypeBuilder_DependencyIndexes := pkg_depIdxs p;
     TypeBuilder_MessageInfos := with_exporters (pkg_msgTypes p) |}.

Definition proto_init (p : pkg) : pkg :=
  match pkg_File p with
  | Some _ => p
  | None =>
      {| pkg_File := Some (TypeBuilder_Build (echo_builder p)); pkg_rawDesc := [];
         pkg_rawDescOnce := pkg_rawDescOnce p; pkg_rawDescData := pkg_rawDescData p;
         pkg_msgTypes := with_exporters (pkg_msgTypes p); pkg_goTypes := []; pkg_depIdxs := [] |}
  end.

(** Calls in any order, and what those of [Descriptor] return. *)
Inductive pkg_call := CallInit | CallRequestDescriptor | CallReplyDescriptor.

Definition pkg_step (p : pkg) (c : pkg_call) : pkg * list (list Z * list nat) :=
  match c with
  | CallInit => (proto_init p, [])
  | CallRequestDescriptor => let '(p', d) := EchoRequest_Descriptor p in (p', [d])
  | CallReplyDescriptor => let '(p', d) := EchoReply_Descriptor p in (p', [d])
  end.

Fixpoint pkg_run (cs : list pkg_call) (p : pkg) : pkg * list (list Z * list nat) :=
  match cs with
  | [] => (p, [])
  | c :: cs' =>
      let '(p1, out) := pkg_step p c in
      let '(p2, outs) := pkg_run cs' p1 in (p2, out ++ outs)
  end.
End package.

(** ** The wire format *)

Inductive wire := WVarint (v : Z) | WBytes (bs : list Z).

(** Seven bits per byte, low ones first. *)
Fixpoint read_varint (shift acc : Z) (bs : list Z) : option (Z * list Z) :=
  match bs with
  | [] => None
  | b :: rest =>
      let acc' := Z.lor acc (Z.shiftl (Z.land b 127) shift) in
      if (b <? 128)%Z then Some (acc', rest) else read_varint (shift + 7) acc' rest
  end.

(** The fields of a message; each takes at least one byte, so that its length
    is enough fuel. *)
Fixpoint read_fields (fuel : nat) (bs : list Z) : option (list (Z * wire)) :=
  match bs, fuel with
  | [], _ => Some []
  | _, 0 => None
  | _, S fuel' =>
      '(tag, rest) ← read_varint 0 0 bs;
      '(v, rest') ←
        (if decide (Z.land tag 7 = 0%Z) then
           '(v, rest') ← read_varint 0 0 rest; Some (WVarint v, rest')
         else if decide (Z.land tag 7 = 2%Z) then
           '(n, rest') ← read_varint 0 0 rest;
           if decide (Z.to_nat n <= length rest')
           then Some (WBytes (take (Z.to_nat n) rest'), drop (Z.to_nat n) rest') else None
         else None);
      fs ← read_fields fuel' rest';
      Some ((Z.shiftr tag 3, v) :: fs)
  end.

Definition message_fields (bs : list Z) : option (list (Z * wire)) := read_fields (length bs) bs.

Definition submessages (number : Z) (fs : list (Z * wire)) : list (list Z) :=
  omap (fun '(n, w) => match w with
                       | WBytes bs => if decide (n = number) then Some bs else None
                       | WVarint _ => None
                       end) fs.

Definition text (number : Z) (fs : list (Z * wire)) : string :=
  default "" (of_bytes <$> last (submessages number fs)).

Definition number_of (number : Z) (fs : list (Z * wire)) : Z :=
  default 0%Z (last (omap (fun '(n, w) => match w with
    | WVarint v => if decide (n = number) then Some v else None
    | WBytes _ => None
    end) fs)).

(** ** Descriptors: the fields of [descriptor.proto] that occur *)

Record FieldDesc := {
  FieldDesc_name : string;
  FieldDesc_number : Z;
  FieldDesc_label : Z;
  FieldDesc_type : Z;
  FieldDesc_json_name : string
}.
Record MessageDesc := { MessageDesc_name : string; MessageDesc_field : list FieldDesc }.
Record RpcDesc := { RpcDesc_name : string; RpcDesc_input : string; RpcDesc_output : string }.
Record RpcService := { RpcService_name : string; RpcService_method : list RpcDesc }.
Record FileDesc := {
  FileDesc_name : string;
  FileDesc_package : string;
  FileDesc_message : list MessageDesc;
  FileDesc_service : list RpcService;
  FileDesc_go_package : string;
  FileDesc_syntax : string
}.

Definition read_field (bs : list Z) : option FieldDesc :=
  fs ← message_fields bs;
  Some {| FieldDesc_name := text 1 fs; FieldDesc_number := number_of 3 fs;
          FieldDesc_label := number_of 4 fs; FieldDesc_type := number_of 5 fs;
          FieldDesc_json_name := text 10 fs |}.

Definition read_message (bs : list Z) : option MessageDesc :=
  fs ← message_fields bs;
  fields ← mapM read_field (submessages 2 fs);
  Some {| MessageDesc_name := text 1 fs; MessageDesc_field := fields |}.

Definition read_method (bs : list Z) : option RpcDesc :=
  fs ← message_fields bs;
  Some {| RpcDesc_name := text 1 fs; RpcDesc_input := text 2 fs; RpcDesc_output := text 3 fs |}.

Definition read_service (bs : list Z) : option RpcService :=
  fs ← message_fields bs;
  methods ← mapM read_method (submessages 2 fs);
  Some {| RpcService_name := text 1 fs; RpcService_method := methods |}.

Definition read_file (bs : list Z) : option FileDesc :=
  fs ← message_fields bs;
  messages ← mapM read_message (submessages 4 fs);
  services ← mapM read_service (submessages 6 fs);
  options ← message_fields (mjoin (submessages 8 fs));
  Some {| FileDesc_name := text 1 fs; FileDesc_package := text 2 fs;
          FileDesc_message := messages; FileDesc_service := services;
          FileDesc_go_package := text 11 options; FileDesc_syntax := text 12 fs |}.

(** [echo.proto]. The types of descriptor.proto: 1 is [double], 9 [string]; the
    label 1 is [optional]. *)
Definition TYPE_DOUBLE : Z := 1.
Definition TYPE_STRING : Z := 9.

Definition proto_field (name : string) (number typ : Z) (json : string) : FieldDesc :=
  {| FieldDesc_name := name; FieldDesc_number := number; FieldDesc_label := 1;
     FieldDesc_type := typ; FieldDesc_json_name := json |}.

Definition echo_proto : FileDesc :=
  {| FileDesc_name := "pkg/echoserver/proto/echo.proto";
     FileDesc_package := "echo";
     FileDesc_message :=
       [{| MessageDesc_name := "EchoRequest";
           MessageDesc_field := [proto_field "payload" 1 TYPE_STRING "payload";
                                 proto_field "flackeyness" 2 TYPE_DOUBLE "flackeyness"] |};
        {| MessageDesc_name := "EchoReply";
           MessageDesc_field := [proto_field "payload" 1 TYPE_STRING "payload";
                                 proto_field "server_id" 2 TYPE_STRING "serverId";
                                 proto_field "variant" 3 TYPE_STRING "variant"] |}];
     FileDesc_service :=
       [{| RpcService_name := "Echo";
           RpcService_method :=
             [{| RpcDesc_name := "Echo"; RpcDesc_input := ".echo.EchoRequest";
                 RpcDesc_output := ".echo.EchoReply" |};
              {| RpcDesc_name := "EchoPremium"; RpcDesc_input := ".echo.EchoRequest";
                 RpcDesc_output := ".echo.EchoReply" |}] |}];
     FileDesc_go_package := "github.com/voiapp/gtc/pkg/echoserver/src/echo";
     FileDesc_syntax := "proto3" |}.

(** ** What the tables say *)

(** A struct tag: wire type, number, label, then options. *)
Definition tag_option (key : string) (parts : list string) : option string :=
  head (omap (fun p => match strings_Cut "="%char p with
                       | Some (k, v) => if decide (k = key) then Some v else None
                       | None => None
                       end) parts).

Definition tag_field (tag : string) : option FieldDesc :=
  match strings_Split ","%char tag with
  | kind :: number :: label :: options =>
      n ← Atoi number;
      name ← tag_option "name" options;
      Some {| FieldDesc_name := name; FieldDesc_number := n;
              FieldDesc_label := (if decide (label = "opt") then 1 else 0)%Z;
              FieldDesc_type :=
                (if decide (kind = "bytes") then TYPE_STRING
                 else if decide (kind = "fixed64") then TYPE_DOUBLE else 0)%Z;
              FieldDesc_json_name := default name (tag_option "json" options) |}
  | _ => None
  end.

Definition goType_name (t : goType) : string :=
  match t with GoEchoRequest => ".echo.EchoRequest" | GoEchoReply => ".echo.EchoReply" end.

(** [TypeBuilder.DependencyIndexes] ends with the starts of its five lists, the
    last list first: outputs and inputs of methods, then three lists of fields
    and extensions. *)
Definition dependency_list (k : nat) (idxs : list nat) : list nat :=
  let starts := drop (length idxs - 5) idxs in
  let body := take (length idxs - 5) idxs in
  let start := nth k starts 0 in
  let stop := match k with 0 => length body | S j => nth j starts 0 end in
  take (stop - start) (drop start body).

Definition dependency_names (k : nat) (b : TypeBuilder) : list (option string) :=
  (fun i => goType_name <$> TypeBuilder_GoTypes b !! i)
  <$> dependency_list k (TypeBuilder_DependencyIndexes b).

(** A builder fits a descriptor. *)
Definition builder_fits (b : TypeBuilder) (f : FileDesc) : Prop :=
  let methods := FileDesc_service f ≫= RpcService_method in
  read_file (DescBuilder_RawDescriptor (TypeBuilder_File b)) = Some f /\
  DescBuilder_NumMessages (TypeBuilder_File b) = length (FileDesc_message f) /\
  DescBuilder_NumServices (TypeBuilder_File b) = length (FileDesc_service f) /\
  DescBuilder_NumEnums (TypeBuilder_File b) = 0 /\
  DescBuilder_NumExtensions (TypeBuilder_File b) = 0 /\
  length (TypeBuilder_MessageInfos b) = length (FileDesc_message f) /\
  (goType_name <$> TypeBuilder_GoTypes b)
    = ((fun m => "." +:+ FileDesc_package f +:+ "." +:+ MessageDesc_name m)
         <$> FileDesc_message f) /\
  dependency_names 1 b = ((fun r => Some (RpcDesc_input r)) <$> methods) /\
  dependency_names 0 b = ((fun r => Some (RpcDesc_output r)) <$> methods).

(** ** Lemmas *)

Section package_lemmas.
Context `{ProtoImpl}.

(** The compressed descriptor, whatever was called before. *)
Definition data_inv (p : pkg) : Prop :=
  pkg_rawDescData p = if pkg_rawDescOnce p then CompressGZIP rawDesc else rawDesc.

Lemma proto_init_inv p : data_inv p -> data_inv (proto_init p).
Proof. unfold proto_init, data_inv. by destruct (pkg_File p). Qed.

Lemma rawDescGZIP_spec p :
  data_inv p -> data_inv (rawDescGZIP p).1 /\ (rawDescGZIP p).2 = CompressGZIP rawDesc.
Proof.
  unfold rawDescGZIP, data_inv. destruct (pkg_rawDescOnce p) eqn:Ho; cbn.
  - rewrite Ho. by intros ->.
  - by intros ->.
Qed.

Lemma pkg_step_inv p c :
  data_inv p -> data_inv (pkg_step p c).1 /\
  Forall (fun d => d.1 = CompressGZIP rawDesc) (pkg_step p c).2.
Proof.
  intros Hp. destruct (rawDescGZIP_spec p Hp) as [Hi Hd].
  destruct c; unfold pkg_step, EchoRequest_Descriptor, EchoReply_Descriptor.
  - split; [by apply proto_init_inv|by apply Forall_nil_2].
  - destruct (rawDescGZIP p) as [p' d]. split; [done|by apply Forall_singleton].
  - destruct (rawDescGZIP p) as [p' d]. split; [done|by apply Forall_singleton].
Qed.

Lemma pkg_run_inv cs p :
  data_inv p -> data_inv (pkg_run cs p).1 /\
  Forall (fun d => d.1 = CompressGZIP rawDesc) (pkg_run cs p).2.
Proof.
  revert p. induction cs as [|c cs IH]; intros p Hp; cbn; [by split|].
  destruct (pkg_step_inv p c Hp) as [Hi Ho]. destruct (pkg_step p c) as [p1 out]. cbn in *.
  destruct (IH p1 Hi) as [Hi' Ho']. destruct (pkg_run cs p1) as [p2 outs]. cbn in *.
  split; [done|by apply Forall_app].
Qed.

(** The file is built once, from the tables of the package. *)
Definition file_inv (p : pkg) : Prop :=
  (pkg_File p = None /\ pkg_rawDesc p = rawDesc /\ pkg_goTypes p = goTypes /\
     pkg_depIdxs p = depIdxs /\ pkg_msgTypes p = msgTypes) \/
  pkg_File p = Some (TypeBuilder_Build (echo_builder loaded)).

Lemma pkg_step_file p c :
  file_inv p -> file_inv (pkg_step p c).1 /\
  (is_Some (pkg_File p) \/ c = CallInit -> pkg_File (pkg_step p c).1
     = Some (TypeBuilder_Build (echo_builder loaded))).
Proof.
  unfold file_inv. destruct c; cbn; unfold EchoRequest_Descriptor, EchoReply_Descriptor,
    rawDescGZIP, proto_init.
  - intros [(Hf & Hr & Hg & Hd & Hm)|Hf]; rewrite Hf; cbn; [|by split; [right|]].
    unfold echo_builder. rewrite Hr, Hg, Hd, Hm. split; [by right|done].
  - intros [(Hf & Hr & Hg & Hd & Hm)|Hf]; destruct (pkg_rawDescOnce p); cbn; rewrite Hf;
      (split; [naive_solver|]); intros [[? [=]]|[=]]; done.
  - intros [(Hf & Hr & Hg & Hd & Hm)|Hf]; destruct (pkg_rawDescOnce p); cbn; rewrite Hf;
      (split; [naive_solver|]); intros [[? [=]]|[=]]; done.
Qed.

Lemma pkg_run_file cs p :
  file_inv p -> file_inv (pkg_run cs p).1 /\
  (is_Some (pkg_File p) \/ CallInit ∈ cs -> pkg_File (pkg_run cs p).1
     = Some (TypeBuilder_Build (echo_builder loaded))).
Proof.
  revert p. induction cs as [|c cs IH]; intros p Hp; cbn.
  { split; [done|]. intros [[f Hf]|[]%elem_of_nil].
    destruct Hp as [[Hn _]|Hs]; congruence. }
  destruct (pkg_step_file p c Hp) as [Hi Hs]. destruct (pkg_step p c) as [p1 out]. cbn in *.
  destruct (IH p1 Hi) as [Hi' Hs']. destruct (pkg_run cs p1) as [p2 outs]. cbn in *.
  split; [done|]. intros [Hf|[Hc|Hc]%elem_of_cons]; apply Hs'; [left..|by right].
  - rewrite Hs by by left. done.
  - rewrite Hs by by right. done.
Qed.

Lemma loaded_fits : builder_fits (echo_builder loaded) echo_proto.
Proof.
  repeat split; try (vm_compute; reflexivity). unfold echo_builder, with_exporters. cbn.
  by destruct UnsafeEnabled.
Qed.
End package_lemmas.

(** ** Properties *)

(** C36: the generated tables describe [echo.proto] and the Go code. Whatever
    is called in whatever order, once [init] has run the file of the package is
    the one that the runtime built from the tables, although [init] drops them,
    and every [Descriptor] gives the compressed bytes of the descriptor. These
    bytes decode to [echo.proto]; the numbers of messages and services, the Go
    types and the dependency indexes that are handed to the builder fit it,
    method by method; the tags of the Go structs are its fields, with their
    numbers, types and names; and the service that the stubs register has its
    full name and its methods in order. *)
Theorem generated_code_fits_proto `{ProtoImpl} (cs : list pkg_call) :
  pkg_File (pkg_run (CallInit :: cs) loaded).1 = Some (TypeBuilder_Build (echo_builder loaded)) /\
  Forall (fun d => d.1 = CompressGZIP rawDesc) (pkg_run cs loaded).2 /\
  builder_fits (echo_builder loaded) echo_proto /\
  (mapM tag_field <$> [EchoRequest_tags; EchoReply_tags])
    = ((fun m => Some (MessageDesc_field m)) <$> FileDesc_message echo_proto) /\
  ((fun s => (FileDesc_package echo_proto +:+ "." +:+ RpcService_name s,
              RpcDesc_name <$> RpcService_method s)) <$> FileDesc_service echo_proto)
    = [(ServiceDesc_ServiceName Echo_ServiceDesc,
        MethodDesc_MethodName <$> ServiceDesc_Methods Echo_ServiceDesc)].
Proof.
  split; [apply pkg_run_file; [by left|right; by left]|].
  split; [by apply pkg_run_inv|]. split; [apply loaded_fits|].
  split; vm_compute; reflexivity.
Qed.

(** Whatever information a message carried, after [Reset] it reflects as its own
    type: the entry of [msgTypes] has the index that the type has in [goTypes].
    A message without information gets it from [ProtoReflect], and a nil message
    reflects without being touched. *)
Theorem reset_reflects_own_type `{ProtoImpl} (x : pb.EchoRequest) (y : pb.EchoReply) :
  exists x' y',
    pb.EchoRequest_Reset UnsafeEnabled (Some x) = Ok x' /\
    pb.EchoReply_Reset UnsafeEnabled (Some y) = Ok y' /\
    (pb.reflected_info pb.EchoRequest_state (pb.EchoRequest_ProtoReflect UnsafeEnabled (Some x')).2
       ≫= (fun i => goTypes !! i)) = Some GoEchoRequest /\
    (pb.reflected_info pb.EchoReply_state (pb.EchoReply_ProtoReflect UnsafeEnabled (Some y')).2
       ≫= (fun i => goTypes !! i)) = Some GoEchoReply /\
    pb.EchoRequest_ProtoReflect UnsafeEnabled None = (None, pb.MessageOf 0 None) /\
    pb.EchoReply_ProtoReflect UnsafeEnabled None = (None, pb.MessageOf 1 None).
Proof. by destruct UnsafeEnabled; eexists _, _. Qed.
