(* ===== verification/Examples.v ===== *)
(** The example programs of [example/cmd]: the echo client and the echo server.

    The client is an interaction tree, because with a period it never ends. Its
    events are what it asks of the outside: to dial, to wait for the ticker, to
    call a stub, to log, and to exit. A world answers the events, and [run]
    gives the actions of the process in order. *)

From S2P Require Import Prelude GoStrings GoPath GoStrconv GoQuote GoFlags Api Errors EchoServer.
From Stdlib Require Import Ascii SpecFloat.
From ITree Require Import ITree.

Local Notation "'let!' x := t 'in' k" := (ITree.bind t (fun x => k))
  (at level 10, x name, t at level 200, k at level 200).

(** ** The server *)

(** [1.0] *)
Definition float_one : float64 := S754_finite false 4503599627370496 (-52).

Definition Internal : Z := 13.

Inductive server_line :=
  | ReceivedRequest (payload : string) (flackeyness : float64)
  | ReceivedPremium (payload : string)
  | FailingCall.

Section server.
(** The source of [rand.Float64]. *)
Context {Rand : Type} (rand_Float64 : Rand -> Rand * float64).

(** The random source and the log of the process. *)
Abbreviation server_state := (Rand * list server_line)%type.

(** [req.Flackeyness > 0.0 && rand.Float64() < req.Flackeyness] *)
Definition flackey (req : EchoRequest) (src : Rand) : Rand * bool :=
  if SFltb float_zero (EchoRequest_Flackeyness req) then
    let '(src', r) := rand_Float64 src in (src', SFltb r (EchoRequest_Flackeyness req))
  else (src, false).

(** [EchoFunc] and [EchoPremiumFunc] *)
Definition example_func (m : method) (hostName : string) (req : EchoRequest) (st : server_state)
  : server_state * M EchoReply :=
  let '(src, lines) := st in
  let line := match m with
              | MethodEcho => ReceivedRequest (EchoRequest_Payload req) (EchoRequest_Flackeyness req)
              | MethodEchoPremium => ReceivedPremium (EchoRequest_Payload req)
              end in
  let '(src', fails) := flackey req src in
  if (fails : bool) then
    ((src', lines ++ [line; FailingCall]), Err (statusError Internal "flackey call"))
  else
    ((src', lines ++ [line]),
     Ok {| EchoReply_Payload := EchoRequest_Payload req; EchoReply_ServerId := hostName;
           EchoReply_Variant := variant m |}).

(** [&echoserver.Server{EchoFunc: ..., EchoPremiumFunc: ...}] *)
Definition example_server (hostName : string) : EchoServer server_state :=
  {| es_Echo := example_func MethodEcho hostName;
     es_EchoPremium := example_func MethodEchoPremium hostName |}.

(** [main]: [grpc.NewServer], [RegisterService] and [Serve] are grpc-go's. *)
Context {GrpcServer : Type} (grpc_NewServer : GrpcServer)
  (grpc_RegisterService : ServiceDesc -> EchoServer server_state -> GrpcServer -> GrpcServer)
  (grpc_Serve : GrpcServer -> option error)
  (os_Hostname : string + error) (net_Listen : string -> unit + error).

Definition RegisterEchoServer (srv : EchoServer server_state) (s : GrpcServer) : GrpcServer :=
  grpc_RegisterService Echo_ServiceDesc srv s.

Definition server_flags : gmap string (flag string) :=
  {[ "bind-address" := StringVar (fun v _ => v) ]}.

(** How the process ends: with [log.Fatal] before it serves, or after it logged
    a line and served on an address. *)
Inductive server_end :=
  | ServerUsage (status : Z)
  | ServerFatal (text : string)
  | ServerServed (address logged : string) (srv : GrpcServer) (err : option error).

Definition server_main (args : list string) : server_end :=
  match Parse server_flags args ":3333" with
  | Exited status => ServerUsage status
  | Parsed bindAddress _ =>
      match os_Hostname with
      | inl hostName =>
          match net_Listen bindAddress with
          | inl _ =>
              let srv := RegisterEchoServer (example_server hostName) grpc_NewServer in
              ServerServed bindAddress "Server listening on 0.0.0.0:3333" srv (grpc_Serve srv)
          | inr _ => ServerFatal ("Can't bind to addr" +:+ bindAddress)
          end
      | inr _ => ServerFatal "Could not read hostname"
      end
  end.
End server.

(** ** The client *)

(** [type metadataArgs map[string]string]: [Set] and [String]; [range] is the
    order of the iteration over the map. *)
Definition metadataArgs_Set `{PrintTables} (v : string) (h : gmap string string)
  : M (gmap string string) :=
  match strings_Split equals v with
  | [k; x] => Ok (<[k := x]> h)
  | _ => Err (errorString ("malformed argument " +:+ strconv_Quote v))
  end.

Definition metadataArgs_String (range : gmap string string -> list (string * string))
    (h : gmap string string) : string :=
  foldl (fun sb kv => sb +:+ kv.1 +:+ "=" +:+ kv.2) "" (range h).

(** The variables of [main]. *)
Record client_vars := {
  client_addr : string;
  client_period : Z;
  client_premium : bool;
  client_flackeyness : float64;
  client_meta : gmap string string
}.

Definition client_defaults : client_vars :=
  {| client_addr := "localhost:3333"; client_period := 0; client_premium := false;
     client_flackeyness := float_zero; client_meta := ∅ |}.

(** The parsers of durations and floats, and what [metadata.New] makes of a map. *)
Class ClientLibrary := {
  time_ParseDuration : string -> option Z;
  strconv_ParseFloat : string -> option float64;
  metadata_New : gmap string string -> gmap string (list string)
}.

Inductive client_line :=
  | CallingServer (flackeyness : float64)
  | UnableToSend (err : error) (code : Z)
  | ReceivedResponse (serverId payload variant : string).

(** [status.Code], on the errors that a stub returns. *)
Definition Unknown : Z := 2.
Definition status_Code (err : error) : Z :=
  match err with statusError code _ => code | _ => Unknown end.

(** What the client asks for; after [Fatal] and [Raise] nothing follows. *)
Variant clientE : Type -> Type :=
  | Dial (addr : string) : clientE (option error)
  | NewTicker (period : Z) : clientE unit
  | Tick : clientE unit
  | CallStub (m : method) (md : gmap string (list string)) (req : EchoRequest)
      : clientE (M EchoReply)
  | Log (line : client_line) : clientE unit
  | Fatal (text : string) (err : option error) : clientE void
  | Raise (p : panic_reason) : clientE void.

Definition never {A} (e : clientE void) : itree clientE A :=
  ITree.bind (ITree.trigger e) (fun v : void => match v with end).

Section client.
Context `{ClientLibrary, PrintTables}.

Definition client_flags : gmap string (flag client_vars) :=
  {[ "addr" := StringVar (fun v st =>
       {| client_addr := v; client_period := client_period st; client_premium := client_premium st;
          client_flackeyness := client_flackeyness st; client_meta := client_meta st |});
     "period" := ParsedVar time_ParseDuration (fun v st =>
       {| client_addr := client_addr st; client_period := v; client_premium := client_premium st;
          client_flackeyness := client_flackeyness st; client_meta := client_meta st |});
     "premium" := BoolVar (fun v st =>
       {| client_addr := client_addr st; client_period := client_period st; client_premium := v;
          client_flackeyness := client_flackeyness st; client_meta := client_meta st |});
     "flackeyness" := ParsedVar strconv_ParseFloat (fun v st =>
       {| client_addr := client_addr st; client_period := client_period st;
          client_premium := client_premium st; client_flackeyness := v;
          client_meta := client_meta st |});
     "metadata" := Var (fun v st =>
       match metadataArgs_Set v (client_meta st) with
       | Ok meta =>
           Some {| client_addr := client_addr st; client_period := client_period st;
                   client_premium := client_premium st;
                   client_flackeyness := client_flackeyness st; client_meta := meta |}
       | _ => None
       end) ]}.

(** The request and the method of the callback. *)
Definition client_method (st : client_vars) : method :=
  if client_premium st then MethodEchoPremium else MethodEcho.
Definition client_request (st : client_vars) (message : string) : EchoRequest :=
  {| EchoRequest_Payload := message; EchoRequest_Flackeyness := client_flackeyness st |}.

(** The callback of [main]. *)
Definition client_callback (st : client_vars) (message : string) : itree clientE unit :=
  let! _ := ITree.trigger (Log (CallingServer (client_flackeyness st))) in
  let! r := ITree.trigger (CallStub (client_method st) (metadata_New (client_meta st))
                             (client_request st message)) in
  match r with
  | Ok resp => ITree.trigger (Log (ReceivedResponse (EchoReply_ServerId resp)
                                     (EchoReply_Payload resp) (EchoReply_Variant resp)))
  | Err err => ITree.trigger (Log (UnableToSend err (status_Code err)))
  | Panic p => never (Raise p)
  end.

(** [oneShot] and [repeated]; [time.NewTicker] panics for a period that is not
    positive. *)
Definition oneShot (callback : itree clientE unit) : itree clientE unit := callback.

Definition repeated (period : Z) (callback : itree clientE unit) : itree clientE unit :=
  if (period <=? 0)%Z then never (Raise (PanicValue "non-positive interval for NewTicker"))
  else
    let! _ := ITree.trigger (NewTicker period) in
    ITree.forever (let! _ := ITree.trigger Tick in callback).

(** [main] after the flags. *)
Definition client_body (st : client_vars) (args : list string) : itree clientE unit :=
  match args with
  | [message] =>
      let! err := ITree.trigger (Dial (client_addr st)) in
      match err with
      | Some e => never (Fatal "Unable to dial: " (Some e))
      | None =>
          let callPolicy :=
            if decide (client_period st <> 0%Z) then repeated (client_period st) else oneShot in
          callPolicy (client_callback st message)
      end
  | _ => never (Fatal "Must provide a message" None)
  end.

Definition client_main (args : list string) : Z + itree clientE unit :=
  match Parse client_flags args client_defaults with
  | Exited status => inl status
  | Parsed st rest => inr (client_body st rest)
  end.
End client.

(** ** Runs *)

(** An event without its answer. *)
Inductive action :=
  | ADial (addr : string)
  | ANewTicker (period : Z)
  | ATick
  | ACall (m : method) (md : gmap string (list string)) (req : EchoRequest)
  | ALog (line : client_line)
  | AFatal (text : string) (err : option error)
  | ARaise (p : panic_reason).

Definition action_of {A} (e : clientE A) : action :=
  match e with
  | Dial addr => ADial addr
  | NewTicker period => ANewTicker period
  | Tick => ATick
  | CallStub m md req => ACall m md req
  | Log line => ALog line
  | Fatal text err => AFatal text err
  | Raise p => ARaise p
  end.

Inductive ending := Returned | Ended | Running.

Section runs.
(** The world answers an event, or none follows. *)
Context {W : Type} (world : forall A, clientE A -> W -> option (W * A)).

Fixpoint run_client (fuel : nat) (t : itree clientE unit) (w : W) : list action * ending :=
  match fuel with
  | 0 => ([], Running)
  | S fuel' =>
      match observe t with
      | RetF _ => ([], Returned)
      | TauF t' => run_client fuel' t' w
      | VisF e k =>
          match world _ e w with
          | None => ([action_of e], Ended)
          | Some (w', a) =>
              let '(tr, s) := run_client fuel' (k a) w' in (action_of e :: tr, s)
          end
      end
  end.

(** The world does not stop the client: it can dial, the ticker ticks, and a call
    returns a reply or an error. *)
Record obliging : Prop := {
  dial_answers addr w : exists w', world _ (Dial addr) w = Some (w', None);
  ticker_answers p w : exists w', world _ (NewTicker p) w = Some (w', tt);
  tick_answers w : exists w', world _ Tick w = Some (w', tt);
  log_answers line w : exists w', world _ (Log line) w = Some (w', tt);
  call_answers m md req w :
    exists w' r, world _ (CallStub m md req) w = Some (w', r) /\ no_panic r;
  raise_stops p w : world _ (Raise p) w = None
}.

(** ** Lemmas on runs *)

Lemma run_observe fuel t t' w :
  observe t = observe t' -> run_client fuel t w = run_client fuel t' w.
Proof. intros Ht. destruct fuel; cbn; [done|]. by rewrite Ht. Qed.

(** The rest of a run after some actions. *)
Definition after (tr : list action) (rest : list action * ending) : list action * ending :=
  (tr ++ rest.1, rest.2).

Lemma after_app tr1 tr2 rest : after (tr1 ++ tr2) rest = after tr1 (after tr2 rest).
Proof. unfold after. cbn. by rewrite app_assoc. Qed.

Lemma run_vis {A} fuel t (e : clientE A) k t' w w' a :
  observe t = VisF e k -> world _ e w = Some (w', a) -> observe (k a) = observe t' ->
  run_client (S fuel) t w = after [action_of e] (run_client fuel t' w').
Proof.
  intros Ht Hw Hk. cbn. rewrite Ht, Hw, (run_observe fuel _ t') by done.
  by destruct (run_client fuel t' w').
Qed.

Lemma after_cons a tr rest : after (a :: tr) rest = after [a] (after tr rest).
Proof. done. Qed.

(** The first action of a run, and the rest of it. *)
Lemma run_first {A} fuel t (e : clientE A) k w w' a rest :
  world _ e w = Some (w', a) -> observe t = VisF e k -> run_client fuel (k a) w' = rest ->
  run_client (S fuel) t w = after [action_of e] rest.
Proof. intros Hw Ht <-. by apply (run_vis fuel t e k (k a) w w' a). Qed.

Lemma run_stop {A} fuel t (e : clientE A) k w :
  observe t = VisF e k -> world _ e w = None -> run_client (S fuel) t w = ([action_of e], Ended).
Proof. intros Ht Hw. cbn. by rewrite Ht, Hw. Qed.

Lemma run_running fuel1 fuel2 t w :
  (run_client fuel1 t w).2 = Running -> fuel2 <= fuel1 -> (run_client fuel2 t w).2 = Running.
Proof.
  revert fuel2 t w. induction fuel1 as [|fuel1 IH]; intros [|fuel2] t w Hr Hle; [done|lia|done|].
  cbn in *. destruct (observe t) as [|t'|A e k]; [done|apply IH; [done|lia]|].
  destruct (world A e w) as [[w' a]|]; [|done].
  specialize (IH fuel2 (k a) w'). destruct (run_client fuel1 (k a) w').
  destruct (run_client fuel2 (k a) w'). cbn in *. apply IH; [done|lia].
Qed.

Section policies.
Context `{ClientLibrary} (Hobl : obliging) (st : client_vars) (message : string).

(** What is logged about the result of a call. *)
Definition said (r : M EchoReply) : client_line :=
  match r with
  | Ok resp => ReceivedResponse (EchoReply_ServerId resp) (EchoReply_Payload resp)
                 (EchoReply_Variant resp)
  | Err err => UnableToSend err (status_Code err)
  | Panic _ => UnableToSend (errorString "") Unknown
  end.

(** The actions of the callback, and those of a tick. *)
Definition called (r : M EchoReply) : list action :=
  [ALog (CallingServer (client_flackeyness st));
   ACall (client_method st) (metadata_New (client_meta st)) (client_request st message);
   ALog (said r)].
Definition ticked (r : M EchoReply) : list action := ATick :: called r.

(** The callback, followed by [K]. *)
Lemma run_callback (K : unit -> itree clientE unit) w :
  exists w' r, no_panic r /\ forall fuel,
    run_client (3 + fuel) (ITree.bind (client_callback st message) K) w
    = after (called r) (run_client fuel (K tt) w').
Proof.
  destruct (log_answers Hobl (CallingServer (client_flackeyness st)) w) as [w1 H1].
  destruct (call_answers Hobl (client_method st) (metadata_New (client_meta st))
              (client_request st message) w1) as (w2 & r & H2 & Hr).
  destruct (log_answers Hobl (said r) w2) as [w3 H3].
  exists w3, r. split; [done|]. intros fuel.
  unfold called. rewrite after_cons, (after_cons _ [_]).
  
  eapply (run_first _ _ (Log _)); [exact H1|cbn; reflexivity|].
  eapply (run_first _ _ (CallStub _ _ _)); [exact H2|cbn; reflexivity|].
  destruct r as [resp|err|p]; [..|done]; by (eapply (run_vis _ _ (Log _)); [cbn; reflexivity|exact H3|]).
Qed.

(** The callback alone. *)
Lemma run_callback_once w :
  exists w1 w' r, no_panic r /\
    world _ (Log (CallingServer (client_flackeyness st))) w = Some (w1, tt) /\
    world _ (CallStub (client_method st) (metadata_New (client_meta st))
               (client_request st message)) w1 = Some (w', r) /\
    forall fuel, run_client (4 + fuel) (client_callback st message) w = (called r, Returned).
Proof.
  destruct (log_answers Hobl (CallingServer (client_flackeyness st)) w) as [w1 H1].
  destruct (call_answers Hobl (client_method st) (metadata_New (client_meta st))
              (client_request st message) w1) as (w2 & r & H2 & Hr).
  destruct (log_answers Hobl (said r) w2) as [w3 H3].
  exists w1, w2, r. split_and!; [done..|]. intros fuel.
  change (called r, Returned) with (after (called r) ([], Returned)).
  unfold called. rewrite after_cons, (after_cons _ [_]).
  eapply (run_first _ _ (Log _)); [exact H1|cbn; reflexivity|].
  eapply (run_first _ _ (CallStub _ _ _)); [exact H2|cbn; reflexivity|].
  destruct r as [resp|err|p]; [..|done];
    by (eapply (run_first _ _ (Log _)); [exact H3|cbn; reflexivity|]).
Qed.

Definition ticking : itree clientE unit :=
  ITree.forever (let! _ := ITree.trigger Tick in client_callback st message).

(** A cycle takes five steps: the tick, the three actions and the jump back. *)
Lemma run_cycle w :
  exists w' r, no_panic r /\ forall fuel,
    run_client (5 + fuel) ticking w = after (ticked r) (run_client fuel ticking w').
Proof.
  destruct (tick_answers Hobl w) as [w1 H1].
  destruct (run_callback (fun _ => Tau ticking) w1) as (w2 & r & Hr & Hrun).
  exists w2, r. split; [done|]. intros fuel.
  change (5 + fuel) with (S (3 + S fuel)).
  unfold ticked. rewrite after_cons. eapply (run_first _ _ Tick); [exact H1|cbn; reflexivity|].
  rewrite (run_observe _ _ (ITree.bind (client_callback st message) (fun _ => Tau ticking)))
    by reflexivity.
  by rewrite Hrun.
Qed.

Lemma run_cycles n w :
  exists w' rs, length rs = n /\ Forall no_panic rs /\ forall fuel,
    run_client (5 * n + fuel) ticking w = after (rs ≫= ticked) (run_client fuel ticking w').
Proof.
  revert w. induction n as [|n IH]; intros w.
  - exists w, []. split; [done|]. split; [by apply Forall_nil_2|]. intros fuel. cbn -[run_client].
    by destruct (run_client fuel ticking w).
  - destruct (run_cycle w) as (w1 & r & Hr & H1). destruct (IH w1) as (w2 & rs & Hl & Hrs & H2).
    exists w2, (r :: rs). split; [cbn; by rewrite Hl|]. split; [by apply Forall_cons_2|].
    intros fuel. replace (5 * S n + fuel) with (5 + (5 * n + fuel)) by lia.
    rewrite H1, H2. change ((r :: rs) ≫= ticked) with (ticked r ++ (rs ≫= ticked)).
    by rewrite after_app.
Qed.

(** The three ways [main] goes after it has dialled. *)
Lemma body_once :
  client_period st = 0%Z -> forall w,
  exists w0 w1 w' r, no_panic r /\
    world _ (Dial (client_addr st)) w = Some (w0, None) /\
    world _ (Log (CallingServer (client_flackeyness st))) w0 = Some (w1, tt) /\
    world _ (CallStub (client_method st) (metadata_New (client_meta st))
               (client_request st message)) w1 = Some (w', r) /\
    forall fuel, run_client (5 + fuel) (client_body st [message]) w
      = (ADial (client_addr st) :: called r, Returned).
Proof.
  intros Hp w. destruct (dial_answers Hobl (client_addr st) w) as [w0 H0].
  destruct (run_callback_once w0) as (w1 & w2 & r & Hr & H1 & H2 & Hrun).
  exists w0, w1, w2, r. split_and!; [done..|]. intros fuel.
  change (_ :: called r, Returned) with (after [ADial (client_addr st)] (called r, Returned)).
  eapply (run_first _ _ (Dial _)); [exact H0|cbn; reflexivity|].
  rewrite <-(Hrun fuel). apply run_observe. cbn. rewrite Hp. reflexivity.
Qed.

Lemma body_repeated :
  (0 < client_period st)%Z -> forall w n,
  exists rs, length rs = n /\ Forall no_panic rs /\
    run_client (2 + 5 * n) (client_body st [message]) w
    = (ADial (client_addr st) :: ANewTicker (client_period st) :: (rs ≫= ticked), Running).
Proof.
  intros Hp w n. destruct (dial_answers Hobl (client_addr st) w) as [w0 H0].
  destruct (ticker_answers Hobl (client_period st) w0) as [w1 H1].
  destruct (run_cycles n w1) as (w2 & rs & Hl & Hrs & Hrun).
  exists rs. split_and!; [done..|]. specialize (Hrun 0). rewrite Nat.add_0_r in Hrun.
  transitivity (after [ADial (client_addr st)]
    (after [ANewTicker (client_period st)] (run_client (5 * n) ticking w1))).
  2: { rewrite Hrun. unfold after. cbn [fst snd app run_client]. by rewrite app_nil_r. }
  eapply (run_first _ _ (Dial _)); [exact H0|cbn; reflexivity|].
  eapply (run_vis _ _ (NewTicker _)); [|exact H1|].
  - cbn. rewrite decide_True by lia. unfold repeated.
    destruct (Z.leb_spec (client_period st) 0); [lia|]. cbn. reflexivity.
  - reflexivity.
Qed.

Lemma body_negative :
  (client_period st < 0)%Z -> forall w fuel,
  run_client (2 + fuel) (client_body st [message]) w
  = ([ADial (client_addr st); ARaise (PanicValue "non-positive interval for NewTicker")], Ended).
Proof.
  intros Hp w fuel. destruct (dial_answers Hobl (client_addr st) w) as [w0 H0].
  transitivity (after [ADial (client_addr st)]
    ([ARaise (PanicValue "non-positive interval for NewTicker")], Ended)); [|done].
  eapply (run_first _ _ (Dial _)); [exact H0|cbn; reflexivity|].
  eapply (run_stop _ _ (Raise _)); [|apply (raise_stops Hobl)].
  cbn. rewrite decide_True by lia. unfold repeated.
  destruct (Z.leb_spec (client_period st) 0); [|lia]. cbn. reflexivity.
Qed.
End policies.
End runs.

(** ** A client connected to the server *)

(** A connection that dispatches on the full name of a method, as grpc-go does
    with the descriptor of a service. *)
Definition connect {St} (srv : EchoServer St) (fullMethod : string) (req : EchoRequest) (st : St)
  : St * M EchoReply :=
  let named d := bool_decide
    ("/" +:+ ServiceDesc_ServiceName Echo_ServiceDesc +:+ "/" +:+ MethodDesc_MethodName d
     = fullMethod) in
  match List.find named (ServiceDesc_Methods Echo_ServiceDesc) with
  | Some d => MethodDesc_Handler d St srv (Ok req) None st
  | None => (st, Err (statusError Unimplemented "unknown method"))
  end.

(** The world of a client whose connection reaches a server: the client calls
    its stubs, and the server does not panic. *)
Definition connected {St} (srv : EchoServer St) : forall A, clientE A -> St -> option (St * A) :=
  fun A e st =>
    match e with
    | Dial _ => Some (st, None)
    | NewTicker _ | Tick | Log _ => Some (st, tt)
    | CallStub MethodEcho _ req => Some (echoClient_Echo (connect srv) req st)
    | CallStub MethodEchoPremium _ req => Some (echoClient_EchoPremium (connect srv) req st)
    | Fatal _ _ | Raise _ => None
    end.

Definition never_panics {St} (srv : EchoServer St) : Prop :=
  forall req st, no_panic (es_Echo srv req st).2 /\ no_panic (es_EchoPremium srv req st).2.

(** A stub reaches the method of its name. *)
Lemma connect_stubs {St} (srv : EchoServer St) req st :
  echoClient_Echo (connect srv) req st = es_Echo srv req st /\
  echoClient_EchoPremium (connect srv) req st = es_EchoPremium srv req st.
Proof. split; reflexivity. Qed.

Lemma connected_obliging {St} (srv : EchoServer St) :
  never_panics srv -> obliging (connected srv).
Proof.
  intros Hsrv. split; try (intros; eexists; reflexivity).
  intros m md req w. destruct (Hsrv req w) as [H1 H2].
  destruct (connect_stubs srv req w) as [Hc1 Hc2].
  destruct m; cbn [connected]; rewrite ?Hc1, ?Hc2.
  - destruct (es_Echo srv req w) as [w' r]. by exists w', r.
  - destruct (es_EchoPremium srv req w) as [w' r]. by exists w', r.
Qed.

(** ** Flackeyness *)

(** The order on numbers, around a positive one. *)
Lemma SFltb_SFleb p x r f :
  SFltb r (S754_finite false p x) = true -> SFleb (S754_finite false p x) f = true ->
  SFltb r f = true.
Proof.
  unfold SFltb, SFleb, SFcompare. change (PosDef.Pos.compare_cont Eq) with Pos.compare.
  destruct f as [s|[]| |[] m e]; try done; destruct r as [?|[]| |[] mr er]; try done.
  destruct (Z.compare_spec er x), (Z.compare_spec x e); try done; intros Hr Hf;
    destruct (Z.compare_spec er e); try done; try lia; subst.
  destruct (Pos.compare_spec mr p); try done. destruct (Pos.compare_spec p m); try done;
    destruct (Pos.compare_spec mr m); try done; lia.
Qed.

Section session.
Context {Rand : Type} (rand_Float64 : Rand -> Rand * float64) (hostName : string).

Lemma example_never_panics : never_panics (example_server rand_Float64 hostName).
Proof.
  intros req [src lines]. cbn. unfold example_func.
  destruct (flackey rand_Float64 req src) as [src' []]; by cbn.
Qed.

(** What a call returns: a failure exactly when the random number says so. *)
Lemma example_result m req src lines :
  (example_func rand_Float64 m hostName req (src, lines)).2
  = if (flackey rand_Float64 req src).2 then Err (statusError Internal "flackey call")
    else Ok (reply hostName m req).
Proof. unfold example_func. by destruct (flackey rand_Float64 req src) as [src' []]. Qed.

Lemma connected_call m md req st w' r :
  connected (example_server rand_Float64 hostName) _ (CallStub m md req) st = Some (w', r) ->
  r = (example_func rand_Float64 m hostName req st).2.
Proof.
  destruct (connect_stubs (example_server rand_Float64 hostName) req st) as [H1 H2].
  destruct m; cbn [connected]; rewrite ?H1, ?H2; cbn [es_Echo es_EchoPremium example_server];
    intros Heq; by injection Heq as ->.
Qed.
End session.

(** ** Properties *)

(** A metadata argument of the example client is accepted exactly when it
    has one equals sign, and then the text before it is set to the text after
    it; a value that contains an equals sign is refused. *)
Theorem metadataArgs_Set_spec `{PrintTables} v h h' :
  metadataArgs_Set v h = Ok h' <->
  exists k x, v = k +:+ "=" +:+ x /\ str_mem equals k = false /\ str_mem equals x = false /\
    h' = <[k := x]> h.
Proof.
  unfold metadataArgs_Set. split.
  - destruct (strings_Cut equals v) as [[k b]|] eqn:Hv;
      [|apply strings_Cut_None in Hv; by rewrite strings_Split_no_sep].
    apply strings_Cut_Some in Hv as [-> Hk]. rewrite strings_Split_app by done.
    destruct (strings_Cut equals b) as [[x b']|] eqn:Hb.
    + apply strings_Cut_Some in Hb as [-> Hx]. rewrite strings_Split_app by done.
      pose proof (strings_Split_nonempty equals b'). by destruct (strings_Split equals b').
    + apply strings_Cut_None in Hb. rewrite strings_Split_no_sep by done.
      intros [= <-]. by exists k, b.
  - intros (k & x & -> & Hk & Hx & ->). change ("=" +:+ x) with (String equals x).
    by rewrite strings_Split_app, strings_Split_no_sep by done.
Qed.

(** C38: the pace of the example client, in a world that lets it dial and answers
    its calls. Without a period it makes one call, says what came of it and
    returns. With a positive period it never returns, and for every number n it
    comes to have made n calls, each one after its own tick, with the same
    method, metadata and request. With a negative period it panics before the
    first call. *)
Theorem client_paces_calls `{ClientLibrary, PrintTables} {W}
    (world : forall A, clientE A -> W -> option (W * A)) args st message w :
  obliging world ->
  Parse client_flags args client_defaults = Parsed st [message] ->
  exists t, client_main args = inr t /\
  (client_period st = 0%Z ->
     exists r, no_panic r /\ forall fuel,
       run_client world (5 + fuel) t w
       = (ADial (client_addr st) :: called st message r, Returned)) /\
  ((0 < client_period st)%Z ->
     (forall fuel, (run_client world fuel t w).2 = Running) /\
     forall n, exists rs, length rs = n /\ Forall no_panic rs /\
       run_client world (2 + 5 * n) t w
       = (ADial (client_addr st) :: ANewTicker (client_period st) :: (rs ≫= ticked st message),
          Running)) /\
  ((client_period st < 0)%Z -> forall fuel,
     run_client world (2 + fuel) t w
     = ([ADial (client_addr st); ARaise (PanicValue "non-positive interval for NewTicker")], Ended)).
Proof.
  intros Hobl Hparse. exists (client_body st [message]). unfold client_main. rewrite Hparse.
  split; [done|]. split_and!.
  - intros Hp. destruct (body_once world Hobl st message Hp w) as (_ & _ & _ & r & Hr & _ & _ & _ & Hrun).
    by exists r.
  - intros Hp. split.
    + intros fuel. destruct (body_repeated world Hobl st message Hp w fuel) as (rs & _ & _ & Hrun).
      apply (run_running world (2 + 5 * fuel)); [by rewrite Hrun|lia].
    + by apply body_repeated.
  - intros Hp fuel. by apply body_negative.
Qed.

(** The example client and the example server, connected through the
    generated stubs. A client without a period whose flackeyness is not positive
    (a NaN is not) logs the reply of the server it called: its host name, the
    message as it was given, and the variant of the method that the flag
    [premium] chooses. With a flackeyness of one or more it logs the failure
    with the code [Internal], whatever the random numbers below one. *)
Theorem example_session `{ClientLibrary, PrintTables} {Rand} (rand_Float64 : Rand -> Rand * float64)
    hostName st message src lines :
  client_period st = 0%Z ->
  let trace line :=
    [ADial (client_addr st); ALog (CallingServer (client_flackeyness st));
     ACall (client_method st) (metadata_New (client_meta st)) (client_request st message);
     ALog line] in
  let run := run_client (connected (example_server rand_Float64 hostName)) 5
               (client_body st [message]) (src, lines) in
  (SFltb float_zero (client_flackeyness st) = false ->
     run = (trace (ReceivedResponse hostName message (variant (client_method st))), Returned)) /\
  (SFleb float_one (client_flackeyness st) = true ->
   (forall s, SFltb (rand_Float64 s).2 float_one = true) ->
     run = (trace (UnableToSend (statusError Internal "flackey call") Internal), Returned)).
Proof.
  intros Hp. cbn zeta.
  destruct (body_once _ (connected_obliging _ (example_never_panics rand_Float64 hostName))
    st message Hp (src, lines)) as (w0 & w1 & w' & r & _ & Hd & Hl & Hcall & Hrun).
  injection Hd as <-. injection Hl as <-. specialize (Hrun 0). cbn [Nat.add] in Hrun.
  rewrite Hrun. clear Hrun.
  apply connected_call in Hcall as ->. unfold called. rewrite example_result. unfold flackey.
  split.
  - cbn [client_request EchoRequest_Flackeyness]. by intros ->.
  - cbn [client_request EchoRequest_Flackeyness]. intros Hf Hr.
    destruct (SFltb float_zero (client_flackeyness st)) eqn:Hz.
    + specialize (Hr src). destruct (rand_Float64 src) as [src' x]. cbn in *.
      by rewrite (SFltb_SFleb _ _ _ _ Hr Hf).
    + assert (SFltb float_zero float_one = true) as Hone by reflexivity.
      by rewrite (SFltb_SFleb _ _ _ _ Hone Hf) in Hz.
Qed.

(** The server says that it listens on 0.0.0.0:3333 on every address. *)
Example server_logs_default_address {G} (new : G) reg serve :
  @server_main unit (fun _ => (tt, float_zero)) G new reg serve (inl "host") (fun _ => inl tt)
    ["-bind-address=127.0.0.1:9000"]
  = ServerServed "127.0.0.1:9000" "Server listening on 0.0.0.0:3333"
      (reg Echo_ServiceDesc (example_server (fun _ => (tt, float_zero)) "host") new)
      (serve (reg Echo_ServiceDesc (example_server (fun _ => (tt, float_zero)) "host") new)).
Proof. reflexivity. Qed.

(** ** Witnesses *)

(** Durations and floats of one digit, for evaluation. *)
Definition sample_library : ClientLibrary :=
  {| time_ParseDuration s :=
       if decide (s = "1s") then Some 1000000000%Z
       else if decide (s = "-1s") then Some (-1000000000)%Z else None;
     strconv_ParseFloat s :=
       if decide (s = "0") then Some float_zero
       else if decide (s = "1") then Some float_one else None;
     metadata_New m := (fun v => [v]) <$> m |}.

(** A source whose numbers are all zero. *)
Definition zeros (s : unit) : unit * float64 := (tt, float_zero).

Lemma client_paces_calls_witness :
  exists t st,
    @client_main sample_library latin1_tables
      ["-period"; "1s"; "-metadata"; "user=a"; "-premium"; "hello"] = inr t /\
    client_period st = 1000000000%Z /\ client_premium st = true /\
    client_meta st = {[ "user" := "a" ]} /\
    forall n, exists rs, length rs = n /\
      run_client (connected (example_server zeros "host")) (2 + 5 * n) t (tt, [])
      = (ADial "localhost:3333" :: ANewTicker 1000000000 ::
         (rs ≫= @ticked sample_library st "hello"), Running).
Proof.
  destruct (@client_paces_calls sample_library latin1_tables _
    (connected (example_server zeros "host"))
    ["-period"; "1s"; "-metadata"; "user=a"; "-premium"; "hello"]
    {| client_addr := "localhost:3333"; client_period := 1000000000; client_premium := true;
       client_flackeyness := float_zero; client_meta := {[ "user" := "a" ]} |} "hello" (tt, [])
    (connected_obliging _ (example_never_panics zeros "host")) eq_refl)
    as (t & Ht & _ & Hpos & _).
  exists t, {| client_addr := "localhost:3333"; client_period := 1000000000;
               client_premium := true; client_flackeyness := float_zero;
               client_meta := {[ "user" := "a" ]} |}.
  split; [exact Ht|]. split; [reflexivity|]. split; [reflexivity|]. split; [reflexivity|].
  intros n. destruct (proj2 (Hpos eq_refl) n) as (rs & Hl & _ & Hrun).
  exists rs. split; [exact Hl|exact Hrun].
Defined.

Lemma example_session_witness :
  let st := {| client_addr := "localhost:3333"; client_period := 0; client_premium := true;
               client_flackeyness := float_zero; client_meta := ∅ |} in
  (run_client (connected (example_server zeros "host")) 5
     (@client_body sample_library st ["hello"]) (tt, [])).1
  = [ADial "localhost:3333"; ALog (CallingServer float_zero);
     ACall MethodEchoPremium ∅ {| EchoRequest_Payload := "hello"; EchoRequest_Flackeyness := float_zero |};
     ALog (ReceivedResponse "host" "hello" "premium")].
Proof.
  intros st. by rewrite (proj1 (@example_session sample_library latin1_tables unit zeros "host" st
    "hello" tt [] eq_refl) eq_refl).
Defined.
