(* ===== verification/TestAssert.v ===== *)
(** The calls and assertions of the end-to-end tests
    ([pkg/testruntime/assert.go]).

    A test action works on a [testing.T], the clock and the connection under
    test. It may end the test: [require] and [Fatal] stop it, [assert] only marks
    it failed. The gRPC connection, the text and the code of an error and
    [InDelta] of testify are parameters; [range] is the order in which Go
    iterates over a map, which may be any. *)

From S2P Require Import Prelude GoStrings GoPath GoStrconv Api Errors EchoServer.

(** ** Test actions *)

(** [*testing.T], and the time. *)
Record T := { T_failed : bool; T_now : Z }.

Inductive ended := Continue | FailNow | Panicked (p : panic_reason).

(** [t.Fail()] and [t.Errorf] *)
Definition T_Fail (t : T) : T := {| T_failed := true; T_now := T_now t |}.

(** [assert.Equal] and the like: mark the test failed when [ok] is false. *)
Definition assert_that (ok : bool) (t : T) : T := if ok then t else T_Fail t.

(** [require.NoError] and the like, and [t.Fatal]: also stop the test. *)
Definition require_that (ok : bool) (t : T) : T * ended :=
  if ok then (t, Continue) else (T_Fail t, FailNow).

(** A loop of checks, left when one of them stops the test. *)
Fixpoint each {A S} (f : A -> S -> S * ended) (l : list A) (s : S) : S * ended :=
  match l with
  | [] => (s, Continue)
  | x :: l =>
      match f x s with
      | (s', Continue) => each f l s'
      | r => r
      end
  end.

(** [strings.Contains] *)
Fixpoint strings_Contains (s substr : string) : bool :=
  strings_HasPrefix s substr ||
  match s with
  | EmptyString => false
  | String _ s => strings_Contains s substr
  end.

(** ** Calls *)

(** [type call struct] *)
Record call := {
  call_addr : string;
  call_backendID : string;
  call_err : option error
}.

Definition nanoseconds_10s : Z := 10000000000.

Section callers.
Context {Ctx MD : Type} (Background : Ctx) (metadata_New : gmap string string -> MD)
        (NewOutgoingContext : Ctx -> MD -> Ctx).

(** [type Caller struct] *)
Record Caller := {
  Caller_m : method;
  Caller_req : EchoRequest;
  Caller_ctx : Ctx;
  Caller_timeout : Z
}.

(** [type CallerOpt func(c *Caller)] *)
Definition WithTimeout (d : Z) (c : Caller) : Caller :=
  {| Caller_m := Caller_m c; Caller_req := Caller_req c; Caller_ctx := Caller_ctx c;
     Caller_timeout := d |}.
Definition WithContext (ctx : Ctx) (c : Caller) : Caller :=
  {| Caller_m := Caller_m c; Caller_req := Caller_req c; Caller_ctx := ctx;
     Caller_timeout := Caller_timeout c |}.
Definition WithMetadata (meta : gmap string string) : Caller -> Caller :=
  WithContext (NewOutgoingContext Background (metadata_New meta)).

Definition BuildCaller (m : method) (opts : list (Caller -> Caller)) : Caller :=
  foldl (fun c opt => opt c)
    {| Caller_m := m;
       Caller_req := {| EchoRequest_Payload := "Hello There!";
                        EchoRequest_Flackeyness := float_zero |};
       Caller_ctx := Background; Caller_timeout := nanoseconds_10s |} opts.
End callers.
Arguments Caller : clear implicits.

(** The connection under test: a call with a context and a timeout, at a time. *)
Class Connection (Ctx St : Type) := {
  conn_call : method -> Ctx -> Z -> EchoRequest -> Z -> St -> Z * St * M EchoReply
}.

Section asserts.
Context {Ctx St : Type} `{!Connection Ctx St}.

(** [type CallContext struct], with the state of its connection. *)
Record CallContext := { CallContext_addr : string; CallContext_client : St }.

Abbreviation world := (T * CallContext)%type.
Abbreviation test := (world -> world * ended).

(** [MultiAssert] *)
Definition MultiAssert (asserts : list test) : test := each id asserts.

Definition advance (d : Z) (t : T) : T :=
  {| T_failed := T_failed t; T_now := (T_now t + Z.max 0 d)%Z |}.

(** [Wait]: [time.Sleep] returns at once when the duration is not positive. *)
Definition Wait (d : Z) : test := fun '(t, c) => ((advance d t, c), Continue).

(** [ExceedDelay] and [WithinDelay] *)
Definition ExceedDelay (d : Z) (a : test) : test := fun w =>
  let start := T_now w.1 in
  match a w with
  | ((t, c), Continue) =>
      let '(t', e) := require_that (negb (T_now t - start <=? d)%Z) t in ((t', c), e)
  | r => r
  end.
Definition WithinDelay (d : Z) (a : test) : test := fun w =>
  let start := T_now w.1 in
  match a w with
  | ((t, c), Continue) =>
      let '(t', e) := require_that (negb (T_now t - start >? d)%Z) t in ((t', c), e)
  | r => r
  end.

(** [func (c *Caller) Do] *)
Definition Caller_Do (caller : Caller Ctx) (now : Z) (st : St) : Z * St * M EchoReply :=
  conn_call (Caller_m caller) (Caller_ctx caller) (Caller_timeout caller) (Caller_req caller)
    now st.

(** What one iteration records of a call; a panic of the connection unwinds. *)
Definition record_call (addr : string) (r : M EchoReply) : call + panic_reason :=
  match r with
  | Ok resp => inl {| call_addr := addr; call_backendID := EchoReply_ServerId resp;
                      call_err := None |}
  | Err e => inl {| call_addr := addr; call_backendID := ""; call_err := Some e |}
  | Panic p => inr p
  end.

Definition no_call : call := {| call_addr := ""; call_backendID := ""; call_err := None |}.

(** The calls of [CallN] and [CallNParallel]: slots of the slice [calls], in the
    order in which the connection serves them. *)
Fixpoint fill (caller : Caller Ctx) (order : list nat) (calls : list call) (t : T)
    (c : CallContext) : list call * world * ended :=
  match order with
  | [] => (calls, (t, c), Continue)
  | i :: order =>
      let '(now, st, r) := Caller_Do caller (T_now t) (CallContext_client c) in
      let t' := {| T_failed := T_failed t; T_now := now |} in
      let c' := {| CallContext_addr := CallContext_addr c; CallContext_client := st |} in
      match record_call (CallContext_addr c) r with
      | inl k => fill caller order (<[i := k]> calls) t' c'
      | inr p => (calls, (t', c'), Panicked p)
      end
  end.

(** [type CallsAssertion func(t *testing.T, calls []call)] *)
Abbreviation CallsAssertion := (list call -> T -> T * ended).

(** The body of [CallN] and [CallNParallel]: [make] panics on a negative length. *)
Definition calls_in_order (caller : Caller Ctx) (count : Z) (order : list nat)
    (assertions : list CallsAssertion) : test := fun '(t, c) =>
  if (count <? 0)%Z then ((t, c), Panicked (PanicValue "makeslice: len out of range"))
  else
    match fill caller order (replicate (Z.to_nat count) no_call) t c with
    | (calls, (t', c'), Continue) =>
        let '(t2, e) := each (fun a => a calls) assertions t' in ((t2, c'), e)
    | (_, w, e) => (w, e)
    end.

Definition CallN (caller : Caller Ctx) (count : Z) (assertions : list CallsAssertion) : test :=
  calls_in_order caller count (seq 0 (Z.to_nat count)) assertions.

Definition CallOnce (caller : Caller Ctx) (assertions : list CallsAssertion) : test :=
  CallN caller 1 assertions.

(** The goroutines of [CallNParallel] are served in any order; none of them
    returns an error, so [group.Wait] returns nil. *)
Definition CallNParallel (order : list nat) (caller : Caller Ctx) (count : Z)
    (assertions : list CallsAssertion) : test :=
  calls_in_order caller count order assertions.
End asserts.

(** ** Assertions on calls *)

Definition succeeded (c : call) : bool :=
  match call_err c with None => true | Some _ => false end.

Definition NoCallErrors (calls : list call) : T -> T * ended :=
  each (fun c => require_that (succeeded c)) calls.
Definition MustFail (calls : list call) : T -> T * ended :=
  each (fun c => require_that (negb (succeeded c))) calls.

(** [agg[key] += 1] *)
Definition increment (key : string) (agg : gmap string Z) : gmap string Z :=
  <[key := (default 0 (agg !! key) + 1)%Z]> agg.

Section aggregated.
Context (status_Code : option error -> Z) (error_Error : error -> string)
        (range : gmap string Z -> list (string * Z)).

Definition MustFailWithCode (wantCode : Z) (calls : list call) (t : T) : T * ended :=
  each (fun c t => (assert_that (bool_decide (status_Code (call_err c) = wantCode)) t, Continue))
    calls t.

(** [type AggregatedCallAssertion func(t *testing.T, counts map[string]int)] *)
Abbreviation AggregatedCallAssertion := (gmap string Z -> T -> T * ended).

Definition error_key (c : call) : string :=
  match call_err c with None => "ok" | Some e => error_Error e end.

(** The maps that the two aggregations build. *)
Definition by_error (calls : list call) : gmap string Z :=
  foldl (fun agg c => increment (error_key c) agg) ∅ calls.
Definition by_backend (calls : list call) : gmap string Z :=
  foldl (fun agg c => match call_err c with
                      | Some _ => agg
                      | None => increment (call_backendID c) agg
                      end) ∅ calls.

Definition AggregateByError (asserts : list AggregatedCallAssertion) (calls : list call)
  : T -> T * ended := each (fun a => a (by_error calls)) asserts.
Definition CountByBackendID (asserts : list AggregatedCallAssertion) (calls : list call)
  : T -> T * ended := each (fun a => a (by_backend calls)) asserts.

(** [DumpCounts] only logs. *)
Definition DumpCounts : AggregatedCallAssertion := fun _ t => (t, Continue).

(** Reading a missing key of a map gives 0. *)
Definition AssertCount (backendID : string) (wantCount : Z) : AggregatedCallAssertion :=
  fun aggs t =>
    (assert_that (bool_decide (wantCount = default 0%Z (aggs !! backendID))) t, Continue).

Definition AssertOneBackendGotAllCalls (wantCount : Z) : AggregatedCallAssertion :=
  fun aggs t =>
    let '(gotAll, t') :=
      foldl (fun '(gotAll, t) '(_, gotCount) =>
        if decide (gotCount = wantCount)
        then (true, if gotAll : bool then T_Fail t else t)
        else (gotAll, assert_that (bool_decide (0 = gotCount)%Z) t)) (false, t) (range aggs) in
    (assert_that gotAll t', Continue).

Definition AssertAggregatedValuePartial (partial : string) (wantCount : Z)
  : AggregatedCallAssertion :=
  fun aggs t =>
    let matchCount :=
      foldl (fun n '(k, v) => if strings_Contains k partial then (n + v)%Z else n) 0%Z
        (range aggs) in
    (assert_that (bool_decide (wantCount = matchCount)) t, Continue).

Definition AssertCountWithinDelta {float} (InDelta : Z -> Z -> float -> bool)
    (backendID : string) (wantCount : Z) (delta : float) : AggregatedCallAssertion :=
  fun aggs t =>
    (assert_that (InDelta wantCount (default 0%Z (aggs !! backendID)) delta) t, Continue).

(** ** Counting *)

Lemma filter_all_eq {A} (P : A -> Prop) `{!forall x, Decision (P x)} (l : list A) :
  (forall x, x ∈ l -> P x) -> filter P l = l.
Proof.
  induction l as [|x l IH]; intros Hp; [done|]. rewrite filter_cons, decide_True by (apply Hp; set_solver).
  f_equal. apply IH. set_solver.
Qed.

Definition occurrences (f : call -> option string) (calls : list call) (key : string) : Z :=
  Z.of_nat (length (filter (fun c => f c = Some key) calls)).

(** Both aggregations count, for each key, the calls that have it. *)
Definition counts (f : call -> option string) (calls : list call) : gmap string Z :=
  foldl (fun agg c => match f c with Some k => increment k agg | None => agg end) ∅ calls.

Lemma counts_lookup_from f calls agg key :
  (forall k v, agg !! k = Some v -> (0 < v)%Z) ->
  let agg' := foldl (fun agg c => match f c with Some k => increment k agg | None => agg end)
                agg calls in
  (forall k v, agg' !! k = Some v -> (0 < v)%Z) /\
  default 0%Z (agg' !! key) = (default 0 (agg !! key) + occurrences f calls key)%Z.
Proof.
  cbn zeta. revert agg. induction calls as [|c calls IH]; intros agg Hpos; cbn.
  { split; [done|]. unfold occurrences. cbn. lia. }
  unfold occurrences. rewrite filter_cons. destruct (f c) as [k|] eqn:Hf.
  - destruct (IH (increment k agg)) as [Hp Hd].
    { unfold increment. intros k' v'. rewrite lookup_insert_Some. intros [[<- <-]|[_ Hk]]; [|eauto].
      destruct (agg !! k) as [v|] eqn:Hv; cbn; [|lia]. apply Hpos in Hv. lia. }
    split; [done|]. rewrite Hd. unfold increment, occurrences.
    destruct (decide (k = key)) as [->|Hne].
    + rewrite lookup_insert_eq, decide_True by done. cbn. lia.
    + rewrite lookup_insert_ne, decide_False by congruence. lia.
  - rewrite decide_False by congruence. by apply IH.
Qed.

Lemma empty_positive k v : (∅ : gmap string Z) !! k = Some v -> (0 < v)%Z.
Proof. by rewrite lookup_empty. Qed.

Lemma counts_positive f calls k v : counts f calls !! k = Some v -> (0 < v)%Z.
Proof. apply (counts_lookup_from f calls ∅ k empty_positive). Qed.

Lemma counts_total f calls key : default 0%Z (counts f calls !! key) = occurrences f calls key.
Proof.
  unfold counts. by rewrite (proj2 (counts_lookup_from f calls ∅ key empty_positive)).
Qed.

Lemma occurrences_perm f l1 l2 key : l1 ≡ₚ l2 -> occurrences f l1 key = occurrences f l2 key.
Proof. intros Hp. unfold occurrences. by rewrite Hp. Qed.

Lemma counts_perm f l1 l2 : l1 ≡ₚ l2 -> counts f l1 = counts f l2.
Proof.
  intros Hp. apply map_eq. intros k.
  pose proof (counts_total f l1 k) as H1. pose proof (counts_total f l2 k) as H2.
  rewrite (occurrences_perm f l1 l2 k Hp), <- H2 in H1.
  destruct (counts f l1 !! k) as [v1|] eqn:E1, (counts f l2 !! k) as [v2|] eqn:E2; cbn in H1;
    try apply counts_positive in E1; try apply counts_positive in E2; first [congruence|lia].
Qed.

Definition backend_key (c : call) : option string :=
  match call_err c with Some _ => None | None => Some (call_backendID c) end.

Lemma by_error_counts calls : by_error calls = counts (fun c => Some (error_key c)) calls.
Proof. done. Qed.
Lemma by_backend_counts calls : by_backend calls = counts backend_key calls.
Proof.
  unfold by_backend, counts. generalize (∅ : gmap string Z). induction calls as [|c calls IH];
    intros agg; [done|]. cbn. rewrite IH. unfold backend_key. by destruct (call_err c).
Qed.

(** ** Maps in any order *)

Context (range_map : forall m, range m ≡ₚ map_to_list m).

Definition hits (want : Z) (l : list (string * Z)) : nat :=
  length (filter (fun kv => kv.2 = want) l).

Lemma one_backend_fold want l gotAll t :
  let r := foldl (fun '(gotAll, t) '(_, gotCount) =>
        if decide (gotCount = want) then (true, if gotAll : bool then T_Fail t else t)
        else (gotAll, assert_that (bool_decide (0 = gotCount)%Z) t)) (gotAll, t)
        (l : list (string * Z)) in
  r.1 = gotAll || (0 <? hits want l) /\
  (T_failed r.2 = false <-> T_failed t = false /\
     hits want l + (if gotAll then 1 else 0) <= 1 /\
     Forall (fun kv => kv.2 = want \/ kv.2 = 0%Z) l).
Proof.
  cbn zeta. revert gotAll t. induction l as [|[k v] l IH]; intros gotAll t; cbn [foldl].
  { split; [by destruct gotAll|]. split; [|by intros [? _]]. intros Hf. split; [done|].
    split; [unfold hits; cbn; destruct gotAll; lia|constructor]. }
  unfold hits. rewrite filter_cons, Forall_cons. cbn [snd].
  destruct (decide (v = want)) as [->|Hne].
  - destruct (IH true (if gotAll then T_Fail t else t)) as [-> ->]. cbn [length].
    split; [by destruct gotAll|]. fold (hits want l).
    destruct gotAll; cbn; [split; [by intros [? _]|lia]|].
    split; intros (? & ? & ?); (split; [done|]); (split; [lia|]); tauto.
  - destruct (IH gotAll (assert_that (bool_decide (0 = v)%Z) t)) as [-> ->]. split; [done|].
    fold (hits want l). destruct (decide (0 = v)%Z) as [<-|Hv].
    + rewrite bool_decide_true by done. cbn. tauto.
    + rewrite bool_decide_false by done. cbn. split; [by intros [? _]|].
      intros (_ & _ & [[?|?] _]); congruence.
Qed.

Lemma singleton_map (m : gmap string Z) want :
  (0 < want)%Z -> (forall k v, m !! k = Some v -> (0 < v)%Z) ->
  hits want (range m) = 1 /\ Forall (fun kv => kv.2 = want \/ kv.2 = 0%Z) (range m) <->
  exists k, m = {[k := want]}.
Proof using range_map.
  intros Hw Hpos. unfold hits. rewrite (range_map m). split.
  - intros [Hh Hall].
    assert (filter (fun kv => kv.2 = want) (map_to_list m) = map_to_list m) as Hf.
    { apply filter_all_eq. intros [k v] Hin. rewrite Forall_forall in Hall.
      destruct (Hall _ Hin) as [?|Hz]; [done|]. apply elem_of_map_to_list, Hpos in Hin.
      cbn in Hz. lia. }
    rewrite Hf in Hh. destruct (map_to_list m) as [|[k v] [|]] eqn:Hm; try done.
    exists k. rewrite <- (list_to_map_to_list m), Hm. cbn.
    rewrite Forall_singleton in Hall. destruct Hall as [<-|Hz]; [done|].
    assert ((k, v) ∈ map_to_list m) as Hin by (rewrite Hm; constructor).
    apply elem_of_map_to_list, Hpos in Hin. cbn in Hz. lia.
  - intros [k ->]. rewrite map_to_list_singleton. rewrite filter_cons, decide_True by done.
    cbn. split; [done|]. rewrite Forall_singleton. by left.
Qed.

(** The backends of the calls that succeeded, in order. *)
Definition backends_of (calls : list call) : list string := omap backend_key calls.

Lemma occurrences_backends calls k :
  occurrences backend_key calls k = Z.of_nat (length (filter (fun id => id = k) (backends_of calls))).
Proof.
  unfold occurrences, backends_of. induction calls as [|c calls IH]; [done|].
  rewrite filter_cons. cbn [omap list_omap]. destruct (backend_key c) as [id|] eqn:Hk.
  - rewrite filter_cons. destruct (decide (id = k)) as [->|Hne].
    + rewrite !decide_True by done. cbn [length]. lia.
    + rewrite !decide_False by congruence. done.
  - by rewrite decide_False.
Qed.

Lemma by_backend_singleton calls id n :
  0 < n -> by_backend calls = {[id := Z.of_nat n]} <-> backends_of calls = replicate n id.
Proof.
  intros Hn. rewrite by_backend_counts. split.
  - intros Hm. assert (forall k, k ∈ backends_of calls -> k = id) as Hall.
    { intros k Hk. destruct (decide (k = id)) as [|Hne]; [done|].
      pose proof (counts_total backend_key calls k) as Ht. rewrite occurrences_backends, Hm in Ht.
      rewrite lookup_singleton_ne in Ht by done. cbn in Ht.
      assert (k ∈ filter (fun id => id = k) (backends_of calls)) as Hin
        by (by apply list_elem_of_filter).
      destruct (filter _ _); [by apply elem_of_nil in Hin|cbn in Ht; lia]. }
    pose proof (counts_total backend_key calls id) as Ht. rewrite occurrences_backends, Hm in Ht.
    rewrite lookup_singleton_eq, filter_all_eq in Ht by done. cbn in Ht.
    symmetry. apply replicate_as_elem_of. split; [lia|done].
  - intros Hb. apply map_eq. intros k.
    pose proof (counts_total backend_key calls k) as Ht. rewrite occurrences_backends, Hb in Ht.
    destruct (decide (k = id)) as [->|Hne].
    + rewrite filter_all_eq, length_replicate in Ht by (by intros x [-> _]%elem_of_replicate).
      rewrite lookup_singleton_eq. destruct (counts _ _ !! id); cbn in Ht; [by f_equal|lia].
    + rewrite lookup_singleton_ne by done.
      destruct (counts backend_key calls !! k) as [v|] eqn:Hv; [|done].
      assert (filter (fun id' => id' = k) (replicate n id) = []) as Hnil.
      { destruct (filter _ _) as [|x l] eqn:Hf; [done|].
        assert (x ∈ filter (fun id' => id' = k) (replicate n id)) as Hx
          by (rewrite Hf; constructor).
        apply list_elem_of_filter in Hx as [-> [-> _]%elem_of_replicate]. done. }
      apply counts_positive in Hv. cbn in Ht. rewrite Hnil in Ht. cbn in Ht. lia.
Qed.

(** C0: [CountByBackendID(AssertOneBackendGotAllCalls(n))] says what its comment
    says, whatever the order in which Go iterates over the counts: for a
    positive [n] it leaves the test as it was exactly when the calls that
    succeeded are [n], all answered by one backend; it never stops the test. *)
Theorem one_backend_got_all_calls n calls t :
  0 < n ->
  let r := CountByBackendID [AssertOneBackendGotAllCalls (Z.of_nat n)] calls t in
  r.2 = Continue /\
  (T_failed r.1 = false <->
   T_failed t = false /\ exists id, backends_of calls = replicate n id).
Proof using range_map.
  intros Hn. cbn zeta. unfold CountByBackendID, AssertOneBackendGotAllCalls. cbn [each].
  pose proof (one_backend_fold (Z.of_nat n) (range (by_backend calls)) false t) as [H1 H2].
  destruct (foldl _ _ _) as [gotAll t']. cbn [fst snd] in *. split; [done|]. cbn [fst].
  assert (forall k v, by_backend calls !! k = Some v -> (0 < v)%Z) as Hpos
    by (rewrite by_backend_counts; apply counts_positive).
  pose proof (singleton_map (by_backend calls) (Z.of_nat n) ltac:(lia) Hpos) as Hs.
  transitivity (T_failed t = false /\ exists k, by_backend calls = {[k := Z.of_nat n]}).
  - rewrite <- Hs, H1. destruct (hits _ _) as [|h]; cbn; [split; [done|]; lia|]. rewrite H2. cbn.
    split; intros (? & ? & ?); split_and!; try done; lia.
  - split; intros [Hf [k Hk]]; (split; [done|]); exists k; by apply by_backend_singleton.
Qed.

(** ** The number of calls of a kind *)

Definition weight (partial k : string) (v : Z) : Z := if strings_Contains k partial then v else 0%Z.

Definition match_sum (partial : string) (l : list (string * Z)) : Z :=
  foldr (fun kv n => (weight partial kv.1 kv.2 + n)%Z) 0%Z l.

Lemma match_sum_perm partial l1 l2 : l1 ≡ₚ l2 -> match_sum partial l1 = match_sum partial l2.
Proof. unfold match_sum. induction 1; cbn; lia. Qed.

Lemma match_sum_foldl partial l acc :
  foldl (fun n '(k, v) => if strings_Contains k partial then (n + v)%Z else n) acc l
  = (acc + match_sum partial l)%Z.
Proof.
  unfold match_sum, weight. revert acc. induction l as [|[k v] l IH]; intros acc; cbn; [lia|].
  rewrite IH. destruct (strings_Contains k partial); lia.
Qed.

Lemma match_sum_increment partial k m :
  match_sum partial (map_to_list (increment k m))
  = (match_sum partial (map_to_list m) + weight partial k 1)%Z.
Proof.
  unfold increment. rewrite <- insert_delete_eq.
  rewrite (match_sum_perm _ _ _ (map_to_list_insert _ _ _ (lookup_delete_eq _ _))). cbn.
  destruct (m !! k) as [v|] eqn:Hk; cbn.
  - rewrite <- (match_sum_perm partial _ _ (map_to_list_delete m k v Hk)). cbn.
    unfold match_sum, weight. destruct (strings_Contains k partial); lia.
  - rewrite delete_id, Z.add_0_l by done. unfold match_sum. lia.
Qed.

(** The calls whose key contains a text. *)
Definition matching (partial : string) (calls : list call) : list call :=
  filter (fun c => strings_Contains (error_key c) partial = true) calls.

Lemma match_sum_by_error partial calls agg :
  match_sum partial (map_to_list (foldl (fun agg c => increment (error_key c) agg) agg calls))
  = (match_sum partial (map_to_list agg) + Z.of_nat (length (matching partial calls)))%Z.
Proof.
  unfold matching. revert agg. induction calls as [|c calls IH]; intros agg; cbn [foldl].
  { cbn. lia. }
  rewrite IH, match_sum_increment, filter_cons. unfold weight.
  destruct (strings_Contains (error_key c) partial).
  - rewrite decide_True by done. cbn [length]. lia.
  - rewrite decide_False by done. lia.
Qed.

(** C0: [AggregateByError(AssertAggregatedValuePartial(partial, n))] leaves the
    test as it was exactly when [n] calls have a key that contains [partial],
    the key of a call being the text of its error, or "ok". *)
Theorem aggregated_value_partial partial n calls t :
  let r := AggregateByError [AssertAggregatedValuePartial partial n] calls t in
  r.2 = Continue /\
  (T_failed r.1 = false <->
   T_failed t = false /\ n = Z.of_nat (length (matching partial calls))).
Proof using range_map.
  cbn. rewrite match_sum_foldl, (match_sum_perm _ _ _ (range_map _)). unfold by_error.
  rewrite match_sum_by_error, map_to_list_empty. cbn. split; [done|].
  unfold assert_that. case_bool_decide; cbn; intuition (done || lia).
Qed.
End aggregated.

(** ** Assertions that do not depend on the order of the calls *)

Lemma each_require {A} (f : A -> bool) (l : list A) t :
  each (fun x => require_that (f x)) l t =
    if forallb f l then (t, Continue) else (T_Fail t, FailNow).
Proof.
  induction l as [|x l IH]; [done|]. cbn. unfold require_that at 1. by destruct (f x).
Qed.

Lemma forallb_perm {A} (f : A -> bool) l1 l2 : l1 ≡ₚ l2 -> forallb f l1 = forallb f l2.
Proof. induction 1; cbn; try congruence. by destruct (f x), (f y). Qed.

Global Instance NoCallErrors_perm : Proper ((≡ₚ) ==> eq ==> eq) NoCallErrors.
Proof. intros l1 l2 Hl t ? <-. unfold NoCallErrors. by rewrite !each_require, (forallb_perm _ _ _ Hl). Qed.
Global Instance MustFail_perm : Proper ((≡ₚ) ==> eq ==> eq) MustFail.
Proof. intros l1 l2 Hl t ? <-. unfold MustFail. by rewrite !each_require, (forallb_perm _ _ _ Hl). Qed.
Global Instance AggregateByError_perm text asserts :
  Proper ((≡ₚ) ==> eq ==> eq) (AggregateByError text asserts).
Proof.
  intros l1 l2 Hl t ? <-. unfold AggregateByError.
  by rewrite !by_error_counts, (counts_perm _ _ _ Hl).
Qed.
Global Instance CountByBackendID_perm asserts :
  Proper ((≡ₚ) ==> eq ==> eq) (CountByBackendID asserts).
Proof.
  intros l1 l2 Hl t ? <-. unfold CountByBackendID.
  by rewrite !by_backend_counts, (counts_perm _ _ _ Hl).
Qed.

(** ** Calls in any order *)

Section parallel.
Context {Ctx St : Type} `{!Connection Ctx St}.
Implicit Types (c : @CallContext St) (caller : Caller Ctx).

(** The records of the calls in the order in which they are served. *)
Fixpoint serve caller (n : nat) (t : T) c : list call * (T * @CallContext St) * ended :=
  match n with
  | 0 => ([], (t, c), Continue)
  | S n =>
      let '(now, st, r) := Caller_Do caller (T_now t) (CallContext_client c) in
      let t' := {| T_failed := T_failed t; T_now := now |} in
      let c' := {| CallContext_addr := CallContext_addr c; CallContext_client := st |} in
      match record_call (CallContext_addr c) r with
      | inl k => let '(ks, w, e) := serve caller n t' c' in (k :: ks, w, e)
      | inr p => ([], (t', c'), Panicked p)
      end
  end.

Definition place (order : list nat) (ks calls : list call) : list call :=
  foldl (fun calls ik => <[ik.1 := ik.2]> calls) calls (zip order ks).

Lemma fill_serve caller order calls t c :
  let '(ks, w, e) := serve caller (length order) t c in
  fill caller order calls t c = (place order ks calls, w, e) /\
  (e = Continue -> length ks = length order).
Proof.
  revert calls t c. induction order as [|i order IH]; intros calls t c; [done|].
  cbn [length serve fill]. destruct (Caller_Do _ _ _) as [[now st] r].
  destruct (record_call _ _) as [k|p]; [|done].
  specialize (IH (<[i := k]> calls) {| T_failed := T_failed t; T_now := now |}
    {| CallContext_addr := CallContext_addr c; CallContext_client := st |}).
  destruct (serve caller _ _ _) as [[ks w] e]. destruct IH as [-> He]. split; [done|].
  intros ?. cbn. auto.
Qed.

Lemma place_length order ks calls : length (place order ks calls) = length calls.
Proof.
  revert ks calls. unfold place. induction order as [|i order IH]; intros [|k ks] calls; try done.
  cbn. by rewrite IH, length_insert.
Qed.

Lemma place_other order ks calls i : i ∉ order -> place order ks calls !! i = calls !! i.
Proof.
  unfold place. revert ks calls. induction order as [|j order IH]; intros [|k ks] calls Hi; try done.
  cbn. apply not_elem_of_cons in Hi as [? ?]. rewrite IH by done. by rewrite list_lookup_insert_ne.
Qed.

Lemma place_lookup order ks calls j i k :
  NoDup order -> order !! j = Some i -> ks !! j = Some k -> i < length calls ->
  place order ks calls !! i = Some k.
Proof.
  revert ks calls j. induction order as [|i0 order IH]; intros [|k0 ks] calls j; try done.
  intros [Hi0 Hnd]%NoDup_cons. destruct j as [|j]; cbn.
  - intros [= ->] [= ->] Hlt. change (place order ks (<[i := k]> calls) !! i = Some k).
    rewrite place_other by done. by apply list_lookup_insert_eq.
  - intros Hj Hk Hlt. apply (IH ks _ j); [done..|]. by rewrite length_insert.
Qed.

(** Filling the slots in any order gives the records of the calls, permuted. *)
Lemma place_perm order ks n :
  order ≡ₚ seq 0 n -> length ks = n -> place order ks (replicate n no_call) ≡ₚ ks.
Proof.
  intros Ho Hl. set (l := place order ks (replicate n no_call)).
  assert (NoDup order) as Hnd by (rewrite Ho; apply NoDup_seq).
  assert (length order = n) as Hlo by (by rewrite Ho, length_seq).
  assert (length l = n) as Hll by (unfold l; by rewrite place_length, length_replicate).
  assert (ks = (fun i => default no_call (l !! i)) <$> order) as Hks.
  { apply list_eq_same_length with n; [by rewrite length_fmap|done|].
    intros j k k' Hj Hk. rewrite list_lookup_fmap. intros (i & Hi & ->)%fmap_Some.
    unfold l. rewrite (place_lookup order ks _ j i k); try done.
    assert (i ∈ order) as Hin by (by eapply list_elem_of_lookup_2). rewrite Ho in Hin.
    apply elem_of_seq in Hin. rewrite length_replicate. lia. }
  assert (l = (fun i => default no_call (l !! i)) <$> seq 0 n) as Hll2.
  { apply list_eq_same_length with n; [by rewrite length_fmap, length_seq|done|].
    intros j k k' Hj Hk. rewrite list_lookup_fmap.
    intros (i & [-> _]%lookup_seq & ->)%fmap_Some. cbn. by rewrite Hk. }
  rewrite Hks, Hll2 at 1. by rewrite Ho.
Qed.

Lemma fill_orders caller n t c order1 order2 :
  order1 ≡ₚ seq 0 n -> order2 ≡ₚ seq 0 n ->
  let r1 := fill caller order1 (replicate n no_call) t c in
  let r2 := fill caller order2 (replicate n no_call) t c in
  r1.1.2 = r2.1.2 /\ r1.2 = r2.2 /\ (r1.2 = Continue -> r1.1.1 ≡ₚ r2.1.1).
Proof.
  intros H1 H2. cbn zeta.
  pose proof (fill_serve caller order1 (replicate n no_call) t c) as Hf1.
  pose proof (fill_serve caller order2 (replicate n no_call) t c) as Hf2.
  assert (length order1 = n) as Hl1 by (by rewrite H1, length_seq).
  assert (length order2 = n) as Hl2 by (by rewrite H2, length_seq). rewrite Hl1, Hl2 in *.
  destruct (serve caller n t c) as [[ks w] e]. destruct Hf1 as [-> Hlen], Hf2 as [-> _]. cbn.
  split; [done|]. split; [done|]. intros He. by rewrite !place_perm by auto.
Qed.

Lemma each_ext_perm (assertions : list (list call -> T -> T * ended)) l1 l2 t :
  Forall (Proper ((≡ₚ) ==> eq ==> eq)) assertions -> l1 ≡ₚ l2 ->
  each (fun a => a l1) assertions t = each (fun a => a l2) assertions t.
Proof.
  intros Hall Hl. revert t. induction Hall as [|a assertions Ha _ IH]; intros t; [done|].
  cbn. rewrite (Ha l1 l2 Hl t t eq_refl). destruct (a l2 t) as [t' []]; auto.
Qed.

(** The goroutines of [CallNParallel] write to distinct slots, so that with
    assertions that do not look at the order of the calls (no errors, errors by
    text, counts by backend) it does what [CallN] does, whatever the order in
    which the connection serves them. *)
Theorem CallNParallel_like_CallN order caller count assertions w :
  order ≡ₚ seq 0 (Z.to_nat count) ->
  Forall (Proper ((≡ₚ) ==> eq ==> eq)) assertions ->
  CallNParallel order caller count assertions w = CallN caller count assertions w.
Proof.
  intros Ho Hall. destruct w as [t c]. unfold CallNParallel, CallN, calls_in_order.
  destruct (count <? 0)%Z; [done|].
  pose proof (fill_orders caller (Z.to_nat count) t c order (seq 0 (Z.to_nat count)) Ho
    (Permutation_refl _)) as H.
  destruct (fill caller order _ t c) as [[calls1 w1] e1].
  destruct (fill caller (seq _ _) _ t c) as [[calls2 w2] e2]. cbn in H.
  destruct H as (<- & <- & Hp). destruct w1 as [t1 c1], e1; try done.
  by rewrite (each_ext_perm assertions calls1 calls2 t1 Hall (Hp eq_refl)).
Qed.

(** [CallN] makes the calls one after the other and hands their records to
    the assertions in order: with a connection that answers, the [i]-th record
    is the one of the [i]-th call. *)
Lemma CallN_runs_calls_in_order caller (count : Z) assertions t c ks w :
  (0 <= count)%Z -> serve caller (Z.to_nat count) t c = (ks, w, Continue) ->
  CallN caller count assertions (t, c) =
    let '(t', e) := each (fun a => a ks) assertions w.1 in ((t', w.2), e).
Proof.
  intros Hc Hs. unfold CallN, calls_in_order. destruct (Z.ltb_spec count 0); [lia|].
  pose proof (fill_serve caller (seq 0 (Z.to_nat count)) (replicate (Z.to_nat count) no_call) t c)
    as Hf. rewrite length_seq, Hs in Hf. destruct Hf as [-> Hl]. destruct w as [t' c'].
  assert (place (seq 0 (Z.to_nat count)) ks (replicate (Z.to_nat count) no_call) = ks) as ->;
    [|done]. specialize (Hl eq_refl).
  apply list_eq_same_length with (Z.to_nat count); [done|by rewrite place_length, length_replicate|].
  intros i k k' Hi Hk Hk'. pose proof (NoDup_seq 0 (Z.to_nat count)) as Hnd.
  rewrite (place_lookup _ _ _ i i k' Hnd) in Hk; [congruence| |done|by rewrite length_replicate].
  apply lookup_seq. split; [done|lia].
Qed.
End parallel.

(** ** Witnesses *)

(** A connection to two backends in turn, of which the second fails every other
    time; a call takes a second. *)
Definition sample_connection : Connection unit nat :=
  {| conn_call m _ _ req now n :=
       ((now + 1000000000)%Z, S n,
        if decide (n `mod` 4 = 3) then Err (statusError 14 "no healthy upstream")
        else Ok (reply (if decide (n `mod` 2 = 0) then "backend-0" else "backend-1") m req)) |}.

Definition sample_text (e : error) : string :=
  match e with statusError _ m => "rpc error: " +:+ m | _ => "" end.

Definition sample_caller : Caller unit := BuildCaller tt MethodEcho [WithTimeout 1000].
Definition fresh : T := {| T_failed := false; T_now := 0 |}.
Definition sample_world : T * @CallContext nat :=
  (fresh, {| CallContext_addr := "xds:///default/test"; CallContext_client := 0 |}).

Lemma CallNParallel_like_CallN_witness :
  @CallNParallel unit nat sample_connection [2; 0; 3; 1] sample_caller 4
    [CountByBackendID [AssertCount "backend-0" 2; AssertCount "backend-1" 1]] sample_world
  = @CallN unit nat sample_connection sample_caller 4
      [CountByBackendID [AssertCount "backend-0" 2; AssertCount "backend-1" 1]] sample_world /\
  T_failed (@CallN unit nat sample_connection sample_caller 4
      [CountByBackendID [AssertCount "backend-0" 2; AssertCount "backend-1" 1]] sample_world).1.1
  = false.
Proof.
  split; [|vm_compute; reflexivity].
  apply (@CallNParallel_like_CallN unit nat sample_connection).
  - exact (Permutation_cons_app [0; 1] [3] 2 (perm_skip 0 (perm_swap 1 3 []))).
  - apply List.Forall_cons; [apply CountByBackendID_perm|apply List.Forall_nil].
Defined.

Definition answered (id : string) : call :=
  {| call_addr := "xds:///default/test"; call_backendID := id; call_err := None |}.
Definition failed (e : error) : call :=
  {| call_addr := "xds:///default/test"; call_backendID := ""; call_err := Some e |}.

Lemma one_backend_got_all_calls_witness :
  T_failed (CountByBackendID [AssertOneBackendGotAllCalls map_to_list 2]
              [answered "b"; failed (errorString "x"); answered "b"] fresh).1 = false.
Proof.
  apply (one_backend_got_all_calls map_to_list (fun m => Permutation_refl _) 2
           [answered "b"; failed (errorString "x"); answered "b"] fresh (le_S 1 1 (le_n 1))).
  split; [reflexivity|]. exists "b". reflexivity.
Defined.

Lemma aggregated_value_partial_witness :
  T_failed (AggregateByError sample_text [AssertAggregatedValuePartial map_to_list "no healthy" 1]
              [answered "b"; failed (statusError 14 "no healthy upstream")] fresh).1 = false.
Proof.
  apply (aggregated_value_partial sample_text map_to_list (fun m => Permutation_refl _)).
  split; reflexivity.
Defined.
