(* ===== verification/TestCluster.v ===== *)
(** The cluster of the end-to-end tests: the backends of
    [pkg/testruntime/backend.go] and the fake Kubernetes objects of
    [pkg/testruntime/k8s.go] that point to them.

    The network and the gRPC server are the parameter [Network]; the Kubernetes
    and GTC object trackers are the parameter [Tracker]. [SplitHostPort] and
    [ParseInt] are those of the Go standard library. *)

From S2P Require Import Prelude GoStrings GoPath GoStrconv Api Errors Xds ResourceName Interceptors Routes Resolver K8s Listers ListenerHandler ClusterHandler EndpointHandler Coherence EchoServer.

From Stdlib Require Import Ascii.

(** ** Addresses *)

(** What is before and after the last occurrence of a character. *)
Fixpoint cut_last (c : ascii) (s : string) : option (string * string) :=
  match s with
  | EmptyString => None
  | String x s' =>
      match cut_last c s' with
      | Some (a, b) => Some (String x a, b)
      | None => if decide (x = c) then Some (EmptyString, s') else None
      end
  end.

Definition colon : ascii := ":"%char.
Definition lbracket : ascii := "["%char.
Definition rbracket : ascii := "]"%char.

(** [net.SplitHostPort]: [None] stands for an error, with which it returns two
    empty strings. *)
Definition SplitHostPort (hostport : string) : option (string * string) :=
  match cut_last colon hostport with
  | None => None
  | Some (before, port) =>
      match hostport with
      | String c rest =>
          if decide (c = lbracket) then
            (* the bracket must close right before the last colon *)
            match strings_Cut rbracket rest with
            | None => None
            | Some (host, after) =>
                if decide (after = String colon port) then
                  if str_mem lbracket rest || str_mem rbracket after then None
                  else Some (host, port)
                else None
            end
          else if str_mem colon before then None
          else if str_mem lbracket hostport || str_mem rbracket hostport then None
          else Some (before, port)
      | EmptyString => None
      end
  end.

(** The number that [strconv.ParseInt(s, 10, bits)] reads, before its range is
    checked. *)
Definition parse_signed (s : string) : option Z :=
  let '(neg, digits) :=
    match s with
    | String c s' =>
        if decide (c = "-"%char) then (true, s')
        else if decide (c = "+"%char) then (false, s')
        else (false, s)
    | EmptyString => (false, s)
    end in
  n ← parse_unsigned digits;
  Some (if (neg : bool) then (- Z.of_N n)%Z else Z.of_N n).

Definition ParseInt32 (s : string) : option Z :=
  z ← parse_signed s; if bool_decide (- 2 ^ 31 <= z < 2 ^ 31)%Z then Some z else None.

(** The value that [strconv.Atoi] returns, which with an error is 0 on bad
    syntax and the nearest [int] on bad range. *)
Definition Atoi_value (s : string) : Z :=
  match parse_signed s with
  | Some z => Z.max (- 2 ^ 63) (Z.min (2 ^ 63 - 1) z)
  | None => 0
  end.

(** The conversion [int32(pp)] of an [int]. *)
Definition int32_wrap (z : Z) : Z := ((z + 2 ^ 31) mod 2 ^ 32 - 2 ^ 31)%Z.

(** ** Backends *)

(** A [net.Listener]. *)
Record Listener := { Listener_fd : nat; Listener_Addr : string }.

(** [type Backend struct]: its gRPC server serves [Backend_Impl] on the
    listener. *)
Record Backend := {
  Backend_ID : string;
  Backend_Listener : Listener;
  Backend_Impl : state
}.

(** [net.Listen("tcp", ":0")], [Listener.Close] and [grpc.Server.Stop], which
    closes the listener that the server serves. *)
Class Network := {
  net_state : Type;
  net_Listen : net_state -> net_state * M Listener;
  net_Close : Listener -> net_state -> net_state;
  grpc_Stop : Listener -> net_state -> net_state
}.

Class NetworkLaws `{Network} := {
  listening : net_state -> gset nat;
  Listen_opens st st' l :
    net_Listen st = (st', Ok l) ->
    (Listener_fd l ∉ listening st) /\ listening st' = {[Listener_fd l]} ∪ listening st;
  Listen_fails st st' e : net_Listen st = (st', Err e) -> listening st' = listening st;
  Listen_returns st : no_panic (net_Listen st).2;
  Close_closes l st : listening (net_Close l st) = listening st ∖ {[Listener_fd l]};
  Stop_closes l st : listening (grpc_Stop l st) = listening st ∖ {[Listener_fd l]}
}.

(** [b.Impl.Swap(bh(b.ID))] *)
Definition Backend_SetBehavior (bh : Behavior) (b : Backend) : Backend :=
  let st := Backend_Impl b in
  {| Backend_ID := Backend_ID b; Backend_Listener := Backend_Listener b;
     Backend_Impl :=
       {| servers := servers st ++ [bh (Backend_ID b)]; impl := Some (length (servers st));
          threads := threads st; crashed := crashed st |} |}.

Definition Backends_SetBehavior (bh : Behavior) (bs : list Backend) : list Backend :=
  Backend_SetBehavior bh <$> bs.

(** [func (b *Backend) PortNumber() int32] *)
Definition Backend_PortNumber (b : Backend) : M Z :=
  match SplitHostPort (Listener_Addr (Backend_Listener b)) with
  | None => Panic (PanicValue "SplitHostPort")
  | Some (_, p) =>
      match ParseInt32 p with
      | None => Panic (PanicValue "ParseInt")
      | Some pint => Ok pint
      end
  end.

Section backends.
Context `{Network}.

(** [func newBackend] *)
Definition newBackend (id : string) (st : net_state) : net_state * M Backend :=
  let '(st', r) := net_Listen st in
  (st', listener ← r;
        Ok {| Backend_ID := id; Backend_Listener := listener; Backend_Impl := backend_start id |}).

(** The loop of [StartBackends], from [id]. *)
Fixpoint start_loop (todo id : nat) (backends : list Backend) (st : net_state)
  : net_state * M (list Backend) :=
  match todo with
  | 0 => (st, Ok backends)
  | S todo =>
      match newBackend ("backend-" +:+ Itoa (Z.of_nat id)) st with
      | (st', Ok b) => start_loop todo (S id) (backends ++ [b]) st'
      | (st', Err e) => (st', Err e)
      | (st', Panic p) => (st', Panic p)
      end
  end.

(** [func StartBackends]: [make] panics on a negative length. *)
Definition StartBackends (backendCount : Z) (st : net_state) : net_state * M (list Backend) :=
  if (backendCount <? 0)%Z then (st, Panic (PanicValue "makeslice: len out of range"))
  else start_loop (Z.to_nat backendCount) 0 [] st.

(** [func (b *Backend) Close] and [func (bs Backends) Stop] *)
Definition Backend_Close (b : Backend) (st : net_state) : net_state :=
  net_Close (Backend_Listener b) (grpc_Stop (Backend_Listener b) st).
Definition Backends_Stop (bs : list Backend) (st : net_state) : net_state :=
  foldl (fun st b => Backend_Close b st) st bs.
End backends.

(** ** Kubernetes objects *)

(** [func checkInformerSync]: the error for the first type that did not sync, in
    the order [range] of the iteration over the map. *)
Definition checkInformerSync (syncResult : list (string * bool)) : M unit :=
  if decide (length syncResult = 0) then Err (errorString "empty sync result")
  else
    match List.find (fun tb => negb tb.2) syncResult with
    | Some (typ, _) => Err (errorString ("Cache sync failed for " +:+ typ +:+ ", exiting"))
    | None => Ok tt
    end.

(** [func AppendEndpointSlices] *)
Definition AppendEndpointSlices (ss : list (list EndpointSlice)) : list EndpointSlice :=
  foldl (fun r s => r ++ s) [] ss.

(** [type EndpointSliceOption func( *discoveryv1.EndpointSlice )]: both options
    write to the first endpoint, and panic when there is none. *)
Definition on_first_endpoint (f : Endpoint -> Endpoint) (s : EndpointSlice) : M EndpointSlice :=
  match EndpointSlice_Endpoints s with
  | ep :: eps =>
      Ok {| EndpointSlice_ObjectMeta := EndpointSlice_ObjectMeta s;
            EndpointSlice_Endpoints := f ep :: eps;
            EndpointSlice_Ports := EndpointSlice_Ports s |}
  | [] => Panic (IndexOutOfRange 0 0)
  end.

Definition WithEndpointZone (zone : string) : EndpointSlice -> M EndpointSlice :=
  on_first_endpoint (fun ep =>
    {| Endpoint_Addresses := Endpoint_Addresses ep; Endpoint_Ready := Endpoint_Ready ep;
       Endpoint_Zone := Some zone; Endpoint_Hints := Endpoint_Hints ep |}).

Definition WithEndpointHints (hints : EndpointHints) : EndpointSlice -> M EndpointSlice :=
  on_first_endpoint (fun ep =>
    {| Endpoint_Addresses := Endpoint_Addresses ep; Endpoint_Ready := Endpoint_Ready ep;
       Endpoint_Zone := Endpoint_Zone ep; Endpoint_Hints := Some hints |}).

(** The port of a slice: errors of the parsing are ignored. *)
Definition slice_port (b : Backend) : Z :=
  let p := match SplitHostPort (Listener_Addr (Backend_Listener b)) with
           | Some (_, p) => p
           | None => ""
           end in
  int32_wrap (Atoi_value p).

(** [func BuildEndpointSlice] *)
Definition BuildEndpointSlice (id : Z) (name namespace : string) (backend : Backend)
    (opts : list (EndpointSlice -> M EndpointSlice)) : M EndpointSlice :=
  foldM (fun slice opt => opt slice) opts
    {| EndpointSlice_ObjectMeta :=
         {| ObjectMeta_Name := name +:+ "-" +:+ Itoa id; ObjectMeta_Namespace := namespace;
            ObjectMeta_ResourceVersion := "";
            ObjectMeta_Labels := {[ "kubernetes.io/service-name" := name ]} |};
       EndpointSlice_Endpoints :=
         [{| Endpoint_Addresses := ["127.0.0.1"]; Endpoint_Ready := Some true;
             Endpoint_Zone := None; Endpoint_Hints := None |}];
       EndpointSlice_Ports :=
         [{| EndpointPort_Name := Some "grpc"; EndpointPort_Port := Some (slice_port backend) |}] |}.

(** [func BuildEndpointSlices] *)
Definition BuildEndpointSlices (name namespace : string) (backends : list Backend)
  : M (list EndpointSlice) :=
  imapM (fun i b => BuildEndpointSlice (Z.of_nat i) name namespace b []) backends.

(** [grpcListenersToRuntimeObjects] and [endpointSlicesToRuntimeObjects]: a
    pointer to a copy of each element. *)
Definition grpcListenersToRuntimeObjects (listeners : list GRPCListener) : list object :=
  ObjGRPCListener <$> listeners.
Definition endpointSlicesToRuntimeObjects (endpointSlices : list EndpointSlice) : list object :=
  ObjEndpointSlice <$> endpointSlices.

(** The object tracker of client-go, and the fake clientset that
    [NewSimpleClientset] builds on it: it panics when an object is refused. *)
Class Tracker := {
  tracker_state : Type;
  NewObjectTracker : tracker_state;
  tracker_Add : object -> tracker_state -> M tracker_state
}.

Section fake_k8s.
Context `{Tracker}.

Definition NewSimpleClientset (objects : list object) : M tracker_state :=
  foldM (fun o obj =>
      match tracker_Add obj o with
      | Err _ => Panic (PanicValue "NewSimpleClientset")
      | r => r
      end) objects NewObjectTracker.

(** [type FakeK8s struct], without the informer factories it starts. *)
Record FakeK8s := {
  FakeK8s_K8s : tracker_state;
  FakeK8s_GTCApi : tracker_state
}.

Definition NewFakeK8s (listeners : list GRPCListener) (endpointSlices : list EndpointSlice)
  : M FakeK8s :=
  gtcClientSet ← NewSimpleClientset (grpcListenersToRuntimeObjects listeners);
  k8sClientSet ← NewSimpleClientset (endpointSlicesToRuntimeObjects endpointSlices);
  Ok {| FakeK8s_K8s := k8sClientSet; FakeK8s_GTCApi := gtcClientSet |}.
End fake_k8s.

(** ** Lemmas on addresses *)

Lemma parse_signed_Atoi s z : Atoi s = Some z -> parse_signed s = Some z.
Proof.
  unfold Atoi, parse_signed. destruct (match s with EmptyString => _ | String _ _ => _ end)
    as [neg digits]. destruct (parse_unsigned digits) as [n|]; cbn; [|done].
  by destruct (bool_decide _).
Qed.

Lemma parse_signed_Itoa z : is_int64 z -> parse_signed (Itoa z) = Some z.
Proof. intros Hz. by apply parse_signed_Atoi, Atoi_Itoa. Qed.

Lemma cut_last_None c s : str_mem c s = false -> cut_last c s = None.
Proof.
  induction s as [|x s IH]; cbn; [done|]. intros [Hx Hs]%orb_false_iff.
  apply bool_decide_eq_false in Hx. rewrite IH by done. by rewrite decide_False.
Qed.

(** The address of a listener on all interfaces. *)
Definition wildcard_addr (port : Z) : string := "[::]:" +:+ Itoa port.

Definition is_port (p : Z) : Prop := (0 <= p < 65536)%Z.

Lemma port_mem c p : is_port p -> digit_value c = None -> str_mem c (Itoa p) = false.
Proof.
  intros Hp Hc. unfold Itoa. destruct (Z.ltb_spec p 0); [unfold is_port in *; lia|].
  by apply print_N_mem.
Qed.

Lemma SplitHostPort_wildcard p :
  is_port p -> SplitHostPort (wildcard_addr p) = Some ("::", Itoa p).
Proof.
  intros Hp. unfold SplitHostPort, wildcard_addr.
  change ("[::]:" +:+ Itoa p) with
    (String "[" (String ":" (String ":" (String "]" (String ":" (Itoa p)))))). cbn.
  rewrite (cut_last_None colon) by (by apply port_mem). cbn.
  repeat first [rewrite decide_True by done|rewrite decide_False by done]. cbn.
  by rewrite decide_True, !port_mem, !bool_decide_false by done.
Qed.

Lemma slice_port_PortNumber b p : Backend_PortNumber b = Ok p -> slice_port b = p.
Proof.
  unfold Backend_PortNumber, slice_port. destruct (SplitHostPort _) as [[h s]|]; [|done].
  unfold ParseInt32, Atoi_value. destruct (parse_signed s) as [z|]; cbn; [|done].
  case_bool_decide as Hz; intros [= <-]. unfold int32_wrap.
  rewrite Z.min_r, Z.max_r by lia. rewrite Z.mod_small by lia. lia.
Qed.

Lemma PortNumber_wildcard b p :
  is_port p -> Listener_Addr (Backend_Listener b) = wildcard_addr p -> Backend_PortNumber b = Ok p.
Proof.
  intros Hp Hb. unfold Backend_PortNumber. rewrite Hb, SplitHostPort_wildcard by done.
  unfold ParseInt32. unfold is_port in Hp. rewrite parse_signed_Itoa by (unfold is_int64; lia). cbn.
  by rewrite bool_decide_true by lia.
Qed.

(** ** Properties *)

(** The slice of a backend, with no options. *)
Lemma BuildEndpointSlices_lookup name namespace backends :
  exists slices, BuildEndpointSlices name namespace backends = Ok slices /\
    forall ref, PortRef_Name (ServiceRef_Port ref) = "grpc" ->
      ports_found ref slices /\
      ready_data ref slices = (fun b =>
        {| endpointData_port := portNumber (slice_port b);
           endpointData_endpoint :=
             {| Endpoint_Addresses := ["127.0.0.1"]; Endpoint_Ready := Some true;
                Endpoint_Zone := None; Endpoint_Hints := None |} |}) <$> backends.
Proof.
  unfold BuildEndpointSlices, imapM. generalize 0 as n.
  induction backends as [|b backends IH]; intros n; cbn [imapM_from].
  { exists []. split; [done|]. intros ref _. split; [constructor|done]. }
  destruct (IH (S n)) as (slices & -> & Hs). eexists. split; [done|]. intros ref Href.
  destruct (Hs ref Href) as [Hp Hd].
  assert (forall s, EndpointSlice_Ports s =
    [{| EndpointPort_Name := Some "grpc"; EndpointPort_Port := Some (slice_port b) |}] ->
    lookupK8sPort (ServiceRef_Port ref) (EndpointSlice_Ports s) = Some (portNumber (slice_port b)))
    as Hport.
  { intros s ->. unfold lookupK8sPort. rewrite Href, decide_True by done. cbn.
    by rewrite decide_True. }
  split.
  - constructor; [|done]. rewrite Hport by done. by eexists.
  - unfold ready_data. cbn [mbind list_bind]. fold (ready_data ref slices).
    unfold slice_data at 1. rewrite Hport by done. cbn. by rewrite Hd.
Qed.

(** A backend that listens on a port of all interfaces. *)
Definition listens_on (b : Backend) (p : Z) : Prop :=
  is_port p /\ Listener_Addr (Backend_Listener b) = wildcard_addr p.

Lemma listens_on_slice_port b p : listens_on b p -> portNumber (slice_port b) = p.
Proof.
  intros [Hp Hb]. rewrite (slice_port_PortNumber b p) by (by apply PortNumber_wildcard).
  unfold portNumber, uint32_wrap. unfold is_port in Hp. apply Z.mod_small. lia.
Qed.

Lemma filter_none {A} (P : A -> Prop) `{!forall x, Decision (P x)} (l : list A) :
  (forall x, x ∈ l -> ~ P x) -> filter P l = [].
Proof.
  induction l as [|x l IH]; intros Hl; [done|]. rewrite filter_cons, decide_False.
  - apply IH. intros y Hy. apply Hl. by right.
  - apply Hl. by left.
Qed.

Section fixture.
Context `{XdsLibrary, UnicodeTables, GRPCListenerLister}.

(** The endpoints that the controller serves for the slices of the backends, in
    whatever order it gets them. *)
Lemma fixture_endpoints n ref name namespace backends slices found :
  PortRef_Name (ServiceRef_Port ref) = "grpc" -> backends <> [] ->
  BuildEndpointSlices name namespace backends = Ok slices -> found ≡ₚ slices ->
  exists g, makeServiceEndpoints (Some n) ref found = Ok [g] /\
    endpointv3.LocalityLbEndpoints_Priority g = 0%Z /\
    endpointv3.LocalityLbEndpoints_LbEndpoints g
      ≡ₚ ((fun b => makeLbEndpoint "127.0.0.1" (portNumber (slice_port b))) <$> backends).
Proof.
  intros Href Hne Hb Hperm.
  destruct (BuildEndpointSlices_lookup name namespace backends) as (slices' & Hs & Hall).
  rewrite Hb in Hs. injection Hs as <-. destruct (Hall ref Href) as [Hports Hdata].
  assert (ports_found ref found) as Hports' by (unfold ports_found; by rewrite Hperm).
  assert (ready_data ref found ≡ₚ ready_data ref slices) as Hready
    by (unfold ready_data; by rewrite Hperm).
  destruct (makeServiceEndpoints_total n ref found Hports') as [res Hres].
  pose proof (makeServiceEndpoints_Ok n ref found res Hres) as [_ Hg].
  assert (near (node_zone n) ref found = []) as Hnear.
  { unfold near. apply filter_none. intros d Hd. rewrite Hready, Hdata in Hd.
    apply list_elem_of_fmap in Hd as (b & -> & _). by unfold data_hinted. }
  assert (far (node_zone n) ref found = ready_data ref found) as Hfar
    by (by apply filter_complement_all).
  rewrite Hnear, Hfar in Hg.
  assert (lb_endpoints (ready_data ref found)
    ≡ₚ ((fun b => makeLbEndpoint "127.0.0.1" (portNumber (slice_port b))) <$> backends)) as Hlb.
  { rewrite Hready, Hdata. unfold lb_endpoints. clear. induction backends; cbn; [done|].
    by f_equiv. }
  destruct (ready_data ref found) as [|d ds].
  { rewrite Hdata in Hready. apply Permutation_nil_l in Hready. by destruct backends. }
  destruct res as [|g [|]]; try done. injection Hg as Hp Hl.
  exists g. split_and!; [done|done|].
  assert (endpointv3.LocalityLbEndpoints_LbEndpoints g = lb_endpoints (d :: ds)) as -> by exact Hl.
  exact Hlb.
Qed.

(** A slice of the service [name] in [namespace], as the lister selects it. *)
Definition of_service (name namespace : string) (s : EndpointSlice) : Prop :=
  ObjectMeta_Namespace (EndpointSlice_ObjectMeta s) = namespace /\
  label (EndpointSlice_ObjectMeta s) serviceNameLabel = name.

Global Instance of_service_dec name namespace s : Decision (of_service name namespace s).
Proof. unfold of_service. apply _. Defined.

Lemma BuildEndpointSlices_service name namespace backends slices :
  BuildEndpointSlices name namespace backends = Ok slices ->
  Forall (of_service name namespace) slices.
Proof.
  intros Hs. apply Forall_lookup. intros i s Hi.
  destruct (imapM_lookup_inv _ _ _ _ _ Hs Hi) as (b & _ & Hb). injection Hb as <-.
  split; [done|]. unfold label. cbn. by rewrite lookup_singleton_eq.
Qed.

(** Among other slices, and in any order, the lister finds those of the backends. *)
Lemma fixture_listed l ref backends slices others stored :
  BuildEndpointSlices (ServiceRef_Name ref) (serviceNamespace ref l) backends = Ok slices ->
  Forall (fun s => ~ of_service (ServiceRef_Name ref) (serviceNamespace ref l) s) others ->
  stored ≡ₚ slices ++ others ->
  exists found, @listServiceSlices (slices_of stored) ref l = Ok found /\ found ≡ₚ slices.
Proof.
  intros Hs%BuildEndpointSlices_service Ho Hperm. unfold listServiceSlices. cbn.
  exists (filter (of_service (ServiceRef_Name ref) (serviceNamespace ref l)) stored).
  split; [done|]. rewrite Hperm.
  rewrite filter_app, (filter_none _ others) by by apply Forall_forall.
  rewrite app_nil_r. clear Hperm. induction Hs as [|s slices Hs _ IH]; [done|].
  rewrite filter_cons_True by done. by apply Permutation_cons.
Qed.

(** C39: the fixtures of the tests reach the backends they are built from. Take
    backends that listen on a port of all interfaces ([[::]:port]), at least one,
    and a listener of the store with a backend that refers to a service by the
    port name [grpc]. When the informer holds, in any order, the slices that
    [BuildEndpointSlices] makes for that service and its namespace, and no other
    slices of it, and marshalling works, then the endpoint handler finds them and
    answers for the name of the backend with a load assignment of one group, of
    priority 0, with one endpoint per backend, on the loopback address and the
    port that [PortNumber] gives. *)
Theorem fixture_reaches_backends n p l (b : Api.Backend) ref backends ports others :
  wire_succeeds -> printable p ->
  lister_Get (parsedBackendName_Namespace p) (parsedBackendName_ListenerName p) = Ok l ->
  findBackendSpec p l = Ok b -> Backend_Service b = Some ref ->
  PortRef_Name (ServiceRef_Port ref) = "grpc" ->
  Forall2 listens_on backends ports -> backends <> [] ->
  Forall (fun s => ~ of_service (ServiceRef_Name ref) (serviceNamespace ref l) s) others ->
  forM Backend_PortNumber backends = Ok ports /\
  exists slices,
    BuildEndpointSlices (ServiceRef_Name ref) (serviceNamespace ref l) backends = Ok slices /\
    forall stored, stored ≡ₚ slices ++ others -> exists cla g bs vs,
      @endpointHandler_resolveResource _ _ _ (slices_of stored)
          (one_name EndpointType (parsedBackendName_String p) (Some n))
        = Ok (one_resource EndpointType bs vs) /\
      proto_Marshal (MClusterLoadAssignment cla) = Ok bs /\
      endpointv3.ClusterLoadAssignment_ClusterName cla = parsedBackendName_String p /\
      endpointv3.ClusterLoadAssignment_Endpoints cla = [g] /\
      endpointv3.LocalityLbEndpoints_Priority g = 0%Z /\
      endpointv3.LocalityLbEndpoints_LbEndpoints g ≡ₚ (makeLbEndpoint "127.0.0.1" <$> ports).
Proof.
  intros Hwire Hp Hget Hfind Hb Href Hl Hne Hothers. split.
  - clear Hne. induction Hl as [|x q backends ports [Hq Hx] _ IH]; [done|].
    by rewrite forM_cons, (PortNumber_wildcard x q Hq Hx), IH.
  - destruct (BuildEndpointSlices_lookup (ServiceRef_Name ref) (serviceNamespace ref l) backends)
      as (slices & Hs & _).
    exists slices. split; [done|]. intros stored Hperm.
    destruct (fixture_listed l ref backends slices others stored Hs Hothers Hperm)
      as (found & Hlist & Hfound).
    destruct (fixture_endpoints n ref _ _ backends slices found Href Hne Hs Hfound)
      as (g & Hm & Hprio & Hlb).
    set (cla := {| endpointv3.ClusterLoadAssignment_ClusterName := parsedBackendName_String p;
                   endpointv3.ClusterLoadAssignment_Endpoints := [g] |}).
    destruct (Hwire (MClusterLoadAssignment cla)) as [bs Hbs].
    exists cla, g, bs. eexists. split; [|split_and!; try done].
    + eapply (endpointHandler_one (H2 := slices_of stored));
        [by apply lookupBackend_printed| |exact Hbs].
      unfold makeLoadAssignment, makeServiceLoadAssignment. rewrite Hb.
      cbn [deref mbind outcome_bind]. rewrite Hlist. cbn [mbind outcome_bind]. by rewrite Hm.
    + rewrite Hlb. clear -Hl. induction Hl as [|x q backends ports Hx _ IH]; cbn; [done|].
      by rewrite (listens_on_slice_port x q Hx), IH.
Qed.
End fixture.

(** ** Starting and stopping *)

Section lifecycle.
Context `{NetworkLaws}.

(** What [StartBackends] makes of its [id]-th backend. *)
Definition started (id : nat) (b : Backend) : Prop :=
  Backend_ID b = "backend-" +:+ Itoa (Z.of_nat id) /\ Backend_Impl b = backend_start (Backend_ID b).

Definition fds (bs : list Backend) : gset nat :=
  list_to_set ((fun b => Listener_fd (Backend_Listener b)) <$> bs).

Lemma fds_snoc bs b : fds (bs ++ [b]) = {[Listener_fd (Backend_Listener b)]} ∪ fds bs.
Proof. unfold fds. rewrite fmap_app, list_to_set_app_L. cbn. set_solver. Qed.

(** The loop, until it is done or [Listen] fails: it opens one listener for each
    backend. *)
Lemma start_loop_Ok todo id bs0 st st' bs :
  start_loop todo id bs0 st = (st', Ok bs) ->
  exists new, bs = bs0 ++ new /\ length new = todo /\
    (forall i b, new !! i = Some b -> started (id + i) b) /\
    NoDup ((fun b => Listener_fd (Backend_Listener b)) <$> new) /\
    fds new ## listening st /\ listening st' = fds new ∪ listening st.
Proof.
  revert id bs0 st. induction todo as [|todo IH]; intros id bs0 st; cbn.
  { intros [= <- <-]. exists []. rewrite app_nil_r. split_and!; [done..|constructor| |]; unfold fds; set_solver. }
  unfold newBackend. destruct (net_Listen st) as [st1 [l|e|p]] eqn:Hl; cbn; try done.
  intros Hloop. apply IH in Hloop as (new & -> & Hlen & Hst & Hnd & Hdisj & Hopen).
  apply Listen_opens in Hl as [Hfresh Hl].
  exists (({| Backend_ID := "backend-" +:+ Itoa (Z.of_nat id); Backend_Listener := l;
              Backend_Impl := backend_start ("backend-" +:+ Itoa (Z.of_nat id)) |}) :: new).
  split_and!.
  - by rewrite <- app_assoc.
  - cbn. by rewrite Hlen.
  - intros [|i] b; cbn; [intros [= <-]; by rewrite Nat.add_0_r|].
    intros Hb. rewrite Nat.add_succ_r. by apply Hst.
  - cbn. constructor; [|done]. rewrite Hl in Hdisj. unfold fds in Hdisj. set_solver.
  - unfold fds in *. cbn. rewrite Hl in Hdisj. set_solver.
  - rewrite Hopen, Hl. unfold fds. cbn. set_solver.
Qed.

Lemma Stop_listening bs st : listening (Backends_Stop bs st) = listening st ∖ fds bs.
Proof.
  unfold Backends_Stop. revert st. induction bs as [|b bs IH]; intros st; cbn.
  - unfold fds. set_solver.
  - rewrite IH. unfold Backend_Close, fds. rewrite Close_closes, Stop_closes. cbn. set_solver.
Qed.

(** Starting and stopping. When [StartBackends] returns, it returns as many
    backends as asked for, numbered in order, each with the default behaviour
    and a listener of its own; stopping them closes these listeners and no
    other, so that the network is as it was. *)
Theorem start_then_stop (count : nat) st st' bs :
  StartBackends (Z.of_nat count) st = (st', Ok bs) ->
  length bs = count /\ (forall i b, bs !! i = Some b -> started i b) /\
  NoDup ((fun b => Listener_fd (Backend_Listener b)) <$> bs) /\
  listening st' = fds bs ∪ listening st /\ fds bs ## listening st /\
  listening (Backends_Stop bs st') = listening st.
Proof.
  unfold StartBackends. destruct (Z.ltb_spec (Z.of_nat count) 0); [lia|]. rewrite Nat2Z.id.
  intros (new & -> & Hlen & Hst & Hnd & Hdisj & Hopen)%start_loop_Ok. split_and!; [done..|].
  rewrite Stop_listening. cbn. set_solver.
Qed.

Lemma start_loop_fails k todo id bs0 st st1 st2 bs e :
  start_loop k id bs0 st = (st1, Ok bs) -> net_Listen st1 = (st2, Err e) ->
  start_loop (k + S todo) id bs0 st = (st2, Err e).
Proof.
  revert id bs0 st. induction k as [|k IH]; intros id bs0 st; cbn.
  - intros [= <- <-] Hl. unfold newBackend. by rewrite Hl.
  - destruct (newBackend _ st) as [st' [b|e'|p]]; try done. apply IH.
Qed.

(** A failure to start a backend leaves those started before it: their
    listeners stay open, and the caller, who gets no backends, cannot stop
    them. *)
Theorem failed_start_leaks (k count : nat) st st1 st2 bs e :
  k < count -> StartBackends (Z.of_nat k) st = (st1, Ok bs) -> net_Listen st1 = (st2, Err e) ->
  StartBackends (Z.of_nat count) st = (st2, Err e) /\
  listening st2 = fds bs ∪ listening st /\ length bs = k.
Proof.
  unfold StartBackends. destruct (Z.ltb_spec (Z.of_nat k) 0); [lia|].
  destruct (Z.ltb_spec (Z.of_nat count) 0); [lia|]. rewrite !Nat2Z.id. intros Hlt Hk Hl.
  pose proof (start_loop_fails k (count - k - 1) 0 [] st st1 st2 bs e Hk Hl) as Hf.
  replace (k + S (count - k - 1)) with count in Hf by lia. split; [done|].
  apply start_loop_Ok in Hk as (new & -> & Hlen & _ & _ & _ & Hopen).
  apply Listen_fails in Hl. rewrite Hl, Hopen. done.
Qed.
End lifecycle.

(** ** Witnesses *)

(** A network that gives out three listeners. *)
Definition plain_network : Network :=
  {| net_state := gset nat * nat;
     net_Listen st :=
       if decide (st.2 < 3 /\ (st.2 ∉ st.1))
       then (({[st.2]} ∪ st.1, S st.2),
             Ok {| Listener_fd := st.2;
                   Listener_Addr := wildcard_addr (40000 + Z.of_nat st.2) |})
       else (st, Err (errorString "too many open files"));
     net_Close l st := (st.1 ∖ {[Listener_fd l]}, st.2);
     grpc_Stop l st := (st.1 ∖ {[Listener_fd l]}, st.2) |}.

Definition plain_network_laws : @NetworkLaws plain_network.
Proof.
  refine (@Build_NetworkLaws plain_network fst _ _ _ _ _).
  - intros [o n] st' l. cbn. destruct (decide _) as [[_ Hn]|]; [|done]. by intros [= <- <-].
  - intros [o n] st' e. cbn. destruct (decide _); [done|]. by intros [= <- _].
  - intros [o n]. cbn. by destruct (decide _).
  - by intros l [o n].
  - by intros l [o n].
Defined.

Definition two_backends : list Backend :=
  (fun i : nat =>
    {| Backend_ID := "backend-" +:+ Itoa (Z.of_nat i);
       Backend_Listener := {| Listener_fd := i; Listener_Addr := wildcard_addr (40000 + Z.of_nat i) |};
       Backend_Impl := backend_start ("backend-" +:+ Itoa (Z.of_nat i)) |}) <$> [0; 1].

Lemma start_then_stop_witness :
  exists st', @StartBackends plain_network 2 (∅, 0) = (st', Ok two_backends) /\
    @listening plain_network plain_network_laws (@Backends_Stop plain_network two_backends st') = ∅.
Proof.
  exists ({[1]} ∪ ({[0]} ∪ ∅), 2).
  assert (@StartBackends plain_network (Z.of_nat 2) (∅, 0)
    = (({[1]} ∪ ({[0]} ∪ ∅), 2), Ok two_backends)) as Hs by (vm_compute; reflexivity).
  split; [exact Hs|].
  apply (@start_then_stop plain_network plain_network_laws 2 (∅, 0) _ two_backends Hs).
Defined.

Lemma failed_start_leaks_witness :
  exists st2 e bs, @StartBackends plain_network 4 (∅, 0) = (st2, Err e) /\
    @listening plain_network plain_network_laws st2 = fds bs ∪ ∅ /\ length bs = 3.
Proof.
  destruct (@StartBackends plain_network (Z.of_nat 3) (∅, 0)) as [st1 r] eqn:Hs.
  pose proof Hs as Hs'. vm_compute in Hs'. injection Hs' as <- <-. eexists _, _, _.
  refine (@failed_start_leaks plain_network plain_network_laws 3 4 (∅, 0) _ _ _ _
            (le_n 4) Hs eq_refl).
Defined.

(** The stored listener refers to the service [test-service-v1] by the port name
    [grpc]; a slice of another service is around. *)
Definition other_slice : EndpointSlice :=
  {| EndpointSlice_ObjectMeta :=
       {| ObjectMeta_Name := "other-1"; ObjectMeta_Namespace := "default";
          ObjectMeta_ResourceVersion := "7"; ObjectMeta_Labels := {[serviceNameLabel := "other"]} |};
     EndpointSlice_Endpoints := [sample_endpoint "10.0.0.9" "zone-a" None true];
     EndpointSlice_Ports := [] |}.

Local Existing Instance sample_xds.

Lemma fixture_reaches_backends_witness :
  exists slices, BuildEndpointSlices "test-service-v1" "default" two_backends = Ok slices /\
    exists bs vs, @endpointHandler_resolveResource sample_xds ascii_tables sample_lister
        (slices_of (other_slice :: reverse slices))
        (one_name EndpointType "default/test-xds/route/1/backend/0" (Some (sample_node "")))
      = Ok (one_resource EndpointType bs vs).
Proof.
  destruct (@fixture_reaches_backends sample_xds ascii_tables sample_lister (sample_node "")
    (sample_name 1 0) sample_listener sample_backend sample_service two_backends
    [40000; 40001]%Z [other_slice]) as (_ & slices & Hs & Hstored).
  - apply sample_wire.
  - repeat constructor; vm_compute; congruence.
  - reflexivity.
  - reflexivity.
  - reflexivity.
  - reflexivity.
  - apply List.Forall2_cons; [|apply List.Forall2_cons; [|apply List.Forall2_nil]].
    all: split; [split; [discriminate|reflexivity]|reflexivity].
  - discriminate.
  - repeat constructor. intros [_ Hl]. discriminate Hl.
  - exists slices. split; [exact Hs|].
    destruct (Hstored (other_slice :: reverse slices)) as (cla & g & bs & vs & Hr & _).
    + rewrite reverse_Permutation. by rewrite Permutation_cons_append.
    + exists bs, vs. exact Hr.
Defined.
