(* ===== verification/Commands.v ===== *)
(** The command that writes the bootstrap file: [cmd/bootstrapgen/main.go], after
    its flags.

    The file system and its failures are parameters. *)

From Stdlib Require Import Ascii.
From S2P Require Import Prelude GoStrings GoPath GoStrconv Api Errors Json ApplyConfig ApplyJson ApplyDecode Bootstrap.

(** ** The bootstrap file *)

(** The encodings that the tags of [bootstrap/config.go] give. The option
    [omitempty] of a field that is a struct has no effect. *)
Definition Cred_json (c : Cred) : json := JObject (field "type" (JText (Cred_Type c))).

Definition XDSServer_json (s : XDSServer) : json :=
  JObject (field "server_uri" (JText (XDSServer_URI s)) ++
           field "server_features" (JArray (JText <$> XDSServer_Features s)) ++
           field "channel_creds" (JArray (Cred_json <$> XDSServer_Creds s))).

Definition bootstrapLocality_json (l : bootstrapLocality) : json :=
  JObject (field "zone" (JText (bootstrapLocality_Zone l))).

Definition bootstrapNode_json (n : bootstrapNode) : json :=
  JObject (field "id" (JText (bootstrapNode_ID n)) ++
           field "locality" (bootstrapLocality_json (bootstrapNode_Locality n))).

Definition BootstrapConfig_json (c : BootstrapConfig) : json :=
  JObject (field "xds_servers" (JArray (XDSServer_json <$> BootstrapConfig_XDSServers c)) ++
           field "node" (bootstrapNode_json (BootstrapConfig_Node c))).

(** What a reader of the file finds. *)
Definition Cred_decode (j : json) : option Cred :=
  ms ← object_members j;
  t ← decode_value string_decode "" (member "type" ms);
  Some {| Cred_Type := t |}.

Definition XDSServer_decode (j : json) : option XDSServer :=
  ms ← object_members j;
  uri ← decode_value string_decode "" (member "server_uri" ms);
  features ← decode_list string_decode (member "server_features" ms);
  creds ← decode_list Cred_decode (member "channel_creds" ms);
  Some {| XDSServer_URI := uri; XDSServer_Features := features; XDSServer_Creds := creds |}.

Definition bootstrapNode_decode (j : json) : option bootstrapNode :=
  ms ← object_members j;
  id ← decode_value string_decode "" (member "id" ms);
  zone ← decode_value
    (fun j => ms ← object_members j; decode_value string_decode "" (member "zone" ms))
    "" (member "locality" ms);
  Some {| bootstrapNode_ID := id;
          bootstrapNode_Locality := {| bootstrapLocality_Zone := zone |} |}.

Definition BootstrapConfig_decode (j : json) : option BootstrapConfig :=
  ms ← object_members j;
  servers ← decode_list XDSServer_decode (member "xds_servers" ms);
  node ← (member "node" ms ≫= bootstrapNode_decode);
  Some {| BootstrapConfig_XDSServers := servers; BootstrapConfig_Node := node |}.

(** The configuration with its strings as JSON writes them. *)
Definition XDSServer_text (s : XDSServer) : XDSServer :=
  {| XDSServer_URI := json_text (XDSServer_URI s);
     XDSServer_Features := json_text <$> XDSServer_Features s;
     XDSServer_Creds := (fun c => {| Cred_Type := json_text (Cred_Type c) |}) <$> XDSServer_Creds s |}.

Definition BootstrapConfig_text (c : BootstrapConfig) : BootstrapConfig :=
  let n := BootstrapConfig_Node c in
  {| BootstrapConfig_XDSServers := XDSServer_text <$> BootstrapConfig_XDSServers c;
     BootstrapConfig_Node :=
       {| bootstrapNode_ID := json_text (bootstrapNode_ID n);
          bootstrapNode_Locality :=
            {| bootstrapLocality_Zone :=
                 json_text (bootstrapLocality_Zone (bootstrapNode_Locality n)) |} |} |}.

Lemma mapM_read {A B} (dec : json -> option A) (enc : B -> json) (val : B -> A) l :
  (forall x, dec (enc x) = Some (val x)) -> mapM dec (enc <$> l) = Some (val <$> l).
Proof. intros Hd. induction l as [|x l IH]; cbn; [done|]. by rewrite Hd, IH. Qed.

(** Look up the members of an object that is written out. *)
Ltac read_members :=
  cbn -[mapM fmap];
  repeat (first [rewrite decide_True by done|rewrite decide_False by done]; cbn -[mapM fmap]).

Lemma XDSServer_decode_json s : XDSServer_decode (XDSServer_json s) = Some (XDSServer_text s).
Proof.
  destruct s as [uri features creds]. unfold XDSServer_decode, XDSServer_json. read_members.
  rewrite (mapM_read string_decode JText json_text) by done. cbn -[mapM fmap].
  rewrite (mapM_read Cred_decode Cred_json (fun c => {| Cred_Type := json_text (Cred_Type c) |}))
    by (by intros []).
  done.
Qed.

Lemma BootstrapConfig_decode_json c :
  BootstrapConfig_decode (BootstrapConfig_json c) = Some (BootstrapConfig_text c).
Proof.
  destruct c as [servers [id [zone]]]. unfold BootstrapConfig_decode, BootstrapConfig_json. read_members.
  by rewrite (mapM_read XDSServer_decode XDSServer_json XDSServer_text) by apply XDSServer_decode_json.
Qed.

(** A file holds a document, or part of one. *)
Inductive content := Document (j : json) | Partial.

Section bootstrapgen_main.
Context `{Host, UnicodeTables} (os_Create write_error : string -> option error).

(** [main] of [cmd/bootstrapgen]: the files after it, and the error of
    [log.Fatal]. [os.Create] truncates the file. *)
Definition bootstrapgen_main (serverURI out provider : string) (files : gmap string content)
  : gmap string content * M unit :=
  match bootstrapgen serverURI provider with
  | Err e => (files, Err e)
  | Panic p => (files, Panic p)
  | Ok cfg =>
      match os_Create out with
      | Some e => (files, Err e)
      | None =>
          match write_error out with
          | Some e => (<[out := Partial]> files, Err e)
          | None => (<[out := Document (BootstrapConfig_json cfg)]> files, Ok tt)
          end
      end
  end.

(** What [bootstrapgen] leaves on disk. When it succeeds, the file it was
    asked to write holds the encoding of the configuration, from which a reader
    gets the configuration back (its strings as valid UTF-8), and no other file
    has changed. When it fails
    to make the configuration or to create the file, nothing has changed; a
    failure while it writes is the only one that costs the previous content. *)
Theorem bootstrapgen_file serverURI out provider files :
  match bootstrapgen_main serverURI out provider files with
  | (files', Ok _) =>
      exists cfg j, bootstrapgen serverURI provider = Ok cfg /\
        files' = <[out := Document j]> files /\
        BootstrapConfig_decode j = Some (BootstrapConfig_text cfg)
  | (files', Err e) =>
      files' = files \/
      (files' = <[out := Partial]> files /\ write_error out = Some e /\
       exists cfg, bootstrapgen serverURI provider = Ok cfg)
  | (files', Panic _) => files' = files
  end.
Proof.
  unfold bootstrapgen_main. destruct (bootstrapgen serverURI provider) as [cfg|e|p]; [|by left|done].
  destruct (os_Create out); [by left|]. destruct (write_error out) eqn:Hw; [right; eauto|].
  eexists _, _. split; [done|]. split; [done|]. apply BootstrapConfig_decode_json.
Qed.
End bootstrapgen_main.

(** The member that holds the locality of the node. *)
Definition locality_member (j : json) : option json :=
  ms ← object_members j;
  node ← member "node" ms;
  ns ← object_members node;
  member "locality" ns.

(** The tag [omitempty] of the locality of a node has no effect: the
    configuration of a client without a zone names an empty zone. *)
Theorem empty_zone_is_written cfg :
  bootstrapLocality_Zone (bootstrapNode_Locality (BootstrapConfig_Node cfg)) = "" ->
  locality_member (BootstrapConfig_json cfg) = Some (JObject [("zone", JString "")]).
Proof. destruct cfg as [servers [id [zone]]]. cbn. intros ->. reflexivity. Qed.

(** ** Witnesses *)

Lemma empty_zone_is_written_witness :
  let cfg := {| BootstrapConfig_XDSServers := [];
                BootstrapConfig_Node :=
                  {| bootstrapNode_ID := "client-0";
                     bootstrapNode_Locality := {| bootstrapLocality_Zone := "" |} |} |} in
  locality_member (BootstrapConfig_json cfg) = Some (JObject [("zone", JString "")]).
Proof. apply empty_zone_is_written. reflexivity. Defined.

Example bootstrapgen_main_env :
  (@bootstrapgen_main sample_host ascii_tables (fun _ => None) (fun _ => None)
     "gtc:16000" "./bootstrap.json" "env" ∅).1 =
  {[ "./bootstrap.json" := Document (JObject
       [("xds_servers", JArray [JObject [("server_uri", JString "gtc:16000");
           ("server_features", JArray [JString "xds_v3"]);
           ("channel_creds", JArray [JObject [("type", JString "insecure")]])]]);
        ("node", JObject [("id", JString "client-0");
                          ("locality", JObject [("zone", JString "zone-a")])])]) ]}.
Proof. vm_compute. reflexivity. Qed.
