(* ===== verification/CommandLine.v ===== *)
(** The command lines of [cmd/controller] and [cmd/bootstrapgen]: the flags that
    their [main]s declare, and what the processes do with their arguments. *)

From S2P Require Import Prelude GoStrings GoPath GoStrconv GoFlags Api Errors Xds Json ApplyConfig ApplyJson ApplyDecode.
From S2P Require Import Clientset ClientConfig Informers GtcInformers Server Bootstrap Commands.

(** ** [cmd/bootstrapgen] *)

Record bootstrapgen_vars := {
  bootstrapgen_out : string;
  bootstrapgen_serverURI : string;
  bootstrapgen_provider : string
}.

Definition bootstrapgen_defaults : bootstrapgen_vars :=
  {| bootstrapgen_out := "./bootstrap.json"; bootstrapgen_serverURI := "";
     bootstrapgen_provider := ProviderTypeEnv |}.

Definition bootstrapgen_flags : gmap string (flag bootstrapgen_vars) :=
  {[ "server-uri" := StringVar (fun v st =>
       {| bootstrapgen_out := bootstrapgen_out st; bootstrapgen_serverURI := v;
          bootstrapgen_provider := bootstrapgen_provider st |});
     "out" := StringVar (fun v st =>
       {| bootstrapgen_out := v; bootstrapgen_serverURI := bootstrapgen_serverURI st;
          bootstrapgen_provider := bootstrapgen_provider st |});
     "provider" := StringVar (fun v st =>
       {| bootstrapgen_out := bootstrapgen_out st;
          bootstrapgen_serverURI := bootstrapgen_serverURI st; bootstrapgen_provider := v |}) ]}.

(** How a process ends, or goes on. *)
Inductive process (A : Type) := Ran (result : A) | Usage (status : Z).
Arguments Ran {A}.
Arguments Usage {A}.

Section bootstrapgen.
Context `{Host, UnicodeTables} (os_Create write_error : string -> option error).

Definition bootstrapgen_process (args : list string) (files : gmap string content)
  : process (gmap string content * M unit) :=
  match Parse bootstrapgen_flags args bootstrapgen_defaults with
  | Exited status => Usage status
  | Parsed st _ =>
      Ran (bootstrapgen_main os_Create write_error (bootstrapgen_serverURI st)
             (bootstrapgen_out st) (bootstrapgen_provider st) files)
  end.
End bootstrapgen.

(** ** [cmd/controller] *)

Record controller_vars := {
  controller_xdsAddr : string;
  controller_httpAddr : string;
  controller_logLevel : string
}.

Definition controller_defaults : controller_vars :=
  {| controller_xdsAddr := ":18000"; controller_httpAddr := ":8081";
     controller_logLevel := "info" |}.

Definition controller_flags : gmap string (flag controller_vars) :=
  {[ "xds-bind-address" := StringVar (fun v st =>
       {| controller_xdsAddr := v; controller_httpAddr := controller_httpAddr st;
          controller_logLevel := controller_logLevel st |});
     "http-bind-address" := StringVar (fun v st =>
       {| controller_xdsAddr := controller_xdsAddr st; controller_httpAddr := v;
          controller_logLevel := controller_logLevel st |});
     "log-level" := StringVar (fun v st =>
       {| controller_xdsAddr := controller_xdsAddr st;
          controller_httpAddr := controller_httpAddr st; controller_logLevel := v |}) ]}.

(** What [main] does after the flags: [run] for two addresses, with the logger
    of a level; [zap.Must] panics when the logger cannot be built. *)
Definition controller_process {R} (build : zapConfig -> M unit) (run : string -> string -> R)
    (args : list string) : process (M R) :=
  match Parse controller_flags args controller_defaults with
  | Exited status => Usage status
  | Parsed st _ =>
      Ran (match build (newLogger (controller_logLevel st)) with
           | Ok _ => Ok (run (controller_xdsAddr st) (controller_httpAddr st))
           | Err _ => Panic (PanicValue "zap.Must")
           | Panic p => Panic p
           end)
  end.

(** ** Lemmas *)

(** The value of a flag: the last one that was written, or the default. *)
Definition last_value (name default : string) (l : list assignment) : string :=
  foldl (fun d a => if decide (assignment_name a = name) then assignment_value a else d) default l.

Definition written_vars (l : list assignment) : list string := l ≫= written.

Definition known (names : list string) (a : assignment) : bool :=
  bool_decide (assignment_name a ∈ names).

Lemma known_cons n names a :
  known (n :: names) a = true -> assignment_name a = n \/ known names a = true.
Proof. unfold known. rewrite !bool_decide_eq_true, elem_of_cons. naive_solver. Qed.

Definition bootstrapgen_names : list string := ["server-uri"; "out"; "provider"].
Definition controller_names : list string := ["xds-bind-address"; "http-bind-address"; "log-level"].

Lemma known_three n1 n2 n3 a :
  known [n1; n2; n3] a = true ->
  assignment_name a = n1 \/ assignment_name a = n2 \/ assignment_name a = n3.
Proof. intros [?|[?|[?|Hn]%known_cons]%known_cons]%known_cons; eauto. done. Qed.

Lemma bootstrapgen_ok a :
  known bootstrapgen_names a = true -> assignment_ok bootstrapgen_flags a.
Proof.
  intros [Hn|[Hn|Hn]]%known_three; split; rewrite ?Hn; try done;
    (eexists; split; [reflexivity|]; by destruct a).
Qed.

Lemma controller_ok a : known controller_names a = true -> assignment_ok controller_flags a.
Proof.
  intros [Hn|[Hn|Hn]]%known_three; split; rewrite ?Hn; try done;
    (eexists; split; [reflexivity|]; by destruct a).
Qed.

Lemma bootstrapgen_assign_one a st :
  known bootstrapgen_names a = true ->
  assign bootstrapgen_flags a st =
    Some {| bootstrapgen_out := (if decide (assignment_name a = "out") then assignment_value a else bootstrapgen_out st);
            bootstrapgen_serverURI := (if decide (assignment_name a = "server-uri") then assignment_value a else bootstrapgen_serverURI st);
            bootstrapgen_provider := (if decide (assignment_name a = "provider") then assignment_value a else bootstrapgen_provider st) |}.
Proof.
  intros [Hn|[Hn|Hn]]%known_three; unfold assign; rewrite Hn; by destruct st.
Qed.

Lemma bootstrapgen_assign l st :
  Forall (fun a => known bootstrapgen_names a = true) l ->
  assign_all bootstrapgen_flags l st =
    Some {| bootstrapgen_out := last_value "out" (bootstrapgen_out st) l;
            bootstrapgen_serverURI := last_value "server-uri" (bootstrapgen_serverURI st) l;
            bootstrapgen_provider := last_value "provider" (bootstrapgen_provider st) l |}.
Proof.
  intros Hl. revert st. induction Hl as [|a l Ha _ IH]; intros st; [by destruct st|].
  cbn [assign_all]. rewrite bootstrapgen_assign_one by done. cbn [mbind option_bind]. by rewrite IH.
Qed.

Lemma controller_assign_one a st :
  known controller_names a = true ->
  assign controller_flags a st =
    Some {| controller_xdsAddr := (if decide (assignment_name a = "xds-bind-address") then assignment_value a else controller_xdsAddr st);
            controller_httpAddr := (if decide (assignment_name a = "http-bind-address") then assignment_value a else controller_httpAddr st);
            controller_logLevel := (if decide (assignment_name a = "log-level") then assignment_value a else controller_logLevel st) |}.
Proof.
  intros [Hn|[Hn|Hn]]%known_three; unfold assign; rewrite Hn; by destruct st.
Qed.

Lemma controller_assign l st :
  Forall (fun a => known controller_names a = true) l ->
  assign_all controller_flags l st =
    Some {| controller_xdsAddr := last_value "xds-bind-address" (controller_xdsAddr st) l;
            controller_httpAddr := last_value "http-bind-address" (controller_httpAddr st) l;
            controller_logLevel := last_value "log-level" (controller_logLevel st) l |}.
Proof.
  intros Hl. revert st. induction Hl as [|a l Ha _ IH]; intros st; [by destruct st|].
  cbn [assign_all]. rewrite controller_assign_one by done. cbn [mbind option_bind]. by rewrite IH.
Qed.

(** ** Properties *)

(** C35: the command lines mean what they say. When the flags of a command are
    written in any order, with one minus sign or two, in one argument or in two,
    any number of times, and are followed by nothing, by an argument that is no
    flag or by the terminator [--], the process [bootstrapgen] does what its
    [main] does for the last value of each flag, or for its default; the
    controller runs with the last addresses, or their defaults, if the logger of
    the level that was chosen can be built, and panics otherwise. *)
Theorem command_lines `{Host, UnicodeTables} {R} os_Create write_error
    (build : zapConfig -> M unit) (run : string -> string -> R) l rest files :
  ends_flags rest = true ->
  (Forall (fun a => known bootstrapgen_names a = true) l ->
   bootstrapgen_process os_Create write_error (written_vars l ++ rest) files
     = Ran (bootstrapgen_main os_Create write_error (last_value "server-uri" "" l)
              (last_value "out" "./bootstrap.json" l) (last_value "provider" "env" l) files)) /\
  (Forall (fun a => known controller_names a = true) l ->
   let logger := build (newLogger (last_value "log-level" "info" l)) in
   (logger = Ok tt ->
    controller_process build run (written_vars l ++ rest)
      = Ran (Ok (run (last_value "xds-bind-address" ":18000" l)
                     (last_value "http-bind-address" ":8081" l)))) /\
   (is_ok logger = false ->
    exists p, controller_process build run (written_vars l ++ rest) = Ran (Panic p))).
Proof.
  intros Hrest. split.
  - intros Hl. unfold bootstrapgen_process, written_vars.
    by destruct (Parse_assignments _ l rest _ _ (Forall_impl _ _ _ Hl bootstrapgen_ok) Hrest
      (bootstrapgen_assign l bootstrapgen_defaults Hl)) as [left ->].
  - intros Hl logger. unfold controller_process, written_vars.
    destruct (Parse_assignments _ l rest _ _ (Forall_impl _ _ _ Hl controller_ok) Hrest
      (controller_assign l controller_defaults Hl)) as [left ->]. cbn -[last_value]. fold logger.
    destruct logger as [[]|e|p]; split; try done; eauto.
Qed.

(** A flag that does not exist ends the process with the status 2, a request for
    help with the status 0, and nothing has been done. *)
Example unknown_flag_exits {R} (build : zapConfig -> M unit) (run : string -> string -> R) :
  controller_process build run ["-log-level=debug"; "--metrics-address"; ":9000"] = Usage 2 /\
  controller_process build run ["-h"] = Usage 0.
Proof. split; reflexivity. Qed.

(** ** Witnesses *)

Definition sample_line : list assignment :=
  [Joined false "server-uri" "gtc:1"; Separate true "out" "/tmp/b.json";
   Joined true "server-uri" "gtc:16000"].

Lemma command_lines_witness :
  @bootstrapgen_process sample_host ascii_tables (fun _ => None) (fun _ => None)
    ["-server-uri=gtc:1"; "--out"; "/tmp/b.json"; "--server-uri=gtc:16000"; "--"; "-x"] ∅
  = Ran (@bootstrapgen_main sample_host ascii_tables (fun _ => None) (fun _ => None)
           "gtc:16000" "/tmp/b.json" "env" ∅) /\
  controller_process (fun _ => Ok tt) pair [] = Ran (Ok (":18000", ":8081")).
Proof.
  split.
  - apply (@command_lines sample_host ascii_tables nat (fun _ => None) (fun _ => None)
      (fun _ => Ok tt) (fun _ _ => 0) sample_line ["--"; "-x"] ∅ eq_refl).
    repeat apply Forall_cons_2; [reflexivity..|apply Forall_nil_2].
  - apply (@command_lines sample_host ascii_tables (string * string) (fun _ => None)
      (fun _ => None) (fun _ => Ok tt) pair [] [] ∅ eq_refl); [apply Forall_nil_2|reflexivity].
Defined.
