(* ===== verification/TestStart.v ===== *)
(** How an end-to-end test gets going: [FakeK8s.Start] of
    [pkg/testruntime/k8s.go] on the informers of a server, and the connections
    that [pkg/testruntime/assert.go] opens. *)

From S2P Require Import Prelude GoStrings GoPath GoStrconv Api Errors Xds Json ApplyConfig ApplyJson ApplyDecode.
From S2P Require Import Clientset ClientConfig Informers GtcInformers Server K8s EchoServer TestAssert TestCluster.

(** ** Connections *)

(** [grpc.Dial] and [ClientConn.Close] are grpc-go's. *)
Class Dialer := {
  ClientConn : Type;
  grpc_Dial : string -> M ClientConn;
  ClientConn_Close : ClientConn -> option error
}.

Section connections.
Context `{Dialer} {St : Type} (Invoke : ClientConn -> string -> EchoRequest -> St -> St * M EchoReply).

(** [type CallContext struct]; the client is the stubs over the connection. *)
Record CallContext := { CallContext_addr : string; CallContext_conn : ClientConn }.

Definition CallContext_Close (c : CallContext) : option error :=
  ClientConn_Close (CallContext_conn c).

(** [func DefaultCallContext] *)
Definition DefaultCallContext (addr : string) (t : T) : T * (ended * option CallContext) :=
  match grpc_Dial addr with
  | Ok conn => (t, (Continue, Some {| CallContext_addr := addr; CallContext_conn := conn |}))
  | Err _ => let '(t', e) := require_that false t in (t', (e, None))
  | Panic p => (t, (Panicked p, None))
  end.

(** [MethodEcho] and [MethodEchoPremium]: what a [Method] does with the client. *)
Definition Method_call (m : method) (c : CallContext) (req : EchoRequest) (st : St)
  : St * M EchoReply :=
  match m with
  | MethodEcho => echoClient_Echo (Invoke (CallContext_conn c)) req st
  | MethodEchoPremium => echoClient_EchoPremium (Invoke (CallContext_conn c)) req st
  end.
End connections.

(** ** The fake cluster *)

Section start.
Context `{KubeInformers} (kube_WaitForCacheSync : kube_state -> list (string * bool))
  (synced : informer -> bool) (range : gmap objType bool -> list (string * bool)).

(** [func (f *FakeK8s) Start]: the factory of client-go first. A factory reports
    the informers that it has started; [range] is the order of the report. *)
Definition FakeK8s_Start (t : T) (c : cluster) : T * cluster * ended :=
  let c := with_kube (kube_Start (cluster_kube c)) c in
  let c := with_gtc (on_factory Start (cluster_gtc c)) c in
  match require_that (is_ok (checkInformerSync (kube_WaitForCacheSync (cluster_kube c)))) t with
  | (t, Continue) =>
      let '(t, e) := require_that (is_ok (checkInformerSync
        (range (WaitForCacheSync synced (world_factory (cluster_gtc c)))))) t in (t, c, e)
  | (t, e) => (t, c, e)
  end.

(** ** Lemmas *)

(** All informers of a report synced. *)
Definition all_synced (l : list (string * bool)) : bool :=
  bool_decide (l <> []) && forallb snd l.

Lemma checkInformerSync_spec l : is_ok (checkInformerSync l) = all_synced l.
Proof.
  unfold checkInformerSync, all_synced. destruct l as [|tb l]; [done|].
  rewrite decide_False, bool_decide_true by done. cbn [andb]. generalize (tb :: l). clear.
  intros l. induction l as [|[ty b] l IH]; [done|]. cbn. by destruct b.
Qed.

(** The reports of the GTC factory, in any order. *)
Context (range_report : forall m p, p ∈ range m <-> p ∈ map_to_list m).

Lemma range_empty : range ∅ = [].
Proof.
  destruct (range ∅) as [|p l] eqn:Hr; [done|].
  assert (p ∈ range ∅) as Hp by (rewrite Hr; by left).
  apply range_report in Hp. rewrite map_to_list_empty in Hp. by apply elem_of_nil in Hp.
Qed.

Lemma all_synced_range (m : gmap objType bool) t :
  m !! t = Some true -> map_Forall (fun _ b => b = true) m -> all_synced (range m) = true.
Proof.
  intros Ht Hall. apply andb_true_iff. split.
  - apply bool_decide_eq_true. intros Hr.
    apply elem_of_map_to_list, range_report in Ht. rewrite Hr in Ht. by apply elem_of_nil in Ht.
  - apply forallb_forall. intros [t' b] Hin%list_elem_of_In%range_report%elem_of_map_to_list.
    cbn. by apply (Hall t').
Qed.

(** A started factory reports an informer that was asked for. *)
Lemma report_started f t i :
  factory_inv f -> factory_shuttingDown f = false -> factory_informers f !! t = Some i ->
  (forall j, synced j = true) ->
  all_synced (range (WaitForCacheSync synced (Start f))) = true.
Proof.
  intros Hf Hs Hi Hsync. destruct (Start_inv f Hf) as (Hf' & Hinf & Hst).
  apply (all_synced_range _ t).
  - unfold WaitForCacheSync. rewrite lookup_fmap, map_lookup_filter_Some_2 with (x := i);
      [cbn; by rewrite Hsync|by rewrite Hinf|]. cbn.
    assert (factory_startedInformers (Start f) !! t = Some true) as ->; [|done].
    apply (fi_started _ Hf'). exists i. by apply Hst.
  - intros t' b. unfold WaitForCacheSync. rewrite lookup_fmap.
    intros (j & _ & ->)%fmap_Some. apply Hsync.
Qed.
End start.

(** ** Properties *)

(** A fake cluster starts once a server uses it. After [NewXDSServer] has
    returned a server, the factory of GRPC listeners has an informer to report,
    and [FakeK8s.Start] lets the test go on when client-go's factory reports its
    informers as synced and the informer of listeners syncs; the informer that
    the server reads has then been started. Without a server nobody has asked for
    an informer, and the test stops: the report is empty. *)
Theorem fake_cluster_needs_server `{KubeInformersLaws} kube_WaitForCacheSync synced range
    gtc_AddEventHandler resync bindAddr k n t :
  (forall m p, p ∈ range m <-> p ∈ map_to_list m) ->
  (forall j, synced j = true) ->
  let c := {| cluster_gtc := new_world resync []; cluster_gtc_handlers := []; cluster_kube := k;
              cluster_watches := n |} in
  (forall c' s, NewXDSServer gtc_AddEventHandler bindAddr c = (c', Ok s) ->
     all_synced (kube_WaitForCacheSync (kube_Start (cluster_kube c'))) = true ->
     exists c'', FakeK8s_Start kube_WaitForCacheSync synced range t c' = (t, c'', Continue) /\
       ("GRPCListener", configWatcher_grpcListeners (XDSServer_ads s))
         ∈ factory_started (world_factory (cluster_gtc c'')) /\
       configWatcher_endpointSlices (XDSServer_ads s) ∈ kube_running (cluster_kube c'')) /\
  exists c'', FakeK8s_Start kube_WaitForCacheSync synced range t c = (T_Fail t, c'', FailNow).
Proof.
  intros Hrange Hsync c. split.
  - intros c' s Hn Hkube. pose proof (NewXDSServer_spec gtc_AddEventHandler _ bindAddr c
      (new_world_unstarted resync)) as Hs. rewrite Hn in Hs.
    destruct Hs as ([Hw Hf Hr _] & _ & Hs).
    destruct (Hs s eq_refl) as (Hi & _ & _ & Hl & _ & _ & _ & Hk & _).
    eexists. unfold FakeK8s_Start. rewrite !checkInformerSync_spec. cbn [cluster_kube with_kube with_gtc].
    rewrite Hkube. cbn [require_that].
    match goal with |- context [WaitForCacheSync synced ?f] =>
      change f with (Start (world_factory (cluster_gtc c'))) end.
    rewrite (report_started _ _ Hrange _ _ _ Hf Hr Hi Hsync). split; [reflexivity|].
    split; [|by apply kube_Start_runs]. rewrite Hl. by apply (Start_inv _ Hf).
  - unfold FakeK8s_Start. rewrite !checkInformerSync_spec.
    destruct (all_synced _); cbn [require_that]; [|eexists; reflexivity].
    assert (range (WaitForCacheSync synced (world_factory (cluster_gtc
      (with_gtc (on_factory Start (cluster_gtc (with_kube (kube_Start (cluster_kube c)) c)))
         (with_kube (kube_Start (cluster_kube c)) c))))) = []) as Hr.
    { assert (WaitForCacheSync synced (Start (new_factory resync [])) = ∅) as He by reflexivity.
      cbn -[WaitForCacheSync new_factory Start]. rewrite He. by apply range_empty. }
    rewrite Hr. cbn. eexists. reflexivity.
Qed.

(** ** Witnesses *)

Lemma fake_cluster_needs_server_witness :
  let start := @FakeK8s_Start plain_informers
    (fun k => if pk_made k then [("EndpointSlice", true)] else []) (fun _ => true) map_to_list in
  let t := {| T_failed := false; T_now := 0 |} in
  exists c' s c'',
    @NewXDSServer plain_informers (fun _ => None) ":18000"
      (@Build_cluster plain_informers (new_world 0 []) [] no_informers 3) = (c', Ok s) /\
    start t c' = (t, c'', Continue).
Proof.
  intros start t.
  destruct (@NewXDSServer plain_informers (fun _ => None) ":18000"
    (@Build_cluster plain_informers (new_world 0 []) [] no_informers 3)) as [c' r] eqn:Hn.
  destruct r as [s|e|p]; [|vm_compute in Hn; discriminate Hn..].
  pose proof (proj1 (@fake_cluster_needs_server plain_informers plain_informers_laws
    (fun k => if pk_made k then [("EndpointSlice", true)] else []) (fun _ => true) map_to_list
    (fun _ => None) 0 ":18000" no_informers 3 t (fun m p => iff_refl _) (fun _ => eq_refl))
    c' s Hn) as Hstart.
  exists c', s. destruct Hstart as (c'' & Hc & _).
  { vm_compute in Hn. injection Hn as <- _. reflexivity. }
  exists c''. split; [reflexivity|exact Hc].
Defined.
